(* ===== verification/_CoqProject ===== *)
-Q . S2P
Prelude.v
GoStrings.v
GoOS.v
Params.v
Kube.v
Scheme.v
ApiTypes.v
KubeStore.v
Runtimes.v
Finalization.v
Request.v
Namespace.v
Dependencies.v
Releases.v
GoMem.v
ApiMem.v
DeepCopy.v
Deploy.v
OperandTLS.v
Workdir.v
CopySafety.v
Sha256.v
Manifests.v
Rendering.v
Containment.v
Interruption.v
Image.v
TlsProfile.v
Flags.v
Reconciler.v
Main.v
Managed.v
System.v
Liveness.v
Recovery.v
Persistence.v
Resilience.v
Rbac.v
RbacRules.v
Permissions.v
