(* ===== verification/Prelude.v ===== *)
(** * A verification of the trainer operator

    The trainer operator is a Kubernetes operator: for the one [Trainer]
    resource it checks that the cluster has what Kubeflow Trainer needs, renders
    the upstream manifests with kustomize, applies them, and cleans up when the
    resource is deleted.  This development models its Go code as functions on
    explicit states and proves what the code promises.

    ** The parts of the program and their models

    - [internal/controller/params.go]: file [Params].  [readParams],
      [writeParams], [applyParamOverrides] and [applyStaticParams] as runs on the
      file system of [GoOS].
    - [internal/controller/manifests.go]: the work directories ([ensureWorkDir],
      [copyDir], [copyFile]) in file [Workdir]; rendering, filtering and the
      injection of the TLS options ([renderOverlay], [filterConfigMaps],
      [applyOperandTLSOptions]) in file [Manifests], with the actions
      [renderManifests] and [renderResourceSet] of [trainer_controller.go]; the
      hash of the configuration is computed by [Sha256].  File [Rendering] puts
      [Params], [Workdir] and [Manifests] together.
    - [internal/controller/dependencies.go] and the action [checkDependencies]:
      file [Dependencies].
    - [internal/controller/trainer_controller.go]: [ensureNamespace] in
      [Namespace]; [updateReleases] and the readers of releases and versions in
      [Releases]; [withImmutableFieldRecovery] in [Deploy]; the finalizers, the
      clean-up of the runtimes and the finalizer action in [Runtimes];
      [NewReconciler], with the builder it configures and the order of the
      actions, in [Reconciler].
    - [internal/tls/operand.go]: file [OperandTLS] ([TranslateProfile]).
      [internal/tls/profile.go] and [internal/tls/metrics.go]: file [TlsProfile].
    - [api/v1alpha1/trainer_types.go]: file [ApiTypes] on values.  The same
      accessors, [zz_generated.deepcopy.go] and the in-place loop of
      [appendOrUpdateRelease] are also modelled where slices and pointers alias:
      [GoMem] is the heap of slices with their backing arrays, [ApiMem] holds the
      accessors and [appendOrUpdateRelease] on it, [DeepCopy] the deep copies.
    - [api/v1alpha1/groupversion_info.go] and the [init] of [cmd/main.go]: file
      [Scheme].
    - [cmd/main.go]: file [Flags], the command line (the registration of the flags
      and [flag.Parse]); file [Main], the start-up as one sequence of steps on the
      files of the container and the state of controller-runtime, and the whole
      process from its arguments to its exit status.

    - The permissions of the operator, the [+kubebuilder:rbac] markers of
      [trainer_controller.go], with the ClusterRole generated from them, the roles
      and objects of the templates under [manifests/] and the validation of the
      [Trainer]: data in file [RbacRules], next to what RBAC means in [Rbac].

    Further files compose these parts: [Finalization] (the finalizer action on a
    cluster that answers), [Managed] (what the label and the namespace of the
    rendered resources are relied on for: the cache of [Main], the clean-up of
    [Runtimes]), [Interruption] (renderings with failing calls), [Image] (the
    templates of the image and the work directories that are copies of them),
    [CopySafety] and
    [Containment] (what a copy, a rewrite and a rendering leave alone, whatever
    fails), [System] (the operator and its surroundings as a transition system),
    [Liveness], [Recovery], [Persistence], [Resilience] (histories of whole
    reconciliations with failing calls on files), and [Permissions] (the actions
    with clients behind an authorizer, what is deployed and watched against
    [RbacRules]).

    The actions of [trainer_controller.go] get a reconciliation request; it is
    the record [request] of file [Request], which holds the cluster, the files,
    the instance, the conditions, the resources and the release of the
    reconciler.  An action is a run on it; the smaller components run on the
    cluster alone ([on_client]) or on the files alone ([on_os]).

    ** How the code is modelled

    - A Go function that returns a value and an error is a [result]; code with
      effects is in the monad [M] of this file, where a state change made before
      an error stays made.  [wrapping] is [fmt.Errorf] with [%w].
    - The standard library is written out where the program depends on what it
      does: string functions, [strconv.ParseInt] and the line scanner of [bufio]
      in [GoStrings]; the package [flag] in [Flags]; files, links, buffered writing, [filepath.Walk] and
      [os.MkdirAll] in [GoOS] and [Workdir]; [crypto/sha256] in [Sha256].  A
      system call may fail at any time: the state carries a schedule of
      failures, and a failing write may have written a part.  Where Go leaves an
      order open (the iteration over a map) the order is a parameter.
      [strconv.Quote] is a parameter: it only shapes error messages.
    - Code of other modules is an interface: the clients, unstructured objects,
      the conditions and the cluster lookups in [Kube], [Semver] in [Request],
      [Kustomize] and [YamlMaps] in [Manifests], [TLSTables] in [OperandTLS],
      [FrameworkTLS] in [TlsProfile], [SchemeOps] in [Scheme],
      [ActionRunner] and [Framework] in [Reconciler],
      [ForeignFlags] in [Flags], [ControllerRuntime] and [WatcherSetup] in [Main],
      [KustomizeReads] in [Containment]; [FinalizerLaws] in [Finalization] is how
      the API server lets objects go, and [Labelled], [KustomizeLaws],
      [ManagerCache] and [SelectorLaws] in [Managed] are labels, scopes and those
      who look at them; [Authorizer], [RESTMapper] and [PlatformClients] in [Rbac] are
      what RBAC allows, the resource of a kind and the lookups of the framework
      behind an authorizer; [KindLaws], [TemplateLaws],
      [DeployLaws] and [ValidationRules] in [Permissions] are what kustomize and
      the framework deploy and what the API server validates.  What kustomize and
      the framework are asked to get right is asked for copies of the templates of
      the image ([Image]) and what is rendered from them, not for any directory
      and any object.  What the theorems
      rely on are the laws of these classes.  [KubeStore] implements the
      Kubernetes interfaces on finite maps, so that the laws are known to hold
      together and the witnesses can run.
    - A client can be traced ([traced]): it behaves as any client does and
      writes down its calls, so that theorems about traces hold for every
      behaviour of the API server.  In the same way clients are put behind an
      authorizer ([enforced_client], [enforced_dynamic], [enforced_lookups]); that this changes nothing
      is an equivalence of runs, [same_run] of this file, which the operations of
      the monad respect.

    ** What the theorems show

    - [Reconciler]: nothing is deployed before the dependencies, the namespace,
      the releases and the rendering succeeded; a missing dependency changes
      nothing but conditions; a failing deployment strips and collects nothing.
    - [Dependencies]: the check is a decision on the facts of the cluster, and
      its error and the Degraded condition always agree.
    - [Runtimes]: the finalizer action keeps its protocol, strips exactly the
      legacy finalizer, converges, and never gets stuck on a failing deletion.
    - [Finalization]: on a cluster that answers it reaches the garbage collector,
      and what is then left of the labelled runtimes waits for others.
    - [Params]: files are rewritten atomically, parsing inverts printing, and
      overrides and static values do what they say.
    - [Workdir]: copying a template is complete and ends; a directory that was
      left incomplete is, however, taken as prepared.
    - [Manifests], [OperandTLS], [TlsProfile]: the TLS profile in force reaches
      the operand's configuration, weak and unknown suites never do, and a
      profile that cannot be translated stops the rendering; in the objects that
      get the options nothing beside them changes.
    - [Rendering]: kustomize reads the template with the parameters in force,
      at the first reconciliation and, without drift, at every later one; the
      order in which Go visits the maps of parameters only shows in the order of
      the lines of the parameter file.
    - [Managed]: what is rendered and deployed is in the manager's cache unless
      APPLICATIONS_NAMESPACE excludes its namespace, and every runtime among it is
      found and let go by the finalizer action.
    - [Flags]: the accepted command lines are the documented ones, and any values of
      the four flags can be given on it.
    - [ApiMem], [DeepCopy]: the setters of the resource copy their argument, the
      in-place update of the releases equals the update of the list, and a deep
      copy shares no memory with its original.
    - [CopySafety], [Containment], [System]: a copy terminates and changes nothing
      outside its target, whatever fails; in every reachable state the operator
      has written in its work directories only, and the status is well typed when
      the metadata file of the image does not name the platform.
    - [Liveness]: on a healthy cluster, with no failing call, a reconciliation
      succeeds, in a fresh container of the image as after any number of earlier
      ones.
    - [Recovery]: a Deployment that the API server refuses to change is replaced
      after at most two reconciliations.
    - [Interruption]: renderings that fail or are killed after the work directory was
      read leave no trace; the next one gives what it would have given.
    - [Persistence]: a work directory is prepared once; nothing in it changes but its
      parameter file, and an interrupted preparation is never completed.
    - [Resilience]: in a history in which any calls fail, only not while a work
      directory is prepared for the first time, the next reconciliation with a
      healthy cluster and working calls succeeds.
    - [Permissions]: with clients and lookups that refuse what the markers do not
      allow, a reconciliation and the finalizer action do the same; what is
      rendered can be applied, the roles of the operand can be created, every
      informer can start, and roles and service accounts can be changed by the
      names of the manifests and by no others, with two exceptions.
    - [Main]: the kinds of the operator, of its dependencies and of its clients are
      registered before it starts; the watcher that shuts it down when the TLS
      profile changes is installed when the profile can be watched; the manager runs only after every step of the start-up succeeded,
      and the exit status says how the process ended; a start in a fresh container
      makes the first rendering possible; a template that is a symbolic link is
      accepted but never copied.
    - [Releases], [Namespace], [Deploy]: the status reports what was read, the
      namespace exists afterwards, and the recovery deletes Deployments only.

    ** Bounds and fuel

    [walk] ([filepath.Walk]) has fuel, one more than the depth of the file
    system at the start of the walk; [copyDir_copies] shows that this is enough
    whenever the target is not inside the source, and [CopySafety] that the walk
    then never runs out of it, whichever calls fail.  [resolve] follows at most 40
    symbolic links, as Linux does.  Symbolic links are followed in the last
    component of a path.  Integers with a width ([int32], the parser's cut-off,
    the words of SHA-256) are kept in [Z] with their width written out.

    ** What is not modelled

    Logging (and the logger that zap's flags configure), permissions of files,
    contexts and timeouts; the evaluation of the predicates and event handlers,
    which the framework does (the builder of [NewReconciler] is data that says
    which ones are installed); test helpers.
    Pod templates and other fields of upstream types are opaque: they are copied
    and compared, never looked into.

    The requests that the framework and the manager make for themselves (leader
    election, the status, the events) are not runs of this model; [Permissions]
    compares the kinds they are for, not their calls, with the markers.  The
    generator that turns markers into [config/rbac/role.yaml], and kustomize, are
    not modelled either: their results in the repository are data.

    This file holds what the components share: errors and results, the monad of
    stateful code with its rules, runs that behave alike, filtering loops, the hint
    database [trainer] and the tactics. *)

From stdpp Require Export base option list gmap strings numbers.

#[export] Set Warnings "-clear-no-such-hyp,-register-all".

Declare Scope trainer_scope.
Delimit Scope trainer_scope with trainer.
Global Open Scope trainer_scope.

#[global] Arguments String.append !_ _ / : simpl nomatch.

(** ** Go errors and results *)

(** A Go [error] value, as far as this program looks at it: a message made
    here ([fmt.Errorf] without [%w]), a value that comes from outside the
    program (its dynamic kind and its message), or a wrapped error
    ([fmt.Errorf("prefix: %w", err)]). *)
Inductive goerror : Type :=
| ErrNew (msg : string)
| ErrForeign (kind msg : string)
| ErrWrap (prefix : string) (inner : goerror).

(** [err.Error()]. *)
Fixpoint Error (e : goerror) : string :=
  match e with
  | ErrNew m => m
  | ErrForeign _ m => m
  | ErrWrap p e' => p +:+ ": " +:+ Error e'
  end.

(** [errors.Unwrap] iterated: the innermost error. *)
Fixpoint Cause (e : goerror) : goerror :=
  match e with
  | ErrWrap _ e' => Cause e'
  | _ => e
  end.

#[export] Instance goerror_eq_dec : EqDecision goerror.
Proof. solve_decision. Defined.

(** A Go function that returns [(A, error)]. *)
Inductive result (A : Type) : Type :=
| Ok (a : A)
| Err (e : goerror).
Arguments Ok {A} a.
Arguments Err {A} e.

#[export] Instance result_eq_dec `{EqDecision A} : EqDecision (result A).
Proof. solve_decision. Defined.

Definition is_ok {A} (r : result A) : bool :=
  match r with Ok _ => true | Err _ => false end.

#[export] Instance result_ret : MRet result := @Ok.
#[export] Instance result_bind : MBind result :=
  λ A B f r, match r with Ok a => f a | Err e => Err e end.
#[export] Instance result_fmap : FMap result :=
  λ A B f r, match r with Ok a => Ok (f a) | Err e => Err e end.

(** [if err != nil { return fmt.Errorf(p + ": %w", err) }]. *)
Definition wrap_err {A} (p : string) (r : result A) : result A :=
  match r with Ok a => Ok a | Err e => Err (ErrWrap p e) end.

(** ** Stateful code *)

(** Code that reads and changes a state [S] and returns [(A, error)].  A
    state change made before an error stays made. *)
Definition M (S A : Type) : Type := S → result A * S.

#[export] Instance M_ret {S} : MRet (M S) := λ A a s, (Ok a, s).
#[export] Instance M_bind {S} : MBind (M S) :=
  λ A B f m s, match m s with
               | (Ok a, s') => f a s'
               | (Err e, s') => (Err e, s')
               end.
#[export] Instance M_fmap {S} : FMap (M S) :=
  λ A B f m s, match m s with
               | (Ok a, s') => (Ok (f a), s')
               | (Err e, s') => (Err e, s')
               end.

Definition throw {S A} (e : goerror) : M S A := λ s, (Err e, s).
Definition get {S} : M S S := λ s, (Ok s, s).
Definition gets {S A} (f : S → A) : M S A := λ s, (Ok (f s), s).
Definition put {S} (s : S) : M S unit := λ _, (Ok tt, s).
Definition modify {S} (f : S → S) : M S unit := λ s, (Ok tt, f s).

(** The error of a call as a value, for the code that inspects [err]. *)
Definition try {S A} (m : M S A) : M S (result A) :=
  λ s, let '(r, s') := m s in (Ok r, s').

(** A pure [(A, error)] value in stateful code. *)
Definition lift {S A} (r : result A) : M S A := λ s, (r, s).

(** [if err != nil { return fmt.Errorf(p + ": %w", err) }] after a call. *)
Definition wrapping {S A} (p : string) (m : M S A) : M S A :=
  λ s, let '(r, s') := m s in (wrap_err p r, s').

(** Code that only touches one part of the state. *)
Definition zoom {T S A} (getter : T → S) (setter : S → T → T) (m : M S A) : M T A :=
  λ t, let '(r, s') := m (getter t) in (r, setter s' t).

(** [for _, x := range l { ... }] where the body may return an error. *)
Fixpoint forM {S A} (l : list A) (f : A → M S unit) : M S unit :=
  match l with
  | [] => mret tt
  | x :: l' => f x ;; forM l' f
  end.

(** ** Tactics and hints *)

Create HintDb trainer discriminated.

(** Reduce the monadic plumbing around a call without unfolding the calls. *)
Ltac msimpl :=
  cbn [mret mbind fmap M_ret M_bind M_fmap result_ret result_bind result_fmap
       throw get gets put modify try lift wrapping wrap_err forM is_ok] in *.

Ltac munfold :=
  unfold throw, get, gets, put, modify, try, lift, wrapping, zoom,
    mret, M_ret, mbind, M_bind, fmap, M_fmap, result_ret, result_bind, result_fmap in *.

(** Case analysis on the call whose result the goal or a hypothesis matches on. *)
Ltac mcase :=
  match goal with
  | |- context [match ?x with (_, _) => _ end] =>
      let r := fresh "r" in let s := fresh "s" in
      destruct x as [r s] eqn:?; try (destruct r)
  | |- context [match ?x with Ok _ => _ | Err _ => _ end] => destruct x eqn:?
  | H : context [match ?x with (_, _) => _ end] |- _ =>
      let r := fresh "r" in let s := fresh "s" in
      destruct x as [r s] eqn:?; try (destruct r)
  | H : context [match ?x with Ok _ => _ | Err _ => _ end] |- _ => destruct x eqn:?
  end; msimpl; simplify_eq.

(** ** Reasoning about stateful code *)

Section monad.
Context {S : Type}.

(** [runs P m Q E]: from a state with [P], [m] either returns [a] in a state
    with [Q a], or fails with [e] in a state with [E e]. *)
Definition runs {A} (P : S → Prop) (m : M S A) (Q : A → S → Prop) (E : goerror → S → Prop) : Prop :=
  ∀ s, P s → match m s with (Ok a, s') => Q a s' | (Err e, s') => E e s' end.

(** [preserves I m]: every run of [m], failed or not, keeps the relation [I]
    between the state before and the state after. *)
Definition preserves {A} (R : S → S → Prop) (m : M S A) : Prop :=
  ∀ s, R s (m s).2.

Lemma bind_ok {A B} (m : M S A) (f : A → M S B) s a s' :
  m s = (Ok a, s') → (m ≫= f) s = f a s'.
Proof. intros H. unfold mbind, M_bind. by rewrite H. Qed.

Lemma bind_err {A B} (m : M S A) (f : A → M S B) s e s' :
  m s = (Err e, s') → (m ≫= f) s = (Err e, s').
Proof. intros H. unfold mbind, M_bind. by rewrite H. Qed.

Lemma bind_ok_inv {A B} (m : M S A) (f : A → M S B) s b s' :
  (m ≫= f) s = (Ok b, s') → ∃ a s1, m s = (Ok a, s1) ∧ f a s1 = (Ok b, s').
Proof.
  unfold mbind, M_bind. destruct (m s) as [[a|e] s1] eqn:E; intros H; [|done].
  by exists a, s1.
Qed.

Lemma try_bind {A B} (m : M S A) (f : result A → M S B) s :
  (r ← try m; f r) s = f (m s).1 (m s).2.
Proof. unfold try. unfold mbind, M_bind. by destruct (m s). Qed.

Lemma forM_nil {A} (f : A → M S unit) s : forM [] f s = (Ok tt, s).
Proof. done. Qed.

Lemma forM_cons {A} (x : A) l (f : A → M S unit) s :
  forM (x :: l) f s =
    match f x s with (Ok _, s') => forM l f s' | (Err e, s') => (Err e, s') end.
Proof. done. Qed.

Lemma forM_app {A} (l1 l2 : list A) (f : A → M S unit) s :
  forM (l1 ++ l2) f s =
    match forM l1 f s with (Ok _, s') => forM l2 f s' | (Err e, s') => (Err e, s') end.
Proof.
  revert s. induction l1 as [|x l1 IH]; intros s; [done|].
  cbn [app]. rewrite !forM_cons. by destruct (f x s) as [[?|?] ?].
Qed.

(** A reflexive and transitive relation that every iteration keeps is kept by
    the loop, whether or not it stops early. *)
Lemma forM_preserves {A} (R : S → S → Prop) `{!Reflexive R, !Transitive R}
    (l : list A) (f : A → M S unit) :
  (∀ x, x ∈ l → preserves R (f x)) → preserves R (forM l f).
Proof.
  intros Hf s. revert s Hf. induction l as [|x l IH]; intros s Hf; [done|].
  rewrite forM_cons. pose proof (Hf x (list_elem_of_here _ _) s) as Hx.
  destruct (f x s) as [[u|e] s1] eqn:E; cbn in *; [|done].
  transitivity s1; [done|]. apply IH. intros y Hy. apply Hf. by apply list_elem_of_further.
Qed.

(** Loop rule: [I done s] after the elements [done] were processed. *)
Lemma forM_ok_inv {A} (I : list A → S → Prop) (l : list A) (f : A → M S unit) s s' :
  I [] s →
  (∀ d x r s1 s2, l = d ++ x :: r → I d s1 → f x s1 = (Ok tt, s2) → I (d ++ [x]) s2) →
  forM l f s = (Ok tt, s') → I l s'.
Proof.
  intros H0 Hstep.
  cut (∀ d r, l = d ++ r → ∀ s1, I d s1 → forM r f s1 = (Ok tt, s') → I l s').
  { intros Hc. by apply (Hc [] l). }
  intros d r. revert d. induction r as [|x r IH]; intros d Hl s1 Hd Hrun.
  - rewrite app_nil_r in Hl. subst d. rewrite forM_nil in Hrun. by simplify_eq.
  - rewrite forM_cons in Hrun. destruct (f x s1) as [[[]|e] s2] eqn:E; [|done].
    apply (IH (d ++ [x])) with (s1 := s2); [by rewrite <-app_assoc| |done]. by eapply Hstep.
Qed.

(** A loop that cannot fail, with an invariant over what was visited. *)
Lemma forM_visits {A} (I : list A → S → Prop) (l : list A) (f : A → M S unit) s :
  I [] s →
  (∀ d x r s1, l = d ++ x :: r → I d s1 → ∃ s2, f x s1 = (Ok tt, s2) ∧ I (d ++ [x]) s2) →
  ∃ s', forM l f s = (Ok tt, s') ∧ I l s'.
Proof.
  intros H0 Hstep.
  cut (∀ r d, l = d ++ r → ∀ s1, I d s1 → ∃ s', forM r f s1 = (Ok tt, s') ∧ I l s').
  { intros Hc. by apply (Hc l []). }
  intros r. induction r as [|x r IH]; intros d Hl s1 HI; [exists s1; by rewrite Hl, app_nil_r|].
  rewrite forM_cons. destruct (Hstep d x r s1 Hl HI) as (s2 & -> & HI2).
  apply (IH (d ++ [x])); [by rewrite <-app_assoc|done].
Qed.

(** A loop whose body never fails never fails. *)
Lemma forM_total {A} (l : list A) (f : A → M S unit) s :
  (∀ x s1, x ∈ l → is_ok (f x s1).1) → is_ok (forM l f s).1.
Proof.
  revert s. induction l as [|x l IH]; intros s Hf; [done|]. rewrite forM_cons.
  pose proof (Hf x s (list_elem_of_here _ _)) as Hx.
  destruct (f x s) as [[[]|e] s1]; [|done]. apply IH. intros y s2 Hy. by apply Hf, list_elem_of_further.
Qed.

(** The form in which a successful run is computed. *)
Lemma run_ok (m : M S unit) s : is_ok (m s).1 = true → m s = (Ok tt, (m s).2).
Proof. by destruct (m s) as [[[]|e] s']. Qed.

Lemma preserves_bind {A B} (R : S → S → Prop) `{!Transitive R}
    (m : M S A) (f : A → M S B) :
  preserves R m → (∀ a, preserves R (f a)) → preserves R (m ≫= f).
Proof.
  intros Hm Hf s. unfold mbind, M_bind. specialize (Hm s).
  destruct (m s) as [[a|e] s1]; cbn in *; [|done].
  transitivity s1; [done|]. apply Hf.
Qed.

Lemma preserves_pure {A} (R : S → S → Prop) `{!Reflexive R} (r : result A) :
  preserves R (lift r).
Proof. intros s. cbn. done. Qed.

Lemma preserves_ret {A} (R : S → S → Prop) `{!Reflexive R} (a : A) :
  preserves R (mret a).
Proof. intros s. cbn. done. Qed.

Lemma preserves_throw {A} (R : S → S → Prop) `{!Reflexive R} e :
  preserves R (throw (A:=A) e).
Proof. intros s. cbn. done. Qed.

Lemma preserves_try {A} (R : S → S → Prop) (m : M S A) :
  preserves R m → preserves R (try m).
Proof. intros Hm s. unfold try. specialize (Hm s). by destruct (m s). Qed.

Lemma preserves_wrapping {A} (R : S → S → Prop) p (m : M S A) :
  preserves R m → preserves R (wrapping p m).
Proof. intros Hm s. unfold wrapping. specialize (Hm s). by destruct (m s). Qed.

Lemma runs_bind {A B} P (m : M S A) (f : A → M S B) R Q E :
  runs P m R E → (∀ a, runs (R a) (f a) Q E) → runs P (m ≫= f) Q E.
Proof.
  intros Hm Hf s HP. specialize (Hm s HP). unfold mbind, M_bind.
  destruct (m s) as [[a|e] s1]; [by apply Hf|done].
Qed.

Lemma runs_try {A} P (m : M S A) R (E : goerror → S → Prop) E' :
  runs P m R E →
  runs P (try m) (λ r s, match r with Ok a => R a s | Err e => E e s end) E'.
Proof. intros Hm s HP. specialize (Hm s HP). unfold try. by destruct (m s) as [[a|e] s1]. Qed.

Lemma runs_wrapping {A} P p (m : M S A) R E :
  runs P m R (λ e, E (ErrWrap p e)) → runs P (wrapping p m) R E.
Proof. intros Hm s HP. specialize (Hm s HP). unfold wrapping. by destruct (m s) as [[a|e] s1]. Qed.

Lemma runs_ret {A} (a : A) (Q : A → S → Prop) E : runs (Q a) (mret a) Q E.
Proof. by intros s. Qed.

Lemma runs_throw {A} e (Q : A → S → Prop) (E : goerror → S → Prop) : runs (E e) (throw e) Q E.
Proof. by intros s. Qed.

Lemma runs_conseq {A} (P P' : S → Prop) (m : M S A) (Q Q' : A → S → Prop) (E E' : goerror → S → Prop) :
  (∀ s, P s → P' s) → (∀ a s, Q' a s → Q a s) → (∀ e s, E' e s → E e s) →
  runs P' m Q' E' → runs P m Q E.
Proof.
  intros HP HQ HE Hm s Hs. specialize (Hm s (HP s Hs)). destruct (m s) as [[a|e] s1]; auto.
Qed.

Lemma runs_forM {A} (I : S → Prop) (E : goerror → S → Prop) (l : list A) (f : A → M S unit) :
  (∀ x, x ∈ l → runs I (f x) (λ _, I) E) → runs I (forM l f) (λ _, I) E.
Proof.
  intros Hf s. revert s Hf. induction l as [|x l IH]; intros s Hf HI; [done|].
  rewrite forM_cons. pose proof (Hf x (list_elem_of_here _ _) s HI) as Hx.
  destruct (f x s) as [[u|e] s1]; [|done].
  apply IH; [|done]. intros y Hy. apply Hf. by apply list_elem_of_further.
Qed.

End monad.

(** *** Computations that behave alike *)

(** The same result and the same state from every state: the equality of
    stateful code, without functional extensionality. *)
Definition same_run {S A} (m m' : M S A) : Prop := ∀ s, m s = m' s.
Infix "≈" := same_run (at level 70, no associativity) : trainer_scope.

#[export] Instance same_run_equivalence {S A} : Equivalence (same_run (S:=S) (A:=A)).
Proof. split; [by intros m s|by intros m m' H s|intros m1 m2 m3 H1 H2 s; by rewrite H1, H2]. Qed.

#[export] Instance bind_proper {S A B} :
  Proper (pointwise_relation A same_run ==> same_run ==> same_run) (mbind (M:=M S) (A:=A) (B:=B)).
Proof. intros f f' Hf m m' Hm s. unfold mbind, M_bind. rewrite Hm. destruct (m' s) as [[a|e] s']; [apply Hf|done]. Qed.

#[export] Instance try_proper {S A} : Proper (same_run ==> same_run) (try (S:=S) (A:=A)).
Proof. intros m m' Hm s. unfold try. by rewrite Hm. Qed.

#[export] Instance wrapping_proper {S A} p : Proper (same_run ==> same_run) (wrapping (S:=S) (A:=A) p).
Proof. intros m m' Hm s. unfold wrapping. by rewrite Hm. Qed.

#[export] Instance zoom_proper {T S A} getter setter : Proper (same_run ==> same_run) (zoom (T:=T) (S:=S) (A:=A) getter setter).
Proof. intros m m' Hm t. unfold zoom. by rewrite Hm. Qed.

#[export] Instance forM_proper {S A} (l : list A) :
  Proper (pointwise_relation A same_run ==> same_run) (forM (S:=S) l).
Proof. intros f f' Hf. induction l as [|x l IH]; cbn; [done|]. apply bind_proper; [by intros ?|apply Hf]. Qed.

(** A loop, when the bodies behave alike on its elements. *)
Lemma forM_same {S A} (l : list A) (f f' : A → M S unit) :
  (∀ x, x ∈ l → f x ≈ f' x) → forM l f ≈ forM l f'.
Proof.
  induction l as [|x l IH]; cbn; intros Hf; [done|].
  apply bind_proper; [intros _; apply IH; intros y Hy|]; apply Hf; [by right|by left].
Qed.

(** Sequences of steps that behave alike one by one. *)
Lemma forM_id_same {S} (l l' : list (M S unit)) : Forall2 same_run l l' → forM l (λ a, a) ≈ forM l' (λ a, a).
Proof. induction 1 as [|m m' l l' Hm Hl IH]; cbn; [done|]. apply bind_proper; [by intros ?|done]. Qed.

(** ** Lists *)

(** [Forall2_impl] for the elements of the first list. *)
Lemma Forall2_impl_in {A B} (P Q : A → B → Prop) l k :
  Forall2 P l k → (∀ x y, x ∈ l → P x y → Q x y) → Forall2 Q l k.
Proof.
  induction 1 as [|x y l k Hxy Hl IH]; intros HPQ; constructor.
  - apply HPQ; [by left|done].
  - apply IH. intros x' y' Hx. apply HPQ. by right.
Qed.

(** ** Filtering loops *)

(** [projects R l l']: [l'] lists, in order, what [R] gives for the elements of
    [l], and [R] gives nothing for the elements of [l] without an image: what
    a loop that skips some elements and translates the others computes. *)
Inductive projects {A B : Type} (R : A → B → Prop) : list A → list B → Prop :=
| projects_nil : projects R [] []
| projects_skip x l l' : (∀ y, ¬ R x y) → projects R l l' → projects R (x :: l) l'
| projects_keep x y l l' : R x y → projects R l l' → projects R (x :: l) (y :: l').

Section projects.
Context {A B : Type} (R : A → B → Prop).

Lemma projects_none l l' : projects R l l' → (∀ x y, x ∈ l → ¬ R x y) → l' = [].
Proof.
  induction 1 as [|x l l' Hf Hp IH|x y l l' Hy Hp IH]; intros Hn; [done| |].
  - apply IH. intros x' y Hx. apply Hn. by right.
  - by destruct (Hn x y (list_elem_of_here _ _)).
Qed.

Lemma projects_nil_iff l : projects R l [] ↔ ∀ x y, x ∈ l → ¬ R x y.
Proof.
  split.
  - intros H. remember [] as l' eqn:E. induction H as [|x l l' Hn Hp IH|]; [| |done]; intros x' y Hx.
    + by apply elem_of_nil in Hx.
    + apply elem_of_cons in Hx as [->|Hx]; [apply Hn|by apply IH].
  - intros Hn. induction l as [|x l IH]; constructor; [intros y; apply Hn; by left|].
    apply IH. intros x' y Hx. apply Hn. by right.
Qed.

Lemma projects_elem l l' y : projects R l l' → y ∈ l' → ∃ x, x ∈ l ∧ R x y.
Proof.
  induction 1 as [|x l l' Hf Hp IH|x y' l l' Hy Hp IH]; intros Hin.
  - by apply elem_of_nil in Hin.
  - destruct (IH Hin) as (x' & Hx & HR). exists x'. split; [by right|done].
  - apply elem_of_cons in Hin as [->|Hin]; [exists x; split; [by left|done]|].
    destruct (IH Hin) as (x' & Hx & HR). exists x'. split; [by right|done].
Qed.

(** A loop with an accumulator, whose body appends what [R] gives. *)
Lemma projects_fold (f : list B → A → list B) l d :
  (∀ d x, (f d x = d ∧ ∀ y, ¬ R x y) ∨ (∃ y, f d x = d ++ [y] ∧ R x y)) →
  ∃ l', fold_left f l d = d ++ l' ∧ projects R l l'.
Proof.
  intros Hf. revert d. induction l as [|x l IH]; intros d.
  { exists []. split; [by rewrite app_nil_r|constructor]. }
  cbn. destruct (Hf d x) as [[-> Hn]|(y & -> & Hy)].
  - destruct (IH d) as (l' & -> & Hl). exists l'. split; [done|]. by constructor.
  - destruct (IH (d ++ [y])) as (l' & -> & Hl). exists (y :: l'). rewrite <-app_assoc.
    split; [done|]. by constructor.
Qed.

End projects.

(** ** Maps *)

(** A loop that enters the entries of a map, in any order. *)
Lemma fold_insert_union {A} (l : list (string * A)) (m : gmap string A) :
  fold_left (λ m kv, <[kv.1 := kv.2]> m) l m = list_to_map (reverse l) ∪ m.
Proof.
  revert m. induction l as [|[k v] l IH]; intros m; cbn [fold_left fst snd].
  { rewrite reverse_nil. cbn. by rewrite (left_id_L ∅ (∪)). }
  rewrite IH, reverse_cons, list_to_map_app. cbn [list_to_map foldr fst snd].
  by rewrite insert_empty, <-(assoc_L (∪)), <-insert_union_singleton_l.
Qed.

Lemma fold_insert_perm {A} (l : list (string * A)) (m m0 : gmap string A) :
  l ≡ₚ map_to_list m → fold_left (λ m kv, <[kv.1 := kv.2]> m) l m0 = m ∪ m0.
Proof.
  intros H. rewrite fold_insert_union. f_equal. rewrite <-(list_to_map_to_list m). apply list_to_map_proper.
  - rewrite reverse_Permutation, H. apply NoDup_fst_map_to_list.
  - by rewrite reverse_Permutation.
Qed.

#[export] Hint Resolve preserves_pure preserves_ret preserves_throw
  preserves_try preserves_wrapping : trainer.
#[export] Hint Extern 3 (Reflexive _) => typeclasses eauto : trainer.
#[export] Hint Extern 3 (Transitive _) => typeclasses eauto : trainer.
