(* ===== verification/GoStrings.v ===== *)
(** The parts of Go's standard library that work on strings and that the
    operator uses: [strings.HasPrefix], [Contains], [Cut], [Split], [Join] and
    [TrimSpace], [strconv.ParseInt] and the line scanner of [bufio].  A Go
    string is the sequence of its bytes. *)

From S2P Require Import Prelude.
From Stdlib Require Import Ascii.
Open Scope string_scope.
Open Scope list_scope.

(** ** Definitions *)

Definition LF : ascii := "010"%char.
Definition CR : ascii := "013"%char.
Definition newline : string := String LF EmptyString.

(** The byte [c] occurs in [s] ([strings.IndexByte(s, c) >= 0]). *)
Fixpoint has_byte (c : ascii) (s : string) : bool :=
  match s with
  | EmptyString => false
  | String a s' => bool_decide (a = c) || has_byte c s'
  end.

Definition HasPrefix (s p : string) : bool := String.prefix p s.

Fixpoint str_drop (n : nat) (s : string) : string :=
  match n, s with
  | S n', String _ s' => str_drop n' s'
  | _, _ => s
  end.

Fixpoint Contains (s sub : string) : bool :=
  String.prefix sub s ||
  match s with
  | EmptyString => false
  | String _ s' => Contains s' sub
  end.

(** [strings.Cut]: the text before and after the first [sep]. *)
Fixpoint Cut (s sep : string) : string * string * bool :=
  if String.prefix sep s then (EmptyString, str_drop (String.length sep) s, true)
  else match s with
       | EmptyString => (EmptyString, EmptyString, false)
       | String c s' =>
           match Cut s' sep with
           | (b, a, true) => (String c b, a, true)
           | (_, _, false) => (String c s', EmptyString, false)
           end
       end.

(** [strings.Split] for a separator of one byte: [n] separators give [n + 1] pieces. *)
Fixpoint Split (s : string) (sep : ascii) : list string :=
  match s with
  | EmptyString => [EmptyString]
  | String c s' =>
      if bool_decide (c = sep) then EmptyString :: Split s' sep
      else match Split s' sep with
           | [] => [String c EmptyString]
           | p :: ps => String c p :: ps
           end
  end.

Definition Join (l : list string) (sep : string) : string := String.concat sep l.

(** [unicode.IsSpace] on the UTF-8 encodings of one, two and three bytes. *)
Definition byte_in (a : ascii) (l : list nat) : bool := bool_decide (nat_of_ascii a ∈ l).

Definition space1 (a : ascii) : bool := byte_in a [9; 10; 11; 12; 13; 32].
Definition space2 (a b : ascii) : bool := byte_in a [194] && byte_in b [133; 160].
Definition space3 (a b c : ascii) : bool :=
  (byte_in a [225] && byte_in b [154] && byte_in c [128])
  || (byte_in a [226] && byte_in b [128] &&
      byte_in c [128; 129; 130; 131; 132; 133; 134; 135; 136; 137; 138; 168; 169; 175])
  || (byte_in a [226] && byte_in b [129] && byte_in c [159])
  || (byte_in a [227] && byte_in b [128] && byte_in c [128]).

(** Remove the leading space runes, for the encodings [p2] and [p3]. *)
Fixpoint trim_front (p2 : ascii → ascii → bool) (p3 : ascii → ascii → ascii → bool)
    (l : list ascii) : list ascii :=
  match l with
  | [] => []
  | a :: l1 =>
      if space1 a then trim_front p2 p3 l1
      else match l1 with
           | [] => l
           | b :: l2 =>
               if p2 a b then trim_front p2 p3 l2
               else match l2 with
                    | [] => l
                    | c :: l3 => if p3 a b c then trim_front p2 p3 l3 else l
                    end
           end
  end.

Definition trim_left (l : list ascii) : list ascii := trim_front space2 space3 l.
Definition trim_right (l : list ascii) : list ascii :=
  reverse (trim_front (λ b a, space2 a b) (λ c b a, space3 a b c) (reverse l)).

(** [strings.TrimSpace] = [TrimRightFunc(TrimLeftFunc(s, IsSpace), IsSpace)]. *)
Definition TrimSpace (s : string) : string :=
  String.string_of_list_ascii (trim_right (trim_left (String.list_ascii_of_string s))).

(** *** [strconv.ParseInt(s, 10, bitSize)] *)

Definition digit (a : ascii) : option Z :=
  let n := Z.of_nat (nat_of_ascii a) in
  if decide (48 ≤ n ≤ 57)%Z then Some (n - 48)%Z else None.

Inductive num_error : Type := ErrSyntax | ErrRange.

(** The digit loop of [strconv.ParseUint]: a value above [maxVal] is a range
    error at once. *)
Fixpoint parse_digits (maxVal n : Z) (s : string) : num_error + Z :=
  match s with
  | EmptyString => inr n
  | String a s' =>
      match digit a with
      | None => inl ErrSyntax
      | Some d =>
          let n1 := (n * 10 + d)%Z in
          if decide (maxVal < n1)%Z then inl ErrRange else parse_digits maxVal n1 s'
      end
  end.

Definition ParseUint (s : string) (bitSize : Z) : num_error + Z :=
  match s with
  | EmptyString => inl ErrSyntax
  | _ => parse_digits (2 ^ bitSize - 1) 0 s
  end.

Definition ParseInt (s : string) (bitSize : Z) : num_error + Z :=
  let '(neg, u) :=
    match s with
    | String "+" s' => (false, s')
    | String "-" s' => (true, s')
    | _ => (false, s)
    end in
  let cutoff := (2 ^ (bitSize - 1))%Z in
  match ParseUint u bitSize with
  | inl e => inl e
  | inr un =>
      if neg then (if decide (cutoff < un)%Z then inl ErrRange else inr (- un)%Z)
      else (if decide (cutoff <= un)%Z then inl ErrRange else inr un)
  end.

(** *** [bufio.Scanner] with [ScanLines] *)

(** [bufio.MaxScanTokenSize]: the scanner's buffer never grows beyond this. *)
Definition MaxScanTokenSize : N := 65536.

Definition ErrTooLong : goerror := ErrNew "bufio.Scanner: token too long".

(** The pieces of the input that end at a line feed or at the end of the
    input; no empty piece after a final line feed. *)
Fixpoint raw_lines (s : string) : list string :=
  match s with
  | EmptyString => []
  | String c s' =>
      if bool_decide (c = LF) then EmptyString :: raw_lines s'
      else match raw_lines s' with
           | [] => [String c EmptyString]
           | p :: ps => String c p :: ps
           end
  end.

Fixpoint drop_cr (s : string) : string :=
  match s with
  | EmptyString => EmptyString
  | String c EmptyString => if bool_decide (c = CR) then EmptyString else s
  | String c s' => String c (drop_cr s')
  end.

Definition fits_buffer (s : string) : bool :=
  (N.of_nat (String.length s) <? MaxScanTokenSize)%N.

(** The tokens the scanner delivers and [scanner.Err()]: a line that fills the
    buffer before its end is found stops the scan. *)
Fixpoint scan_pieces (ps : list string) : list string * option goerror :=
  match ps with
  | [] => ([], None)
  | p :: ps' =>
      if fits_buffer p then
        let '(ts, e) := scan_pieces ps' in (drop_cr p :: ts, e)
      else ([], Some ErrTooLong)
  end.

Definition scan_lines (s : string) : list string * option goerror :=
  scan_pieces (raw_lines s).

(** ** Lemmas *)

Lemma app_nil_r_str (s : string) : s +:+ EmptyString = s.
Proof. induction s as [|c s IH]; cbn; [done|]. by rewrite IH. Qed.

Lemma app_assoc_str (s1 s2 s3 : string) : (s1 +:+ s2) +:+ s3 = s1 +:+ s2 +:+ s3.
Proof. induction s1 as [|c s1 IH]; cbn; [done|]. by rewrite IH. Qed.

Lemma length_app_str (s1 s2 : string) :
  String.length (s1 +:+ s2) = String.length s1 + String.length s2.
Proof. induction s1 as [|c s1 IH]; cbn; [done|]. by rewrite IH. Qed.

Lemma has_byte_app c s1 s2 : has_byte c (s1 +:+ s2) = has_byte c s1 || has_byte c s2.
Proof. induction s1 as [|a s1 IH]; cbn; [done|]. rewrite IH. by destruct (bool_decide (a = c)). Qed.

Lemma list_ascii_app s1 s2 :
  String.list_ascii_of_string (s1 +:+ s2) = String.list_ascii_of_string s1 ++ String.list_ascii_of_string s2.
Proof. induction s1 as [|c s1 IH]; cbn; [done|]. by rewrite IH. Qed.

Lemma list_ascii_inj s1 s2 : String.list_ascii_of_string s1 = String.list_ascii_of_string s2 → s1 = s2.
Proof.
  intros H. by rewrite <-(String.string_of_list_ascii_of_string s1),
    <-(String.string_of_list_ascii_of_string s2), H.
Qed.

Lemma prefix_app p s : String.prefix p (p +:+ s) = true.
Proof. induction p as [|c p IH]; cbn; [by destruct s|]. by destruct (Ascii.ascii_dec c c). Qed.

Lemma prefix_true p s : String.prefix p s = true → ∃ t, s = p +:+ t.
Proof.
  revert s. induction p as [|c p IH]; intros s H; [by exists s|].
  destruct s as [|a s]; [done|]. cbn in H.
  destruct (Ascii.ascii_dec c a) as [->|]; [|done].
  destruct (IH s H) as [t ->]. by exists t.
Qed.

Lemma Contains_app_r s t sub : Contains t sub = true → Contains (s +:+ t) sub = true.
Proof.
  intros H. induction s as [|c s IH]; [done|]. cbn. by rewrite IH, orb_true_r.
Qed.

Lemma Contains_spec s sub : Contains s sub = true ↔ ∃ a b, s = a +:+ sub +:+ b.
Proof.
  split.
  - induction s as [|c s IH]; cbn [Contains]; intros H.
    + destruct sub; [|done]. by exists EmptyString, EmptyString.
    + apply orb_true_iff in H as [H|H].
      * destruct (prefix_true _ _ H) as [t Ht]. exists EmptyString, t. done.
      * destruct (IH H) as (a & b & ->). by exists (String c a), b.
  - intros (a & b & ->). apply Contains_app_r.
    destruct (sub +:+ b) eqn:E; cbn [Contains]; rewrite <-E, prefix_app; done.
Qed.

Lemma prefix_byte_has c s : has_byte c s = false → String.prefix (String c EmptyString) s = false.
Proof.
  destruct s as [|a s]; [done|]. cbn.
  case_bool_decide as Ha; [done|]. intros _. destruct (Ascii.ascii_dec c a); [congruence|done].
Qed.

Lemma Cut_app c k v :
  has_byte c k = false →
  Cut (k +:+ String c v) (String c EmptyString) = (k, v, true).
Proof.
  induction k as [|a k IH]; intros Hk; cbn [String.append Cut].
  - cbn. destruct (Ascii.ascii_dec c c); [|done]. by destruct v.
  - cbn in Hk. apply orb_false_iff in Hk as [Ha Hk].
    replace (String.prefix (String c EmptyString) (String a (k +:+ String c v))) with false.
    + by rewrite (IH Hk).
    + symmetry. cbn. destruct (Ascii.ascii_dec c a) as [->|]; [|done].
      case_bool_decide; done.
Qed.

Lemma Cut_true c s k v :
  Cut s (String c EmptyString) = (k, v, true) →
  s = k +:+ String c v ∧ has_byte c k = false.
Proof.
  revert k v. induction s as [|a s IH]; intros k v H; [done|]. cbn [Cut] in H.
  destruct (String.prefix (String c EmptyString) (String a s)) eqn:Ep.
  - cbn in Ep. destruct (Ascii.ascii_dec c a) as [->|]; [|done]. simplify_eq. cbn.
    split; [|done]. by destruct s.
  - destruct (Cut s (String c EmptyString)) as [[b r] [|]] eqn:Ec; [|done]. simplify_eq.
    destruct (IH b v eq_refl) as [-> Hb]. split; [done|]. cbn. rewrite Hb, orb_false_r.
    apply bool_decide_eq_false. intros ->. cbn in Ep.
    destruct (Ascii.ascii_dec c c); [|done]. by destruct (b +:+ String c v).
Qed.

(** *** Trimming *)

Section trim.
Context (p2 : ascii → ascii → bool) (p3 : ascii → ascii → ascii → bool).

(** The first rune is a space. *)
Definition lead_space (l : list ascii) : bool :=
  match l with
  | [] => false
  | a :: l1 => space1 a ||
      match l1 with
      | [] => false
      | b :: l2 => p2 a b || match l2 with [] => false | c :: _ => p3 a b c end
      end
  end.

Lemma trim_front_id l : lead_space l = false → trim_front p2 p3 l = l.
Proof.
  destruct l as [|a [|b [|c l]]]; cbn; try done; intros H;
    repeat match type of H with _ || _ = false => apply orb_false_iff in H as [-> H] end;
    try rewrite H; try done.
Qed.

Lemma trim_front_lead l : lead_space (trim_front p2 p3 l) = false.
Proof.
  induction l as [l IH] using (induction_ltof1 _ length); unfold ltof in IH.
  destruct l as [|a l1]; [done|]. cbn.
  destruct (space1 a) eqn:E1; [apply IH; cbn; lia|].
  destruct l1 as [|b l2]; [cbn; by rewrite E1|].
  destruct (p2 a b) eqn:E2; [apply IH; cbn; lia|].
  destruct l2 as [|c l3]; [cbn; by rewrite E1, E2|].
  destruct (p3 a b c) eqn:E3; [apply IH; cbn; lia|].
  cbn. by rewrite E1, E2, E3.
Qed.

Lemma trim_front_suffix l : ∃ k, l = k ++ trim_front p2 p3 l.
Proof.
  induction l as [l IH] using (induction_ltof1 _ length); unfold ltof in IH.
  destruct l as [|a l1]; [by exists []|]. cbn.
  destruct (space1 a).
  { destruct (IH l1) as [k Hk]; [cbn; lia|]. exists (a :: k). cbn. by f_equal. }
  destruct l1 as [|b l2]; [by exists []|].
  destruct (p2 a b).
  { destruct (IH l2) as [k Hk]; [cbn; lia|]. exists (a :: b :: k). cbn. by rewrite <-Hk. }
  destruct l2 as [|c l3]; [by exists []|].
  destruct (p3 a b c); [|by exists []].
  destruct (IH l3) as [k Hk]; [cbn; lia|]. exists (a :: b :: c :: k). cbn. by rewrite <-Hk.
Qed.

Lemma lead_space_app l k : lead_space (l ++ k) = false → lead_space l = false.
Proof.
  destruct l as [|a [|b [|c l]]]; cbn; try done; intros H;
    repeat match type of H with _ || _ = false => apply orb_false_iff in H as [-> H] end; done.
Qed.

End trim.

Lemma trim_right_prefix l : ∃ k, l = trim_right l ++ k.
Proof.
  unfold trim_right.
  destruct (trim_front_suffix (λ b a, space2 a b) (λ c b a, space3 a b c) (reverse l)) as [k Hk].
  exists (reverse k). rewrite <-reverse_app, <-Hk. by rewrite reverse_involutive.
Qed.

(** A string that [TrimSpace] leaves alone. *)
Definition trimmed (s : string) : Prop := TrimSpace s = s.

Lemma TrimSpace_trimmed s : trimmed (TrimSpace s).
Proof.
  unfold trimmed, TrimSpace. rewrite String.list_ascii_of_string_of_list_ascii. f_equal.
  set (l := trim_left (String.list_ascii_of_string s)).
  assert (lead_space space2 space3 (trim_right l) = false) as Hl.
  { destruct (trim_right_prefix l) as [k Hk].
    apply (lead_space_app _ _ _ k). rewrite <-Hk. apply trim_front_lead. }
  unfold trim_left at 1. rewrite trim_front_id by done.
  unfold trim_right. rewrite reverse_involutive. f_equal.
  apply trim_front_id, trim_front_lead.
Qed.

Lemma trimmed_lead s : trimmed s → lead_space space2 space3 (String.list_ascii_of_string s) = false.
Proof.
  unfold trimmed. intros H. rewrite <-H. unfold TrimSpace.
  rewrite String.list_ascii_of_string_of_list_ascii.
  destruct (trim_right_prefix (trim_left (String.list_ascii_of_string s))) as [k Hk].
  apply (lead_space_app _ _ _ k). rewrite <-Hk. apply trim_front_lead.
Qed.

Lemma trimmed_last s : trimmed s →
  lead_space (λ b a, space2 a b) (λ c b a, space3 a b c) (reverse (String.list_ascii_of_string s)) = false.
Proof.
  unfold trimmed. intros H. rewrite <-H. unfold TrimSpace.
  rewrite String.list_ascii_of_string_of_list_ascii. unfold trim_right.
  rewrite reverse_involutive. apply trim_front_lead.
Qed.

Lemma trimmed_no_cr s : trimmed s → drop_cr s = s.
Proof.
  intros Ht%trimmed_last. destruct (String.string_dec s EmptyString) as [->|Hne]; [done|].
  assert (∃ t c, s = t +:+ String c EmptyString) as (t & c & ->).
  { clear Ht. induction s as [|a s IH]; [done|].
    destruct s as [|b s]; [by exists EmptyString, a|].
    destruct IH as (t & c & ->); [done|]. by exists (String a t), c. }
  rewrite list_ascii_app, reverse_app in Ht. cbn in Ht.
  apply orb_false_iff in Ht as [Hc _]. clear Hne.
  induction t as [|a t IH]; cbn.
  - case_bool_decide as Hd; [|done]. by subst c.
  - rewrite IH. by destruct (t +:+ String c EmptyString) eqn:E; [destruct t|].
Qed.

(** *** Lines *)

Lemma raw_lines_cons_line p s :
  has_byte LF p = false → raw_lines (p +:+ String LF s) = p :: raw_lines s.
Proof.
  induction p as [|c p IH]; intros Hp; [done|]. cbn in Hp |- *.
  apply orb_false_iff in Hp as [-> Hp]. by rewrite (IH Hp).
Qed.

Lemma raw_lines_no_lf s p : p ∈ raw_lines s → has_byte LF p = false.
Proof.
  revert p. induction s as [|c s IH]; intros p; cbn; [by intros ?%elem_of_nil|].
  case_bool_decide as Hc.
  - intros [->|Hp]%elem_of_cons; [done|by apply IH].
  - destruct (raw_lines s) as [|q qs] eqn:E.
    + intros ->%list_elem_of_singleton. cbn. by rewrite bool_decide_eq_false_2.
    + intros [->|Hp]%elem_of_cons; [|apply IH; by right].
      cbn. rewrite bool_decide_eq_false_2 by done. apply IH. by left.
Qed.

Lemma has_byte_drop_cr c s : has_byte c s = false → has_byte c (drop_cr s) = false.
Proof.
  induction s as [|a s IH]; intros H; [done|]. cbn in H. apply orb_false_iff in H as [Ha H].
  destruct s as [|b s].
  - cbn. destruct (bool_decide (a = CR)); [done|]. cbn. by rewrite Ha.
  - change (drop_cr (String a (String b s))) with (String a (drop_cr (String b s))).
    cbn [has_byte]. rewrite Ha. by apply IH.
Qed.

Lemma length_drop_cr s : (String.length (drop_cr s) ≤ String.length s)%nat.
Proof.
  induction s as [|a [|b s] IH]; [done| |].
  - cbn. case_bool_decide; cbn; lia.
  - change (drop_cr (String a (String b s))) with (String a (drop_cr (String b s))).
    cbn [String.length] in *. lia.
Qed.

Lemma fits_buffer_le s t :
  (String.length s ≤ String.length t)%nat → fits_buffer t = true → fits_buffer s = true.
Proof. unfold fits_buffer. rewrite !N.ltb_lt. lia. Qed.

Lemma scan_pieces_tokens ps ts t :
  (∀ p, p ∈ ps → has_byte LF p = false) →
  scan_pieces ps = (ts, None) → t ∈ ts → has_byte LF t = false ∧ fits_buffer t = true.
Proof.
  revert ts. induction ps as [|p ps IH]; intros ts Hps H Ht; cbn in H.
  - simplify_eq. by apply elem_of_nil in Ht.
  - destruct (fits_buffer p) eqn:Ef; [|done].
    destruct (scan_pieces ps) as [ts' e] eqn:E. simplify_eq.
    apply elem_of_cons in Ht as [->|Ht].
    + split; [apply has_byte_drop_cr, Hps; by left|].
      eapply fits_buffer_le; [apply length_drop_cr|done].
    + eapply IH; [|done|done]. intros q Hq. apply Hps. by right.
Qed.

Lemma scan_lines_tokens s ts t :
  scan_lines s = (ts, None) → t ∈ ts → has_byte LF t = false ∧ fits_buffer t = true.
Proof. apply scan_pieces_tokens, raw_lines_no_lf. Qed.

(** *** Numbers *)

Lemma digit_bounds a d : digit a = Some d → (0 ≤ d ≤ 9)%Z.
Proof. unfold digit. case_decide; intros; simplify_eq; lia. Qed.

Lemma parse_digits_bounds maxVal n s z :
  (0 ≤ n ≤ maxVal)%Z → parse_digits maxVal n s = inr z → (0 ≤ z ≤ maxVal)%Z.
Proof.
  revert n. induction s as [|a s IH]; intros n Hn H; cbn in H; [by simplify_eq|].
  destruct (digit a) as [d|] eqn:Ed; [|done]. apply digit_bounds in Ed.
  case_decide; [done|]. eapply IH; [|done]. lia.
Qed.

Lemma ParseInt_bounds s b z :
  (0 < b)%Z → ParseInt s b = inr z → (- 2 ^ (b - 1) ≤ z < 2 ^ (b - 1))%Z.
Proof.
  intros Hb. unfold ParseInt.
  set (p := match s with String "+" s' => _ | String "-" s' => _ | _ => _ end).
  destruct p as [neg u]. destruct (ParseUint u b) as [e|un] eqn:E; [done|].
  assert (0 ≤ un)%Z as Hun.
  { unfold ParseUint in E. destruct u; [done|].
    apply parse_digits_bounds in E; [lia|]. pose proof (Z.pow_pos_nonneg 2 b). lia. }
  pose proof (Z.pow_pos_nonneg 2 (b - 1)).
  destruct neg; case_decide; intros; simplify_eq; lia.
Qed.
