(* ===== verification/GoOS.v ===== *)
(** The operating system as Go's [os], [path/filepath] and [bufio.Writer] show
    it to the operator: a tree of files, the environment, and system calls any
    of which may fail. *)

From S2P Require Import Prelude GoStrings.
From Stdlib Require Import Ascii.
Open Scope string_scope.
Open Scope list_scope.

(** ** Definitions *)

(** A cleaned absolute path: its components from the root. *)
Abbreviation path := (list string).

Definition Join (p : path) (name : string) : path := p ++ [name].

(** [path + s] on strings: [s] goes to the end of the last component. *)
Fixpoint path_append (p : path) (s : string) : path :=
  match p with
  | [] => [s]
  | [b] => [b +:+ s]
  | d :: p' => d :: path_append p' s
  end.

Definition path_string (p : path) : string := "/" +:+ String.concat "/" p.

Inductive node : Type :=
| File (content : string)
| Dir
| Symlink (target : path).

#[export] Instance node_eq_dec : EqDecision node.
Proof. solve_decision. Defined.

(** A failure of one system call; a failing [write] may already have written
    some bytes. *)
Record fault := Fault { fault_err : goerror; fault_written : nat }.

(** [os_faults]: what the next system calls do; [None] and the calls after the
    end of the list behave normally. *)
Record os := OS {
  os_nodes : gmap path node;
  os_env : gmap string string;
  os_faults : list (option fault);
}.

Definition set_nodes (n : gmap path node) (s : os) : os := OS n (os_env s) (os_faults s).
Definition set_faults (f : list (option fault)) (s : os) : os := OS (os_nodes s) (os_env s) f.

Definition next_fault : M os (option fault) := λ s,
  match os_faults s with
  | [] => (Ok None, s)
  | f :: fs => (Ok f, set_faults fs s)
  end.

(** The entry of a system call: it fails here or goes on. *)
Definition syscall : M os unit :=
  f ← next_fault;
  match f with Some f => throw (fault_err f) | None => mret tt end.

Definition upd_nodes (f : gmap path node → gmap path node) : M os unit :=
  modify (λ s, set_nodes (f (os_nodes s)) s).

Definition node_at (p : path) : M os (option node) := λ s, (Ok (os_nodes s !! p), s).

Definition path_error (op : string) (p : path) (kind msg : string) : goerror :=
  ErrForeign kind (op +:+ " " +:+ path_string p +:+ ": " +:+ msg).

Definition IsNotExist (e : goerror) : bool :=
  match e with ErrForeign k _ => bool_decide (k = "ENOENT") | _ => false end.

(** A proper ancestor of [p] is a regular file. *)
Fixpoint under_file (m : gmap path node) (done rest : path) : bool :=
  match rest with
  | [] => false
  | c :: rest' =>
      match m !! done with
      | Some (File _) => true
      | _ => under_file m (done ++ [c]) rest'
      end
  end.

(** The error of a lookup of a path that is not there. *)
Definition missing (op : string) (m : gmap path node) (p : path) : goerror :=
  if under_file m [] p then path_error op p "ENOTDIR" "not a directory"
  else path_error op p "ENOENT" "no such file or directory".

(** Symbolic links in the last component, at most 40 in a row as on Linux. *)
Fixpoint resolve (fuel : nat) (m : gmap path node) (p : path) : option path :=
  match m !! p with
  | Some (Symlink t) => match fuel with 0 => None | S n => resolve n m t end
  | _ => Some p
  end.

Definition follow (op : string) (p : path) : M os path := λ s,
  match resolve 40 (os_nodes s) p with
  | Some q => (Ok q, s)
  | None => (Err (path_error op p "ELOOP" "too many levels of symbolic links"), s)
  end.

(** [os.Lstat]. *)
Definition Lstat (p : path) : M os node :=
  syscall;;
  n ← node_at p;
  match n with
  | Some n => mret n
  | None => s ← get; throw (missing "lstat" (os_nodes s) p)
  end.

(** [os.Stat]: as [Lstat], through symbolic links. *)
Definition Stat (p : path) : M os node :=
  syscall;;
  q ← follow "stat" p;
  n ← node_at q;
  match n with
  | Some n => mret n
  | None => s ← get; throw (missing "stat" (os_nodes s) q)
  end.

(** [os.Open] and the reads up to the end of the file. *)
Definition ReadFile (p : path) : M os string :=
  syscall;;
  q ← follow "open" p;
  n ← node_at q;
  match n with
  | Some (File c) => syscall;; mret c
  | Some _ => throw (path_error "read" p "EISDIR" "is a directory")
  | None => s ← get; throw (missing "open" (os_nodes s) q)
  end.

Definition parent (p : path) : path := take (length p - 1) p.

(** [os.Create]: an empty file, truncated when it exists; the handle is the
    path it resolves to. *)
Definition Create (p : path) : M os path :=
  syscall;;
  q ← follow "open" p;
  n ← node_at q;
  match n with
  | Some (File _) => upd_nodes <[q := File EmptyString]>;; mret q
  | Some _ => throw (path_error "open" p "EISDIR" "is a directory")
  | None =>
      d ← node_at (parent q);
      match d with
      | Some Dir => upd_nodes <[q := File EmptyString]>;; mret q
      | _ => s ← get; throw (missing "open" (os_nodes s) q)
      end
  end.

Definition append_file (h : path) (data : string) : M os unit :=
  upd_nodes (alter (λ n, match n with File c => File (c +:+ data) | _ => n end) h).

Fixpoint str_take (n : nat) (s : string) : string :=
  match n, s with
  | S n', String c s' => String c (str_take n' s')
  | _, _ => EmptyString
  end.

(** [f.Write(data)]: all of it, or an error and a part of it. *)
Definition Write (h : path) (data : string) : M os unit :=
  f ← next_fault;
  match f with
  | None => append_file h data
  | Some f => append_file h (str_take (fault_written f) data);; throw (fault_err f)
  end.

Definition Close (h : path) : M os unit := syscall.

Definition Remove (p : path) : M os unit :=
  syscall;;
  n ← node_at p;
  match n with
  | Some Dir => throw (path_error "remove" p "ENOTEMPTY" "directory not empty")
  | Some _ => upd_nodes (delete p)
  | None => s ← get; throw (missing "remove" (os_nodes s) p)
  end.

(** [os.Rename] of a file: it replaces the target in one step. *)
Definition Rename (old new : path) : M os unit :=
  syscall;;
  n ← node_at old;
  t ← node_at new;
  match n, t with
  | Some Dir, _ | _, Some Dir => throw (path_error "rename" old "EISDIR" "is a directory")
  | Some n, _ => upd_nodes (λ m, <[new := n]> (delete old m))
  | None, _ => s ← get; throw (missing "rename" (os_nodes s) old)
  end.

(** [os.Getenv]: the empty string for a variable that is not set. *)
Definition Getenv (s : os) (name : string) : string := default EmptyString (os_env s !! name).

(** *** [bufio.Writer] *)

Definition bufSize : nat := 4096.

(** [w.Write(p)] with [buf] buffered bytes; the new buffer.  A write that does
    not fit fills and flushes the buffer first; what is left goes to the file
    directly when it is larger than the buffer. *)
Definition bufWrite (h : path) (buf p : string) : M os string :=
  if decide (String.length p ≤ bufSize - String.length buf)%nat then mret (buf +:+ p)
  else if decide (buf = EmptyString) then Write h p;; mret EmptyString
  else
    let n := bufSize - String.length buf in
    let rest := str_drop n p in
    Write h (buf +:+ str_take n p);;
    if decide (String.length rest ≤ bufSize)%nat then mret rest
    else Write h rest;; mret EmptyString.

Definition bufFlush (h : path) (buf : string) : M os unit :=
  if decide (buf = EmptyString) then mret tt else Write h buf.

(** ** Lemmas *)

Lemma take_drop_str n s : str_take n s +:+ str_drop n s = s.
Proof.
  revert s. induction n as [|n IH]; intros [|c s]; [done..|]. cbn. by rewrite IH.
Qed.

Lemma path_append_ne p s : s ≠ EmptyString → path_append p s ≠ p.
Proof.
  intros Hs. induction p as [|d [|e p] IH]; [done| |].
  - cbn. intros [= H]. apply (f_equal String.length) in H. rewrite length_app_str in H.
    destruct s; [done|]. cbn in H. lia.
  - change (path_append (d :: e :: p) s) with (d :: path_append (e :: p) s). congruence.
Qed.

(** What a run may change: only the nodes at the paths in [ps]. *)
Definition frame (ps : list path) (s s' : os) : Prop :=
  os_env s' = os_env s ∧ ∀ q, q ∉ ps → os_nodes s' !! q = os_nodes s !! q.

#[export] Instance frame_refl ps : Reflexive (frame ps).
Proof. by split. Qed.

#[export] Instance frame_trans ps : Transitive (frame ps).
Proof.
  intros s1 s2 s3 [E1 H1] [E2 H2]. split; [congruence|]. intros q Hq. by rewrite H2, H1.
Qed.

Lemma frame_mono ps ps' s s' : ps ⊆ ps' → frame ps s s' → frame ps' s s'.
Proof. intros Hs [E H]. split; [done|]. set_solver. Qed.

Lemma frame_nil_nodes s s' : frame [] s s' → os_nodes s' = os_nodes s.
Proof. intros [_ H]. apply map_eq. intros q. apply H. apply not_elem_of_nil. Qed.

Lemma next_fault_frame ps : preserves (frame ps) next_fault.
Proof. intros s. unfold next_fault. by destruct (os_faults s). Qed.

Lemma syscall_frame ps : preserves (frame ps) syscall.
Proof.
  apply preserves_bind; [apply _|apply next_fault_frame|]. intros [f|]; auto with trainer.
Qed.

Lemma upd_insert_frame ps q n : q ∈ ps → preserves (frame ps) (upd_nodes <[q := n]>).
Proof.
  intros Hq s. cbn. split; [done|]. intros p Hp. cbn.
  apply lookup_insert_ne. by intros ->.
Qed.

Lemma upd_delete_frame ps q : q ∈ ps → preserves (frame ps) (upd_nodes (delete q)).
Proof.
  intros Hq s. cbn. split; [done|]. intros p Hp. cbn.
  apply lookup_delete_ne. by intros ->.
Qed.

Lemma append_file_frame ps q d : q ∈ ps → preserves (frame ps) (append_file q d).
Proof.
  intros Hq s. cbn. split; [done|]. intros p Hp. cbn.
  apply lookup_alter_ne. by intros ->.
Qed.

Lemma Write_frame ps h d : h ∈ ps → preserves (frame ps) (Write h d).
Proof.
  intros Hh. apply preserves_bind; [apply _|apply next_fault_frame|].
  intros [f|]; [|by apply append_file_frame].
  apply preserves_bind; [apply _|by apply append_file_frame|auto with trainer].
Qed.

#[export] Hint Resolve next_fault_frame syscall_frame upd_insert_frame upd_delete_frame
  append_file_frame Write_frame : trainer.

(** A call that failed or succeeded at its entry changed nothing else. *)
Lemma syscall_run s r s' : syscall s = (r, s') →
  os_nodes s' = os_nodes s ∧ os_env s' = os_env s.
Proof.
  intros H. pose proof (syscall_frame [] s) as Hf. rewrite H in Hf. cbn in Hf.
  split; [by apply frame_nil_nodes|apply Hf].
Qed.

Lemma Write_ok h d s c s' :
  os_nodes s !! h = Some (File c) → Write h d s = (Ok tt, s') →
  os_nodes s' !! h = Some (File (c +:+ d)).
Proof.
  intros Hc. unfold Write, next_fault, append_file, upd_nodes. munfold.
  destruct (os_faults s) as [|[f|] fs]; cbn; intros H; simplify_eq; cbn;
    rewrite lookup_alter_eq, Hc; done.
Qed.

Lemma Write_file h d s c :
  os_nodes s !! h = Some (File c) →
  ∃ c', os_nodes (Write h d s).2 !! h = Some (File c').
Proof.
  intros Hc. unfold Write, next_fault, append_file, upd_nodes. munfold.
  destruct (os_faults s) as [|[f|] fs]; cbn; rewrite lookup_alter_eq, Hc; cbn; eauto.
Qed.

(** Buffered writing: the file and the buffer together hold what was written. *)
Lemma bufWrite_ok h buf p s c buf' s' :
  os_nodes s !! h = Some (File c) → bufWrite h buf p s = (Ok buf', s') →
  ∃ c', os_nodes s' !! h = Some (File c') ∧ c' +:+ buf' = c +:+ buf +:+ p.
Proof.
  intros Hc. unfold bufWrite. case_decide as H1.
  { intros H. munfold. simplify_eq. by exists c. }
  case_decide as H2.
  { subst buf. intros ([] & s1 & Hw & H)%bind_ok_inv. munfold. simplify_eq.
    eapply Write_ok in Hw; [|done]. exists (c +:+ p). by rewrite app_nil_r_str. }
  intros (u & s1 & Hw & H)%bind_ok_inv. destruct u. pose proof (Write_ok _ _ _ _ _ Hc Hw) as Hc1.
  case_decide as H3.
  - munfold. simplify_eq. eexists. split; [done|].
    by rewrite !app_assoc_str, take_drop_str.
  - apply bind_ok_inv in H as (u & s2 & Hw2 & H). destruct u. munfold. simplify_eq.
    eapply Write_ok in Hw2; [|done]. eexists. split; [done|].
    by rewrite app_nil_r_str, !app_assoc_str, take_drop_str.
Qed.

Lemma bufWrite_frame ps h buf p : h ∈ ps → preserves (frame ps) (bufWrite h buf p).
Proof.
  intros Hh. unfold bufWrite. repeat case_decide; auto with trainer;
    repeat (apply preserves_bind; [apply _|by auto with trainer|intros ?]; try case_decide);
    auto with trainer.
Qed.

Lemma bufFlush_ok h buf s c s' :
  os_nodes s !! h = Some (File c) → bufFlush h buf s = (Ok tt, s') →
  os_nodes s' !! h = Some (File (c +:+ buf)).
Proof.
  intros Hc. unfold bufFlush. case_decide as Hb; [|by apply Write_ok].
  intros H. munfold. simplify_eq. by rewrite app_nil_r_str.
Qed.

Lemma bufFlush_frame ps h buf : h ∈ ps → preserves (frame ps) (bufFlush h buf).
Proof. intros Hh. unfold bufFlush. case_decide; auto with trainer. Qed.

#[export] Hint Resolve bufWrite_frame bufFlush_frame : trainer.

(** *** Runs without system-call failures *)

Definition quiet (s : os) : Prop := os_faults s = [].

Lemma resolve_id n m p : (∀ t, m !! p ≠ Some (Symlink t)) → resolve n m p = Some p.
Proof.
  intros H. destruct n; cbn; destruct (m !! p) as [[| |t]|] eqn:E; try done; by destruct (H t).
Qed.

Lemma syscall_quiet s : quiet s → syscall s = (Ok tt, s).
Proof. unfold quiet, syscall, next_fault. munfold. by intros ->. Qed.

Lemma follow_id op p s : (∀ t, os_nodes s !! p ≠ Some (Symlink t)) → follow op p s = (Ok p, s).
Proof. intros H. unfold follow. by rewrite resolve_id. Qed.

Lemma Stat_quiet p s : quiet s → (∀ t, os_nodes s !! p ≠ Some (Symlink t)) →
  Stat p s = match os_nodes s !! p with
             | Some n => (Ok n, s) | None => (Err (missing "stat" (os_nodes s) p), s) end.
Proof.
  intros Hq Hl. unfold Stat. rewrite (bind_ok _ _ _ _ _ (syscall_quiet s Hq)).
  rewrite (bind_ok _ _ _ _ _ (follow_id "stat" p s Hl)). unfold node_at. munfold.
  by destruct (os_nodes s !! p).
Qed.

Lemma ReadFile_quiet s p c : quiet s → os_nodes s !! p = Some (File c) → ReadFile p s = (Ok c, s).
Proof.
  intros Hq Hc. unfold ReadFile. rewrite (bind_ok _ _ _ _ _ (syscall_quiet s Hq)).
  unfold follow. munfold. rewrite resolve_id by (intros t; by rewrite Hc). cbn.
  unfold node_at. rewrite Hc. by rewrite (syscall_quiet s Hq).
Qed.
