(* ===== verification/Params.v ===== *)
(** [internal/controller/params.go]: reading, overriding and atomically
    rewriting the [params.env] file of a kustomize overlay. *)

From S2P Require Import Prelude GoStrings GoOS.
From Stdlib Require Import Ascii.
Open Scope string_scope.
Open Scope list_scope.

(** ** Definitions *)

Definition imageParamControllerImage := "odh-kubeflow-trainer-controller-image".
Definition paramOperatorNamespace := "operator-namespace".
Definition relatedImageThTorchCuda := "RELATED_IMAGE_ODH_TH_TORCH_CUDA_PY312_IMAGE".
Definition relatedImageThTorchRocm := "RELATED_IMAGE_ODH_TH_TORCH_ROCM_PY312_IMAGE".
Definition relatedImageThTorchCpu := "RELATED_IMAGE_ODH_TH_TORCH_CPU_PY312_IMAGE".
Definition relatedImageModelOptCuda := "RELATED_IMAGE_RHAII_MODEL_OPT_CUDA_IMAGE".
Definition relatedImageVllm := "RELATED_IMAGE_RHAII_VLLM_CUDA_IMAGE".

Definition trainerImageParamMap : gmap string string :=
  list_to_map [(imageParamControllerImage, "RELATED_IMAGE_ODH_TRAINER_IMAGE")].

Definition imageStreamParamMap : gmap string string := list_to_map
  [("odh-training-universal-workbench-image-cuda-3-6", relatedImageThTorchCuda);
   ("odh-training-universal-workbench-image-rocm-3-6", relatedImageThTorchRocm);
   ("odh-training-universal-workbench-image-cpu-3-6", relatedImageThTorchCpu)].

Definition runtimesParamMap : gmap string string := list_to_map
  [("odh-th-torch-cuda-py312-image", relatedImageThTorchCuda);
   ("odh-th-torch-rocm-py312-image", relatedImageThTorchRocm);
   ("odh-th-torch-cpu-py312-image", relatedImageThTorchCpu);
   ("odh-openmpi-cuda-image", relatedImageThTorchCuda);
   ("odh-openmpi-cpu-image", relatedImageThTorchCpu);
   ("odh-speculator-model-opt-cuda-image", relatedImageModelOptCuda);
   ("odh-vllm-cuda-image", relatedImageVllm)].

(** One line of the file: a parameter, or nothing for a blank line, a comment
    and a line without an equals sign. *)
Definition param_line (text : string) : option (string * string) :=
  let line := TrimSpace text in
  if bool_decide (line = "") || HasPrefix line "#" then None
  else match Cut line "=" with
       | (key, val, true) => Some (key, val)
       | _ => None
       end.

Definition read_line (params : gmap string string) (text : string) : gmap string string :=
  match param_line text with
  | Some (key, val) => <[key := val]> params
  | None => params
  end.

Definition readParams (p : path) : M os (gmap string string) :=
  content ← ReadFile p;
  match scan_lines content with
  | (lines, None) => mret (fold_left read_line lines ∅)
  | (_, Some e) => throw e
  end.

(** [fmt.Fprintf(w, "%s=%s\n", key, val)]. *)
Definition param_text (kv : string * string) : string := kv.1 +:+ "=" +:+ kv.2.
Definition line_of (kv : string * string) : string := param_text kv +:+ newline.

Fixpoint write_lines (h : path) (buf : string) (l : list (string * string)) : M os string :=
  match l with
  | [] => mret buf
  | kv :: l' => buf' ← bufWrite h buf (line_of kv); write_lines h buf' l'
  end.

(** [params[key] = val] for every pair of the list, in its order. *)
Definition set_all (l : list (string * string)) (params : gmap string string) : gmap string string :=
  fold_left (λ m kv, <[kv.1 := kv.2]> m) l params.

Definition env_line (s : os) (params : gmap string string) (kv : string * string) : gmap string string :=
  let val := Getenv s kv.2 in
  if bool_decide (val = "") then params else <[kv.1 := val]> params.

Section params.

(** The orders in which [range] visits the two maps: Go leaves them open. *)
Context (range_src range_dst : gmap string string → list (string * string)).

Definition writeParams (p : path) (params : gmap string string) : M os unit :=
  let tmpPath := path_append p ".tmp" in
  f ← Create tmpPath;
  r ← try (write_lines f "" (range_dst params));
  match r with
  | Err e => try (Close f);; try (Remove tmpPath);; throw e
  | Ok w =>
      r ← try (bufFlush f w);
      match r with
      | Err e => try (Close f);; try (Remove tmpPath);; throw e
      | Ok _ =>
          r ← try (Close f);
          match r with
          | Err e => try (Remove tmpPath);; throw e
          | Ok _ => Rename tmpPath p
          end
      end
  end.

Definition applyStaticParams (dir : path) (values : gmap string string) : M os unit :=
  let paramsPath := Join dir "params.env" in
  r ← try (Stat paramsPath);
  match r with
  | Err e => if IsNotExist e then mret tt else throw e
  | Ok _ =>
      params ← wrapping "reading params.env" (readParams paramsPath);
      writeParams paramsPath (set_all (range_src values) params)
  end.

Definition applyParamOverrides (dir : path) (paramMap : gmap string string) : M os unit :=
  let paramsPath := Join dir "params.env" in
  r ← try (Stat paramsPath);
  match r with
  | Err e => if IsNotExist e then mret tt else throw e
  | Ok _ =>
      params ← wrapping "reading params.env" (readParams paramsPath);
      s ← get;
      writeParams paramsPath (fold_left (env_line s) (range_src paramMap) params)
  end.

End params.

(** *** Specifications *)

(** A parameter that survives being written to a line and read back. *)
Definition wf_param (kv : string * string) : Prop :=
  has_byte "=" kv.1 = false ∧ trimmed (param_text kv) ∧
  has_byte LF (param_text kv) = false ∧ HasPrefix (param_text kv) "#" = false ∧
  fits_buffer (param_text kv) = true.

#[export] Instance wf_param_dec kv : Decision (wf_param kv).
Proof. unfold wf_param, trimmed. apply _. Defined.

Definition wf_params (m : gmap string string) : Prop := map_Forall (λ k v, wf_param (k, v)) m.

(** What the overrides ask for: the environment variables that are set. *)
Definition env_overrides (s : os) (paramMap : gmap string string) : gmap string string :=
  omap (λ ev, if bool_decide (Getenv s ev = "") then None else Some (Getenv s ev)) paramMap.

(** The text of a parameter file. *)
Fixpoint render (l : list (string * string)) : string :=
  match l with
  | [] => ""
  | kv :: l' => line_of kv +:+ render l'
  end.

(** A [range] order: some enumeration of the map. *)
Definition enumerates (range : gmap string string → list (string * string)) : Prop :=
  ∀ m, range m ≡ₚ map_to_list m.

(** A place where a parameter file can be: no symbolic link at the file or
    its temporary sibling, and no directory in the way. *)
Definition param_place (m : gmap path node) (p : path) : Prop :=
  (∃ c, m !! p = Some (File c)) ∧
  let t := path_append p ".tmp" in
  (∃ c, m !! t = Some (File c)) ∨ (m !! t = None ∧ m !! parent t = Some Dir).

(** ** Lemmas *)

Lemma param_text_ne kv : param_text kv ≠ "".
Proof. destruct kv as [[|a k] v]; done. Qed.

Lemma param_line_wf kv : wf_param kv → param_line (param_text kv) = Some kv.
Proof.
  destruct kv as [k v]. intros (Hk & Ht & _ & Hh & _). unfold param_line.
  rewrite Ht, Hh, bool_decide_eq_false_2 by apply param_text_ne. cbn.
  unfold param_text. cbn. by rewrite Cut_app.
Qed.

Lemma TrimSpace_infix s : ∃ a b,
  String.list_ascii_of_string s = a ++ String.list_ascii_of_string (TrimSpace s) ++ b.
Proof.
  unfold TrimSpace. rewrite String.list_ascii_of_string_of_list_ascii.
  destruct (trim_front_suffix space2 space3 (String.list_ascii_of_string s)) as [a Ha].
  destruct (trim_right_prefix (trim_left (String.list_ascii_of_string s))) as [b Hb].
  exists a, b. by rewrite <-Hb.
Qed.

Lemma has_byte_elem c s : has_byte c s = bool_decide (c ∈ String.list_ascii_of_string s).
Proof.
  induction s as [|a s IH]; cbn; [done|]. rewrite IH.
  apply eq_true_iff_eq.
  rewrite orb_true_iff, !bool_decide_eq_true, elem_of_cons. naive_solver.
Qed.

Lemma length_list_ascii s : length (String.list_ascii_of_string s) = String.length s.
Proof. induction s as [|a s IH]; cbn; [done|]. by rewrite IH. Qed.

Lemma has_byte_TrimSpace c s : has_byte c s = false → has_byte c (TrimSpace s) = false.
Proof.
  destruct (TrimSpace_infix s) as (a & b & H). rewrite !has_byte_elem, !bool_decide_eq_false, H.
  set_solver.
Qed.

Lemma length_TrimSpace s : (String.length (TrimSpace s) ≤ String.length s)%nat.
Proof.
  destruct (TrimSpace_infix s) as (a & b & H%(f_equal length)).
  rewrite !length_app, !length_list_ascii in H. lia.
Qed.

Lemma param_line_sound t kv :
  has_byte LF t = false → fits_buffer t = true → param_line t = Some kv → wf_param kv.
Proof.
  intros Hlf Hfit. unfold param_line.
  destruct (bool_decide _ || _) eqn:E; [done|]. apply orb_false_iff in E as [_ Eh].
  destruct (Cut (TrimSpace t) "=") as [[k v] [|]] eqn:Ec; [|done]. intros [= <-].
  apply Cut_true in Ec as [Ec Hk].
  assert (param_text (k, v) = TrimSpace t) as Hp by (rewrite Ec; done).
  split; [done|]. rewrite Hp. split; [apply TrimSpace_trimmed|].
  split; [by apply has_byte_TrimSpace|]. split; [done|].
  eapply fits_buffer_le; [apply length_TrimSpace|done].
Qed.

Lemma fold_read_wf ts m :
  (∀ t, t ∈ ts → has_byte LF t = false ∧ fits_buffer t = true) →
  wf_params m → wf_params (fold_left read_line ts m).
Proof.
  revert m. induction ts as [|t ts IH]; intros m Hts Hm; [done|]. cbn.
  apply IH; [set_solver|]. unfold read_line.
  destruct (param_line t) as [[k v]|] eqn:E; [|done].
  apply map_Forall_insert_2; [|done].
  destruct (Hts t (list_elem_of_here _ _)). by eapply param_line_sound.
Qed.

Lemma fold_read_texts l m :
  Forall wf_param l → fold_left read_line (param_text <$> l) m = set_all l m.
Proof.
  intros Hl. revert m. induction Hl as [|kv l Hkv Hl IH]; intros m; [done|].
  cbn. rewrite IH. unfold read_line. rewrite param_line_wf by done. by destruct kv.
Qed.

Lemma scan_render l : Forall wf_param l → scan_lines (render l) = (param_text <$> l, None).
Proof.
  intros Hl. unfold scan_lines. induction Hl as [|kv l Hkv Hl IH]; [done|].
  cbn [render]. unfold line_of. rewrite app_assoc_str.
  unfold newline. cbn [String.append].
  destruct Hkv as (_ & Ht & Hlf & _ & Hfit). rewrite raw_lines_cons_line by done.
  cbn [scan_pieces]. by rewrite Hfit, IH, trimmed_no_cr.
Qed.

Lemma render_app l1 l2 : render (l1 ++ l2) = render l1 +:+ render l2.
Proof.
  induction l1 as [|kv l1 IH]; [done|]. cbn. rewrite IH. by rewrite app_assoc_str.
Qed.

Lemma set_all_perm l m m0 : l ≡ₚ map_to_list m → set_all l m0 = m ∪ m0.
Proof. apply fold_insert_perm. Qed.

Lemma wf_params_list l m : l ≡ₚ map_to_list m → wf_params m → Forall wf_param l.
Proof.
  intros Hl Hm. rewrite Hl. apply Forall_forall. intros [k v] Hkv%list_elem_of_In%elem_of_map_to_list.
  by apply Hm.
Qed.

(** What the file holds parses to the map it was written from. *)
Lemma read_render l m : l ≡ₚ map_to_list m → wf_params m →
  scan_lines (render l) = (param_text <$> l, None) ∧
  fold_left read_line (param_text <$> l) ∅ = m.
Proof.
  intros Hl Hm. pose proof (wf_params_list _ _ Hl Hm) as Hw.
  split; [by apply scan_render|]. rewrite fold_read_texts by done.
  by rewrite (set_all_perm _ m), (right_id_L ∅ (∪)).
Qed.

Lemma wf_params_union m1 m2 : wf_params m1 → wf_params m2 → wf_params (m1 ∪ m2).
Proof. intros H1 H2. by apply map_Forall_union_2. Qed.

Lemma fold_env_line s l m :
  fold_left (env_line s) l m =
  set_all (omap (λ kv, if bool_decide (Getenv s kv.2 = "") then None
                       else Some (kv.1, Getenv s kv.2)) l) m.
Proof.
  revert m. induction l as [|kv l IH]; intros m; [done|]. cbn.
  rewrite IH. unfold env_line. by destruct (bool_decide _).
Qed.

Lemma env_overrides_list s pm :
  omap (λ kv : string * string, if bool_decide (Getenv s kv.2 = "") then None
             else Some (kv.1, Getenv s kv.2)) (map_to_list pm)
  ≡ₚ map_to_list (env_overrides s pm).
Proof.
  unfold env_overrides. induction pm as [|k v pm Hk Hd IH] using map_first_key_ind;
    [by rewrite omap_empty, !map_to_list_empty|].
  rewrite map_to_list_insert_first_key by done. cbn.
  destruct (bool_decide (Getenv s v = "")) eqn:E; cbn.
  - rewrite omap_insert_None by (cbn; by rewrite E).
    rewrite IH. rewrite delete_id; [done|]. rewrite lookup_omap, Hk. done.
  - rewrite (omap_insert_Some _ _ _ _ (Getenv s v)) by (cbn; by rewrite E).
    rewrite map_to_list_insert; [by rewrite IH|]. rewrite lookup_omap, Hk. done.
Qed.

Lemma fold_env_perm s l pm m :
  l ≡ₚ map_to_list pm → fold_left (env_line s) l m = env_overrides s pm ∪ m.
Proof.
  intros Hl. rewrite fold_env_line. apply set_all_perm.
  rewrite <-env_overrides_list. by rewrite Hl.
Qed.

(** *** Runs of the rewrite *)

Lemma param_place_file m p : param_place m p → ∀ t, m !! p ≠ Some (Symlink t).
Proof. intros [[c Hc] _] t. by rewrite Hc. Qed.

Lemma param_place_tmp m p : param_place m p → ∀ t, m !! path_append p ".tmp" ≠ Some (Symlink t).
Proof. intros [_ [[c Hc]|[Hc _]]] t; by rewrite Hc. Qed.

Lemma tmp_ne p : path_append p ".tmp" ≠ p.
Proof. by apply path_append_ne. Qed.

(** [os.Create] of the temporary file. *)
Lemma Create_tmp s p r s' :
  param_place (os_nodes s) p → Create (path_append p ".tmp") s = (r, s') →
  (is_ok r = false → os_nodes s' = os_nodes s) ∧ os_env s' = os_env s ∧
  (∀ h, r = Ok h → h = path_append p ".tmp" ∧
     os_nodes s' = <[h := File ""]> (os_nodes s)).
Proof.
  intros Hp. pose proof (param_place_tmp _ _ Hp) as Ht. unfold Create. munfold.
  destruct (syscall s) as [[[]|e] s1] eqn:Es; apply syscall_run in Es as [En Ee]; cbn.
  - unfold follow. rewrite En, resolve_id by done. cbn. unfold node_at. rewrite En.
    destruct Hp as [_ [[c Hc]|[Hc Hd]]].
    + rewrite Hc. cbn. intros [= <- <-]. cbn. rewrite En. naive_solver.
    + rewrite Hc. cbn. rewrite En, Hd. cbn. intros [= <- <-]. cbn. rewrite En. naive_solver.
  - intros [= <- <-]. naive_solver.
Qed.

Lemma write_lines_frame ps h buf l : h ∈ ps → preserves (frame ps) (write_lines h buf l).
Proof.
  intros Hh. revert buf. induction l as [|kv l IH]; intros buf; cbn [write_lines];
    [auto with trainer|].
  apply preserves_bind; [apply _|auto with trainer|done].
Qed.

Lemma write_lines_ok h buf l s c buf' s' :
  os_nodes s !! h = Some (File c) → write_lines h buf l s = (Ok buf', s') →
  ∃ c', os_nodes s' !! h = Some (File c') ∧ c' +:+ buf' = c +:+ buf +:+ render l.
Proof.
  revert buf s c. induction l as [|kv l IH]; intros buf s c Hc H; cbn [write_lines] in H.
  - munfold. simplify_eq. exists c. cbn [render]. by rewrite app_nil_r_str.
  - apply bind_ok_inv in H as (b1 & s1 & Hw & H).
    destruct (bufWrite_ok _ _ _ _ _ _ _ Hc Hw) as (c1 & Hc1 & E1).
    destruct (IH _ _ _ Hc1 H) as (c2 & Hc2 & E2). exists c2. split; [done|].
    cbn [render]. by rewrite E2, <-app_assoc_str, E1, !app_assoc_str.
Qed.

Lemma Rename_run s old new r s' c :
  old ≠ new → os_nodes s !! old = Some (File c) → (∃ c', os_nodes s !! new = Some (File c')) →
  Rename old new s = (r, s') →
  os_env s' = os_env s ∧
  match r with
  | Ok _ => os_nodes s' = <[new := File c]> (delete old (os_nodes s))
  | Err _ => os_nodes s' = os_nodes s
  end.
Proof.
  intros Hne Hold [c' Hnew]. unfold Rename. munfold.
  destruct (syscall s) as [[[]|e] s1] eqn:Es; apply syscall_run in Es as [En Ee]; cbn.
  - unfold node_at. rewrite En, Hold, Hnew. cbn. intros [= <- <-]. cbn. by rewrite En.
  - by intros [= <- <-].
Qed.

Lemma Close_frame ps h : preserves (frame ps) (Close h).
Proof. apply syscall_frame. Qed.

Lemma Remove_frame ps p : p ∈ ps → preserves (frame ps) (Remove p).
Proof.
  intros Hp. apply preserves_bind; [apply _|auto with trainer|intros _].
  apply preserves_bind; [apply _|by intros s|]. intros [[c| |t]|].
  - by apply upd_delete_frame.
  - auto with trainer.
  - by apply upd_delete_frame.
  - apply preserves_bind; [apply _|by intros s|auto with trainer].
Qed.

#[export] Hint Resolve write_lines_frame Close_frame Remove_frame : trainer.

(** The error exits: the temporary file is closed and removed, nothing else
    changes and the error is returned. *)
Lemma abandon_run {A} t (e : goerror) s r s' :
  (try (Close t);; try (Remove t);; throw (A:=A) e) s = (r, s') → r = Err e ∧ frame [t] s s'.
Proof.
  assert (preserves (frame [t]) (try (Close t);; try (Remove t);; throw (A:=A) e)) as F.
  { repeat (apply preserves_bind; [apply _| |intros _]); auto using list_elem_of_here with trainer. }
  intros H. specialize (F s). rewrite H in F. split; [|done].
  revert H. unfold try, throw. munfold. by repeat case_match; intros; simplify_eq.
Qed.

Lemma remove_run {A} t (e : goerror) s r s' :
  (try (Remove t);; throw (A:=A) e) s = (r, s') → r = Err e ∧ frame [t] s s'.
Proof.
  pose proof (Remove_frame [t] t (list_elem_of_here _ _) s) as F.
  unfold try, throw. munfold. destruct (Remove t s) as [r1 s1]. by intros [= <- <-].
Qed.

Lemma frame_other ps s s' q : frame ps s s' → q ∉ ps → os_nodes s' !! q = os_nodes s !! q.
Proof. intros [_ H]. apply H. Qed.

(** What decides the run of [writeParams] on the file system: the outcome. *)
Definition write_outcome (p : path) (text : string) (s : os) (r : result unit) (s' : os) : Prop :=
  match r with
  | Ok _ => os_env s' = os_env s ∧
            os_nodes s' = <[p := File text]> (delete (path_append p ".tmp") (os_nodes s))
  | Err _ => frame [path_append p ".tmp"] s s'
  end.

(** The last two steps: close the temporary file and rename it. *)
Lemma finish_run p text s0 s r s' :
  let t := path_append p ".tmp" in
  (∃ c, os_nodes s0 !! p = Some (File c)) → frame [t] s0 s →
  os_nodes s !! t = Some (File text) →
  (r ← try (Close t);
   match r with Err e => try (Remove t);; throw e | Ok _ => Rename t p end) s = (r, s') →
  write_outcome p text s0 r s'.
Proof.
  intros t [c0 Hc0] F Hc. unfold mbind at 1, M_bind at 1, try at 1.
  assert (p ∉ [t]) as Hpt by (rewrite list_elem_of_singleton; intros E; by apply (tmp_ne p)).
  pose proof (Close_frame [t] t s) as F4.
  destruct (Close t s) as [[[]|e] s4] eqn:Ecl; cbn in F4; apply syscall_run in Ecl as [En4 _].
  2:{ intros [-> F5]%remove_run. cbn. fold t. by do 2 (etransitivity; [eassumption|]). }
  assert (frame [t] s0 s4) as F' by by etransitivity.
  intros H. eapply Rename_run in H as [He Hr].
  - destruct r as [[]|e]; cbn; fold t.
    + split; [rewrite He; apply F'|]. rewrite Hr. apply map_eq. intros q.
      destruct (decide (q = p)) as [->|Hqp]; [by rewrite !lookup_insert_eq|].
      rewrite !(lookup_insert_ne _ p) by done.
      destruct (decide (q = t)) as [->|Hqt]; [by rewrite !lookup_delete_eq|].
      rewrite !lookup_delete_ne by done. apply (frame_other _ _ _ _ F'). set_solver.
    + transitivity s4; [done|]. split; [done|]. intros q _. by rewrite Hr.
  - apply tmp_ne.
  - by rewrite En4.
  - exists c0. by rewrite (frame_other _ _ _ _ F').
Qed.

(** The whole of [writeParams] in one statement: what it returns decides what
    happened to the file system. *)
Lemma writeParams_run range p m s r s' :
  param_place (os_nodes s) p → writeParams range p m s = (r, s') →
  write_outcome p (render (range m)) s r s'.
Proof.
  intros Hp. unfold writeParams. set (t := path_append p ".tmp").
  assert (t ∈ [t]) as Htt by apply list_elem_of_here.
  unfold mbind at 1, M_bind at 1.
  destruct (Create t s) as [[h|e] s1] eqn:Ec;
    pose proof (Create_tmp _ _ _ _ Hp Ec) as (Hfail & Henv & Hok).
  2:{ intros [= <- <-]. split; [done|]. intros q _. by rewrite Hfail. }
  destruct (Hok h eq_refl) as [-> Hn1]. clear Hok Hfail. fold t in Hn1 |- *.
  assert (frame [t] s s1) as F1.
  { split; [done|]. intros q Hq. rewrite Hn1, lookup_insert_ne; [done|]. intros ->. by apply Hq. }
  assert (os_nodes s1 !! t = Some (File "")) as Hc1 by by rewrite Hn1, lookup_insert_eq.
  unfold mbind at 1, M_bind at 1, try at 1.
  pose proof (write_lines_frame [t] t "" (range m) Htt s1) as F2.
  destruct (write_lines t "" (range m) s1) as [[w|e] s2] eqn:Ew; cbn in F2.
  2:{ intros [-> F3]%abandon_run. cbn. fold t. by do 2 (etransitivity; [eassumption|]). }
  destruct (write_lines_ok _ _ _ _ _ _ _ Hc1 Ew) as (c2 & Hc2 & E2). cbn in E2.
  unfold mbind at 1, M_bind at 1, try at 1.
  pose proof (bufFlush_frame [t] t w Htt s2) as F3.
  destruct (bufFlush t w s2) as [[[]|e] s3] eqn:Ef; cbn in F3.
  2:{ intros [-> F4]%abandon_run. cbn. fold t. by do 3 (etransitivity; [eassumption|]). }
  pose proof (bufFlush_ok _ _ _ _ _ Hc2 Ef) as Hc3. rewrite E2 in Hc3.
  apply finish_run; [apply Hp| |done]. by do 2 (etransitivity; [eassumption|]).
Qed.

(** *** Runs without system-call failures *)

Lemma Write_quiet h d s : quiet s →
  ∃ s', Write h d s = (Ok tt, s') ∧ quiet s'.
Proof.
  unfold quiet, Write, next_fault, append_file, upd_nodes. munfold. intros H. rewrite H.
  eexists. by split.
Qed.

Lemma bufWrite_quiet h b d s : quiet s → ∃ b' s', bufWrite h b d s = (Ok b', s') ∧ quiet s'.
Proof.
  intros Hq. unfold bufWrite. repeat case_decide; [by do 2 eexists|..].
  all: edestruct (Write_quiet h) as (s1 & W1 & Q1); [exact Hq|]; rewrite (bind_ok _ _ _ _ _ W1).
  - by do 2 eexists.
  - by do 2 eexists.
  - edestruct (Write_quiet h) as (s2 & W2 & Q2); [exact Q1|]. rewrite (bind_ok _ _ _ _ _ W2).
    by do 2 eexists.
Qed.

Lemma write_lines_quiet h b l s : quiet s →
  ∃ b' s', write_lines h b l s = (Ok b', s') ∧ quiet s'.
Proof.
  revert b s. induction l as [|kv l IH]; intros b s Hq; cbn [write_lines]; [by do 2 eexists|].
  destruct (bufWrite_quiet h b (line_of kv) s Hq) as (b1 & s1 & H1 & Q1).
  rewrite (bind_ok _ _ _ _ _ H1). by apply IH.
Qed.

Lemma bufFlush_quiet h b s : quiet s → ∃ s', bufFlush h b s = (Ok tt, s') ∧ quiet s'.
Proof.
  intros Hq. unfold bufFlush. case_decide; [by eexists|by apply Write_quiet].
Qed.

Lemma Create_quiet p s :
  quiet s → param_place (os_nodes s) p →
  ∃ s', Create (path_append p ".tmp") s = (Ok (path_append p ".tmp"), s') ∧ quiet s'.
Proof.
  intros Hq Hp. pose proof (param_place_tmp _ _ Hp) as Ht.
  unfold Create. rewrite (bind_ok _ _ _ _ _ (syscall_quiet s Hq)).
  unfold follow. munfold. rewrite resolve_id by done. cbn. unfold node_at.
  destruct Hp as [_ [[c Hc]|[Hc Hd]]]; rewrite Hc; cbn; [by eexists|].
  rewrite Hd. by eexists.
Qed.

Lemma Rename_quiet s old new c c' :
  quiet s → os_nodes s !! old = Some (File c) → os_nodes s !! new = Some (File c') →
  ∃ s', Rename old new s = (Ok tt, s') ∧ quiet s'.
Proof.
  intros Hq Ho Hn. unfold Rename. rewrite (bind_ok _ _ _ _ _ (syscall_quiet s Hq)).
  unfold node_at. munfold. rewrite Ho, Hn. by eexists.
Qed.

(** Without failures the rewrite succeeds. *)
Lemma writeParams_quiet range p m s :
  quiet s → param_place (os_nodes s) p →
  ∃ s', writeParams range p m s = (Ok tt, s') ∧ quiet s'.
Proof.
  intros Hq Hp. set (t := path_append p ".tmp"). unfold writeParams. fold t.
  destruct (Create_quiet p s Hq Hp) as (s1 & H1 & Q1). fold t in H1.
  rewrite (bind_ok _ _ _ _ _ H1).
  destruct (Create_tmp _ _ _ _ Hp H1) as (_ & _ & Hok).
  destruct (Hok _ eq_refl) as [_ Hn1]. clear Hok. fold t in Hn1.
  assert (os_nodes s1 !! t = Some (File "")) as Hc1 by by rewrite Hn1, lookup_insert_eq.
  destruct Hp as [[c0 Hc0] _].
  assert (os_nodes s1 !! p = Some (File c0)) as Hc0'.
  { rewrite Hn1, lookup_insert_ne; [done|]. apply tmp_ne. }
  destruct (write_lines_quiet t "" (range m) s1 Q1) as (w & s2 & H2 & Q2).
  destruct (write_lines_ok _ _ _ _ _ _ _ Hc1 H2) as (c2 & Hc2 & _).
  pose proof (write_lines_frame [t] t "" (range m) (list_elem_of_here _ _) s1) as F2.
  unfold mbind at 1, M_bind at 1, try at 1. rewrite H2 in F2 |- *. cbn in F2.
  destruct (bufFlush_quiet t w s2 Q2) as (s3 & H3 & Q3).
  pose proof (bufFlush_frame [t] t w (list_elem_of_here _ _) s2) as F3.
  unfold mbind at 1, M_bind at 1, try at 1. rewrite H3 in F3 |- *. cbn in F3.
  unfold mbind at 1, M_bind at 1, try at 1, Close. rewrite (syscall_quiet s3 Q3).
  eapply Rename_quiet; [done|by eapply bufFlush_ok|].
  rewrite (frame_other [t] s2 s3), (frame_other [t] s1 s2) by
    (done || (rewrite list_elem_of_singleton; intros E; by apply (tmp_ne p))). done.
Qed.

Lemma Stat_file s p c : quiet s → os_nodes s !! p = Some (File c) → Stat p s = (Ok (File c), s).
Proof.
  intros Hq Hc. unfold Stat. rewrite (bind_ok _ _ _ _ _ (syscall_quiet s Hq)).
  unfold follow. munfold. rewrite resolve_id by (intros t; by rewrite Hc). cbn.
  unfold node_at. by rewrite Hc.
Qed.

(** The parameters a file text stands for. *)
Definition parse (c : string) : result (gmap string string) :=
  match scan_lines c with
  | (lines, None) => Ok (fold_left read_line lines ∅)
  | (_, Some e) => Err e
  end.

Lemma readParams_quiet s p c :
  quiet s → os_nodes s !! p = Some (File c) → readParams p s = (parse c, s).
Proof.
  intros Hq Hc. unfold readParams. rewrite (bind_ok _ _ _ _ _ (ReadFile_quiet s p c Hq Hc)).
  unfold parse. by destruct (scan_lines c) as [ls [e|]].
Qed.

Lemma parse_wf c m : parse c = Ok m → wf_params m.
Proof.
  unfold parse. destruct (scan_lines c) as [ts [e|]] eqn:E; [done|]. intros [= <-].
  apply fold_read_wf; [|apply map_Forall_empty]. intros t Ht. by eapply scan_lines_tokens.
Qed.

Lemma parse_render l m : l ≡ₚ map_to_list m → wf_params m → parse (render l) = Ok m.
Proof. intros Hl Hm. unfold parse. destruct (read_render l m Hl Hm) as [-> ->]. done. Qed.

Lemma ReadFile_frame ps p : preserves (frame ps) (ReadFile p).
Proof.
  apply preserves_bind; [apply _|auto with trainer|intros _].
  apply preserves_bind; [apply _| |intros q].
  { intros s. unfold follow. by destruct (resolve _ _ _). }
  apply preserves_bind; [apply _|by intros s|].
  intros [[c| |t]|]; auto with trainer.
  - apply preserves_bind; [apply _|auto with trainer|auto with trainer].
  - apply preserves_bind; [apply _|by intros s|auto with trainer].
Qed.

Lemma Stat_frame ps p : preserves (frame ps) (Stat p).
Proof.
  apply preserves_bind; [apply _|auto with trainer|intros _].
  apply preserves_bind; [apply _| |intros q].
  { intros s. unfold follow. by destruct (resolve _ _ _). }
  apply preserves_bind; [apply _|by intros s|].
  intros [n|]; auto with trainer.
  apply preserves_bind; [apply _|by intros s|auto with trainer].
Qed.

Lemma readParams_frame ps p : preserves (frame ps) (readParams p).
Proof.
  apply preserves_bind; [apply _|apply ReadFile_frame|]. intros c.
  destruct (scan_lines c) as [ls [e|]]; auto with trainer.
Qed.

#[export] Hint Resolve ReadFile_frame Stat_frame readParams_frame : trainer.

Lemma frame_nil_any ps s s' : frame [] s s' → frame ps s s'.
Proof. apply frame_mono. set_solver. Qed.

(** *** The two operations on [params.env], as one *)

(** Both apply functions are: look for the file, read it, compute new
    parameters, write it back. *)
Definition update_file (write : gmap string string → M os unit) (p : path)
    (new : os → gmap string string → gmap string string) : M os unit :=
  r ← try (Stat p);
  match r with
  | Err e => if IsNotExist e then mret tt else throw e
  | Ok _ =>
      params ← wrapping "reading params.env" (readParams p);
      s ← get;
      write (new s params)
  end.

Lemma update_file_run range p new s r s' :
  param_place (os_nodes s) p → update_file (writeParams range p) p new s = (r, s') →
  match r with
  | Ok _ => os_env s' = os_env s ∧
      ((os_nodes s' = os_nodes s) ∨
       ∃ s1 m, frame [] s s1 ∧
         os_nodes s' = <[p := File (render (range (new s1 m)))]>
                         (delete (path_append p ".tmp") (os_nodes s)))
  | Err _ => frame [path_append p ".tmp"] s s'
  end.
Proof.
  intros Hp. unfold update_file. unfold mbind at 1, M_bind at 1, try at 1.
  pose proof (Stat_frame [] p s) as F1. destruct (Stat p s) as [r1 s1]. cbn in F1.
  destruct r1 as [n|e].
  2:{ destruct (IsNotExist e); intros [= <- <-]; [|by apply frame_nil_any].
      split; [apply F1|]. left. by apply frame_nil_nodes. }
  unfold mbind at 1, M_bind at 1, wrapping.
  pose proof (readParams_frame [] p s1) as F2.
  destruct (readParams p s1) as [[m|e] s2]; cbn in F2 |- *; pose proof (frame_trans _ _ _ _ F1 F2) as F.
  2:{ intros [= <- <-]. by apply frame_nil_any. }
  intros H. apply writeParams_run in H; [|by rewrite (frame_nil_nodes _ _ F)].
  destruct r as [[]|e]; cbn in H.
  - destruct H as [He Hn]. split; [rewrite He; apply F|]. right. exists s2, m.
    split; [done|]. by rewrite Hn, (frame_nil_nodes _ _ F).
  - transitivity s2; [by apply frame_nil_any|done].
Qed.

(** The state after a rewrite of the file [p] with the parameters [m]. *)
Definition rewritten (range : gmap string string → list (string * string)) (p : path)
    (m : gmap string string) (s s' : os) : Prop :=
  quiet s' ∧ os_env s' = os_env s ∧
  os_nodes s' = <[p := File (render (range m))]> (delete (path_append p ".tmp") (os_nodes s)).

Lemma rewritten_read range p m s s' : enumerates range → wf_params m → rewritten range p m s s' →
  readParams p s' = (Ok m, s').
Proof.
  intros Hr Hw (Hq & _ & Hn).
  rewrite (readParams_quiet _ _ (render (range m))); [|done|by rewrite Hn, lookup_insert_eq].
  by rewrite (parse_render _ m).
Qed.

Lemma update_file_rewrites range p new s c m :
  quiet s → param_place (os_nodes s) p → os_nodes s !! p = Some (File c) → parse c = Ok m →
  ∃ s', update_file (writeParams range p) p new s = (Ok tt, s') ∧ rewritten range p (new s m) s s'.
Proof.
  intros Hq Hp Hc Hm. unfold update_file.
  unfold mbind at 1, M_bind at 1, try at 1. rewrite (Stat_file s p c Hq Hc).
  unfold mbind at 1, M_bind at 1, wrapping. rewrite (readParams_quiet s p c Hq Hc), Hm. cbn [wrap_err].
  unfold mbind, M_bind, get.
  destruct (writeParams_quiet range p (new s m) s Hq Hp) as (s' & H & Q). exists s'. split; [done|].
  apply writeParams_run in H as [He Hn]; [|done]. by split_and!.
Qed.

Lemma applyParamOverrides_update rs rd dir pm :
  ∀ s, applyParamOverrides rs rd dir pm s =
  update_file (writeParams rd (Join dir "params.env")) (Join dir "params.env")
    (λ s m, fold_left (env_line s) (rs pm) m) s.
Proof. done. Qed.

Lemma applyStaticParams_update rs rd dir values :
  ∀ s, applyStaticParams rs rd dir values s =
  update_file (writeParams rd (Join dir "params.env")) (Join dir "params.env")
    (λ _ m, set_all (rs values) m) s.
Proof. done. Qed.

(** Both operations on a file that parses, with no failing call. *)
Lemma applyParamOverrides_rewrites rs rd dir pm s c m :
  let p := Join dir "params.env" in
  quiet s → param_place (os_nodes s) p → os_nodes s !! p = Some (File c) → parse c = Ok m →
  enumerates rs →
  ∃ s', applyParamOverrides rs rd dir pm s = (Ok tt, s') ∧ rewritten rd p (env_overrides s pm ∪ m) s s'.
Proof.
  intros p Hq Hp Hc Hm Hr. rewrite applyParamOverrides_update, <-(fold_env_perm s (rs pm) pm m (Hr pm)).
  by apply (update_file_rewrites rd p (λ s m, fold_left (env_line s) (rs pm) m) s c m).
Qed.

Lemma applyStaticParams_rewrites rs rd dir values s c m :
  let p := Join dir "params.env" in
  quiet s → param_place (os_nodes s) p → os_nodes s !! p = Some (File c) → parse c = Ok m →
  enumerates rs →
  ∃ s', applyStaticParams rs rd dir values s = (Ok tt, s') ∧ rewritten rd p (values ∪ m) s s'.
Proof.
  intros p Hq Hp Hc Hm Hr. rewrite applyStaticParams_update, <-(set_all_perm (rs values) values m (Hr values)).
  by apply (update_file_rewrites rd p (λ _ m, set_all (rs values) m) s c m).
Qed.

Lemma scan_pieces_long ps p : p ∈ ps → fits_buffer p = false → (scan_pieces ps).2 = Some ErrTooLong.
Proof.
  intros Hp Hf. induction ps as [|q ps IH]; [by apply elem_of_nil in Hp|]. cbn.
  destruct (fits_buffer q) eqn:E; [|done].
  apply elem_of_cons in Hp as [->|Hp]; [congruence|].
  specialize (IH Hp). by destruct (scan_pieces ps) as [ts e].
Qed.

Lemma parse_long c p : p ∈ raw_lines c → fits_buffer p = false → parse c = Err ErrTooLong.
Proof.
  intros Hp Hf. unfold parse, scan_lines. pose proof (scan_pieces_long _ _ Hp Hf) as H.
  destruct (scan_pieces (raw_lines c)) as [ts e]. cbn in H. by subst e.
Qed.

(** ** Properties *)

(** C37: Round trip. Without system-call failures, writing well-formed
    parameters succeeds, in whatever order the map is enumerated, and reading
    the file back gives exactly the same parameters. *)
Theorem params_roundtrip range p m s
    (Hq : quiet s) (Hp : param_place (os_nodes s) p)
    (Hr : enumerates range) (Hm : wf_params m) :
  ∃ s', writeParams range p m s = (Ok tt, s') ∧ readParams p s' = (Ok m, s').
Proof.
  destruct (writeParams_quiet range p m s Hq Hp) as (s' & H & Q). exists s'. split; [done|].
  apply writeParams_run in H as [_ Hn]; [|done].
  rewrite (readParams_quiet _ _ (render (range m))); [|done|by rewrite Hn, lookup_insert_eq].
  by rewrite (parse_render _ m).
Qed.

(** Whatever [readParams] returns for a file is well formed, so writing it
    back and reading again loses nothing, for any file content. *)
Theorem params_rewrite_stable range p s m s1
    (Hq : quiet s) (Hp : param_place (os_nodes s) p) (Hr : enumerates range)
    (Hread : readParams p s = (Ok m, s1)) :
  wf_params m ∧
  ∃ s2, writeParams range p m s1 = (Ok tt, s2) ∧ readParams p s2 = (Ok m, s2).
Proof.
  pose proof Hp as [[c Hc] _].
  rewrite (readParams_quiet s p c Hq Hc) in Hread. injection Hread as Hparse <-.
  pose proof (parse_wf _ _ Hparse) as Hm. split; [done|].
  destruct (writeParams_quiet range p m s Hq Hp) as (s2 & H & Q). exists s2. split; [done|].
  apply writeParams_run in H as [_ Hn]; [|done].
  rewrite (readParams_quiet _ _ (render (range m))); [|done|by rewrite Hn, lookup_insert_eq].
  by rewrite (parse_render _ m).
Qed.

(** C22: Atomicity. Whatever system calls fail, [writeParams] leaves either the
    complete new text in the file and no temporary file (success), or the file
    as it was (failure); no other file changes and nothing but the temporary
    file is ever left behind. *)
Theorem writeParams_atomic range p m s r s'
    (Hp : param_place (os_nodes s) p) (Hrun : writeParams range p m s = (r, s')) :
  (∀ q, q ≠ p → q ≠ path_append p ".tmp" → os_nodes s' !! q = os_nodes s !! q) ∧
  match r with
  | Ok _ => os_nodes s' !! p = Some (File (render (range m))) ∧
            os_nodes s' !! path_append p ".tmp" = None
  | Err _ => os_nodes s' !! p = os_nodes s !! p
  end.
Proof.
  apply writeParams_run in Hrun; [|done]. pose proof (tmp_ne p) as Hne.
  destruct r as [[]|e]; cbn in Hrun.
  - destruct Hrun as [_ ->]. split.
    + intros q Hq Hq'. by rewrite lookup_insert_ne, lookup_delete_ne by done.
    + rewrite lookup_insert_eq, lookup_insert_ne, lookup_delete_eq by done. done.
  - split; [intros q Hq Hq'|]; apply (frame_other _ _ _ _ Hrun); set_solver.
Qed.

(** C23: [applyParamOverrides] sets exactly the mapped parameters whose
    environment variable is non-empty, keeps every other one, and does not
    depend on the order in which the maps are enumerated. *)
Theorem applyParamOverrides_spec rs rd dir pm s c m
    (Hq : quiet s) (Hp : param_place (os_nodes s) (Join dir "params.env"))
    (Hrs : enumerates rs) (Hrd : enumerates rd)
    (Hc : os_nodes s !! Join dir "params.env" = Some (File c)) (Hm : parse c = Ok m)
    (Hw : wf_params (env_overrides s pm)) :
  ∃ s', applyParamOverrides rs rd dir pm s = (Ok tt, s') ∧
    readParams (Join dir "params.env") s' = (Ok (env_overrides s pm ∪ m), s').
Proof.
  destruct (applyParamOverrides_rewrites rs rd dir pm s c m) as (s' & Hrun & Hs'); [done..|].
  exists s'. split; [done|]. eapply rewritten_read; [done| |done].
  apply wf_params_union; [done|by eapply parse_wf].
Qed.

(** [applyStaticParams] sets every given key to its value and keeps the
    other parameters of the file. *)
Theorem applyStaticParams_spec rs rd dir values s c m
    (Hq : quiet s) (Hp : param_place (os_nodes s) (Join dir "params.env"))
    (Hrs : enumerates rs) (Hrd : enumerates rd)
    (Hc : os_nodes s !! Join dir "params.env" = Some (File c)) (Hm : parse c = Ok m)
    (Hw : wf_params values) :
  ∃ s', applyStaticParams rs rd dir values s = (Ok tt, s') ∧
    readParams (Join dir "params.env") s' = (Ok (values ∪ m), s').
Proof.
  destruct (applyStaticParams_rewrites rs rd dir values s c m) as (s' & Hrun & Hs'); [done..|].
  exists s'. split; [done|]. eapply rewritten_read; [done| |done].
  apply wf_params_union; [done|by eapply parse_wf].
Qed.

(** Error paths of both apply functions: with no [params.env] they do
    nothing and succeed; another failure of [Stat] is returned as it is; a file
    with a line that does not fit the scanner's buffer is reported and left
    alone; and after any failure whatsoever the file still holds its old text. *)
Theorem apply_params_errors rs rd dir pm values s
    (Hp : param_place (os_nodes s) (Join dir "params.env")) :
  let p := Join dir "params.env" in
  (∀ e s1, Stat p s = (Err e, s1) →
     applyParamOverrides rs rd dir pm s = (if IsNotExist e then Ok tt else Err e, s1) ∧
     applyStaticParams rs rd dir values s = (if IsNotExist e then Ok tt else Err e, s1) ∧
     os_nodes s1 = os_nodes s) ∧
  (∀ c l, quiet s → os_nodes s !! p = Some (File c) → l ∈ raw_lines c → fits_buffer l = false →
     applyParamOverrides rs rd dir pm s = (Err (ErrWrap "reading params.env" ErrTooLong), s) ∧
     applyStaticParams rs rd dir values s = (Err (ErrWrap "reading params.env" ErrTooLong), s)) ∧
  (∀ e s', applyParamOverrides rs rd dir pm s = (Err e, s') ∨
           applyStaticParams rs rd dir values s = (Err e, s') →
     os_nodes s' !! p = os_nodes s !! p).
Proof.
  intros p. split_and!.
  - intros e s1 H. pose proof (Stat_frame [] p s) as F. rewrite H in F. cbn in F.
    unfold applyParamOverrides, applyStaticParams. fold p. unfold mbind, M_bind, try. rewrite H.
    split_and!; [by destruct (IsNotExist e)..|by apply frame_nil_nodes].
  - intros c l Hq Hc Hl Hf. unfold applyParamOverrides, applyStaticParams. fold p.
    unfold mbind, M_bind, try, wrapping.
    by rewrite (Stat_file s p c), (readParams_quiet s p c), (parse_long c l).
  - intros e s' [H|H]; [rewrite applyParamOverrides_update in H|rewrite applyStaticParams_update in H];
      apply update_file_run in H; try done; apply (frame_other _ _ _ _ H);
      rewrite list_elem_of_singleton; intros E; by apply (tmp_ne p).
Qed.

(** *** Witnesses *)

Definition ex_dir : path := ["work"; "rhoai"].
Definition ex_text : string :=
  "operator-namespace=opendatahub" +:+ newline +:+ "# images" +:+ newline +:+
  imageParamControllerImage +:+ "=default-image" +:+ newline.
Definition ex_os : os := OS
  (list_to_map [([], Dir); (["work"], Dir); (ex_dir, Dir); (Join ex_dir "params.env", File ex_text)])
  (list_to_map [("RELATED_IMAGE_ODH_TRAINER_IMAGE", "override-image")]) [].
Definition ex_params : gmap string string :=
  list_to_map [("operator-namespace", "opendatahub"); (imageParamControllerImage, "default-image")].

Lemma ex_place : param_place (os_nodes ex_os) (Join ex_dir "params.env").
Proof. split; [by eexists|]. right. done. Qed.

Lemma enumerates_self : enumerates map_to_list.
Proof. by intros m. Qed.

Lemma ex_parse : parse ex_text = Ok ex_params.
Proof. apply (bool_decide_unpack _). vm_compute. done. Qed.

Lemma params_roundtrip_witness :
  ∃ s', writeParams map_to_list (Join ex_dir "params.env") ex_params ex_os = (Ok tt, s') ∧
        readParams (Join ex_dir "params.env") s' = (Ok ex_params, s').
Proof.
  apply params_roundtrip; [done|apply ex_place|apply enumerates_self|].
  apply (bool_decide_unpack _). vm_compute. done.
Defined.

Lemma params_rewrite_stable_witness :
  wf_params ex_params ∧
  ∃ s2, writeParams map_to_list (Join ex_dir "params.env") ex_params ex_os = (Ok tt, s2) ∧
        readParams (Join ex_dir "params.env") s2 = (Ok ex_params, s2).
Proof.
  apply (params_rewrite_stable map_to_list _ ex_os); [done|apply ex_place|apply enumerates_self|].
  by rewrite (readParams_quiet _ _ ex_text), ex_parse.
Defined.

(** The rename fails: the file is unchanged and the temporary file remains. *)
Lemma writeParams_atomic_witness :
  os_nodes (writeParams map_to_list (Join ex_dir "params.env") ex_params
    (set_faults [None; None; None; Some (Fault (ErrNew "rename") 0)] ex_os)).2
    !! Join ex_dir "params.env" = Some (File ex_text).
Proof.
  pose proof (writeParams_atomic map_to_list (Join ex_dir "params.env") ex_params
    (set_faults [None; None; None; Some (Fault (ErrNew "rename") 0)] ex_os) _ _
    ex_place (surjective_pairing _)) as [_ H].
  vm_compute in H |- *. exact H.
Defined.

Lemma applyParamOverrides_spec_witness :
  ∃ s', applyParamOverrides map_to_list map_to_list ex_dir trainerImageParamMap ex_os = (Ok tt, s') ∧
    readParams (Join ex_dir "params.env") s' =
      (Ok (env_overrides ex_os trainerImageParamMap ∪ ex_params), s').
Proof.
  apply (applyParamOverrides_spec _ _ _ _ _ ex_text); [done|apply ex_place|apply enumerates_self..|done| |].
  - apply ex_parse.
  - apply (bool_decide_unpack _). vm_compute. done.
Defined.

Lemma applyStaticParams_spec_witness :
  ∃ s', applyStaticParams map_to_list map_to_list ex_dir {[paramOperatorNamespace := "apps"]} ex_os
          = (Ok tt, s') ∧
    readParams (Join ex_dir "params.env") s' =
      (Ok ({[paramOperatorNamespace := "apps"]} ∪ ex_params), s').
Proof.
  apply (applyStaticParams_spec _ _ _ _ _ ex_text); [done|apply ex_place|apply enumerates_self..|done| |].
  - apply ex_parse.
  - apply (bool_decide_unpack _). vm_compute. done.
Defined.

Lemma apply_params_errors_witness :
  applyStaticParams map_to_list map_to_list ex_dir ∅
    (set_faults [Some (Fault (ErrForeign "EACCES" "stat: permission denied") 0)] ex_os)
  = (Err (ErrForeign "EACCES" "stat: permission denied"), ex_os).
Proof.
  destruct (apply_params_errors map_to_list map_to_list ex_dir ∅ ∅
    (set_faults [Some (Fault (ErrForeign "EACCES" "stat: permission denied") 0)] ex_os) ex_place)
    as (H & _).
  exact (proj1 (proj2 (H (ErrForeign "EACCES" "stat: permission denied") ex_os eq_refl))).
Defined.
