(* ===== verification/Kube.v ===== *)
(** What the operator asks of Kubernetes and of the libraries it is linked
    with, as interfaces: unstructured objects, the API clients, the condition
    manager.  The components are written against these classes; the laws say
    what the documentation of that code promises. *)

From S2P Require Import Prelude.
Open Scope string_scope.
Open Scope nat_scope.
Open Scope list_scope.

(** ** Definitions *)

Record GroupVersionResource := GVR { gvr_group : string; gvr_version : string; gvr_resource : string }.
Record GroupVersionKind := GVK { gvk_group : string; gvk_version : string; gvk_kind : string }.
Record GroupKind := GK { gk_group : string; gk_kind : string }.

#[export] Instance gvr_eq_dec : EqDecision GroupVersionResource.
Proof. solve_decision. Defined.
#[export] Instance gvk_eq_dec : EqDecision GroupVersionKind.
Proof. solve_decision. Defined.
#[export] Instance gk_eq_dec : EqDecision GroupKind.
Proof. solve_decision. Defined.

(** *** Unstructured objects *)

(** [O] is [map[string]interface{}] (the [Object] of an [Unstructured]) and
    [V] is [interface{}].  A getter that returns [(val, found, err)] is a
    [result (option A)]: an error, not found, or found. *)
Class Objects (O V : Type) := {
  GetKind : O → string;
  GetName : O → string;
  GetNamespace : O → string;
  GroupVersionKindOf : O → GroupVersionKind;
  GetFinalizers : O → list string;
  SetFinalizers : list string → O → O;
  (** [!GetDeletionTimestamp().IsZero()] *)
  IsDeleting : O → bool;
  (** [v.(map[string]interface{})] *)
  asMap : V → option O;
  NestedString : O → list string → result (option string);
  NestedSlice : O → list string → result (option (list V));
  NestedStringMap : O → list string → result (option (gmap string string));
  (** [unstructured.NestedFieldNoCopy] *)
  NestedField : O → list string → result (option V);
  SetNestedString : string → list string → O → result O;
  SetNestedStringMap : gmap string string → list string → O → result O;
}.

(** The first field of a path belongs to the type and object metadata. *)
Definition metadata_field (f : string) : bool :=
  bool_decide (f ∈ ["kind"; "apiVersion"; "metadata"]).

(** Two paths to fields, neither of which contains the other. *)
Definition unrelated (p q : list string) : Prop := ¬ p `prefix_of` q ∧ ¬ q `prefix_of` p.

Class ObjectsLaws (O V : Type) `{!Objects O V} : Prop := {
  get_set_finalizers l (o : O) : GetFinalizers (SetFinalizers l o) = l;
  name_set_finalizers l (o : O) : GetName (SetFinalizers l o) = GetName o;
  namespace_set_finalizers l (o : O) : GetNamespace (SetFinalizers l o) = GetNamespace o;
  get_set_string s f fs (o o' : O) : SetNestedString s (f :: fs) o = Ok o' →
    NestedString o' (f :: fs) = Ok (Some s);
  set_string_meta s f fs (o o' : O) : metadata_field f = false →
    SetNestedString s (f :: fs) o = Ok o' →
    GetKind o' = GetKind o ∧ GetName o' = GetName o ∧ GetNamespace o' = GetNamespace o;
  get_set_string_map m f fs (o o' : O) : SetNestedStringMap m (f :: fs) o = Ok o' →
    NestedStringMap o' (f :: fs) = Ok (Some m);
  set_string_map_meta m f fs (o o' : O) : metadata_field f = false →
    SetNestedStringMap m (f :: fs) o = Ok o' →
    GetKind o' = GetKind o ∧ GetName o' = GetName o ∧ GetNamespace o' = GetNamespace o;
  (** A setter changes the field it is for, and nothing beside it. *)
  set_string_state s f fs (o o' : O) : metadata_field f = false → SetNestedString s (f :: fs) o = Ok o' →
    GroupVersionKindOf o' = GroupVersionKindOf o ∧ GetFinalizers o' = GetFinalizers o ∧ IsDeleting o' = IsDeleting o;
  set_string_beside s fs (o o' : O) p : SetNestedString s fs o = Ok o' → unrelated p fs →
    NestedField o' p = NestedField o p;
  set_string_map_state m f fs (o o' : O) : metadata_field f = false → SetNestedStringMap m (f :: fs) o = Ok o' →
    GroupVersionKindOf o' = GroupVersionKindOf o ∧ GetFinalizers o' = GetFinalizers o ∧ IsDeleting o' = IsDeleting o;
  set_string_map_beside m fs (o o' : O) p : SetNestedStringMap m fs o = Ok o' → unrelated p fs →
    NestedField o' p = NestedField o p;
}.

(** *** API errors and clients *)

Class ApiErrors := {
  IsNotFound : goerror → bool;
  IsAlreadyExists : goerror → bool;
}.

(** The controller-runtime client and the uncached API reader, over a cluster
    state [K] that any call may read and change. *)
Class CtrlClient (K : Type) := {
  (** [c.Get(ctx, ObjectKey{Name: name}, &corev1.Namespace{})] *)
  GetNamespaceObj : string → M K unit;
  (** [c.Create(ctx, &corev1.Namespace{Name, Labels})] *)
  CreateNamespace : string → gmap string string → M K unit;
  (** [c.Delete(ctx, obj)] for an object of a kind, a name and a namespace *)
  ClientDelete : GroupVersionKind → string → string → M K unit;
  (** [apiReader.Get(ctx, ObjectKey{Name, Namespace}, &corev1.ConfigMap{})]: its [Data] *)
  ReaderGetConfigMap : string → string → M K (gmap string string);
}.

(** [dynamic.Interface]: [Resource(gvr).Namespace(ns)] with [List], [Update]
    and [Delete] (the last with its propagation policy). *)
Class DynamicClient (O K : Type) := {
  DynList : GroupVersionResource → string → string → M K (list O);
  DynUpdate : GroupVersionResource → string → O → M K unit;
  DynDelete : GroupVersionResource → string → string → string → M K unit;
}.

(** The parts of odh-platform-utilities that look at the cluster. *)
Class PlatformUtils (O K : Type) := {
  DetectClusterType : M K string;
  ClusterTypeOpenShift : string;
  (** [cluster.CustomResourceDefinitionExists]: an error when it is missing or
      not established *)
  CustomResourceDefinitionExists : GroupKind → M K unit;
  (** [olm.OperatorExists]: the version found *)
  OperatorExists : string → M K string;
  (** [cluster.GetSingleton] for an object of a kind *)
  GetSingleton : GroupVersionKind → M K O;
}.

(** The condition manager of a reconciliation request. *)
Class ConditionManager (C : Type) := {
  MarkTrue : string → string → string → C → C;
  MarkFalse : string → string → string → C → C;
}.

(** *** A quiescent store behind the dynamic client *)

(** What the dynamic client promises when nobody else writes: [List] returns
    the objects its selector selects, [Update] replaces one object (and may let
    it go when it was only waiting for its finalizers), [Delete] removes one
    object or marks it as being deleted, and a failed call changes nothing. *)
Class DynamicStore (O V K : Type) `{!Objects O V, !ApiErrors, !DynamicClient O K} := {
  store : K → GroupVersionResource → gmap (string * string) O;
  selected : string → O → bool;
  store_key k g key (o : O) : store k g !! key = Some o → key = (GetNamespace o, GetName o);
  list_ok g sel k items k' : DynList g "" sel k = (Ok items, k') →
    (∀ g', store k' g' = store k g') ∧
    (∀ o, o ∈ items ↔ ∃ key, store k g !! key = Some o ∧ selected sel o = true);
  list_err g sel k e k' : DynList g "" sel k = (Err e, k') → ∀ g', store k' g' = store k g';
  (** [List] answers 404 when the resource is not served: there are no objects. *)
  list_missing g sel k e k' : DynList g "" sel k = (Err e, k') → IsNotFound e = true →
    store k g = ∅;
  update_ok g ns (o : O) k k' : DynUpdate g ns o k = (Ok tt, k') →
    (∀ g', g' ≠ g → store k' g' = store k g') ∧
    (∀ key, key ≠ (ns, GetName o) → store k' g !! key = store k g !! key) ∧
    (∀ o', store k' g !! (ns, GetName o) = Some o' → GetFinalizers o' = GetFinalizers o);
  update_err g ns (o : O) k e k' : DynUpdate g ns o k = (Err e, k') →
    ∀ g', store k' g' = store k g';
  delete_ok g ns name pol k k' : DynDelete g ns name pol k = (Ok tt, k') →
    (∀ g', g' ≠ g → store k' g' = store k g') ∧
    (∀ key, key ≠ (ns, name) → store k' g !! key = store k g !! key) ∧
    (∀ o', store k' g !! (ns, name) = Some o' → IsDeleting o' = true);
  delete_err g ns name pol k e k' : DynDelete g ns name pol k = (Err e, k') →
    ∀ g', store k' g' = store k g';
}.

(** *** Traces *)

(** The calls that change the cluster or its runtimes, with their outcome. *)
Inductive event (O : Type) : Type :=
| EvList (g : GroupVersionResource) (ns selector : string) (r : result (list O))
| EvUpdate (g : GroupVersionResource) (ns : string) (o : O) (r : result unit)
| EvDelete (g : GroupVersionResource) (ns name policy : string) (r : result unit)
| EvClientDelete (k : GroupVersionKind) (name ns : string) (r : result unit).
Arguments EvList {O} g ns selector r.
Arguments EvUpdate {O} g ns o r.
Arguments EvDelete {O} g ns name policy r.
Arguments EvClientDelete {O} k name ns r.

(** A client over [K] that also writes down its calls, the latest last.  The
    client below it is arbitrary: what is proved of the trace holds for every
    behaviour of the API server and of the other writers. *)
Definition traced (O K : Type) : Type := (list (event O) * K).

Definition log_call {O K A} (ev : result A → event O) (m : M K A) : M (traced O K) A :=
  λ '(t, k), let '(r, k') := m k in (r, (t ++ [ev r], k')).

#[export] Instance traced_dynamic {O K} `{!DynamicClient O K} : DynamicClient O (traced O K) := {|
  DynList g ns sel := log_call (EvList g ns sel) (DynList g ns sel);
  DynUpdate g ns o := log_call (EvUpdate g ns o) (DynUpdate g ns o);
  DynDelete g ns name pol := log_call (EvDelete g ns name pol) (DynDelete g ns name pol);
|}.

(** Reads are passed through; deletions are written down. *)
Definition on_cluster {O K A} (m : M K A) : M (traced O K) A :=
  λ '(t, k), let '(r, k') := m k in (r, (t, k')).

#[export] Instance traced_client {O K} `{!CtrlClient K} : CtrlClient (traced O K) := {|
  GetNamespaceObj n := on_cluster (GetNamespaceObj n);
  CreateNamespace n l := on_cluster (CreateNamespace n l);
  ClientDelete g n ns := log_call (EvClientDelete g n ns) (ClientDelete g n ns);
  ReaderGetConfigMap n ns := on_cluster (ReaderGetConfigMap n ns);
|}.

(** ** Lemmas *)

Section traced_calls.
Context {O K : Type} `{!DynamicClient O K}.

Lemma traced_list g ns sel t (k : K) :
  DynList (K:=traced O K) g ns sel (t, k) =
  let '(r, k') := DynList g ns sel k in (r, (t ++ [EvList g ns sel r], k')).
Proof. done. Qed.

Lemma traced_update g ns o t (k : K) :
  DynUpdate (K:=traced O K) g ns o (t, k) =
  let '(r, k') := DynUpdate g ns o k in (r, (t ++ [EvUpdate g ns o r], k')).
Proof. done. Qed.

Lemma traced_delete g ns name pol t (k : K) :
  DynDelete (K:=traced O K) g ns name pol (t, k) =
  let '(r, k') := DynDelete (O:=O) g ns name pol k in (r, (t ++ [EvDelete g ns name pol r], k')).
Proof. done. Qed.

End traced_calls.
