(* ===== verification/Scheme.v ===== *)
(** [api/v1alpha1/groupversion_info.go] and the [init] of [cmd/main.go]: the
    registration of the types in the scheme. *)

From S2P Require Import Prelude Kube.
Open Scope string_scope.
Open Scope nat_scope.
Open Scope list_scope.

(** ** Definitions *)

Record GroupVersion := GV { gv_group : string; gv_version : string }.

Definition gv_kind (gv : GroupVersion) (kind : string) : GroupVersionKind :=
  GVK (gv_group gv) (gv_version gv) kind.

(** [runtime.Scheme] and [metav1.AddToGroupVersion]: a registration adds the
    given kinds and removes none. *)
Class SchemeOps (S : Type) := {
  AddKnownTypes : GroupVersion → list string → S → S;
  AddToGroupVersion : GroupVersion → S → S;
  Recognizes : S → GroupVersionKind → Prop;
  known_added gv kinds s k : k ∈ kinds → Recognizes (AddKnownTypes gv kinds s) (gv_kind gv k);
  known_kept gv kinds s k : Recognizes s k → Recognizes (AddKnownTypes gv kinds s) k;
  version_kept gv s k : Recognizes s k → Recognizes (AddToGroupVersion gv s) k;
}.

(** The variable [GroupVersion] of the package. *)
Definition api_group_version : GroupVersion := GV "components.platform.opendatahub.io" "v1alpha1".

Section scheme.
Context {S : Type} `{!SchemeOps S}.

Definition addKnownTypes : M S unit :=
  modify (AddKnownTypes api_group_version ["Trainer"; "TrainerList"]);;
  modify (AddToGroupVersion api_group_version);;
  mret tt.

(** [runtime.NewSchemeBuilder] keeps the functions, and [AddToScheme] calls
    them in their order, up to the first error. *)
Definition SchemeBuilder : list (M S unit) := [addKnownTypes].
Definition AddToScheme : M S unit := forM SchemeBuilder id.

(** [utilruntime.Must]: an error is a panic. *)
Definition Must (m : M S unit) : M S unit := λ s,
  match m s with
  | (Err e, s') => (Err (ErrForeign "panic" (Error e)), s')
  | (Ok u, s') => (Ok u, s')
  end.

(** The registrations of client-go, of the CRDs, of the trainer's API and of
    OpenShift's configuration. *)
Context (clientgoscheme_AddToScheme apiextensions_AddToScheme trainer_AddToScheme configv1_Install : M S unit).

Definition init : M S unit :=
  Must clientgoscheme_AddToScheme;;
  Must apiextensions_AddToScheme;;
  Must AddToScheme;;
  Must trainer_AddToScheme;;
  Must configv1_Install.

End scheme.

(** *** Specification *)

Section spec.
Context {S : Type} `{!SchemeOps S}.

(** What was known stays known. *)
Definition knows_more (s s' : S) : Prop := ∀ k, Recognizes s k → Recognizes s' k.

#[export] Instance knows_more_refl : Reflexive knows_more.
Proof. by intros s k. Qed.
#[export] Instance knows_more_trans : Transitive knows_more.
Proof. intros s1 s2 s3 H1 H2 k Hk. by apply H2, H1. Qed.

(** A registration function: it forgets nothing, and when it succeeds the kinds
    [ks] are known. *)
Definition registers (ks : list GroupVersionKind) (m : M S unit) : Prop :=
  preserves knows_more m ∧ ∀ s s', m s = (Ok tt, s') → ∀ k, k ∈ ks → Recognizes s' k.

(** ** Lemmas *)

Lemma addKnownTypes_registers :
  registers [gv_kind api_group_version "Trainer"; gv_kind api_group_version "TrainerList"] addKnownTypes.
Proof.
  split.
  - intros s k Hk. cbn. by apply version_kept, known_kept.
  - intros s s' [= <-] k Hk. apply version_kept.
    repeat (apply elem_of_cons in Hk as [->|Hk]; [apply known_added; set_solver|]). by apply elem_of_nil in Hk.
Qed.

Lemma Must_registers ks m : registers ks m → registers ks (Must m).
Proof.
  intros [Hk Hr]. split.
  - intros s. unfold Must. specialize (Hk s). by destruct (m s) as [[]].
  - intros s s' H. apply (Hr s s'). unfold Must in H. by destruct (m s) as [[[]|]].
Qed.

Lemma registers_bind ks1 ks2 m1 (m2 : M S unit) : registers ks1 m1 → registers ks2 m2 →
  registers (ks1 ++ ks2) (m1;; m2).
Proof.
  intros [K1 R1] [K2 R2]. split.
  - apply preserves_bind; [apply _|done|by intros []].
  - intros s s' ([] & s1 & H1 & H2)%bind_ok_inv k [Hk|Hk]%elem_of_app.
    + pose proof (K2 s1) as Hm. rewrite H2 in Hm. apply Hm. by eapply R1.
    + by eapply R2.
Qed.

Lemma registers_sub ks ks' m : ks' ⊆ ks → registers ks m → registers ks' m.
Proof. intros Hs [Hk Hr]. split; [done|]. intros s s' H k Hin. apply (Hr s s' H). by apply Hs. Qed.

Lemma AddToScheme_registers :
  registers [gv_kind api_group_version "Trainer"; gv_kind api_group_version "TrainerList"] AddToScheme.
Proof.
  destruct addKnownTypes_registers as [Hk Hr]. unfold AddToScheme, SchemeBuilder. split.
  - intros s. rewrite forM_cons. unfold id. specialize (Hk s). by destruct (addKnownTypes s) as [[[]|]].
  - intros s s'. rewrite forM_cons. unfold id. destruct (addKnownTypes s) as [[[]|] s1] eqn:E; [|done].
    rewrite forM_nil. intros [= <-]. by eapply Hr.
Qed.

Lemma init_known (clientgo apiext trainer config : M S unit) k1 k2 k4 k5 :
  registers k1 clientgo → registers k2 apiext → registers k4 trainer → registers k5 config →
  registers (k1 ++ k2 ++ [gv_kind api_group_version "Trainer"; gv_kind api_group_version "TrainerList"] ++ k4 ++ k5)
    (init clientgo apiext trainer config).
Proof.
  intros H1 H2 H4 H5. pose proof AddToScheme_registers as H3. unfold init.
  repeat (apply registers_bind; [by apply Must_registers|]). by apply Must_registers.
Qed.

End spec.
