(* ===== verification/ApiTypes.v ===== *)
(** [api/v1alpha1/trainer_types.go]: the Trainer custom resource, and the
    namespace the controller resolves from it. *)

From S2P Require Import Prelude.
Open Scope string_scope.
Open Scope nat_scope.
Open Scope list_scope.

(** ** Definitions *)

(** [fwapi.Condition] and [fwapi.ComponentRelease], the fields in use. *)
Record Condition := MkCondition {
  cond_type : string; cond_status : string; cond_reason : string; cond_message : string }.

Record ComponentRelease := MkRelease {
  rel_name : string; rel_version : string; rel_repo : string }.

#[export] Instance condition_eq_dec : EqDecision Condition.
Proof. solve_decision. Defined.
#[export] Instance release_eq_dec : EqDecision ComponentRelease.
Proof. solve_decision. Defined.

(** [corev1.ResourceRequirements] is not looked at: it is kept as the text of
    its encoding. *)
Record ControllerResources := MkControllerResources {
  cr_name : string; cr_resources : string }.

Record TrainerSpec := MkSpec {
  AppNamespace : string;
  FeatureGates : option (gmap string bool);
  Controllers : option (list ControllerResources) }.

Record TrainerStatus := MkStatus {
  Phase : string;
  Conditions : list Condition;
  Releases : list ComponentRelease }.

Record Trainer := MkTrainer {
  trainer_name : string;
  Spec : TrainerSpec;
  Status : TrainerStatus }.

Definition GetConditions (t : Trainer) : list Condition := Conditions (Status t).
Definition SetConditions (conditions : list Condition) (t : Trainer) : Trainer :=
  MkTrainer (trainer_name t) (Spec t)
    (MkStatus (Phase (Status t)) conditions (Releases (Status t))).

Definition GetReleaseStatus (t : Trainer) : list ComponentRelease := Releases (Status t).
Definition SetReleaseStatus (status : list ComponentRelease) (t : Trainer) : Trainer :=
  MkTrainer (trainer_name t) (Spec t)
    (MkStatus (Phase (Status t)) (Conditions (Status t)) status).

Definition TrainerInstanceName : string := "default-trainer".
Definition trainerPartOf : string := "trainer".
Definition defaultNamespace : string := "opendatahub".
Definition finalizerName : string := "components.platform.opendatahub.io/trainer-cleanup".

(** [labels.PlatformPartOf] of odh-platform-utilities, with the value the tests
    spell out. *)
Definition PlatformPartOf : string := "platform.opendatahub.io/part-of".

Definition resolveNamespace (trainer : Trainer) : string :=
  if bool_decide (AppNamespace (Spec trainer) = "") then defaultNamespace
  else AppNamespace (Spec trainer).

(** ** Lemmas *)

Lemma resolveNamespace_ne t : resolveNamespace t ≠ "".
Proof. unfold resolveNamespace. by case_bool_decide. Qed.
