(* ===== verification/KubeStore.v ===== *)
(** A small API server: an implementation of the interfaces of [Kube] on
    finite maps, with failures that can be scheduled.  It shows that their laws
    can hold together, and the witnesses of the development run on it. *)

From S2P Require Import Prelude Kube.
Open Scope string_scope.
Open Scope nat_scope.
Open Scope list_scope.

(** ** Definitions *)

Inductive json : Type :=
| JNull
| JBool (b : bool)
| JNum (z : Z)
| JStr (s : string)
| JList (l : list json)
| JMap (m : list (string * json)).

Fixpoint assoc (f : string) (m : list (string * json)) : option json :=
  match m with
  | [] => None
  | (g, v) :: m' => if bool_decide (g = f) then Some v else assoc f m'
  end.

Fixpoint assoc_set (f : string) (v : json) (m : list (string * json)) : list (string * json) :=
  match m with
  | [] => [(f, v)]
  | (g, w) :: m' => if bool_decide (g = f) then (f, v) :: m' else (g, w) :: assoc_set f v m'
  end.

Definition accessor_error : goerror := ErrNew "accessor error: expected map[string]interface{}".

Fixpoint nested_get (v : json) (fields : list string) : result (option json) :=
  match fields with
  | [] => Ok (Some v)
  | f :: fs =>
      match v with
      | JNull => Ok None
      | JMap m => match assoc f m with Some v' => nested_get v' fs | None => Ok None end
      | _ => Err accessor_error
      end
  end.

Fixpoint nested_set (v : json) (fields : list string) (m : list (string * json)) :
    result (list (string * json)) :=
  match fields with
  | [] => Ok m
  | [f] => Ok (assoc_set f v m)
  | f :: fs =>
      match assoc f m with
      | Some (JMap m') => m'' ← nested_set v fs m'; mret (assoc_set f (JMap m'') m)
      | Some _ => Err accessor_error
      | None => m'' ← nested_set v fs []; mret (assoc_set f (JMap m'') m)
      end
  end.

Definition typed {A} (cast : json → option A) (r : result (option json)) : result (option A) :=
  match r with
  | Ok (Some v) => match cast v with Some a => Ok (Some a) | None => Err accessor_error end
  | Ok None => Ok None
  | Err e => Err e
  end.

Definition as_string (v : json) : option string := match v with JStr s => Some s | _ => None end.
Definition as_slice (v : json) : option (list json) := match v with JList l => Some l | _ => None end.
Definition as_string_map (v : json) : option (gmap string string) :=
  match v with
  | JMap m => list_to_map <$> mapM (λ '(f, w), s ← as_string w; Some (f, s)) m
  | _ => None
  end.
Definition of_string_map (m : gmap string string) : json :=
  JMap ((λ '(f, s), (f, JStr s)) <$> map_to_list m).

(** An object: its metadata and its other fields. *)
Record obj := Obj {
  o_gvk : GroupVersionKind;
  o_name : string;
  o_ns : string;
  o_labels : gmap string string;
  o_finalizers : list string;
  o_deleting : bool;
  o_body : list (string * json) }.

Definition set_finalizers (l : list string) (o : obj) : obj :=
  Obj (o_gvk o) (o_name o) (o_ns o) (o_labels o) l (o_deleting o) (o_body o).
Definition set_deleting (d : bool) (o : obj) : obj :=
  Obj (o_gvk o) (o_name o) (o_ns o) (o_labels o) (o_finalizers o) d (o_body o).
Definition set_body (b : list (string * json)) (o : obj) : obj :=
  Obj (o_gvk o) (o_name o) (o_ns o) (o_labels o) (o_finalizers o) (o_deleting o) b.

Definition plain_obj (m : list (string * json)) : obj := Obj (GVK "" "" "") "" "" ∅ [] false m.

#[export] Instance obj_objects : Objects obj json := {|
  GetKind o := gvk_kind (o_gvk o);
  GetName := o_name;
  GetNamespace := o_ns;
  GroupVersionKindOf := o_gvk;
  GetFinalizers := o_finalizers;
  SetFinalizers := set_finalizers;
  IsDeleting := o_deleting;
  asMap v := match v with JMap m => Some (plain_obj m) | _ => None end;
  NestedString o fs := typed as_string (nested_get (JMap (o_body o)) fs);
  NestedSlice o fs := typed as_slice (nested_get (JMap (o_body o)) fs);
  NestedStringMap o fs := typed as_string_map (nested_get (JMap (o_body o)) fs);
  NestedField o fs := nested_get (JMap (o_body o)) fs;
  SetNestedString s fs o := b ← nested_set (JStr s) fs (o_body o); mret (set_body b o);
  SetNestedStringMap m fs o := b ← nested_set (of_string_map m) fs (o_body o); mret (set_body b o);
|}.

(** An error kept for what an API server answers. *)
Definition api_kind (k : string) (e : goerror) : bool :=
  match Cause e with ErrForeign k' _ => bool_decide (k' = k) | _ => false end.

#[export] Instance store_errors : ApiErrors := {|
  IsNotFound := api_kind "NotFound";
  IsAlreadyExists := api_kind "AlreadyExists";
|}.

(** What an API call meets: nothing special, an internal server error, or
    another client that has just created a namespace. *)
Inductive api_fault : Type :=
| ApiFine
| ApiError (msg : string)
| OtherCreates (ns : string) (labels : gmap string string).

Record cluster := Cluster {
  c_store : GroupVersionResource → gmap (string * string) obj;
  c_served : GroupVersionResource → bool;
  c_namespaces : gmap string (gmap string string);
  c_configmaps : gmap (string * string) (gmap string string);
  c_deployed : list (GroupVersionKind * (string * string));
  c_type : string;
  c_crds : list GroupKind;
  c_operators : gmap string string;
  c_singletons : list (GroupVersionKind * obj);
  (** what happens at the next calls *)
  c_faults : list api_fault }.

Definition well_keyed (kv : string * string * obj) : Prop := kv.1 = (o_ns kv.2, o_name kv.2).

Definition objects_of (k : cluster) (g : GroupVersionResource) : gmap (string * string) obj :=
  if c_served k g then filter well_keyed (c_store k g) else ∅.

Definition set_store (g : GroupVersionResource) (m : gmap (string * string) obj) (k : cluster) : cluster :=
  Cluster (λ g', if bool_decide (g' = g) then m else c_store k g') (c_served k) (c_namespaces k)
    (c_configmaps k) (c_deployed k) (c_type k) (c_crds k) (c_operators k) (c_singletons k) (c_faults k).

Definition set_cfaults (f : list api_fault) (k : cluster) : cluster :=
  Cluster (c_store k) (c_served k) (c_namespaces k) (c_configmaps k) (c_deployed k) (c_type k)
    (c_crds k) (c_operators k) (c_singletons k) f.

Definition set_namespaces (n : gmap string (gmap string string)) (k : cluster) : cluster :=
  Cluster (c_store k) (c_served k) n (c_configmaps k) (c_deployed k) (c_type k)
    (c_crds k) (c_operators k) (c_singletons k) (c_faults k).

(** Every call starts here. *)
Definition api_call : M cluster unit := λ k,
  match c_faults k with
  | [] => (Ok tt, k)
  | ApiFine :: fs => (Ok tt, set_cfaults fs k)
  | ApiError msg :: fs => (Err (ErrForeign "InternalError" msg), set_cfaults fs k)
  | OtherCreates n labels :: fs =>
      (Ok tt, set_cfaults fs (set_namespaces (c_namespaces k ∪ {[n := labels]}) k))
  end.

Definition not_found (what : string) : goerror := ErrForeign "NotFound" (what +:+ " not found").

Definition label_selects (sel : string) (o : obj) : bool :=
  existsb (λ kv : string * string, bool_decide (kv.1 +:+ "=" +:+ kv.2 = sel)) (map_to_list (o_labels o)).

Definition store_list (g : GroupVersionResource) (ns sel : string) : M cluster (list obj) :=
  api_call;;
  k ← get;
  if c_served k g then
    mret (filter (λ o, (ns = "" ∨ o_ns o = ns) ∧ label_selects sel o = true)
            (snd <$> map_to_list (objects_of k g)))
  else throw (not_found (gvr_resource g)).

Definition store_update (g : GroupVersionResource) (ns : string) (o : obj) : M cluster unit :=
  api_call;;
  k ← get;
  match objects_of k g !! (ns, o_name o) with
  | None => throw (not_found (o_name o))
  | Some old =>
      if bool_decide (o_ns o = ns) then
        if o_deleting old && bool_decide (o_finalizers o = [])
        then put (set_store g (delete (ns, o_name o) (objects_of k g)) k)
        else put (set_store g (<[(ns, o_name o) := set_deleting (o_deleting old) o]> (objects_of k g)) k)
      else throw (ErrForeign "BadRequest" "the namespace of the object does not match")
  end.

Definition store_delete (g : GroupVersionResource) (ns name policy : string) : M cluster unit :=
  api_call;;
  k ← get;
  match objects_of k g !! (ns, name) with
  | None => throw (not_found name)
  | Some o =>
      if bool_decide (o_finalizers o = [])
      then put (set_store g (delete (ns, name) (objects_of k g)) k)
      else put (set_store g (<[(ns, name) := set_deleting true o]> (objects_of k g)) k)
  end.

#[export] Instance store_dynamic : DynamicClient obj cluster := {|
  DynList := store_list;
  DynUpdate := store_update;
  DynDelete := store_delete;
|}.

Definition set_deployed (d : list (GroupVersionKind * (string * string))) (k : cluster) : cluster :=
  Cluster (c_store k) (c_served k) (c_namespaces k) (c_configmaps k) d (c_type k)
    (c_crds k) (c_operators k) (c_singletons k) (c_faults k).

#[export] Instance store_client : CtrlClient cluster := {|
  GetNamespaceObj n :=
    api_call;; k ← get;
    match c_namespaces k !! n with Some _ => mret tt | None => throw (not_found n) end;
  CreateNamespace n labels :=
    api_call;; k ← get;
    match c_namespaces k !! n with
    | Some _ => throw (ErrForeign "AlreadyExists" (n +:+ " already exists"))
    | None => put (set_namespaces (<[n := labels]> (c_namespaces k)) k)
    end;
  ClientDelete g name ns :=
    api_call;; k ← get;
    if bool_decide ((g, (name, ns)) ∈ c_deployed k)
    then put (set_deployed (filter (λ x, x ≠ (g, (name, ns))) (c_deployed k)) k)
    else throw (not_found name);
  ReaderGetConfigMap name ns :=
    api_call;; k ← get;
    match c_configmaps k !! (ns, name) with Some d => mret d | None => throw (not_found name) end;
|}.

#[export] Instance store_platform : PlatformUtils obj cluster := {|
  DetectClusterType := api_call;; k ← get; mret (c_type k);
  ClusterTypeOpenShift := "OpenShift";
  CustomResourceDefinitionExists gk :=
    api_call;; k ← get;
    if bool_decide (gk ∈ c_crds k) then mret tt else throw (not_found (gk_kind gk));
  OperatorExists name :=
    api_call;; k ← get;
    match c_operators k !! name with Some v => mret v | None => throw (not_found name) end;
  GetSingleton g :=
    api_call;; k ← get;
    match list_find (λ x, x.1 = g) (c_singletons k) with
    | Some (_, (_, o)) => mret o
    | None => throw (not_found (gvk_kind g))
    end;
|}.

(** Conditions by type: status, reason and message. *)
#[export] Instance map_conditions : ConditionManager (gmap string (bool * string * string)) := {|
  MarkTrue t reason msg := <[t := (true, reason, msg)]>;
  MarkFalse t reason msg := <[t := (false, reason, msg)]>;
|}.

Definition empty_cluster : cluster :=
  Cluster (λ _, ∅) (λ _, true) ∅ ∅ [] "Kubernetes" [] ∅ [] [].

(** ** Lemmas *)

Lemma assoc_set_eq f v m : assoc f (assoc_set f v m) = Some v.
Proof.
  induction m as [|[g w] m IH]; cbn; [by rewrite bool_decide_eq_true_2|].
  case_bool_decide as Hg; cbn; [by rewrite bool_decide_eq_true_2|]. by rewrite bool_decide_eq_false_2.
Qed.

Lemma nested_get_set v f fs m m' :
  nested_set v (f :: fs) m = Ok m' → nested_get (JMap m') (f :: fs) = Ok (Some v).
Proof.
  revert f m m'. induction fs as [|g fs IH]; intros f m m'.
  - cbn. intros [= <-]. by rewrite assoc_set_eq.
  - change (nested_set v (f :: g :: fs) m) with
      (match assoc f m with
       | Some (JMap m') => m'' ← nested_set v (g :: fs) m'; mret (assoc_set f (JMap m'') m)
       | Some _ => Err accessor_error
       | None => m'' ← nested_set v (g :: fs) []; mret (assoc_set f (JMap m'') m)
       end).
    intros H.
    assert (∃ m1 m2, nested_set v (g :: fs) m1 = Ok m2 ∧ m' = assoc_set f (JMap m2) m)
      as (m1 & m2 & Hs & ->).
    { munfold. destruct (assoc f m) as [[]|]; try done;
        match type of H with context [nested_set v (g :: fs) ?x] =>
          destruct (nested_set v (g :: fs) x) as [m2|] eqn:E end; by simplify_eq; eauto. }
    change (match assoc f (assoc_set f (JMap m2) m) with
            | Some v' => nested_get v' (g :: fs) | None => Ok None end = Ok (Some v)).
    rewrite assoc_set_eq. by eapply IH.
Qed.

Lemma assoc_set_ne f g v m : g ≠ f → assoc g (assoc_set f v m) = assoc g m.
Proof.
  intros Hg. induction m as [|[h w] m IH]; cbn; [by rewrite bool_decide_eq_false_2|].
  case_bool_decide as Hh; cbn; [subst; by rewrite bool_decide_eq_false_2|]. by rewrite IH.
Qed.

(** A nested assignment leaves what is beside its path. *)
Lemma nested_get_beside v fs m m' p :
  nested_set v fs m = Ok m' → unrelated p fs → nested_get (JMap m') p = nested_get (JMap m) p.
Proof.
  revert m m' p. induction fs as [|f fs IH]; intros m m' p Hs [Hp Hq]; [by destruct Hq; apply prefix_nil|].
  destruct p as [|g p]; [by destruct Hp; apply prefix_nil|].
  assert (∃ m1 m2, nested_set v fs m1 = Ok m2 ∧ m' = assoc_set f (if fs is [] then v else JMap m2) m ∧
    (assoc f m = Some (JMap m1) ∨ (assoc f m = None ∧ m1 = []) ∨ fs = [])) as (m1 & m2 & Hm & -> & Ha).
  { destruct fs as [|h fs]; [exists [], []; injection Hs as <-; split_and!; auto|].
    cbn [nested_set] in Hs. cbn [nested_set]. munfold.
    destruct (assoc f m) as [[]|] eqn:E; try done;
      match type of Hs with context [match ?x with Ok _ => _ | Err _ => _ end] =>
        destruct x as [m2|] eqn:E2 end; simplify_eq; eauto 10. }
  cbn [nested_get]. destruct (decide (g = f)) as [->|Hg]; [|by rewrite assoc_set_ne].
  rewrite assoc_set_eq. destruct fs as [|h fs]; [destruct Hq; apply prefix_cons, prefix_nil|].
  assert (unrelated p (h :: fs)) as Hu by (split; intros Hx; [apply Hp|apply Hq]; by apply prefix_cons).
  rewrite (IH _ _ _ Hm Hu). destruct Ha as [-> |[[-> ->]|?]]; [done| |done].
  destruct p; [by destruct (proj1 Hu); apply prefix_nil|done].
Qed.

Lemma as_of_string_map m : as_string_map (of_string_map m) = Some m.
Proof.
  cbn. assert (∀ l : list (string * string),
    mapM (λ '(f, w), s ← as_string w; Some (f, s)) ((λ '(f, s), (f, JStr s)) <$> l) = Some l) as ->.
  { induction l as [|[f s] l IH]; [done|]. cbn. by rewrite IH. }
  cbn. by rewrite list_to_map_to_list.
Qed.

#[export] Instance obj_laws : ObjectsLaws obj json.
Proof.
  split; try done.
  - intros s f fs o o'. cbn [SetNestedString NestedString obj_objects].
    destruct (nested_set _ _ _) as [b|] eqn:E; [|done]. intros [= <-].
    cbn [o_body set_body]. by rewrite (nested_get_set _ _ _ _ _ E).
  - intros s f fs o o' _. cbn [SetNestedString obj_objects].
    destruct (nested_set _ _ _) as [b|] eqn:E; [|done]. by intros [= <-].
  - intros m f fs o o'. cbn [SetNestedStringMap NestedStringMap obj_objects].
    destruct (nested_set _ _ _) as [b|] eqn:E; [|done]. intros [= <-].
    cbn [o_body set_body]. rewrite (nested_get_set _ _ _ _ _ E).
    unfold typed. by rewrite as_of_string_map.
  - intros s f fs o o' _. cbn [SetNestedStringMap obj_objects].
    destruct (nested_set _ _ _) as [b|] eqn:E; [|done]. by intros [= <-].
  - intros s f fs o o' _. cbn [SetNestedString obj_objects].
    destruct (nested_set _ _ _) as [b|] eqn:E; [|done]. by intros [= <-].
  - intros s fs o o' p. cbn [SetNestedString NestedField obj_objects].
    destruct (nested_set _ _ _) as [b|] eqn:E; [|done]. intros [= <-]. by eapply nested_get_beside.
  - intros s f fs o o' _. cbn [SetNestedStringMap obj_objects].
    destruct (nested_set _ _ _) as [b|] eqn:E; [|done]. by intros [= <-].
  - intros m fs o o' p. cbn [SetNestedStringMap NestedField obj_objects].
    destruct (nested_set _ _ _) as [b|] eqn:E; [|done]. intros [= <-]. by eapply nested_get_beside.
Qed.

Lemma api_call_run k r k' : api_call k = (r, k') →
  (∀ g, objects_of k' g = objects_of k g) ∧ c_served k' = c_served k ∧
  ∀ e, r = Err e → IsNotFound e = false.
Proof.
  unfold api_call. destruct (c_faults k) as [|[|f|n l] fs]; intros [= <- <-]; by split_and!; naive_solver.
Qed.

Lemma api_call_namespaces k r k' : api_call k = (r, k') →
  c_namespaces k ⊆ c_namespaces k' ∧
  match r with Ok _ => True | Err e => IsNotFound e = false ∧ IsAlreadyExists e = false end.
Proof.
  unfold api_call. destruct (c_faults k) as [|[|f|n l] fs]; intros [= <- <-]; try done.
  split; [|done]. cbn. apply map_union_subseteq_l.
Qed.

Lemma objects_set_other g g' m k : g' ≠ g → objects_of (set_store g m k) g' = objects_of k g'.
Proof. intros H. unfold objects_of. cbn. by rewrite bool_decide_eq_false_2. Qed.

Lemma objects_well_keyed k g key o : objects_of k g !! key = Some o → key = (o_ns o, o_name o).
Proof.
  unfold objects_of. destruct (c_served k g); [|by rewrite lookup_empty].
  by intros [_ H]%map_lookup_filter_Some.
Qed.

Lemma objects_set_same (k : cluster) (g : GroupVersionResource) (m : gmap (string * string) obj) :
  c_served k g = true → (∀ key o, m !! key = Some o → key = (o_ns o, o_name o)) →
  objects_of (set_store g m k) g = m.
Proof.
  intros Hs Hm. unfold objects_of. cbn. rewrite Hs, bool_decide_eq_true_2 by done.
  apply map_filter_id. intros key o H. by apply Hm.
Qed.

Lemma objects_served k g key o : objects_of k g !! key = Some o → c_served k g = true.
Proof. unfold objects_of. destruct (c_served k g); [done|]. by rewrite lookup_empty. Qed.

(** Replacing one object by another under the same key. *)
Lemma objects_replace (k : cluster) (g : GroupVersionResource) (key : string * string) (old : obj) (m : gmap (string * string) obj) :
  objects_of k g !! key = Some old →
  (m = delete key (objects_of k g) ∨
   ∃ o, m = <[key := o]> (objects_of k g) ∧ key = (o_ns o, o_name o)) →
  objects_of (set_store g m k) g = m ∧ ∀ key', key' ≠ key → m !! key' = objects_of k g !! key'.
Proof.
  intros Hold Hm. split.
  - apply objects_set_same; [by eapply objects_served|]. intros key' o' H.
    destruct Hm as [->|(o & -> & Hk)].
    + apply lookup_delete_Some in H as [_ H]. by eapply objects_well_keyed.
    + apply lookup_insert_Some in H as [[<- <-]|[_ H]]; [done|by eapply objects_well_keyed].
  - intros key' Hne. destruct Hm as [->|(o & -> & Hk)];
      [by rewrite lookup_delete_ne|by rewrite lookup_insert_ne].
Qed.

(** Use [objects_replace] for the [put] in the goal. *)
Ltac replaced Eo Hsame Hother :=
  match type of Eo with objects_of ?k ?g !! _ = _ =>
    match goal with |- context [set_store g ?m k] =>
      destruct (objects_replace k g _ _ m Eo) as [Hsame Hother];
      [first [by left | right; eexists; split; [reflexivity|cbn; congruence]]|]
    end
  end.

Lemma store_list_run g sel k r k' : store_list g "" sel k = (r, k') →
  (∀ g', objects_of k' g' = objects_of k g') ∧
  match r with
  | Ok items => items = filter (λ o, ("" = "" ∨ o_ns o = "") ∧ label_selects sel o = true)
                          (snd <$> map_to_list (objects_of k g))
  | Err e => IsNotFound e = true → objects_of k g = ∅
  end.
Proof.
  unfold store_list. munfold. destruct (api_call k) as [[[]|e] k1] eqn:Ea;
    apply api_call_run in Ea as (Ho & Hs & Hn).
  - destruct (c_served k1 g) eqn:Eg; intros [= <- <-]; (split; [done|]).
    + by rewrite Ho.
    + intros _. unfold objects_of. rewrite <-Hs. by rewrite Eg.
  - intros [= <- <-]. split; [done|]. rewrite Hn by done. done.
Qed.

Lemma store_update_run g ns o k r k' : store_update g ns o k = (r, k') →
  match r with
  | Ok _ =>
      (∀ g', g' ≠ g → objects_of k' g' = objects_of k g') ∧
      (∀ key, key ≠ (ns, o_name o) → objects_of k' g !! key = objects_of k g !! key) ∧
      (∀ o', objects_of k' g !! (ns, o_name o) = Some o' → o_finalizers o' = o_finalizers o)
  | Err _ => ∀ g', objects_of k' g' = objects_of k g'
  end.
Proof.
  unfold store_update. munfold. destruct (api_call k) as [[[]|e] k1] eqn:Ea;
    apply api_call_run in Ea as (Ho & _ & _); [|by intros [= <- <-]].
  destruct (objects_of k1 g !! (ns, o_name o)) as [old|] eqn:Eo; [|by intros [= <- <-]].
  case_bool_decide as Hns; [|by intros [= <- <-]].
  destruct (o_deleting old && bool_decide (o_finalizers o = [])); intros [= <- <-];
    replaced Eo Hsame Hother;
    (split; [intros g' Hg; by rewrite objects_set_other, Ho|]); rewrite Hsame;
    (split; [intros key Hk; by rewrite Hother, Ho|]).
  - by rewrite lookup_delete_eq.
  - rewrite lookup_insert_eq. by intros o' [= <-].
Qed.

Lemma store_delete_run g ns name pol k r k' : store_delete g ns name pol k = (r, k') →
  match r with
  | Ok _ =>
      (∀ g', g' ≠ g → objects_of k' g' = objects_of k g') ∧
      (∀ key, key ≠ (ns, name) → objects_of k' g !! key = objects_of k g !! key) ∧
      (∀ o', objects_of k' g !! (ns, name) = Some o' → o_deleting o' = true)
  | Err _ => ∀ g', objects_of k' g' = objects_of k g'
  end.
Proof.
  unfold store_delete. munfold. destruct (api_call k) as [[[]|e] k1] eqn:Ea;
    apply api_call_run in Ea as (Ho & _ & _); [|by intros [= <- <-]].
  destruct (objects_of k1 g !! (ns, name)) as [old|] eqn:Eo; [|by intros [= <- <-]].
  pose proof (objects_well_keyed _ _ _ _ Eo) as Hk.
  case_bool_decide; intros [= <- <-];
    replaced Eo Hsame Hother;
    (split; [intros g' Hg; by rewrite objects_set_other, Ho|]); rewrite Hsame;
    (split; [intros key Hk'; by rewrite Hother, Ho|]).
  - by rewrite lookup_delete_eq.
  - rewrite lookup_insert_eq. by intros o' [= <-].
Qed.

#[export] Instance store_laws : DynamicStore obj json cluster.
Proof.
  refine {| store := objects_of; selected := label_selects |}.
  - intros k g key o. apply objects_well_keyed.
  - intros g sel k items k' H. apply store_list_run in H as [Ho ->]. split; [done|].
    intros o. rewrite list_elem_of_filter, list_elem_of_fmap. split.
    + intros ([_ Hs] & [key o'] & -> & Hin%elem_of_map_to_list). eauto.
    + intros (key & Hk & Hs). split; [by split; [left|]|]. exists (key, o).
      split; [done|]. by apply elem_of_map_to_list.
  - intros g sel k e k' H. by apply store_list_run in H as [Ho _].
  - intros g sel k e k' H. by apply store_list_run in H as [_ He].
  - intros g ns o k k' H. by apply store_update_run in H.
  - intros g ns o k e k' H. by apply store_update_run in H.
  - intros g ns name pol k k' H. by apply store_delete_run in H.
  - intros g ns name pol k e k' H. by apply store_delete_run in H.
Defined.
