(* ===== verification/Runtimes.v ===== *)
(** The clean-up of training runtimes in [internal/controller/trainer_controller.go]:
    stripping the legacy finalizer, deleting the labelled runtimes, and the
    finalizer action of the Trainer resource. *)

From S2P Require Import Prelude Kube ApiTypes KubeStore.
Open Scope string_scope.
Open Scope nat_scope.
Open Scope list_scope.

(** ** Definitions *)

Definition trainerKubeflowGroup := "trainer.kubeflow.org".
Definition trainerKubeflowVersion := "v1alpha1".
Definition clusterTrainingRuntimeResource := "clustertrainingruntimes".
Definition trainingRuntimeResource := "trainingruntimes".

Definition clusterTrainingRuntimeGVK : GroupVersionKind :=
  GVK trainerKubeflowGroup trainerKubeflowVersion "ClusterTrainingRuntime".
Definition trainingRuntimeGVK : GroupVersionKind :=
  GVK trainerKubeflowGroup trainerKubeflowVersion "TrainingRuntime".

Definition runtime_gvrs : list GroupVersionResource :=
  [GVR trainerKubeflowGroup trainerKubeflowVersion clusterTrainingRuntimeResource;
   GVR trainerKubeflowGroup trainerKubeflowVersion trainingRuntimeResource].

Definition runtime_selector : string := PlatformPartOf +:+ "=" +:+ trainerPartOf.

Definition legacyTrainerFinalizer : string := "trainer.kubeflow.org/resource-in-use".

(** [metav1.DeletePropagationBackground] *)
Definition DeletePropagationBackground : string := "Background".

Fixpoint filterFinalizer (finalizers : list string) (toRemove : string) : list string :=
  match finalizers with
  | [] => []
  | f :: fs =>
      if bool_decide (f = toRemove) then filterFinalizer fs toRemove
      else f :: filterFinalizer fs toRemove
  end.

(** The options of a garbage collection run. *)
Record gc_options := GcOptions {
  gc_only_owned : bool;
  gc_namespace : string;
  gc_unremovables : list GroupVersionKind }.

Section runtimes.
Context {O V K : Type} `{!Objects O V, !ApiErrors, !DynamicClient O K}.

(** One iteration over the listed objects. *)
Definition remove_finalizer (gvr : GroupVersionResource) (item : O) : M K unit :=
  let retained := filterFinalizer (GetFinalizers item) legacyTrainerFinalizer in
  if bool_decide (length retained = length (GetFinalizers item)) then mret tt
  else
    let item' := SetFinalizers retained item in
    wrapping ("removing finalizer from " +:+ gvr_resource gvr +:+ " " +:+
              GetNamespace item' +:+ "/" +:+ GetName item')
      (DynUpdate gvr (GetNamespace item') item').

Definition remove_from_gvr (gvr : GroupVersionResource) : M K unit :=
  items ← try (DynList gvr "" runtime_selector);
  match items with
  | Err e =>
      if IsNotFound e then mret tt
      else throw (ErrWrap ("listing " +:+ gvr_resource gvr +:+ " for finalizer removal") e)
  | Ok items => forM items (remove_finalizer gvr)
  end.

Definition removeRuntimeFinalizers : M K unit := forM runtime_gvrs remove_from_gvr.

Definition stripRuntimeFinalizers : M K unit := removeRuntimeFinalizers.

(** The outcome of the deletion is logged, not returned. *)
Definition delete_item (gvr : GroupVersionResource) (item : O) : M K unit :=
  if IsDeleting item then mret tt
  else
    try (DynDelete gvr (GetNamespace item) (GetName item) DeletePropagationBackground);;
    mret tt.

Definition cleanup_gvr (gvr : GroupVersionResource) : M K unit :=
  items ← try (DynList gvr "" runtime_selector);
  match items with
  | Err _ => mret tt
  | Ok items => forM items (delete_item gvr)
  end.

Definition cleanupTrainerResources : M K unit := forM runtime_gvrs cleanup_gvr.

(** The finalizer action; [gc] is the collector of odh-platform-utilities. *)
Definition cleanup (gc : gc_options → Trainer → M K unit) (trainer : Trainer) : M K unit :=
  let namespace := resolveNamespace trainer in
  removeRuntimeFinalizers;;
  cleanupTrainerResources;;
  gc (GcOptions false namespace [clusterTrainingRuntimeGVK; trainingRuntimeGVK]) trainer.

End runtimes.

(** ** Lemmas *)

Lemma filterFinalizer_filter fs x : filterFinalizer fs x = filter (λ f, f ≠ x) fs.
Proof.
  induction fs as [|f fs IH]; [done|]. cbn [filterFinalizer].
  destruct (decide (f = x)) as [->|Hne].
  - rewrite bool_decide_eq_true_2, filter_cons_False by (done || naive_solver). done.
  - rewrite bool_decide_eq_false_2, filter_cons_True by done. by rewrite IH.
Qed.

Lemma filterFinalizer_none fs x : x ∉ fs → filterFinalizer fs x = fs.
Proof.
  induction fs as [|f fs IH]; intros H; [done|]. cbn.
  rewrite bool_decide_eq_false_2 by (intros ->; apply H; by left).
  f_equal. apply IH. intros Hf. apply H. by right.
Qed.

Lemma filterFinalizer_length fs x : length (filterFinalizer fs x) ≤ length fs.
Proof. rewrite filterFinalizer_filter. apply length_filter. Qed.

(** The test of the code: the length changes exactly when the finalizer is there. *)
Lemma filterFinalizer_same fs x : length (filterFinalizer fs x) = length fs ↔ x ∉ fs.
Proof.
  split; [|intros H; by rewrite filterFinalizer_none].
  induction fs as [|f fs IH]; [intros _; apply not_elem_of_nil|]. cbn.
  pose proof (filterFinalizer_length fs x) as Hl. case_bool_decide as Hf; cbn; intros H; [lia|].
  rewrite not_elem_of_cons. split; [done|]. apply IH. lia.
Qed.

Section lemmas.
Context {O V K : Type} `{!Objects O V, !ApiErrors, !DynamicClient O K}.

Lemma remove_finalizer_skip gvr (item : O) (k : K) :
  legacyTrainerFinalizer ∉ GetFinalizers item → remove_finalizer gvr item k = (Ok tt, k).
Proof.
  intros Hf. unfold remove_finalizer. by rewrite bool_decide_eq_true_2 by by apply filterFinalizer_same.
Qed.

Lemma remove_finalizer_update gvr (item : O) (k : K) :
  legacyTrainerFinalizer ∈ GetFinalizers item →
  remove_finalizer gvr item k =
    let item' := SetFinalizers (filterFinalizer (GetFinalizers item) legacyTrainerFinalizer) item in
    wrapping ("removing finalizer from " +:+ gvr_resource gvr +:+ " " +:+
              GetNamespace item' +:+ "/" +:+ GetName item')
      (DynUpdate gvr (GetNamespace item') item') k.
Proof.
  intros Hf. unfold remove_finalizer. rewrite bool_decide_eq_false_2; [done|].
  rewrite filterFinalizer_same. by intros Hn; apply Hn.
Qed.

Lemma wrapping_ok {S A} p (m : M S A) s a s' : wrapping p m s = (Ok a, s') → m s = (Ok a, s').
Proof. unfold wrapping. destruct (m s) as [[b|e] s1]; cbn; congruence. Qed.

(** Deleting never fails. *)
Lemma delete_item_ok gvr (item : O) (k : K) : is_ok (delete_item gvr item k).1.
Proof.
  unfold delete_item. destruct (IsDeleting item); [done|].
  unfold try. munfold. by destruct (DynDelete _ _ _ _ k).
Qed.

Lemma cleanup_gvr_ok gvr (k : K) : is_ok (cleanup_gvr (O:=O) gvr k).1.
Proof.
  unfold cleanup_gvr, try. munfold. destruct (DynList gvr "" runtime_selector k) as [[items|e] k1];
    [|done]. apply forM_total. intros. apply delete_item_ok.
Qed.

Lemma cleanupTrainerResources_ok (k : K) : is_ok (cleanupTrainerResources (O:=O) k).1.
Proof. apply forM_total. intros. apply cleanup_gvr_ok. Qed.

(** *** On a quiescent store *)

Context `{!ObjectsLaws O V, !DynamicStore O V K}.

(** What removing the finalizers did to the objects of one resource. *)
Definition stripped (g : GroupVersionResource) (k k' : K) : Prop := ∀ key,
  match store k g !! key with
  | Some o =>
      if selected runtime_selector o && bool_decide (legacyTrainerFinalizer ∈ GetFinalizers o)
      then ∀ o', store k' g !! key = Some o' →
             GetFinalizers o' = filterFinalizer (GetFinalizers o) legacyTrainerFinalizer
      else store k' g !! key = Some o
  | None => store k' g !! key = None
  end.

(** The loop over the listed objects, after [d] of them. *)
Definition strip_inv (g : GroupVersionResource) (k0 : K) (d : list O) (k : K) : Prop :=
  (∀ g', g' ≠ g → store k g' = store k0 g') ∧
  (∀ key o, store k0 g !! key = Some o → o ∈ d → legacyTrainerFinalizer ∈ GetFinalizers o →
     ∀ o', store k g !! key = Some o' →
       GetFinalizers o' = filterFinalizer (GetFinalizers o) legacyTrainerFinalizer) ∧
  (∀ key, (∀ o, store k0 g !! key = Some o → o ∈ d → legacyTrainerFinalizer ∉ GetFinalizers o) →
     store k g !! key = store k0 g !! key).

Lemma strip_step g k0 d x k k' key :
  strip_inv g k0 d k → store k0 g !! key = Some x →
  remove_finalizer g x k = (Ok tt, k') → strip_inv g k0 (d ++ [x]) k'.
Proof.
  intros (Ho & Ha & Hb) Hx Hrun.
  destruct (decide (legacyTrainerFinalizer ∈ GetFinalizers x)) as [Hl|Hl].
  - rewrite remove_finalizer_update in Hrun by done. cbn zeta in Hrun.
    apply wrapping_ok, update_ok in Hrun as (Uo & Uk & Uf).
    rewrite name_set_finalizers, namespace_set_finalizers, get_set_finalizers in *.
    pose proof (store_key _ _ _ _ Hx) as Hkey. rewrite <-Hkey in Uk, Uf.
    split_and!.
    + intros g' Hg. rewrite Uo by done. by apply Ho.
    + intros key' o Hk Hd Hlo o' Hk'.
      destruct (decide (key' = key)) as [->|Hne]; [by simplify_eq; apply Uf|].
      rewrite Uk in Hk' by done.
      apply elem_of_app in Hd as [Hd|Hd%list_elem_of_singleton]; [by eapply Ha|].
      subst o. apply store_key in Hk. congruence.
    + intros key' Hk. rewrite Uk.
      * apply Hb. intros o Ho' Hd. apply Hk; set_solver.
      * intros ->. apply (Hk x); set_solver.
  - rewrite remove_finalizer_skip in Hrun by done. injection Hrun as <-. split_and!; [done| |].
    + intros key' o Hk Hd Hlo. apply (Ha key' o Hk); [|done].
      apply elem_of_app in Hd as [Hd|Hd%list_elem_of_singleton]; [done|]. by subst o.
    + intros key' Hk. apply Hb. intros o Ho' Hd. apply Hk; set_solver.
Qed.

Lemma remove_from_gvr_ok g k k' :
  remove_from_gvr g k = (Ok tt, k') →
  stripped g k k' ∧ ∀ g', g' ≠ g → store k' g' = store k g'.
Proof.
  unfold remove_from_gvr, try. unfold mbind, M_bind.
  destruct (DynList g "" runtime_selector k) as [[items|e] k1] eqn:El.
  - pose proof (list_ok _ _ _ _ _ El) as [Hs Hi]. intros Hrun.
    assert (strip_inv g k items k') as (Ho & Ha & Hb).
    { eapply forM_ok_inv; [| |exact Hrun].
      - split_and!; [intros; by rewrite Hs| |intros; by rewrite Hs].
        intros key o _ Hd. by apply elem_of_nil in Hd.
      - intros d x r s1 s2 Hl Hinv Hstep.
        assert (x ∈ items) as [key [Hk _]]%Hi by (rewrite Hl; set_solver).
        by eapply strip_step. }
    split; [|by intros; apply Ho]. intros key.
    destruct (store k g !! key) as [o|] eqn:Hk; [|by rewrite Hb, Hk by congruence].
    destruct (selected runtime_selector o) eqn:Hsel; cbn.
    + case_bool_decide as Hl; [apply (Ha key o Hk); [|done]; apply Hi; eauto|].
      rewrite Hb, Hk; [done|]. intros ? Hk' _. by simplify_eq.
    + rewrite Hb, Hk; [done|]. intros o' Hk' [? [? ?]]%Hi. simplify_eq. congruence.
  - destruct (IsNotFound e) eqn:En; [|done]. intros [= <-].
    pose proof (list_err _ _ _ _ _ El) as Hs. pose proof (list_missing _ _ _ _ _ El En) as He.
    split; [|by intros; apply Hs]. intros key. by rewrite Hs, He, lookup_empty.
Qed.

Lemma removeRuntimeFinalizers_ok k k' :
  removeRuntimeFinalizers k = (Ok tt, k') →
  (∀ g, g ∈ runtime_gvrs → stripped g k k') ∧
  (∀ g, g ∉ runtime_gvrs → store k' g = store k g).
Proof.
  unfold removeRuntimeFinalizers, runtime_gvrs. cbn [forM].
  intros ([] & k1 & H1 & ([] & k2 & H2 & [= <-])%bind_ok_inv)%bind_ok_inv.
  apply remove_from_gvr_ok in H1 as [S1 E1], H2 as [S2 E2]. split.
  - intros g Hg. apply elem_of_cons in Hg as [->|Hg%list_elem_of_singleton].
    + intros key. specialize (S1 key). by rewrite E2.
    + subst g. intros key. specialize (S2 key). by rewrite E1 in S2.
  - intros g Hg. rewrite !not_elem_of_cons in Hg. destruct Hg as (Hg1 & Hg2 & _).
    by rewrite E2, E1.
Qed.

End lemmas.

(** *** Traces of the clean-up, for every behaviour of the API server *)

Section traces.
Context {O V K : Type} `{!Objects O V, !ApiErrors, !DynamicClient O K}.

Definition is_delete (e : event O) : bool :=
  match e with EvDelete _ _ _ _ _ | EvClientDelete _ _ _ _ => true | _ => false end.

Definition failed_update (e : event O) : bool :=
  match e with EvUpdate _ _ _ r => negb (is_ok r) | _ => false end.

(** What the clean-up may do after the calls [past]. *)
Definition allowed (past : list (event O)) (e : event O) : Prop :=
  match e with
  | EvList g ns selector _ => g ∈ runtime_gvrs ∧ ns = "" ∧ selector = runtime_selector
  | EvUpdate g ns o' _ =>
      g ∈ runtime_gvrs ∧
      (∃ items o, EvList g "" runtime_selector (Ok items) ∈ past ∧ o ∈ items ∧
        legacyTrainerFinalizer ∈ GetFinalizers o ∧
        o' = SetFinalizers (filterFinalizer (GetFinalizers o) legacyTrainerFinalizer) o ∧
        ns = GetNamespace o') ∧
      Forall (λ e, is_delete e = false ∧ failed_update e = false) past
  | EvDelete g ns name policy _ =>
      g ∈ runtime_gvrs ∧
      (∃ items o, EvList g "" runtime_selector (Ok items) ∈ past ∧ o ∈ items ∧ IsDeleting o = false ∧
        ns = GetNamespace o ∧ name = GetName o) ∧
      policy = DeletePropagationBackground ∧
      Forall (λ e, failed_update e = false) past
  | EvClientDelete _ _ _ _ => False
  end.

Inductive valid_trace : list (event O) → Prop :=
| valid_nil : valid_trace []
| valid_snoc t e : valid_trace t → allowed t e → valid_trace (t ++ [e]).

(** Before the deletions: nothing was deleted and no update failed. *)
Definition stripping (s : traced O K) : Prop :=
  valid_trace s.1 ∧ Forall (λ e, is_delete e = false ∧ failed_update e = false) s.1.

Definition deleting (s : traced O K) : Prop :=
  valid_trace s.1 ∧ Forall (λ e, failed_update e = false) s.1.

Definition seen (g : GroupVersionResource) (items : list O) (s : traced O K) : Prop :=
  EvList g "" runtime_selector (Ok items) ∈ s.1.

Lemma list_runs (I : traced O K → Prop) (F : event O → Prop) g :
  g ∈ runtime_gvrs → (∀ ns sel r, F (EvList g ns sel r)) →
  (∀ s, I s ↔ valid_trace s.1 ∧ Forall F s.1) →
  runs I (DynList (O:=O) (K:=traced O K) g "" runtime_selector)
    (λ items s, I s ∧ seen g items s) (λ _, I).
Proof.
  intros Hg HF HI [t k] [Hv Hf]%HI. rewrite traced_list. cbn in Hv, Hf.
  assert (∀ r k', I (t ++ [EvList g "" runtime_selector r], k')) as Hall.
  { intros r k'. apply HI. cbn. split; [by apply valid_snoc|].
    apply Forall_app. auto. }
  destruct (DynList g "" runtime_selector k) as [[items|e] k1]; cbn; [|apply Hall].
  split; [apply Hall|]. unfold seen. set_solver.
Qed.

Lemma remove_finalizer_runs g items item :
  g ∈ runtime_gvrs → item ∈ items →
  runs (λ s, stripping s ∧ seen g items s) (remove_finalizer (K:=traced O K) g item)
    (λ _ s, stripping s ∧ seen g items s) (λ _ s, valid_trace s.1).
Proof.
  intros Hg Hi [t k] [[Hv Hf] Hs]. cbn in *.
  destruct (decide (legacyTrainerFinalizer ∈ GetFinalizers item)) as [Hl|Hl];
    [|by rewrite remove_finalizer_skip].
  rewrite remove_finalizer_update by done. cbn zeta. unfold wrapping. rewrite traced_update.
  set (o' := SetFinalizers _ _).
  assert (∀ r, valid_trace (t ++ [EvUpdate g (GetNamespace o') o' r])) as Hall.
  { intros r. apply valid_snoc; [done|]. split_and!; [done| |done]. exists items, item. done. }
  destruct (DynUpdate g (GetNamespace o') o' k) as [[[]|e] k1]; cbn; [|apply Hall].
  split; [split; [apply Hall|]|]; cbn.
  - apply Forall_app. split; [done|]. by constructor.
  - unfold seen in *. cbn in *. set_solver.
Qed.

Lemma removeRuntimeFinalizers_runs :
  runs stripping (removeRuntimeFinalizers (K:=traced O K)) (λ _, stripping) (λ _ s, valid_trace s.1).
Proof.
  apply runs_forM. intros g Hg. eapply runs_bind.
  { apply runs_try. apply (list_runs stripping (λ e, is_delete e = false ∧ failed_update e = false));
      done. }
  intros [items|e].
  - eapply runs_conseq; [| | |apply runs_forM; intros item Hi; by apply remove_finalizer_runs];
      [done|by intros _ s [Hs _]|done].
  - destruct (IsNotFound e).
    + by intros s.
    + intros s [Hs _]. apply Hs.
Qed.

Lemma delete_item_runs g items item :
  g ∈ runtime_gvrs → item ∈ items →
  runs (λ s, deleting s ∧ seen g items s) (delete_item (K:=traced O K) g item)
    (λ _ s, deleting s ∧ seen g items s) (λ _ _, False).
Proof.
  intros Hg Hi [t k] [[Hv Hf] Hs]. cbn in *. unfold delete_item.
  destruct (IsDeleting item) eqn:Hd; [done|]. unfold try. munfold. rewrite traced_delete.
  destruct (DynDelete g (GetNamespace item) (GetName item) _ k) as [r k1]. cbn.
  split; [split|]; cbn.
  - apply valid_snoc; [done|]. split_and!; [done| |done|done]. by exists items, item.
  - apply Forall_app. split; [done|]. by constructor.
  - unfold seen in *. cbn in *. set_solver.
Qed.

Lemma cleanupTrainerResources_runs :
  runs deleting (cleanupTrainerResources (K:=traced O K)) (λ _, deleting) (λ _ _, False).
Proof.
  apply runs_forM. intros g Hg. eapply runs_bind.
  { apply runs_try. apply (list_runs deleting (λ e, failed_update e = false)); done. }
  intros [items|e]; [|by intros s].
  eapply runs_conseq; [| | |apply runs_forM; intros item Hi; by apply delete_item_runs];
    [done|by intros _ s [Hs _]|done].
Qed.

Lemma stripping_deleting s : stripping s → deleting s.
Proof.
  intros [Hv Hf]. split; [done|]. eapply Forall_impl; [|exact Hf]. by intros e [_ He].
Qed.

(** The deletions one call of [cleanup_gvr] issues, whatever their outcome. *)
Definition deletion_of (e : event O) : option (string * string) :=
  match e with EvDelete _ ns name _ _ => Some (ns, name) | _ => None end.

Lemma delete_items_trace g items (t : list (event O)) (k : K) :
  omap deletion_of (forM items (delete_item (K:=traced O K) g) (t, k)).2.1 =
  omap deletion_of t ++
  ((λ o, (GetNamespace o, GetName o)) <$> filter (λ o, IsDeleting o = false) items).
Proof.
  revert t k. induction items as [|o items IH]; intros t k.
  - cbn. by rewrite app_nil_r.
  - rewrite forM_cons. unfold delete_item at 1. destruct (IsDeleting o) eqn:Hd.
    + rewrite filter_cons_False by congruence. cbn [mret M_ret]. apply IH.
    + rewrite filter_cons_True by done. unfold try. munfold. rewrite traced_delete.
      destruct (DynDelete g (GetNamespace o) (GetName o) _ k) as [r k1]. cbn.
      rewrite IH, omap_app. cbn. by rewrite <-app_assoc.
Qed.

End traces.

(** ** Properties *)

(** [filterFinalizer] removes every occurrence of the finalizer and only
    those: the others stay, in their order and as often as they were; and its
    length differs from the input's exactly when the finalizer occurred, which
    is the test the caller uses to skip the update. *)
Theorem filterFinalizer_spec (fs : list string) (x : string) :
  (filterFinalizer fs x = filter (λ f, f ≠ x) fs) ∧
  (x ∉ filterFinalizer fs x) ∧
  (length (filterFinalizer fs x) = length fs ↔ x ∉ fs) ∧
  filterFinalizer (filterFinalizer fs x) x = filterFinalizer fs x.
Proof.
  assert (x ∉ filterFinalizer fs x) as Hx.
  { rewrite filterFinalizer_filter. by intros [? _]%list_elem_of_filter. }
  split_and!; [apply filterFinalizer_filter|done|apply filterFinalizer_same|].
  by apply filterFinalizer_none.
Qed.

Section store_properties.
Context {O V K : Type} `{!Objects O V, !ApiErrors, !DynamicClient O K}.
Context `{!ObjectsLaws O V, !DynamicStore O V K}.

(** When the removal of the legacy finalizer succeeds, every labelled
    training runtime that carried it has lost exactly that finalizer (or is
    gone), and no other object of the cluster has changed. *)
Theorem removeRuntimeFinalizers_strips (k k' : K)
    (Hrun : removeRuntimeFinalizers k = (Ok tt, k')) g key :
  match store k g !! key with
  | Some o =>
      if bool_decide (g ∈ runtime_gvrs) && selected runtime_selector o
         && bool_decide (legacyTrainerFinalizer ∈ GetFinalizers o)
      then ∀ o', store k' g !! key = Some o' →
             GetFinalizers o' = filterFinalizer (GetFinalizers o) legacyTrainerFinalizer
      else store k' g !! key = Some o
  | None => store k' g !! key = None
  end.
Proof.
  apply removeRuntimeFinalizers_ok in Hrun as [Hin Hout].
  destruct (decide (g ∈ runtime_gvrs)) as [Hg|Hg].
  - pose proof (Hin g Hg key) as Hs. destruct (store k g !! key); [|done].
    by rewrite (bool_decide_eq_true_2 (g ∈ runtime_gvrs)).
  - rewrite Hout by done. destruct (store k g !! key); [|done].
    by rewrite (bool_decide_eq_false_2 (g ∈ runtime_gvrs)).
Qed.

(** The removal converges: once it has succeeded, running it again changes
    no object at all. *)
Theorem removeRuntimeFinalizers_converges (k k1 k2 : K)
    (H1 : removeRuntimeFinalizers k = (Ok tt, k1))
    (H2 : removeRuntimeFinalizers k1 = (Ok tt, k2)) g :
  store k2 g = store k1 g.
Proof.
  apply removeRuntimeFinalizers_ok in H1 as [I1 O1], H2 as [I2 O2].
  destruct (decide (g ∈ runtime_gvrs)) as [Hg|Hg]; [|by apply O2].
  apply map_eq. intros key. specialize (I1 g Hg key). specialize (I2 g Hg key).
  destruct (store k1 g !! key) as [o1|] eqn:E1; [|done].
  destruct (selected runtime_selector o1 && bool_decide (legacyTrainerFinalizer ∈ GetFinalizers o1))
    eqn:Eb; [|done].
  exfalso. apply andb_true_iff in Eb as [Es El%bool_decide_eq_true].
  destruct (store k g !! key) as [o|]; [|done].
  destruct (selected _ o && _) eqn:Eo.
  - rewrite (I1 o1 eq_refl), filterFinalizer_filter in El. by apply list_elem_of_filter in El as [? _].
  - simplify_eq. by rewrite Es, bool_decide_eq_true_2 in Eo.
Qed.

End store_properties.

Section trace_properties.
Context {O V K : Type} `{!Objects O V, !ApiErrors, !DynamicClient O K}.

(** C17: The protocol of the finalizer action, for every behaviour of the API
    server: it lists only the two runtime resources, in all namespaces and by the
    operator's label; every update removes the
    legacy finalizer, and nothing else, from a listed object that carries it;
    every deletion is a background deletion of a listed object that was not
    already being deleted; no finalizer is touched once a deletion was issued;
    and nothing is updated or deleted after an update has failed. *)
Theorem cleanup_protocol (gc : gc_options → Trainer → M K unit) (trainer : Trainer)
    (k : K) (r : result unit) (t : list (event O)) (k' : K)
    (Hrun : cleanup (K:=traced O K) (λ o tr, on_cluster (gc o tr)) trainer ([], k) = (r, (t, k'))) :
  valid_trace t.
Proof.
  unfold cleanup, mbind, M_bind in Hrun.
  assert (stripping (V:=V) (([] : list (event O)), k)) as H0
    by (split; cbn; [apply valid_nil|constructor]).
  pose proof (removeRuntimeFinalizers_runs ([], k) H0) as Hr.
  destruct (removeRuntimeFinalizers (O:=O) (V:=V) (K:=traced O K) _) as [[[]|e] s1];
    [|injection Hrun as _ ->; apply Hr].
  pose proof (cleanupTrainerResources_runs s1 (stripping_deleting _ Hr)) as Hd.
  destruct (cleanupTrainerResources (O:=O) (V:=V) (K:=traced O K) s1) as [[[]|e] [t2 k2]]; [|done].
  unfold on_cluster in Hrun. destruct (gc _ trainer k2) as [r3 k3].
  injection Hrun as <- <- <-. apply Hd.
Qed.

(** How the finalizer action ends: when the finalizers cannot be removed
    it returns that error, with nothing deleted and the collector not started;
    otherwise the deletions never fail, and the collector is run last, for all
    resources of the resolved namespace except the training runtimes, and its
    result is the result. *)
Theorem cleanup_outcome (gc : gc_options → Trainer → M K unit) (trainer : Trainer) (k : K) :
  match removeRuntimeFinalizers (O:=O) k with
  | (Err e, k1) => cleanup (O:=O) gc trainer k = (Err e, k1)
  | (Ok _, k1) =>
      is_ok (cleanupTrainerResources (O:=O) k1).1 ∧
      cleanup (O:=O) gc trainer k =
        gc (GcOptions false (resolveNamespace trainer) [clusterTrainingRuntimeGVK; trainingRuntimeGVK])
           trainer (cleanupTrainerResources (O:=O) k1).2
  end.
Proof.
  unfold cleanup, mbind, M_bind. destruct (removeRuntimeFinalizers k) as [[[]|e] k1]; [|done].
  pose proof (cleanupTrainerResources_ok (O:=O) k1) as Hok.
  destruct (cleanupTrainerResources k1) as [[[]|e] k2]; [|done]. done.
Qed.

(** Deleting the runtimes of one resource is best effort: it never fails;
    a list error skips the resource; otherwise exactly one deletion is issued
    for every listed object that is not being deleted, in list order, whether
    or not the earlier ones succeeded. *)
Theorem cleanup_gvr_attempts (g : GroupVersionResource) (t : list (event O)) (k : K) :
  let out := cleanup_gvr (O:=O) (V:=V) (K:=traced O K) g (t, k) in
  is_ok out.1 ∧
  match DynList g "" runtime_selector k with
  | (Err e, k1) => out.2 = (t ++ [EvList g "" runtime_selector (Err e)], k1)
  | (Ok items, _) =>
      omap deletion_of out.2.1 = omap deletion_of t ++
        ((λ o, (GetNamespace o, GetName o)) <$> filter (λ o, IsDeleting o = false) items)
  end.
Proof.
  cbn zeta. split; [apply cleanup_gvr_ok|].
  unfold cleanup_gvr, try. unfold mbind, M_bind. rewrite traced_list.
  destruct (DynList g "" runtime_selector k) as [[items|e] k1]; [|done].
  rewrite delete_items_trace, omap_app. cbn. by rewrite app_nil_r.
Qed.

(** List errors of the removal: a resource that is not served is skipped,
    any other error stops the removal at once and is returned with the name of
    the resource. *)
Theorem removeRuntimeFinalizers_list_errors (k k1 : K) (e : goerror)
    (Hlist : DynList (O:=O) (GVR trainerKubeflowGroup trainerKubeflowVersion clusterTrainingRuntimeResource)
               "" runtime_selector k = (Err e, k1)) :
  removeRuntimeFinalizers (O:=O) k =
  if IsNotFound e
  then remove_from_gvr (O:=O)
         (GVR trainerKubeflowGroup trainerKubeflowVersion trainingRuntimeResource) k1
  else (Err (ErrWrap "listing clustertrainingruntimes for finalizer removal" e), k1).
Proof.
  unfold removeRuntimeFinalizers, runtime_gvrs. rewrite forM_cons.
  unfold remove_from_gvr at 1, try, mbind, M_bind. rewrite Hlist.
  destruct (IsNotFound e); [|done]. cbn [mret M_ret]. rewrite forM_cons.
  by destruct (remove_from_gvr _ k1) as [[[]|e'] k2].
Qed.

End trace_properties.

(** *** Witnesses *)

Definition ex_runtime (name : string) (labels : gmap string string) (fin : list string) : obj :=
  Obj clusterTrainingRuntimeGVK name "" labels fin false [].
Definition ex_labels : gmap string string := {[PlatformPartOf := trainerPartOf]}.
Definition ctr_gvr : GroupVersionResource :=
  GVR trainerKubeflowGroup trainerKubeflowVersion clusterTrainingRuntimeResource.

Definition ex_runtimes : cluster :=
  set_store ctr_gvr
    (list_to_map [(("", "torch"), ex_runtime "torch" ex_labels [legacyTrainerFinalizer; "another/finalizer"]);
                  (("", "mine"), ex_runtime "mine" ∅ [legacyTrainerFinalizer])])
    empty_cluster.

Definition ex_stripped : cluster := (removeRuntimeFinalizers (O:=obj) (V:=json) ex_runtimes).2.

Lemma ex_strip_ok : is_ok (removeRuntimeFinalizers (O:=obj) (V:=json) ex_runtimes).1 = true.
Proof. by vm_compute. Qed.

Lemma ex_strip_again_ok : is_ok (removeRuntimeFinalizers (O:=obj) (V:=json) ex_stripped).1 = true.
Proof. by vm_compute. Qed.

Lemma ex_selected : selected runtime_selector
  (ex_runtime "torch" ex_labels [legacyTrainerFinalizer; "another/finalizer"]) = true.
Proof. by vm_compute. Qed.

Lemma ex_listed : store ex_runtimes ctr_gvr !! ("", "torch") =
  Some (ex_runtime "torch" ex_labels [legacyTrainerFinalizer; "another/finalizer"]).
Proof. by vm_compute. Qed.

Lemma removeRuntimeFinalizers_strips_witness :
  GetFinalizers <$> (store ex_stripped ctr_gvr !! ("", "torch")) = Some ["another/finalizer"].
Proof.
  pose proof (removeRuntimeFinalizers_strips (V:=json) ex_runtimes ex_stripped
    (run_ok _ _ ex_strip_ok) ctr_gvr ("", "torch")) as Hs.
  rewrite ex_listed, ex_selected in Hs. assert (is_Some (store ex_stripped ctr_gvr !! ("", "torch")))
    as [o' Ho'] by (eexists; by vm_compute).
  rewrite Ho'. cbn [fmap option_fmap option_map]. f_equal. exact (Hs o' Ho').
Defined.

Lemma removeRuntimeFinalizers_converges_witness :
  store (removeRuntimeFinalizers (O:=obj) (V:=json) ex_stripped).2 ctr_gvr = store ex_stripped ctr_gvr.
Proof.
  exact (removeRuntimeFinalizers_converges (V:=json) ex_runtimes _ _
    (run_ok _ _ ex_strip_ok) (run_ok _ _ ex_strip_again_ok) ctr_gvr).
Defined.

Definition ex_trainer (ns : string) : Trainer :=
  MkTrainer TrainerInstanceName (MkSpec ns None None) (MkStatus "" [] []).

Lemma cleanup_protocol_witness :
  valid_trace (V:=json)
    (cleanup (V:=json) (K:=traced obj cluster) (λ o tr, on_cluster (mret tt)) (ex_trainer "apps")
       ([], ex_runtimes)).2.1.
Proof.
  eapply (cleanup_protocol (λ _ _, mret tt) (ex_trainer "apps") ex_runtimes).
  by rewrite <-!surjective_pairing.
Defined.

Lemma removeRuntimeFinalizers_list_errors_witness :
  (removeRuntimeFinalizers (O:=obj) (V:=json) (set_cfaults [ApiError "boom"] ex_runtimes)).1
  = Err (ErrWrap "listing clustertrainingruntimes for finalizer removal"
           (ErrForeign "InternalError" "boom")).
Proof.
  assert (DynList (O:=obj) ctr_gvr "" runtime_selector (set_cfaults [ApiError "boom"] ex_runtimes) =
    (Err (ErrForeign "InternalError" "boom"), set_cfaults [] ex_runtimes)) as Hl by reflexivity.
  by rewrite (removeRuntimeFinalizers_list_errors (V:=json) _ _ _ Hl).
Defined.
