(* ===== verification/Finalization.v ===== *)
(** The end of a Trainer resource: on a cluster that answers, the finalizer
    action gets to the garbage collector, and of the labelled training runtimes
    nothing is left that waits for the operator. *)

From S2P Require Import Prelude Kube ApiTypes KubeStore Runtimes.
Open Scope string_scope.
Open Scope nat_scope.
Open Scope list_scope.

(** ** Specification *)

(** How Kubernetes lets an object go: it is removed when its deletion was asked
    for and it has no finalizers; until then its finalizers stay as they were
    last written.  [List] returns no object twice, and finalizers say
    nothing about labels. *)
Class FinalizerLaws (O V K : Type) `{!Objects O V, !ApiErrors, !DynamicClient O K, !DynamicStore O V K} : Prop := {
  list_nodup g sel k (items : list O) k' : DynList g "" sel k = (Ok items, k') → NoDup items;
  select_set_finalizers sel l (o : O) : selected sel (SetFinalizers l o) = selected sel o;
  update_kept g ns (o old o' : O) k k' : DynUpdate g ns o k = (Ok tt, k') →
    store k g !! (ns, GetName o) = Some old → store k' g !! (ns, GetName o) = Some o' →
    IsDeleting o' = IsDeleting old ∧ (IsDeleting o' = true → GetFinalizers o' ≠ []) ∧
    ∀ sel, selected sel o' = selected sel o;
  delete_kept g ns name pol (old o' : O) k k' : DynDelete g ns name pol k = (Ok tt, k') →
    store k g !! (ns, name) = Some old → store k' g !! (ns, name) = Some o' →
    GetFinalizers o' = GetFinalizers old ∧ GetFinalizers o' ≠ [];
}.

Section specification.
Context {O V K : Type} `{!Objects O V, !ApiErrors, !DynamicClient O K, !DynamicStore O V K}.

(** The dynamic client answers, as long as [up] holds: a resource may be one
    that is not served, an update or a deletion of an object that is there works. *)
Record serving (up : K → Prop) : Prop := {
  serve_list g sel k : up k → up (DynList g "" sel k).2 ∧ ∀ e, (DynList g "" sel k).1 = Err e → IsNotFound e = true;
  serve_update g (o : O) k : up k → is_Some (store k g !! (GetNamespace o, GetName o)) →
    (DynUpdate g (GetNamespace o) o k).1 = Ok tt ∧ up (DynUpdate g (GetNamespace o) o k).2;
  serve_delete g ns name pol k : up k → is_Some (store k g !! (ns, name)) →
    (DynDelete g ns name pol k).1 = Ok tt ∧ up (DynDelete g ns name pol k).2;
}.

(** An object that is being deleted is there because of its finalizers. *)
Definition held (o : O) : Prop := IsDeleting o = true → GetFinalizers o ≠ [].

(** After the finalizers were stripped, and after the deletions. *)
Definition unpinned (o : O) : Prop :=
  selected runtime_selector o = true ∧ held o ∧ ¬ legacyTrainerFinalizer ∈ GetFinalizers o.
Definition waiting (o : O) : Prop :=
  IsDeleting o = true ∧ GetFinalizers o ≠ [] ∧ ¬ legacyTrainerFinalizer ∈ GetFinalizers o.

(** Between two states: every selected object of [g] has become one with [T], or
    is gone, and nothing else has changed. *)
Definition turned (T : O → Prop) (g : GroupVersionResource) (k k' : K) : Prop :=
  (∀ g', g' ≠ g → store k' g' = store k g') ∧
  ∀ key, match store k g !! key with
  | Some o => if selected runtime_selector o then ∀ o', store k' g !! key = Some o' → T o'
              else store k' g !! key = Some o
  | None => store k' g !! key = None
  end.

End specification.

(** ** Lemmas *)

Section lemmas.
Context {O V K : Type} `{!Objects O V, !ApiErrors, !ObjectsLaws O V, !DynamicClient O K, !DynamicStore O V K, !FinalizerLaws O V K}.
Context (up : K → Prop) (Hserve : serving (O:=O) up).

(** A loop over listed objects whose body turns one object. *)
Section visit.
Context (T : O → Prop) (g : GroupVersionResource) (f : O → M K unit) (P : O → Prop).
Context (Hf : ∀ x k, up k → P x → selected runtime_selector x = true → store k g !! (GetNamespace x, GetName x) = Some x →
  ∃ k', f x k = (Ok tt, k') ∧ up k' ∧ (∀ g', g' ≠ g → store k' g' = store k g') ∧
    (∀ key, key ≠ (GetNamespace x, GetName x) → store k' g !! key = store k g !! key) ∧
    ∀ o', store k' g !! (GetNamespace x, GetName x) = Some o' → T o').

Lemma visit_turned (items : list O) k : up k → NoDup items →
  (∀ o, o ∈ items ↔ ∃ key, store k g !! key = Some o ∧ selected runtime_selector o = true) →
  (∀ key o, store k g !! key = Some o → P o) →
  ∃ k', forM items f k = (Ok tt, k') ∧ up k' ∧ turned T g k k'.
Proof.
  intros Hk Hnd Hi HP.
  destruct (forM_visits (λ d k1, up k1 ∧ (∀ g', g' ≠ g → store k1 g' = store k g') ∧
    (∀ key o, store k g !! key = Some o → o ∈ d → ∀ o', store k1 g !! key = Some o' → T o') ∧
    (∀ key, (∀ o, store k g !! key = Some o → o ∉ d) → store k1 g !! key = store k g !! key)) items f k)
    as (k' & Hrun & Hk' & Ho & Ha & Hb).
  - split_and!; [done|done| |done]. intros key o _ Hin. by apply elem_of_nil in Hin.
  - intros d x r k1 Hl (Hk1 & Ho & Ha & Hb).
    assert (x ∈ items) as [key [Hx Hs]]%Hi by (rewrite Hl; set_solver).
    pose proof (store_key _ _ _ _ Hx) as ->.
    assert (x ∉ d) as Hxd.
    { rewrite Hl in Hnd. apply list.NoDup_app in Hnd as (_ & Hd & _). intros Hin. by apply (Hd x Hin); left. }
    assert (store k1 g !! (GetNamespace x, GetName x) = Some x) as Hx1.
    { rewrite Hb; [done|]. intros o Hx'. by simplify_eq. }
    destruct (Hf x k1 Hk1 (HP _ _ Hx) Hs Hx1) as (k2 & -> & Hk2 & Ho2 & Hb2 & HT).
    exists k2. split; [done|]. split_and!; [done| | |].
    + intros g' Hg. by rewrite Ho2, Ho.
    + intros key o Hko Hin o' Ho'. destruct (decide (key = (GetNamespace x, GetName x))) as [->|Hne]; [by apply HT|].
      rewrite Hb2 in Ho' by done. apply elem_of_app in Hin as [Hin|Hin%list_elem_of_singleton]; [by eapply Ha|].
      subst o. apply store_key in Hko. congruence.
    + intros key Hkey. rewrite Hb2.
      * apply Hb. intros o Hko Hin. apply (Hkey o Hko), elem_of_app. by left.
      * intros ->. apply (Hkey x Hx), elem_of_app. right. by left.
  - exists k'. split_and!; [done|done|]. split; [done|]. intros key. destruct (store k g !! key) as [o|] eqn:E.
    + destruct (selected runtime_selector o) eqn:Es; [apply (Ha key o E), Hi; eauto|].
      rewrite Hb, E; [done|]. intros o2 E2 [key2 [_ Hs2]]%Hi. congruence.
    + rewrite Hb, E; [done|]. intros o2 E2. congruence.
Qed.

(** With the listing: a resource that is not served has no objects. *)
Lemma list_turned (m : M K unit) k : up k → (∀ key o, store k g !! key = Some o → P o) →
  (∀ r k1, DynList (O:=O) g "" runtime_selector k = (r, k1) →
     m k = match r with Ok items => forM items f k1 | Err e => if IsNotFound e then (Ok tt, k1) else m k end) →
  ∃ k', m k = (Ok tt, k') ∧ up k' ∧ turned T g k k'.
Proof.
  intros Hk HP Hm. destruct (serve_list _ Hserve g runtime_selector k Hk) as [Hk1 He].
  destruct (DynList g "" runtime_selector k) as [[items|e] k1] eqn:El; cbn in Hk1, He; rewrite (Hm _ _ eq_refl).
  - pose proof (list_ok _ _ _ _ _ El) as [Hs Hi]. pose proof (list_nodup _ _ _ _ _ El) as Hnd.
    destruct (visit_turned items k1 Hk1 Hnd) as (k' & Hrun & Hk' & Ho & Ht).
    + intros o. rewrite Hi. by setoid_rewrite Hs.
    + intros key o. rewrite Hs. apply HP.
    + exists k'. split_and!; [done|done|]. split; [intros g' Hg; by rewrite Ho, Hs|]. intros key. specialize (Ht key).
      by rewrite Hs in Ht.
  - rewrite (He e eq_refl). exists k1. pose proof (list_err _ _ _ _ _ El) as Hs.
    pose proof (list_missing _ _ _ _ _ El (He e eq_refl)) as Hemp.
    split_and!; [done|done|]. split; [by intros; apply Hs|]. intros key. by rewrite Hs, Hemp, lookup_empty.
Qed.

End visit.

(** Both runtime resources, one after the other. *)
Lemma both_turned (T P : O → Prop) (m : GroupVersionResource → M K unit) k :
  (∀ g k, up k → (∀ key o, store k g !! key = Some o → P o) → ∃ k', m g k = (Ok tt, k') ∧ up k' ∧ turned T g k k') →
  up k → (∀ g key o, g ∈ runtime_gvrs → store k g !! key = Some o → P o) →
  ∃ k', forM runtime_gvrs m k = (Ok tt, k') ∧ up k' ∧ ∀ g key,
    match store k g !! key with
    | Some o => if bool_decide (g ∈ runtime_gvrs) && selected runtime_selector o
                then ∀ o', store k' g !! key = Some o' → T o' else store k' g !! key = Some o
    | None => store k' g !! key = None
    end.
Proof.
  intros Hm Hk HP. unfold runtime_gvrs. rewrite forM_cons. set (g1 := GVR _ _ clusterTrainingRuntimeResource).
  set (g2 := GVR _ _ trainingRuntimeResource).
  assert (g1 ∈ runtime_gvrs ∧ g2 ∈ runtime_gvrs) as [Hg1 Hg2] by (split; [by left|by right; left]).
  destruct (Hm g1 k Hk (λ key o, HP g1 key o Hg1)) as (k1 & -> & Hk1 & Ho1 & H1). rewrite forM_cons.
  destruct (Hm g2 k1 Hk1) as (k2 & -> & Hk2 & Ho2 & H2); [intros key o; rewrite Ho1 by done; by apply HP|].
  exists k2. split_and!; [done|done|]. intros g key.
  destruct (decide (g = g1)) as [->|Hn1]; [|destruct (decide (g = g2)) as [->|Hn2]].
  - specialize (H1 key). rewrite bool_decide_eq_true_2, Ho2 by (by left || done). exact H1.
  - specialize (H2 key). rewrite Ho1 in H2 by done. rewrite bool_decide_eq_true_2 by (by right; left). exact H2.
  - rewrite bool_decide_eq_false_2, Ho2, Ho1; [by destruct (store k g !! key)|done|done|].
    rewrite !not_elem_of_cons. split_and!; [done|done|apply not_elem_of_nil].
Qed.

(** *** The two phases *)

Lemma strip_turns g k : up k → (∀ key o, store k g !! key = Some o → held o) →
  ∃ k', remove_from_gvr (O:=O) g k = (Ok tt, k') ∧ up k' ∧ turned unpinned g k k'.
Proof.
  intros Hk Hheld. apply (list_turned unpinned g (remove_finalizer g) held); [|done..|].
  - intros x k1 Hk1 Hx Hs Hin. destruct (decide (legacyTrainerFinalizer ∈ GetFinalizers x)) as [Hl|Hl].
    + rewrite remove_finalizer_update by done. cbn zeta. set (x' := SetFinalizers _ x).
      assert (GetName x' = GetName x ∧ GetNamespace x' = GetNamespace x) as [En Ens]
        by (split; [apply name_set_finalizers|apply namespace_set_finalizers]).
      destruct (serve_update _ Hserve g x' k1 Hk1) as [Hu Hk2]; [rewrite En, Ens; by eexists|].
      unfold wrapping. destruct (DynUpdate g (GetNamespace x') x' k1) as [r k2] eqn:E. cbn in Hu, Hk2. subst r.
      pose proof (update_ok _ _ _ _ _ E) as (Uo & Uk & Uf). rewrite En, Ens in *. exists k2. split_and!; [done..|].
      intros o' Ho'. rewrite <-En in Hin, Ho'. pose proof (update_kept _ _ _ _ _ _ _ E Hin Ho') as (_ & Hheld' & Hsel).
      rewrite En in Ho'. split_and!; [by rewrite Hsel; unfold x'; rewrite select_set_finalizers|done|]. rewrite (Uf o' Ho'). unfold x'.
      rewrite get_set_finalizers, filterFinalizer_filter. by intros [? _]%list_elem_of_filter.
    + rewrite remove_finalizer_skip by done. exists k1. split_and!; [done..|]. intros o' Ho'. by simplify_eq.
  - intros r k1 El. unfold remove_from_gvr, try. unfold mbind, M_bind. rewrite El. destruct r as [items|e]; [done|].
    by destruct (IsNotFound e).
Qed.

Lemma delete_turns g k : up k → (∀ key o, store k g !! key = Some o → selected runtime_selector o = true → unpinned o) →
  ∃ k', cleanup_gvr (O:=O) g k = (Ok tt, k') ∧ up k' ∧ turned waiting g k k'.
Proof.
  intros Hk Hheld. apply (list_turned waiting g (delete_item g) (λ o, selected runtime_selector o = true → unpinned o)); [|done..|].
  - intros x k1 Hk1 Hx Hs Hin. destruct (Hx Hs) as (_ & Hh & Hl). unfold delete_item. destruct (IsDeleting x) eqn:Ed.
    + exists k1. split_and!; [done..|]. intros o' Ho'. simplify_eq. by split_and!; [|apply Hh|done].
    + destruct (serve_delete _ Hserve g (GetNamespace x) (GetName x) DeletePropagationBackground k1 Hk1) as [Hu Hk2]; [by eexists|].
      unfold try. unfold mbind, M_bind. destruct (DynDelete _ _ _ _ k1) as [r k2] eqn:E. cbn in Hu, Hk2. subst r.
      pose proof (delete_ok _ _ _ _ _ _ E) as (Do & Dk & Dd). exists k2. split_and!; [done..|].
      intros o' Ho'. pose proof (delete_kept _ _ _ _ _ _ _ _ E Hin Ho') as [Hf Hne]. split_and!; [by apply Dd|done|by rewrite Hf].
  - intros r k1 El. unfold cleanup_gvr, try. unfold mbind, M_bind. rewrite El. destruct r as [items|e]; [done|].
    by destruct (IsNotFound e).
Qed.

End lemmas.

(** *** Both phases *)

Section finalization.
Context {O V K : Type} `{!Objects O V, !ApiErrors, !ObjectsLaws O V, !DynamicClient O K, !DynamicStore O V K, !FinalizerLaws O V K}.

Lemma finalization_run (up : K → Prop) (gc : gc_options → Trainer → M K unit) (trainer : Trainer) (k : K)
    (Hserve : serving (O:=O) up) (Hup : up k)
    (Hheld : ∀ g key o, store k g !! key = Some o → held o) :
  ∃ k', cleanup (O:=O) gc trainer k =
      gc (GcOptions false (resolveNamespace trainer) [clusterTrainingRuntimeGVK; trainingRuntimeGVK]) trainer k' ∧
    up k' ∧ ∀ g key,
      match store k g !! key with
      | Some o => if bool_decide (g ∈ runtime_gvrs) && selected runtime_selector o
                  then ∀ o', store k' g !! key = Some o' → waiting o'
                  else store k' g !! key = Some o
      | None => store k' g !! key = None
      end.
Proof.
  destruct (both_turned up unpinned held remove_from_gvr k (strip_turns up Hserve) Hup) as (k1 & H1 & Hk1 & S1);
    [by intros; eapply Hheld|].
  destruct (both_turned up waiting _ cleanup_gvr k1 (delete_turns up Hserve) Hk1) as (k2 & H2 & Hk2 & S2).
  { intros g key o Hg Ho Hsel. specialize (S1 g key). destruct (store k g !! key) as [o0|]; [|congruence].
    rewrite bool_decide_eq_true_2 in S1 by done. destruct (selected runtime_selector o0) eqn:E0; [by apply S1|]. congruence. }
  exists k2. split_and!; [|done|].
  - unfold cleanup, mbind, M_bind. unfold removeRuntimeFinalizers, cleanupTrainerResources. by rewrite H1, H2.
  - intros g key. specialize (S1 g key). specialize (S2 g key). destruct (store k g !! key) as [o|]; [|by rewrite S1 in S2].
    destruct (bool_decide (g ∈ runtime_gvrs) && selected runtime_selector o) eqn:Eb; [|by rewrite S1, Eb in S2].
    intros o' Ho'. apply andb_true_iff in Eb as [Hg _]. rewrite Hg in S2.
    destruct (store k1 g !! key) as [o1|]; [|congruence].
    destruct (S1 o1 eq_refl) as [Hsel _]. rewrite Hsel in S2. by apply S2.
Qed.

End finalization.

(** *** The store of [KubeStore] *)

Lemma api_call_quiet k : c_faults k = [] → api_call k = (Ok tt, k).
Proof. unfold api_call. by intros ->. Qed.

#[export] Instance store_finalizers : FinalizerLaws obj json cluster.
Proof.
  split.
  - intros g sel k items k' H. apply store_list_run in H as [_ ->]. apply list.NoDup_filter.
    apply NoDup_fmap_2_strong; [|apply NoDup_map_to_list].
    intros [key o] [key' o'] H%elem_of_map_to_list H'%elem_of_map_to_list Heq. cbn in Heq. subst o'.
    apply objects_well_keyed in H as ->. by apply objects_well_keyed in H' as ->.
  - done.
  - intros g ns o old o' k k' H. cbn [DynUpdate store_dynamic store store_laws GetName obj_objects] in *.
    unfold store_update, mbind, M_bind in H. destruct (api_call k) as [[[]|e] k1] eqn:Ea; [|done].
    apply api_call_run in Ea as (Ho & _ & _). cbn in H. rewrite <-Ho. intros Eo. rewrite Eo in H.
    case_bool_decide as Hns; [|done]. destruct (o_deleting old && _) eqn:Ed; injection H as <-.
    all: replaced Eo Hsame Hother; rewrite Hsame.
    + by rewrite lookup_delete_eq.
    + rewrite lookup_insert_eq. intros [= <-]. cbn. split_and!; [done| |done].
      intros Hd Hf. by rewrite Hd, Hf in Ed.
  - intros g ns name pol old o' k k' H. cbn [DynDelete store_dynamic store store_laws] in *.
    unfold store_delete, mbind, M_bind in H. destruct (api_call k) as [[[]|e] k1] eqn:Ea; [|done].
    apply api_call_run in Ea as (Ho & _ & _). cbn in H. rewrite <-Ho. intros Eo. rewrite Eo in H.
    pose proof (objects_well_keyed _ _ _ _ Eo) as Hk.
    case_bool_decide as Hf; injection H as <-; replaced Eo Hsame Hother; rewrite Hsame.
    + by rewrite lookup_delete_eq.
    + rewrite lookup_insert_eq. by intros [= <-].
Qed.

(** It serves as long as no failure is scheduled. *)
Definition quiet (k : cluster) : Prop := c_faults k = [].

Lemma store_serving : serving (O:=obj) quiet.
Proof.
  split; unfold quiet.
  - intros g sel k Hq. cbn [DynList store_dynamic]. unfold store_list, mbind, M_bind.
    rewrite api_call_quiet by done. cbn. destruct (c_served k g); cbn; [done|]. by split; [|intros e [= <-]].
  - intros g o k Hq [old Ho]. cbn [DynUpdate store_dynamic store store_laws GetName GetNamespace obj_objects] in *.
    unfold store_update, mbind, M_bind. rewrite api_call_quiet by done. cbn. rewrite Ho, bool_decide_eq_true_2 by done.
    by destruct (o_deleting old && _).
  - intros g ns name pol k Hq [old Ho]. cbn [DynDelete store_dynamic store store_laws] in *.
    unfold store_delete, mbind, M_bind. rewrite api_call_quiet by done. cbn. rewrite Ho.
    by case_bool_decide.
Qed.

(** ** Properties *)

Section properties.
Context {O V K : Type} `{!Objects O V, !ApiErrors, !ObjectsLaws O V, !DynamicClient O K, !DynamicStore O V K, !FinalizerLaws O V K}.

(** C18: The deletion of a Trainer is not stuck on its runtimes.  On a cluster that
    answers, the finalizer action gets to the garbage collector, whose result is
    the result; by then every labelled training runtime is gone, or it is being
    deleted and still there only because of finalizers of others; and no other
    object of the store has changed. *)
Theorem finalization_frees (up : K → Prop) (gc : gc_options → Trainer → M K unit) (trainer : Trainer) (k : K)
    (Hserve : serving (O:=O) up) (Hup : up k)
    (Hheld : ∀ g key o, store k g !! key = Some o → held o) :
  ∃ k', cleanup (O:=O) gc trainer k =
      gc (GcOptions false (resolveNamespace trainer) [clusterTrainingRuntimeGVK; trainingRuntimeGVK]) trainer k' ∧
    up k' ∧ ∀ g key,
      match store k g !! key with
      | Some o => if bool_decide (g ∈ runtime_gvrs) && selected runtime_selector o
                  then ∀ o', store k' g !! key = Some o' → waiting o'
                  else store k' g !! key = Some o
      | None => store k' g !! key = None
      end.
Proof. exact (finalization_run up gc trainer k Hserve Hup Hheld). Qed.

End properties.

(** *** Witness *)

(** Three labelled runtimes -- held by the legacy finalizer and by another
    controller's, by the legacy one alone, and already on its way -- and one
    that is not the operator's. *)
Definition ex_pinned : cluster :=
  set_store ctr_gvr
    (list_to_map [(("", "torch"), ex_runtime "torch" ex_labels [legacyTrainerFinalizer; "another/finalizer"]);
                  (("", "jax"), ex_runtime "jax" ex_labels [legacyTrainerFinalizer]);
                  (("", "mpi"), set_deleting true (ex_runtime "mpi" ex_labels [legacyTrainerFinalizer]));
                  (("", "mine"), ex_runtime "mine" ∅ [legacyTrainerFinalizer])])
    empty_cluster.

Definition ex_freed : cluster := (cleanup (O:=obj) (V:=json) (λ _ _, mret tt) (ex_trainer "apps") ex_pinned).2.

Example freed_runtimes :
  (λ kv : string * string * obj, (kv.1.2, o_deleting kv.2, o_finalizers kv.2)) <$> map_to_list (store ex_freed ctr_gvr) =
  [("mine", false, [legacyTrainerFinalizer]); ("torch", true, ["another/finalizer"])].
Proof. by vm_compute. Qed.

Lemma ex_pinned_held g key o : store ex_pinned g !! key = Some o → held o.
Proof.
  cbn [store store_laws]. unfold objects_of, ex_pinned. cbn [c_served c_store set_store empty_cluster].
  intros [Ho _]%map_lookup_filter_Some. case_bool_decide; [|by rewrite lookup_empty in Ho].
  apply elem_of_list_to_map_2 in Ho. unfold held.
  repeat (apply elem_of_cons in Ho as [[= -> ->]|Ho]; [done|]). by apply elem_of_nil in Ho.
Qed.

Lemma ex_pinned_torch : store ex_pinned ctr_gvr !! ("", "torch") =
  Some (ex_runtime "torch" ex_labels [legacyTrainerFinalizer; "another/finalizer"]).
Proof. by vm_compute. Qed.

Lemma finalization_frees_witness :
  IsDeleting <$> (store ex_freed ctr_gvr !! ("", "torch")) = Some true.
Proof.
  destruct (finalization_frees quiet (λ _ _, mret tt) (ex_trainer "apps") ex_pinned store_serving eq_refl ex_pinned_held)
    as (k' & Hrun & _ & Hfree).
  specialize (Hfree ctr_gvr ("", "torch")). rewrite ex_pinned_torch, ex_selected in Hfree.
  assert (ex_freed = k') as <- by (unfold ex_freed; by rewrite Hrun).
  assert (is_Some (store ex_freed ctr_gvr !! ("", "torch"))) as [o' Ho'] by (eexists; by vm_compute).
  rewrite Ho'. cbn [fmap option_fmap option_map]. f_equal. by apply (Hfree o' Ho').
Defined.
