(* ===== verification/Request.v ===== *)
(** What an action of the reconciler sees and changes: the reconciliation
    request [rr] of [internal/controller/trainer_controller.go], with the
    cluster, the file system and the reconciler behind it. *)

From S2P Require Import Prelude GoOS Kube ApiTypes.
Open Scope string_scope.
Open Scope nat_scope.
Open Scope list_scope.

(** ** Definitions *)

(** [semver.Version] and [semver.ParseTolerant]. *)
Class Semver (Ver : Type) := {
  ParseTolerant : string → result Ver;
  version_zero : Ver;
}.

(** [fwapi.Release]. *)
Record Release (Ver : Type) := MkPlatformRelease { release_name : string; release_version : Ver }.
Arguments MkPlatformRelease {Ver} release_name release_version.
Arguments release_name {Ver} r.
Arguments release_version {Ver} r.

#[export] Instance Release_eq_dec `{EqDecision Ver} : EqDecision (Release Ver).
Proof. solve_decision. Defined.

(** [types.ReconciliationRequest], with the state its clients reach:
    the cluster, the file system of the operator's pod, and the [Release] of
    the reconciler, which the deploy and garbage collection actions stamp on
    the resources. *)
Record request (O K C Ver : Type) := Request {
  rr_cluster : K;
  rr_os : os;
  rr_instance : Trainer;
  rr_conditions : C;
  rr_resources : list O;
  rr_generated : bool;
  rr_release : Release Ver }.
Arguments Request {O K C Ver} rr_cluster rr_os rr_instance rr_conditions rr_resources rr_generated rr_release.
Arguments rr_cluster {O K C Ver} r.
Arguments rr_os {O K C Ver} r.
Arguments rr_instance {O K C Ver} r.
Arguments rr_conditions {O K C Ver} r.
Arguments rr_resources {O K C Ver} r.
Arguments rr_generated {O K C Ver} r.
Arguments rr_release {O K C Ver} r.

Section setters.
Context {O K C Ver : Type}.

Definition set_cluster (k : K) (rr : request O K C Ver) : request O K C Ver :=
  Request k (rr_os rr) (rr_instance rr) (rr_conditions rr) (rr_resources rr) (rr_generated rr) (rr_release rr).
Definition set_os (s : os) (rr : request O K C Ver) : request O K C Ver :=
  Request (rr_cluster rr) s (rr_instance rr) (rr_conditions rr) (rr_resources rr) (rr_generated rr) (rr_release rr).
Definition set_instance (t : Trainer) (rr : request O K C Ver) : request O K C Ver :=
  Request (rr_cluster rr) (rr_os rr) t (rr_conditions rr) (rr_resources rr) (rr_generated rr) (rr_release rr).
Definition set_conditions (c : C) (rr : request O K C Ver) : request O K C Ver :=
  Request (rr_cluster rr) (rr_os rr) (rr_instance rr) c (rr_resources rr) (rr_generated rr) (rr_release rr).
Definition set_resources (l : list O) (rr : request O K C Ver) : request O K C Ver :=
  Request (rr_cluster rr) (rr_os rr) (rr_instance rr) (rr_conditions rr) l (rr_generated rr) (rr_release rr).
Definition set_generated (b : bool) (rr : request O K C Ver) : request O K C Ver :=
  Request (rr_cluster rr) (rr_os rr) (rr_instance rr) (rr_conditions rr) (rr_resources rr) b (rr_release rr).
Definition set_release (r : Release Ver) (rr : request O K C Ver) : request O K C Ver :=
  Request (rr_cluster rr) (rr_os rr) (rr_instance rr) (rr_conditions rr) (rr_resources rr) (rr_generated rr) r.

(** Calls of a client, and calls of package [os]. *)
Definition on_client {A} (m : M K A) : M (request O K C Ver) A := zoom rr_cluster set_cluster m.
Definition on_os {A} (m : M os A) : M (request O K C Ver) A := zoom rr_os set_os m.

(** ** Lemmas *)

Lemma on_client_run {A} (m : M K A) rr :
  on_client m rr = ((m (rr_cluster rr)).1, set_cluster (m (rr_cluster rr)).2 rr).
Proof. unfold on_client, zoom. by destruct (m (rr_cluster rr)). Qed.

Lemma on_os_run {A} (m : M os A) rr :
  on_os m rr = ((m (rr_os rr)).1, set_os (m (rr_os rr)).2 rr).
Proof. unfold on_os, zoom. by destruct (m (rr_os rr)). Qed.

Lemma set_cluster_id (rr : request O K C Ver) : set_cluster (rr_cluster rr) rr = rr.
Proof. by destruct rr. Qed.

Lemma set_os_id (rr : request O K C Ver) : set_os (rr_os rr) rr = rr.
Proof. by destruct rr. Qed.

End setters.

(** An action of the reconciler. *)
Abbreviation action O K C Ver := (M (request O K C Ver) unit).

(** Reduce field accesses of a request. *)
Ltac rrsimpl :=
  cbn [rr_cluster rr_os rr_instance rr_conditions rr_resources rr_generated rr_release
       set_cluster set_os set_instance set_conditions set_resources set_generated set_release] in *.
