(* ===== verification/Namespace.v ===== *)
(** [ensureNamespace] of [internal/controller/trainer_controller.go]: the
    application namespace exists before anything is deployed. *)

From S2P Require Import Prelude GoOS Kube ApiTypes KubeStore Request.
Open Scope string_scope.
Open Scope nat_scope.
Open Scope list_scope.

(** ** Definitions *)

Definition namespace_labels : gmap string string := {[PlatformPartOf := trainerPartOf]}.

Section namespace.
Context {O K C Ver : Type} `{!ApiErrors, !CtrlClient K}.

Definition ensureNamespace : action O K C Ver :=
  trainer ← gets rr_instance;
  let namespace := resolveNamespace trainer in
  r ← try (on_client (GetNamespaceObj namespace));
  match r with
  | Ok _ => mret tt
  | Err err =>
      if negb (IsNotFound err) then throw (ErrWrap "failed to check namespace" err)
      else
        r ← try (on_client (CreateNamespace namespace namespace_labels));
        match r with
        | Ok _ => mret tt
        | Err err =>
            if negb (IsAlreadyExists err) then throw (ErrWrap "failed to create namespace" err)
            else mret tt
        end
  end.

End namespace.

(** *** Namespaces that other clients also create *)

(** What the API server promises about namespaces while other clients may
    create some at any time: those that are there stay as they are, [Get] tells
    whether the namespace is there, and [Create] adds it unless it was there. *)
Class NamespaceStore (K : Type) `{!ApiErrors, !CtrlClient K} := {
  namespaces : K → gmap string (gmap string string);
  ns_get n k : namespaces k ⊆ namespaces (GetNamespaceObj n k).2;
  ns_get_ok n k k' : GetNamespaceObj n k = (Ok tt, k') → is_Some (namespaces k' !! n);
  ns_get_missing n k e k' : GetNamespaceObj n k = (Err e, k') → IsNotFound e = true →
    namespaces k' !! n = None;
  ns_create n l k : namespaces k ⊆ namespaces (CreateNamespace n l k).2;
  ns_create_ok n l k k' : CreateNamespace n l k = (Ok tt, k') →
    namespaces k' !! n = Some l;
  ns_create_exists n l k e k' : CreateNamespace n l k = (Err e, k') → IsAlreadyExists e = true →
    is_Some (namespaces k' !! n);
}.

#[export] Instance store_namespaces : NamespaceStore cluster.
Proof.
  refine {| namespaces := c_namespaces |}; cbn.
  - intros n k. munfold. destruct (api_call k) as [[[]|e] k1] eqn:Ea;
      apply api_call_namespaces in Ea as [Hs _]; [|done]. by destruct (c_namespaces k1 !! n).
  - intros n k k'. munfold. destruct (api_call k) as [[[]|e] k1]; [|done].
    destruct (c_namespaces k1 !! n) eqn:En; [|done]. intros [= <-]. by rewrite En.
  - intros n k e k'. munfold. destruct (api_call k) as [[[]|e'] k1] eqn:Ea;
      apply api_call_namespaces in Ea as [_ Hf].
    + by destruct (c_namespaces k1 !! n) eqn:En; [|intros [= <- <-]].
    + intros [= <- <-]. destruct Hf; cbn in *; congruence.
  - intros n l k. munfold. destruct (api_call k) as [[[]|e] k1] eqn:Ea;
      apply api_call_namespaces in Ea as [Hs _]; [|done].
    destruct (c_namespaces k1 !! n) eqn:En; [done|]. cbn.
    etransitivity; [exact Hs|]. by apply insert_subseteq.
  - intros n l k k'. munfold. destruct (api_call k) as [[[]|e] k1]; [|done].
    destruct (c_namespaces k1 !! n) eqn:En; [done|]. intros [= <-]. cbn. by rewrite lookup_insert_eq.
  - intros n l k e k'. munfold. destruct (api_call k) as [[[]|e'] k1] eqn:Ea;
      apply api_call_namespaces in Ea as [_ Hf].
    + by destruct (c_namespaces k1 !! n) eqn:En; [intros [= <- <-]|].
    + intros [= <- <-]. destruct Hf; cbn in *; congruence.
Defined.

(** ** Lemmas *)

Section lemmas.
Context {O K C Ver : Type} `{!ApiErrors, !CtrlClient K}.

(** The cluster after the action: the namespace was looked up and, when it was
    missing, created. *)
Lemma ensureNamespace_run (rr : request O K C Ver) :
  let n := resolveNamespace (rr_instance rr) in
  let '(g, k1) := GetNamespaceObj n (rr_cluster rr) in
  let '(c, k2) := CreateNamespace n namespace_labels k1 in
  ensureNamespace rr =
    match g with
    | Ok _ => (Ok tt, set_cluster k1 rr)
    | Err e =>
        if IsNotFound e then
          (match c with
           | Ok _ => Ok tt
           | Err e' => if IsAlreadyExists e' then Ok tt
                       else Err (ErrWrap "failed to create namespace" e')
           end, set_cluster k2 rr)
        else (Err (ErrWrap "failed to check namespace" e), set_cluster k1 rr)
    end.
Proof.
  cbn zeta. unfold ensureNamespace. munfold. unfold on_client, zoom.
  destruct (GetNamespaceObj _ (rr_cluster rr)) as [[[]|e] k1]; cbn;
    [by destruct (CreateNamespace _ _ k1)|].
  destruct (IsNotFound e); cbn; [|by destruct (CreateNamespace _ _ k1)].
  unfold on_client, zoom. cbn. destruct (CreateNamespace _ _ k1) as [[[]|e'] k2]; cbn; [done|].
  by destruct (IsAlreadyExists e').
Qed.

End lemmas.

(** ** Properties *)

Section properties.
Context {O K C Ver : Type} `{!ApiErrors, !CtrlClient K, !NamespaceStore K}.

(** When the action succeeds, the namespace the resource names (or the
    default one) exists, whoever created it: it may have been there, be
    created here with the platform label, or appear between the lookup and the
    creation.  No existing namespace loses or changes its labels, and nothing
    of the request but the cluster changes. *)
Theorem ensureNamespace_exists (rr rr' : request O K C Ver)
    (Hrun : ensureNamespace rr = (Ok tt, rr')) :
  is_Some (namespaces (rr_cluster rr') !! resolveNamespace (rr_instance rr)) ∧
  namespaces (rr_cluster rr) ⊆ namespaces (rr_cluster rr') ∧
  rr' = set_cluster (rr_cluster rr') rr.
Proof.
  pose proof (ensureNamespace_run rr) as H'. cbn zeta in H'. rewrite Hrun in H'. clear Hrun.
  pose proof (ns_get (resolveNamespace (rr_instance rr)) (rr_cluster rr)) as Hg.
  destruct (GetNamespaceObj _ _) as [[[]|e] k1] eqn:Eg;
    pose proof (ns_create (resolveNamespace (rr_instance rr)) namespace_labels k1) as Hc;
    destruct (CreateNamespace (resolveNamespace (rr_instance rr)) namespace_labels k1) as [[[]|e'] k2] eqn:Ec; cbn in Hg, Hc;
    try (destruct (IsNotFound e) eqn:En); try (destruct (IsAlreadyExists e') eqn:Ee);
    simplify_eq; cbn; split_and!; try done; try (by etransitivity).
  all: first [by eapply ns_get_ok | by apply ns_create_ok in Ec as -> | by eapply ns_create_exists].
Qed.

(** For a namespace that is there the action is the lookup alone: nothing
    is created, whatever the labels it has, and only a failing lookup makes the
    action fail. *)
Theorem ensureNamespace_existing (rr : request O K C Ver)
    (Hthere : is_Some (namespaces (rr_cluster rr) !! resolveNamespace (rr_instance rr))) :
  ensureNamespace rr =
    match GetNamespaceObj (resolveNamespace (rr_instance rr)) (rr_cluster rr) with
    | (Ok _, k1) => (Ok tt, set_cluster k1 rr)
    | (Err e, k1) => (Err (ErrWrap "failed to check namespace" e), set_cluster k1 rr)
    end.
Proof.
  pose proof (ensureNamespace_run rr) as H'. cbn zeta in H'.
  pose proof (ns_get (resolveNamespace (rr_instance rr)) (rr_cluster rr)) as Hg.
  destruct (GetNamespaceObj _ _) as [[[]|e] k1] eqn:Eg;
    destruct (CreateNamespace (resolveNamespace (rr_instance rr)) namespace_labels k1) as [c k2]; [done|].
  destruct (IsNotFound e) eqn:En; [|done].
  pose proof (ns_get_missing _ _ _ _ Eg En) as Hn. destruct Hthere as [l Hl].
  cbn in Hg. apply (lookup_weaken _ _ _ _ Hl) in Hg. congruence.
Qed.

End properties.

(** *** Witnesses *)

Definition ex_request {O K : Type} (k : K) (ns : string) : request O K (gmap string (bool * string * string)) string :=
  Request k (OS ∅ ∅ []) (MkTrainer TrainerInstanceName (MkSpec ns None None) (MkStatus "" [] []))
    ∅ [] false (MkPlatformRelease "" "").

(** Another client creates the namespace between the lookup and the creation. *)
Definition ex_race : cluster := set_cfaults [ApiFine; OtherCreates "apps" ∅] empty_cluster.

Lemma ensureNamespace_exists_witness :
  is_Some (c_namespaces (rr_cluster (ensureNamespace (O:=obj) (ex_request ex_race "apps")).2) !! "apps").
Proof.
  assert (is_ok (ensureNamespace (O:=obj) (ex_request ex_race "apps")).1 = true) as Hok
    by by vm_compute.
  pose proof (ensureNamespace_exists _ _ (run_ok _ _ Hok)) as [Hs _]. exact Hs.
Defined.

Lemma ensureNamespace_existing_witness :
  (ensureNamespace (O:=obj)
    (ex_request (set_namespaces {[defaultNamespace := ∅]} empty_cluster) "")).1 = Ok tt.
Proof.
  rewrite ensureNamespace_existing; [by vm_compute|]. by eexists.
Defined.
