(* ===== verification/Dependencies.v ===== *)
(** [internal/controller/dependencies.go] and the [checkDependencies] action:
    what the cluster must offer before the trainer is deployed, and the
    Degraded condition that reports what is missing. *)

From S2P Require Import Prelude GoStrings GoOS Kube ApiTypes KubeStore Request Namespace.
Open Scope string_scope.
Open Scope nat_scope.
Open Scope list_scope.

(** ** Definitions *)

Definition degradedCondition : string := "Degraded".

Definition jobSetCRDName : string := "jobsets.jobset.x-k8s.io".
Definition jobSetVersion : string := "v1alpha2".
Definition jobSetGroup : string := "jobset.x-k8s.io".
Definition jobSetKind : string := "JobSet".
Definition jobSetOperatorCRName : string := "cluster".
Definition jobSetOperatorName : string := "jobset-operator".
Definition jobSetOperatorGroup : string := "operator.openshift.io".
Definition jobSetOperatorKind : string := "JobSetOperator".
Definition jobSetOperatorAPIVersion : string := "v1".

Definition jobSetGK : GroupKind := GK jobSetGroup jobSetKind.
Definition jobSetOperatorGVK : GroupVersionKind :=
  GVK jobSetOperatorGroup jobSetOperatorAPIVersion jobSetOperatorKind.

Definition getJobSetOperatorNotInstalledMessage : string :=
  "JobSet Operator is not installed. " +:+
  "Please install the JobSet Operator via OLM (OperatorHub) before deploying Trainer.".

Definition getJobSetOperatorCRMissingMessage : string :=
  "JobSetOperator CR with name '" +:+ jobSetOperatorCRName +:+ "' not found. " +:+
  "Please create the JobSetOperator CR to enable the JobSet controller.".

Definition getJobSetMissingMessage : string :=
  "JobSet CRD (" +:+ jobSetCRDName +:+ " version " +:+ jobSetVersion +:+
  ") is required but not found. " +:+
  "Please install JobSet CRD before deploying Trainer.".

Definition getJobSetMissingMessageOpenShift : string :=
  "JobSet CRD (" +:+ jobSetCRDName +:+ " version " +:+ jobSetVersion +:+
  ") is required but not found. " +:+
  "This CRD should be created by the JobSet Operator. " +:+
  "Please check the JobSet Operator status or logs for more details.".

Definition isJobSetOperatorConditionDegraded (condType condStatus : string) : bool :=
  if bool_decide (condType ∈ ["Degraded"; "TargetConfigControllerDegraded";
                              "JobSetOperatorStaticResourcesDegraded"])
  then bool_decide (condStatus = "True")
  else if bool_decide (condType = "Available") then bool_decide (condStatus = "False")
  else false.

Definition no_conditions_message (name : string) : string :=
  "JobSetOperator CR " +:+ name +:+
  " has no status conditions, operator may not have reconciled yet".

Definition malformed_entry : string := "malformed condition (missing type or status)".

Section health.
Context {O V : Type} `{!Objects O V}.

(** [val, found, _ := unstructured.NestedString(cond, field)] *)
Definition string_field (cond : O) (field : string) : string * bool :=
  match NestedString cond [field] with
  | Ok (Some v) => (v, true)
  | _ => ("", false)
  end.

Definition condition_entry (condType condStatus reason message : string) : string :=
  let entry := condType +:+ "=" +:+ condStatus in
  let entry := if bool_decide (reason = "") then entry else entry +:+ " (" +:+ reason +:+ ")" in
  if bool_decide (message = "") then entry else entry +:+ ": " +:+ message.

(** One iteration of the loop over the conditions. *)
Definition health_step (degraded : list string) (c : V) : list string :=
  match asMap c with
  | None => degraded
  | Some cond =>
      let '(condType, found) := string_field cond "type" in
      let '(condStatus, statusFound) := string_field cond "status" in
      if negb found || negb statusFound then degraded ++ [malformed_entry]
      else if isJobSetOperatorConditionDegraded condType condStatus then
        let '(reason, _) := string_field cond "reason" in
        let '(message, _) := string_field cond "message" in
        degraded ++ [condition_entry condType condStatus reason message]
      else degraded
  end.

(** The part of [checkJobSetOperatorHealth] after the resource was fetched. *)
Definition inspect_health (cr : O) : result bool :=
  match NestedSlice cr ["status"; "conditions"] with
  | Err err => Err (ErrWrap "failed to read JobSetOperator CR status conditions" err)
  | Ok None => Err (ErrNew (no_conditions_message (GetName cr)))
  | Ok (Some []) => Err (ErrNew (no_conditions_message (GetName cr)))
  | Ok (Some conditions) =>
      match fold_left health_step conditions [] with
      | [] => Ok true
      | degraded =>
          Err (ErrNew ("JobSetOperator " +:+ GetName cr +:+ ": " +:+ GoStrings.Join degraded "; "))
      end
  end.

End health.

Section checks.
Context {O V K : Type} `{!Objects O V, !PlatformUtils O K}.

Definition checkJobSetAvailable : M K bool :=
  r ← try (CustomResourceDefinitionExists jobSetGK); mret (is_ok r).

Definition checkJobSetOperatorInstalled : M K bool :=
  r ← try (OperatorExists jobSetOperatorName); mret (is_ok r).

Definition checkJobSetOperatorCR : M K bool :=
  r ← try (GetSingleton jobSetOperatorGVK); mret (is_ok r).

Definition checkJobSetOperatorHealth : M K bool :=
  cr ← wrapping "failed to fetch JobSetOperator CR for health check"
         (GetSingleton jobSetOperatorGVK);
  lift (inspect_health cr).

End checks.

Section action.
Context {O V K C Ver : Type} `{!Objects O V, !PlatformUtils O K, !ConditionManager C}.

Definition mark (f : C → C) : action O K C Ver := modify (λ rr, set_conditions (f (rr_conditions rr)) rr).

Definition degradeDependency (reason message : string) : action O K C Ver :=
  mark (MarkTrue degradedCondition reason message);;
  throw (ErrNew ("dependency not met: " +:+ message)).

Definition dependencies_available : action O K C Ver :=
  mark (MarkFalse degradedCondition "DependenciesAvailable" "All required dependencies are available").

Definition checkDependencies : action O K C Ver :=
  r ← try (on_client DetectClusterType);
  match r with
  | Err err =>
      mark (MarkTrue degradedCondition "ClusterDetectionFailed"
              ("Failed to detect cluster type: " +:+ Error err));;
      throw (ErrWrap "failed to detect cluster type" err)
  | Ok clusterType =>
      if bool_decide (clusterType = ClusterTypeOpenShift) then
        installed ← on_client checkJobSetOperatorInstalled;
        if negb installed
        then degradeDependency "JobSetOperatorNotInstalled" getJobSetOperatorNotInstalledMessage
        else
        cr ← on_client checkJobSetOperatorCR;
        if negb cr
        then degradeDependency "JobSetOperatorCRNotFound" getJobSetOperatorCRMissingMessage
        else
        health ← try (on_client checkJobSetOperatorHealth);
        match health with
        | Err err => degradeDependency "JobSetOperatorDegraded" (Error err)
        | Ok _ =>
            crd ← on_client checkJobSetAvailable;
            if negb crd
            then degradeDependency "JobSetCRDNotFound" getJobSetMissingMessageOpenShift
            else dependencies_available
        end
      else
        crd ← on_client checkJobSetAvailable;
        if negb crd then degradeDependency "JobSetCRDNotFound" getJobSetMissingMessage
        else dependencies_available
  end.

End action.

(** *** Specification *)

(** What a list of conditions says is wrong, condition by condition. *)
Section health_spec.
Context {O V : Type} `{!Objects O V}.

Definition has_field (cond : O) (field v : string) : Prop := NestedString cond [field] = Ok (Some v).

(** A condition that counts against the operator: [entry] is its report. *)
Inductive problem (c : V) : string → Prop :=
| problem_malformed cond :
    asMap c = Some cond →
    (¬ (∃ t, has_field cond "type" t) ∨ ¬ (∃ s, has_field cond "status" s)) →
    problem c malformed_entry
| problem_degraded cond t s :
    asMap c = Some cond → has_field cond "type" t → has_field cond "status" s →
    isJobSetOperatorConditionDegraded t s = true →
    problem c (condition_entry t s (string_field cond "reason").1 (string_field cond "message").1).

End health_spec.

(** What the trainer needs from the cluster, most basic first. *)
Inductive requirement : Type := ROperator | ROperatorCR | ROperatorHealth | RJobSetCRD.

Definition requirements (openshift : bool) : list requirement :=
  if openshift then [ROperator; ROperatorCR; ROperatorHealth; RJobSetCRD] else [RJobSetCRD].

(** The facts of a cluster: for the health, the report when it is bad. *)
Record facts := Facts {
  f_openshift : bool; f_operator : bool; f_cr : bool; f_health : option string; f_jobset : bool }.

Definition met (f : facts) (r : requirement) : bool :=
  match r with
  | ROperator => f_operator f
  | ROperatorCR => f_cr f
  | ROperatorHealth => match f_health f with None => true | Some _ => false end
  | RJobSetCRD => f_jobset f
  end.

Definition first_missing (f : facts) : option requirement :=
  head (filter (λ r, met f r = false) (requirements (f_openshift f))).

Definition reason_of (r : requirement) : string :=
  match r with
  | ROperator => "JobSetOperatorNotInstalled"
  | ROperatorCR => "JobSetOperatorCRNotFound"
  | ROperatorHealth => "JobSetOperatorDegraded"
  | RJobSetCRD => "JobSetCRDNotFound"
  end.

Definition message_of (f : facts) (r : requirement) : string :=
  match r with
  | ROperator => getJobSetOperatorNotInstalledMessage
  | ROperatorCR => getJobSetOperatorCRMissingMessage
  | ROperatorHealth => default "" (f_health f)
  | RJobSetCRD => if f_openshift f then getJobSetMissingMessageOpenShift else getJobSetMissingMessage
  end.

Section spec.
Context {O V K C Ver : Type} `{!Objects O V, !PlatformUtils O K, !ConditionManager C}.

(** Looking at the cluster does not change it. *)
Definition reads_keep (k : K) : Prop :=
  (DetectClusterType k).2 = k ∧ (∀ n, (OperatorExists n k).2 = k) ∧
  (∀ g, (GetSingleton g k).2 = k) ∧ (∀ g, (CustomResourceDefinitionExists g k).2 = k).

Definition facts_of (clusterType : string) (k : K) : facts :=
  Facts (bool_decide (clusterType = ClusterTypeOpenShift))
    (is_ok (OperatorExists jobSetOperatorName k).1)
    (is_ok (GetSingleton jobSetOperatorGVK k).1)
    (match (checkJobSetOperatorHealth k).1 with Ok _ => None | Err e => Some (Error e) end)
    (is_ok (CustomResourceDefinitionExists jobSetGK k).1).

(** What the action reports. *)
Definition verdict (rr : request O K C Ver) : result unit * request O K C Ver :=
  let report := λ f, set_conditions (f (rr_conditions rr)) rr in
  match (DetectClusterType (rr_cluster rr)).1 with
  | Err e =>
      (Err (ErrWrap "failed to detect cluster type" e),
       report (MarkTrue degradedCondition "ClusterDetectionFailed"
                 ("Failed to detect cluster type: " +:+ Error e)))
  | Ok clusterType =>
      let f := facts_of clusterType (rr_cluster rr) in
      match first_missing f with
      | None =>
          (Ok tt, report (MarkFalse degradedCondition "DependenciesAvailable"
                            "All required dependencies are available"))
      | Some r =>
          (Err (ErrNew ("dependency not met: " +:+ message_of f r)),
           report (MarkTrue degradedCondition (reason_of r) (message_of f r)))
      end
  end.

End spec.

(** ** Lemmas *)

Section health_lemmas.
Context {O V : Type} `{!Objects O V}.

Lemma string_field_found (cond : O) f :
  (∃ v, has_field cond f v ∧ string_field cond f = (v, true)) ∨
  (¬ (∃ v, has_field cond f v) ∧ string_field cond f = ("", false)).
Proof.
  unfold has_field, string_field. destruct (NestedString cond [f]) as [[v|]|e]; [left; by exists v|right..];
    split; naive_solver.
Qed.

Lemma has_field_inj (cond : O) f v w : has_field cond f v → has_field cond f w → v = w.
Proof. unfold has_field. congruence. Qed.

Lemma health_step_spec d (c : V) :
  (health_step d c = d ∧ ∀ e, ¬ problem c e) ∨
  (∃ e, health_step d c = d ++ [e] ∧ problem c e).
Proof.
  unfold health_step. destruct (asMap c) as [cond|] eqn:Ec;
    [|left; split; [done|]; intros e Hp; inversion Hp; congruence].
  destruct (string_field_found cond "type") as [(t & Ht & ->)|[Ht ->]]; cbn;
    [|destruct (string_field cond "status"); right; eexists; split; [done|]; eapply problem_malformed; eauto].
  destruct (string_field_found cond "status") as [(s & Hs & ->)|[Hs ->]]; cbn;
    [|right; eexists; split; [done|]; eapply problem_malformed; eauto].
  destruct (isJobSetOperatorConditionDegraded t s) eqn:Hd.
  - right. destruct (string_field cond "reason") as [rs rb] eqn:Er,
      (string_field cond "message") as [ms mb] eqn:Em.
    eexists. split; [done|]. replace rs with (string_field cond "reason").1 by by rewrite Er.
    replace ms with (string_field cond "message").1 by by rewrite Em. by apply problem_degraded.
  - left. split; [done|]. intros e Hp. inversion Hp as [cond' Hc [Hn|Hn]|cond' t' s' Hc Ht' Hs' Hd'];
      simplify_eq; try by (apply Hn; eauto).
    rewrite (has_field_inj _ _ _ _ Ht' Ht), (has_field_inj _ _ _ _ Hs' Hs) in Hd'. congruence.
Qed.

End health_lemmas.

Section action_lemmas.
Context {O V K C Ver : Type} `{!Objects O V, !PlatformUtils O K, !ConditionManager C}.

Lemma degradeDependency_run reason message (rr : request O K C Ver) :
  degradeDependency reason message rr =
  (Err (ErrNew ("dependency not met: " +:+ message)),
   set_conditions (MarkTrue degradedCondition reason message (rr_conditions rr)) rr).
Proof. done. Qed.

Lemma dependencies_available_run (rr : request O K C Ver) :
  dependencies_available rr =
  (Ok tt, set_conditions (MarkFalse degradedCondition "DependenciesAvailable"
            "All required dependencies are available" (rr_conditions rr)) rr).
Proof. done. Qed.

(** How a run may end: the conditions are the only part of the request that the
    action sets, and its error and its report agree. *)
Definition reported (c0 : C) (r : result unit) (c : C) : Prop :=
  match r with
  | Ok _ => c = MarkFalse degradedCondition "DependenciesAvailable"
                  "All required dependencies are available" c0
  | Err e => ∃ reason msg,
      c = MarkTrue degradedCondition reason msg c0 ∧
      (e = ErrNew ("dependency not met: " +:+ msg) ∨
       ∃ err, e = ErrWrap "failed to detect cluster type" err ∧
              reason = "ClusterDetectionFailed" ∧
              msg = "Failed to detect cluster type: " +:+ Error err)
  end.

Definition ends_reported (c0 : C) (m : action O K C Ver) : Prop := ∀ rr,
  rr_conditions rr = c0 →
  reported c0 (m rr).1 (rr_conditions (m rr).2) ∧
  rr_os (m rr).2 = rr_os rr ∧ rr_instance (m rr).2 = rr_instance rr ∧
  rr_resources (m rr).2 = rr_resources rr ∧ rr_generated (m rr).2 = rr_generated rr ∧
  rr_release (m rr).2 = rr_release rr.

Lemma ends_reported_client {A} c0 (m : M K A) (f : A → action O K C Ver) (g : goerror → action O K C Ver) :
  (∀ a, ends_reported c0 (f a)) → (∀ e, ends_reported c0 (g e)) →
  ends_reported c0 (r ← try (on_client m); match r with Ok a => f a | Err e => g e end).
Proof.
  intros Hf Hg rr Hc. munfold. rewrite on_client_run.
  destruct (m (rr_cluster rr)) as [[a|e] k1]; cbn.
  - by apply (Hf a (set_cluster k1 rr)).
  - by apply (Hg e (set_cluster k1 rr)).
Qed.

Lemma ends_reported_bool c0 (m : M K bool) (f : bool → action O K C Ver) :
  (∀ k, is_ok (m k).1) → (∀ b, ends_reported c0 (f b)) →
  ends_reported c0 (b ← on_client m; f b).
Proof.
  intros Hm Hf rr Hc. munfold. rewrite on_client_run. specialize (Hm (rr_cluster rr)).
  destruct (m (rr_cluster rr)) as [[a|e] k1]; [|done]. by apply (Hf a (set_cluster k1 rr)).
Qed.

Lemma ends_reported_degrade c0 reason msg : ends_reported c0 (degradeDependency reason msg).
Proof. intros rr Hc. rewrite degradeDependency_run. cbn. rewrite Hc. split_and!; eauto 6. Qed.

Lemma ends_reported_available c0 : ends_reported c0 dependencies_available.
Proof. intros rr Hc. rewrite dependencies_available_run. cbn. by rewrite Hc. Qed.

(** The three checks answer yes or no; only the health check fails. *)
Lemma check_total {A} (m : M K A) k : is_ok ((r ← try m; mret (is_ok r)) k).1.
Proof. munfold. by destruct (m k). Qed.

Hint Resolve ends_reported_degrade ends_reported_available ends_reported_bool
  ends_reported_client : trainer.

Lemma checkDependencies_ends (c0 : C) : ends_reported c0 (checkDependencies (K:=K)).
Proof.
  apply ends_reported_client.
  - intros ct. destruct (bool_decide _).
    + apply ends_reported_bool; [intros; apply check_total|intros []; cbn [negb]; [|auto with trainer]].
      apply ends_reported_bool; [intros; apply check_total|intros []; cbn [negb]; [|auto with trainer]].
      apply ends_reported_client; [|auto with trainer]. intros _.
      apply ends_reported_bool; [intros; apply check_total|intros []; cbn [negb]; auto with trainer].
    + apply ends_reported_bool; [intros; apply check_total|intros []; cbn [negb]; auto with trainer].
  - intros e rr <-. split_and!; [|done..]. do 2 eexists. split; [done|right; by exists e].
Qed.

Lemma checkJobSetOperatorHealth_keep (k : K) :
  reads_keep k → (checkJobSetOperatorHealth k).2 = k.
Proof.
  intros (_ & _ & Hs & _). unfold checkJobSetOperatorHealth. munfold. specialize (Hs jobSetOperatorGVK).
  by destruct (GetSingleton _ k) as [[cr|e] k1].
Qed.

(** One check that keeps the cluster, in front of the rest of the action. *)
Lemma check_step {A} (m : M K A) (f : bool → action O K C Ver) rr :
  (m (rr_cluster rr)).2 = rr_cluster rr →
  (b ← on_client (r ← try m; mret (is_ok r)); f b) rr = f (is_ok (m (rr_cluster rr)).1) rr.
Proof.
  intros Hk. munfold. rewrite on_client_run. cbn.
  destruct (m (rr_cluster rr)) as [r k1] eqn:E. cbn in *. subst k1. by rewrite set_cluster_id.
Qed.

Lemma try_step {A} (m : M K A) (f : result A → action O K C Ver) rr :
  (m (rr_cluster rr)).2 = rr_cluster rr →
  (r ← try (on_client m); f r) rr = f (m (rr_cluster rr)).1 rr.
Proof.
  intros Hk. munfold. rewrite on_client_run.
  destruct (m (rr_cluster rr)) as [r k1] eqn:E. cbn in *. subst k1. by rewrite set_cluster_id.
Qed.

Lemma checkDependencies_verdict (rr : request O K C Ver) :
  reads_keep (rr_cluster rr) → checkDependencies rr = verdict rr.
Proof.
  intros Hk. pose proof (checkJobSetOperatorHealth_keep _ Hk) as Hh.
  destruct Hk as (Hd & Ho & Hs & Hc). unfold checkDependencies, verdict.
  rewrite try_step by done. destruct (DetectClusterType (rr_cluster rr)).1 as [ct|e]; [|done].
  unfold first_missing, facts_of, requirements, checkJobSetAvailable, checkJobSetOperatorInstalled,
    checkJobSetOperatorCR. cbn [f_openshift].
  destruct (bool_decide (ct = ClusterTypeOpenShift)).
  - rewrite check_step by done.
    destruct (is_ok (OperatorExists jobSetOperatorName (rr_cluster rr)).1) eqn:E1; [|done]. cbn [negb].
    rewrite check_step by done.
    destruct (is_ok (GetSingleton jobSetOperatorGVK (rr_cluster rr)).1) eqn:E2; [|done]. cbn [negb].
    rewrite try_step by done.
    destruct (checkJobSetOperatorHealth (rr_cluster rr)).1 as [h|e] eqn:E3; [|done].
    rewrite check_step by done.
    by destruct (is_ok (CustomResourceDefinitionExists jobSetGK (rr_cluster rr)).1) eqn:E4.
  - rewrite check_step by done.
    by destruct (is_ok (CustomResourceDefinitionExists jobSetGK (rr_cluster rr)).1) eqn:E4.
Qed.

End action_lemmas.

(** ** Properties *)

Section properties.
Context {O V K C Ver : Type} `{!Objects O V, !PlatformUtils O K, !ConditionManager C}.

(** C10: Refinement of the dependency check: on a cluster that lookups do not
    change, the action is the verdict on the facts of that cluster.  The
    requirements are the operator, its resource, its health and the JobSet CRD
    on OpenShift, and the CRD alone elsewhere; the first one that is not met,
    in this order, gives the reason and the message of the Degraded condition
    and the error, and when all are met the condition is false. *)
Theorem checkDependencies_refines (rr : request O K C Ver) (Hreads : reads_keep (rr_cluster rr)) :
  checkDependencies rr = verdict rr.
Proof. by apply checkDependencies_verdict. Qed.

(** On a cluster that lookups do not change, the action succeeds exactly
    when the type of the cluster is known and every requirement of this type
    is met. *)
Theorem checkDependencies_ok_iff (rr : request O K C Ver) (Hreads : reads_keep (rr_cluster rr)) :
  (checkDependencies rr).1 = Ok tt ↔
  ∃ ct, (DetectClusterType (rr_cluster rr)).1 = Ok ct ∧
    let f := facts_of ct (rr_cluster rr) in
    ∀ r, r ∈ requirements (f_openshift f) → met f r = true.
Proof.
  rewrite checkDependencies_verdict by done. unfold verdict.
  destruct (DetectClusterType (rr_cluster rr)).1 as [ct|e]; [|naive_solver].
  set (f := facts_of ct (rr_cluster rr)). unfold first_missing.
  destruct (filter _ (requirements (f_openshift f))) as [|r rs] eqn:E; cbn.
  - split; [|done]. intros _. exists ct. split; [done|]. intros r Hr.
    destruct (met f r) eqn:Em; [done|].
    assert (r ∈ filter (λ r, met f r = false) (requirements (f_openshift f))) as Hin
      by by apply list_elem_of_filter.
    rewrite E in Hin. by apply elem_of_nil in Hin.
  - split; [done|]. intros (ct' & [= <-] & Hall).
    assert (r ∈ filter (λ r, met f r = false) (requirements (f_openshift f))) as Hin
      by (rewrite E; by left).
    apply list_elem_of_filter in Hin as [Hm Hr]. specialize (Hall r Hr). fold f in Hall. congruence.
Qed.

(** Whatever the cluster answers, and however it changes between the
    lookups, the action ends with the Degraded condition in agreement with its
    result: it is set to false when the action succeeds; it is set to true with
    a reason and the very message of the error when the action fails; and of
    the request the action sets nothing else. *)
Theorem checkDependencies_reports (rr : request O K C Ver) :
  reported (rr_conditions rr) (checkDependencies rr).1 (rr_conditions (checkDependencies rr).2) ∧
  rr_os (checkDependencies rr).2 = rr_os rr ∧
  rr_instance (checkDependencies rr).2 = rr_instance rr ∧
  rr_resources (checkDependencies rr).2 = rr_resources rr ∧
  rr_generated (checkDependencies rr).2 = rr_generated rr ∧
  rr_release (checkDependencies rr).2 = rr_release rr.
Proof. by apply checkDependencies_ends. Qed.

(** The health check reads every condition: the operator is healthy exactly
    when it has conditions and none of them is malformed or reports a degraded
    state; otherwise the error lists, in order, a report of every condition
    that does.  The answer is never "unhealthy without an error". *)
Theorem inspect_health_spec (cr : O) :
  match NestedSlice cr ["status"; "conditions"] with
  | Err e => inspect_health cr = Err (ErrWrap "failed to read JobSetOperator CR status conditions" e)
  | Ok None | Ok (Some []) => inspect_health cr = Err (ErrNew (no_conditions_message (GetName cr)))
  | Ok (Some cs) =>
      (inspect_health cr = Ok true ↔ ∀ c e, c ∈ cs → ¬ problem c e) ∧
      (inspect_health cr ≠ Ok true → ∃ es, es ≠ [] ∧ projects problem cs es ∧
         inspect_health cr =
           Err (ErrNew ("JobSetOperator " +:+ GetName cr +:+ ": " +:+ GoStrings.Join es "; ")))
  end.
Proof.
  unfold inspect_health. destruct (NestedSlice _ _) as [[[|c cs]|]|e]; try done.
  destruct (projects_fold problem health_step (c :: cs) [] health_step_spec)
    as ([|x es] & -> & Hp); cbn [app].
  - split; [|done]. split; [|done]. intros _. by apply projects_nil_iff.
  - split; [|intros _; by exists (x :: es)]. split; [done|]. intros Hn.
    by pose proof (projects_none _ _ _ Hp Hn).
Qed.

End properties.

(** *** Witnesses *)

Definition ex_condition (t s : string) : json :=
  JMap [("type", JStr t); ("status", JStr s); ("reason", JStr "SyncError")].

Definition ex_operator_cr (conds : list json) : obj :=
  Obj jobSetOperatorGVK "cluster" "" ∅ [] false [("status", JMap [("conditions", JList conds)])].

(** An OpenShift cluster with everything, but for the operator's conditions. *)
Definition ex_openshift (conds : list json) : cluster :=
  Cluster (λ _, ∅) (λ _, true) ∅ ∅ [] "OpenShift" [jobSetGK] {[jobSetOperatorName := "1.0.0"]}
    [(jobSetOperatorGVK, ex_operator_cr conds)] [].

Lemma quiet_reads k : c_faults k = [] → reads_keep (O:=obj) k.
Proof.
  intros Hk. unfold reads_keep. cbn. munfold. unfold api_call. rewrite Hk.
  split_and!; try done; intros x; cbn.
  - by destruct (c_operators k !! x).
  - by destruct (list_find _ _) as [[? [? ?]]|].
  - by destruct (bool_decide _).
Qed.

Lemma checkDependencies_refines_witness :
  (checkDependencies (O:=obj) (V:=json)
     (ex_request (ex_openshift [ex_condition "Available" "True"; ex_condition "Degraded" "True"]) "")).1
  = Err (ErrNew "dependency not met: JobSetOperator cluster: Degraded=True (SyncError)").
Proof.
  rewrite (checkDependencies_refines (V:=json)) by by apply quiet_reads. by vm_compute.
Defined.

Lemma checkDependencies_ok_iff_witness :
  (checkDependencies (O:=obj) (V:=json)
     (ex_request (ex_openshift [ex_condition "Available" "True"]) "")).1 = Ok tt.
Proof.
  apply (checkDependencies_ok_iff (V:=json)); [by apply quiet_reads|].
  exists "OpenShift". split; [by vm_compute|]. intros f [] _; by vm_compute.
Defined.
