(* ===== verification/Releases.v ===== *)
(** The release bookkeeping of [internal/controller/trainer_controller.go]:
    the component releases read from [component_metadata.yaml], the platform
    version read from the platform ConfigMap, and the releases of the status. *)

From S2P Require Import Prelude GoStrings GoOS Kube ApiTypes KubeStore Request Namespace.
Open Scope string_scope.
Open Scope nat_scope.
Open Scope list_scope.

(** ** Definitions *)

Definition platformConfigMapName : string := "odh-trainer-config".
Definition platformVersionKey : string := "platformVersion".
Definition platformReleaseName : string := "platform".

Record componentRelease := MkComponentRelease {
  meta_Name : string; meta_Version : string; meta_RepoURL : string }.

Record componentMetadata := MkComponentMetadata { meta_Releases : list componentRelease }.

Fixpoint appendOrUpdateRelease (releases : list ComponentRelease) (release : ComponentRelease) :
    list ComponentRelease :=
  match releases with
  | [] => [release]
  | r :: rs =>
      if bool_decide (rel_name r = rel_name release) then release :: rs
      else r :: appendOrUpdateRelease rs release
  end.

Fixpoint platform_version_of (releases : list ComponentRelease) : string :=
  match releases with
  | [] => ""
  | r :: rs =>
      if bool_decide (rel_name r = platformReleaseName) then rel_version r else platform_version_of rs
  end.

Definition currentPlatformVersion (trainer : Trainer) : string :=
  platform_version_of (Releases (Status trainer)).

Definition release_of (r : componentRelease) : ComponentRelease :=
  MkRelease (meta_Name r) (meta_Version r) (meta_RepoURL r).

Section releases.
Context {O K C Ver : Type} `{!ApiErrors, !CtrlClient K, !Semver Ver}.

(** [yaml.Unmarshal] into a [componentMetadata], and [strconv.Quote], which
    [%q] applies. *)
Context (UnmarshalMetadata : string → result componentMetadata) (Quote : string → string).

Definition read_metadata (manifestsPath : path) : M os componentMetadata :=
  data ← wrapping "reading component metadata"
           (ReadFile (GoOS.Join manifestsPath "component_metadata.yaml"));
  wrapping "parsing component metadata" (lift (UnmarshalMetadata data)).

Definition getComponentReleases (manifestsPath : path) : M os (list ComponentRelease) :=
  metadata ← read_metadata manifestsPath;
  mret (release_of <$> meta_Releases metadata).

Definition readBootstrapRelease (manifestsPath : path) : M os (Release Ver) :=
  metadata ← read_metadata manifestsPath;
  match meta_Releases metadata with
  | [] => throw (ErrNew "no releases found in component metadata")
  | r :: _ =>
      v ← wrapping ("parsing release version " +:+ Quote (meta_Version r))
            (lift (ParseTolerant (meta_Version r)));
      mret (MkPlatformRelease (meta_Name r) v)
  end.

Definition getPlatformVersion (namespace : string) : M K string :=
  r ← try (ReaderGetConfigMap platformConfigMapName namespace);
  match r with
  | Ok data => mret (default "" (data !! platformVersionKey))
  | Err err =>
      if IsNotFound err then mret ""
      else throw (ErrWrap "failed to get platform config ConfigMap" err)
  end.

(** [trainer.Status.Releases = appendOrUpdateRelease(trainer.Status.Releases, release)] *)
Definition put_release (release : ComponentRelease) : action O K C Ver :=
  modify (λ rr, set_instance
    (MkTrainer (trainer_name (rr_instance rr)) (Spec (rr_instance rr))
       (MkStatus (Phase (Status (rr_instance rr))) (Conditions (Status (rr_instance rr)))
          (appendOrUpdateRelease (Releases (Status (rr_instance rr))) release))) rr).

Definition put_component_releases (manifestsPath : path) : action O K C Ver :=
  releases ← try (on_os (getComponentReleases manifestsPath));
  match releases with
  | Err _ => mret tt
  | Ok releases => forM releases put_release
  end.

Definition updateReleases (manifestsPath : path) : action O K C Ver :=
  trainer ← gets rr_instance;
  let namespace := resolveNamespace trainer in
  put_component_releases manifestsPath;;
  platformVersion ← wrapping "failed to get platform version"
                      (on_client (getPlatformVersion namespace));
  if bool_decide (platformVersion = "") then mret tt
  else
    match ParseTolerant platformVersion with
    | Err _ => mret tt
    | Ok v =>
        put_release (MkRelease platformReleaseName platformVersion "");;
        modify (set_release (MkPlatformRelease platformReleaseName v))
    end.

End releases.

(** *** Specifications *)

(** The release the status reports under a name. *)
Fixpoint find_release (n : string) (l : list ComponentRelease) : option ComponentRelease :=
  match l with
  | [] => None
  | r :: rs => if bool_decide (rel_name r = n) then Some r else find_release n rs
  end.

(** The last release of a name in the metadata. *)
Definition last_release (n : string) (l : list ComponentRelease) : option ComponentRelease :=
  find_release n (reverse l).

Definition names (l : list ComponentRelease) : list string := rel_name <$> l.

(** ** Lemmas *)

Lemma find_release_put n l r :
  find_release n (appendOrUpdateRelease l r) =
  if bool_decide (n = rel_name r) then Some r else find_release n l.
Proof.
  induction l as [|x l IH]; cbn; [by rewrite (bool_decide_ext (rel_name r = n) (n = rel_name r))|].
  repeat case_bool_decide; cbn; repeat case_bool_decide; try congruence; rewrite IH;
    repeat case_bool_decide; congruence.
Qed.

Lemma names_put l r :
  names (appendOrUpdateRelease l r) =
  if bool_decide (rel_name r ∈ names l) then names l else names l ++ [rel_name r].
Proof.
  unfold names. induction l as [|x l IH]; cbn; [done|].
  destruct (decide (rel_name x = rel_name r)) as [Hx|Hx].
  - rewrite !bool_decide_eq_true_2 by (rewrite ?Hx; done || by left). cbn. by rewrite Hx.
  - rewrite (bool_decide_eq_false_2 (rel_name x = rel_name r)) by done. cbn. rewrite IH.
    rewrite (bool_decide_ext (rel_name r ∈ rel_name x :: (rel_name <$> l)) (rel_name r ∈ rel_name <$> l))
      by (rewrite elem_of_cons; naive_solver).
    by case_bool_decide.
Qed.

Lemma NoDup_names_put l r : NoDup (names l) → NoDup (names (appendOrUpdateRelease l r)).
Proof.
  intros Hl. rewrite names_put. case_bool_decide as Hr; [done|].
  apply list.NoDup_app. split_and!; [done|set_solver|apply list.NoDup_singleton].
Qed.

Lemma find_release_app n l1 l2 :
  find_release n (l1 ++ l2) = match find_release n l1 with Some r => Some r | None => find_release n l2 end.
Proof. induction l1 as [|x l1 IH]; cbn; [done|]. by case_bool_decide. Qed.

Lemma find_release_fold n cs l :
  find_release n (fold_left appendOrUpdateRelease cs l) =
  match last_release n cs with Some r => Some r | None => find_release n l end.
Proof.
  unfold last_release. revert l. induction cs as [|c cs IH]; intros l; [done|]. cbn [fold_left].
  rewrite IH, find_release_put, reverse_cons, find_release_app. cbn [find_release].
  destruct (find_release n (reverse cs)); [done|].
  by rewrite (bool_decide_ext (rel_name c = n) (n = rel_name c)) by done; case_bool_decide.
Qed.

Lemma NoDup_names_fold cs l : NoDup (names l) → NoDup (names (fold_left appendOrUpdateRelease cs l)).
Proof. revert l. induction cs as [|c cs IH]; intros l Hl; [done|]. by apply IH, NoDup_names_put. Qed.

Lemma find_release_name n l r : find_release n l = Some r → r ∈ l ∧ rel_name r = n.
Proof.
  induction l as [|x l IH]; cbn; [done|]. case_bool_decide; [intros [= <-]; split; [by left|done]|].
  intros [Hr Hn]%IH. split; [by right|done].
Qed.

Lemma platform_version_find l :
  platform_version_of l = match find_release platformReleaseName l with Some r => rel_version r | None => "" end.
Proof. induction l as [|x l IH]; cbn; [done|]. by case_bool_decide. Qed.

Section release_lemmas.
Context {O K C Ver : Type} `{!ApiErrors, !CtrlClient K, !Semver Ver}.
Context (UnmarshalMetadata : string → result componentMetadata) (Quote : string → string).

Lemma put_releases_run cs (rr : request O K C Ver) :
  forM cs put_release rr =
  (Ok tt, set_instance (SetReleaseStatus (fold_left appendOrUpdateRelease cs
            (Releases (Status (rr_instance rr)))) (rr_instance rr)) rr).
Proof.
  revert rr. induction cs as [|c cs IH]; intros rr; [by destruct rr as [? ? [? ? [? ? ?]] ? ? ? ?]|].
  rewrite forM_cons. unfold put_release at 1, modify. by rewrite IH.
Qed.

(** The component releases of the metadata file, none when it cannot be read. *)
Definition metadata_releases (manifestsPath : path) (s : os) : list ComponentRelease :=
  match (getComponentReleases UnmarshalMetadata manifestsPath s).1 with Ok l => l | Err _ => [] end.

Lemma put_component_releases_run p (rr : request O K C Ver) :
  put_component_releases UnmarshalMetadata p rr =
  (Ok tt, set_os (getComponentReleases UnmarshalMetadata p (rr_os rr)).2
     (set_instance (SetReleaseStatus (fold_left appendOrUpdateRelease (metadata_releases p (rr_os rr))
        (Releases (Status (rr_instance rr)))) (rr_instance rr)) rr)).
Proof.
  unfold put_component_releases, metadata_releases, try. unfold mbind, M_bind. rewrite on_os_run.
  destruct (getComponentReleases UnmarshalMetadata p (rr_os rr)) as [[l|e] s1]; cbn [fst snd].
  - by rewrite put_releases_run.
  - by destruct rr as [? ? [? ? [? ? ?]] ? ? ? ?].
Qed.

(** The platform release a successful update records, with its parsed version. *)
Definition parsed_platform (v : string) : option Ver :=
  if bool_decide (v = "") then None
  else match ParseTolerant v with Ok ver => Some ver | Err _ => None end.

Definition platform_release (v : string) : list ComponentRelease :=
  if parsed_platform v is Some _ then [MkRelease platformReleaseName v ""] else [].

Lemma updateReleases_run p (rr : request O K C Ver) :
  let t := rr_instance rr in
  let cs := metadata_releases p (rr_os rr) in
  let '(pv, k1) := getPlatformVersion (resolveNamespace t) (rr_cluster rr) in
  let '(r, ps, rel) :=
    match pv with
    | Err e => (Err (ErrWrap "failed to get platform version" e), [], rr_release rr)
    | Ok v => (Ok tt, platform_release v,
               match parsed_platform v with
               | Some ver => MkPlatformRelease platformReleaseName ver
               | None => rr_release rr
               end)
    end in
  updateReleases UnmarshalMetadata p rr =
  (r, set_release rel (set_cluster k1 (set_os (getComponentReleases UnmarshalMetadata p (rr_os rr)).2
     (set_instance (SetReleaseStatus (fold_left appendOrUpdateRelease (cs ++ ps) (Releases (Status t))) t) rr)))).
Proof.
  cbn zeta. destruct (getPlatformVersion _ (rr_cluster rr)) as [pv k1] eqn:Ep.
  unfold updateReleases, gets. unfold mbind, M_bind. rewrite put_component_releases_run.
  unfold wrapping. rewrite on_client_run. rrsimpl. rewrite Ep. cbn [fst snd].
  destruct pv as [v|e]; cbn [wrap_err]; [|by rewrite app_nil_r].
  unfold platform_release, parsed_platform. case_bool_decide; [by rewrite app_nil_r|].
  destruct (ParseTolerant v) as [ver|e]; [|by rewrite app_nil_r].
  rewrite fold_left_app. done.
Qed.

End release_lemmas.

(** ** Properties *)

(** [appendOrUpdateRelease] is an update of a map kept as a list: afterwards
    the release is the one reported under its name, every other name reports
    what it did, the names keep their order with a new name at the end, names
    that were unique stay unique, and doing it twice changes nothing. *)
Theorem appendOrUpdateRelease_spec (l : list ComponentRelease) (r : ComponentRelease) :
  let l' := appendOrUpdateRelease l r in
  (∀ n, find_release n l' = if bool_decide (n = rel_name r) then Some r else find_release n l) ∧
  names l' = (if bool_decide (rel_name r ∈ names l) then names l else names l ++ [rel_name r]) ∧
  (NoDup (names l) → NoDup (names l')) ∧
  appendOrUpdateRelease l' r = l'.
Proof.
  cbn zeta. split_and!; [intros; apply find_release_put|apply names_put|apply NoDup_names_put|].
  induction l as [|x l IH]; cbn; [by rewrite bool_decide_eq_true_2|].
  case_bool_decide as Hx; cbn; [by rewrite bool_decide_eq_true_2|].
  rewrite bool_decide_eq_false_2 by done. by rewrite IH.
Qed.

Section properties.
Context {O K C Ver : Type} `{!ApiErrors, !CtrlClient K, !Semver Ver}.
Context (UnmarshalMetadata : string → result componentMetadata) (Quote : string → string).

(** C35: What the action leaves in the status and in the reconciler, in every
    case.  The component releases of the metadata file are recorded even when
    the platform version cannot be read, and are left alone when the file
    cannot be read; the platform release is recorded, and the reconciler's
    release set, exactly when the platform version is read, not empty and
    parses; any other release stays; only a failing lookup of the platform
    version is an error; and nothing else of the resource changes. *)
Theorem updateReleases_spec (manifestsPath : path) (rr : request O K C Ver) :
  let out := updateReleases UnmarshalMetadata manifestsPath rr in
  let t := rr_instance rr in
  let t' := rr_instance out.2 in
  let pv := (getPlatformVersion (resolveNamespace t) (rr_cluster rr)).1 in
  let platform := match pv with Ok v => parsed_platform (Ver:=Ver) v | Err _ => None end in
  out.1 = match pv with Ok _ => Ok tt | Err e => Err (ErrWrap "failed to get platform version" e) end ∧
  rr_release out.2 =
    match platform with Some ver => MkPlatformRelease platformReleaseName ver | None => rr_release rr end ∧
  (∀ n, find_release n (Releases (Status t')) =
    match pv, platform with
    | Ok v, Some _ =>
        if bool_decide (n = platformReleaseName) then Some (MkRelease platformReleaseName v "")
        else match last_release n (metadata_releases UnmarshalMetadata manifestsPath (rr_os rr)) with
             | Some r => Some r | None => find_release n (Releases (Status t)) end
    | _, _ =>
        match last_release n (metadata_releases UnmarshalMetadata manifestsPath (rr_os rr)) with
        | Some r => Some r | None => find_release n (Releases (Status t)) end
    end) ∧
  (NoDup (names (Releases (Status t))) → NoDup (names (Releases (Status t')))) ∧
  (trainer_name t', Spec t', Phase (Status t'), Conditions (Status t')) =
  (trainer_name t, Spec t, Phase (Status t), Conditions (Status t)).
Proof.
  cbn zeta. pose proof (updateReleases_run UnmarshalMetadata manifestsPath rr) as Hrun. cbn zeta in Hrun.
  destruct (getPlatformVersion _ (rr_cluster rr)) as [[v|e] k1]; cbn [fst];
    rewrite Hrun; cbn [fst snd]; rrsimpl; cbn [SetReleaseStatus Status Releases trainer_name Spec Phase Conditions];
    (split_and!; [done|done| |apply NoDup_names_fold|done]); intros n.
  - unfold platform_release. destruct (parsed_platform v) as [ver|].
    + rewrite fold_left_app. cbn [fold_left]. by rewrite find_release_put, find_release_fold.
    + by rewrite app_nil_r, find_release_fold.
  - by rewrite app_nil_r, find_release_fold.
Qed.

(** After a successful update the status reports the platform version of the
    ConfigMap, if it parses; a missing ConfigMap, a missing key and a version
    that does not parse never advance nor clear the version in the status
    (unless a component of the metadata is itself called "platform"). *)
Theorem updateReleases_platform_version (manifestsPath : path) (rr rr' : request O K C Ver)
    (Hrun : updateReleases UnmarshalMetadata manifestsPath rr = (Ok tt, rr'))
    (Hname : platformReleaseName ∉
       names (metadata_releases UnmarshalMetadata manifestsPath (rr_os rr))) :
  ∃ v, (getPlatformVersion (resolveNamespace (rr_instance rr)) (rr_cluster rr)).1 = Ok v ∧
    currentPlatformVersion (rr_instance rr') =
      (if parsed_platform (Ver:=Ver) v is Some _ then v else currentPlatformVersion (rr_instance rr)).
Proof.
  pose proof (updateReleases_run UnmarshalMetadata manifestsPath rr) as H'. cbn zeta in H'.
  rewrite Hrun in H'. destruct (getPlatformVersion _ (rr_cluster rr)) as [[v|e] k1]; [|done].
  exists v. split; [done|]. injection H' as ->. unfold currentPlatformVersion. rrsimpl.
  cbn [SetReleaseStatus Status Releases]. rewrite !platform_version_find, fold_left_app. unfold platform_release.
  destruct (parsed_platform v) as [ver|]; cbn [fold_left].
  - by rewrite find_release_put, bool_decide_eq_true_2.
  - rewrite find_release_fold. unfold last_release.
    destruct (find_release platformReleaseName (reverse _)) as [r|] eqn:E; [|done].
    destruct Hname. apply find_release_name in E as [Hr <-].
    apply list_elem_of_fmap. exists r. split; [done|]. by apply elem_of_reverse.
Qed.

(** The bootstrap release is the first component release with its version
    parsed: it is found exactly when the metadata can be read, lists a release
    and the version of the first one parses. *)
Theorem readBootstrapRelease_spec (manifestsPath : path) (s : os) (rel : Release Ver) :
  (readBootstrapRelease UnmarshalMetadata Quote manifestsPath s).1 = Ok rel ↔
  ∃ c cs v, (getComponentReleases UnmarshalMetadata manifestsPath s).1 = Ok (c :: cs) ∧
    ParseTolerant (rel_version c) = Ok v ∧ rel = MkPlatformRelease (rel_name c) v.
Proof.
  unfold readBootstrapRelease, getComponentReleases. unfold mbind, M_bind.
  destruct (read_metadata UnmarshalMetadata manifestsPath s) as [[[l]|e] s1]; cbn;
    [|by split; [|intros (? & ? & ? & ? & ?)]].
  destruct l as [|r l]; cbn; [by split; [|intros (? & ? & ? & ? & ?)]|]. munfold. cbn.
  destruct (ParseTolerant (meta_Version r)) as [v|e] eqn:E; cbn; split.
  - intros [= <-]. by exists (release_of r), (release_of <$> l), v.
  - intros (c & cs & v' & [= <- <-] & Hv & ->). cbn in *. congruence.
  - done.
  - intros (c & cs & v' & [= <- <-] & Hv & ->). cbn in *. congruence.
Qed.

End properties.

(** *** Witnesses *)

#[local] Instance ex_semver : Semver string := {|
  ParseTolerant v := if bool_decide (v = "latest") then Err (ErrNew "invalid version") else Ok v;
  version_zero := "0.0.0";
|}.

Definition ex_metadata (_ : string) : result componentMetadata :=
  Ok (MkComponentMetadata [MkComponentRelease "Kubeflow Trainer" "2.3.0" ""]).

Definition ex_platform_cluster (version : string) : cluster :=
  Cluster (λ _, ∅) (λ _, true) ∅
    {[(defaultNamespace, platformConfigMapName) := {[platformVersionKey := version]}]}
    [] "Kubernetes" [] ∅ [] [].

Definition ex_updated : request obj cluster (gmap string (bool * string * string)) string :=
  (updateReleases ex_metadata ["opt"] (ex_request (ex_platform_cluster "3.1.0") "")).2.

Lemma updateReleases_platform_version_witness : currentPlatformVersion (rr_instance ex_updated) = "3.1.0".
Proof.
  assert (is_ok (updateReleases (O:=obj) ex_metadata ["opt"]
    (ex_request (ex_platform_cluster "3.1.0") "")).1 = true) as Hok by by vm_compute.
  assert (platformReleaseName ∉ names (metadata_releases ex_metadata ["opt"]
    (rr_os (ex_request (O:=obj) (ex_platform_cluster "3.1.0") "")))) as Hn
    by (apply (bool_decide_unpack _); by vm_compute).
  destruct (updateReleases_platform_version _ _ _ _ (run_ok _ _ Hok) Hn) as (v & Hv & Hc).
  vm_compute in Hv. injection Hv as <-. exact Hc.
Defined.
