(* ===== verification/GoMem.v ===== *)
(** The memory of a Go program as far as this one shares it: arrays behind
    slices, maps and structs behind pointers, and what it means that a value is
    a deep copy of another. *)

From S2P Require Import Prelude.
From stdpp Require Import gmap.
Open Scope string_scope.
Open Scope nat_scope.
Open Scope list_scope.

(** ** Definitions *)

Abbreviation loc := positive.

(** A memory maps locations to cells; [C] is the type of the cells. *)
Abbreviation memory := (gmap loc).

(** Cells that are arrays of [T]. *)
Class ArrayOf (C T : Type) := {
  to_cell : list T → C;
  of_cell : C → option (list T);
  of_to l : of_cell (to_cell l) = Some l;
}.

(** The zero value of a type. *)
Class Zero (T : Type) := zero : T.

Definition nil_dereference : goerror :=
  ErrForeign "panic" "runtime error: invalid memory address or nil pointer dereference".
Definition index_out_of_range : goerror := ErrForeign "panic" "runtime error: index out of range".

(** The location that [new] and [make] give is one that is not in use. *)
Definition alloc {C} (c : C) : M (memory C) loc := λ h,
  let l := fresh (dom h) in (Ok l, <[l := c]> h).

Section arrays.
Context {C T : Type} `{!ArrayOf C T}.

Definition array (h : memory C) (l : loc) : option (list T) := h !! l ≫= of_cell.

Definition load (l : loc) : M (memory C) (list T) := λ h,
  match array h l with Some a => (Ok a, h) | None => (Err nil_dereference, h) end.

Definition store (l : loc) (a : list T) : M (memory C) unit :=
  modify <[l := to_cell a]>.

(** *** Slices *)

(** A slice that is not nil: the array, the offset of its first element, its
    length and its capacity. *)
Record header := Header { s_arr : loc; s_off : nat; s_len : nat; s_cap : nat }.

End arrays.

(** [[]T]: [None] is the nil slice. *)
Definition slice (T : Type) : Type := option header.

Definition len {T} (s : slice T) : nat := match s with Some hd => s_len hd | None => 0 end.
Definition cap {T} (s : slice T) : nat := match s with Some hd => s_cap hd | None => 0 end.

(** [s[:0:0]]: no elements and no capacity; nil only when [s] is. *)
Definition empty_of {T} (s : slice T) : slice T :=
  match s with Some hd => Some (Header (s_arr hd) (s_off hd) 0 0) | None => None end.

Section slices.
Context {C T : Type} `{!ArrayOf C T, !Zero T}.

(** The elements of a slice that lies within its array. *)
Definition elems (h : memory C) (s : slice T) : option (list T) :=
  match s with
  | None => Some []
  | Some hd =>
      a ← array h (s_arr hd);
      if bool_decide (s_len hd ≤ s_cap hd ∧ s_off hd + s_cap hd ≤ length a)
      then Some (take (s_len hd) (drop (s_off hd) a)) else None
  end.

Definition slice_elems (s : slice T) : M (memory C) (list T) := λ h,
  match elems h s with Some l => (Ok l, h) | None => (Err nil_dereference, h) end.

(** [s[i]] and [s[i] = v]. *)
Definition slice_get (s : slice T) (i : nat) : M (memory C) T :=
  l ← slice_elems s;
  match l !! i with Some v => mret v | None => throw index_out_of_range end.

Definition slice_set (s : slice T) (i : nat) (v : T) : M (memory C) unit :=
  match s with
  | Some hd =>
      if bool_decide (i < s_len hd)
      then a ← load (s_arr hd); store (s_arr hd) (<[s_off hd + i := v]> a)
      else throw index_out_of_range
  | None => throw index_out_of_range
  end.

(** [make([]T, n)]. *)
Definition make (n : nat) : M (memory C) (slice T) :=
  l ← alloc (to_cell (replicate n zero));
  mret (Some (Header l 0 n n)).

(** [append(s, xs...)]: in place when the capacity is enough, and a new array
    otherwise, with some spare capacity that the runtime chooses. *)
Definition append (spare : nat → nat → nat) (s : slice T) (xs : list T) : M (memory C) (slice T) :=
  if bool_decide (xs = []) then mret s
  else
    let n := len s + length xs in
    match s with
    | Some hd =>
        if bool_decide (n ≤ s_cap hd) then
          a ← load (s_arr hd);
          store (s_arr hd) (take (s_off hd + s_len hd) a ++ xs ++ drop (s_off hd + n) a);;
          mret (Some (Header (s_arr hd) (s_off hd) n (s_cap hd)))
        else
          l ← slice_elems s;
          let c := n + spare (s_cap hd) n in
          l' ← alloc (to_cell (l ++ xs ++ replicate (c - n) zero));
          mret (Some (Header l' 0 n c))
    | None =>
        let c := n + spare 0 n in
        l' ← alloc (to_cell (xs ++ replicate (c - n) zero));
        mret (Some (Header l' 0 n c))
    end.

(** [append(s, t...)]. *)
Definition append_slice (spare : nat → nat → nat) (s t : slice T) : M (memory C) (slice T) :=
  xs ← slice_elems t;
  append spare s xs.

End slices.

(** A pointer to a struct is the location of a cell with one element. *)
Definition pointer (T : Type) : Type := option loc.

#[export] Typeclasses Opaque slice pointer.

Section pointers.
Context {C T : Type} `{!ArrayOf C T, !Zero T}.

Definition deref (p : pointer T) : M (memory C) T :=
  match p with
  | None => throw nil_dereference
  | Some l => a ← load l; match a with [v] => mret v | _ => throw nil_dereference end
  end.

(** [new(T)], and [*p = v]. *)
Definition new : M (memory C) loc := alloc (to_cell [zero (T:=T)]).
Definition assign (l : loc) (v : T) : M (memory C) unit := store l [v].

End pointers.

(** *** Specification: values in memory *)

(** [denote h t] is the value of [t], with all that it points to; [reach h t]
    are the cells it takes to know it. *)
Class Denotes (C T D : Type) := {
  denote : memory C → T → option D;
  reach : memory C → T → gset loc;
  reach_dom h t d : denote h t = Some d → reach h t ⊆ dom h;
  denote_frame h h' t d : denote h t = Some d → (∀ l, l ∈ reach h t → h' !! l = h !! l) →
    denote h' t = Some d ∧ reach h' t = reach h t;
}.

(** [in.DeepCopyInto(out)]: the value that [*out] gets. *)
Class DeepCopier (C T : Type) := DeepCopyInto : T → M (memory C) T.

(** What is promised of it: no cell that was there changes, the copy has the
    value of the original, and it is made of new cells only. *)
Class DeepCopyLaws (C T D : Type) `{!Denotes C T D, !DeepCopier C T} : Prop :=
  deep_copies h t d : denote h t = Some d →
    ∃ t' h', DeepCopyInto t h = (Ok t', h') ∧ h ⊆ h' ∧ denote h' t' = Some d ∧ reach h' t' ## dom h.

(** Cells that are not in [X] are as they were. *)
Definition same_outside {C} (X : gset loc) (h h' : memory C) : Prop :=
  ∀ l, l ∉ X → h' !! l = h !! l.

(** The slice lies within its array. *)
Definition wf_slice {C T} `{!ArrayOf C T} (h : memory C) (s : slice T) : Prop :=
  match s with
  | None => True
  | Some hd => s_len hd ≤ s_cap hd ∧ ∃ a, array h (s_arr hd) = Some a ∧ s_off hd + s_cap hd ≤ length a
  end.

(** ** Lemmas *)

Section lemmas.
Context {C T : Type} `{!ArrayOf C T, !Zero T}.
Implicit Types (h : memory C) (s : slice T).

Lemma alloc_run (c : C) h : ∃ l, alloc c h = (Ok l, <[l := c]> h) ∧ l ∉ dom h.
Proof. exists (fresh (dom h)). split; [done|]. apply is_fresh. Qed.

Lemma fresh_subseteq (c : C) h l : l ∉ dom h → h ⊆ <[l := c]> h.
Proof. intros Hl. apply insert_subseteq. by apply not_elem_of_dom. Qed.

Lemma array_insert h l (a : list T) : array (<[l := to_cell a]> h) l = Some a.
Proof. unfold array. rewrite lookup_insert_eq. apply of_to. Qed.

Lemma array_insert_ne h l l' (c : C) : l ≠ l' → array (T:=T) (<[l := c]> h) l' = array h l'.
Proof. intros Hl. unfold array. by rewrite lookup_insert_ne. Qed.

Lemma array_same h h' l : h' !! l = h !! l → array (T:=T) h' l = array h l.
Proof. unfold array. by intros ->. Qed.

Lemma load_run h l (a : list T) : array h l = Some a → load l h = (Ok a, h).
Proof. unfold load. by intros ->. Qed.

Lemma slice_elems_run h s l : elems h s = Some l → slice_elems s h = (Ok l, h).
Proof. unfold slice_elems. by intros ->. Qed.

Lemma elems_wf h s : wf_slice h s → is_Some (elems h s).
Proof.
  destruct s as [hd|]; [|by eexists]. intros (Hl & a & Ha & Hc). cbn. rewrite Ha. cbn.
  rewrite bool_decide_eq_true_2 by lia. by eexists.
Qed.

Lemma wf_elems h s l : elems h s = Some l → wf_slice h s.
Proof.
  destruct s as [hd|]; [|done]. cbn. destruct (array h (s_arr hd)) as [a|]; cbn; [|done].
  case_bool_decide as H; [|done]. intros _. split; [lia|]. exists a. split; [done|lia].
Qed.

Lemma elems_inv h hd l : elems h (Some hd : slice T) = Some l →
  ∃ a, array h (s_arr hd) = Some a ∧ s_off hd + s_len hd ≤ length a ∧
       l = take (s_len hd) (drop (s_off hd) a).
Proof.
  cbn. destruct (array h (s_arr hd)) as [a|]; cbn; [|done]. case_bool_decide as H; [|done].
  intros [= <-]. exists a. split_and!; [done|lia|done].
Qed.

Lemma elems_length h s l : elems h s = Some l → length l = len s.
Proof.
  destruct s as [hd|]; [|by intros [= <-]]. intros (a & _ & Ha & ->)%elems_inv.
  rewrite length_take, length_drop. cbn. lia.
Qed.

Lemma elems_same h h' s : (∀ hd, s = Some hd → h' !! s_arr hd = h !! s_arr hd) → elems h' s = elems h s.
Proof. destruct s as [hd|]; [|done]. intros H. cbn. by rewrite (array_same h h') by auto. Qed.

Lemma elems_fresh h h' s l : elems h s = Some l → h ⊆ h' → elems h' s = Some l.
Proof.
  intros Hl Hh. rewrite <-Hl. apply elems_same. intros hd ->. apply elems_inv in Hl as (a & Ha & _).
  unfold array in Ha. destruct (h !! s_arr hd) as [c|] eqn:E; [|done]. by eapply lookup_weaken.
Qed.

Lemma slice_get_run h s l i v : elems h s = Some l → l !! i = Some v → slice_get s i h = (Ok v, h).
Proof.
  intros Hl Hv. unfold slice_get. rewrite (bind_ok _ _ _ _ _ (slice_elems_run _ _ _ Hl)). by rewrite Hv.
Qed.

(** A write through a slice, and what its aliases see of it. *)
Lemma slice_set_run h hd i v a : array h (s_arr hd) = Some a → i < s_len hd →
  slice_set (Some hd : slice T) i v h = (Ok tt, <[s_arr hd := to_cell (<[s_off hd + i := v]> a)]> h).
Proof.
  intros Ha Hi. cbn. rewrite bool_decide_eq_true_2 by done. by rewrite (bind_ok _ _ _ _ _ (load_run _ _ _ Ha)).
Qed.

Lemma take_drop_insert (a : list T) off n i v : i < n → off + n ≤ length a →
  take n (drop off (<[off + i := v]> a)) = <[i := v]> (take n (drop off a)).
Proof.
  intros Hi Hn. apply list_eq. intros j.
  destruct (decide (j < n)) as [Hj|Hj].
  - rewrite lookup_take_lt, lookup_drop by done. destruct (decide (i = j)) as [->|Hij].
    + rewrite list_lookup_insert_eq by lia. rewrite list_lookup_insert_eq; [done|].
      rewrite length_take, length_drop. lia.
    + rewrite !list_lookup_insert_ne by lia. by rewrite lookup_take_lt, lookup_drop by done.
  - rewrite !lookup_ge_None_2; [done|..]; rewrite ?length_insert, length_take; lia.
Qed.

Lemma elems_set h hd i v l : elems h (Some hd : slice T) = Some l → i < s_len hd →
  ∃ h', slice_set (Some hd : slice T) i v h = (Ok tt, h') ∧ elems h' (Some hd : slice T) = Some (<[i := v]> l) ∧
    same_outside {[s_arr hd]} h h' ∧ dom h' = dom h.
Proof.
  intros Hl Hi. pose proof (wf_elems _ _ _ Hl) as (Hc & a & Ha & Hcap).
  apply elems_inv in Hl as (a' & Ha' & _ & ->). rewrite Ha in Ha'. injection Ha' as <-.
  eexists. split; [by apply slice_set_run|]. split_and!.
  - cbn. rewrite array_insert. cbn. rewrite length_insert, bool_decide_eq_true_2 by done.
    by rewrite take_drop_insert by lia.
  - intros x Hx. rewrite lookup_insert_ne; [done|]. set_solver.
  - rewrite dom_insert_L. unfold array in Ha. destruct (h !! s_arr hd) eqn:E; [|done].
    apply elem_of_dom_2 in E. set_solver.
Qed.

(** [append] in every case: the elements of the result, and what else can be
    seen of it: only the array of the slice may change, beyond its length. *)
Lemma append_run spare h s l xs : elems h s = Some l →
  ∃ s' h', append spare s xs h = (Ok s', h') ∧ elems h' s' = Some (l ++ xs) ∧
    ((h ⊆ h' ∧ (xs ≠ [] → ∃ hd, s' = Some hd ∧ s_arr hd ∉ dom h) ∧ (xs = [] → s' = s ∧ h' = h)) ∨
     ∃ hd a a', s = Some hd ∧ array h (s_arr hd) = Some a ∧ xs ≠ [] ∧ len s + length xs ≤ s_cap hd ∧
       s' = Some (Header (s_arr hd) (s_off hd) (len s + length xs) (s_cap hd)) ∧
       h' = <[s_arr hd := to_cell a']> h ∧ length a' = length a ∧
       take (s_off hd + s_len hd) a' = take (s_off hd + s_len hd) a).
Proof.
  intros Hl. pose proof (wf_elems _ _ _ Hl) as Hw. unfold append. case_bool_decide as Hx.
  { subst xs. exists s, h. rewrite app_nil_r. split_and!; try done. left. by split_and!. }
  destruct s as [hd|].
  2:{ injection Hl as <-. cbn [len]. set (c := 0 + length xs + spare 0 (0 + length xs)).
      destruct (alloc_run (to_cell (xs ++ replicate (c - (0 + length xs)) zero)) h) as (l' & Hr & Hf).
      rewrite (bind_ok _ _ _ _ _ Hr). eexists _, _. split; [done|]. split_and!.
      - cbn. rewrite array_insert. cbn.
        rewrite bool_decide_eq_true_2 by (rewrite length_app, length_replicate; lia).
        by rewrite drop_0, take_app_length.
      - left. split_and!; [by apply fresh_subseteq| |done]. intros _. by eexists. }
  pose proof (elems_length _ _ _ Hl) as Hlen. cbn [len] in Hlen |- *.
  destruct Hw as (Hc & a & Ha & Hcap). pose proof Hl as (a' & Ha' & Hn & Hla)%elems_inv.
  rewrite Ha in Ha'. injection Ha' as <-.
  case_bool_decide as Hfit.
  - rewrite (bind_ok _ _ _ _ _ (load_run _ _ _ Ha)). unfold store, modify.
    eexists _, _. split; [reflexivity|].
    set (a' := take (s_off hd + s_len hd) a ++ xs ++ drop (s_off hd + (s_len hd + length xs)) a).
    assert (length a' = length a) as Hla'.
    { unfold a'. rewrite !length_app, length_take, length_drop. lia. }
    split_and!.
    + cbn. rewrite array_insert. cbn. rewrite Hla', bool_decide_eq_true_2 by lia. f_equal. unfold a'.
      rewrite drop_app_le by (rewrite length_take; lia). rewrite <-take_drop_commute, <-Hla, <-Hlen.
      by rewrite take_app_add, take_app_length.
    + right. exists hd, a, a'. split_and!; try done.
      unfold a'. rewrite take_app_le by (rewrite length_take; lia). by rewrite take_take, Nat.min_id.
  - rewrite (bind_ok _ _ _ _ _ (slice_elems_run _ _ _ Hl)).
    set (n := s_len hd + length xs). set (c := n + spare (s_cap hd) n).
    destruct (alloc_run (to_cell (l ++ xs ++ replicate (c - n) zero)) h) as (l' & Hr & Hf).
    rewrite (bind_ok _ _ _ _ _ Hr). eexists _, _. split; [reflexivity|].
    assert (length (l ++ xs ++ replicate (c - n) zero) = c) as Hlc
      by (rewrite !length_app, length_replicate; lia).
    split_and!.
    + cbn. rewrite array_insert. cbn. rewrite Hlc, bool_decide_eq_true_2 by lia. f_equal.
      rewrite drop_0, (app_assoc l xs). unfold n. rewrite <-Hlen, <-length_app. apply take_app_length.
    + left. split_and!; [by apply fresh_subseteq| |done]. intros _. by eexists.
Qed.

End lemmas.
