(* ===== verification/ApiMem.v ===== *)
(** The Trainer resource in memory: the structs of
    [api/v1alpha1/trainer_types.go] with their slices and maps, the accessors
    that the framework calls, and [appendOrUpdateRelease] of
    [internal/controller/trainer_controller.go] on a slice. *)

From S2P Require Import Prelude GoMem ApiTypes Releases.
Open Scope string_scope.
Open Scope nat_scope.
Open Scope list_scope.

(** ** Definitions *)

Section types.
(** [corev1.ResourceRequirements], [metav1.ObjectMeta] and [metav1.ListMeta],
    and the cells that they use. *)
Context {RR OM LM F : Type}.

(** [metav1.TypeMeta]. *)
Record type_meta := TypeMeta { tm_Kind : string; tm_APIVersion : string }.

(** [map[string]bool]. *)
Definition gate_map : Type := option loc.

Record controller_t := Controller { ct_Name : string; ct_Resources : RR }.

Record spec_t := TrainerSpec_t {
  sp_AppNamespace : string;
  sp_FeatureGates : gate_map;
  sp_Controllers : slice controller_t }.

(** [fwapi.Status] and [fwapi.ComponentReleaseStatus], the fields in use. *)
Record fw_status_t := FwStatus { fs_Phase : string; fs_Conditions : slice Condition }.
Record fw_releases_t := FwReleases { fr_Releases : slice ComponentRelease }.

Record status_t := TrainerStatus_t { st_Status : fw_status_t; st_Releases : fw_releases_t }.

Record trainer_t := Trainer_t {
  t_TypeMeta : type_meta;
  t_ObjectMeta : OM;
  t_Spec : spec_t;
  t_Status : status_t }.

Record trainer_list_t := TrainerList_t {
  tl_TypeMeta : type_meta;
  tl_ListMeta : LM;
  tl_Items : slice trainer_t }.

(** What a location holds. *)
Inductive cell : Type :=
| ConditionCell (l : list Condition)
| ReleaseCell (l : list ComponentRelease)
| ControllerCell (l : list controller_t)
| SpecCell (l : list spec_t)
| StatusCell (l : list status_t)
| TrainerCell (l : list trainer_t)
| TrainerListCell (l : list trainer_list_t)
| GateMapCell (m : gmap string bool)
| ForeignCell (f : F).

End types.
#[export] Typeclasses Opaque gate_map.
Arguments controller_t : clear implicits.
Arguments spec_t : clear implicits.
Arguments trainer_t : clear implicits.
Arguments trainer_list_t : clear implicits.
Arguments cell : clear implicits.

Section instances.
Context {RR OM LM F : Type}.
#[local] Abbreviation cells := (cell RR OM LM F).

#[export] Instance condition_array : ArrayOf cells Condition := {|
  to_cell := ConditionCell;
  of_cell c := match c with ConditionCell l => Some l | _ => None end;
  of_to l := eq_refl |}.
#[export] Instance release_array : ArrayOf cells ComponentRelease := {|
  to_cell := ReleaseCell;
  of_cell c := match c with ReleaseCell l => Some l | _ => None end;
  of_to l := eq_refl |}.
#[export] Instance controller_array : ArrayOf cells (controller_t RR) := {|
  to_cell := ControllerCell;
  of_cell c := match c with ControllerCell l => Some l | _ => None end;
  of_to l := eq_refl |}.
#[export] Instance spec_array : ArrayOf cells (spec_t RR) := {|
  to_cell := SpecCell;
  of_cell c := match c with SpecCell l => Some l | _ => None end;
  of_to l := eq_refl |}.
#[export] Instance status_array : ArrayOf cells status_t := {|
  to_cell := StatusCell;
  of_cell c := match c with StatusCell l => Some l | _ => None end;
  of_to l := eq_refl |}.
#[export] Instance trainer_array : ArrayOf cells (trainer_t RR OM) := {|
  to_cell := TrainerCell;
  of_cell c := match c with TrainerCell l => Some l | _ => None end;
  of_to l := eq_refl |}.
#[export] Instance trainer_list_array : ArrayOf cells (trainer_list_t RR OM LM) := {|
  to_cell := TrainerListCell;
  of_cell c := match c with TrainerListCell l => Some l | _ => None end;
  of_to l := eq_refl |}.

#[export] Instance condition_zero : Zero Condition := MkCondition "" "" "" "".
#[export] Instance release_zero : Zero ComponentRelease := MkRelease "" "" "".
#[export] Instance controller_zero `{!Zero RR} : Zero (controller_t RR) := Controller "" zero.
#[export] Instance spec_zero : Zero (spec_t RR) := TrainerSpec_t "" None None.
#[export] Instance status_zero : Zero status_t := TrainerStatus_t (FwStatus "" None) (FwReleases None).
#[export] Instance trainer_zero `{!Zero OM} : Zero (trainer_t RR OM) :=
  Trainer_t (TypeMeta "" "") zero zero zero.
#[export] Instance trainer_list_zero `{!Zero LM} : Zero (trainer_list_t RR OM LM) :=
  TrainerList_t (TypeMeta "" "") zero None.

End instances.

Section accessors.
Context {RR OM LM F : Type} (spare : nat → nat → nat).
#[local] Abbreviation cells := (cell RR OM LM F).
#[local] Abbreviation heap := (memory cells).

Definition conditions_of (t : trainer_t RR OM) : slice Condition := fs_Conditions (st_Status (t_Status t)).
Definition releases_of (t : trainer_t RR OM) : slice ComponentRelease := fr_Releases (st_Releases (t_Status t)).

Definition set_status (st : status_t) (t : trainer_t RR OM) : trainer_t RR OM :=
  Trainer_t (t_TypeMeta t) (t_ObjectMeta t) (t_Spec t) st.
Definition with_conditions (cs : slice Condition) (t : trainer_t RR OM) : trainer_t RR OM :=
  set_status (TrainerStatus_t (FwStatus (fs_Phase (st_Status (t_Status t))) cs) (st_Releases (t_Status t))) t.
Definition with_releases (rs : slice ComponentRelease) (t : trainer_t RR OM) : trainer_t RR OM :=
  set_status (TrainerStatus_t (st_Status (t_Status t)) (FwReleases rs)) t.

(** The accessors get a pointer to the resource. *)
Definition get_conditions (t : loc) : M heap (slice Condition) :=
  v ← deref (Some t : pointer (trainer_t RR OM));
  mret (conditions_of v).

(** [append(t.Status.Conditions[:0:0], conditions...)] *)
Definition set_conditions (t : loc) (conditions : slice Condition) : M heap unit :=
  v ← deref (Some t : pointer (trainer_t RR OM));
  cs ← append_slice spare (empty_of (conditions_of v)) conditions;
  assign t (with_conditions cs v).

Definition set_release_status (t : loc) (status : slice ComponentRelease) : M heap unit :=
  v ← deref (Some t : pointer (trainer_t RR OM));
  rs ← append_slice spare (empty_of (releases_of v)) status;
  assign t (with_releases rs v).

(** A pointer to a field of the resource: [&t.Status.Status] and
    [&t.Status.Releases]. *)
Inductive field_pointer := StatusField (t : loc) | ReleasesField (t : loc).

Definition get_status (t : loc) : field_pointer := StatusField t.
Definition get_release_status (t : loc) : field_pointer := ReleasesField t.

(** *** [appendOrUpdateRelease] *)

(** The loop from the index [i], with [n] elements to go. *)
Fixpoint append_or_update_from (releases : slice ComponentRelease) (release : ComponentRelease)
    (n i : nat) : M heap (slice ComponentRelease) :=
  match n with
  | 0 => append spare releases [release]
  | S n' =>
      r ← slice_get releases i;
      if bool_decide (rel_name r = rel_name release)
      then slice_set releases i release;; mret releases
      else append_or_update_from releases release n' (S i)
  end.

Definition append_or_update (releases : slice ComponentRelease) (release : ComponentRelease) :
    M heap (slice ComponentRelease) :=
  append_or_update_from releases release (len releases) 0.

(** [trainer.Status.Releases = appendOrUpdateRelease(trainer.Status.Releases, release)] *)
Definition put_release_at (t : loc) (release : ComponentRelease) : M heap unit :=
  v ← deref (Some t : pointer (trainer_t RR OM));
  rs ← append_or_update (releases_of v) release;
  v ← deref (Some t : pointer (trainer_t RR OM));
  assign t (with_releases rs v).

End accessors.

(** *** Specification *)

(** Cells that were there and are not the array of [s] are as they were. *)
Definition only_array {C T} (s : slice T) (h h' : memory C) : Prop :=
  ∀ x, x ∈ dom h → (∀ hd, s = Some hd → x ≠ s_arr hd) → h' !! x = h !! x.

(** ** Lemmas *)

Lemma put_app_notin l1 l2 r : rel_name r ∉ names l1 →
  appendOrUpdateRelease (l1 ++ l2) r = l1 ++ appendOrUpdateRelease l2 r.
Proof.
  induction l1 as [|x l1 IH]; intros Hn; [done|]. cbn in *.
  rewrite bool_decide_eq_false_2 by set_solver. f_equal. apply IH. set_solver.
Qed.

Lemma put_notin l r : rel_name r ∉ names l → appendOrUpdateRelease l r = l ++ [r].
Proof. intros Hn. rewrite <-(app_nil_r l) at 1. by rewrite put_app_notin. Qed.

Section lemmas.
Context {RR OM LM F : Type} (spare : nat → nat → nat).
#[local] Abbreviation cells := (cell RR OM LM F).
#[local] Abbreviation heap := (memory cells).

Lemma append_only {T} `{!ArrayOf cells T, !Zero T} (h : heap) (s : slice T) l xs :
  elems h s = Some l →
  ∃ s' h', append spare s xs h = (Ok s', h') ∧ elems h' s' = Some (l ++ xs) ∧
    only_array s h h' ∧ dom h ⊆ dom h' ∧ elems h' s = Some l ∧
    (∀ hd, s' = Some hd → s_arr hd ∉ dom h ∨ ∃ hd0, s = Some hd0 ∧ s_arr hd = s_arr hd0).
Proof.
  intros Hl. destruct (append_run spare h s l xs Hl) as (s' & h' & Hr & He & Hc).
  exists s', h'. split_and!; [done..| | | |]; destruct Hc as [(Hsub & Hnew & Hnil)|Hc].
  - intros x Hx _. apply elem_of_dom in Hx as [c Hx]. rewrite Hx. by eapply lookup_weaken.
  - destruct Hc as (hd & a & a' & -> & _ & _ & _ & _ & -> & _). intros x _ Hx.
    rewrite lookup_insert_ne; [done|]. intros <-. by eapply Hx.
  - by apply subseteq_dom.
  - destruct Hc as (hd & a & a' & -> & _ & _ & _ & _ & -> & _). rewrite dom_insert. set_solver.
  - by eapply elems_fresh.
  - destruct Hc as (hd & a & a' & -> & Ha & _ & _ & _ & -> & Hla & Ht).
    pose proof (wf_elems _ _ _ Hl) as (Hc & a1 & Ha1 & Hcap).
    apply elems_inv in Hl as (a0 & Ha0 & Hn & ->). rewrite Ha in Ha0, Ha1. injection Ha0 as <-. injection Ha1 as <-.
    cbn. rewrite array_insert. cbn. rewrite Hla, bool_decide_eq_true_2 by done.
    by rewrite !take_drop_commute, Ht.
  - intros hd Hhd. destruct (decide (xs = [])) as [Hx|Hx].
    + destruct (Hnil Hx) as [-> ->]. right. by exists hd.
    + destruct (Hnew Hx) as (hd' & -> & Hf). left. by injection Hhd as ->.
  - destruct Hc as (hd0 & a & a' & -> & _ & _ & _ & -> & _). intros hd [= <-]. right. by exists hd0.
Qed.

Lemma append_or_update_from_run (h : heap) s l1 l2 r :
  elems h s = Some (l1 ++ l2) → rel_name r ∉ names l1 →
  ∃ s' h', append_or_update_from spare s r (length l2) (length l1) h = (Ok s', h') ∧
    elems h' s' = Some (appendOrUpdateRelease (l1 ++ l2) r) ∧
    only_array s h h' ∧ dom h ⊆ dom h' ∧
    (if bool_decide (rel_name r ∈ names (l1 ++ l2)) then s' = s else elems h' s = Some (l1 ++ l2)) ∧
    (∀ hd, s' = Some hd → s_arr hd ∉ dom h ∨ ∃ hd0, s = Some hd0 ∧ s_arr hd = s_arr hd0).
Proof.
  revert l1. induction l2 as [|x l2 IH]; intros l1 Hl Hn; cbn [append_or_update_from length].
  - rewrite app_nil_r in *. destruct (append_only h s l1 [r] Hl)
      as (s' & h' & Hr & He & Ho & Hd & Hs & Hnew).
    exists s', h'. rewrite put_notin, bool_decide_eq_false_2 by done. by split_and!.
  - rewrite (bind_ok _ _ _ _ _ (slice_get_run h s _ (length l1) x Hl ltac:(apply list_lookup_middle; done))).
    case_bool_decide as Hx.
    + pose proof (elems_length _ _ _ Hl) as Hlen. rewrite length_app in Hlen. cbn in Hlen.
      destruct s as [hd|]; cbn [len] in Hlen; [|lia].
      destruct (elems_set h hd (length l1) r _ Hl ltac:(lia)) as (h' & Hr & He & Ho & Hd).
      rewrite (bind_ok _ _ _ _ _ Hr). exists (Some hd), h'. split; [done|].
      rewrite bool_decide_eq_true_2 by (unfold names; rewrite fmap_app; set_solver).
      split_and!; [| | |done|].
      * rewrite He, put_app_notin by done. cbn. rewrite bool_decide_eq_true_2 by done.
        by rewrite insert_app_r_alt, Nat.sub_diag by lia.
      * intros y _ Hy. apply Ho. specialize (Hy hd eq_refl). set_solver.
      * by rewrite Hd.
      * intros hd' [= <-]. right. by exists hd.
    + specialize (IH (l1 ++ [x])). rewrite length_app, Nat.add_comm in IH. cbn in IH.
      rewrite <-app_assoc in IH. apply IH; [done..|]. unfold names in *. rewrite fmap_app. set_solver.
Qed.

Lemma append_or_update_run (h : heap) s l r : elems h s = Some l →
  ∃ s' h', append_or_update spare s r h = (Ok s', h') ∧
    elems h' s' = Some (appendOrUpdateRelease l r) ∧
    only_array s h h' ∧ dom h ⊆ dom h' ∧
    (if bool_decide (rel_name r ∈ names l) then s' = s else elems h' s = Some l) ∧
    (∀ hd, s' = Some hd → s_arr hd ∉ dom h ∨ ∃ hd0, s = Some hd0 ∧ s_arr hd = s_arr hd0).
Proof.
  intros Hl. unfold append_or_update. rewrite <-(elems_length _ _ _ Hl).
  by apply (append_or_update_from_run h s [] l r Hl ltac:(apply not_elem_of_nil)).
Qed.

(** [append(s0[:0:0], s...)] is a copy of [s] in an array of its own. *)
Lemma append_copy {T} `{!ArrayOf cells T, !Zero T} (h : heap) (s0 s : slice T) l :
  is_Some (elems h s0) → elems h s = Some l →
  ∃ s' h', append_slice spare (empty_of s0) s h = (Ok s', h') ∧ h ⊆ h' ∧ elems h' s' = Some l ∧
    (l ≠ [] → ∃ hd, s' = Some hd ∧ s_arr hd ∉ dom h) ∧ (l = [] → s' = empty_of s0 ∧ h' = h).
Proof.
  intros Hw Hl. unfold append_slice. rewrite (bind_ok _ _ _ _ _ (slice_elems_run _ _ _ Hl)).
  assert (elems h (empty_of s0) = Some []) as He0.
  { destruct s0 as [hd|]; [|done]. destruct Hw as [l0 (Hc & a & Ha & Hcap)%wf_elems]. cbn. rewrite Ha. cbn.
    by rewrite bool_decide_eq_true_2 by lia. }
  destruct (append_run spare h (empty_of s0) [] l He0) as (s' & h' & Hr & He & Hc).
  exists s', h'. destruct Hc as [(Hsub & Hnew & Hnil)|(hd & a & a' & Hs & _ & Hx & Hfit & _)].
  - split_and!; [done..|]. intros Hl0. by destruct (Hnil Hl0) as [-> ->].
  - exfalso. destruct s0 as [hd0|]; [|done]. injection Hs as <-. cbn in Hfit. by destruct l; cbn in Hfit; [|lia].
Qed.

Lemma deref_run {T} `{!ArrayOf cells T} (h : heap) t (v : T) : h !! t = Some (to_cell [v]) →
  deref (Some t : pointer T) h = (Ok v, h).
Proof.
  intros Ht. unfold deref. assert (array h t = Some [v]) as Ha by (unfold array; rewrite Ht; apply of_to).
  by rewrite (bind_ok _ _ _ _ _ (load_run _ _ _ Ha)).
Qed.

(** The assignment of [updateReleases] to the field of the resource. *)
Lemma put_release_at_run (h : heap) t (v : trainer_t RR OM) l r :
  h !! t = Some (TrainerCell [v]) → elems h (releases_of v) = Some l →
  ∃ s' h', put_release_at (RR:=RR) (OM:=OM) spare t r h = (Ok tt, h') ∧
    h' !! t = Some (TrainerCell [with_releases s' v]) ∧ elems h' s' = Some (appendOrUpdateRelease l r) ∧
    (∀ x, x ∈ dom h → x ≠ t → (∀ hd, releases_of v = Some hd → x ≠ s_arr hd) → h' !! x = h !! x) ∧
    dom h ⊆ dom h' ∧
    (∀ hd, s' = Some hd → s_arr hd ∉ dom h ∨ ∃ hd0, releases_of v = Some hd0 ∧ s_arr hd = s_arr hd0).
Proof.
  intros Ht Hl. destruct (append_or_update_run h (releases_of v) l r Hl)
    as (s' & h1 & Hr & He & Ho & Hd & _ & Hnew).
  assert (∀ hd, releases_of v = Some hd → s_arr hd ≠ t) as Hne.
  { intros hd Hs E. rewrite Hs in Hl. apply elems_inv in Hl as (a & Ha & _). unfold array in Ha.
    by rewrite E, Ht in Ha. }
  assert (t ∈ dom h) as Htd by (by eapply elem_of_dom_2).
  assert (h1 !! t = Some (TrainerCell [v])) as Ht1.
  { rewrite Ho; [done..|]. intros hd Hs E. by apply (Hne hd Hs). }
  exists s', (<[t := TrainerCell [with_releases s' v]]> h1). split_and!.
  - pose proof (deref_run (T:=trainer_t RR OM) h t v Ht) as D.
    pose proof (deref_run (T:=trainer_t RR OM) h1 t v Ht1) as D1.
    unfold put_release_at. by rewrite (bind_ok _ _ _ _ _ D), (bind_ok _ _ _ _ _ Hr), (bind_ok _ _ _ _ _ D1).
  - by rewrite lookup_insert_eq.
  - rewrite <-He. apply elems_same. intros hd ->. rewrite lookup_insert_ne; [done|]. intros E.
    destruct (Hnew hd eq_refl) as [Hf|(hd0 & Hs & Ha)]; [by rewrite <-E in Hf|].
    by apply (Hne hd0 Hs); rewrite <-Ha.
  - intros x Hx Hxt Hxa. rewrite lookup_insert_ne by done. by apply Ho.
  - rewrite dom_insert. set_solver.
  - done.
Qed.

End lemmas.

(** ** Properties *)

Section properties.
Context {RR OM LM F : Type} (spare : nat → nat → nat).
#[local] Abbreviation cells := (cell RR OM LM F).
#[local] Abbreviation heap := (memory cells).

(** C34: [appendOrUpdateRelease] on a slice is the update of a list, in every
    case of capacities and aliases: it never panics, the elements of the slice
    it returns are those of the list updated; the slice it was given sees an
    update of one of its releases and keeps its elements when a release is
    appended; and no slice of another array changes. *)
Theorem append_or_update_refines (h : heap) (s : slice ComponentRelease) (l : list ComponentRelease)
    (r : ComponentRelease) (Hl : elems h s = Some l) :
  ∃ s' h', append_or_update spare s r h = (Ok s', h') ∧
    elems h' s' = Some (appendOrUpdateRelease l r) ∧
    elems h' s = Some (if bool_decide (rel_name r ∈ names l) then appendOrUpdateRelease l r else l) ∧
    ∀ (t : slice ComponentRelease) lt, elems h t = Some lt →
      (∀ hd ht, s = Some hd → t = Some ht → s_arr ht ≠ s_arr hd) → elems h' t = Some lt.
Proof.
  destruct (append_or_update_run spare h s l r Hl) as (s' & h' & Hr & He & Ho & _ & Hs & _).
  exists s', h'. split_and!; [done..| |].
  - case_bool_decide; [by subst s'|done].
  - intros t lt Ht Hne. rewrite <-Ht. apply elems_same. intros ht ->. apply Ho; [|by eauto].
    apply elems_inv in Ht as (a & Ha & _). unfold array in Ha.
    destruct (h !! s_arr ht) eqn:E; [|done]. by eapply elem_of_dom_2.
Qed.

(** What a setter leaves: the field holds a copy, in an array of its own unless
    it is empty, and every other cell is as it was. *)
Definition set_copy {T} `{!ArrayOf cells T} (h h' : heap) (t : loc) (old new : slice T) (l : list T) : Prop :=
  elems h' new = Some l ∧ (∀ x, x ∈ dom h → x ≠ t → h' !! x = h !! x) ∧
  (l = [] → new = empty_of old) ∧ (l ≠ [] → ∃ hd, new = Some hd ∧ s_arr hd ∉ dom h).

(** The setters of the resource copy: afterwards the field has the given
    elements in a new array, so that nobody who holds the old slice or the given
    one sees or makes a change of it; nothing else of the resource changes.  An
    empty list leaves an empty slice, which is nil exactly when the field was. *)
Theorem setters_copy (h : heap) (t : loc) (v : trainer_t RR OM) (cs : slice Condition)
    (rs : slice ComponentRelease) (lc : list Condition) (lr : list ComponentRelease)
    (Ht : h !! t = Some (TrainerCell [v])) (Hwc : is_Some (elems h (conditions_of v)))
    (Hwr : is_Some (elems h (releases_of v))) (Hcs : elems h cs = Some lc) (Hrs : elems h rs = Some lr) :
  (∃ h' new, set_conditions (RR:=RR) (OM:=OM) spare t cs h = (Ok tt, h') ∧
     h' !! t = Some (TrainerCell [with_conditions new v]) ∧ set_copy h h' t (conditions_of v) new lc) ∧
  (∃ h' new, set_release_status (RR:=RR) (OM:=OM) spare t rs h = (Ok tt, h') ∧
     h' !! t = Some (TrainerCell [with_releases new v]) ∧ set_copy h h' t (releases_of v) new lr).
Proof.
  assert (∀ {T} `{!ArrayOf cells T} (old new : slice T) l h' c,
    h ⊆ h' → elems h' new = Some l → (l ≠ [] → ∃ hd, new = Some hd ∧ s_arr hd ∉ dom h) →
    (l = [] → new = empty_of old ∧ h' = h) → (∀ hd, old = Some hd → s_arr hd ≠ t) →
    set_copy h (<[t := c]> h') t old new l) as Hset.
  { intros T A old new l h' c Hsub He Hn Hnil Hold. split_and!; [| |by intros [? _]%Hnil|done].
    - rewrite <-He. apply elems_same. intros hd ->. rewrite lookup_insert_ne; [done|].
      destruct (decide (l = [])) as [Hl|Hl].
      + destruct (Hnil Hl) as [Hnew _]. destruct old as [hd0|]; [|done]. injection Hnew as ->. cbn.
        intros E. by eapply Hold.
      + destruct (Hn Hl) as (hd' & [= <-] & Hf). intros E. apply Hf. rewrite <-E.
        by apply elem_of_dom_2 with (TrainerCell [v]).
    - intros x Hx Hxt. rewrite lookup_insert_ne by done. apply elem_of_dom in Hx as [y Hx].
      rewrite Hx. by eapply lookup_weaken. }
  assert (∀ {T} `{!ArrayOf cells T} (old : slice T), is_Some (elems h old) → of_cell (T:=T) (TrainerCell [v]) = None →
    ∀ hd, old = Some hd → s_arr hd ≠ t) as Hold.
  { intros T A old Hw Hcell hd -> E. destruct Hw as [l0 (a & Ha & _)%elems_inv]. unfold array in Ha.
    rewrite E, Ht in Ha. cbn in Ha. congruence. }
  pose proof (deref_run (T:=trainer_t RR OM) h t v Ht) as Hd. split.
  - destruct (append_copy spare h (conditions_of v) cs lc Hwc Hcs) as (new & h' & Hr & Hsub & He & Hn & Hnil).
    exists (<[t := TrainerCell [with_conditions new v]]> h'), new. unfold set_conditions.
    rewrite (bind_ok _ _ _ _ _ Hd), (bind_ok _ _ _ _ _ Hr). split; [done|]. split; [by rewrite lookup_insert_eq|].
    eapply (Hset _ _); [done..|]. by apply (Hold _ _).
  - destruct (append_copy spare h (releases_of v) rs lr Hwr Hrs) as (new & h' & Hr & Hsub & He & Hn & Hnil).
    exists (<[t := TrainerCell [with_releases new v]]> h'), new. unfold set_release_status.
    rewrite (bind_ok _ _ _ _ _ Hd), (bind_ok _ _ _ _ _ Hr). split; [done|]. split; [by rewrite lookup_insert_eq|].
    eapply (Hset _ _); [done..|]. by apply (Hold _ _).
Qed.

End properties.

(** *** Witnesses *)

#[local] Abbreviation ex_cell := (cell string string string unit).

(** A cached Trainer whose releases have spare capacity. *)
Definition ex_release (n v : string) : ComponentRelease := MkRelease n v "https://github.com".
Definition ex_trainer : trainer_t string string :=
  Trainer_t (TypeMeta "Trainer" "components.platform.opendatahub.io/v1alpha1") "default-trainer"
    (TrainerSpec_t "apps" (Some 3%positive) (Some (Header 4 0 1 1)))
    (TrainerStatus_t (FwStatus "Ready" None) (FwReleases (Some (Header 2 0 1 2)))).
Definition ex_memory : memory ex_cell := list_to_map
  [(1%positive, TrainerCell [ex_trainer]);
   (2%positive, ReleaseCell [ex_release "trainer" "2.0"; zero]);
   (3%positive, GateMapCell {["alpha" := true]});
   (4%positive, ControllerCell [Controller "manager" "cpu: 1"])].
Definition ex_slice : slice ComponentRelease := Some (Header 2 0 1 2).

(** The second release goes into the spare place of the array. *)
Lemma append_or_update_refines_witness :
  ∃ s' h', append_or_update (λ _ _, 0) ex_slice (ex_release "Platform" "3.0") ex_memory = (Ok s', h') ∧
    elems h' s' = Some [ex_release "trainer" "2.0"; ex_release "Platform" "3.0"] ∧
    elems h' ex_slice = Some [ex_release "trainer" "2.0"].
Proof.
  destruct (append_or_update_refines (RR:=string) (OM:=string) (LM:=string) (F:=unit) (λ _ _, 0) ex_memory ex_slice
    [ex_release "trainer" "2.0"] (ex_release "Platform" "3.0")) as (s' & h' & Hr & He & Hs & _); [by vm_compute|].
  exists s', h'. split_and!; [exact Hr|exact He|exact Hs].
Defined.

Lemma setters_copy_witness :
  ∃ h' new, set_release_status (RR:=string) (OM:=string) (λ _ _, 0) 1%positive ex_slice ex_memory = (Ok tt, h') ∧
    elems h' new = Some [ex_release "trainer" "2.0"] ∧ (∃ hd, new = Some hd ∧ s_arr hd ≠ 2%positive).
Proof.
  destruct (setters_copy (RR:=string) (OM:=string) (LM:=string) (F:=unit) (λ _ _, 0) ex_memory 1%positive ex_trainer
    None ex_slice [] [ex_release "trainer" "2.0"]) as (_ & h' & new & Hr & _ & He & _ & _ & Hn).
  - reflexivity.
  - by eexists.
  - eexists. by vm_compute.
  - reflexivity.
  - by vm_compute.
  - exists h', new. split; [exact Hr|]. split; [exact He|].
    destruct Hn as (hd & -> & Hf); [discriminate|]. exists hd. split; [reflexivity|].
    intros E. rewrite E in Hf. apply Hf, elem_of_dom. eexists. by vm_compute.
Defined.
