(* ===== verification/DeepCopy.v ===== *)
(** [api/v1alpha1/zz_generated.deepcopy.go]: deep copies of the resource share
    nothing with the original. *)

From S2P Require Import Prelude GoMem ApiTypes Releases ApiMem.
Open Scope string_scope.
Open Scope nat_scope.
Open Scope list_scope.

(** ** Definitions *)

(** *** Slices and pointers of any element *)

Section generic.
Context {C T : Type} `{!ArrayOf C T, !Zero T, !DeepCopier C T}.

(** The loop over the indices that copies one element after the other, from [i] on. *)
Fixpoint copy_elems (in_ out : slice T) (n i : nat) : M (memory C) unit :=
  match n with
  | 0 => mret tt
  | S n' =>
      v ← slice_get in_ i;
      v' ← DeepCopyInto v;
      slice_set out i v';;
      copy_elems in_ out n' (S i)
  end.

(** The block that copies a slice field which is not nil. *)
#[export] Instance slice_copier : DeepCopier C (slice T) := λ in_,
  match in_ with
  | None => mret None
  | Some _ =>
      out ← make (len in_);
      copy_elems in_ out (len in_) 0;;
      mret out
  end.

(** [in.DeepCopy()]: [nil] for a nil receiver, and else a new struct that
    [DeepCopyInto] fills. *)
Definition DeepCopy (in_ : pointer T) : M (memory C) (pointer T) :=
  match in_ with
  | None => mret None
  | Some _ =>
      out ← new (T:=T);
      v ← deref in_;
      v' ← DeepCopyInto v;
      assign out v';;
      mret (Some out)
  end.

End generic.

(** *** The types of the API *)

(** The order in which a map is enumerated: any. *)
Class GateRange := {
  gate_range : gmap string bool → list (string * bool);
  gate_range_perm m : gate_range m ≡ₚ map_to_list m;
}.

Section copiers.
Context {RR OM LM F : Type} `{!Zero RR, !Zero OM, !Zero LM}.
#[local] Abbreviation cells := (cell RR OM LM F).

(** The copiers of the apimachinery and framework types. *)
Context `{!DeepCopier cells RR, !DeepCopier cells OM, !DeepCopier cells LM,
  !DeepCopier cells fw_status_t, !DeepCopier cells fw_releases_t, !GateRange}.

#[export] Instance ControllerResources_DeepCopyInto : DeepCopier cells (controller_t RR) := λ in_,
  resources ← DeepCopyInto (ct_Resources in_);
  mret (Controller (ct_Name in_) resources).

Definition load_map (l : loc) : M (memory cells) (gmap string bool) := λ h,
  match h !! l with Some (GateMapCell m) => (Ok m, h) | _ => (Err nil_dereference, h) end.

(** One entry of the new map. *)
Definition map_set (l : loc) (kv : string * bool) : M (memory cells) unit :=
  m ← load_map l;
  modify <[l := GateMapCell (<[kv.1 := kv.2]> m)]>.

(** The block that copies the map when it is not nil. *)
#[export] Instance gates_copier : DeepCopier cells gate_map := λ in_,
  match in_ with
  | None => mret None
  | Some l =>
      out ← alloc (GateMapCell ∅);
      m ← load_map l;
      forM (gate_range m) (map_set out);;
      mret (Some out)
  end.

#[export] Instance TrainerSpec_DeepCopyInto : DeepCopier cells (spec_t RR) := λ in_,
  gates ← DeepCopyInto (sp_FeatureGates in_);
  controllers ← DeepCopyInto (sp_Controllers in_);
  mret (TrainerSpec_t (sp_AppNamespace in_) gates controllers).

#[export] Instance TrainerStatus_DeepCopyInto : DeepCopier cells status_t := λ in_,
  st ← DeepCopyInto (st_Status in_);
  rs ← DeepCopyInto (st_Releases in_);
  mret (TrainerStatus_t st rs).

#[export] Instance Trainer_DeepCopyInto : DeepCopier cells (trainer_t RR OM) := λ in_,
  meta ← DeepCopyInto (t_ObjectMeta in_);
  spec ← DeepCopyInto (t_Spec in_);
  status ← DeepCopyInto (t_Status in_);
  mret (Trainer_t (t_TypeMeta in_) meta spec status).

#[export] Instance TrainerList_DeepCopyInto : DeepCopier cells (trainer_list_t RR OM LM) := λ in_,
  meta ← DeepCopyInto (tl_ListMeta in_);
  items ← DeepCopyInto (tl_Items in_);
  mret (TrainerList_t (tl_TypeMeta in_) meta items).

Definition ControllerResources_DeepCopy : pointer (controller_t RR) → M (memory cells) (pointer (controller_t RR)) := DeepCopy.
Definition TrainerSpec_DeepCopy : pointer (spec_t RR) → M (memory cells) (pointer (spec_t RR)) := DeepCopy.
Definition TrainerStatus_DeepCopy : pointer status_t → M (memory cells) (pointer status_t) := DeepCopy.
Definition Trainer_DeepCopy : pointer (trainer_t RR OM) → M (memory cells) (pointer (trainer_t RR OM)) := DeepCopy.
Definition TrainerList_DeepCopy :
  pointer (trainer_list_t RR OM LM) → M (memory cells) (pointer (trainer_list_t RR OM LM)) := DeepCopy.

(** [runtime.Object]: an interface value that is not nil holds a pointer, which
    may itself be nil. *)
Inductive runtime_object :=
| TrainerObject (p : pointer (trainer_t RR OM))
| TrainerListObject (p : pointer (trainer_list_t RR OM LM)).

Definition Trainer_DeepCopyObject (in_ : pointer (trainer_t RR OM)) : M (memory cells) (option runtime_object) :=
  c ← Trainer_DeepCopy in_;
  match c with Some _ => mret (Some (TrainerObject c)) | None => mret None end.

Definition TrainerList_DeepCopyObject (in_ : pointer (trainer_list_t RR OM LM)) :
    M (memory cells) (option runtime_object) :=
  c ← TrainerList_DeepCopy in_;
  match c with Some _ => mret (Some (TrainerListObject c)) | None => mret None end.

End copiers.

(** *** Specification: values *)

Section values.
Context {C T D : Type} `{!ArrayOf C T, !Denotes C T D}.

(** A struct that points to nothing. *)
Program Definition plain {S} : Denotes C S S := {| denote h t := Some t; reach h t := ∅ |}.
Solve Obligations with done.

(** A slice has the values of its elements; [None] is the nil slice. *)
Definition slice_value (h : memory C) (s : slice T) : option (option (list D)) :=
  match s with
  | None => Some None
  | Some _ => Some <$> (elems h s ≫= mapM (denote h))
  end.

Definition slice_reach (h : memory C) (s : slice T) : gset loc :=
  match s with
  | None => ∅
  | Some hd => {[s_arr hd]} ∪ ⋃ (reach h <$> default [] (elems h s))
  end.

(** A pointer has the value of what it points to. *)
Definition pointer_value (h : memory C) (p : pointer T) : option (option D) :=
  match p with
  | None => Some None
  | Some l => match array h l with Some [v] => Some <$> denote h v | _ => None end
  end.

Definition pointer_reach (h : memory C) (p : pointer T) : gset loc :=
  match p with
  | None => ∅
  | Some l => {[l]} ∪ match array h l with Some [v] => reach h v | _ => ∅ end
  end.

End values.

(** ** Lemmas *)

Lemma array_dom {C T} `{!ArrayOf C T} (h : memory C) l (a : list T) : array h l = Some a → l ∈ dom h.
Proof. unfold array. destruct (h !! l) eqn:E; [|done]. intros _. by eapply elem_of_dom_2. Qed.

Section slices.
Context {C T D : Type} `{!ArrayOf C T, !Denotes C T D}.
Implicit Types (h : memory C).

Lemma denote_mono h h' (t : T) d : denote h t = Some d → h ⊆ h' →
  denote h' t = Some d ∧ reach h' t = reach h t.
Proof.
  intros Hd Hs. apply (denote_frame h); [done|]. intros l Hl. pose proof (reach_dom _ _ _ Hd l Hl) as Hin.
  apply elem_of_dom in Hin as [c Hc]. rewrite Hc. by eapply lookup_weaken.
Qed.

Lemma mapM_frame h h' (ts : list T) ds : mapM (denote h) ts = Some ds →
  (∀ l, l ∈ ⋃ (reach h <$> ts) → h' !! l = h !! l) →
  mapM (denote h') ts = Some ds ∧ reach h' <$> ts = reach h <$> ts.
Proof.
  revert ds. induction ts as [|t ts IH]; intros ds; cbn; [by intros [= <-] _|].
  destruct (denote h t) as [d|] eqn:Ed; cbn; [|done]. destruct (mapM (denote h) ts) as [ds'|]; cbn; [|done].
  intros [= <-] Hl. destruct (denote_frame h h' t d Ed) as [-> ->]; [set_solver|]. cbn.
  destruct (IH ds' eq_refl) as [-> ->]; [set_solver|done].
Qed.

#[export] Program Instance slice_denotes : Denotes C (slice T) (option (list D)) :=
  {| denote := slice_value; reach := slice_reach |}.
Next Obligation.
  intros h [hd|] d; cbn [slice_value slice_reach]; [|set_solver].
  destruct (elems h (Some hd)) as [ts|] eqn:He; cbn; [|done].
  destruct (mapM (denote h) ts) as [ds|] eqn:Hds; cbn; [|done]. intros _.
  apply union_subseteq. split.
  - apply elems_inv in He as (a & Ha & _). apply array_dom in Ha. set_solver.
  - clear He. revert ds Hds. induction ts as [|t ts IH]; intros ds; cbn; [set_solver|].
    destruct (denote h t) as [d'|] eqn:Ed; cbn; [|done]. destruct (mapM (denote h) ts) as [ds'|]; cbn; [|done].
    intros _. apply reach_dom in Ed. specialize (IH ds' eq_refl). set_solver.
Qed.
Next Obligation.
  intros h h' [hd|] d; cbn [slice_value slice_reach]; [|done].
  destruct (elems h (Some hd)) as [ts|] eqn:He; [|done].
  intros Hd Hl. rewrite (elems_same h h') by (intros ? [= <-]; apply Hl; set_solver). rewrite He.
  cbn [mbind option_bind default from_option id] in *. destruct (mapM (denote h) ts) as [ds|] eqn:Hds; [|done].
  destruct (mapM_frame h h' ts ds Hds) as [-> ->]; [|done]. intros l Hin. apply Hl. set_solver.
Qed.

Context `{!Zero T, !DeepCopier C T, !DeepCopyLaws C T D}.

(** The state of the loop: the first copies are right, and made of cells that
    were not there. *)
Definition copied (h0 : memory C) (lo : loc) (h : memory C) (v : T) (d : D) : Prop :=
  denote h v = Some d ∧ reach h v ## dom h0 ∪ {[lo]}.

Lemma element_step h0 lo h h' v d : copied h0 lo h v d → (∀ l, l ∈ reach h v → h' !! l = h !! l) → copied h0 lo h' v d.
Proof. intros [Hd Hr] Hl. destruct (denote_frame h h' v d Hd Hl) as [H1 H2]. split; [done|by rewrite H2]. Qed.

Lemma copy_elems_run h0 s ts ds lo n : ∀ i h (a : list T),
  elems h0 s = Some ts → mapM (denote h0) ts = Some ds → length ts = i + n →
  lo ∉ dom h0 → h0 ⊆ h → array h lo = Some a → length a = length ts →
  Forall2 (copied h0 lo h) (take i a) (take i ds) →
  ∃ h' a', copy_elems s (Some (Header lo 0 (length ts) (length ts)) : slice T) n i h = (Ok tt, h') ∧
    h0 ⊆ h' ∧ array h' lo = Some a' ∧ length a' = length ts ∧ Forall2 (copied h0 lo h') a' ds.
Proof.
  induction n as [|n IH]; intros i h a He Hds Hlen Hlo Hsub Ha Hla Hc; cbn [copy_elems].
  - exists h, a. pose proof (length_mapM _ _ _ Hds) as Hld.
    rewrite !take_ge in Hc by lia. by split_and!.
  - destruct (lookup_lt_is_Some_2 ts i) as [v Hv]; [lia|].
    pose proof (elems_fresh _ _ _ _ He Hsub) as He'.
    rewrite (bind_ok _ _ _ _ _ (slice_get_run h s ts i v He' Hv)).
    apply mapM_Some in Hds as Hf2. destruct (Forall2_lookup_l _ _ _ _ _ Hf2 Hv) as (d & Hd & Hdv).
    destruct (denote_mono h0 h v d Hdv Hsub) as [Hdv' _].
    destruct (deep_copies h v d Hdv') as (v' & h1 & Hr1 & Hsub1 & Hd1 & Hdisj).
    rewrite (bind_ok _ _ _ _ _ Hr1).
    assert (lo ∈ dom h) as Hloh by (by eapply array_dom).
    assert (array h1 lo = Some a) as Ha1.
    { rewrite <-Ha. apply array_same. apply elem_of_dom in Hloh as [c Hl]. rewrite Hl. by eapply lookup_weaken. }
    assert (i < length ts) as Hi by lia.
    rewrite (bind_ok _ _ _ _ _ (slice_set_run h1 (Header lo 0 (length ts) (length ts)) i v' a Ha1 Hi)).
    cbn [s_arr s_off Nat.add]. set (h2 := <[lo := to_cell (<[i := v']> a)]> h1).
    assert (∀ x, x ≠ lo → h2 !! x = h1 !! x) as Hh2 by (intros x Hx; by apply lookup_insert_ne).
    assert (dom h0 ⊆ dom h) as Hdom by (by apply subseteq_dom).
    apply (IH (S i) h2 (<[i := v']> a)); try done.
    + lia.
    + apply map_subseteq_spec. intros x c Hx. rewrite Hh2.
      * eapply lookup_weaken; [|done]. by eapply lookup_weaken.
      * intros ->. apply Hlo. by eapply elem_of_dom_2.
    + apply array_insert.
    + by rewrite length_insert.
    + rewrite (take_S_r _ _ v') by (apply list_lookup_insert_eq; lia). rewrite (take_S_r _ _ d) by done.
      rewrite take_insert_ge by lia. apply Forall2_app.
      * eapply Forall2_impl; [|exact Hc]. intros y e Hy. pose proof Hy as [Hy1 Hy2].
        eapply element_step; [exact Hy|]. intros x Hx. rewrite Hh2 by set_solver.
        pose proof (reach_dom _ _ _ Hy1 x Hx) as Hin.
        apply elem_of_dom in Hin as [c Hl]. rewrite Hl. by eapply lookup_weaken.
      * constructor; [|done]. eapply element_step; [|intros x Hx; apply Hh2; set_solver].
        split; [done|]. set_solver.
Qed.

#[export] Instance slice_copy_laws : DeepCopyLaws C (slice T) (option (list D)).
Proof.
  intros h [hd|] d; cbn [denote slice_denotes slice_value]; [|intros [= <-]; by exists None, h].
  destruct (elems h (Some hd)) as [ts|] eqn:He; cbn; [|done].
  destruct (mapM (denote h) ts) as [ds|] eqn:Hds; cbn; [|done]. intros [= <-].
  pose proof (elems_length _ _ _ He) as Hlen. cbn [len] in Hlen.
  destruct (alloc_run (to_cell (replicate (s_len hd) (zero (T:=T)))) h) as (lo & Hr & Hlo).
  set (h1 := <[lo := to_cell (replicate (s_len hd) (zero (T:=T)))]> h) in *.
  destruct (copy_elems_run h (Some hd) ts ds lo (s_len hd) 0 h1 (replicate (s_len hd) zero))
    as (h' & a' & Hrun & Hsub & Ha' & Hla & Hc).
  - done.
  - done.
  - lia.
  - done.
  - by apply fresh_subseteq.
  - apply array_insert.
  - by rewrite length_replicate.
  - constructor.
  - rewrite Hlen in Hrun, Hla. exists (Some (Header lo 0 (s_len hd) (s_len hd))), h'.
    assert (elems h' (Some (Header lo 0 (s_len hd) (s_len hd)) : slice T) = Some a') as Hout.
    { cbn. rewrite Ha'. cbn. rewrite bool_decide_eq_true_2 by lia. by rewrite drop_0, take_ge by lia. }
    split_and!.
    + unfold make. unfold mbind, M_bind. rewrite Hr. cbn [mret M_ret].
      by rewrite Hrun.
    + done.
    + cbn. cbn in Hout. rewrite Hout. cbn.
      assert (mapM (denote h') a' = Some ds) as ->; [|done].
      apply mapM_Some. eapply Forall2_impl; [|exact Hc]. by intros v d [].
    + unfold reach, slice_denotes, slice_reach. rewrite Hout. cbn [default from_option id s_arr].
      clear -Hc Hlo. induction Hc as [|v d a' ds [_ Hv] Hc IH]; cbn; set_solver.
Qed.

End slices.

(** *** Pointers *)

Section pointers.
Context {C T D : Type} `{!ArrayOf C T, !Denotes C T D}.
Implicit Types (h : memory C).

#[export] Program Instance pointer_denotes : Denotes C (pointer T) (option D) :=
  {| denote := pointer_value; reach := pointer_reach |}.
Next Obligation.
  intros h [l|] d; cbn; [|set_solver]. destruct (array h l) as [[|v [|]]|] eqn:Ha; try done.
  destruct (denote h v) as [d'|] eqn:Hd; cbn; [|done]. intros _.
  apply array_dom in Ha. apply reach_dom in Hd. set_solver.
Qed.
Next Obligation.
  intros h h' [l|] d; cbn; [|done]. destruct (array h l) as [[|v [|]]|] eqn:Ha; try done.
  destruct (denote h v) as [d'|] eqn:Hd; cbn; [|done]. intros [= <-] Hl.
  rewrite (array_same h h'), Ha by (apply Hl; set_solver).
  destruct (denote_frame h h' v d' Hd) as [-> ->]; [set_solver|done].
Qed.

Context `{!Zero T, !DeepCopier C T, !DeepCopyLaws C T D}.

Lemma DeepCopy_copies h (p : pointer T) d : denote h p = Some d →
  ∃ p' h', DeepCopy p h = (Ok p', h') ∧ h ⊆ h' ∧ denote h' p' = Some d ∧ reach h' p' ## dom h.
Proof.
  destruct p as [l|]; [|intros [= <-]; by exists None, h]. cbn [denote pointer_denotes pointer_value].
  destruct (array h l) as [[|v [|]]|] eqn:Ha; try done.
  destruct (denote h v) as [dv|] eqn:Hd; cbn; [|done]. intros [= <-].
  destruct (alloc_run (to_cell [zero (T:=T)]) h) as (lo & Hr & Hlo).
  set (h1 := <[lo := to_cell [zero]]> h) in *.
  pose proof (fresh_subseteq (to_cell [zero (T:=T)]) h lo Hlo) as Hsub1. fold h1 in Hsub1.
  destruct (denote_mono h h1 v dv Hd Hsub1) as [Hd1 _].
  destruct (deep_copies h1 v dv Hd1) as (v' & h2 & Hr2 & Hsub2 & Hd2 & Hdisj).
  assert (lo ∈ dom h1) as Hlo1 by (unfold h1; rewrite dom_insert; set_solver).
  assert (dom h ⊆ dom h1) as Hdom by (by apply subseteq_dom).
  assert (array h1 l = Some [v]) as Ha1.
  { rewrite <-Ha. apply array_same. unfold h1. rewrite lookup_insert_ne; [done|]. intros ->.
    by apply Hlo, (array_dom _ _ _ Ha). }
  destruct (denote_frame h2 (<[lo := to_cell [v']]> h2) v' dv Hd2) as [Hd3 Hr3].
  { intros x Hx. rewrite lookup_insert_ne; [done|]. set_solver. }
  exists (Some lo), (<[lo := to_cell [v']]> h2). split_and!.
  - unfold DeepCopy, new. unfold mbind, M_bind. rewrite Hr. unfold deref. unfold mbind, M_bind.
    fold h1. rewrite (load_run _ _ _ Ha1). cbn [mret M_ret]. by rewrite Hr2.
  - apply map_subseteq_spec. intros x c Hx. rewrite lookup_insert_ne.
    + eapply lookup_weaken; [|done]. by eapply lookup_weaken.
    + intros <-. apply Hlo. by eapply elem_of_dom_2.
  - cbn. rewrite array_insert. by rewrite Hd3.
  - cbn. rewrite array_insert, Hr3. set_solver.
Qed.

(** What it means that a copy shares nothing: whatever is written to the cells
    of the one is not seen in the other. *)
Definition isolated h (p p' : pointer T) (d : option D) : Prop :=
  denote h p = Some d ∧ denote h p' = Some d ∧
  (∀ h', same_outside (reach h p') h h' → denote h' p = Some d) ∧
  (∀ h', same_outside (reach h p) h h' → denote h' p' = Some d).

Lemma DeepCopy_isolated h (p : pointer T) d : denote h p = Some d →
  ∃ p' h', DeepCopy p h = (Ok p', h') ∧ h ⊆ h' ∧ isolated h' p p' d ∧ (p = None ↔ p' = None).
Proof.
  intros Hd. destruct (DeepCopy_copies h p d Hd) as (p' & h' & Hr & Hsub & Hd' & Hdisj).
  exists p', h'. destruct (denote_mono h h' p d Hd Hsub) as [Hp Hrp]. pose proof (reach_dom _ _ _ Hd) as Hdom.
  split_and!; [done..|split_and!; [done|done| |]|].
  - intros h'' Ho. apply (denote_frame h' h''); [done|]. intros l Hl. apply Ho. set_solver.
  - intros h'' Ho. apply (denote_frame h' h''); [done|]. intros l Hl. apply Ho. set_solver.
  - destruct p as [l|], p' as [l'|]; cbn in *; try done.
    destruct (array h l) as [[|v [|]]|]; try done. by destruct (denote h v); simplify_eq/=.
Qed.

End pointers.

(** *** Structs *)

(** Two fields, copied one after the other. *)
Section pairs.
Context {C T1 D1 T2 D2 : Type} `{!Denotes C T1 D1, !Denotes C T2 D2}.

#[export] Program Instance pair_denotes : Denotes C (T1 * T2) (D1 * D2) := {|
  denote h t := d1 ← denote h t.1; d2 ← denote h t.2; Some (d1, d2);
  reach h t := reach h t.1 ∪ reach h t.2 |}.
Next Obligation.
  intros h [t1 t2] d; cbn. destruct (denote h t1) as [d1|] eqn:E1; cbn; [|done].
  destruct (denote h t2) as [d2|] eqn:E2; cbn; [|done]. intros _.
  apply reach_dom in E1, E2. set_solver.
Qed.
Next Obligation.
  intros h h' [t1 t2] d; cbn. destruct (denote h t1) as [d1|] eqn:E1; cbn; [|done].
  destruct (denote h t2) as [d2|] eqn:E2; cbn; [|done]. intros [= <-] Hl.
  destruct (denote_frame h h' t1 d1 E1) as [-> ->]; [set_solver|].
  destruct (denote_frame h h' t2 d2 E2) as [-> ->]; [set_solver|]. done.
Qed.

Context `{!DeepCopier C T1, !DeepCopier C T2}.

#[export] Instance pair_copier : DeepCopier C (T1 * T2) := λ t,
  t1 ← DeepCopyInto t.1; t2 ← DeepCopyInto t.2; mret (t1, t2).

#[export] Instance pair_copy_laws : DeepCopyLaws C T1 D1 → DeepCopyLaws C T2 D2 → DeepCopyLaws C (T1 * T2) (D1 * D2).
Proof.
  intros L1 L2 h [t1 t2] d; cbn. destruct (denote h t1) as [d1|] eqn:E1; cbn; [|done].
  destruct (denote h t2) as [d2|] eqn:E2; cbn; [|done]. intros [= <-].
  destruct (deep_copies h t1 d1 E1) as (t1' & h1 & Hr1 & Hs1 & Hd1 & Hf1).
  destruct (denote_mono h h1 t2 d2 E2 Hs1) as [E2' _].
  destruct (deep_copies h1 t2 d2 E2') as (t2' & h2 & Hr2 & Hs2 & Hd2 & Hf2).
  destruct (denote_mono h1 h2 t1' d1 Hd1 Hs2) as [Hd1' Hr1'].
  exists (t1', t2'), h2. pose proof (subseteq_dom _ _ Hs1). split_and!.
  - change (pair_copier (t1, t2) h = (Ok (t1', t2'), h2)). unfold pair_copier. unfold mbind, M_bind.
    cbn [fst snd]. by rewrite Hr1, Hr2.
  - by etransitivity.
  - cbn. by rewrite Hd1', Hd2.
  - cbn. rewrite Hr1'. set_solver.
Qed.

End pairs.

(** A struct [S] by the fields [f] that need copying. *)
Section via.
Context {C S T D E : Type} `{!Denotes C T D} (f : S → T) (g : S → D → E).

#[program] Definition via : Denotes C S E := {|
  denote h s := g s <$> denote h (f s); reach h s := reach h (f s) |}.
Next Obligation.
  intros h s d. cbn. destruct (denote h (f s)) as [x|] eqn:E1; [|done]. intros _. by eapply reach_dom.
Qed.
Next Obligation.
  intros h h' s d. cbn. destruct (denote h (f s)) as [x|] eqn:E1; [|done]. intros [= <-] Hl.
  by destruct (denote_frame h h' (f s) x E1 Hl) as [-> ->].
Qed.

Lemma via_laws `{!DeepCopier C T, !DeepCopyLaws C T D, !DeepCopier C S} (rebuild : S → T → S) :
  (∀ s h t h', DeepCopyInto (f s) h = (Ok t, h') → DeepCopyInto s h = (Ok (rebuild s t), h')) →
  (∀ s t, f (rebuild s t) = t ∧ g (rebuild s t) = g s) →
  DeepCopyLaws (Denotes0:=via) C S E.
Proof.
  intros Hrun Hf h s e. cbn. destruct (denote h (f s)) as [d|] eqn:Ed; [|done]. intros [= <-].
  destruct (deep_copies h (f s) d Ed) as (t & h' & Hr & Hs & Hd & Hfr).
  exists (rebuild s t), h'. destruct (Hf s t) as [Hft Hgt]. rewrite Hft, Hgt, Hd. split_and!; auto.
Qed.

End via.

(** *** The types of the API *)

Section values_of_the_api.
Context {RR OM LM F VR VM VL : Type} `{!Zero RR, !Zero OM, !Zero LM}.
#[local] Abbreviation cells := (cell RR OM LM F).
Context `{!Denotes cells RR VR, !Denotes cells OM VM, !Denotes cells LM VL}.

#[export] Instance condition_denotes : Denotes cells Condition Condition := plain.
#[export] Instance release_denotes : Denotes cells ComponentRelease ComponentRelease := plain.

Definition gate_value (h : memory cells) (p : gate_map) : option (option (gmap string bool)) :=
  match p with
  | None => Some None
  | Some l => match h !! l with Some (GateMapCell m) => Some (Some m) | _ => None end
  end.

#[export] Program Instance gates_denotes : Denotes cells gate_map (option (gmap string bool)) := {|
  denote := gate_value; reach h p := match p with Some l => {[l]} | None => ∅ end |}.
Next Obligation.
  intros h [l|] d; cbn; [|set_solver]. destruct (h !! l) as [c|] eqn:E; [|done]. intros _.
  apply elem_of_dom_2 in E. set_solver.
Qed.
Next Obligation. intros h h' [l|] d; cbn; [|done]. intros Hd Hl. by rewrite (Hl l) by set_solver. Qed.

(** The fields that hold slices, and the values of the structs. *)
#[export] Instance controller_denotes : Denotes cells (controller_t RR) (string * VR) :=
  via ct_Resources (λ c r, (ct_Name c, r)).
#[export] Instance spec_denotes : Denotes cells (spec_t RR)
    (string * (option (gmap string bool) * option (list (string * VR)))) :=
  via (λ s, (sp_FeatureGates s, sp_Controllers s)) (λ s d, (sp_AppNamespace s, d)).
#[export] Instance fw_status_denotes : Denotes cells fw_status_t (string * option (list Condition)) :=
  via fs_Conditions (λ s d, (fs_Phase s, d)).
#[export] Instance fw_releases_denotes : Denotes cells fw_releases_t (option (list ComponentRelease)) :=
  via fr_Releases (λ _ d, d).
Definition status_value : Type := (string * option (list Condition)) * option (list ComponentRelease).
#[export] Instance status_denotes : Denotes cells status_t status_value :=
  via (λ s, (st_Status s, st_Releases s)) (λ _ d, d).
Definition trainer_value : Type :=
  type_meta * (VM * ((string * (option (gmap string bool) * option (list (string * VR)))) * status_value)).
#[export] Instance trainer_denotes : Denotes cells (trainer_t RR OM) trainer_value :=
  via (λ t, (t_ObjectMeta t, (t_Spec t, t_Status t))) (λ t d, (t_TypeMeta t, d)).
Definition trainer_list_value : Type := type_meta * (VL * option (list trainer_value)).
#[export] Instance trainer_list_denotes : Denotes cells (trainer_list_t RR OM LM) trainer_list_value :=
  via (λ t, (tl_ListMeta t, tl_Items t)) (λ t d, (tl_TypeMeta t, d)).

(** The copiers of the other modules keep their promise. *)
Context `{!DeepCopier cells RR, !DeepCopier cells OM, !DeepCopier cells LM,
  !DeepCopier cells fw_status_t, !DeepCopier cells fw_releases_t}.
Context `{!DeepCopyLaws cells RR VR, !DeepCopyLaws cells OM VM, !DeepCopyLaws cells LM VL,
  !DeepCopyLaws cells fw_status_t (string * option (list Condition)),
  !DeepCopyLaws cells fw_releases_t (option (list ComponentRelease))}.
Context `{!GateRange}.

Lemma map_set_loop (l : loc) (kvs : list (string * bool)) (h : memory cells) m :
  h !! l = Some (GateMapCell m) →
  ∃ h', forM kvs (map_set l) h = (Ok tt, h') ∧ (∀ x, x ≠ l → h' !! x = h !! x) ∧
    h' !! l = Some (GateMapCell (fold_left (λ m kv, <[kv.1 := kv.2]> m) kvs m)).
Proof.
  revert h m. induction kvs as [|[k v] kvs IH]; intros h m Hl; [by exists h|].
  rewrite forM_cons. unfold map_set at 1, load_map. unfold mbind, M_bind. rewrite Hl. cbn [modify fst snd].
  destruct (IH (<[l := GateMapCell (<[k := v]> m)]> h) (<[k := v]> m)) as (h' & Hr & Ho & Hh').
  { by rewrite lookup_insert_eq. }
  exists h'. split; [exact Hr|]. split; [|exact Hh'].
  intros x Hx. rewrite Ho, lookup_insert_ne; done.
Qed.

#[export] Instance gates_copy_laws :
  DeepCopyLaws cells gate_map (option (gmap string bool)).
Proof.
  intros h [l|] d; cbn; [|intros [= <-]; by exists None, h].
  destruct (h !! l) as [[| | | | | | |m|]|] eqn:Hl; try done. intros [= <-].
  destruct (alloc_run (GateMapCell ∅ : cells) h) as (lo & Hr & Hlo).
  set (h1 := <[lo := GateMapCell ∅]> h) in *.
  assert (h1 !! l = Some (GateMapCell m)) as Hl1.
  { unfold h1. rewrite lookup_insert_ne; [done|]. intros ->. by apply Hlo, elem_of_dom_2 with (GateMapCell m). }
  destruct (map_set_loop lo (gate_range m) h1 ∅) as (h' & Hrun & Ho & Hh'); [by unfold h1; rewrite lookup_insert_eq|].
  rewrite (fold_insert_perm _ m), (right_id ∅ (∪)) in Hh' by apply gate_range_perm.
  exists (Some lo), h'. split_and!.
  - change (gates_copier (Some l) h = (Ok (Some lo), h')). unfold gates_copier, load_map.
    unfold mbind, M_bind. rewrite Hr, Hl1. by rewrite Hrun.
  - apply map_subseteq_spec. intros x c Hx. assert (x ≠ lo) as Hne by (intros ->; by apply Hlo, elem_of_dom_2 with c).
    rewrite Ho by done. unfold h1. by rewrite lookup_insert_ne.
  - cbn. by rewrite Hh'.
  - cbn. set_solver.
Qed.

(** The generated copiers keep it too. *)
#[export] Instance controller_copy_laws : DeepCopyLaws cells (controller_t RR) (string * VR).
Proof.
  apply (via_laws _ _ (λ c r, Controller (ct_Name c) r)); [|done]. intros s h t h' Hr.
  change ((resources ← DeepCopyInto (ct_Resources s); mret (Controller (ct_Name s) resources)) h =
    (Ok (Controller (ct_Name s) t), h')). by rewrite (bind_ok _ _ _ _ _ Hr).
Qed.

Lemma pair_run {T1 T2} `{!DeepCopier cells T1, !DeepCopier cells T2} (t1 t1' : T1) (t2 t2' : T2) h h' :
  DeepCopyInto (t1, t2) h = (Ok (t1', t2'), h') →
  ∃ h1, DeepCopyInto t1 h = (Ok t1', h1) ∧ DeepCopyInto t2 h1 = (Ok t2', h').
Proof.
  intros (x & h1 & H1 & (y & h2 & H2 & [= -> -> ->])%bind_ok_inv)%bind_ok_inv. by exists h1.
Qed.

#[export] Instance spec_copy_laws :
  DeepCopyLaws cells (spec_t RR) (string * (option (gmap string bool) * option (list (string * VR)))).
Proof.
  apply (via_laws _ _ (λ s t, TrainerSpec_t (sp_AppNamespace s) t.1 t.2)); [|by intros s []].
  intros s h [t1 t2] h' (h1 & H1 & H2)%pair_run.
  change ((gates ← DeepCopyInto (sp_FeatureGates s); controllers ← DeepCopyInto (sp_Controllers s);
    mret (TrainerSpec_t (sp_AppNamespace s) gates controllers)) h = (Ok (TrainerSpec_t (sp_AppNamespace s) t1 t2), h')).
  by rewrite (bind_ok _ _ _ _ _ H1), (bind_ok _ _ _ _ _ H2).
Qed.

#[export] Instance status_copy_laws : DeepCopyLaws cells status_t status_value.
Proof.
  apply (via_laws _ _ (λ _ t, TrainerStatus_t t.1 t.2)); [|by intros s []].
  intros s h [t1 t2] h' (h1 & H1 & H2)%pair_run.
  change ((st ← DeepCopyInto (st_Status s); rs ← DeepCopyInto (st_Releases s);
    mret (TrainerStatus_t st rs)) h = (Ok (TrainerStatus_t t1 t2), h')).
  by rewrite (bind_ok _ _ _ _ _ H1), (bind_ok _ _ _ _ _ H2).
Qed.

#[export] Instance trainer_copy_laws : DeepCopyLaws cells (trainer_t RR OM) trainer_value.
Proof.
  apply (via_laws _ _ (λ s t, Trainer_t (t_TypeMeta s) t.1 t.2.1 t.2.2)); [|by intros s [? []]].
  intros s h [t1 [t2 t3]] h' (h1 & H1 & (h2 & H2 & H3)%pair_run)%pair_run.
  change ((meta ← DeepCopyInto (t_ObjectMeta s); spec ← DeepCopyInto (t_Spec s); status ← DeepCopyInto (t_Status s);
    mret (Trainer_t (t_TypeMeta s) meta spec status)) h = (Ok (Trainer_t (t_TypeMeta s) t1 t2 t3), h')).
  by rewrite (bind_ok _ _ _ _ _ H1), (bind_ok _ _ _ _ _ H2), (bind_ok _ _ _ _ _ H3).
Qed.

#[export] Instance trainer_list_copy_laws : DeepCopyLaws cells (trainer_list_t RR OM LM) trainer_list_value.
Proof.
  apply (via_laws _ _ (λ s t, TrainerList_t (tl_TypeMeta s) t.1 t.2)); [|by intros s []].
  intros s h [t1 t2] h' (h1 & H1 & H2)%pair_run.
  change ((meta ← DeepCopyInto (tl_ListMeta s); items ← DeepCopyInto (tl_Items s);
    mret (TrainerList_t (tl_TypeMeta s) meta items)) h = (Ok (TrainerList_t (tl_TypeMeta s) t1 t2), h')).
  by rewrite (bind_ok _ _ _ _ _ H1), (bind_ok _ _ _ _ _ H2).
Qed.

End values_of_the_api.

(** ** Properties *)

Section properties.
Context {RR OM LM F VR VM VL : Type} `{!Zero RR, !Zero OM, !Zero LM}.
#[local] Abbreviation cells := (cell RR OM LM F).
Context `{!Denotes cells RR VR, !Denotes cells OM VM, !Denotes cells LM VL}.
Context `{!DeepCopier cells RR, !DeepCopier cells OM, !DeepCopier cells LM,
  !DeepCopier cells fw_status_t, !DeepCopier cells fw_releases_t}.
Context `{!DeepCopyLaws cells RR VR, !DeepCopyLaws cells OM VM, !DeepCopyLaws cells LM VL,
  !DeepCopyLaws cells fw_status_t (string * option (list Condition)),
  !DeepCopyLaws cells fw_releases_t (option (list ComponentRelease)), !GateRange}.

(** C21: The generated deep copies are deep.  The copy of a Trainer and of a list
    of Trainers has the value of the original, with nil and empty maps and
    slices kept apart; nothing that was there is changed; and whatever is then
    written to the one is not seen in the other.  The copy of a nil pointer is
    nil, also as a [runtime.Object]. *)
Theorem deep_copies_isolated (h : memory cells) (p : pointer (trainer_t RR OM))
    (q : pointer (trainer_list_t RR OM LM)) d e
    (Hp : denote h p = Some d) (Hq : denote h q = Some e) :
  (∃ p' h', Trainer_DeepCopy p h = (Ok p', h') ∧ h ⊆ h' ∧ isolated h' p p' d ∧ (p = None ↔ p' = None) ∧
     Trainer_DeepCopyObject (LM:=LM) p h = (Ok ((λ l, TrainerObject (Some l)) <$> p'), h')) ∧
  (∃ q' h', TrainerList_DeepCopy q h = (Ok q', h') ∧ h ⊆ h' ∧ isolated h' q q' e ∧ (q = None ↔ q' = None) ∧
     TrainerList_DeepCopyObject q h = (Ok ((λ l, TrainerListObject (Some l)) <$> q'), h')).
Proof.
  split.
  - destruct (DeepCopy_isolated h p d Hp) as (p' & h' & Hr & Hs & Hi & Hn). exists p', h'.
    split_and!; [done..|]. unfold Trainer_DeepCopyObject, Trainer_DeepCopy.
    rewrite (bind_ok _ _ _ _ _ Hr). by destruct p'.
  - destruct (DeepCopy_isolated h q e Hq) as (q' & h' & Hr & Hs & Hi & Hn). exists q', h'.
    split_and!; [done..|]. unfold TrainerList_DeepCopyObject, TrainerList_DeepCopy.
    rewrite (bind_ok _ _ _ _ _ Hr). by destruct q'.
Qed.

(** The releases of the value of a Trainer. *)
Definition value_releases (d : trainer_value (VR:=VR) (VM:=VM)) : list ComponentRelease := default [] (d.2.2.2.2).

(** A copy whose releases are in cells that [h0] does not have. *)
Definition apart (h0 h : memory cells) (t : loc) (l : list ComponentRelease) : Prop :=
  (∀ x, x ∈ dom h0 → h !! x = h0 !! x) ∧ dom h0 ⊆ dom h ∧ (t ∉ dom h0) ∧
  ∃ v : trainer_t RR OM, h !! t = Some (TrainerCell [v]) ∧ elems h (releases_of v) = Some l ∧
    ∀ hd, releases_of v = Some hd → s_arr hd ∉ dom h0.

Lemma apart_put spare h0 h t l r : apart h0 h t l →
  ∃ h', put_release_at (RR:=RR) (OM:=OM) spare t r h = (Ok tt, h') ∧ apart h0 h' t (appendOrUpdateRelease l r).
Proof.
  intros (Hsame & Hdom & Ht0 & v & Ht & Hl & Hf).
  destruct (put_release_at_run spare h t v l r Ht Hl) as (s' & h' & Hr & Ht' & He & Ho & Hd & Hn).
  exists h'. split; [done|]. split_and!; [|set_solver|done|].
  - intros x Hx. rewrite <-(Hsame x Hx). apply Ho; [set_solver|by intros ->|].
    intros hd Hs ->. by apply (Hf hd Hs).
  - exists (with_releases s' v). split_and!; [done|done|]. intros hd Hs. cbn in Hs.
    destruct (Hn hd Hs) as [Hnd|(hd0 & Hs0 & ->)]; [set_solver|by apply Hf].
Qed.

Lemma denote_pointer h (p : pointer (trainer_t RR OM)) d : denote h p = Some (Some d) →
  ∃ t (v : trainer_t RR OM), p = Some t ∧ h !! t = Some (TrainerCell [v] : cells) ∧ denote h v = Some d ∧
    reach h p = {[t]} ∪ reach h v.
Proof.
  destruct p as [t|]; cbn [denote pointer_denotes pointer_value reach pointer_reach]; [|done].
  destruct (array h t) as [[|v [|]]|] eqn:Ha; try done.
  destruct (denote h v) as [dv|] eqn:Hd; [|done]. intros [= ->]. exists t, v. split_and!; try done.
  unfold array in Ha. destruct (h !! t) as [[]|]; try done. cbn in Ha. congruence.
Qed.

Lemma denote_releases h (v : trainer_t RR OM) d : denote (C:=cells) h v = Some d →
  elems h (releases_of v) = Some (value_releases d) ∧
  ∀ hd, releases_of v = Some hd → s_arr hd ∈ reach (C:=cells) h v.
Proof.
  destruct v as [tm om sp [fs [rs]]]. cbn. unfold releases_of, value_releases. cbn.
  destruct (denote h om) as [vm|]; cbn; [|done].
  destruct (gate_value h (sp_FeatureGates sp)) as [g|]; cbn; [|done].
  destruct (slice_value h (sp_Controllers sp)) as [cs|]; cbn; [|done].
  destruct (slice_value h (fs_Conditions fs)) as [c|]; cbn; [|done].
  destruct rs as [hd|]; cbn [slice_value].
  - destruct (elems h (Some hd)) as [l|] eqn:He; cbn; [|done].
    assert (mapM (λ t : ComponentRelease, Some t) l = Some l) as ->.
    { clear. by induction l as [|r l IH]; cbn; [|rewrite IH]. }
    cbn. intros [= <-]. split; [done|]. intros ? [= <-]. cbn. set_solver.
  - intros [= <-]. split; [done|]. by intros ? [=].
Qed.

Lemma apart_loop spare h0 t releases l h : apart h0 h t l →
  ∃ h', forM releases (put_release_at (RR:=RR) (OM:=OM) spare t) h = (Ok tt, h') ∧
    apart h0 h' t (fold_left appendOrUpdateRelease releases l).
Proof.
  revert l h. induction releases as [|r rs IH]; intros l h Ha; [by exists h|].
  destruct (apart_put spare h0 h t l r Ha) as (h2 & Hr & Ha2). rewrite forM_cons, Hr. by apply IH.
Qed.

(** The cache is safe from [updateReleases].  When the framework hands out a
    deep copy of a cached Trainer, any sequence of releases put into the copy,
    in place or not, leaves the cached one with its value, and the copy ends
    with the list of the pure update. *)
Theorem cached_trainer_untouched spare (h : memory cells) (p : pointer (trainer_t RR OM)) d
    (releases : list ComponentRelease) (Hp : denote h p = Some (Some d)) :
  ∃ t h1 h2 v, Trainer_DeepCopy p h = (Ok (Some t), h1) ∧
    forM releases (put_release_at (RR:=RR) (OM:=OM) spare t) h1 = (Ok tt, h2) ∧
    denote h2 p = Some (Some d) ∧ h2 !! t = Some (TrainerCell [v]) ∧
    elems h2 (releases_of v) = Some (fold_left appendOrUpdateRelease releases (value_releases d)).
Proof.
  destruct (DeepCopy_copies h p (Some d) Hp) as (p' & h1 & Hr & Hsub & Hd1 & Hdisj).
  apply denote_pointer in Hd1 as (t & v & -> & Ht & Hv & Hreach). apply denote_releases in Hv as [Hel Harr].
  assert (apart h h1 t (value_releases d)) as Hap.
  { split_and!.
    - intros x Hx. apply elem_of_dom in Hx as [c Hx]. rewrite Hx. by eapply lookup_weaken.
    - by apply subseteq_dom.
    - set_solver.
    - exists v. split_and!; [done..|]. intros hd Hs Hin.
      apply (Hdisj (s_arr hd)); [|done]. rewrite Hreach. apply elem_of_union_r, (Harr hd Hs). }
  destruct (apart_loop spare h t releases _ _ Hap) as (h2 & Hr2 & Hs2 & _ & _ & v2 & Ht2 & He2 & _).
  exists t, h1, h2, v2. split_and!; [done|done| |done|done].
  apply (denote_frame h h2); [done|]. intros x Hx. apply Hs2. by apply (reach_dom _ _ _ Hp).
Qed.

End properties.

(** *** Witnesses *)

#[local] Abbreviation ex_cell := (cell string string string unit).

(** The foreign types without pointers, and the framework's copiers. *)
#[local] Instance ex_string_zero : Zero string := "".
#[local] Instance ex_string_denotes : Denotes ex_cell string string := plain.
#[local] Instance ex_string_copier : DeepCopier ex_cell string := mret.
#[local] Instance ex_string_laws : DeepCopyLaws ex_cell string string.
Proof. intros h t d [= <-]. by exists t, h. Defined.
#[local] Instance ex_condition_copier : DeepCopier ex_cell Condition := mret.
#[local] Instance ex_condition_laws : DeepCopyLaws ex_cell Condition Condition.
Proof. intros h t d [= <-]. by exists t, h. Defined.
#[local] Instance ex_release_copier : DeepCopier ex_cell ComponentRelease := mret.
#[local] Instance ex_release_laws : DeepCopyLaws ex_cell ComponentRelease ComponentRelease.
Proof. intros h t d [= <-]. by exists t, h. Defined.
#[local] Instance ex_status_copier : DeepCopier ex_cell fw_status_t := λ s,
  cs ← DeepCopyInto (fs_Conditions s); mret (FwStatus (fs_Phase s) cs).
#[local] Instance ex_status_laws : DeepCopyLaws ex_cell fw_status_t (string * option (list Condition)).
Proof.
  apply (via_laws _ _ (λ s t, FwStatus (fs_Phase s) t)); [|done]. intros s h t h' Hr.
  change ((cs ← DeepCopyInto (fs_Conditions s); mret (FwStatus (fs_Phase s) cs)) h = (Ok (FwStatus (fs_Phase s) t), h')).
  by rewrite (bind_ok _ _ _ _ _ Hr).
Defined.
#[local] Instance ex_releases_copier : DeepCopier ex_cell fw_releases_t := λ s,
  rs ← DeepCopyInto (fr_Releases s); mret (FwReleases rs).
#[local] Instance ex_releases_laws : DeepCopyLaws ex_cell fw_releases_t (option (list ComponentRelease)).
Proof.
  apply (via_laws _ _ (λ _ t, FwReleases t)); [|done]. intros s h t h' Hr.
  change ((rs ← DeepCopyInto (fr_Releases s); mret (FwReleases rs)) h = (Ok (FwReleases t), h')).
  by rewrite (bind_ok _ _ _ _ _ Hr).
Defined.
#[local] Instance ex_gate_range : GateRange.
Proof. by refine {| gate_range := map_to_list |}. Defined.

Definition ex_value : trainer_value (VR:=string) (VM:=string) :=
  (TypeMeta "Trainer" "components.platform.opendatahub.io/v1alpha1", ("default-trainer",
    (("apps", (Some {["alpha" := true]}, Some [("manager", "cpu: 1")])),
     (("Ready", None), Some [ex_release "trainer" "2.0"])))).

Lemma ex_denotes : denote ex_memory (Some 1%positive : pointer (trainer_t string string)) = Some (Some ex_value).
Proof. by vm_compute. Qed.

(** The copy outlives the original. *)
Lemma deep_copies_isolated_witness :
  ∃ p' h', Trainer_DeepCopy (Some 1%positive) ex_memory = (Ok p', h') ∧
    denote h' p' = Some (Some ex_value) ∧ denote (delete 1%positive h') p' = Some (Some ex_value).
Proof.
  destruct (deep_copies_isolated (LM:=string) ex_memory (Some 1%positive) None (Some ex_value) None
    ex_denotes eq_refl) as [(p' & h' & Hr & _ & (_ & Hd & _ & Hi) & _) _].
  exists p', h'. split; [exact Hr|]. split; [exact Hd|]. apply Hi.
  intros l Hl. apply lookup_delete_ne. intros <-. apply Hl.
  cbn [reach pointer_denotes pointer_reach]. apply elem_of_union_l, elem_of_singleton. reflexivity.
Defined.

Lemma cached_trainer_untouched_witness :
  ∃ t h1 h2, Trainer_DeepCopy (Some 1%positive) ex_memory = (Ok (Some t), h1) ∧
    forM [ex_release "trainer" "2.1"; ex_release "Platform" "3.0"]
      (put_release_at (RR:=string) (OM:=string) (λ _ _, 0) t) h1 = (Ok tt, h2) ∧
    denote h2 (Some 1%positive : pointer (trainer_t string string)) = Some (Some ex_value).
Proof.
  destruct (cached_trainer_untouched (LM:=string) (λ _ _, 0) ex_memory (Some 1%positive) ex_value
    [ex_release "trainer" "2.1"; ex_release "Platform" "3.0"] ex_denotes)
    as (t & h1 & h2 & v & Hr & Hf & Hd & _).
  exists t, h1, h2. split; [exact Hr|]. split; [exact Hf|exact Hd].
Defined.
