(* ===== verification/Deploy.v ===== *)
(** [withImmutableFieldRecovery] of [internal/controller/trainer_controller.go]:
    the deploy action of the framework, with the deletion of the Deployments
    when the API server refuses to change an immutable field. *)

From S2P Require Import Prelude GoStrings GoOS Kube ApiTypes KubeStore Request Namespace.
Open Scope string_scope.
Open Scope nat_scope.
Open Scope list_scope.

(** ** Definitions *)

Definition isImmutableFieldError (err : option goerror) : bool :=
  match err with
  | None => false
  | Some e => Contains (Error e) "field is immutable"
  end.

Section deploy.
Context {O V K C Ver : Type} `{!Objects O V, !CtrlClient K}.

(** One iteration over [rr.Resources]: the outcome of the deletion is logged. *)
Definition delete_deployment (res : O) : M K unit :=
  if negb (bool_decide (GetKind res = "Deployment")) then mret tt
  else
    try (ClientDelete (GroupVersionKindOf res) (GetName res) (GetNamespace res));;
    mret tt.

Definition withImmutableFieldRecovery (deployAction : action O K C Ver) : action O K C Ver :=
  err ← try (deployAction);
  match err with
  | Ok _ => mret tt
  | Err e =>
      if negb (isImmutableFieldError (Some e)) then throw e
      else
        resources ← gets rr_resources;
        on_client (forM resources delete_deployment);;
        throw e
  end.

End deploy.

(** ** Lemmas *)

Section lemmas.
Context {O V K : Type} `{!Objects O V, !CtrlClient K}.

(** The deletion a resource asks for. *)
Definition recovery_deletion (res : O) : option (GroupVersionKind * string * string) :=
  if bool_decide (GetKind res = "Deployment")
  then Some (GroupVersionKindOf res, GetName res, GetNamespace res) else None.

Definition deletion_event (e : event O) : option (GroupVersionKind * string * string) :=
  match e with EvClientDelete g name ns _ => Some (g, name, ns) | _ => None end.

Lemma delete_deployments_ok (l : list O) (k : K) : (forM l delete_deployment k).1 = Ok tt.
Proof.
  assert (Is_true (is_ok (forM l delete_deployment k).1)) as Hok;
    [|by destruct (forM l delete_deployment k) as [[[]|] ?]].
  apply forM_total. intros x k' _. unfold delete_deployment.
  destruct (bool_decide _); [|done]. unfold try. munfold. cbn. by destruct (ClientDelete _ _ _ k').
Qed.

(** Every Deployment is deleted once, in order, whatever the outcomes. *)
Lemma delete_deployments_trace (l : list O) (t : list (event O)) (k : K) :
  ∃ t', (forM (S:=traced O K) l delete_deployment (t, k)).2.1 = t ++ t' ∧
    omap deletion_event t' = omap recovery_deletion l ∧
    length t' = length (omap deletion_event t').
Proof.
  revert t k. induction l as [|res l IH]; intros t k; [exists []; by rewrite app_nil_r|].
  rewrite forM_cons. unfold delete_deployment at 1. cbn [omap list_omap].
  unfold recovery_deletion at 1. destruct (bool_decide (GetKind res = "Deployment")) eqn:Ek; cbn [negb].
  - unfold try, mbind, M_bind. cbn [ClientDelete traced_client log_call].
    destruct (ClientDelete _ _ _ k) as [r k1]. cbn [mret M_ret].
    destruct (IH (t ++ [EvClientDelete (GroupVersionKindOf res) (GetName res) (GetNamespace res) r]) k1)
      as (t' & -> & Ht & Hl).
    eexists. rewrite <-app_assoc. split; [done|]. cbn. rewrite Ht. split; [done|].
    by rewrite <-Ht, <-Hl.
  - cbn [mret M_ret]. apply IH.
Qed.

End lemmas.

Section recovery.
Context {O V K C Ver : Type} `{!Objects O V, !CtrlClient K}.

(** After a deploy action that an immutable field refused. *)
Lemma recovery_refused (deployAction : action O K C Ver) rr e rr1 :
  deployAction rr = (Err e, rr1) → Contains (Error e) "field is immutable" = true →
  withImmutableFieldRecovery deployAction rr =
    (Err e, set_cluster (forM (rr_resources rr1) delete_deployment (rr_cluster rr1)).2 rr1).
Proof.
  intros E Hc. unfold withImmutableFieldRecovery, try. unfold mbind, M_bind. rewrite E. cbn. rewrite Hc. cbn.
  rewrite on_client_run. pose proof (delete_deployments_ok (rr_resources rr1) (rr_cluster rr1)) as Hok.
  by destruct (forM _ _ _) as [r k]; cbn in Hok; subst r.
Qed.

(** After a failing deploy action. *)
Lemma recovery_run (deployAction : action O (traced O K) C Ver) rr e rr1 :
  deployAction rr = (Err e, rr1) →
  ∃ rr2 t', withImmutableFieldRecovery deployAction rr = (Err e, rr2) ∧
    rr2 = set_cluster (rr_cluster rr2) rr1 ∧
    (rr_cluster rr2).1 = (rr_cluster rr1).1 ++ t' ∧
    omap deletion_event t' =
      (if Contains (Error e) "field is immutable" then omap recovery_deletion (rr_resources rr1) else []) ∧
    length t' = length (omap deletion_event t').
Proof.
  intros E. unfold withImmutableFieldRecovery, try. unfold mbind, M_bind. rewrite E. cbn [isImmutableFieldError].
  destruct (Contains (Error e) "field is immutable"); cbn [negb].
  - unfold gets, on_client, zoom. destruct (rr_cluster rr1) as [t k] eqn:Ek.
    destruct (delete_deployments_trace (rr_resources rr1) t k) as (t' & Ht & Hd & Hl).
    pose proof (delete_deployments_ok (K:=traced O K) (rr_resources rr1) (t, k)) as Hok.
    destruct (forM (S:=traced O K) (rr_resources rr1) _ _) as [r2 [t2 k2]] eqn:Ef.
    cbn in Hok, Ht. subst r2 t2. exists (set_cluster (t ++ t', k2) rr1), t'.
    by split_and!.
  - exists rr1, []. rewrite app_nil_r. split_and!; [done|by rewrite set_cluster_id|done..].
Qed.

End recovery.

(** ** Properties *)

Section properties.
Context {O V K C Ver : Type} `{!Objects O V, !CtrlClient K}.

(** The wrapper is transparent: it returns the result of the deploy action,
    success or error, unchanged, and so never hides an error; a success and an
    error about anything but an immutable field leave the request as the deploy
    action left it; and in the remaining case only the cluster is touched
    again. *)
Theorem withImmutableFieldRecovery_transparent (deployAction : action O K C Ver) (rr : request O K C Ver) :
  let '(r, rr1) := deployAction rr in
  let '(r', rr2) := withImmutableFieldRecovery deployAction rr in
  r' = r ∧
  (match r with Ok _ => True | Err e => Contains (Error e) "field is immutable" = false end → rr2 = rr1) ∧
  rr2 = set_cluster (rr_cluster rr2) rr1.
Proof.
  unfold withImmutableFieldRecovery, try. unfold mbind, M_bind.
  destruct (deployAction rr) as [[[]|e] rr1]; cbn.
  - by rewrite set_cluster_id.
  - destruct (Contains (Error e) "field is immutable"); cbn; [|by rewrite set_cluster_id].
    unfold on_client, zoom. pose proof (delete_deployments_ok (rr_resources rr1) (rr_cluster rr1)) as Hok.
    destruct (forM _ _ _) as [r2 k2]. cbn in Hok. subst r2. by cbn.
Qed.

End properties.

Section trace_properties.
Context {O V K C Ver : Type} `{!Objects O V, !CtrlClient K}.

(** The recovery deletes exactly the Deployments among the resources of the
    request, each once and in order, with their own kind, name and namespace,
    and goes on after a failing deletion; it does so exactly when the deploy
    action failed because of an immutable field, and does nothing else to the
    cluster. *)
Theorem withImmutableFieldRecovery_deletes
    (deployAction : action O (traced O K) C Ver) (rr : request O (traced O K) C Ver) :
  let '(r, rr1) := deployAction rr in
  ∃ t', (rr_cluster (withImmutableFieldRecovery deployAction rr).2).1 = (rr_cluster rr1).1 ++ t' ∧
    length t' = length (omap deletion_event t') ∧
    omap deletion_event t' =
      match r with
      | Ok _ => []
      | Err e => if Contains (Error e) "field is immutable"
                 then omap recovery_deletion (rr_resources rr1) else []
      end.
Proof.
  destruct (deployAction rr) as [[[]|e] rr1] eqn:E.
  - exists []. unfold withImmutableFieldRecovery, try. unfold mbind, M_bind. rewrite E. cbn.
    by rewrite app_nil_r.
  - destruct (recovery_run _ _ _ _ E) as (rr2 & t' & -> & _ & Ht & Hd & Hl). by exists t'.
Qed.

End trace_properties.
