(* ===== verification/OperandTLS.v ===== *)
(** [internal/tls/operand.go]: the cluster's TLS profile in the vocabulary of
    the operand's configuration. *)

From S2P Require Import Prelude GoStrings.
From Stdlib Require Import Ascii.
Open Scope string_scope.
Open Scope nat_scope.
Open Scope list_scope.

(** ** Definitions *)

(** [configv1.TLSProfileSpec] and [trainertls.TLSOptions]. *)
Record TLSProfileSpec := MkProfile {
  p_Ciphers : list string; MinTLSVersion : string; Groups : list string }.

Record TLSOptions := MkTLSOptions {
  MinVersion : string; CipherSuites : list string; CurvePreferences : list Z }.

#[export] Instance TLSProfileSpec_eq_dec : EqDecision TLSProfileSpec.
Proof. solve_decision. Defined.
#[export] Instance TLSOptions_eq_dec : EqDecision TLSOptions.
Proof. solve_decision. Defined.

(** The translation tables of openshift/library-go, and the helper of the
    framework that turns the groups of a profile into curve IDs. *)
Class TLSTables := {
  CipherSuite : string → result Z;
  OpenSSLToIANACipherSuites : list string → list string;
  CurvePreferencesFromSpec : TLSProfileSpec → result string;
}.

(** [tls.CipherSuites()] and [tls.InsecureCipherSuites()] of Go 1.26: the IDs
    and the names. *)
Definition tls_CipherSuites : list (Z * string) :=
  [(0x1301, "TLS_AES_128_GCM_SHA256"); (0x1302, "TLS_AES_256_GCM_SHA384");
   (0x1303, "TLS_CHACHA20_POLY1305_SHA256");
   (0xc009, "TLS_ECDHE_ECDSA_WITH_AES_128_CBC_SHA");
   (0xc00a, "TLS_ECDHE_ECDSA_WITH_AES_256_CBC_SHA");
   (0xc013, "TLS_ECDHE_RSA_WITH_AES_128_CBC_SHA");
   (0xc014, "TLS_ECDHE_RSA_WITH_AES_256_CBC_SHA");
   (0xc02b, "TLS_ECDHE_ECDSA_WITH_AES_128_GCM_SHA256");
   (0xc02c, "TLS_ECDHE_ECDSA_WITH_AES_256_GCM_SHA384");
   (0xc02f, "TLS_ECDHE_RSA_WITH_AES_128_GCM_SHA256");
   (0xc030, "TLS_ECDHE_RSA_WITH_AES_256_GCM_SHA384");
   (0xcca8, "TLS_ECDHE_RSA_WITH_CHACHA20_POLY1305_SHA256");
   (0xcca9, "TLS_ECDHE_ECDSA_WITH_CHACHA20_POLY1305_SHA256")]%Z.

Definition tls_InsecureCipherSuites : list (Z * string) :=
  [(0x0005, "TLS_RSA_WITH_RC4_128_SHA"); (0x000a, "TLS_RSA_WITH_3DES_EDE_CBC_SHA");
   (0x002f, "TLS_RSA_WITH_AES_128_CBC_SHA"); (0x0035, "TLS_RSA_WITH_AES_256_CBC_SHA");
   (0x003c, "TLS_RSA_WITH_AES_128_CBC_SHA256"); (0x009c, "TLS_RSA_WITH_AES_128_GCM_SHA256");
   (0x009d, "TLS_RSA_WITH_AES_256_GCM_SHA384"); (0xc007, "TLS_ECDHE_ECDSA_WITH_RC4_128_SHA");
   (0xc011, "TLS_ECDHE_RSA_WITH_RC4_128_SHA"); (0xc012, "TLS_ECDHE_RSA_WITH_3DES_EDE_CBC_SHA");
   (0xc023, "TLS_ECDHE_ECDSA_WITH_AES_128_CBC_SHA256");
   (0xc027, "TLS_ECDHE_RSA_WITH_AES_128_CBC_SHA256")]%Z.

Definition operandMinVersions : gmap string string := list_to_map
  [("VersionTLS10", "1.0"); ("VersionTLS11", "1.1"); ("VersionTLS12", "1.2"); ("VersionTLS13", "1.3")].

Fixpoint find_suite (id : Z) (l : list (Z * string)) : option string :=
  match l with
  | [] => None
  | (i, name) :: l' => if bool_decide (i = id) then Some name else find_suite id l'
  end.

Definition goCipherName (id : Z) : option string :=
  match find_suite id tls_CipherSuites with
  | Some name => Some name
  | None => find_suite id tls_InsecureCipherSuites
  end.

Definition rc4CipherIDs : gmap Z bool :=
  fold_left (λ ids cs, if Contains (snd cs) "RC4" then <[fst cs := true]> ids else ids)
    tls_InsecureCipherSuites ∅.

Definition isTLS13CipherID (id : Z) : bool := (0x1301 <=? id)%Z && (id <=? 0x1304)%Z.

(** [int32(code)] *)
Definition int32 (z : Z) : Z := ((z + 2 ^ 31) mod 2 ^ 32 - 2 ^ 31)%Z.

Definition num_error_text (e : num_error) : string :=
  match e with ErrSyntax => "invalid syntax" | ErrRange => "value out of range" end.

Section translate.

(** The tables of other modules, and [strconv.Quote], which [%q] applies. *)
Context `{!TLSTables} (Quote : string → string).

Definition resolveCipherID (name : string) : option Z :=
  match CipherSuite name with
  | Ok id => Some id
  | Err _ =>
      match OpenSSLToIANACipherSuites [name] with
      | [ianaName] => match CipherSuite ianaName with Ok id => Some id | Err _ => None end
      | _ => None
      end
  end.

Definition parse_curve (id : string) : result Z :=
  match ParseInt id 32 with
  | inr code => Ok code
  | inl e =>
      Err (ErrWrap ("parsing curve ID " +:+ Quote id)
        (ErrForeign "NumError" ("strconv.ParseInt: parsing " +:+ Quote id +:+ ": " +:+ num_error_text e)))
  end.

(** The loop over the curve IDs, with [opts.CurvePreferences]. *)
Fixpoint curve_loop (curves : list Z) (ids : list string) : result (list Z) :=
  match ids with
  | [] => Ok curves
  | id :: ids' =>
      if bool_decide (id = "") then curve_loop curves ids'
      else code ← parse_curve id; curve_loop (curves ++ [int32 code]) ids'
  end.

(** One iteration over the ciphers, with [opts.CipherSuites]. *)
Definition cipher_step (suites : list string) (name : string) : list string :=
  match resolveCipherID name with
  | None => suites
  | Some id =>
      if default false (rc4CipherIDs !! id) || isTLS13CipherID id then suites
      else match goCipherName id with Some goName => suites ++ [goName] | None => suites end
  end.

Definition TranslateProfile (profile : TLSProfileSpec) : result TLSOptions :=
  let minVersion := default "" (operandMinVersions !! MinTLSVersion profile) in
  curves ← wrap_err "translating TLS groups" (CurvePreferencesFromSpec profile);
  curvePreferences ← curve_loop [] (Split curves ",");
  mret (MkTLSOptions minVersion (fold_left cipher_step (p_Ciphers profile) []) curvePreferences).

End translate.

(** *** Specification *)

Section spec.
Context `{!TLSTables}.

(** The Go suite a profile cipher stands for in the operand's configuration. *)
Definition translates (name goName : string) : Prop := ∃ id,
  resolveCipherID name = Some id ∧
  (id, goName) ∈ tls_CipherSuites ++ tls_InsecureCipherSuites ∧
  Contains goName "RC4" = false ∧ ¬ (0x1301 ≤ id ≤ 0x1304)%Z.

(** A curve ID and its number. *)
Definition curve_number (id : string) (code : Z) : Prop := id ≠ "" ∧ ParseInt id 32 = inr code.

End spec.

(** ** Lemmas *)

Lemma find_suite_elem id l n : find_suite id l = Some n → (id, n) ∈ l.
Proof.
  induction l as [|[i m] l IH]; cbn; [done|]. case_bool_decide as E; [subst; intros [= ->]; by left|].
  intros H. right. by apply IH.
Qed.

Lemma elem_find_suite id l n : NoDup l.*1 → (id, n) ∈ l → find_suite id l = Some n.
Proof.
  induction l as [|[i m] l IH]; cbn; intros Hd Hin; [by apply elem_of_nil in Hin|].
  apply list.NoDup_cons in Hd as [Hi Hd]. apply elem_of_cons in Hin as [[= -> ->]|Hin].
  - by rewrite bool_decide_eq_true_2.
  - rewrite bool_decide_eq_false_2; [by apply IH|]. intros ->. apply Hi.
    apply list_elem_of_fmap. by exists (id, n).
Qed.

Lemma suite_ids_unique : NoDup (tls_CipherSuites ++ tls_InsecureCipherSuites).*1.
Proof. apply (bool_decide_unpack _). by vm_compute. Qed.

Lemma find_suite_app id l1 l2 :
  find_suite id (l1 ++ l2) = match find_suite id l1 with Some n => Some n | None => find_suite id l2 end.
Proof. induction l1 as [|[i m] l1 IH]; cbn; [done|]. by case_bool_decide. Qed.

(** The lookup in the two tables is the lookup in their concatenation. *)
Lemma goCipherName_iff id n :
  goCipherName id = Some n ↔ (id, n) ∈ tls_CipherSuites ++ tls_InsecureCipherSuites.
Proof.
  assert (goCipherName id = find_suite id (tls_CipherSuites ++ tls_InsecureCipherSuites)) as ->
    by by rewrite find_suite_app.
  split; [apply find_suite_elem|]. apply elem_find_suite, suite_ids_unique.
Qed.

(** The set computed from the insecure table covers every suite that is known. *)
Lemma rc4_iff id n : (id, n) ∈ tls_CipherSuites ++ tls_InsecureCipherSuites →
  default false (rc4CipherIDs !! id) = Contains n "RC4".
Proof.
  assert (Forall (λ cs : Z * string, default false (rc4CipherIDs !! cs.1) = Contains cs.2 "RC4")
    (tls_CipherSuites ++ tls_InsecureCipherSuites)) as Hall.
  { apply (bool_decide_unpack _). by vm_compute. }
  rewrite Forall_forall in Hall. intros Hin. by apply (Hall (id, n)), list_elem_of_In.
Qed.

Lemma isTLS13_iff id : isTLS13CipherID id = true ↔ (0x1301 ≤ id ≤ 0x1304)%Z.
Proof. unfold isTLS13CipherID. rewrite andb_true_iff, !Z.leb_le. done. Qed.

Lemma int32_id z : (- 2 ^ 31 ≤ z < 2 ^ 31)%Z → int32 z = z.
Proof. intros H. unfold int32. rewrite Z.mod_small by lia. lia. Qed.

Section lemmas.
Context `{!TLSTables} (Quote : string → string).

Lemma cipher_step_spec d name :
  (cipher_step d name = d ∧ ∀ n, ¬ translates name n) ∨
  (∃ n, cipher_step d name = d ++ [n] ∧ translates name n).
Proof.
  unfold cipher_step. destruct (resolveCipherID name) as [id|] eqn:Er;
    [|left; split; [done|]; intros n (id & Hid & _); congruence].
  destruct (goCipherName id) as [n|] eqn:Eg.
  - apply goCipherName_iff in Eg as Hin. rewrite (rc4_iff _ _ Hin).
    destruct (Contains n "RC4") eqn:Ec; cbn; [left; split; [done|]|].
    { intros n' (id' & Hid & Hin' & Hc & _). apply goCipherName_iff in Hin'. congruence. }
    destruct (isTLS13CipherID id) eqn:Et.
    + left. split; [done|]. intros n' (id' & Hid & _ & _ & Ht). apply Ht. apply isTLS13_iff. congruence.
    + right. exists n. split; [done|]. exists id. split_and!; try done.
      rewrite <-isTLS13_iff. congruence.
  - left. split; [by destruct (_ || _)|]. intros n (id' & Hid & Hin & _).
    apply goCipherName_iff in Hin. congruence.
Qed.

Lemma parse_curve_ok id code : parse_curve Quote id = Ok code → ParseInt id 32 = inr code ∧ int32 code = code.
Proof.
  unfold parse_curve. destruct (ParseInt id 32) as [e|z] eqn:E; [done|]. intros [= ->].
  split; [done|]. apply int32_id. by apply (ParseInt_bounds id 32).
Qed.

Lemma curve_loop_ok cs ids out : curve_loop Quote cs ids = Ok out →
  ∃ cs', out = cs ++ cs' ∧ projects curve_number ids cs'.
Proof.
  revert cs. induction ids as [|id ids IH]; intros cs; cbn.
  { intros [= <-]. exists []. split; [by rewrite app_nil_r|constructor]. }
  case_bool_decide as Hid.
  - intros (cs' & -> & Hp)%IH. exists cs'. split; [done|]. constructor; [|done]. by intros y [? _].
  - munfold. destruct (parse_curve Quote id) as [code|e] eqn:E; [|done].
    apply parse_curve_ok in E as [E ->]. intros (cs' & -> & Hp)%IH.
    exists (code :: cs'). rewrite <-app_assoc. split; [done|]. by constructor.
Qed.

Lemma curve_loop_total cs ids :
  (∀ id, id ∈ ids → id = "" ∨ ∃ code, ParseInt id 32 = inr code) ↔ is_ok (curve_loop Quote cs ids) = true.
Proof.
  revert cs. induction ids as [|id ids IH]; intros cs; cbn.
  { split; [done|]. intros _ id Hid. by apply elem_of_nil in Hid. }
  transitivity ((id = "" ∨ ∃ code, ParseInt id 32 = inr code) ∧
    ∀ id', id' ∈ ids → id' = "" ∨ ∃ code, ParseInt id' 32 = inr code); [set_solver|].
  case_bool_decide as Hid; [rewrite <-IH; naive_solver|]. munfold. unfold parse_curve.
  destruct (ParseInt id 32) as [e|code] eqn:E; cbn; [naive_solver|]. rewrite <-IH. naive_solver.
Qed.

End lemmas.

(** ** Properties *)

Section properties.
Context `{!TLSTables} (Quote : string → string).

(** C36: The cipher suites of the operand are, in the order of the profile, the
    Go suites its ciphers stand for: a cipher is left out exactly when it
    cannot be resolved, when this Go does not know it, when it is an RC4 suite
    or when it is a TLS 1.3 suite, and what is rendered never contains such a
    suite. *)
Theorem TranslateProfile_suites (profile : TLSProfileSpec) (opts : TLSOptions)
    (Hok : TranslateProfile Quote profile = Ok opts) :
  projects translates (p_Ciphers profile) (CipherSuites opts) ∧
  (∀ n, n ∈ CipherSuites opts → Contains n "RC4" = false ∧
     ∃ id, goCipherName id = Some n ∧ isTLS13CipherID id = false) ∧
  MinVersion opts = default "" (operandMinVersions !! MinTLSVersion profile).
Proof.
  unfold TranslateProfile in Hok. munfold. destruct (CurvePreferencesFromSpec profile) as [cs|]; [|done].
  cbn in Hok. destruct (curve_loop Quote [] _); [|done]. injection Hok as <-. cbn.
  destruct (projects_fold translates cipher_step (p_Ciphers profile) [] cipher_step_spec)
    as (l & -> & Hp). cbn [app]. split_and!; [done| |done]. intros n Hn.
  destruct (projects_elem _ _ _ _ Hp Hn) as (c & _ & id & _ & Hin & Hc & Ht). split; [done|].
  exists id. split; [by apply goCipherName_iff|]. apply not_true_is_false. by rewrite isTLS13_iff.
Qed.

(** C39: The curve preferences of the operand are the curve IDs of the profile in
    their order, empty pieces left out, each as the number it spells; they fit
    32 bits, so the conversion to [int32] never changes them. *)
Theorem TranslateProfile_curves (profile : TLSProfileSpec) (opts : TLSOptions)
    (Hok : TranslateProfile Quote profile = Ok opts) :
  (∃ curves, CurvePreferencesFromSpec profile = Ok curves ∧
     projects curve_number (Split curves ",") (CurvePreferences opts)) ∧
  Forall (λ z, (- 2 ^ 31 ≤ z < 2 ^ 31)%Z) (CurvePreferences opts).
Proof.
  unfold TranslateProfile in Hok. munfold.
  destruct (CurvePreferencesFromSpec profile) as [curves|]; [|done].
  cbn in Hok. destruct (curve_loop Quote [] _) as [cs|] eqn:E; [|done]. injection Hok as <-.
  apply curve_loop_ok in E as (cs' & -> & Hp). cbn [app CurvePreferences]. split; [by exists curves|].
  apply Forall_forall. intros z Hz%list_elem_of_In.
  destruct (projects_elem _ _ _ _ Hp Hz) as (id & _ & _ & Hid). by apply (ParseInt_bounds id 32).
Qed.

(** The translation fails closed: it succeeds exactly when the framework
    could translate the groups and every curve ID is a number of 32 bits; the
    ciphers never make it fail, and a failure yields no options at all. *)
Theorem TranslateProfile_fails_closed (profile : TLSProfileSpec) :
  (∃ opts, TranslateProfile Quote profile = Ok opts) ↔
  ∃ curves, CurvePreferencesFromSpec profile = Ok curves ∧
    ∀ id, id ∈ Split curves "," → id = "" ∨ ∃ code, ParseInt id 32 = inr code.
Proof.
  unfold TranslateProfile. munfold. destruct (CurvePreferencesFromSpec profile) as [curves|e]; cbn.
  - pose proof (curve_loop_total Quote [] (Split curves ",")) as Ht.
    destruct (curve_loop Quote [] _) as [cs|e]; cbn in Ht.
    + split; [|by eexists]. intros _. exists curves. split; [done|]. by apply Ht.
    + split; [by intros [? ?]|]. intros (c & [= <-] & Hc). by apply Ht in Hc.
  - split; [by intros [? ?]|by intros (? & ? & _)].
Qed.

End properties.

(** *** Witnesses *)

#[local] Instance ex_tables : TLSTables := {|
  CipherSuite name :=
    match find (λ cs : Z * string, bool_decide (cs.2 = name)) (tls_CipherSuites ++ tls_InsecureCipherSuites) with
    | Some (id, _) => Ok id
    | None => Err (ErrNew "unknown cipher")
    end;
  OpenSSLToIANACipherSuites l :=
    if bool_decide (l = ["DES-CBC3-SHA"]) then ["TLS_RSA_WITH_3DES_EDE_CBC_SHA"] else [];
  CurvePreferencesFromSpec p :=
    if bool_decide (Groups p = ["NotAGroup"]) then Err (ErrNew "no supported groups")
    else Ok (if bool_decide (Groups p = []) then "" else "4588,29");
|}.

Definition ex_profile : TLSProfileSpec :=
  MkProfile ["TLS_ECDHE_RSA_WITH_RC4_128_SHA"; "DES-CBC3-SHA"; "TLS_AES_128_GCM_SHA256"; "unknown";
             "TLS_ECDHE_RSA_WITH_AES_128_GCM_SHA256"] "VersionTLS12" ["X25519MLKEM768"; "X25519"].

Definition ex_options : TLSOptions :=
  MkTLSOptions "1.2" ["TLS_RSA_WITH_3DES_EDE_CBC_SHA"; "TLS_ECDHE_RSA_WITH_AES_128_GCM_SHA256"] [4588; 29]%Z.

Lemma ex_translate : TranslateProfile id ex_profile = Ok ex_options.
Proof. by vm_compute. Qed.

Lemma TranslateProfile_suites_witness :
  TranslateProfile id ex_profile = Ok ex_options ∧
  projects (translates) (p_Ciphers ex_profile) (CipherSuites ex_options).
Proof.
  split; [exact ex_translate|].
  exact (proj1 (TranslateProfile_suites id _ _ ex_translate)).
Defined.

Lemma TranslateProfile_curves_witness :
  ∃ curves, CurvePreferencesFromSpec ex_profile = Ok curves ∧
    projects curve_number (Split curves ",") [4588; 29]%Z.
Proof. exact (proj1 (TranslateProfile_curves id _ _ ex_translate)). Defined.
