(* ===== verification/Workdir.v ===== *)
(** The work directories of [internal/controller/manifests.go]: the templates
    of the image are copied once to a writable place, symbolic links left
    out. *)

From S2P Require Import Prelude GoStrings GoOS.
From stdpp Require Import sorting.
Open Scope string_scope.
Open Scope nat_scope.
Open Scope list_scope.

(** ** Definitions *)

(** *** The calls of [os], [io] and [filepath] that only this file uses *)

(** The names in a directory, sorted. *)
Definition child_name (p q : path) : option string :=
  match last q with
  | Some name => if bool_decide (q = p ++ [name]) then Some name else None
  | None => None
  end.

Definition name_le (a b : string) : Prop := String.leb a b = true.

#[export] Instance name_le_dec : RelDecision name_le.
Proof. intros a b. unfold name_le. apply _. Defined.

Definition children (m : gmap path node) (p : path) : list string :=
  merge_sort name_le (omap (λ kv : path * node, child_name p kv.1) (map_to_list m)).

(** [os.ReadDir], and the [readDirNames] of [filepath.Walk]: the names. *)
Definition ReadDir (p : path) : M os (list string) :=
  syscall;;
  q ← follow "open" p;
  n ← node_at q;
  match n with
  | Some Dir => syscall;; s ← get; mret (children (os_nodes s) q)
  | Some _ => throw (path_error "readdirent" p "ENOTDIR" "not a directory")
  | None => s ← get; throw (missing "open" (os_nodes s) q)
  end.

Definition Mkdir (p : path) : M os unit :=
  syscall;;
  n ← node_at p;
  d ← node_at (parent p);
  match n, d with
  | Some _, _ => throw (path_error "mkdir" p "EEXIST" "file exists")
  | None, Some Dir => upd_nodes <[p := Dir]>
  | None, _ => s ← get; throw (missing "mkdir" (os_nodes s) p)
  end.

(** [os.MkdirAll] of the first [n] components of [p]; permissions are not
    modelled. *)
Fixpoint mkdir_take (p : path) (n : nat) : M os unit :=
  r ← try (Stat (take n p));
  match r with
  | Ok Dir => mret tt
  | Ok _ => throw (path_error "mkdir" (take n p) "ENOTDIR" "not a directory")
  | Err _ =>
      match n with
      | S (S _ as n') => mkdir_take p n'
      | _ => mret tt
      end;;
      r ← try (Mkdir (take n p));
      match r with
      | Ok _ => mret tt
      | Err e =>
          d ← try (Lstat (take n p));
          match d with Ok Dir => mret tt | _ => throw e end
      end
  end.

Definition MkdirAll (p : path) : M os unit := mkdir_take p (length p).

(** [os.Open] for reading, and the reads up to the end of the file. *)
Definition Open (p : path) : M os path :=
  syscall;;
  q ← follow "open" p;
  n ← node_at q;
  match n with
  | Some _ => mret q
  | None => s ← get; throw (missing "open" (os_nodes s) q)
  end.

Definition ReadAll (h : path) : M os string :=
  syscall;;
  n ← node_at h;
  match n with
  | Some (File c) => mret c
  | _ => throw (path_error "read" h "EISDIR" "is a directory")
  end.

(** [filepath.Rel] for a target at or below the base. *)
Fixpoint Rel (base targ : path) : option path :=
  match base, targ with
  | [], r => Some r
  | b :: base', t :: targ' => if bool_decide (b = t) then Rel base' targ' else None
  | _ :: _, [] => None
  end.

Definition out_of_fuel : goerror := ErrNew "out of fuel".

(** The recursive part of [filepath.Walk], for functions that never return
    [filepath.SkipDir] or [filepath.SkipAll]. *)
Fixpoint walk (fuel : nat) (fn : path → option node → option goerror → M os unit)
    (p : path) (info : node) : M os unit :=
  match fuel with
  | 0 => throw out_of_fuel
  | S fuel' =>
      match info with
      | Dir =>
          names ← try (ReadDir p);
          match names with
          | Err e => fn p (Some info) (Some e)
          | Ok names =>
              fn p (Some info) None;;
              forM names (λ name,
                let filename := GoOS.Join p name in
                fileInfo ← try (Lstat filename);
                match fileInfo with
                | Err e => fn filename None (Some e)
                | Ok fileInfo => walk fuel' fn filename fileInfo
                end)
          end
      | _ => fn p (Some info) None
      end
  end.

(** The depth of a file system: no walk goes deeper. *)
Definition depth (m : gmap path node) : nat := max_list (length <$> (map_to_list m).*1).

Definition Walk (root : path) (fn : path → option node → option goerror → M os unit) : M os unit :=
  s ← get;
  info ← try (Lstat root);
  match info with
  | Err e => fn root None (Some e)
  | Ok info => walk (S (depth (os_nodes s))) fn root info
  end.

(** *** The program *)

(** [io.Copy] is a read of the source and one [Write] of what was read, which
    may stop anywhere. *)
Definition copyFile (src dst : path) : M os unit :=
  inp ← Open src;
  r ← try (
    out ← Create dst;
    r ← try (data ← ReadAll inp; Write out data);
    match r with
    | Err e => try (Close out);; throw e
    | Ok _ => Close out
    end);
  try (Close inp);;
  lift r.

Definition copy_entry (src dst : path) (p : path) (info : option node) (err : option goerror) : M os unit :=
  match err with
  | Some e => throw e
  | None =>
      match info with
      | Some (Symlink _) => mret tt
      | _ =>
          match Rel src p with
          | None => throw (ErrNew ("Rel: can't make " +:+ path_string p +:+ " relative to " +:+ path_string src))
          | Some relPath =>
              let dstPath := dst ++ relPath in
              match info with
              | Some Dir => MkdirAll dstPath
              | _ => copyFile p dstPath
              end
          end
      end
  end.

Definition copyDir (src dst : path) : M os unit := Walk src (copy_entry src dst).

Definition ensureWorkDir (templatePath workPath : path) : M os unit :=
  entries ← try (ReadDir workPath);
  match entries with
  | Ok (_ :: _) => mret tt
  | _ => copyDir templatePath workPath
  end.

(** *** Specification *)

(** A tree of files: a root, and every other node below a directory. *)
Definition wf_tree (m : gmap path node) : Prop :=
  m !! [] = Some Dir ∧ ∀ p name n, m !! (p ++ [name]) = Some n → m !! p = Some Dir.

(** What the copy makes of a node: symbolic links are left out. *)
Definition image (n : option node) : option node :=
  match n with Some (Symlink _) => None | _ => n end.

(** The tree with the copy of [src] at [dst]. *)
Definition with_copy (m : gmap path node) (src dst : path) (q : path) : option node :=
  match Rel dst q with
  | Some rel => image (m !! (src ++ rel))
  | None => if bool_decide (is_Some (Rel q dst)) then Some Dir else m !! q
  end.

(** A copy that must succeed when no system call fails: the source is a
    directory, the target is at most an empty directory, its ancestors are
    directories as far as they exist, and neither is inside the other. *)
Definition copy_ready (m : gmap path node) (src dst : path) : Prop :=
  wf_tree m ∧ m !! src = Some Dir ∧ Rel src dst = None ∧ Rel dst src = None ∧
  (∀ r, m !! (dst ++ r) = None ∨ (r = [] ∧ m !! dst = Some Dir)) ∧
  (∀ q, is_Some (Rel q dst) → m !! q = None ∨ m !! q = Some Dir).

(** ** Lemmas *)

Lemma Rel_app p r : Rel p (p ++ r) = Some r.
Proof. induction p as [|a p IH]; cbn; [done|]. by rewrite bool_decide_eq_true_2. Qed.

Lemma Rel_Some p q r : Rel p q = Some r ↔ q = p ++ r.
Proof.
  split; [|intros ->; apply Rel_app]. revert q. induction p as [|a p IH]; intros q; cbn; [congruence|].
  destruct q as [|b q]; [done|]. case_bool_decide as E; [subst|done]. intros H. by rewrite (IH q).
Qed.

Lemma Rel_None p q : Rel p q = None ↔ ∀ r, q ≠ p ++ r.
Proof.
  split.
  - intros H r ->. by rewrite Rel_app in H.
  - intros H. destruct (Rel p q) as [r|] eqn:E; [|done]. apply Rel_Some in E. by destruct (H r).
Qed.

Lemma parent_snoc p x : parent (p ++ [x]) = p.
Proof. unfold parent. rewrite length_app, Nat.add_sub. by rewrite take_app_length. Qed.

Lemma wf_parent m p r n : wf_tree m → r ≠ [] → m !! (p ++ r) = Some n → m !! p = Some Dir.
Proof.
  intros [_ Hw]. revert n. induction r as [|x r IH] using rev_ind; intros n Hr Hn; [done|].
  rewrite app_assoc in Hn. apply Hw in Hn. destruct (decide (r = [])) as [->|Hne].
  - by rewrite app_nil_r in Hn.
  - by apply (IH Dir).
Qed.

(** *** Quiet runs *)

Definition at_nodes (m : gmap path node) (s : os) : os := set_nodes m s.

Lemma Lstat_quiet p s n : quiet s → os_nodes s !! p = Some n → Lstat p s = (Ok n, s).
Proof.
  intros Hq Hn. unfold Lstat. rewrite (bind_ok _ _ _ _ _ (syscall_quiet s Hq)).
  unfold node_at. munfold. by rewrite Hn.
Qed.

Lemma ReadDir_quiet p s : quiet s → os_nodes s !! p = Some Dir →
  ReadDir p s = (Ok (children (os_nodes s) p), s).
Proof.
  intros Hq Hn. unfold ReadDir. rewrite (bind_ok _ _ _ _ _ (syscall_quiet s Hq)).
  rewrite (bind_ok _ _ _ _ _ (follow_id "open" p s ltac:(congruence))). unfold node_at.
  munfold. rewrite Hn. by rewrite (syscall_quiet s Hq).
Qed.

Lemma Mkdir_quiet p s : quiet s → os_nodes s !! p = None →
  os_nodes s !! parent p = Some Dir →
  Mkdir p s = (Ok tt, set_nodes (<[p := Dir]> (os_nodes s)) s).
Proof.
  intros Hq Hn Hp. unfold Mkdir. rewrite (bind_ok _ _ _ _ _ (syscall_quiet s Hq)).
  unfold node_at. munfold. by rewrite Hn, Hp.
Qed.

Lemma copyFile_quiet src dst s c :
  quiet s → os_nodes s !! src = Some (File c) → os_nodes s !! dst = None →
  os_nodes s !! parent dst = Some Dir →
  copyFile src dst s = (Ok tt, set_nodes (<[dst := File c]> (os_nodes s)) s).
Proof.
  intros Hq Hs Hd Hp. assert (src ≠ dst) as Hne by congruence. unfold copyFile.
  assert (Open src s = (Ok src, s)) as Ho.
  { unfold Open. rewrite (bind_ok _ _ _ _ _ (syscall_quiet s Hq)).
    rewrite (bind_ok _ _ _ _ _ (follow_id "open" src s ltac:(congruence))). unfold node_at.
    munfold. by rewrite Hs. }
  rewrite (bind_ok _ _ _ _ _ Ho).
  set (s1 := set_nodes (<[dst := File EmptyString]> (os_nodes s)) s).
  assert (Create dst s = (Ok dst, s1)) as Hc.
  { unfold Create. rewrite (bind_ok _ _ _ _ _ (syscall_quiet s Hq)).
    rewrite (bind_ok _ _ _ _ _ (follow_id "open" dst s ltac:(congruence))). unfold node_at.
    munfold. by rewrite Hd, Hp. }
  assert (ReadAll src s1 = (Ok c, s1)) as Hr.
  { unfold ReadAll. rewrite (bind_ok _ _ _ _ _ (syscall_quiet s1 Hq)). unfold node_at. munfold.
    cbn. by rewrite lookup_insert_ne, Hs by done. }
  assert (Write dst c s1 = (Ok tt, set_nodes (<[dst := File c]> (os_nodes s)) s)) as Hw.
  { unfold Write, next_fault, append_file, upd_nodes. munfold. cbn. rewrite Hq. cbn.
    unfold set_nodes. cbn. by rewrite alter_insert_eq. }
  unfold try, lift. unfold mbind, M_bind. rewrite Hc, Hr, Hw. unfold Close.
  rewrite !syscall_quiet by done. done.
Qed.

Lemma child_name_Some p q name : child_name p q = Some name ↔ q = p ++ [name].
Proof.
  unfold child_name. split.
  - destruct (last q) as [x|]; [|done]. case_bool_decide; [congruence|done].
  - intros ->. by rewrite last_snoc, bool_decide_eq_true_2.
Qed.

Lemma elem_children m p name : name ∈ children m p ↔ is_Some (m !! (p ++ [name])).
Proof.
  unfold children. rewrite merge_sort_Permutation, list_elem_of_omap. split.
  - intros ([q n] & Hin%elem_of_map_to_list & Hq%child_name_Some). cbn in Hq. subst q. by exists n.
  - intros [n Hn]. exists (p ++ [name], n). split; [by apply elem_of_map_to_list|].
    by apply child_name_Some.
Qed.

Lemma depth_ge m p : is_Some (m !! p) → length p ≤ depth m.
Proof.
  intros [n Hn]. unfold depth. apply max_list_elem_of_le. apply list_elem_of_fmap. exists p.
  split; [done|]. apply list_elem_of_fmap. exists (p, n). split; [done|]. by apply elem_of_map_to_list.
Qed.

(** One more directory below one that is there. *)
Lemma MkdirAll_child p x s : quiet s →
  os_nodes s !! p = Some Dir → os_nodes s !! (p ++ [x]) = None →
  MkdirAll (p ++ [x]) s = (Ok tt, set_nodes (<[p ++ [x] := Dir]> (os_nodes s)) s).
Proof.
  intros Hq Hp Hn. unfold MkdirAll. rewrite length_app. cbn [length]. rewrite Nat.add_1_r.
  assert (take (length p) (p ++ [x]) = p) as Ht by apply take_app_length.
  assert (take (S (length p)) (p ++ [x]) = p ++ [x]) as Ht'
    by (apply take_ge; rewrite length_app; cbn; lia).
  cbn [mkdir_take]. rewrite Ht'. unfold try. unfold mbind, M_bind.
  rewrite (Stat_quiet (p ++ [x])) by (done || congruence). rewrite Hn. cbn [mret M_ret].
  destruct (length p) as [|n] eqn:El; cbn [mret M_ret];
    [by rewrite (Mkdir_quiet (p ++ [x])) by (done || by rewrite parent_snoc)|]. cbn [mkdir_take]. unfold try. unfold mbind, M_bind.
  rewrite Ht, (Stat_quiet p) by (done || congruence). rewrite Hp. cbn [mret M_ret].
  by rewrite (Mkdir_quiet (p ++ [x])) by (done || by rewrite parent_snoc).
Qed.

(** The ancestors of a path, itself included. *)
Lemma ancestor_nil q : is_Some (Rel q []) → q = [].
Proof. intros [r Hr%Rel_Some]. by symmetry in Hr; apply app_eq_nil in Hr as [-> _]. Qed.

Lemma ancestor_snoc q d x : is_Some (Rel q (d ++ [x])) ↔ is_Some (Rel q d) ∨ q = d ++ [x].
Proof.
  split.
  - intros [r Hr%Rel_Some]. destruct r as [|y r _] using rev_ind; [right; by rewrite app_nil_r in Hr|].
    left. rewrite app_assoc in Hr. apply app_inj_tail in Hr as [Hr _]. exists r. by apply Rel_Some.
  - intros [[r Hr%Rel_Some]| ->]; [exists (r ++ [x]); apply Rel_Some; by rewrite app_assoc, <-Hr|].
    exists []. apply Rel_Some. by rewrite app_nil_r.
Qed.

Lemma set_nodes_id s : set_nodes (os_nodes s) s = s.
Proof. by destruct s. Qed.

(** All the directories down to [p]. *)
Lemma mkdir_take_quiet p n s : quiet s → wf_tree (os_nodes s) → n ≤ length p →
  (∀ q, is_Some (Rel q (take n p)) → os_nodes s !! q = None ∨ os_nodes s !! q = Some Dir) →
  ∃ m', mkdir_take p n s = (Ok tt, set_nodes m' s) ∧
    ∀ q, m' !! q = if bool_decide (is_Some (Rel q (take n p))) then Some Dir else os_nodes s !! q.
Proof.
  intros Hq Hw. induction n as [|n IH]; intros Hn Hanc.
  { exists (os_nodes s). split.
    - cbn [mkdir_take]. unfold try. unfold mbind, M_bind. rewrite take_0, (Stat_quiet []);
        [|done|destruct Hw as [Hr _]; congruence]. destruct Hw as [-> _]. by rewrite set_nodes_id.
    - intros q. case_bool_decide as Hr; [|done]. rewrite take_0 in Hr.
      apply ancestor_nil in Hr as ->. apply Hw. }
  destruct (lookup_lt_is_Some_2 p n) as [x Hx]; [lia|].
  pose proof (take_S_r _ _ _ Hx) as Ht. set (d := take n p) in *.
  assert (∀ q, is_Some (Rel q (take (S n) p)) ↔ is_Some (Rel q d) ∨ q = d ++ [x]) as Hpre
    by (intros q; rewrite Ht; apply ancestor_snoc).
  assert (∀ t, os_nodes s !! (d ++ [x]) ≠ Some (Symlink t)) as Hl.
  { intros t. destruct (Hanc (d ++ [x])); [apply Hpre; by right|congruence..]. }
  destruct IH as (m1 & H1 & Hm1); [lia|intros q Hr; apply Hanc, Hpre; by left|].
  cbn [mkdir_take]. rewrite Ht. unfold try. unfold mbind, M_bind. rewrite Stat_quiet by done.
  destruct (Hanc (d ++ [x])) as [Hnone|Hdir]; [apply Hpre; by right| |].
  - rewrite Hnone. exists (<[d ++ [x] := Dir]> m1). split.
    + assert (Mkdir (d ++ [x]) (set_nodes m1 s) = (Ok tt, set_nodes (<[d ++ [x] := Dir]> m1) s)) as Hmk.
      { rewrite Mkdir_quiet; [done|done| |].
        - cbn. rewrite Hm1, bool_decide_eq_false_2; [done|]. intros [r Hr%Rel_Some].
          apply (f_equal length) in Hr. rewrite !length_app in Hr. cbn in Hr. lia.
        - cbn. rewrite parent_snoc, Hm1, bool_decide_eq_true_2; [done|].
          exists []. apply Rel_Some. by rewrite app_nil_r. }
      destruct n as [|n'].
      * cbn in H1. cbn [mret M_ret].
        assert (m1 = os_nodes s) as ->.
        { apply map_eq. intros q. rewrite Hm1. case_bool_decide as Hr; [|done].
          apply ancestor_nil in Hr as ->. symmetry. apply Hw. }
        rewrite set_nodes_id in Hmk. by rewrite Hmk.
      * rewrite H1. cbn [fst snd]. by rewrite Hmk.
    + intros q. destruct (decide (q = d ++ [x])) as [->|Hq'].
      * rewrite lookup_insert_eq, bool_decide_eq_true_2; [done|]. exists []. apply Rel_Some. by rewrite app_nil_r.
      * rewrite lookup_insert_ne, Hm1 by done. rewrite <-Ht.
        rewrite (bool_decide_ext (is_Some (Rel q (take (S n) p))) (is_Some (Rel q d))); [done|].
        rewrite Hpre. naive_solver.
  - rewrite Hdir. exists (os_nodes s). split; [by rewrite set_nodes_id|]. intros q. case_bool_decide as Hr; [|done].
    destruct Hr as [r Hr%Rel_Some]. destruct (decide (r = [])) as [->|Hrne].
    + rewrite app_nil_r in Hr. by subst q.
    + rewrite Hr in Hdir. by apply wf_parent in Hdir.
Qed.

(** A walk into a directory that can be read. *)
Lemma walk_entries fuel fn p s names :
  ReadDir p s = (Ok names, s) →
  walk (S fuel) fn p Dir s =
  (fn p (Some Dir) None;;
   forM names (λ name,
     let filename := GoOS.Join p name in
     fileInfo ← try (Lstat filename);
     match fileInfo with
     | Err e => fn filename None (Some e)
     | Ok fileInfo => walk fuel fn filename fileInfo
     end)) s.
Proof. intros H. cbn [walk]. unfold try. unfold mbind, M_bind. by rewrite H. Qed.

Lemma walk_leaf fuel fn p n s : n ≠ Dir → walk (S fuel) fn p n s = fn p (Some n) None s.
Proof. by destruct n. Qed.

Lemma Rel_self p : Rel p p = Some [].
Proof. apply Rel_Some. by rewrite app_nil_r. Qed.

(** *** The walk, on a tree that is copied elsewhere *)

Section copy.
Context (m0 : gmap path node) (src dst : path).
Hypothesis (Hwf : wf_tree m0) (Hsd : Rel src dst = None) (Hds : Rel dst src = None).

(** The source is as it was. *)
Definition intact (m : gmap path node) : Prop := ∀ r, m !! (src ++ r) = m0 !! (src ++ r).

(** The children of [rel] in [d] are copied, and nothing else is below it. *)
Definition copied_below (rel : path) (d : list string) (m m' : gmap path node) : Prop := ∀ q,
  m' !! q = match Rel (dst ++ rel) q with
            | Some (x :: r) => if bool_decide (x ∈ d) then image (m0 !! (src ++ rel ++ x :: r)) else None
            | _ => m !! q
            end.

(** The node at [rel] and all below it are copied. *)
Definition copied_at (rel : path) (m m' : gmap path node) : Prop := ∀ q,
  m' !! q = match Rel (dst ++ rel) q with
            | Some r => image (m0 !! (src ++ rel ++ r))
            | None => m !! q
            end.

Lemma disjoint r r' : src ++ r ≠ dst ++ r'.
Proof.
  intros H. rewrite Rel_None in Hsd, Hds.
  destruct (decide (length src ≤ length dst)) as [Hl|Hl].
  - apply (Hsd (drop (length src) dst)). rewrite <-(take_drop (length src) dst) at 1. f_equal.
    apply (f_equal (take (length src))) in H.
    by rewrite take_app_length, take_app_le in H.
  - apply (Hds (drop (length dst) src)). rewrite <-(take_drop (length dst) src) at 1. f_equal.
    apply (f_equal (take (length dst))) in H.
    rewrite take_app_length, take_app_le in H by lia. done.
Qed.

Lemma Rel_src rel r : Rel (dst ++ rel) (src ++ r) = None.
Proof. apply Rel_None. intros r' H. rewrite <-app_assoc in H. by apply disjoint in H. Qed.

Lemma copied_below_intact rel d m m' : intact m → copied_below rel d m m' → intact m'.
Proof. intros Hm H r. by rewrite H, Rel_src. Qed.

Lemma copied_at_intact rel m m' : intact m → copied_at rel m m' → intact m'.
Proof. intros Hm H r. by rewrite H, Rel_src. Qed.

(** Nothing below [rel] in the target. *)
Definition fresh (rel : path) (m : gmap path node) : Prop :=
  ∀ x r, m !! (dst ++ rel ++ x :: r) = None.

Lemma Rel_child rel x q :
  Rel (dst ++ rel ++ [x]) q =
  match Rel (dst ++ rel) q with Some (y :: r) => if bool_decide (x = y) then Some r else None | _ => None end.
Proof.
  destruct (Rel (dst ++ rel) q) as [[|y r]|] eqn:E.
  - apply Rel_Some in E as ->. apply Rel_None. intros r H. rewrite app_nil_r in H.
    apply (f_equal length) in H. rewrite !length_app in H. cbn in H. lia.
  - apply Rel_Some in E as ->. case_bool_decide as Hx.
    + subst y. apply Rel_Some. by rewrite <-!app_assoc.
    + apply Rel_None. intros r' H. rewrite <-!app_assoc in H. do 2 apply app_inv_head in H. cbn in H. congruence.
  - rewrite Rel_None in *. intros r ->. apply (E (x :: r)). by rewrite <-!app_assoc.
Qed.

(** The copy of one more child. *)
Lemma copied_step rel d x m m1 m2 :
  copied_below rel d m m1 → copied_at (rel ++ [x]) m1 m2 → copied_below rel (d ++ [x]) m m2.
Proof.
  intros H1 H2 q. rewrite H2, Rel_child, H1. destruct (Rel (dst ++ rel) q) as [[|y r]|] eqn:E; try done.
  destruct (decide (x = y)) as [->|Hne].
  - rewrite !bool_decide_eq_true_2 by set_solver. by rewrite <-app_assoc.
  - rewrite (bool_decide_eq_false_2 (x = y)) by done.
    by rewrite (bool_decide_ext (y ∈ d ++ [x]) (y ∈ d)) by set_solver.
Qed.

(** Directories without a child in the source have no node below it. *)
Lemma copied_all rel m m' : copied_below rel (children m0 (src ++ rel)) m m' →
  m0 !! (src ++ rel) = Some Dir → m !! (dst ++ rel) = Some Dir → copied_at rel m m'.
Proof.
  intros H Hd Ht q. rewrite H. destruct (Rel (dst ++ rel) q) as [[|x r]|] eqn:E; [| |done].
  - apply Rel_Some in E as ->. by rewrite !app_nil_r, Hd, Ht.
  - case_bool_decide as Hx; [done|]. rewrite elem_children in Hx.
    destruct (m0 !! (src ++ rel ++ x :: r)) as [n|] eqn:En; [|done]. exfalso. apply Hx.
    destruct (decide (r = [])) as [->|Hr]; [exists n; by rewrite <-app_assoc|].
    exists Dir. eapply (wf_parent _ _ r); [done|done|]. by rewrite <-!app_assoc.
Qed.

Lemma image_leaf rel x r n : m0 !! (src ++ rel) = Some n → n ≠ Dir → m0 !! (src ++ rel ++ x :: r) = None.
Proof.
  intros Hn Hne. destruct (m0 !! (src ++ rel ++ x :: r)) as [n'|] eqn:E; [|done].
  rewrite app_assoc in E. apply wf_parent in E; [congruence|done|done].
Qed.

(** What a walk of the source does, when no system call fails. *)
Definition walk_ok (fuel : nat) : Prop := ∀ rel x info s,
  quiet s → intact (os_nodes s) → m0 !! (src ++ rel ++ [x]) = Some info →
  depth m0 < fuel + length (src ++ rel ++ [x]) →
  os_nodes s !! (dst ++ rel) = Some Dir → fresh (rel ++ [x]) (os_nodes s) →
  os_nodes s !! (dst ++ rel ++ [x]) = None →
  ∃ m', walk fuel (copy_entry src dst) (src ++ rel ++ [x]) info s = (Ok tt, set_nodes m' s) ∧
    copied_at (rel ++ [x]) (os_nodes s) m'.

(** The loop over the entries of a directory. *)
Lemma walk_children fuel rel s (names : list string) :
  walk_ok fuel → quiet s → intact (os_nodes s) →
  depth m0 < S fuel + length (src ++ rel) →
  os_nodes s !! (dst ++ rel) = Some Dir → fresh rel (os_nodes s) →
  (∀ x, x ∈ names → is_Some (m0 !! (src ++ rel ++ [x]))) → NoDup names →
  ∃ m', forM names (λ name,
      let filename := GoOS.Join (src ++ rel) name in
      fileInfo ← try (Lstat filename);
      match fileInfo with
      | Err e => copy_entry src dst filename None (Some e)
      | Ok fileInfo => walk fuel (copy_entry src dst) filename fileInfo
      end) s = (Ok tt, set_nodes m' s) ∧ copied_below rel names (os_nodes s) m'.
Proof.
  intros Hw Hq Hi Hf Hd Hfr. set (body := λ name : string, _).
  cut (∀ l d m1, names = d ++ l → copied_below rel d (os_nodes s) m1 →
    (∀ x, x ∈ names → is_Some (m0 !! (src ++ rel ++ [x]))) → NoDup names →
    ∃ m', forM l body (set_nodes m1 s) = (Ok tt, set_nodes m' s) ∧ copied_below rel names (os_nodes s) m').
  { intros Hc Hn Hnd. destruct (Hc names [] (os_nodes s)) as (m' & H1 & H2); try done.
    - intros q. destruct (Rel (dst ++ rel) q) as [[|x r]|] eqn:E; try done.
      apply Rel_Some in E as ->. rewrite <-app_assoc. by rewrite Hfr.
    - exists m'. by rewrite set_nodes_id in H1. }
  intros l. induction l as [|x l IH]; intros d m1 Hl Hb Hn Hnd.
  { rewrite app_nil_r in Hl. subst d. by exists m1. }
  assert (intact m1) as Hi1 by by eapply copied_below_intact.
  destruct (Hn x) as [n Hx]; [rewrite Hl; set_solver|].
  assert (∀ r, m1 !! (dst ++ rel ++ x :: r) = None) as Hnone.
  { intros r. rewrite Hb, app_assoc, Rel_app. rewrite bool_decide_eq_false_2; [done|].
    rewrite Hl in Hnd. apply list.NoDup_app in Hnd as (_ & Hnd & _). intros Hx'.
    apply (Hnd x Hx'). by left. }
  destruct (Hw rel x n (set_nodes m1 s)) as (m2 & H2 & Hc2); cbn; try done.
  - rewrite !length_app in *. cbn. lia.
  - by rewrite Hb, Rel_self.
  - intros y r. rewrite <-app_assoc. apply Hnone.
  - destruct (IH (d ++ [x]) m2) as (m' & H' & Hb'); try done.
    + by rewrite <-app_assoc.
    + by eapply copied_step.
    + exists m'. split; [|done]. assert (body x (set_nodes m1 s) = (Ok tt, set_nodes m2 s)) as Hbody.
      { unfold body, try, GoOS.Join. unfold mbind, M_bind.
        rewrite (Lstat_quiet _ _ n); [|done|cbn; rewrite <-app_assoc; by rewrite Hi1].
        by rewrite <-app_assoc. }
      unfold mbind, M_bind. by rewrite Hbody.
Qed.

Lemma copy_entry_rel rel info :
  copy_entry src dst (src ++ rel) (Some info) None =
  match info with
  | Symlink _ => mret tt
  | Dir => MkdirAll (dst ++ rel)
  | File _ => copyFile (src ++ rel) (dst ++ rel)
  end.
Proof. unfold copy_entry. rewrite Rel_app. by destruct info. Qed.

Lemma children_NoDup m p : NoDup (children m p).
Proof.
  unfold children. rewrite merge_sort_Permutation.
  pose proof (NoDup_fst_map_to_list m) as Hk. induction (map_to_list m) as [|[q n] l IH]; cbn; [constructor|].
  apply list.NoDup_cons in Hk as [Hq Hk]. destruct (child_name p q) as [x|] eqn:E; [|by apply IH].
  apply list.NoDup_cons. split; [|by apply IH]. intros Hx. apply list_elem_of_omap in Hx as ([q' n'] & Hin & Hc).
  cbn in Hc. apply child_name_Some in E, Hc. apply Hq. rewrite E, <-Hc. cbn.
  apply list_elem_of_fmap. by exists (q', n').
Qed.

Lemma children_intact rel m : intact m → ∀ x, x ∈ children m (src ++ rel) ↔ x ∈ children m0 (src ++ rel).
Proof. intros Hi x. rewrite !elem_children, <-!app_assoc. by rewrite Hi. Qed.

(** A directory that is there, with nothing below its copy. *)
Lemma walk_dir fuel rel m1 s :
  walk_ok fuel → quiet s → intact (os_nodes s) →
  m0 !! (src ++ rel) = Some Dir → depth m0 < S fuel + length (src ++ rel) →
  MkdirAll (dst ++ rel) s = (Ok tt, set_nodes m1 s) → intact m1 →
  m1 !! (dst ++ rel) = Some Dir → fresh rel m1 →
  ∃ m', walk (S fuel) (copy_entry src dst) (src ++ rel) Dir s = (Ok tt, set_nodes m' s) ∧
    copied_at rel m1 m'.
Proof.
  intros Hw Hq Hi Hd Hf Hmk Hi1 Hd1 Hfr.
  destruct (walk_children fuel rel (set_nodes m1 s) (children (os_nodes s) (src ++ rel)))
    as (m' & Hrun & Hc); try done.
  - intros x Hx. apply children_intact in Hx; [|done]. apply elem_children in Hx. by rewrite <-app_assoc in Hx.
  - apply children_NoDup.
  - exists m'. split.
    + rewrite (walk_entries _ _ _ s (children (os_nodes s) (src ++ rel)))
        by (apply ReadDir_quiet; [done|by rewrite Hi]).
      rewrite (bind_ok _ _ s tt (set_nodes m1 s)); [exact Hrun|]. by rewrite copy_entry_rel.
    + apply copied_all; [|done|done]. intros q. rewrite (Hc q). cbn.
      destruct (Rel (dst ++ rel) q) as [[|x r]|]; try done.
      by rewrite (bool_decide_ext (x ∈ children (os_nodes s) (src ++ rel)) (x ∈ children m0 (src ++ rel)))
        by by apply children_intact.
Qed.

Lemma walk_copies fuel : walk_ok fuel.
Proof.
  induction fuel as [|fuel IH]; intros rel x info s Hq Hi Hx Hf Hd Hfr Hnone.
  { pose proof (depth_ge m0 (src ++ rel ++ [x]) (ltac:(by eexists))). lia. }
  destruct info as [c| |t].
  - exists (<[dst ++ rel ++ [x] := File c]> (os_nodes s)). split.
    + rewrite walk_leaf, copy_entry_rel by done. apply copyFile_quiet; [done|by rewrite Hi|done|].
      by rewrite app_assoc, parent_snoc.
    + intros q. destruct (Rel (dst ++ rel ++ [x]) q) as [r|] eqn:E.
      * apply Rel_Some in E as ->. destruct r as [|y r].
        { by rewrite !app_nil_r, lookup_insert_eq, Hx. }
        rewrite (image_leaf _ _ _ _ Hx) by done. rewrite lookup_insert_ne.
        { rewrite <-app_assoc. apply Hfr. }
        intros H. apply (f_equal length) in H. rewrite !length_app in H. cbn in H. lia.
      * rewrite lookup_insert_ne; [done|]. intros <-. by rewrite Rel_self in E.
  - edestruct (walk_dir fuel (rel ++ [x]) (<[dst ++ rel ++ [x] := Dir]> (os_nodes s)) s)
      as (m' & Hrun & Hc); try done.
    + rewrite app_assoc. by apply MkdirAll_child; [|done|rewrite <-app_assoc].
    + intros r. rewrite lookup_insert_ne; [apply Hi|]. intros H. symmetry in H. by apply disjoint in H.
    + by rewrite lookup_insert_eq.
    + intros y r. rewrite lookup_insert_ne; [apply Hfr|]. intros H. apply (f_equal length) in H.
      rewrite !length_app in H. cbn in H. lia.
    + exists m'. split; [done|]. intros q. rewrite (Hc q).
      destruct (Rel (dst ++ rel ++ [x]) q) as [r|] eqn:E; [done|].
      rewrite lookup_insert_ne; [done|]. intros <-. by rewrite Rel_self in E.
  - exists (os_nodes s). split; [rewrite walk_leaf, copy_entry_rel by done; by rewrite set_nodes_id|].
    intros q. destruct (Rel (dst ++ rel ++ [x]) q) as [r|] eqn:E; [|done].
    apply Rel_Some in E as ->. destruct r as [|y r]; [by rewrite !app_nil_r, Hx|].
    rewrite (image_leaf _ _ _ _ Hx) by done. rewrite <-app_assoc. apply Hfr.
Qed.

End copy.

Lemma copyDir_run s src dst : quiet s → copy_ready (os_nodes s) src dst →
  ∃ m', copyDir src dst s = (Ok tt, set_nodes m' s) ∧ ∀ q, m' !! q = with_copy (os_nodes s) src dst q.
Proof.
  intros Hq (Hw & Hs & Hsd & Hds & Hfr & Hanc).
  destruct (mkdir_take_quiet dst (length dst) s) as (m1 & Hmk & Hm1); [done|done|done| |].
  { rewrite firstn_all. apply Hanc. }
  rewrite firstn_all in Hm1. change (MkdirAll dst s = (Ok tt, set_nodes m1 s)) in Hmk.
  assert (∀ q, Rel q dst = None → m1 !! q = os_nodes s !! q) as Hother.
  { intros q Hn. rewrite Hm1, bool_decide_eq_false_2; [done|]. rewrite Hn. by intros []. }
  destruct (walk_dir (os_nodes s) src dst Hw Hsd Hds (depth (os_nodes s)) [] m1 s) as (m' & Hrun & Hc).
  - by apply walk_copies.
  - done.
  - done.
  - by rewrite app_nil_r.
  - lia.
  - by rewrite app_nil_r.
  - intros r. apply Hother. apply Rel_None. intros r' H. rewrite Rel_None in Hsd.
    apply (Hsd (r ++ r')). by rewrite app_assoc.
  - rewrite app_nil_r, Hm1, bool_decide_eq_true_2; [done|]. by rewrite Rel_self.
  - intros x r. cbn. rewrite Hother; [destruct (Hfr (x :: r)) as [|[? _]]; done|].
    apply Rel_None. intros r' H. apply (f_equal length) in H. rewrite !length_app in H. cbn in H. lia.
  - exists m'. rewrite app_nil_r in Hrun. split.
    + unfold copyDir, Walk, get, try. unfold mbind, M_bind.
      rewrite (Lstat_quiet src s Dir) by done. exact Hrun.
    + intros q. rewrite (Hc q), app_nil_r. unfold with_copy. destruct (Rel dst q); [done|apply Hm1].
Qed.

Lemma ensureWorkDir_run s template work : quiet s → copy_ready (os_nodes s) template work →
  ∃ m', ensureWorkDir template work s = (Ok tt, set_nodes m' s) ∧
    ∀ q, m' !! q = with_copy (os_nodes s) template work q.
Proof.
  intros Hquiet Hready.
  destruct (copyDir_run s template work Hquiet Hready) as (m' & Hrun & Hm).
  exists m'. split; [|done]. destruct Hready as (_ & _ & _ & _ & Hfr & _).
  unfold ensureWorkDir, try. unfold mbind, M_bind. pose proof (Hfr []) as H0. rewrite app_nil_r in H0.
  destruct H0 as [Hnone|[_ Hdir]].
  - assert (ReadDir work s = (Err (missing "open" (os_nodes s) work), s)) as ->; [|done].
    unfold ReadDir. rewrite (bind_ok _ _ _ _ _ (syscall_quiet s Hquiet)).
    rewrite (bind_ok _ _ _ _ _ (follow_id "open" work s ltac:(congruence))). unfold node_at.
    munfold. by rewrite Hnone.
  - rewrite ReadDir_quiet by done. destruct (children (os_nodes s) work) as [|x l] eqn:E; [done|].
    assert (x ∈ children (os_nodes s) work) as [n Hn]%elem_children by (rewrite E; by left).
    by destruct (Hfr [x]) as [|[? _]]; [congruence|].
Qed.

Lemma ensureWorkDir_kept s template work name : quiet s → os_nodes s !! work = Some Dir →
  is_Some (os_nodes s !! (work ++ [name])) → ensureWorkDir template work s = (Ok tt, s).
Proof.
  intros Hquiet Hwork Hentry.
  unfold ensureWorkDir, try. unfold mbind, M_bind. rewrite ReadDir_quiet by done.
  destruct (children (os_nodes s) work) as [|x l] eqn:E; [|done].
  apply elem_children in Hentry. rewrite E in Hentry. by apply elem_of_nil in Hentry.
Qed.

(** ** Properties *)

(** C19: Copying a template tree succeeds whenever no system call fails and the
    target can be there: every file and directory of the template is then at
    its place in the target with its content, symbolic links are left out, the
    missing ancestors of the target are made, and no other file changes.  The
    walk ends on every finite tree. *)
Theorem copyDir_copies (src dst : path) (s : os) (Hquiet : quiet s)
    (Hready : copy_ready (os_nodes s) src dst) :
  ∃ s', copyDir src dst s = (Ok tt, s') ∧ os_env s' = os_env s ∧
    ∀ q, os_nodes s' !! q = with_copy (os_nodes s) src dst q.
Proof.
  destruct (copyDir_run s src dst Hquiet Hready) as (m' & -> & Hm).
  by exists (set_nodes m' s).
Qed.

(** The first preparation of a work directory, absent or empty, copies the
    whole template into it. *)
Theorem ensureWorkDir_first (template work : path) (s : os) (Hquiet : quiet s)
    (Hready : copy_ready (os_nodes s) template work) :
  ∃ s', ensureWorkDir template work s = (Ok tt, s') ∧
    ∀ q, os_nodes s' !! q = with_copy (os_nodes s) template work q.
Proof.
  destruct (ensureWorkDir_run s template work Hquiet Hready) as (m' & -> & Hm). by exists (set_nodes m' s).
Qed.

(** A work directory with an entry is taken as prepared whatever it holds:
    nothing is copied and nothing is compared with the template.  In
    particular, when a first preparation failed after it had copied something,
    every later one succeeds and leaves the copy incomplete. *)
Theorem ensureWorkDir_keeps (template work : path) (s : os) (name : string)
    (Hquiet : quiet s) (Hwork : os_nodes s !! work = Some Dir)
    (Hentry : is_Some (os_nodes s !! (work ++ [name]))) :
  ensureWorkDir template work s = (Ok tt, s).
Proof. by apply (ensureWorkDir_kept s template work name). Qed.

(** *** Witnesses *)

Definition ex_template : path := ["opt"; "manifests"].
Definition ex_work : path := ["tmp"; "work"; "manifests"].

Definition ex_tree : gmap path node := list_to_map
  [([], Dir); (["opt"], Dir); (["tmp"], Dir); (ex_template, Dir);
   (ex_template ++ ["base.yaml"], File "base"); (ex_template ++ ["link"], Symlink ["etc"]);
   (ex_template ++ ["rhoai"], Dir); (ex_template ++ ["rhoai"; "params.env"], File "image=x")].

Definition ex_disk : os := OS ex_tree ∅ [].

Lemma wf_tree_dec m : wf_tree m ↔ m !! [] = Some Dir ∧
  map_Forall (λ q _, q = [] ∨ m !! parent q = Some Dir) m.
Proof.
  split; intros [Hr Hw]; (split; [done|]).
  - intros q n Hn. destruct q as [|x q _] using rev_ind; [by left|]. right. rewrite parent_snoc. by eapply Hw.
  - intros p name n Hn. destruct (Hw _ _ Hn) as [H|H]; [by destruct p|]. by rewrite parent_snoc in H.
Qed.

Lemma ex_ready : copy_ready ex_tree ex_template ex_work.
Proof.
  split_and!.
  - apply wf_tree_dec. split; [done|]. apply (bool_decide_unpack _). by vm_compute.
  - done.
  - done.
  - done.
  - intros r. left. apply eq_None_not_Some. intros [n Hn].
    assert (map_Forall (λ q _, Rel ex_work q = None) ex_tree) as Hall
      by (apply (bool_decide_unpack _); by vm_compute).
    apply Hall in Hn. by rewrite Rel_app in Hn.
  - intros q [r Hr%Rel_Some].
    assert (q ∈ [[]; ["tmp"]; ["tmp"; "work"]; ex_work]) as Hq.
    { unfold ex_work in *. destruct q as [|a [|b [|c [|d q]]]]; cbn in Hr; simplify_eq; set_solver. }
    repeat (apply elem_of_cons in Hq as [->|Hq]; [by vm_compute; (left + right)|]).
    by apply elem_of_nil in Hq.
Qed.

Lemma copyDir_copies_witness :
  ∃ s', copyDir ex_template ex_work ex_disk = (Ok tt, s') ∧
    os_nodes s' !! (ex_work ++ ["rhoai"; "params.env"]) = Some (File "image=x") ∧
    os_nodes s' !! (ex_work ++ ["link"]) = None.
Proof.
  destruct (copyDir_copies ex_template ex_work ex_disk eq_refl ex_ready) as (s' & Hrun & _ & Hn).
  exists s'. split; [exact Hrun|]. rewrite !Hn. split; reflexivity.
Defined.

Lemma ensureWorkDir_first_witness :
  ∃ s', ensureWorkDir ex_template ex_work ex_disk = (Ok tt, s') ∧
    os_nodes s' !! (ex_work ++ ["base.yaml"]) = Some (File "base").
Proof.
  destruct (ensureWorkDir_first ex_template ex_work ex_disk eq_refl ex_ready) as (s' & Hrun & Hn).
  exists s'. split; [exact Hrun|]. rewrite Hn. reflexivity.
Defined.

(** The disk fills up while the second file is copied. *)
Definition ex_full_disk : os :=
  set_faults (replicate 26 None ++ [Some (Fault (ErrForeign "ENOSPC" "no space left on device") 0)]) ex_disk.

Definition ex_partial : os := set_faults [] (ensureWorkDir ex_template ex_work ex_full_disk).2.

Lemma ensureWorkDir_keeps_witness :
  (ensureWorkDir ex_template ex_work ex_full_disk).1 =
    Err (ErrForeign "ENOSPC" "no space left on device") ∧
  ensureWorkDir ex_template ex_work ex_partial = (Ok tt, ex_partial) ∧
  os_nodes ex_partial !! (ex_work ++ ["rhoai"; "params.env"]) = Some (File "").
Proof.
  split; [by vm_compute|]. split; [|by vm_compute].
  assert (os_nodes ex_partial !! (ex_work ++ ["base.yaml"]) = Some (File "base")) as Hb by by vm_compute.
  apply (ensureWorkDir_keeps ex_template ex_work ex_partial "base.yaml");
    [by vm_compute|by vm_compute|by rewrite Hb].
Defined.
