(* ===== verification/CopySafety.v ===== *)
(** The copy of a template under every failure of a system call: the walk ends,
    with the run of the unbounded recursion, and nothing outside the target is
    touched. *)

From S2P Require Import Prelude GoStrings GoOS Params Workdir.
Open Scope string_scope.
Open Scope nat_scope.
Open Scope list_scope.

(** ** Specification *)

(** *** The recursion of [filepath.Walk], without fuel *)

Section walked.
Context (fn : path → option node → option goerror → M os unit).

(** [walked p n s r s']: the walk of the node [n] at [p] ends, with the result [r]
    and in the state [s'].  [visited] is the loop over the names in [p]. *)
Inductive walked : path → node → os → result unit → os → Prop :=
| walked_leaf p n s r s' :
    n ≠ Dir → fn p (Some n) None s = (r, s') → walked p n s r s'
| walked_unreadable p s e s1 r s' :
    ReadDir p s = (Err e, s1) → fn p (Some Dir) (Some e) s1 = (r, s') → walked p Dir s r s'
| walked_refused p s names s1 e s' :
    ReadDir p s = (Ok names, s1) → fn p (Some Dir) None s1 = (Err e, s') → walked p Dir s (Err e) s'
| walked_dir p s names s1 s2 r s' :
    ReadDir p s = (Ok names, s1) → fn p (Some Dir) None s1 = (Ok tt, s2) →
    visited p names s2 r s' → walked p Dir s r s'
with visited : path → list string → os → result unit → os → Prop :=
| visited_nil p s : visited p [] s (Ok tt) s
| visited_missing p x names s e s1 r1 s2 r s' :
    Lstat (GoOS.Join p x) s = (Err e, s1) → fn (GoOS.Join p x) None (Some e) s1 = (r1, s2) →
    visited_rest p names r1 s2 r s' → visited p (x :: names) s r s'
| visited_node p x names s n s1 r1 s2 r s' :
    Lstat (GoOS.Join p x) s = (Ok n, s1) → walked (GoOS.Join p x) n s1 r1 s2 →
    visited_rest p names r1 s2 r s' → visited p (x :: names) s r s'
with visited_rest : path → list string → result unit → os → result unit → os → Prop :=
| rest_stop p names e s : visited_rest p names (Err e) s (Err e) s
| rest_go p names s r s' : visited p names s r s' → visited_rest p names (Ok tt) s r s'.

End walked.

(** The whole of [copyDir]. *)
Definition copies (src dst : path) (s : os) (r : result unit) (s' : os) : Prop :=
  match Lstat src s with
  | (Err e, s1) => copy_entry src dst src None (Some e) s1 = (r, s')
  | (Ok n, s1) => walked (copy_entry src dst) src n s1 r s'
  end.

(** *** Containment *)

(** From [s0] on, only what is at or below [dst] has changed, but for ancestors of
    [dst] that were made; and no symbolic link is at or below [dst]. *)
Definition contained (dst : path) (s0 s : os) : Prop :=
  os_env s = os_env s0 ∧
  (∀ q, Rel dst q = None → os_nodes s !! q = os_nodes s0 !! q ∨
     (is_Some (Rel q dst) ∧ os_nodes s0 !! q = None ∧ os_nodes s !! q = Some Dir)) ∧
  (∀ r t, os_nodes s !! (dst ++ r) ≠ Some (Symlink t)).

(** A copy that is confined: neither tree is in the other, and the target has no
    symbolic links. *)
Definition separate (m : gmap path node) (src dst : path) : Prop :=
  Rel src dst = None ∧ Rel dst src = None ∧ ∀ r t, m !! (dst ++ r) ≠ Some (Symlink t).

(** ** Lemmas *)

(** A step that changes nothing. *)
Ltac stays := intros; assumption || (let H := fresh in intros H; exact H) || (intros ? H; exact H).

Section contained.
Context (s0 : os) (dst : path).

Definition keeps (s s' : os) : Prop := contained dst s0 s → contained dst s0 s'.

#[export] Instance keeps_refl : Reflexive keeps.
Proof. stays. Qed.
#[export] Instance keeps_trans : Transitive keeps.
Proof. intros s1 s2 s3 H1 H2 H. by apply H2, H1. Qed.

Lemma frame_keeps {A} (m : M os A) : preserves (frame []) m → preserves keeps m.
Proof.
  intros Hm s (He & Hn & Hl). destruct (Hm s) as [He' Hn'].
  assert (∀ q, os_nodes (m s).2 !! q = os_nodes s !! q) as E by (intros q; apply Hn', not_elem_of_nil).
  split_and!; [congruence| |].
  - intros q Hq. rewrite E. by apply Hn.
  - intros r t. rewrite E. apply Hl.
Qed.

(** A change below the target that makes no link. *)
Lemma upd_keeps f r : (∀ q m, q ≠ dst ++ r → (f m : gmap path node) !! q = m !! q) →
  (∀ m t, m !! (dst ++ r) ≠ Some (Symlink t) → f m !! (dst ++ r) ≠ Some (Symlink t)) →
  preserves keeps (upd_nodes f).
Proof.
  intros Ho Hs s (He & Hn & Hl). cbn. split_and!; [done| |]; cbn.
  - intros q Hq. rewrite Ho; [by apply Hn|]. intros ->. by rewrite Rel_app in Hq.
  - intros r' t. destruct (decide (dst ++ r' = dst ++ r)) as [->|Hne]; [apply Hs, Hl|rewrite Ho; [apply Hl|done]].
Qed.

Lemma insert_keeps r n : (∀ t, n ≠ Symlink t) → preserves keeps (upd_nodes <[dst ++ r := n]>).
Proof.
  intros Hn. apply (upd_keeps _ r).
  - intros q m Hq. by apply lookup_insert_ne.
  - intros m t _. rewrite lookup_insert_eq. intros [= E]. by apply (Hn t).
Qed.

Lemma append_keeps r d : preserves keeps (append_file (dst ++ r) d).
Proof.
  apply (upd_keeps _ r).
  - intros q m Hq. by apply lookup_alter_ne.
  - intros m t Ht. rewrite lookup_alter_eq. destruct (m !! (dst ++ r)) as [[]|]; by cbn.
Qed.

Lemma Write_keeps r d : preserves keeps (Write (dst ++ r) d).
Proof.
  apply preserves_bind; [apply _|apply frame_keeps; auto with trainer|]. intros [f|]; [|apply append_keeps].
  apply preserves_bind; [apply _|apply append_keeps|]. intros []. stays.
Qed.

Lemma Lstat_keeps p : preserves keeps (Lstat p).
Proof.
  apply frame_keeps. apply preserves_bind; [apply _|auto with trainer|]. intros [] s.
  unfold node_at. unfold mbind, M_bind. by destruct (os_nodes s !! p).
Qed.

(** A directory made at an ancestor of the target, or below it. *)
Lemma Mkdir_keeps p : is_Some (Rel p dst) ∨ is_Some (Rel dst p) → preserves keeps (Mkdir p).
Proof.
  intros Hp. apply preserves_bind; [apply _|apply frame_keeps; auto with trainer|]. intros [] s.
  unfold node_at, upd_nodes, modify. unfold mbind, M_bind. cbn [fst snd].
  destruct (os_nodes s !! p) as [n|] eqn:E; cbn; [stays|].
  destruct (os_nodes s !! parent p) as [[]|]; cbn; try (stays).
  intros (He & Hn & Hl). split_and!; [done| |]; cbn.
  - intros q Hq. destruct (decide (q = p)) as [->|Hne]; [|rewrite lookup_insert_ne by done; by apply Hn].
    right. destruct Hp as [Hp|[r Hp]]; [|by rewrite Hp in Hq]. rewrite lookup_insert_eq. split_and!; [done| |done].
    destruct (Hn p Hq) as [H|(_ & H & _)]; [by rewrite <-H|done].
  - intros r t. destruct (decide (dst ++ r = p)) as [->|Hne]; [by rewrite lookup_insert_eq|].
    rewrite lookup_insert_ne by done. apply Hl.
Qed.

Lemma prefix_of_below rel n : is_Some (Rel (take n (dst ++ rel)) dst) ∨ is_Some (Rel dst (take n (dst ++ rel))).
Proof.
  destruct (decide (n ≤ length dst)) as [Hn|Hn].
  - left. exists (drop n dst). apply Rel_Some. rewrite take_app_le by done. by rewrite take_drop.
  - right. exists (take (n - length dst) rel). apply Rel_Some. rewrite take_app. f_equal. apply take_ge. lia.
Qed.

Lemma mkdir_take_keeps rel n : preserves keeps (mkdir_take (dst ++ rel) n).
Proof.
  assert (∀ k, preserves keeps (r ← try (Mkdir (take k (dst ++ rel)));
    match r with
    | Ok _ => mret tt
    | Err e => d ← try (Lstat (take k (dst ++ rel))); match d with Ok Dir => mret tt | _ => throw e end
    end)) as Hend.
  { intros k. apply preserves_bind; [apply _|apply preserves_try, Mkdir_keeps, prefix_of_below|].
    intros [[]|e]; [stays|]. apply preserves_bind; [apply _|apply preserves_try, Lstat_keeps|].
    intros [[]|]; stays. }
  induction n as [|n IH]; cbn [mkdir_take].
  all: apply preserves_bind; [apply _|apply preserves_try, frame_keeps; auto with trainer|].
  all: intros [[]|e]; [stays..|].
  all: apply preserves_bind; [apply _| |intros []; apply Hend].
  1: stays.
  destruct n; [stays|done].
Qed.

(** [os.Create] below the target does not go through a link. *)
Lemma Create_keeps rel s : contained dst s0 s →
  contained dst s0 (Create (dst ++ rel) s).2 ∧ ∀ h, (Create (dst ++ rel) s).1 = Ok h → h = dst ++ rel.
Proof.
  intros Hc. unfold Create. pose proof (syscall_frame [] s) as Hf.
  pose proof (frame_keeps syscall (syscall_frame []) s Hc) as Hc1.
  unfold mbind, M_bind. destruct (syscall s) as [[[]|e] s1]; cbn [fst snd] in *; [|done].
  rewrite follow_id by apply Hc1. unfold node_at.
  pose proof (insert_keeps rel (File "") ltac:(done) s1 Hc1) as Hi. cbn in Hi.
  destruct (os_nodes s1 !! (dst ++ rel)) as [[c| |t]|]; cbn; [|done..|].
  - split; [done|]. by intros h [= <-].
  - destruct (os_nodes s1 !! parent (dst ++ rel)) as [[]|]; cbn; try done. split; [done|]. by intros h [= <-].
Qed.

Lemma Open_frame ps p : preserves (frame ps) (Open p).
Proof.
  apply preserves_bind; [apply _|auto with trainer|]. intros [] s. unfold follow, node_at.
  unfold mbind, M_bind. destruct (resolve 40 (os_nodes s) p) as [q|]; [|done]. by destruct (os_nodes s !! q).
Qed.

Lemma ReadAll_frame ps p : preserves (frame ps) (ReadAll p).
Proof.
  apply preserves_bind; [apply _|auto with trainer|]. intros [] s. unfold node_at.
  unfold mbind, M_bind. by destruct (os_nodes s !! p) as [[]|].
Qed.

Lemma copyFile_keeps p rel : preserves keeps (copyFile p (dst ++ rel)).
Proof.
  apply preserves_bind; [apply _|apply frame_keeps, Open_frame|]. intros inp.
  apply preserves_bind; [apply _| |].
  - apply preserves_try. intros s Hc. destruct (Create_keeps rel s Hc) as [Hc1 Hh].
    unfold mbind at 1, M_bind at 1. destruct (Create (dst ++ rel) s) as [[h|e] s1]; cbn [fst snd] in *; [|done].
    rewrite (Hh h eq_refl). revert Hc1. apply preserves_bind; [apply _| |].
    + apply preserves_try, preserves_bind; [apply _|apply frame_keeps, ReadAll_frame|]. intros d. apply Write_keeps.
    + assert (preserves keeps (Close (dst ++ rel))) as HC by (apply frame_keeps, syscall_frame).
      intros [[]|e]; [done|]. apply preserves_bind; [apply _|by apply preserves_try|]. intros r. stays.
  - intros r. apply preserves_bind; [apply _|apply preserves_try, frame_keeps, syscall_frame|]. intros r'. stays.
Qed.

Lemma copy_entry_keeps_below src sub p info err : preserves keeps (copy_entry src (dst ++ sub) p info err).
Proof.
  unfold copy_entry. destruct err as [e|]; [stays|].
  destruct info as [[c| |t]|]; destruct (Rel src p) as [rel|]; try (stays); rewrite <-app_assoc;
    (apply copyFile_keeps || apply mkdir_take_keeps).
Qed.

Lemma copy_entry_keeps src p info err : preserves keeps (copy_entry src dst p info err).
Proof. pose proof (copy_entry_keeps_below src [] p info err) as H. by rewrite app_nil_r in H. Qed.

End contained.

Section walks.
Context (s0 : os) (src dst : path) (Hsep : separate (os_nodes s0) src dst).

#[local] Abbreviation fn := (copy_entry src dst).

Lemma src_kept s r : contained dst s0 s → os_nodes s !! (src ++ r) = os_nodes s0 !! (src ++ r).
Proof.
  intros (_ & Hn & _). destruct Hsep as (Hsd & Hds & _).
  assert (Rel dst (src ++ r) = None ∧ Rel (src ++ r) dst = None) as [H1 H2].
  { rewrite !Rel_None in *. split; [|intros r' E; apply (Hsd (r ++ r')); by rewrite app_assoc].
    intros r' E. destruct (decide (length dst ≤ length src)) as [Hle|Hle].
    - apply (Hds (drop (length dst) src)). rewrite <-(take_drop (length dst) src) at 1. f_equal.
      rewrite <-(take_app_le src r) by done. rewrite E. by apply take_app_length.
    - apply (Hsd (drop (length src) dst)). rewrite <-(take_drop (length src) dst) at 1. f_equal.
      rewrite <-(take_app_le dst r') by lia. rewrite <-E. by apply take_app_length. }
  destruct (Hn _ H1) as [H|[[? H] _]]; [done|congruence].
Qed.

Lemma ReadDir_run rel s : contained dst s0 s → os_nodes s0 !! (src ++ rel) = Some Dir →
  ∃ r s1, ReadDir (src ++ rel) s = (r, s1) ∧ contained dst s0 s1 ∧
    match r with
    | Ok names => ∀ x, x ∈ names → is_Some (os_nodes s0 !! (src ++ rel ++ [x]))
    | Err _ => True
    end.
Proof.
  intros Hc Hd. pose proof (src_kept s rel Hc) as Hk. rewrite Hd in Hk. unfold ReadDir.
  pose proof (frame_keeps s0 dst syscall (syscall_frame []) s Hc) as Hc1.
  unfold mbind, M_bind. destruct (syscall s) as [[[]|e] s1] eqn:E; cbn [fst snd] in *; [|by exists (Err e), s1].
  apply syscall_run in E as [En _]. rewrite follow_id by (rewrite En; congruence). unfold node_at. rewrite En, Hk.
  pose proof (frame_keeps s0 dst syscall (syscall_frame []) s1 Hc1) as Hc2.
  destruct (syscall s1) as [[[]|e] s2] eqn:E2; cbn [fst snd get] in *; [|by exists (Err e), s2].
  exists (Ok (children (os_nodes s2) (src ++ rel))), s2. split_and!; [done..|].
  intros x Hx%elem_children. rewrite <-app_assoc in Hx. by rewrite (src_kept s2) in Hx.
Qed.

Lemma Lstat_run rel s : contained dst s0 s →
  ∃ r s1, Lstat (src ++ rel) s = (r, s1) ∧ contained dst s0 s1 ∧
    match r with Ok n => os_nodes s0 !! (src ++ rel) = Some n | Err _ => True end.
Proof.
  intros Hc. pose proof (Lstat_keeps s0 dst (src ++ rel) s Hc) as Hc1.
  destruct (Lstat (src ++ rel) s) as [r s1] eqn:E. exists r, s1. split_and!; [done..|].
  destruct r as [n|]; [|done]. rewrite <-(src_kept s rel Hc). unfold Lstat in E.
  apply bind_ok_inv in E as ([] & s2 & Hs & E). apply syscall_run in Hs as [En _]. unfold node_at in E.
  unfold mbind, M_bind in E. rewrite En in E. destruct (os_nodes s !! (src ++ rel)) as [n'|]; [|done].
  by injection E as ->.
Qed.

(** Enough fuel for the node at [src ++ rel]. *)
Definition fuelled (fuel : nat) (rel : path) : Prop := depth (os_nodes s0) < fuel + length (src ++ rel).

Lemma walk_ends fuel : ∀ rel n s, contained dst s0 s → os_nodes s0 !! (src ++ rel) = Some n → fuelled fuel rel →
  let out := walk fuel fn (src ++ rel) n s in
  walked fn (src ++ rel) n s out.1 out.2 ∧ contained dst s0 out.2.
Proof.
  induction fuel as [|fuel IH]; intros rel n s Hc Hn Hf; cbn zeta.
  { unfold fuelled in Hf. pose proof (depth_ge _ _ (mk_is_Some _ _ Hn)). lia. }
  destruct (decide (n = Dir)) as [->|Hleaf].
  2:{ rewrite walk_leaf by done. split; [|by apply copy_entry_keeps].
      apply walked_leaf; [done|]. by destruct (fn _ _ _ _). }
  destruct (ReadDir_run rel s Hc Hn) as (r & s1 & Hr & Hc1 & Hnames). cbn [walk]. rewrite try_bind, Hr. cbn [fst snd].
  destruct r as [names|e].
  2:{ split; [|by apply copy_entry_keeps]. eapply walked_unreadable; [done|]. by destruct (fn _ _ _ _). }
  unfold mbind, M_bind. pose proof (copy_entry_keeps s0 dst src (src ++ rel) (Some Dir) None s1 Hc1) as Hc2.
  destruct (fn (src ++ rel) (Some Dir) None s1) as [[[]|e] s2] eqn:Efn; cbn [fst snd] in *;
    [|split; [by eapply walked_refused|done]].
  enough (∀ s2, contained dst s0 s2 →
    let out := forM names (λ name, let filename := GoOS.Join (src ++ rel) name in
      fileInfo ← try (Lstat filename);
      match fileInfo with Err e => fn filename None (Some e) | Ok fileInfo => walk fuel fn filename fileInfo end) s2 in
    visited fn (src ++ rel) names s2 out.1 out.2 ∧ contained dst s0 out.2) as Hloop.
  { destruct (Hloop s2 Hc2) as [Hv Hcv]. split; [by eapply walked_dir|done]. }
  clear s2 Hc2 Efn Hr. induction names as [|x names IHn]; intros s2 Hc2; cbn zeta; [split; [constructor|done]|].
  assert (∀ r1 s3, contained dst s0 s3 →
    let out := match r1 with
      | Ok _ => forM names (λ name, let filename := GoOS.Join (src ++ rel) name in
          fileInfo ← try (Lstat filename);
          match fileInfo with Err e => fn filename None (Some e) | Ok fileInfo => walk fuel fn filename fileInfo end) s3
      | Err e => (Err e, s3) end in
    visited_rest fn (src ++ rel) names r1 s3 out.1 out.2 ∧ contained dst s0 out.2) as Hrest.
  { intros [[]|e] s3 Hc3; cbn zeta; [|split; [constructor|done]].
    destruct (IHn (λ y Hy, Hnames y (list_elem_of_further _ _ _ Hy)) s3 Hc3) as [Hv Hcv]. split; [by constructor|done]. }
  rewrite forM_cons. cbn zeta. rewrite try_bind.
  assert (GoOS.Join (src ++ rel) x = src ++ rel ++ [x]) as EJ by (unfold GoOS.Join; by rewrite app_assoc).
  destruct (Lstat_run (rel ++ [x]) s2 Hc2) as (r & s3 & Hl & Hc3 & Hnode). rewrite EJ, Hl. cbn [fst snd].
  destruct r as [n|e].
  - destruct (IH (rel ++ [x]) n s3 Hc3 Hnode) as [Hw Hcw].
    { unfold fuelled in *. rewrite !length_app in *. cbn. lia. }
    destruct (walk fuel fn (src ++ rel ++ [x]) n s3) as [r1 s4]. cbn [fst snd] in *.
    destruct (Hrest r1 s4 Hcw) as [Hv Hcv]. destruct r1 as [[]|e]; (split; [|exact Hcv]);
      eapply visited_node; rewrite ?EJ; first [exact Hl|exact Hw|exact Hv].
  - pose proof (copy_entry_keeps s0 dst src (src ++ rel ++ [x]) None (Some e) s3 Hc3) as Hc4.
    destruct (fn (src ++ rel ++ [x]) None (Some e) s3) as [r1 s4] eqn:Efn. cbn [snd] in Hc4.
    destruct (Hrest r1 s4 Hc4) as [Hv Hcv]. destruct r1 as [[]|e1]; (split; [|exact Hcv]);
      eapply visited_missing; rewrite ?EJ; first [exact Hl|exact Efn|exact Hv].
Qed.

Lemma copyDir_run_eq s :
  copyDir src dst s = match Lstat src s with
                      | (Ok n, s1) => walk (S (depth (os_nodes s))) fn src n s1
                      | (Err e, s1) => fn src None (Some e) s1
                      end.
Proof. unfold copyDir, Walk, get, try. unfold mbind, M_bind. by destruct (Lstat src s) as [[]]. Qed.

Lemma copyDir_ends s : contained dst s0 s → (∀ q, os_nodes s !! q = os_nodes s0 !! q) →
  let out := copyDir src dst s in
  copies src dst s out.1 out.2 ∧ contained dst s0 out.2.
Proof.
  intros Hc Heq. cbn zeta. rewrite copyDir_run_eq. unfold copies. pose proof (Lstat_run [] s Hc) as (r & s1 & Hl & Hc1 & Hn). rewrite app_nil_r in Hl, Hn.
  rewrite Hl. destruct r as [n|e].
  - assert (os_nodes s = os_nodes s0) as -> by (by apply map_eq).
    pose proof (walk_ends (S (depth (os_nodes s0))) [] n s1 Hc1) as H. rewrite app_nil_r in H. apply H; [done|].
    unfold fuelled. lia.
  - split; [by destruct (fn _ _ _ _)|by apply copy_entry_keeps].
Qed.

End walks.

(** ** Properties *)

(** C20: Termination and containment of the copy, whatever system calls fail.  The
    unbounded recursion of [filepath.Walk] ends, with the very run of the fuelled
    one; and however it ends, the environment and every node outside the target
    are as they were, but for missing ancestors of the target, which were made as
    directories: a failing copy damages neither the template nor another
    directory. *)
Theorem copyDir_terminates (src dst : path) (s : os) (Hsep : separate (os_nodes s) src dst) :
  let out := copyDir src dst s in
  copies src dst s out.1 out.2 ∧ contained dst s out.2.
Proof.
  apply copyDir_ends; [done| |done]. destruct Hsep as (_ & _ & Hl). split_and!; [done|by left|done].
Qed.

(** *** Witness *)

(** The disk is full at the second file. *)
Lemma copyDir_terminates_witness :
  let out := copyDir ex_template ex_work ex_full_disk in
  is_ok out.1 = false ∧ copies ex_template ex_work ex_full_disk out.1 out.2 ∧
  os_nodes out.2 !! (ex_template ++ ["rhoai"; "params.env"]) = Some (File "image=x").
Proof.
  destruct (copyDir_terminates ex_template ex_work ex_full_disk) as [Hc _].
  - split; [reflexivity|]. split; [reflexivity|]. intros r t.
    pose proof ex_ready as (_ & _ & _ & _ & Hfr & _). destruct (Hfr r) as [H|[-> H]]; intros E.
    + assert (ex_tree !! (ex_work ++ r) = Some (Symlink t)) as E' by exact E. congruence.
    + rewrite app_nil_r in E. assert (ex_tree !! ex_work = Some (Symlink t)) as E' by exact E. congruence.
  - split; [by vm_compute|]. split; [exact Hc|by vm_compute].
Defined.
