(* ===== verification/Sha256.v ===== *)
(** [crypto/sha256.Sum256] and [encoding/hex.EncodeToString], on bytes and on
    32-bit words kept in [Z]. *)

From S2P Require Import Prelude.
From Stdlib Require Import Ascii.
Open Scope string_scope.
Open Scope list_scope.
Open Scope Z_scope.

(** ** Definitions *)

Definition mask32 (x : Z) : Z := Z.land x 0xffffffff.
Definition add32 (x y : Z) : Z := mask32 (x + y).
Definition rotr (x n : Z) : Z := Z.lor (Z.shiftr x n) (mask32 (Z.shiftl x (32 - n))).
Definition not32 (x : Z) : Z := Z.lxor x 0xffffffff.

(** The constants are the first 32 bits of the fractional parts of the square
    and cube roots of the first primes. *)
Definition is_prime (n : Z) : bool :=
  forallb (λ d, negb (Z.eqb (n mod Z.of_nat d) 0)) (seq 2 (Z.to_nat (Z.sqrt n) - 1)).

Definition primes (bound : nat) : list Z := List.filter is_prime (Z.of_nat <$> seq 2 bound).

(** The integer cube root, bit by bit from bit [n - 1]. *)
Fixpoint cube_root (n : nat) (x r : Z) : Z :=
  match n with
  | O => r
  | S n' =>
      let r' := Z.lor r (Z.shiftl 1 (Z.of_nat n')) in
      cube_root n' x (if (r' * r' * r' <=? x) then r' else r)
  end.

Definition k256 : list Z :=
  Eval vm_compute in (λ p, mask32 (cube_root 36 (Z.shiftl p 96) 0)) <$> take 64 (primes 320).

Definition h256 : list Z :=
  Eval vm_compute in (λ p, mask32 (Z.sqrt (Z.shiftl p 64))) <$> take 8 (primes 320).

(** The working variables, also the state between blocks. *)
Record digest := Digest { da : Z; db : Z; dc : Z; dd : Z; de : Z; df : Z; dg : Z; dh : Z }.

Definition init256 : digest :=
  match h256 with
  | [a; b; c; d; e; f; g; h] => Digest a b c d e f g h
  | _ => Digest 0 0 0 0 0 0 0 0
  end.

Definition small0 (x : Z) : Z := Z.lxor (Z.lxor (rotr x 7) (rotr x 18)) (Z.shiftr x 3).
Definition small1 (x : Z) : Z := Z.lxor (Z.lxor (rotr x 17) (rotr x 19)) (Z.shiftr x 10).
Definition big0 (x : Z) : Z := Z.lxor (Z.lxor (rotr x 2) (rotr x 13)) (rotr x 22).
Definition big1 (x : Z) : Z := Z.lxor (Z.lxor (rotr x 6) (rotr x 11)) (rotr x 25).
Definition ch (x y z : Z) : Z := Z.lxor (Z.land x y) (Z.land (not32 x) z).
Definition maj (x y z : Z) : Z := Z.lxor (Z.lxor (Z.land x y) (Z.land x z)) (Z.land y z).

(** The message schedule, the latest word first. *)
Fixpoint schedule (n : nat) (ws : list Z) : list Z :=
  match n with
  | O => ws
  | S n' =>
      let w := add32 (add32 (small1 (nth 1 ws 0)) (nth 6 ws 0))
                     (add32 (small0 (nth 14 ws 0)) (nth 15 ws 0)) in
      schedule n' (w :: ws)
  end.

Definition round (d : digest) (kw : Z * Z) : digest :=
  let t1 := add32 (add32 (dh d) (big1 (de d)))
                  (add32 (ch (de d) (df d) (dg d)) (add32 (fst kw) (snd kw))) in
  let t2 := add32 (big0 (da d)) (maj (da d) (db d) (dc d)) in
  Digest (add32 t1 t2) (da d) (db d) (dc d) (add32 (dd d) t1) (de d) (df d) (dg d).

Fixpoint words (n : nat) (l : list Z) : list Z :=
  match n, l with
  | S n', a :: b :: c :: d :: l' =>
      Z.lor (Z.lor (Z.shiftl a 24) (Z.shiftl b 16)) (Z.lor (Z.shiftl c 8) d) :: words n' l'
  | _, _ => []
  end.

Definition block256 (d : digest) (b : list Z) : digest :=
  let d' := fold_left round (combine k256 (rev (schedule 48 (rev (words 16 b))))) d in
  Digest (add32 (da d) (da d')) (add32 (db d) (db d')) (add32 (dc d) (dc d')) (add32 (dd d) (dd d'))
    (add32 (de d) (de d')) (add32 (df d) (df d')) (add32 (dg d) (dg d')) (add32 (dh d) (dh d')).

Fixpoint blocks (n : nat) (d : digest) (l : list Z) : digest :=
  match n with
  | O => d
  | S n' => blocks n' (block256 d (take 64 l)) (drop 64 l)
  end.

(** The big-endian bytes of a word. *)
Definition byte_of (x n : Z) : Z := Z.land (Z.shiftr x (8 * n)) 0xff.
Definition bytes4 (x : Z) : list Z := [byte_of x 3; byte_of x 2; byte_of x 1; byte_of x 0].
Definition bytes8 (x : Z) : list Z := bytes4 (Z.shiftr x 32) ++ bytes4 x.

Definition padding (len : Z) : list Z :=
  0x80 :: replicate (Z.to_nat ((55 - len) mod 64)) 0 ++ bytes8 (8 * len).

Definition sum_bytes (l : list Z) : list Z :=
  let m := l ++ padding (Z.of_nat (length l)) in
  let d := blocks (length m / 64) init256 m in
  concat (bytes4 <$> [da d; db d; dc d; dd d; de d; df d; dg d; dh d]).

Definition bytes_of_string (s : string) : list Z :=
  (λ c, Z.of_nat (nat_of_ascii c)) <$> String.list_ascii_of_string s.

Definition Sum256 (s : string) : list Z := sum_bytes (bytes_of_string s).

Definition hex_digit (n : Z) : ascii :=
  ascii_of_nat (Z.to_nat (if n <? 10 then 48 + n else 87 + n)).

Fixpoint EncodeToString (l : list Z) : string :=
  match l with
  | [] => EmptyString
  | b :: l' =>
      String (hex_digit (Z.shiftr b 4)) (String (hex_digit (Z.land b 15)) (EncodeToString l'))
  end.

(** ** Lemmas *)

Example sum_abc : EncodeToString (Sum256 "abc") =
  "ba7816bf8f01cfea414140de5dae2223b00361a396177a9cb410ff61f20015ad".
Proof. by vm_compute. Qed.

Example sum_empty : EncodeToString (Sum256 "") =
  "e3b0c44298fc1c149afbf4c8996fb92427ae41e4649b934ca495991b7852b855".
Proof. by vm_compute. Qed.

Example sum_two_blocks :
  EncodeToString (Sum256 "abcdbcdecdefdefgefghfghighijhijkijkljklmklmnlmnomnopnopq") =
  "248d6a61d20638b8e5c026930c3e6039a33ce45964ff2167f6ecedd419db06c1".
Proof. by vm_compute. Qed.

(** A sum has 32 bytes, and its text 64 digits: it is never the empty string. *)
Lemma Sum256_length s : length (Sum256 s) = 32%nat.
Proof. done. Qed.

Lemma EncodeToString_length l : String.length (EncodeToString l) = (2 * length l)%nat.
Proof. induction l as [|b l IH]; cbn; [done|]. rewrite IH. lia. Qed.

Lemma hash_length s : String.length (EncodeToString (Sum256 s)) = 64%nat.
Proof. by rewrite EncodeToString_length, Sum256_length. Qed.

Lemma hash_ne s : EncodeToString (Sum256 s) ≠ "".
Proof. intros H. by pose proof (hash_length s) as Hl; rewrite H in Hl. Qed.
