(* ===== verification/Manifests.v ===== *)
(** Rendering, of [internal/controller/manifests.go] and the [renderManifests]
    action: the parameters are resolved in the work directory, kustomize renders
    the overlay, and the operand's configuration gets the cluster's TLS
    profile. *)

From S2P Require Import Prelude GoStrings GoOS Params Kube ApiTypes KubeStore Request Namespace.
From S2P Require Import OperandTLS Sha256 Workdir.
Open Scope string_scope.
Open Scope nat_scope.
Open Scope list_scope.

(** ** Definitions *)

Definition defaultOverlay : string := "rhoai".
Definition operandConfigMapPrefix : string := "kubeflow-trainer-config".
Definition operandConfigKey : string := "controller_manager_config.yaml".
Definition operandDeploymentName : string := "kubeflow-trainer-controller-manager".
Definition operandTLSConfigHashAnnotation : string := "trainer.platform.opendatahub.io/tls-config-hash".

(** [kustomize.Render] of odh-platform-utilities, over the files it reads. *)
Inductive render_opt : Type :=
| WithLabel (key value : string)
| WithNamespace (namespace : string).

Class Kustomize (O : Type) := {
  kustomize_Render : path → list render_opt → M os (list O);
}.

(** [sigs.k8s.io/yaml] on documents that are maps: [A] is [any], and a document
    without content unmarshals to the nil map. *)
Class YamlMaps (A : Type) := {
  of_options : TLSOptions → A;
  yaml_Unmarshal : string → result (option (gmap string A));
  yaml_Marshal : gmap string A → result string;
}.

Record resourceSet := ResourceSet {
  rs_name : string;
  rs_subDir : string;
  rs_templatePath : path;
  rs_paramMap : gmap string string;
  rs_staticParams : gmap string string;
  rs_namespace : string;
  rs_overlay : string;
  rs_filterConfigMaps : bool;
  rs_operandTLS : bool }.

(** The parts of [trainerActions] that the rendering reads. *)
Record trainerActions := TrainerActions {
  a_manifestsPath : path;
  a_runtimesPath : path;
  a_imageStreamsPath : path;
  a_workDir : path;
  a_tlsProfile : TLSProfileSpec }.

Section items.
Context {O V A : Type} `{!Objects O V, !YamlMaps A, !TLSTables} (Quote : string → string).

Fixpoint filterConfigMaps (items : list O) : list O :=
  match items with
  | [] => []
  | item :: items' =>
      if negb (bool_decide (GetKind item = "ConfigMap")) then item :: filterConfigMaps items'
      else filterConfigMaps items'
  end.

Definition config_fields : list string := ["data"; operandConfigKey].
Definition annotation_fields : list string := ["spec"; "template"; "metadata"; "annotations"].

(** One iteration of the loop that injects the options: the item, and the hash
    of the configuration when there is one. *)
Definition inject_item (opts : TLSOptions) (item : O) : result (O * option string) :=
  if negb (bool_decide (GetKind item = "ConfigMap"))
     || negb (HasPrefix (GetName item) operandConfigMapPrefix) then mret (item, None)
  else
    raw ← wrap_err "reading operand config key" (NestedString item config_fields);
    match raw with
    | None => mret (item, None)
    | Some raw =>
        cfg ← wrap_err "parsing operand config" (yaml_Unmarshal raw);
        out ← wrap_err "marshalling operand config"
                (yaml_Marshal (<["tls" := of_options opts]> (default ∅ cfg)));
        item' ← wrap_err "writing operand config" (SetNestedString out config_fields item);
        mret (item', Some (EncodeToString (Sum256 out)))
    end.

(** The loop: [configHash] is the hash of the last configuration. *)
Fixpoint inject_items (opts : TLSOptions) (configHash : string) (items : list O) :
    result (list O * string) :=
  match items with
  | [] => mret ([], configHash)
  | item :: items' =>
      r ← inject_item opts item;
      rest ← inject_items opts (default configHash r.2) items';
      mret (r.1 :: rest.1, rest.2)
  end.

(** One iteration of the loop that annotates the operand's Deployment. *)
Definition annotate_item (configHash : string) (item : O) : result O :=
  if negb (bool_decide (GetKind item = "Deployment"))
     || negb (bool_decide (GetName item = operandDeploymentName)) then mret item
  else
    annotations ← wrap_err "reading operand deployment annotations"
                    (NestedStringMap item annotation_fields);
    wrap_err "writing operand deployment annotations"
      (SetNestedStringMap (<[operandTLSConfigHashAnnotation := configHash]> (default ∅ annotations))
         annotation_fields item).

Fixpoint annotate_items (configHash : string) (items : list O) : result (list O) :=
  match items with
  | [] => mret []
  | item :: items' =>
      item' ← annotate_item configHash item;
      rest ← annotate_items configHash items';
      mret (item' :: rest)
  end.

(** The items are changed in place; the caller drops them on an error. *)
Definition applyOperandTLSOptions (items : list O) (profile : TLSProfileSpec) : result (list O) :=
  opts ← wrap_err "translating cluster TLS profile for the operand" (TranslateProfile Quote profile);
  r ← inject_items opts "" items;
  if bool_decide (r.2 = "") then mret r.1 else annotate_items r.2 r.1.

End items.

Section rendering.
Context {O V A : Type} `{!Objects O V, !YamlMaps A, !TLSTables, !Kustomize O} (Quote : string → string).
Context (range_src range_dst : gmap string string → list (string * string)).

Definition renderOverlay (p : path) (namespace : string) : M os (list O) :=
  let opts := WithLabel PlatformPartOf trainerPartOf ::
    (if bool_decide (namespace = "") then [] else [WithNamespace namespace]) in
  wrapping "rendering kustomize overlay" (kustomize_Render p opts).

Definition renderResourceSet (m : trainerActions) (rs : resourceSet) : M os (list O) :=
  let workDir := GoOS.Join (a_workDir m) (rs_subDir rs) in
  wrapping ("preparing " +:+ rs_name rs +:+ " work directory")
    (ensureWorkDir (rs_templatePath rs) workDir);;
  let renderPath := if bool_decide (rs_overlay rs = "") then workDir
                    else GoOS.Join workDir (rs_overlay rs) in
  wrapping ("resolving " +:+ rs_name rs +:+ " params")
    (applyParamOverrides range_src range_dst renderPath (rs_paramMap rs));;
  (if bool_decide (rs_staticParams rs = ∅) then mret tt
   else wrapping ("applying " +:+ rs_name rs +:+ " static params")
          (applyStaticParams range_src range_dst renderPath (rs_staticParams rs)));;
  rendered ← wrapping ("rendering " +:+ rs_name rs) (renderOverlay renderPath (rs_namespace rs));
  let rendered := if rs_filterConfigMaps rs then filterConfigMaps rendered else rendered in
  if rs_operandTLS rs
  then wrapping ("applying operand TLS options to " +:+ rs_name rs)
         (lift (applyOperandTLSOptions (A:=A) Quote rendered (a_tlsProfile m)))
  else mret rendered.

Definition manifests_set (m : trainerActions) (namespace : string) : resourceSet :=
  ResourceSet "manifests" "manifests" (a_manifestsPath m) trainerImageParamMap
    {[paramOperatorNamespace := namespace]} namespace defaultOverlay false true.

Definition runtimes_set (m : trainerActions) : resourceSet :=
  ResourceSet "runtimes" "runtimes" (a_runtimesPath m) runtimesParamMap ∅ "" "" true false.

Definition imagestreams_set (m : trainerActions) (namespace : string) : resourceSet :=
  ResourceSet "imagestreams" "imagestreams" (a_imageStreamsPath m) imageStreamParamMap ∅
    namespace "" true false.

Definition resourceSets (m : trainerActions) (namespace : string) (openshift : bool) : list resourceSet :=
  [manifests_set m namespace; runtimes_set m] ++
  (if openshift then [imagestreams_set m namespace] else []).

Context {K C Ver : Type} `{!PlatformUtils O K}.

(** One iteration: render a set and append it to [rr.Resources]. *)
Definition render_set (m : trainerActions) (rs : resourceSet) : action O K C Ver :=
  rendered ← on_os (renderResourceSet m rs);
  modify (λ rr, set_resources (rr_resources rr ++ rendered) rr).

Definition renderManifests (m : trainerActions) : action O K C Ver :=
  trainer ← gets rr_instance;
  let namespace := resolveNamespace trainer in
  clusterType ← wrapping "failed to detect cluster type" (on_client DetectClusterType);
  forM (resourceSets m namespace (bool_decide (clusterType = ClusterTypeOpenShift))) (render_set m);;
  modify (set_generated true).

End rendering.

(** *** Specification *)

Section spec.
Context {O V A : Type} `{!Objects O V, !YamlMaps A}.

(** A ConfigMap that holds the operand's configuration. *)
Definition has_config (item : O) : Prop :=
  GetKind item = "ConfigMap" ∧ HasPrefix (GetName item) operandConfigMapPrefix = true ∧
  ∃ raw, NestedString item config_fields = Ok (Some raw).

Definition is_operand_deployment (item : O) : Prop :=
  GetKind item = "Deployment" ∧ GetName item = operandDeploymentName.

(** The configuration [raw] with the options as its tls section. *)
Definition tls_config (opts : TLSOptions) (raw out : string) : Prop :=
  ∃ cfg, yaml_Unmarshal raw = Ok cfg ∧
    yaml_Marshal (<["tls" := of_options opts]> (default ∅ cfg)) = Ok out.

Definition same_meta (item item' : O) : Prop :=
  GetKind item' = GetKind item ∧ GetName item' = GetName item ∧ GetNamespace item' = GetNamespace item.

(** Nothing but the field at the path [fs] is changed: the type, the metadata
    and every field beside that one are as they were. *)
Definition only_at (fs : list string) (item item' : O) : Prop :=
  (GroupVersionKindOf item', GetFinalizers item', IsDeleting item') =
  (GroupVersionKindOf item, GetFinalizers item, IsDeleting item) ∧
  ∀ p, unrelated p fs → NestedField item' p = NestedField item p.

(** What becomes of a configuration, of the Deployment, and of the rest. *)
Definition injected (opts : TLSOptions) (item item' : O) : Prop :=
  same_meta item item' ∧ (¬ has_config item → item' = item) ∧
  (has_config item → ∃ raw out, NestedString item config_fields = Ok (Some raw) ∧
     tls_config opts raw out ∧ NestedString item' config_fields = Ok (Some out)) ∧
  only_at config_fields item item'.

Definition annotated (h : string) (item item' : O) : Prop :=
  same_meta item item' ∧ (¬ is_operand_deployment item → item' = item) ∧
  (is_operand_deployment item → ∃ ann, NestedStringMap item annotation_fields = Ok ann ∧
     NestedStringMap item' annotation_fields =
       Ok (Some (<[operandTLSConfigHashAnnotation := h]> (default ∅ ann)))) ∧
  only_at annotation_fields item item'.

(** [h] is the hash of the last configuration of the items. *)
Definition last_config_hash (items : list O) (h : string) : Prop :=
  ∃ l1 item l2 out, items = l1 ++ item :: l2 ∧ has_config item ∧
    NestedString item config_fields = Ok (Some out) ∧ h = EncodeToString (Sum256 out) ∧
    Forall (λ x, ¬ has_config x) l2.

End spec.

(** ** Lemmas *)

Lemma wrap_err_ok {X} p (r : result X) a : wrap_err p r = Ok a ↔ r = Ok a.
Proof. destruct r; cbn; split; congruence. Qed.

Section lemmas.
Context {O V A : Type} `{!Objects O V, !ObjectsLaws O V, !YamlMaps A}.

Lemma filterConfigMaps_filter (items : list O) :
  filterConfigMaps items = filter (λ o, GetKind o ≠ "ConfigMap") items.
Proof.
  induction items as [|o items IH]; [done|]. cbn [filterConfigMaps].
  destruct (bool_decide (GetKind o = "ConfigMap")) eqn:E; cbn [negb].
  - apply bool_decide_eq_true in E. by rewrite filter_cons_False by naive_solver.
  - apply bool_decide_eq_false in E. by rewrite filter_cons_True, IH.
Qed.

Lemma same_meta_refl (item : O) : same_meta item item.
Proof. done. Qed.

Lemma only_at_refl fs (item : O) : only_at fs item item.
Proof. done. Qed.

Lemma set_string_only s f fs (item item' : O) : metadata_field f = false →
  SetNestedString s (f :: fs) item = Ok item' → only_at (f :: fs) item item'.
Proof.
  intros Hf Hs. destruct (set_string_state _ _ _ _ _ Hf Hs) as (Hg & Hl & Hd).
  split; [by rewrite Hg, Hl, Hd|]. intros p. by apply (set_string_beside _ _ _ _ _ Hs).
Qed.

Lemma set_string_map_only m f fs (item item' : O) : metadata_field f = false →
  SetNestedStringMap m (f :: fs) item = Ok item' → only_at (f :: fs) item item'.
Proof.
  intros Hf Hs. destruct (set_string_map_state _ _ _ _ _ Hf Hs) as (Hg & Hl & Hd).
  split; [by rewrite Hg, Hl, Hd|]. intros p. by apply (set_string_map_beside _ _ _ _ _ Hs).
Qed.

Lemma inject_item_ok opts (item : O) r :
  inject_item opts item = Ok r →
  injected opts item r.1 ∧
  match r.2 with
  | None => ¬ has_config item
  | Some h => has_config r.1 ∧ has_config item ∧
      ∃ out, NestedString r.1 config_fields = Ok (Some out) ∧ h = EncodeToString (Sum256 out)
  end.
Proof.
  assert (∀ x : O, ¬ has_config x → injected opts x x) as Hskip.
  { intros x Hx. split_and!; [apply same_meta_refl|done|done|apply only_at_refl..]. }
  unfold inject_item. destruct (negb _ || negb _) eqn:Ek.
  - intros [= <-]. cbn. assert (¬ has_config item) as Hn; [|by auto].
    intros (Hk & Hp & _). rewrite Hk, bool_decide_eq_true_2, Hp in Ek; done.
  - apply orb_false_iff in Ek as [Hk%negb_false_iff%bool_decide_eq_true Hp%negb_false_iff].
    munfold. destruct (NestedString item config_fields) as [[raw|]|] eqn:En; cbn; [| |done].
    + assert (has_config item) as Hc by (split_and!; eauto).
      destruct (yaml_Unmarshal raw) as [cfg|] eqn:Eu; cbn; [|done].
      destruct (yaml_Marshal _) as [out|] eqn:Em; cbn; [|done].
      destruct (SetNestedString out config_fields item) as [item'|] eqn:Es; cbn; [|done].
      intros [= <-]. cbn. pose proof (get_set_string _ _ _ _ _ Es) as Hget.
      apply set_string_only in Es as Hone; [|done].
      apply set_string_meta in Es as Hm; [|done]. destruct Hm as (Mk & Mn & Mns).
      split; [split; [done|split; [done|split; [|exact Hone]]]|split_and!; [|done|eauto]].
      * intros _. exists raw, out. split_and!; [done|by exists cfg|done].
      * unfold has_config. rewrite Mk, Mn. split_and!; eauto.
    + intros [= <-]. cbn. assert (¬ has_config item) as Hn; [|by auto].
      intros (_ & _ & raw & Hr). congruence.
Qed.

Lemma inject_items_ok opts h0 (items : list O) r :
  inject_items opts h0 items = Ok r →
  Forall2 (injected opts) items r.1 ∧
  ((r.2 = h0 ∧ Forall (λ x, ¬ has_config x) items ∧ r.1 = items) ∨
   (last_config_hash r.1 r.2 ∧ Exists has_config items)).
Proof.
  revert h0 r. induction items as [|item items IH]; intros h0 r; cbn [inject_items].
  { intros [= <-]. split; [constructor|]. left. by split_and!; [|constructor|]. }
  munfold. destruct (inject_item opts item) as [r1|] eqn:E1; [|done].
  destruct (inject_items opts _ items) as [rest|] eqn:E2; [|done]. intros [= <-]. cbn [fst snd].
  apply inject_item_ok in E1 as [Hi Hh]. apply IH in E2 as [Hf Hr].
  split; [by constructor|]. destruct Hr as [(Hr & Hn & Heq)|[(l1 & x & l2 & out & Hl) He]].
  - destruct r1 as [item' [h|]]; cbn in *.
    + right. destruct Hh as (Hc & Hci & out & Ho & ->). split; [|by left].
      exists [], item', rest.1, out. rewrite Heq. by split_and!.
    + left. split_and!; [done|by constructor|]. destruct Hi as (_ & Hi & _). by rewrite Hi, Heq.
  - right. split; [|by right]. destruct Hl as (-> & Hl). by exists (r1.1 :: l1), x, l2, out.
Qed.

Lemma annotate_item_ok h (item item' : O) :
  annotate_item h item = Ok item' → annotated h item item'.
Proof.
  unfold annotate_item. destruct (negb _ || negb _) eqn:Ek.
  - intros [= <-]. split; [apply same_meta_refl|]. split; [done|]. split; [|apply only_at_refl]. intros [Hk Hn].
    rewrite Hk, Hn, !bool_decide_eq_true_2 in Ek; done.
  - apply orb_false_iff in Ek as [Hk%negb_false_iff%bool_decide_eq_true Hn%negb_false_iff%bool_decide_eq_true].
    munfold. destruct (NestedStringMap item annotation_fields) as [ann|] eqn:Ea; cbn; [|done].
    intros Hs%wrap_err_ok. pose proof (get_set_string_map _ _ _ _ _ Hs) as Hget.
    apply set_string_map_only in Hs as Hone; [|done].
    apply set_string_map_meta in Hs as Hm; [|done]. split; [done|]. split; [by intros []|].
    split; [|exact Hone]. intros _. by exists ann.
Qed.

Lemma annotate_items_ok h (items items' : list O) :
  annotate_items h items = Ok items' → Forall2 (annotated h) items items'.
Proof.
  revert items'. induction items as [|item items IH]; intros items'; cbn [annotate_items].
  { intros [= <-]. constructor. }
  munfold. destruct (annotate_item h item) as [i|] eqn:E1; [|done].
  destruct (annotate_items h items) as [rest|] eqn:E2; [|done]. intros [= <-].
  constructor; [by apply annotate_item_ok|by apply IH].
Qed.

(** A Deployment is not a configuration. *)
Lemma annotated_config h (item item' : O) : annotated h item item' →
  (has_config item → item' = item) ∧ (has_config item' → has_config item).
Proof.
  intros ((Mk & Mn & _) & Hn & _).
  assert (∀ x, GetKind x = "ConfigMap" → ¬ is_operand_deployment (O:=O) x) as Hd
    by (intros x Hx [Hy _]; congruence).
  split; [intros (Hk & _); by apply Hn, Hd|]. intros Hc. pose proof Hc as (Hk & _).
  rewrite Hn in Hc; [done|]. apply Hd. congruence.
Qed.

Lemma last_config_annotated h (items items' : list O) h' :
  Forall2 (annotated h') items items' → last_config_hash items h → last_config_hash items' h.
Proof.
  intros Hf (l1 & x & l2 & out & -> & Hc & Ho & Hh & Hl).
  apply Forall2_app_inv_l in Hf as (l1' & l2' & H1 & H2 & ->).
  apply Forall2_cons_inv_l in H2 as (x' & l2'' & Hx & H2 & ->).
  apply annotated_config in Hx as [Hx _]. rewrite Hx by done.
  exists l1', x, l2'', out. split_and!; try done. clear -H2 Hl.
  induction H2 as [|y y' l l' Hy H2 IH]; [constructor|]. inversion Hl; subst. constructor; [|by apply IH].
  intros Hc. by apply annotated_config in Hy as [_ Hy]; auto.
Qed.

End lemmas.

Section rendering_lemmas.
Context {O V A : Type} `{!Objects O V, !YamlMaps A, !TLSTables, !Kustomize O} (Quote : string → string).
Context (range_src range_dst : gmap string string → list (string * string)).
Context {K C Ver : Type} `{!PlatformUtils O K}.

#[local] Abbreviation render := (renderResourceSet (A:=A) Quote range_src range_dst).
#[local] Abbreviation render_all := (renderManifests (A:=A) (K:=K) (C:=C) (Ver:=Ver) Quote range_src range_dst).

(** What the rendering leaves as it was: everything but the cluster, the files
    and the resources, to which it only appends. *)
Definition appends (rr rr' : request O K C Ver) : Prop :=
  (∃ l, rr_resources rr' = rr_resources rr ++ l) ∧
  rr_instance rr' = rr_instance rr ∧ rr_conditions rr' = rr_conditions rr ∧
  rr_generated rr' = rr_generated rr ∧ rr_release rr' = rr_release rr.

#[local] Instance appends_refl : Reflexive appends.
Proof. intros rr. split; [by exists []; rewrite app_nil_r|done]. Qed.

#[local] Instance appends_trans : Transitive appends.
Proof.
  intros r1 r2 r3 [[l1 E1] H1] [[l2 E2] H2]. split; [|naive_solver congruence].
  exists (l1 ++ l2). by rewrite E2, E1, app_assoc.
Qed.

Lemma render_set_run m rs (rr : request O K C Ver) :
  render_set (A:=A) Quote range_src range_dst m rs rr =
  match render m rs (rr_os rr) with
  | (Ok l, s) => (Ok tt, set_resources (rr_resources rr ++ l) (set_os s rr))
  | (Err e, s) => (Err e, set_os s rr)
  end.
Proof.
  unfold render_set, modify. unfold mbind, M_bind. rewrite on_os_run.
  by destruct (render m rs (rr_os rr)) as [[l|e] s].
Qed.

Lemma render_set_appends m rs :
  preserves appends (render_set (A:=A) (K:=K) (C:=C) (Ver:=Ver) Quote range_src range_dst m rs).
Proof.
  intros rr. rewrite render_set_run. destruct (render m rs (rr_os rr)) as [[l|e] s]; cbn.
  - split; [by exists l|done].
  - split; [by exists []; rewrite app_nil_r|done].
Qed.

Lemma render_sets_appends m sets (rr : request O K C Ver) :
  appends rr (forM sets (render_set (A:=A) Quote range_src range_dst m) rr).2.
Proof. apply (forM_preserves appends). intros rs _. apply render_set_appends. Qed.

(** What a successful rendering of a set went through. *)
Lemma render_inv m rs s l s' : render m rs s = (Ok l, s') →
  ∃ raw, let items := if rs_filterConfigMaps rs then filterConfigMaps raw else raw in
    if rs_operandTLS rs then applyOperandTLSOptions (A:=A) Quote items (a_tlsProfile m) = Ok l
    else l = items.
Proof.
  unfold renderResourceSet. intros (? & ? & _ & (? & ? & _ & (? & ? & _ &
    (raw & s1 & _ & Hr)%bind_ok_inv)%bind_ok_inv)%bind_ok_inv)%bind_ok_inv.
  exists raw. cbn zeta. destruct (rs_operandTLS rs); [|by injection Hr as <- <-].
  unfold wrapping, lift in Hr. injection Hr as Hr _. by apply wrap_err_ok in Hr.
Qed.

(** A set that filters has no ConfigMap left. *)
Lemma render_filtered m rs s l s' :
  render m rs s = (Ok l, s') → rs_filterConfigMaps rs = true → rs_operandTLS rs = false →
  Forall (λ o, GetKind o ≠ "ConfigMap") l.
Proof.
  intros (raw & Hr)%render_inv Hf Ht. rewrite Hf, Ht in Hr. rewrite Hr, filterConfigMaps_filter.
  apply Forall_forall. intros o Ho%list_elem_of_In. by apply list_elem_of_filter in Ho as [? _].
Qed.

(** A set for the operand is not rendered without the TLS profile. *)
Lemma render_tls m rs s l s' :
  render m rs s = (Ok l, s') → rs_operandTLS rs = true →
  ∃ opts, TranslateProfile Quote (a_tlsProfile m) = Ok opts.
Proof.
  intros (raw & Hr)%render_inv Ht. rewrite Ht in Hr. unfold applyOperandTLSOptions in Hr. munfold.
  destruct (TranslateProfile Quote (a_tlsProfile m)) as [opts|e]; [by exists opts|done].
Qed.

(** A successful loop over the sets: each was rendered, in order. *)
Fixpoint rendered (m : trainerActions) (sets : list resourceSet) (s : os) (ls : list (list O)) (s' : os) : Prop :=
  match sets, ls with
  | [], [] => s' = s
  | rs :: sets', l :: ls' => ∃ s1, render m rs s = (Ok l, s1) ∧ rendered m sets' s1 ls' s'
  | _, _ => False
  end.

Lemma rendered_length m sets s ls s' : rendered m sets s ls s' → length ls = length sets.
Proof.
  revert s ls. induction sets as [|rs sets IH]; intros s [|l ls]; try done.
  intros (s1 & _ & Hr). cbn. f_equal. by eapply IH.
Qed.

Lemma render_sets_ok m sets (rr rr' : request O K C Ver) :
  forM sets (render_set (A:=A) Quote range_src range_dst m) rr = (Ok tt, rr') →
  ∃ ls, rendered m sets (rr_os rr) ls (rr_os rr') ∧ rr_resources rr' = rr_resources rr ++ concat ls.
Proof.
  revert rr. induction sets as [|rs sets IH]; intros rr.
  { intros [= <-]. exists []. cbn. by rewrite app_nil_r. }
  rewrite forM_cons, render_set_run. destruct (render m rs (rr_os rr)) as [[l|e] s1] eqn:E; [|done].
  intros (ls & Hr & Hc)%IH. rrsimpl. exists (l :: ls). split; [by exists s1|].
  rewrite Hc. cbn [concat]. by rewrite app_assoc.
Qed.

Lemma renderManifests_generated m (rr rr' : request O K C Ver) :
  render_all m rr = (Ok tt, rr') → rr_generated rr' = true.
Proof.
  unfold renderManifests. intros (? & ? & _ & (? & ? & _ & (? & ? & _ & [= <-])%bind_ok_inv)%bind_ok_inv)%bind_ok_inv.
  done.
Qed.

(** What a successful rendering went through, and what it left. *)
Lemma renderManifests_run m (rr rr' : request O K C Ver) :
  render_all m rr = (Ok tt, rr') →
  ∃ ct k1 ls, DetectClusterType (rr_cluster rr) = (Ok ct, k1) ∧
    rendered m (resourceSets m (resolveNamespace (rr_instance rr)) (bool_decide (ct = ClusterTypeOpenShift)))
      (rr_os rr) ls (rr_os rr') ∧
    rr_resources rr' = rr_resources rr ++ concat ls ∧ rr_generated rr' = true ∧
    (rr_instance rr', rr_conditions rr', rr_release rr') = (rr_instance rr, rr_conditions rr, rr_release rr).
Proof.
  intros Hrun. unfold renderManifests in Hrun. apply bind_ok_inv in Hrun as (t & rr0 & [= <- <-] & Hrun).
  apply bind_ok_inv in Hrun as (ct & rr1 & Hd & Hrun). apply bind_ok_inv in Hrun as ([] & rr2 & Hf & Hrun).
  injection Hrun as <-. unfold wrapping in Hd. rewrite on_client_run in Hd.
  destruct (DetectClusterType (rr_cluster rr)) as [[ct'|e] k1]; [|done]. injection Hd as -> <-.
  pose proof (render_sets_appends m
    (resourceSets m (resolveNamespace (rr_instance rr)) (bool_decide (ct = ClusterTypeOpenShift)))
    (set_cluster k1 rr)) as Hp. rewrite Hf in Hp. cbn [snd] in Hp. destruct Hp as (_ & Hi & Hc & _ & Hr). rrsimpl.
  apply render_sets_ok in Hf as (ls & Hs & Hl). rrsimpl.
  exists ct, k1, ls. split_and!; [done..|by rewrite Hi, Hc, Hr].
Qed.

End rendering_lemmas.

(** ** Properties *)

Section properties.
Context {O V A : Type} `{!Objects O V, !ObjectsLaws O V, !YamlMaps A, !TLSTables} (Quote : string → string).

(** C24: The rendered items when the cluster's TLS profile could be applied.
    Every ConfigMap that holds the operand's configuration holds it with the
    translated profile as its tls section; the operand's Deployment is
    annotated with the hash of the (last) configuration as it was rendered, over
    the annotations it had.  Every other item is unchanged, and of these two
    nothing else is: not their type and metadata, nor any field that is beside
    the configuration or the annotations, such as the other keys of the data of
    the ConfigMap.  Without a configuration nothing is changed at all. *)
Theorem applyOperandTLSOptions_ok (items items' : list O) (profile : TLSProfileSpec)
    (Hok : applyOperandTLSOptions (A:=A) Quote items profile = Ok items') :
  ∃ opts, TranslateProfile Quote profile = Ok opts ∧
  ((Forall (λ x, ¬ has_config x) items ∧ items' = items) ∨
   ∃ h, last_config_hash items' h ∧
     Forall2 (λ item item', ∃ mid, injected (A:=A) opts item mid ∧ annotated h mid item') items items').
Proof.
  unfold applyOperandTLSOptions in Hok. munfold.
  destruct (TranslateProfile Quote profile) as [opts|e]; cbn in Hok; [|done]. exists opts. split; [done|].
  destruct (inject_items opts "" items) as [[mid h]|e] eqn:Ei; cbn in Hok; [|done].
  apply inject_items_ok in Ei as [Hf [(Hh & Hn & Heq)|[Hl _]]]; cbn in *.
  - left. subst h mid. rewrite bool_decide_eq_true_2 in Hok by done. injection Hok as <-. done.
  - right. exists h. pose proof Hl as (ca & x & cb & out & _ & _ & _ & Hh & _).
    rewrite bool_decide_eq_false_2 in Hok by (rewrite Hh; apply hash_ne).
    apply annotate_items_ok in Hok as Ha. split; [by eapply last_config_annotated|].
    clear -Hf Ha. revert items' Ha. induction Hf as [|i m l1 l2 Hi Hf IH]; intros items' Ha;
      inversion Ha; subst; constructor; eauto.
Qed.

End properties.

Section render_properties.
Context {O V A : Type} `{!Objects O V, !YamlMaps A, !TLSTables, !Kustomize O} (Quote : string → string).
Context (range_src range_dst : gmap string string → list (string * string)).
Context {K C Ver : Type} `{!PlatformUtils O K}.

(** C26: A successful rendering appends, to the resources there were, what the
    sets of the cluster's type render in their order: the operand's manifests
    (with the TLS options), the runtimes, and on OpenShift alone the image
    streams; the runtimes and the image streams hold no ConfigMap; the request
    is marked as generated, and the instance, the conditions and the release are
    as they were. *)
Theorem renderManifests_ok (m : trainerActions) (rr rr' : request O K C Ver)
    (Hrun : renderManifests (A:=A) Quote range_src range_dst m rr = (Ok tt, rr')) :
  ∃ clusterType lm lr li,
    (DetectClusterType (rr_cluster rr)).1 = Ok clusterType ∧
    let openshift := bool_decide (clusterType = ClusterTypeOpenShift) in
    rendered (A:=A) Quote range_src range_dst m
      (resourceSets m (resolveNamespace (rr_instance rr)) openshift) (rr_os rr)
      (if openshift then [lm; lr; li] else [lm; lr]) (rr_os rr') ∧
    rr_resources rr' = rr_resources rr ++ lm ++ lr ++ (if openshift then li else []) ∧
    Forall (λ o, GetKind o ≠ "ConfigMap") (lr ++ (if openshift then li else [])) ∧
    rr_generated rr' = true ∧
    (rr_instance rr', rr_conditions rr', rr_release rr') =
    (rr_instance rr, rr_conditions rr, rr_release rr).
Proof.
  destruct (renderManifests_run _ _ _ _ _ _ Hrun) as (ct & k1 & ls & Hd & Hs & Hl & Hg & Hrest).
  pose proof (rendered_length _ _ _ _ _ _ _ _ Hs) as Hlen. exists ct. rewrite Hd.
  destruct (bool_decide (ct = ClusterTypeOpenShift)) eqn:E;
    destruct ls as [|lm [|lr [|li [|]]]]; try discriminate Hlen;
    cbn [resourceSets app rendered concat] in Hs, Hl; rewrite app_nil_r in Hl.
  - pose proof Hs as (s1 & H1 & s2 & H2 & s3 & H3 & _). exists lm, lr, li. split; [done|].
    cbn zeta. split_and!; [done|done| |done|done].
    apply render_filtered in H2, H3; [|done..]. by apply Forall_app.
  - pose proof Hs as (s1 & H1 & s2 & H2 & _). exists lm, lr, []. split; [done|].
    cbn zeta. split_and!; [done|by rewrite app_nil_r| |done|done].
    apply render_filtered in H2; [|done..]. by rewrite app_nil_r.
Qed.

(** C25: A rendering that fails never marks the request as generated, and drops
    none of its resources; and it fails closed: with a TLS profile that cannot
    be translated it always fails, and appends nothing. *)
Theorem renderManifests_fails_closed (m : trainerActions) (rr : request O K C Ver) :
  let out := renderManifests (A:=A) Quote range_src range_dst m rr in
  (is_ok out.1 = false → appends rr out.2) ∧
  (is_ok (TranslateProfile Quote (a_tlsProfile m)) = false →
     is_ok out.1 = false ∧ rr_resources out.2 = rr_resources rr).
Proof.
  cbn zeta. unfold renderManifests, gets, wrapping. unfold mbind, M_bind. rewrite on_client_run.
  destruct (DetectClusterType (rr_cluster rr)) as [[ct|e] k1]; cbn [fst snd wrap_err].
  - split.
    + intros Hf. pose proof (render_sets_appends (A:=A) Quote range_src range_dst m
        (resourceSets m (resolveNamespace (rr_instance rr)) (bool_decide (ct = ClusterTypeOpenShift)))
        (set_cluster k1 rr)) as Hp. destruct (forM _ _ _) as [[[]|e] rr2]; [done|]. apply Hp.
    + intros Ht. cbn [resourceSets app]. rewrite forM_cons, render_set_run.
      destruct (renderResourceSet _ _ _ _ (manifests_set _ _) _) as [[l|e] s1] eqn:E; [|done].
      apply render_tls in E as [opts Ho]; [|done]. by rewrite Ho in Ht.
  - split; [|done]. intros _. split; [by exists []; rewrite app_nil_r|done].
Qed.

End render_properties.

(** The filter removes exactly the ConfigMaps and keeps the order of the
    other items. *)
Theorem filterConfigMaps_spec {O V : Type} `{!Objects O V} (items : list O) :
  filterConfigMaps items = filter (λ o, GetKind o ≠ "ConfigMap") items ∧
  filterConfigMaps (filterConfigMaps items) = filterConfigMaps items ∧
  ∀ o, o ∈ filterConfigMaps items ↔ GetKind o ≠ "ConfigMap" ∧ o ∈ items.
Proof.
  rewrite !filterConfigMaps_filter. split; [done|]. split.
  - rewrite list_filter_filter. apply list_filter_iff. intros x. split; [by intros []|done].
  - intros o. by rewrite list_elem_of_filter.
Qed.

(** *** Witnesses *)

#[local] Instance ex_yaml : YamlMaps string := {|
  of_options o := MinVersion o;
  yaml_Unmarshal raw :=
    if HasPrefix raw "%" then Err (ErrNew "yaml: bad directive")
    else Ok (if bool_decide (raw = "") then None else Some {["raw" := raw]});
  yaml_Marshal cfg := Ok (String.concat newline ((λ kv, kv.1 +:+ ": " +:+ kv.2) <$> map_to_list cfg));
|}.

(** A renderer that gives the items of the last component of the path. *)
Definition ex_items (p : path) : list obj :=
  match reverse p with
  | "rhoai" :: _ =>
      [Obj (GVK "" "v1" "ConfigMap") "kubeflow-trainer-config-5k2m" "apps" ∅ [] false
         [("data", JMap [(operandConfigKey, JStr "health: true")])];
       Obj (GVK "apps" "v1" "Deployment") operandDeploymentName "apps" ∅ [] false
         [("spec", JMap [("template", JMap [("metadata", JMap [])])])]]
  | "runtimes" :: _ =>
      [Obj (GVK "" "v1" "ConfigMap") "params" "" ∅ [] false []; Obj (GVK "trainer.kubeflow.org" "v1alpha1" "ClusterTrainingRuntime") "torch" "" ∅ [] false []]
  | _ => []
  end.

#[local] Instance ex_kustomize : Kustomize obj := {|
  kustomize_Render p opts := mret (ex_items p);
|}.

#[local] Existing Instance ex_tables.

Definition ex_actions : trainerActions :=
  TrainerActions ex_template ex_template ex_template ["tmp"; "work"] ex_profile.

Definition ex_rendered : request obj cluster (gmap string (bool * string * string)) string :=
  (renderManifests (A:=string) id map_to_list map_to_list ex_actions
     (set_os ex_disk (ex_request empty_cluster "apps"))).2.

Lemma renderManifests_ok_witness :
  GetKind (V:=json) <$> rr_resources ex_rendered = ["ConfigMap"; "Deployment"; "ClusterTrainingRuntime"] ∧
  rr_generated ex_rendered = true.
Proof.
  assert (is_ok (renderManifests (A:=string) id map_to_list map_to_list ex_actions
     (set_os ex_disk (ex_request (O:=obj) empty_cluster "apps"))).1 = true) as Hok by by vm_compute.
  destruct (renderManifests_ok _ _ _ _ _ _ (run_ok _ _ Hok))
    as (ct & lm & lr & li & _ & _ & _ & _ & Hg & _).
  split; [by vm_compute|exact Hg].
Defined.

Definition ex_applied : list obj :=
  match applyOperandTLSOptions (A:=string) id (ex_items ["rhoai"]) ex_profile with Ok l => l | Err _ => [] end.

Lemma applyOperandTLSOptions_ok_witness :
  ∃ h, last_config_hash ex_applied h ∧ String.length h = 64.
Proof.
  assert (applyOperandTLSOptions (A:=string) id (ex_items ["rhoai"]) ex_profile = Ok ex_applied) as Hok
    by by vm_compute.
  destruct (applyOperandTLSOptions_ok _ _ _ _ Hok) as (opts & _ & [[Hn _]|(h & Hl & _)]).
  - exfalso. inversion Hn as [|x l Hx _]. apply Hx. split_and!; [done|done|]. by eexists.
  - exists h. split; [exact Hl|]. destruct Hl as (l1 & x & l2 & out & _ & _ & _ & -> & _). apply hash_length.
Defined.
