(* ===== verification/Rendering.v ===== *)
(** What a rendering reads: the parameters that are in the work directory when
    kustomize runs, at the first reconciliation and at every later one. *)

From S2P Require Import Prelude GoStrings GoOS Params Kube ApiTypes KubeStore Request Namespace.
From S2P Require Import OperandTLS Workdir Manifests.
Open Scope string_scope.
Open Scope nat_scope.
Open Scope list_scope.

(** ** Specification *)

Section spec.
Context {O V A : Type} `{!Objects O V, !YamlMaps A, !TLSTables, !Kustomize O} (Quote : string → string).
Context (range_src range_dst : gmap string string → list (string * string)).
Context (m : trainerActions) (rs : resourceSet).

Definition set_work : path := GoOS.Join (a_workDir m) (rs_subDir rs).

(** The directory of the overlay in the tree at [root]. *)
Definition overlay_of (root : path) : path :=
  if bool_decide (rs_overlay rs = "") then root else GoOS.Join root (rs_overlay rs).

Definition params_of (root : path) : path := GoOS.Join (overlay_of root) "params.env".

(** The work of [renderResourceSet] up to kustomize, and from there on. *)
Definition prepare_set : M os unit :=
  wrapping ("preparing " +:+ rs_name rs +:+ " work directory")
    (ensureWorkDir (rs_templatePath rs) set_work);;
  wrapping ("resolving " +:+ rs_name rs +:+ " params")
    (applyParamOverrides range_src range_dst (overlay_of set_work) (rs_paramMap rs));;
  (if bool_decide (rs_staticParams rs = ∅) then mret tt
   else wrapping ("applying " +:+ rs_name rs +:+ " static params")
          (applyStaticParams range_src range_dst (overlay_of set_work) (rs_staticParams rs))).

Definition finish_set : M os (list O) :=
  rendered ← wrapping ("rendering " +:+ rs_name rs) (renderOverlay (overlay_of set_work) (rs_namespace rs));
  let rendered := if rs_filterConfigMaps rs then filterConfigMaps rendered else rendered in
  if rs_operandTLS rs
  then wrapping ("applying operand TLS options to " +:+ rs_name rs)
         (lift (applyOperandTLSOptions (A:=A) Quote rendered (a_tlsProfile m)))
  else mret rendered.

(** The parameters in force: the static ones over the environment's over the
    file's. *)
Definition resolved (s : os) (file : gmap string string) : gmap string string :=
  rs_staticParams rs ∪ (env_overrides s (rs_paramMap rs) ∪ file).

(** The work directory is there, its parameter file has the text [c]. *)
Definition prepared (c : string) (s : os) : Prop :=
  quiet s ∧ os_nodes s !! set_work = Some Dir ∧ os_nodes s !! overlay_of set_work = Some Dir ∧
  os_nodes s !! params_of set_work = Some (File c) ∧ param_place (os_nodes s) (params_of set_work).

(** The work directory can be made, and the template's parameter file has the
    text [c]. *)
Definition unprepared (c : string) (s : os) : Prop :=
  quiet s ∧ copy_ready (os_nodes s) (rs_templatePath rs) set_work ∧
  os_nodes s !! params_of (rs_templatePath rs) = Some (File c) ∧
  param_place (os_nodes s) (params_of (rs_templatePath rs)).

(** Two disks that differ at most in the order of the lines of one file, which
    has exactly one line for each of the parameters. *)
Definition reordered (f : path) (params : gmap string string) (s s' : os) : Prop :=
  quiet s ∧ quiet s' ∧ os_env s' = os_env s ∧ (∀ q, q ≠ f → os_nodes s' !! q = os_nodes s !! q) ∧
  ∃ l l', l ≡ₚ map_to_list params ∧ l' ≡ₚ map_to_list params ∧
    os_nodes s !! f = Some (File (Params.render l)) ∧ os_nodes s' !! f = Some (File (Params.render l')).

End spec.

(** ** Lemmas *)

Lemma rewritten_trans range p m1 m2 s s1 s2 :
  rewritten range p m1 s s1 → rewritten range p m2 s1 s2 → rewritten range p m2 s s2.
Proof.
  intros (_ & He1 & Hn1) (Hq & He2 & Hn2). split_and!; [done|by rewrite He2|].
  rewrite Hn2, Hn1. pose proof (tmp_ne p). rewrite delete_insert_ne by done.
  by rewrite delete_delete_eq, insert_insert_eq.
Qed.

(** A rewrite with the parameters that are there changes nothing. *)
Lemma rewritten_again range p m s s1 s2 :
  rewritten range p m s s1 → rewritten range p m s1 s2 → s2 = s1.
Proof.
  intros (Hq1 & He1 & Hn1) H2. pose proof (rewritten_trans _ _ m _ s s1 s2 ltac:(by split_and!) H2) as (Hq & He & Hn).
  destruct s1, s2; cbn in *; unfold quiet in *; cbn in *. congruence.
Qed.

Lemma path_append_snoc d x t : path_append (d ++ [x]) t = d ++ [x +:+ t].
Proof.
  induction d as [|y d IH]; [done|]. cbn [app path_append].
  destruct (d ++ [x]) eqn:E; [by destruct d|]. by rewrite IH.
Qed.

Section lemmas.
Context {O V A : Type} `{!Objects O V, !YamlMaps A, !TLSTables, !Kustomize O} (Quote : string → string).
Context (range_src range_dst : gmap string string → list (string * string)).
Context (m : trainerActions) (rs : resourceSet).

#[local] Abbreviation render := (renderResourceSet (A:=A) Quote range_src range_dst m rs).
#[local] Abbreviation prepare := (prepare_set range_src range_dst m rs).
#[local] Abbreviation finish := (finish_set (A:=A) Quote m rs).
#[local] Abbreviation work := (set_work m rs).
#[local] Abbreviation file := (params_of rs work).

Lemma render_split s : render s = (prepare;; finish) s.
Proof.
  unfold renderResourceSet, prepare_set, finish_set, overlay_of, set_work. unfold mbind, M_bind.
  destruct (wrapping _ (ensureWorkDir _ _) s) as [[[]|e] s1]; [|done].
  destruct (wrapping _ (applyParamOverrides _ _ _ _) s1) as [[[]|e] s2]; [|done].
  case_bool_decide; [done|].
  by destruct (wrapping _ (applyStaticParams _ _ _ _) s2) as [[[]|e] s3].
Qed.

Lemma overlay_app root : overlay_of rs root = root ++ overlay_of rs [].
Proof. unfold overlay_of. case_bool_decide; [by rewrite app_nil_r|done]. Qed.

Lemma params_app root : params_of rs root = root ++ overlay_of rs [] ++ ["params.env"].
Proof. unfold params_of, GoOS.Join. by rewrite overlay_app, app_assoc. Qed.

Lemma params_tmp root : path_append (params_of rs root) ".tmp" = root ++ overlay_of rs [] ++ ["params.env.tmp"].
Proof. rewrite params_app, !app_assoc. apply path_append_snoc. Qed.

(** The copy of a template makes a prepared work directory. *)
Lemma prepared_copy c s m' : unprepared m rs c s →
  (∀ q, m' !! q = with_copy (os_nodes s) (rs_templatePath rs) work q) →
  prepared m rs c (set_nodes m' s).
Proof.
  intros (Hq & Hready & Hc & Hp) Hm. pose proof Hready as ((_ & Hw) & Hs & _).
  assert (∀ r, m' !! (work ++ r) = image (os_nodes s !! (rs_templatePath rs ++ r))) as Hcopy.
  { intros r. rewrite Hm. unfold with_copy. by rewrite Rel_app. }
  assert (os_nodes s !! (rs_templatePath rs ++ overlay_of rs []) = Some Dir) as Hdir.
  { rewrite params_app, app_assoc in Hc. by eapply Hw. }
  destruct Hp as [_ Ht]. rewrite params_tmp in Ht. cbn zeta in Ht.
  split_and!; cbn [os_nodes set_nodes]; [done|..].
  - by rewrite <-(app_nil_r work), Hcopy, app_nil_r, Hs.
  - by rewrite overlay_app, Hcopy, Hdir.
  - by rewrite params_app, Hcopy, <-params_app, Hc.
  - split; [exists c; by rewrite params_app, Hcopy, <-params_app, Hc|].
    cbn zeta. rewrite params_tmp, Hcopy. destruct Ht as [[c' Ht]|[Ht _]]; rewrite Ht; [left; by eexists|].
    right. split; [done|]. by rewrite app_assoc, parent_snoc, Hcopy, Hdir.
Qed.

Lemma prepared_keeps c s : prepared m rs c s → ensureWorkDir (rs_templatePath rs) work s = (Ok tt, s).
Proof.
  intros (Hq & Hw & Hd & Hc & _). unfold params_of, overlay_of, GoOS.Join in *.
  destruct (bool_decide _); by eapply ensureWorkDir_kept.
Qed.

Lemma prepared_rewritten c params s s' : prepared m rs c s → rewritten range_dst file params s s' →
  prepared m rs (Params.render (range_dst params)) s'.
Proof.
  intros (Hq & Hw & Hd & Hc & Hp) (Hq' & _ & Hn).
  assert (∀ q, os_nodes s !! q = Some Dir → os_nodes s' !! q = Some Dir) as Hdir.
  { intros q Hqd. rewrite Hn, lookup_insert_ne, lookup_delete_ne; [done|..].
    - intros <-. destruct Hp as [_ [[c' Ht]|[Ht _]]]; congruence.
    - congruence. }
  split_and!; [done|by apply Hdir..|by rewrite Hn, lookup_insert_eq|].
  split; [rewrite Hn, lookup_insert_eq; by eexists|]. right. rewrite Hn. split.
  - rewrite lookup_insert_ne, lookup_delete_eq by (intros E; symmetry in E; by apply tmp_ne in E). done.
  - rewrite <-Hn, params_tmp, app_assoc, parent_snoc, <-overlay_app. by apply Hdir.
Qed.

(** The parameters in force are fixed by a rewrite with them. *)
Lemma resolved_resolved s s' params : os_env s' = os_env s →
  resolved rs s' (resolved rs s params) = resolved rs s params.
Proof.
  intros He. unfold resolved. replace (env_overrides s') with (env_overrides s)
    by (unfold env_overrides, Getenv; by rewrite He).
  apply map_eq. intros k. rewrite !lookup_union.
  destruct (rs_staticParams rs !! k), (env_overrides s (rs_paramMap rs) !! k), (params !! k); done.
Qed.

Lemma prepare_prepared c params s : enumerates range_src → enumerates range_dst →
  wf_params (env_overrides s (rs_paramMap rs)) →
  prepared m rs c s → parse c = Ok params →
  ∃ s', prepare s = (Ok tt, s') ∧ rewritten range_dst file (resolved rs s params) s s'.
Proof.
  intros Hrs Hrd Hw Hprep Hc. pose proof Hprep as (Hq & _ & _ & Hf & Hp).
  unfold prepare_set, wrapping. unfold mbind, M_bind. rewrite (prepared_keeps c s Hprep). cbn [wrap_err].
  destruct (applyParamOverrides_rewrites range_src range_dst (overlay_of rs work) (rs_paramMap rs) s c params)
    as (s1 & -> & H1); [done..|]. cbn [wrap_err]. unfold resolved.
  case_bool_decide as Hs.
  - exists s1. rewrite Hs, (left_id ∅ (∪)). done.
  - pose proof (prepared_rewritten c _ s s1 Hprep H1) as (Hq1 & _ & _ & Hf1 & Hp1).
    destruct (applyStaticParams_rewrites range_src range_dst (overlay_of rs work) (rs_staticParams rs) s1
      (Params.render (range_dst (env_overrides s (rs_paramMap rs) ∪ params)))
      (env_overrides s (rs_paramMap rs) ∪ params)) as (s2 & -> & H2); [done..| |done|].
    { apply parse_render; [apply Hrd|]. apply wf_params_union; [done|by eapply parse_wf]. }
    exists s2. split; [done|]. by eapply rewritten_trans.
Qed.

(** The preparation from a prepared work directory or from the template. *)
Lemma prepare_from c params s : enumerates range_src → enumerates range_dst →
  wf_params (env_overrides s (rs_paramMap rs)) → parse c = Ok params →
  prepared m rs c s ∨ unprepared m rs c s →
  ∃ s0 s', ensureWorkDir (rs_templatePath rs) work s = (Ok tt, s0) ∧ prepared m rs c s0 ∧ os_env s0 = os_env s ∧
    (s0 = s ∨ ∀ q, os_nodes s0 !! q = with_copy (os_nodes s) (rs_templatePath rs) work q) ∧
    prepare s = (Ok tt, s') ∧ rewritten range_dst file (resolved rs s params) s0 s'.
Proof.
  intros Hrs Hrd Henv Hparse Hwork.
  assert (∃ s0, ensureWorkDir (rs_templatePath rs) work s = (Ok tt, s0) ∧ prepared m rs c s0 ∧ os_env s0 = os_env s ∧
    (s0 = s ∨ ∀ q, os_nodes s0 !! q = with_copy (os_nodes s) (rs_templatePath rs) work q))
    as (s0 & Hens & Hprep & He0 & Hn0).
  { destruct Hwork as [Hp|Hu]; [exists s; split_and!; [by eapply prepared_keeps|done|done|by left]|].
    destruct (ensureWorkDir_run s (rs_templatePath rs) work) as (m' & Hrun & Hm'); [apply Hu..|].
    exists (set_nodes m' s). split_and!; [done|by apply prepared_copy|done|by right]. }
  assert (env_overrides s0 (rs_paramMap rs) = env_overrides s (rs_paramMap rs)) as Heo
    by (unfold env_overrides, Getenv; by rewrite He0).
  rewrite <-Heo in Henv. replace (resolved rs s params) with (resolved rs s0 params)
    by (unfold resolved; by rewrite Heo).
  destruct (prepare_prepared c params s0) as (s' & Hrun & Hre); [done..|].
  exists s0, s'. split_and!; try done. rewrite <-Hrun. unfold prepare_set, wrapping. unfold mbind, M_bind.
  by rewrite Hens, (prepared_keeps c s0 Hprep).
Qed.

(** Two rewrites with the same parameters, in two orders. *)
Lemma rewritten_reordered range range' p params s s1 s2 : enumerates range → enumerates range' →
  rewritten range p params s s1 → rewritten range' p params s s2 → reordered p params s1 s2.
Proof.
  intros Hr Hr' (Hq1 & He1 & Hn1) (Hq2 & He2 & Hn2). split_and!; [done|done|by rewrite He1, He2| |].
  - intros q Hne. by rewrite Hn1, Hn2, !lookup_insert_ne.
  - exists (range params), (range' params). by rewrite Hn1, Hn2, !lookup_insert_eq.
Qed.

Lemma resolved_wf s params c : wf_params (env_overrides s (rs_paramMap rs)) → wf_params (rs_staticParams rs) →
  parse c = Ok params → wf_params (resolved rs s params).
Proof. intros. apply wf_params_union; [done|]. apply wf_params_union; [done|by eapply parse_wf]. Qed.

End lemmas.

(** ** Properties *)

Section properties.
Context {O V A : Type} `{!Objects O V, !YamlMaps A, !TLSTables, !Kustomize O} (Quote : string → string).
Context (range_src range_dst : gmap string string → list (string * string)).

(** C27: What kustomize gets to read.  Without failing system calls, from a work
    directory that is prepared or can be made from the template, the rendering
    of a set runs kustomize on a directory whose parameter file holds exactly
    the file's parameters overridden by the environment and then by the static
    ones; every other file is the template's (or what the directory held).  A
    further rendering with the same environment runs kustomize on the very same
    files: reconciling again does not make the parameters drift. *)
Theorem renderResourceSet_params (m : trainerActions) (rs : resourceSet) (s : os) (c : string)
    (params : gmap string string)
    (Hrs : enumerates range_src) (Hrd : enumerates range_dst)
    (Henv : wf_params (env_overrides s (rs_paramMap rs))) (Hstatic : wf_params (rs_staticParams rs))
    (Hparse : parse c = Ok params)
    (Hwork : prepared m rs c s ∨ unprepared m rs c s) :
  let render := renderResourceSet (A:=A) Quote range_src range_dst m rs in
  let finish := finish_set (A:=A) Quote m rs in
  let file := params_of rs (set_work m rs) in
  ∃ s', readParams file s' = (Ok (resolved rs s params), s') ∧ os_env s' = os_env s ∧
    (∀ q, q ≠ file → q ≠ path_append file ".tmp" →
       os_nodes s' !! q = os_nodes (ensureWorkDir (rs_templatePath rs) (set_work m rs) s).2 !! q) ∧
    render s = finish s' ∧ render s' = finish s'.
Proof.
  intros render finish file.
  destruct (prepare_from range_src range_dst m rs c params s) as (s0 & s' & Hens & Hprep & He0 & _ & Hrun & Hre);
    [done..|].
  pose proof (resolved_wf rs s params c Henv Hstatic Hparse) as Hwf.
  pose proof (prepared_rewritten _ _ _ _ _ _ _ Hprep Hre) as Hprep'. pose proof Hre as (_ & He & Hn).
  exists s'. split; [by eapply rewritten_read|]. split; [by rewrite He|]. split; [|split].
  - intros q H1 H2. by rewrite Hens, Hn, lookup_insert_ne, lookup_delete_ne.
  - unfold render. rewrite render_split. unfold mbind, M_bind. by rewrite Hrun.
  - unfold render. rewrite render_split. unfold mbind, M_bind.
    destruct (prepare_prepared range_src range_dst m rs (Params.render (range_dst (resolved rs s params)))
      (resolved rs s params) s') as (s2 & -> & H2); [done..| |done| |].
    { unfold env_overrides, Getenv. rewrite He, He0. done. }
    { apply parse_render; [apply Hrd|done]. }
    rewrite resolved_resolved in H2 by (by rewrite He, He0). by rewrite (rewritten_again _ _ _ _ _ _ Hre H2).
Qed.

(** C28: Go's map order does not matter.  The loops over the maps of parameters
    visit the keys in an order that Go leaves open.  Whatever the orders of two
    renderings of a set from the same disk are, they run kustomize, and what
    follows it, on disks that are the same but for the order of the lines of the
    parameter file; in both files every parameter in force has exactly one line,
    and the operator reads the same parameters from them. *)
Theorem render_order_irrelevant (range_src' range_dst' : gmap string string → list (string * string))
    (m : trainerActions) (rs : resourceSet) (s : os) (c : string) (params : gmap string string)
    (Hrs : enumerates range_src) (Hrd : enumerates range_dst) (Hrs' : enumerates range_src') (Hrd' : enumerates range_dst')
    (Henv : wf_params (env_overrides s (rs_paramMap rs))) (Hstatic : wf_params (rs_staticParams rs))
    (Hparse : parse c = Ok params) (Hwork : prepared m rs c s ∨ unprepared m rs c s) :
  let file := params_of rs (set_work m rs) in
  ∃ s1 s2, reordered file (resolved rs s params) s1 s2 ∧
    renderResourceSet (A:=A) Quote range_src range_dst m rs s = finish_set (A:=A) Quote m rs s1 ∧
    renderResourceSet (A:=A) Quote range_src' range_dst' m rs s = finish_set (A:=A) Quote m rs s2 ∧
    readParams file s1 = (Ok (resolved rs s params), s1) ∧ readParams file s2 = (Ok (resolved rs s params), s2).
Proof.
  intros file.
  destruct (prepare_from range_src range_dst m rs c params s) as (s0 & s1 & Hens & _ & He & _ & Hrun & Hre); [done..|].
  destruct (prepare_from range_src' range_dst' m rs c params s) as (s0' & s2 & Hens' & _ & _ & _ & Hrun' & Hre'); [done..|].
  rewrite Hens in Hens'. injection Hens' as <-. pose proof (resolved_wf rs s params c Henv Hstatic Hparse) as Hwf.
  exists s1, s2. split; [exact (rewritten_reordered _ _ _ _ _ _ _ Hrd Hrd' Hre Hre')|]. rewrite !render_split. unfold mbind, M_bind.
  rewrite Hrun, Hrun'. split_and!; [done|done|exact (rewritten_read _ _ _ _ _ Hrd Hwf Hre)|exact (rewritten_read _ _ _ _ _ Hrd' Hwf Hre')].
Qed.

End properties.

(** *** Witness *)

(** A first rendering of the operand's manifests with the controller's image in
    the environment. *)
#[local] Existing Instances ex_yaml ex_kustomize ex_tables.

Definition ex_env_disk : os :=
  OS ex_tree (list_to_map [("RELATED_IMAGE_ODH_TRAINER_IMAGE", "trainer:v2")]) [].

Definition ex_set : resourceSet := manifests_set ex_actions "apps".

Lemma ex_unprepared : unprepared ex_actions ex_set "image=x" ex_env_disk.
Proof.
  split_and!; [done|apply ex_ready|by vm_compute|]. split; [eexists; by vm_compute|].
  right. split; by vm_compute.
Qed.

Lemma renderResourceSet_params_witness :
  ∃ s', readParams (ex_work ++ ["rhoai"; "params.env"]) s' =
      (Ok (list_to_map [("image", "x"); (imageParamControllerImage, "trainer:v2");
                        (paramOperatorNamespace, "apps")]), s') ∧
    os_nodes s' !! (ex_work ++ ["base.yaml"]) = Some (File "base") ∧
    renderResourceSet (A:=string) id map_to_list map_to_list ex_actions ex_set ex_env_disk =
    renderResourceSet (A:=string) id map_to_list map_to_list ex_actions ex_set s'.
Proof.
  destruct (renderResourceSet_params (A:=string) (O:=obj) id map_to_list map_to_list ex_actions ex_set
    ex_env_disk "image=x" {["image" := "x"]}) as (s' & Hread & _ & Hother & H1 & H2).
  - exact enumerates_self.
  - exact enumerates_self.
  - apply (bool_decide_unpack _). by vm_compute.
  - apply (bool_decide_unpack _). by vm_compute.
  - by vm_compute.
  - right. exact ex_unprepared.
  - exists s'. split; [|split].
    + exact Hread.
    + rewrite Hother; [by vm_compute|done..].
    + exact (eq_trans H1 (eq_sym H2)).
Defined.

(** A map visited backwards. *)
Definition backwards (m : gmap string string) : list (string * string) := reverse (map_to_list m).

Lemma backwards_enumerates : enumerates backwards.
Proof. intros m. unfold backwards. by rewrite reverse_Permutation. Qed.

(** The same three parameters, in two orders. *)
Lemma render_order_irrelevant_witness :
  ∃ s1 s2, reordered (ex_work ++ ["rhoai"; "params.env"])
      (list_to_map [("image", "x"); (imageParamControllerImage, "trainer:v2"); (paramOperatorNamespace, "apps")]) s1 s2 ∧
    renderResourceSet (A:=string) id map_to_list map_to_list ex_actions ex_set ex_env_disk = finish_set (A:=string) id ex_actions ex_set s1 ∧
    renderResourceSet (A:=string) id backwards backwards ex_actions ex_set ex_env_disk = finish_set (A:=string) id ex_actions ex_set s2 ∧
    (renderResourceSet (A:=string) id map_to_list map_to_list ex_actions ex_set ex_env_disk).2 ≠
    (renderResourceSet (A:=string) id backwards backwards ex_actions ex_set ex_env_disk).2.
Proof.
  destruct (render_order_irrelevant (A:=string) (O:=obj) id map_to_list map_to_list backwards backwards
    ex_actions ex_set ex_env_disk "image=x" {["image" := "x"]}) as (s1 & s2 & Hre & H1 & H2 & _).
  - exact enumerates_self.
  - exact enumerates_self.
  - exact backwards_enumerates.
  - exact backwards_enumerates.
  - apply (bool_decide_unpack _). by vm_compute.
  - apply (bool_decide_unpack _). by vm_compute.
  - by vm_compute.
  - right. exact ex_unprepared.
  - exists s1, s2. split; [exact Hre|]. split; [exact H1|]. split; [exact H2|].
    intros E%(f_equal (λ s, os_nodes s !! (ex_work ++ ["rhoai"; "params.env"]))). vm_compute in E. discriminate E.
Defined.
