(* ===== verification/Containment.v ===== *)
(** What the operator's own code writes: everything is at or below the work
    directory, whatever system calls fail. *)

From S2P Require Import Prelude GoStrings GoOS Params Kube ApiTypes Request Namespace Releases.
From S2P Require Import OperandTLS Workdir CopySafety Manifests Rendering.
Open Scope string_scope.
Open Scope nat_scope.
Open Scope list_scope.

(** ** Lemmas *)

Lemma path_append_app d r t : r ≠ [] → path_append (d ++ r) t = d ++ path_append r t.
Proof.
  intros Hr. induction d as [|y d IH]; [done|]. cbn [app path_append].
  destruct (d ++ r) eqn:E; [by apply app_eq_nil in E as [_ ->]|]. by rewrite IH.
Qed.

Lemma ReadDir_frame ps p : preserves (frame ps) (ReadDir p).
Proof.
  apply preserves_bind; [apply _|auto with trainer|]. intros [] s. unfold follow, node_at, get.
  unfold mbind, M_bind. destruct (resolve 40 (os_nodes s) p) as [q|]; [|done].
  destruct (os_nodes s !! q) as [[]|]; cbn; try done. pose proof (syscall_frame ps s).
  by destruct (syscall s) as [[[]|e] s1].
Qed.

(** Go through a run: its binds, its case distinctions, its returns. *)
Ltac running :=
  repeat lazymatch goal with
    | |- preserves _ (mbind _ _) => apply preserves_bind; [apply _| |intros ?]
    | |- preserves _ (try _) => apply preserves_try
    | |- preserves _ (wrapping _ _) => apply preserves_wrapping
    | |- preserves _ (mret _) => apply preserves_ret; apply _
    | |- preserves _ (throw _) => apply preserves_throw; apply _
    | |- preserves _ get => by intros ?
    | |- preserves _ (if bool_decide _ then _ else _) => case_bool_decide
    | |- preserves _ (if decide _ then _ else _) => case_decide
    | |- preserves _ (match ?x with _ => _ end) => destruct x
    end.

(** And its calls that only read. *)
Ltac keeping := running; try solve [apply frame_keeps; auto with trainer].

Section below.
Context (s0 : os) (top : path).
#[local] Abbreviation kept := (keeps s0 top).

(** *** Copies *)

Lemma walk_keeps fuel fn p n : (∀ p i e, preserves kept (fn p i e)) → preserves kept (walk fuel fn p n).
Proof.
  intros Hfn. revert p n. induction fuel as [|fuel IH]; intros p n; cbn [walk]; [keeping|].
  destruct n; [apply Hfn| |apply Hfn].
  apply preserves_bind; [apply _|apply preserves_try, frame_keeps, ReadDir_frame|]. intros [names|e]; [|apply Hfn].
  apply preserves_bind; [apply _|apply Hfn|]. intros [].
  apply forM_preserves; [apply _..|]. intros name _.
  apply preserves_bind; [apply _|apply preserves_try, Lstat_keeps|]. intros [i|e]; [apply IH|apply Hfn].
Qed.

Lemma copyDir_keeps src sub : preserves kept (copyDir src (top ++ sub)).
Proof.
  unfold copyDir, Walk. apply preserves_bind; [apply _|by intros s|]. intros s.
  apply preserves_bind; [apply _|apply preserves_try, Lstat_keeps|].
  intros [n|e]; [apply walk_keeps; intros|]; apply copy_entry_keeps_below.
Qed.

Lemma ensureWorkDir_keeps_top src sub : preserves kept (ensureWorkDir src (top ++ sub)).
Proof.
  apply preserves_bind; [apply _|apply preserves_try, frame_keeps, ReadDir_frame|].
  intros [[|]|]; [apply copyDir_keeps|by intros ?|apply copyDir_keeps].
Qed.

(** *** Parameter files *)

Lemma bufWrite_keeps r b d : preserves kept (bufWrite (top ++ r) b d).
Proof. unfold bufWrite. keeping; try apply Write_keeps. Qed.

Lemma bufFlush_keeps r b : preserves kept (bufFlush (top ++ r) b).
Proof. unfold bufFlush. keeping; apply Write_keeps. Qed.

Lemma write_lines_keeps r b l : preserves kept (write_lines (top ++ r) b l).
Proof.
  revert b. induction l as [|kv l IH]; intros b; [by intros ?|].
  apply preserves_bind; [apply _|apply bufWrite_keeps|intros b'; apply IH].
Qed.

Lemma Remove_keeps r : preserves kept (Remove (top ++ r)).
Proof.
  apply preserves_bind; [apply _|apply frame_keeps; auto with trainer|]. intros [] s.
  assert (preserves kept (upd_nodes (delete (top ++ r)))) as Hd.
  { apply (upd_keeps _ _ _ r); intros; [by apply lookup_delete_ne|by rewrite lookup_delete_eq]. }
  unfold node_at. unfold mbind, M_bind. destruct (os_nodes s !! (top ++ r)) as [[]|]; cbn; try apply Hd; by intros ?.
Qed.

Lemma Rename_keeps r1 r2 : preserves kept (Rename (top ++ r1) (top ++ r2)).
Proof.
  apply preserves_bind; [apply _|apply frame_keeps; auto with trainer|]. intros [] s Hc.
  unfold node_at. unfold mbind, M_bind.
  assert (∀ n, os_nodes s !! (top ++ r1) = Some n →
    contained top s0 (upd_nodes (λ m, <[top ++ r2 := n]> (delete (top ++ r1) m)) s).2) as Hu.
  { intros n Hn. destruct Hc as (He & Ho & Hl). split_and!; [done| |]; cbn.
    - intros q Hq. rewrite lookup_insert_ne, lookup_delete_ne; [by apply Ho| |]; intros <-; by rewrite Rel_app in Hq.
    - intros r t. destruct (decide (top ++ r2 = top ++ r)) as [<-|H2].
      + rewrite lookup_insert_eq. intros [= ->]. by apply (Hl r1 t).
      + rewrite lookup_insert_ne by done. destruct (decide (top ++ r1 = top ++ r)) as [<-|H1];
          [by rewrite lookup_delete_eq|by rewrite lookup_delete_ne]. }
  destruct (os_nodes s !! (top ++ r1)) as [[c| |t]|] eqn:E1;
    destruct (os_nodes s !! (top ++ r2)) as [[]|]; cbn; try done; by apply Hu.
Qed.

Lemma writeParams_keeps range r m : r ≠ [] → preserves kept (writeParams range (top ++ r) m).
Proof.
  intros Hr s Hc. unfold writeParams. rewrite path_append_app by done.
  destruct (Create_keeps s0 top (path_append r ".tmp") s Hc) as [Hc1 Hh].
  unfold mbind at 1, M_bind at 1. destruct (Create _ s) as [[h|e] s1]; cbn [fst snd] in *; [|done].
  rewrite (Hh h eq_refl). clear Hh Hc. revert Hc1.
  match goal with |- _ → contained _ _ (?run s1).2 => cut (preserves kept run); [intros H; apply H|] end.
  assert (∀ h, preserves kept (Close h)) as HC by (intros; apply frame_keeps, syscall_frame).
  keeping; by auto using write_lines_keeps, bufFlush_keeps, Remove_keeps, Rename_keeps.
Qed.

Lemma update_file_keeps range r new : r ≠ [] →
  preserves kept (update_file (writeParams range (top ++ r)) (top ++ r) new).
Proof.
  intros Hr. unfold update_file. keeping. by apply writeParams_keeps.
Qed.

Lemma params_env d : Join (top ++ d) "params.env" = top ++ (d ++ ["params.env"]).
Proof. unfold Join. by rewrite app_assoc. Qed.

Lemma applyParamOverrides_keeps rs rd d pm : preserves kept (applyParamOverrides rs rd (top ++ d) pm).
Proof. intros s. rewrite applyParamOverrides_update, params_env. apply update_file_keeps. by destruct d. Qed.

Lemma applyStaticParams_keeps rs rd d v : preserves kept (applyStaticParams rs rd (top ++ d) v).
Proof. intros s. rewrite applyStaticParams_update, params_env. apply update_file_keeps. by destruct d. Qed.

End below.

(** *** Renderings *)

(** Nothing at all happens to the files when no system call is to fail. *)
Definition still (s s' : os) : Prop := quiet s → s' = s.

(** kustomize reads files and writes none. *)
Class KustomizeReads (O : Type) `{!Kustomize O} : Prop := {
  kustomize_reads p opts : preserves (frame []) (kustomize_Render p opts);
  kustomize_still p opts : preserves still (kustomize_Render p opts);
}.

Section rendering.
Context {O V A : Type} `{!Objects O V, !YamlMaps A, !TLSTables, !Kustomize O, !KustomizeReads O} (Quote : string → string).
Context (range_src range_dst : gmap string string → list (string * string)).
Context {K C Ver : Type} `{!PlatformUtils O K}.
Context (s0 : os) (m : trainerActions).

Lemma finish_frame rs : preserves (frame []) (finish_set (A:=A) Quote m rs).
Proof.
  unfold finish_set. apply preserves_bind; [apply _|apply preserves_wrapping|].
  - apply preserves_wrapping, kustomize_reads.
  - intros items. destruct (rs_operandTLS rs); [apply preserves_wrapping, preserves_pure|apply preserves_ret]; apply _.
Qed.

(** For every directory above the work directory of the set. *)
Lemma renderResourceSet_keeps_at top sub rs : set_work m rs = top ++ sub →
  preserves (keeps s0 top) (renderResourceSet (A:=A) Quote range_src range_dst m rs).
Proof.
  intros Hwork s. rewrite render_split. revert s. change (preserves (keeps s0 top)
    (prepare_set range_src range_dst m rs;; finish_set (A:=A) Quote m rs)).
  apply preserves_bind; [apply _| |intros []; apply frame_keeps, finish_frame].
  assert (∃ d, overlay_of rs (set_work m rs) = top ++ d) as [d Hd].
  { rewrite Hwork. unfold overlay_of, Join. case_bool_decide; [by eexists|]. eexists. by rewrite <-app_assoc. }
  unfold prepare_set. rewrite Hd, Hwork.
  apply preserves_bind; [apply _|apply preserves_wrapping, ensureWorkDir_keeps_top|]. intros [].
  apply preserves_bind; [apply _|apply preserves_wrapping, applyParamOverrides_keeps|]. intros [].
  case_bool_decide; [apply preserves_ret, _|apply preserves_wrapping, applyStaticParams_keeps].
Qed.

Lemma renderResourceSet_keeps rs :
  preserves (keeps s0 (a_workDir m)) (renderResourceSet (A:=A) Quote range_src range_dst m rs).
Proof. by apply (renderResourceSet_keeps_at _ [rs_subDir rs]). Qed.

(** The files of a request stay confined. *)
Definition confined (s0 : os) (top : path) (rr rr' : request O K C Ver) : Prop :=
  contained top s0 (rr_os rr) → contained top s0 (rr_os rr').

#[export] Instance confined_refl top : Reflexive (confined s0 top).
Proof. by intros rr Hin. Qed.
#[export] Instance confined_trans top : Transitive (confined s0 top).
Proof. intros r1 r2 r3 H1 H2 Hin. by apply H2, H1. Qed.

Lemma on_os_confined {B} top (a : M os B) : preserves (keeps s0 top) a →
  preserves (confined s0 top) (on_os (O:=O) (K:=K) (C:=C) (Ver:=Ver) a).
Proof. intros Ha rr. rewrite on_os_run. apply Ha. Qed.

Lemma on_client_confined {B} top (a : M K B) :
  preserves (confined s0 top) (on_client (O:=O) (C:=C) (Ver:=Ver) a).
Proof. intros rr. rewrite on_client_run. by intros Hin. Qed.

Lemma renderManifests_confined :
  preserves (confined s0 (a_workDir m)) (renderManifests (A:=A) (K:=K) (C:=C) (Ver:=Ver) Quote range_src range_dst m).
Proof.
  unfold renderManifests. apply preserves_bind; [apply _|by intros rr|]. intros t.
  apply preserves_bind; [apply _|apply preserves_wrapping, on_client_confined|]. intros ct.
  apply preserves_bind; [apply _| |intros []; by intros rr Hin].
  apply forM_preserves; [apply _..|]. intros rs _. unfold render_set.
  apply preserves_bind; [apply _|apply on_os_confined, renderResourceSet_keeps|]. intros l. by intros rr Hin.
Qed.

End rendering.
