(* ===== verification/Interruption.v ===== *)
(** Renderings that are interrupted: system calls fail, or the operator is killed,
    while it prepares the parameters of a set.  The next rendering makes up for
    it, provided that the work directory could be read. *)

From S2P Require Import Prelude GoStrings GoOS Params Kube ApiTypes KubeStore Request Namespace.
From S2P Require Import OperandTLS Workdir Manifests Rendering Containment.
Open Scope string_scope.
Open Scope nat_scope.
Open Scope list_scope.

(** ** Specification *)

(** Nothing but a regular file is at [t]. *)
Definition plain (t : path) (s : os) : Prop := ∀ n, os_nodes s !! t = Some n → ∃ c, n = File c.

(** From [s0] to [s], the parameter file [f] was at most rewritten, with
    parameters that satisfy [Q], and a temporary file was left behind. *)
Definition settled (f : path) (Q : gmap string string → Prop) (s0 s : os) : Prop :=
  os_env s = os_env s0 ∧
  (∀ q, q ≠ f → q ≠ path_append f ".tmp" → os_nodes s !! q = os_nodes s0 !! q) ∧
  plain (path_append f ".tmp") s ∧
  ∃ c p, os_nodes s !! f = Some (File c) ∧ parse c = Ok p ∧ Q p.

(** The same disk, with no failing call ahead. *)
Definition quieted (s : os) : os := set_faults [] s.

(** ** Lemmas *)

(** *** The temporary file stays a file *)

Definition settles (t : path) (s s' : os) : Prop := plain t s → plain t s'.

#[export] Instance settles_refl t : Reflexive (settles t).
Proof. by intros s Hs. Qed.
#[export] Instance settles_trans t : Transitive (settles t).
Proof. intros s1 s2 s3 H1 H2 Hs. by apply H2, H1. Qed.

Create HintDb settle discriminated.

Section settles.
Context (t : path).

Lemma frame_nil_settles {B} (a : M os B) : preserves (frame []) a → preserves (settles t) a.
Proof. intros Ha s Hs n. rewrite (frame_nil_nodes _ _ (Ha s)). apply Hs. Qed.

Lemma insert_settles q c : preserves (settles t) (upd_nodes <[q := File c]>).
Proof.
  intros s Hs n. cbn. rewrite lookup_insert_Some. intros [[_ <-]|[_ Hn]]; [by eexists|by apply Hs].
Qed.

Lemma delete_settles q : preserves (settles t) (upd_nodes (delete q)).
Proof. intros s Hs n. cbn. rewrite lookup_delete_Some. intros [_ Hn]. by apply Hs. Qed.

Lemma append_settles h d : preserves (settles t) (append_file h d).
Proof.
  intros s Hs n. cbn. rewrite lookup_alter_Some. intros [(-> & n' & Hn & ->)|[_ Hn]]; [|by apply Hs].
  destruct (Hs n' Hn) as [c ->]. by eexists.
Qed.

Lemma pure_settles {B} (a : M os B) : (∀ s, (a s).2 = s) → preserves (settles t) a.
Proof. intros Ha s Hs. by rewrite Ha. Qed.

Lemma follow_settles op p : preserves (settles t) (follow op p).
Proof. apply pure_settles. intros s. unfold follow. by destruct (resolve _ _ _). Qed.

Lemma next_fault_settles : preserves (settles t) next_fault.
Proof. apply frame_nil_settles, next_fault_frame. Qed.

#[local] Hint Resolve insert_settles delete_settles append_settles follow_settles next_fault_settles : settle.
#[local] Hint Extern 1 (preserves _ (node_at _)) => by intros ? : settle.

Ltac settle := running; auto with settle.

Lemma syscall_settles : preserves (settles t) syscall.
Proof. unfold syscall. settle. Qed.
#[local] Hint Resolve syscall_settles : settle.

Lemma Create_settles p : preserves (settles t) (Create p).
Proof. unfold Create. settle. Qed.

Lemma Write_settles h d : preserves (settles t) (Write h d).
Proof. unfold Write. settle. Qed.

Lemma Remove_settles p : preserves (settles t) (Remove p).
Proof. unfold Remove. settle. Qed.

Lemma Rename_settles p : t ≠ p → preserves (settles t) (Rename t p).
Proof.
  intros Hne. unfold Rename. settle.
  all: intros s Hs n'; cbn; rewrite lookup_insert_ne, lookup_delete_eq by done; done.
Qed.
#[local] Hint Resolve Create_settles Write_settles Remove_settles : settle.

Lemma write_lines_settles h b l : preserves (settles t) (write_lines h b l).
Proof. revert b. induction l as [|kv l IH]; intros b; cbn [write_lines]; unfold bufWrite; settle. Qed.
#[local] Hint Resolve write_lines_settles : settle.

Lemma writeParams_settles range p m : path_append p ".tmp" = t → preserves (settles t) (writeParams range p m).
Proof.
  intros Ht. pose proof (tmp_ne p) as Hne. rewrite Ht in Hne. unfold writeParams. rewrite Ht.
  assert (∀ h, preserves (settles t) (Close h)) as HC by (intros h; exact syscall_settles).
  unfold bufFlush. settle. by apply Rename_settles.
Qed.

End settles.

(** *** Rewrites with failing calls *)

Lemma ReadFile_ok p c s r s' : os_nodes s !! p = Some (File c) → ReadFile p s = (Ok r, s') → r = c.
Proof.
  intros Hc. unfold ReadFile. intros ([] & s1 & [En _]%syscall_run & (q & s2 & Hf & H)%bind_ok_inv)%bind_ok_inv.
  rewrite (follow_id "open" p s1) in Hf by (intros t; by rewrite En, Hc). injection Hf as <- <-.
  unfold node_at in H. unfold mbind at 1, M_bind at 1 in H. rewrite En, Hc in H.
  apply bind_ok_inv in H as ([] & s3 & _ & H). by injection H as <- _.
Qed.

Lemma readParams_ok p c s r s' : os_nodes s !! p = Some (File c) → readParams p s = (Ok r, s') → parse c = Ok r.
Proof.
  intros Hc. unfold readParams. intros (c' & s1 & Hr & H)%bind_ok_inv. apply (ReadFile_ok _ c) in Hr as ->; [|done].
  unfold parse. destruct (scan_lines c) as [ls [e|]]; [done|]. by injection H as <- _.
Qed.

Section rewrites.
Context (f : path) (Q : gmap string string → Prop) (s0 : os).
Context (Hfile : ∃ c, os_nodes s0 !! f = Some (File c)) (Htmp : plain (path_append f ".tmp") s0).
Context (Hdir : os_nodes s0 !! parent (path_append f ".tmp") = Some Dir).

Lemma settled_place s : settled f Q s0 s → param_place (os_nodes s) f.
Proof.
  intros (_ & Ho & Hp & c & p & Hc & _). split; [by exists c|]. cbn zeta.
  destruct (os_nodes s !! path_append f ".tmp") as [n|] eqn:E; [left|right].
  - destruct (Hp n E) as [c' ->]. by eexists.
  - split; [done|]. rewrite Ho; [done|..]; intros E'; rewrite E' in Hdir.
    + destruct Hfile as [c0 Hc0]. congruence.
    + by destruct (Htmp _ Hdir).
Qed.

Lemma settled_frame s s' : frame [] s s' → settled f Q s0 s → settled f Q s0 s'.
Proof.
  intros Hf (He & Ho & Hp & Hc). pose proof (frame_nil_nodes _ _ Hf) as Hn. destruct Hf as [He' _].
  unfold settled, plain. rewrite He', Hn. by split_and!.
Qed.

Lemma update_file_settled range new : enumerates range →
  (∀ s p, os_env s = os_env s0 → wf_params p → Q p → Q (new s p) ∧ wf_params (new s p)) →
  ∀ s, settled f Q s0 s → settled f Q s0 (update_file (writeParams range f) f new s).2.
Proof.
  intros Hr Hnew s Hs. unfold update_file. unfold mbind at 1, M_bind at 1, try at 1.
  pose proof (Stat_frame [] f s) as F1. destruct (Stat f s) as [[n|e] s1]; cbn in F1;
    apply (settled_frame _ _ F1) in Hs; [|by destruct (IsNotExist e)].
  unfold mbind at 1, M_bind at 1, wrapping. pose proof (readParams_frame [] f s1) as F2.
  destruct (readParams f s1) as [[p|e] s2] eqn:Er; cbn in F2 |- *; [|by eapply settled_frame].
  pose proof Hs as (_ & _ & _ & c & p' & Hc & Hparse & HQ). rewrite (readParams_ok _ _ _ _ _ Hc Er) in Hparse.
  injection Hparse as <-. pose proof (readParams_ok _ _ _ _ _ Hc Er) as Hwf%parse_wf.
  apply (settled_frame _ _ F2) in Hs. pose proof Hs as (He & Ho & Hp & Hc').
  destruct (Hnew s2 p He Hwf HQ) as [HQ' Hwf']. unfold mbind, M_bind, get.
  pose proof (writeParams_settles _ range f (new s2 p) eq_refl s2 Hp) as Hp'.
  destruct (writeParams range f (new s2 p) s2) as [r s3] eqn:Ew. cbn in Hp' |- *.
  apply writeParams_run in Ew; [|by apply settled_place]. pose proof (tmp_ne f) as Hne.
  destruct r as [[]|e]; cbn in Ew; destruct Ew as [He3 Hn3].
  - split_and!; [by rewrite He3| |done|].
    + intros q Hq Hq'. by rewrite Hn3, lookup_insert_ne, lookup_delete_ne, Ho.
    + eexists _, (new s2 p). rewrite Hn3, lookup_insert_eq. split_and!; [done|by apply parse_render|done].
  - split_and!; [by rewrite He3| |done|].
    + intros q Hq Hq'. rewrite Hn3, Ho; [done..|]. by rewrite list_elem_of_singleton.
    + rewrite Hn3 by (by rewrite list_elem_of_singleton; intros E; symmetry in E). done.
Qed.

End rewrites.

(** *** Renderings with failing calls *)

Lemma ReadDir_names p s r s' : os_nodes s !! p = Some Dir → ReadDir p s = (Ok r, s') →
  r = children (os_nodes s) p ∧ frame [] s s'.
Proof.
  intros Hd H. split.
  - revert H. unfold ReadDir. intros ([] & s1 & [En _]%syscall_run & (q & s2 & Hf & H)%bind_ok_inv)%bind_ok_inv.
    rewrite (follow_id "open" p s1) in Hf by (intros t; by rewrite En, Hd). injection Hf as <- <-.
    unfold node_at in H. unfold mbind at 1, M_bind at 1 in H. rewrite En, Hd in H.
    apply bind_ok_inv in H as ([] & s3 & [En3 _]%syscall_run & H). injection H as <- _. by rewrite En3, En.
  - pose proof (ReadDir_frame [] p s) as Hf. by rewrite H in Hf.
Qed.

Lemma ensureWorkDir_read template work name s : os_nodes s !! work = Some Dir →
  is_Some (os_nodes s !! (work ++ [name])) → is_ok (ReadDir work s).1 = true →
  ∃ s', ensureWorkDir template work s = (Ok tt, s') ∧ frame [] s s'.
Proof.
  intros Hd Hentry Hok. unfold ensureWorkDir, try. unfold mbind, M_bind.
  destruct (ReadDir work s) as [[r|e] s'] eqn:E; [|done].
  destruct (ReadDir_names _ _ _ _ Hd E) as [-> Hf]. exists s'. split; [|done].
  destruct (children (os_nodes s) work) as [|x l] eqn:El; [|done].
  apply elem_children in Hentry. rewrite El in Hentry. by apply elem_of_nil in Hentry.
Qed.

Section rendering.
Context {O V A : Type} `{!Objects O V, !YamlMaps A, !TLSTables, !Kustomize O, !KustomizeReads O} (Quote : string → string).
Context (range_src range_dst : gmap string string → list (string * string)).
Context (m : trainerActions) (rs : resourceSet).

#[local] Abbreviation render := (renderResourceSet (A:=A) Quote range_src range_dst m rs).
#[local] Abbreviation work := (set_work m rs).
#[local] Abbreviation file := (params_of rs work).

(** A rendering in which any calls fail but the read of the work directory. *)
Definition disturbed (a b : os) : Prop :=
  ∃ fs, is_ok (ReadDir work (set_faults fs a)).1 = true ∧ b = (render (set_faults fs a)).2.

(** Parameters with which the rendering gets to the same ones. *)
Definition converging (s : os) (params p : gmap string string) : Prop := resolved rs s p = resolved rs s params.

Lemma params_parent : parent (path_append file ".tmp") = overlay_of rs work.
Proof. by rewrite params_tmp, app_assoc, parent_snoc, <-overlay_app. Qed.

(** What being prepared says of the parameter file and its place. *)
Lemma prepared_base c s : prepared m rs c (quieted s) →
  os_nodes s !! file = Some (File c) ∧ plain (path_append file ".tmp") s ∧
  os_nodes s !! work = Some Dir ∧ os_nodes s !! parent (path_append file ".tmp") = Some Dir.
Proof.
  intros (_ & Hw & Ho & Hc & [_ Ht]). split_and!; [exact Hc| |exact Hw|by rewrite params_parent].
  intros n Hn. destruct Ht as [[c' Ht]|[Ht _]]; cbn in Ht; rewrite Hn in Ht; [|done]. injection Ht as ->. by eexists.
Qed.

Lemma settled_dir Q s a q : settled file Q s a → (∃ c, os_nodes s !! file = Some (File c)) →
  plain (path_append file ".tmp") s → os_nodes s !! q = Some Dir → os_nodes a !! q = Some Dir.
Proof.
  intros (_ & Ho & _) [c Hc] Hp Hq. rewrite Ho; [done|..]; intros ->; [congruence|]. by destruct (Hp _ Hq).
Qed.

(** A disturbed directory, once the calls work again. *)
Lemma settled_prepared Q s a c : settled file Q s a → prepared m rs c (quieted s) →
  ∃ c' p, prepared m rs c' (quieted a) ∧ parse c' = Ok p ∧ Q p.
Proof.
  intros Ha Hprep. destruct (prepared_base _ _ Hprep) as (Hc & Hp & Hw & Hd).
  pose proof Ha as (_ & _ & _ & c' & p & Hc' & Hparse & HQ). exists c', p. split; [|done].
  refine (conj eq_refl (conj _ (conj _ (conj Hc' _)))).
  - by eapply settled_dir; eauto.
  - rewrite <-params_parent. by eapply settled_dir; eauto.
  - apply (settled_place file Q s); [by eexists|done..].
Qed.

Lemma prepared_read c s : prepared m rs c (quieted s) → is_ok (ReadDir work s).1 = true →
  ∃ s', ensureWorkDir (rs_templatePath rs) work s = (Ok tt, s') ∧ frame [] s s'.
Proof.
  intros (_ & Hw & Hd & Hc & _). cbn [os_nodes quieted set_faults] in Hw, Hd, Hc. revert Hd Hc. unfold params_of, overlay_of, GoOS.Join.
  destruct (bool_decide (rs_overlay rs = "")); intros Hd Hc; by eapply ensureWorkDir_read.
Qed.

Lemma env_overrides_env s x pm : os_env x = os_env s → env_overrides x pm = env_overrides s pm.
Proof. intros He. unfold env_overrides, Getenv. by rewrite He. Qed.

Lemma converging_env s q : resolved rs s (env_overrides s (rs_paramMap rs) ∪ q) = resolved rs s q.
Proof. unfold resolved. f_equal. by rewrite (assoc_L (∪)), map_union_idemp. Qed.

Lemma converging_static s q : resolved rs s (rs_staticParams rs ∪ q) = resolved rs s q.
Proof.
  apply map_eq. intros k. unfold resolved. rewrite !lookup_union.
  destruct (rs_staticParams rs !! k), (env_overrides s (rs_paramMap rs) !! k), (q !! k); done.
Qed.

Lemma render_settled s params a b c : enumerates range_src → enumerates range_dst →
  wf_params (env_overrides s (rs_paramMap rs)) → wf_params (rs_staticParams rs) →
  prepared m rs c (quieted s) → disturbed a b →
  settled file (converging s params) s a → settled file (converging s params) s b.
Proof.
  intros Hrs Hrd Henv Hstatic Hprep (fs & Hread & ->) Ha.
  destruct (prepared_base _ _ Hprep) as (Hc & Hp & _ & Hd).
  destruct (settled_prepared _ _ _ _ Ha Hprep) as (c' & p & Hprep' & _).
  destruct (prepared_read c' (set_faults fs a) Hprep' Hread) as (a1 & Hens & F1).
  assert (settled file (converging s params) s a1) as Ha1 by (eapply settled_frame; [exact F1|exact Ha]).
  assert (∀ x y, frame [] x y → settled file (converging s params) s x → settled file (converging s params) s y) as Hframe
    by (intros x y; apply settled_frame).
  assert (∀ new, (∀ x p, os_env x = os_env s → wf_params p → converging s params p →
      converging s params (new x p) ∧ wf_params (new x p)) →
    ∀ x, settled file (converging s params) s x →
      settled file (converging s params) s (update_file (writeParams range_dst file) file new x).2) as Hupdate.
  { intros new Hnew. apply update_file_settled; [by eexists|done..]. }
  rewrite render_split. unfold prepare_set, wrapping. unfold mbind, M_bind. rewrite Hens. cbn [wrap_err].
  rewrite applyParamOverrides_update.
  assert (settled file (converging s params) s
    (update_file (writeParams range_dst file) file (λ x p, fold_left (env_line x) (range_src (rs_paramMap rs)) p) a1).2) as Ha2.
  { apply Hupdate; [|done]. intros x q Hx Hwf Hq. rewrite (fold_env_perm x _ _ q (Hrs _)), (env_overrides_env s x) by done.
    split; [|by apply wf_params_union]. unfold converging. by rewrite converging_env. }
  destruct (update_file _ _ _ a1) as [[[]|e] a2]; cbn in Ha2 |- *; [|exact Ha2].
  case_bool_decide; [by eapply Hframe, Ha2; apply finish_frame|]. rewrite applyStaticParams_update.
  assert (settled file (converging s params) s
    (update_file (writeParams range_dst file) file (λ _ p, set_all (range_src (rs_staticParams rs)) p) a2).2) as Ha3.
  { apply Hupdate; [|done]. intros x q _ Hwf Hq. rewrite (set_all_perm _ _ q (Hrs _)).
    split; [|by apply wf_params_union]. unfold converging. by rewrite converging_static. }
  destruct (update_file _ _ _ a2) as [[[]|e] a3]; cbn in Ha3 |- *; [|exact Ha3].
  by eapply Hframe, Ha3; apply finish_frame.
Qed.

End rendering.

(** ** Properties *)

Section properties.
Context {O V A : Type} `{!Objects O V, !YamlMaps A, !TLSTables, !Kustomize O, !KustomizeReads O} (Quote : string → string).
Context (range_src range_dst : gmap string string → list (string * string)).

(** C5: An interrupted rendering leaves no trace.  From a work directory that is
    prepared, take any number of renderings of the set in which any system calls
    fail -- also all from some point on, as when the operator is killed there --
    but for the read of the work directory.  Then a rendering whose calls work
    gives what it would have given without the others: the same resources or
    error, and the same files, whatever a partial write or a temporary file that
    stayed behind had been. *)
Theorem rendering_recovers (m : trainerActions) (rs : resourceSet) (s s' : os) (c : string) (params : gmap string string)
    (Hrs : enumerates range_src) (Hrd : enumerates range_dst)
    (Henv : wf_params (env_overrides s (rs_paramMap rs))) (Hstatic : wf_params (rs_staticParams rs))
    (Hprep : prepared m rs c (quieted s)) (Hparse : parse c = Ok params)
    (Hdisturbed : rtc (disturbed (A:=A) Quote range_src range_dst m rs) s s') :
  let render := renderResourceSet (A:=A) Quote range_src range_dst m rs in
  render (quieted s') = render (quieted s).
Proof.
  intros render. destruct (prepared_base _ _ _ _ Hprep) as (Hc & Hp & _ & _).
  assert (settled (params_of rs (set_work m rs)) (converging rs s params) s s') as Hs'.
  { assert (settled (params_of rs (set_work m rs)) (converging rs s params) s s) as Hs
      by (split_and!; [done|done|exact Hp|by exists c, params]).
    clear Hp Hc. assert (∀ a b, rtc (disturbed (A:=A) Quote range_src range_dst m rs) a b →
      settled (params_of rs (set_work m rs)) (converging rs s params) s a →
      settled (params_of rs (set_work m rs)) (converging rs s params) s b) as Hall; [|by apply (Hall s)].
    induction 1 as [|a b d Hab _ IH]; [done|]. intros Ha. apply IH.
    eapply (render_settled Quote range_src range_dst); eauto. }
  destruct (settled_prepared _ _ _ _ _ _ Hs' Hprep) as (c' & p & Hprep' & Hparse' & Hq).
  pose proof Hs' as (He & Ho & _ & _).
  destruct (prepare_prepared range_src range_dst m rs c params (quieted s)) as (s1 & H1 & Q1 & E1 & N1); [done..|].
  destruct (prepare_prepared range_src range_dst m rs c' p (quieted s')) as (s2 & H2 & Q2 & E2 & N2);
    [done|done|by rewrite (env_overrides_env s)|done|done|].
  assert (resolved rs (quieted s') p = resolved rs (quieted s) params) as Hres.
  { etransitivity; [|exact Hq]. unfold resolved. by rewrite (env_overrides_env s). }
  assert (s2 = s1) as Heq.
  { destruct s1 as [n1 e1 f1], s2 as [n2 e2 f2]. unfold quiet in *. cbn in *. subst. f_equal; [|done]. rewrite Hres.
    apply map_eq. intros q. destruct (decide (q = params_of rs (set_work m rs))) as [->|Hqf]; [by rewrite !lookup_insert_eq|].
    rewrite !lookup_insert_ne by done.
    destruct (decide (q = path_append (params_of rs (set_work m rs)) ".tmp")) as [->|Hqt]; [by rewrite !lookup_delete_eq|].
    rewrite !lookup_delete_ne by done. by apply Ho. }
  unfold render. rewrite !render_split. unfold mbind, M_bind. by rewrite H1, H2, Heq.
Qed.

End properties.

(** *** Witness *)

#[local] Existing Instances ex_yaml ex_kustomize ex_tables.

#[local] Instance ex_reads : KustomizeReads obj.
Proof. split; by intros p opts s. Qed.

(** A work directory with the parameters of the template, and the controller's
    image in the environment. *)
Definition ex_prepared : os := (ensureWorkDir ex_template ex_work ex_env_disk).2.

(** The operator is killed in the first write of the new parameters. *)
Definition ex_kill : list (option fault) :=
  replicate 6 None ++ replicate 20 (Some (Fault (ErrNew "killed") 3)).

Definition ex_killed : os :=
  (renderResourceSet (A:=string) id map_to_list map_to_list ex_actions ex_set (set_faults ex_kill ex_prepared)).2.

Lemma ex_prepared_place : prepared ex_actions ex_set "image=x" (quieted ex_prepared).
Proof.
  refine (conj eq_refl (conj _ (conj _ (conj _ (conj _ _))))); try (by vm_compute).
  - eexists. by vm_compute.
  - right. split; by vm_compute.
Qed.

(** The killed run leaves the old parameters and half a line in the temporary
    file; the next one gives what it would have given. *)
Lemma rendering_recovers_witness :
  os_nodes ex_killed !! (ex_work ++ ["rhoai"; "params.env"]) = Some (File "image=x") ∧
  os_nodes ex_killed !! (ex_work ++ ["rhoai"; "params.env.tmp"]) = Some (File "odh") ∧
  renderResourceSet (A:=string) id map_to_list map_to_list ex_actions ex_set (quieted ex_killed) =
  renderResourceSet (A:=string) id map_to_list map_to_list ex_actions ex_set (quieted ex_prepared).
Proof.
  split; [by vm_compute|]. split; [by vm_compute|].
  apply (rendering_recovers (A:=string) id map_to_list map_to_list ex_actions ex_set ex_prepared ex_killed "image=x" {["image" := "x"]}).
  - exact enumerates_self.
  - exact enumerates_self.
  - apply (bool_decide_unpack _). by vm_compute.
  - apply (bool_decide_unpack _). by vm_compute.
  - exact ex_prepared_place.
  - by vm_compute.
  - apply rtc_once. exists ex_kill. split; [by vm_compute|done].
Defined.
