(* ===== verification/Image.v ===== *)
(** The image of the operator: its templates, and the work directories that are
    copies of them. *)

From S2P Require Import Prelude GoStrings GoOS Params Kube ApiTypes KubeStore Request Namespace.
From S2P Require Import OperandTLS Workdir Manifests Rendering Containment Interruption.
Open Scope string_scope.
Open Scope nat_scope.
Open Scope list_scope.

(** ** Specification *)

Section specification.
Context (m : trainerActions).

(** One of the three sets; the namespace does not matter for its files. *)
Definition is_set (rs : resourceSet) : Prop := ∃ ns, rs ∈ resourceSets m ns true.

(** No template is above, at or below the work directory. *)
Definition laid_out : Prop := ∀ rs, is_set rs →
  Rel (a_workDir m) (rs_templatePath rs) = None ∧ Rel (rs_templatePath rs) (a_workDir m) = None.

(** The files and the environment that the image gives a container. *)
Context (im : os).

(** The parameters of a template. *)
Definition image_params (rs : resourceSet) : gmap string string :=
  match os_nodes im !! params_of rs (rs_templatePath rs) with
  | Some (File c) => match parse c with Ok p => p | Err _ => ∅ end
  | _ => ∅
  end.

(** The container has the templates and the environment of the image. *)
Definition holds_image (s : os) : Prop :=
  os_env s = os_env im ∧
  ∀ rs r, is_set rs → os_nodes s !! (rs_templatePath rs ++ r) = os_nodes im !! (rs_templatePath rs ++ r).

(** The work directory of a set is a copy of its template, but for the parameter
    file and a temporary file beside it. *)
Definition copied (rs : resourceSet) (s : os) : Prop := ∀ r,
  let file := params_of rs (set_work m rs) in
  set_work m rs ++ r ≠ file → set_work m rs ++ r ≠ path_append file ".tmp" →
  os_nodes s !! (set_work m rs ++ r) = image (os_nodes im !! (rs_templatePath rs ++ r)).

(** Parameters that are those of the image, once they are overridden. *)
Definition current (rs : resourceSet) (params : gmap string string) : Prop :=
  resolved rs im params = resolved rs im (image_params rs).

(** What kustomize gets to read of a set: a copy of the template, with the
    parameters of the image overridden, on lines in some order. *)
Definition rendered_copy (rs : resourceSet) (s : os) : Prop :=
  copied rs s ∧ ∃ l, l ≡ₚ map_to_list (resolved rs im (image_params rs)) ∧ prepared m rs (Params.render l) s.

End specification.

Section copies.
Context {O V A : Type} `{!Objects O V, !YamlMaps A, !TLSTables, !Kustomize O} (Quote : string → string).
Context (range_src range_dst : gmap string string → list (string * string)).
Context (m : trainerActions) (im : os).

(** Whenever kustomize gets to run in the renderings of the sets from [s] on, it
    reads a copy of the template of the image. *)
Fixpoint reads_copies (sets : list resourceSet) (s : os) : Prop :=
  match sets with
  | [] => True
  | rs :: sets' =>
      (∀ s1, prepare_set range_src range_dst m rs s = (Ok tt, s1) → copied m im rs s1) ∧
      ∀ items s', renderResourceSet (A:=A) (O:=O) Quote range_src range_dst m rs s = (Ok items, s') → reads_copies sets' s'
  end.

(** What holds of the sets that the rendering of a request visits, and the files
    that it starts from. *)
Definition at_sets {K C Ver : Type} `{!PlatformUtils O K} (P : list resourceSet → os → Prop) (rr : request O K C Ver) : Prop :=
  ∀ ct k, DetectClusterType (rr_cluster rr) = (Ok ct, k) →
    P (resourceSets m (resolveNamespace (rr_instance rr)) (bool_decide (ct = ClusterTypeOpenShift))) (rr_os rr).

End copies.

(** ** Lemmas *)

Lemma diverge a b r r' : Rel a b = None → Rel b a = None → a ++ r ≠ b ++ r'.
Proof.
  rewrite !Rel_None. intros Hab Hba E. destruct (decide (length a ≤ length b)) as [Hle|Hle].
  - apply (Hab (drop (length a) b)). rewrite <-(take_drop (length a) b) at 1. f_equal.
    rewrite <-(take_app_le b r') by done. rewrite <-E. by apply take_app_length.
  - apply (Hba (drop (length b) a)). rewrite <-(take_drop (length b) a) at 1. f_equal.
    rewrite <-(take_app_le a r) by lia. rewrite E. by apply take_app_length.
Qed.

Section lemmas.
Context (m : trainerActions) (im : os).

Lemma resourceSets_is_set ns b rs : rs ∈ resourceSets m ns b → is_set m rs.
Proof. intros Hin. exists ns. revert Hin. destruct b; cbn; [done|]. set_solver. Qed.

(** Sets with the same directory are the same but for the namespace. *)
Lemma same_directory rs rs' : is_set m rs → is_set m rs' → rs_subDir rs' = rs_subDir rs →
  rs_templatePath rs' = rs_templatePath rs ∧ rs_overlay rs' = rs_overlay rs ∧ rs_paramMap rs' = rs_paramMap rs ∧
  ∀ k, is_Some (rs_staticParams rs' !! k) ↔ is_Some (rs_staticParams rs !! k).
Proof.
  intros [ns Hr] [ns' Hr']. cbn in Hr, Hr'. rewrite !elem_of_cons, elem_of_nil in Hr, Hr'.
  assert (∀ v v' : string, ∀ k : string, is_Some (({[paramOperatorNamespace := v']} : gmap string string) !! k) ↔
    is_Some (({[paramOperatorNamespace := v]} : gmap string string) !! k)) as Hk.
  { intros v v' k. destruct (decide (k = paramOperatorNamespace)) as [->|Hk]; [by rewrite !lookup_singleton_eq|].
    by rewrite !lookup_singleton_ne. }
  destruct Hr as [-> |[-> |[-> |[]]]], Hr' as [-> |[-> |[-> |[]]]]; intros Hsub; try discriminate Hsub;
    split_and!; try reflexivity; solve [exact (Hk _ _)|by intros k].
Qed.

Lemma same_set rs rs' c s : is_set m rs → is_set m rs' → rs_subDir rs' = rs_subDir rs →
  prepared m rs c s → prepared m rs' c s.
Proof.
  intros Hin Hin' Hsub. destruct (same_directory rs rs' Hin Hin' Hsub) as (_ & Ho & _).
  unfold prepared, params_of, overlay_of, set_work. by rewrite Hsub, Ho.
Qed.

Lemma same_copied rs rs' s : is_set m rs → is_set m rs' → rs_subDir rs' = rs_subDir rs →
  copied m im rs s → copied m im rs' s.
Proof.
  intros Hin Hin' Hsub. destruct (same_directory rs rs' Hin Hin' Hsub) as (Ht & Ho & _).
  unfold copied, params_of, overlay_of, set_work. by rewrite Hsub, Ho, Ht.
Qed.

Lemma same_current rs rs' p : is_set m rs → is_set m rs' → rs_subDir rs' = rs_subDir rs →
  current im rs p → current im rs' p.
Proof.
  intros Hin Hin' Hsub. destruct (same_directory rs rs' Hin Hin' Hsub) as (Ht & Ho & Hp & Hs).
  unfold current, resolved, image_params, params_of, overlay_of. rewrite Ht, Ho, Hp. intros Hc. apply map_eq. intros k.
  apply (f_equal (lookup k)) in Hc. specialize (Hs k). rewrite !lookup_union in Hc |- *.
  destruct (rs_staticParams rs' !! k) as [v|], (rs_staticParams rs !! k) as [v'|]; [by rewrite !union_Some_l| | |done].
  - by destruct (proj1 Hs (mk_is_Some _ _ eq_refl)).
  - by destruct (proj2 Hs (mk_is_Some _ _ eq_refl)).
Qed.

(** The parameters after a rewrite are again the image's. *)
Lemma current_resolved rs s p : os_env s = os_env im → current im rs p →
  resolved rs s p = resolved rs im (image_params im rs) ∧ current im rs (resolved rs s p).
Proof.
  intros He Hc. assert (resolved rs s p = resolved rs im p) as E
    by (unfold resolved, env_overrides, Getenv; by rewrite He).
  rewrite E. split; [exact Hc|]. unfold current. by rewrite resolved_resolved.
Qed.

Lemma current_image rs c params : os_nodes im !! params_of rs (rs_templatePath rs) = Some (File c) → parse c = Ok params →
  current im rs params.
Proof. intros Hc Hp. unfold current, image_params. by rewrite Hc, Hp. Qed.

(** Changes at, above and below the work directory leave the templates alone. *)
Lemma template_kept rs s s' r : laid_out m → is_set m rs →
  (∀ q, Rel q (a_workDir m) = None → Rel (a_workDir m) q = None → os_nodes s' !! q = os_nodes s !! q) →
  os_nodes s' !! (rs_templatePath rs ++ r) = os_nodes s !! (rs_templatePath rs ++ r).
Proof.
  intros Hl Hin Hsame. destruct (Hl rs Hin) as [H1 H2]. apply Hsame; apply Rel_None; intros r' E.
  - apply (diverge _ _ (r ++ r') [] H2 H1). by rewrite app_nil_r, app_assoc.
  - by apply (diverge _ _ _ _ H2 H1) in E.
Qed.

Lemma holds_image_kept s s' : laid_out m → os_env s' = os_env s →
  (∀ q, Rel q (a_workDir m) = None → Rel (a_workDir m) q = None → os_nodes s' !! q = os_nodes s !! q) →
  holds_image m im s → holds_image m im s'.
Proof.
  intros Hl He Hsame [Hi Ht]. split; [congruence|]. intros rs r Hin. rewrite <-Ht by done. by apply template_kept.
Qed.

(** A copy of the template of the image. *)
Lemma copied_copy rs s s0 : is_set m rs → holds_image m im s →
  (∀ q, os_nodes s0 !! q = with_copy (os_nodes s) (rs_templatePath rs) (set_work m rs) q) → copied m im rs s0.
Proof. intros Hin [_ Ht] Hn r file _ _. rewrite Hn. unfold with_copy. by rewrite Rel_app, Ht. Qed.

(** Other files than those below the work directory do not matter, nor does the
    parameter file. *)
Lemma copied_kept rs s s' :
  (∀ q, q ≠ params_of rs (set_work m rs) → q ≠ path_append (params_of rs (set_work m rs)) ".tmp" →
     is_Some (Rel (set_work m rs) q) → os_nodes s' !! q = os_nodes s !! q) →
  copied m im rs s → copied m im rs s'.
Proof. intros Hn Hc r file H1 H2. rewrite Hn; [by apply Hc|done..|]. by rewrite Rel_app. Qed.

Lemma copied_rewritten range rs params s s' :
  rewritten range (params_of rs (set_work m rs)) params s s' → copied m im rs s → copied m im rs s'.
Proof. intros (_ & _ & Hn). apply copied_kept. intros q H1 H2 _. by rewrite Hn, lookup_insert_ne, lookup_delete_ne. Qed.

Lemma copied_settled rs Q s s' :
  settled (params_of rs (set_work m rs)) Q s s' → copied m im rs s → copied m im rs s'.
Proof. intros (_ & Ho & _). apply copied_kept. intros q H1 H2 _. by apply Ho. Qed.

End lemmas.
