(* ===== verification/TlsProfile.v ===== *)
(** [internal/tls/profile.go] and [internal/tls/metrics.go]: the TLS profile the
    operator applies, the watcher that restarts it when the profile changes, and
    the options of the metrics server. *)

From S2P Require Import Prelude GoStrings GoOS OperandTLS.
Open Scope string_scope.
Open Scope nat_scope.
Open Scope list_scope.

(** ** Definitions *)

(** What [frameworktls.LoadWithAdherence] returns. *)
Record LoadResult := MkLoadResult {
  l_Spec : TLSProfileSpec; l_AdherencePolicy : string; l_UsedFallback : bool; l_Watchable : bool }.

(** The parts of [tls.Config] in use here: what a profile sets ([X]), the
    protocols, and the function that gives the serving certificate. *)
Record Config (X Cert : Type) := MkConfig {
  c_profile : X;
  NextProtos : list string;
  GetCertificate : option (M os Cert) }.
Arguments MkConfig {X Cert} c_profile NextProtos GetCertificate.
Arguments c_profile {X Cert} c.
Arguments NextProtos {X Cert} c.
Arguments GetCertificate {X Cert} c.

(** The TLS helpers of odh-platform-utilities and of controller-runtime-common;
    [ConfigFromProfileWithError] gives a setter of the profile's part of a
    configuration and the names it does not support. *)
Class FrameworkTLS (K X : Type) := {
  LoadWithAdherence : M K LoadResult;
  ShouldHonorClusterTLSProfile : string → bool;
  IntermediateProfile : TLSProfileSpec;
  ConfigFromProfileWithError : TLSProfileSpec → result ((X → X) * list string);
  HTTP2NextProtos : list string;
}.

Section profile.
Context {K X Cert : Type} `{!FrameworkTLS K X}.

(** The setter of a configuration. *)
Definition TLSOpt : Type := Config X Cert → Config X Cert.

Record Result := MkResult {
  r_Profile : TLSProfileSpec;
  ProfileHonored : bool;
  Adherence : string;
  UsedFallback : bool;
  Watchable : bool;
  r_TLSOpts : list TLSOpt;
  EffectiveProfile : TLSProfileSpec }.

Definition set_profile (f : X → X) : TLSOpt := λ c, MkConfig (f (c_profile c)) (NextProtos c) (GetCertificate c).
Definition SetNextProtos (protos : list string) : TLSOpt :=
  λ c, MkConfig (c_profile c) protos (GetCertificate c).

Definition Resolve : M K Result :=
  loaded ← wrapping "loading APIServer TLS profile and adherence" LoadWithAdherence;
  let profileHonored := ShouldHonorClusterTLSProfile (l_AdherencePolicy loaded) in
  let effectiveProfile := if negb profileHonored then IntermediateProfile else l_Spec loaded in
  r ← wrapping "building TLS config from profile" (lift (ConfigFromProfileWithError effectiveProfile));
  let '(tlsConfigFn, _) := r in
  mret (MkResult (l_Spec loaded) profileHonored (l_AdherencePolicy loaded) (l_UsedFallback loaded)
          (l_Watchable loaded) [set_profile tlsConfigFn; SetNextProtos HTTP2NextProtos] effectiveProfile).

(** The [SecurityProfileWatcher] of the framework: a callback is [Some] when it
    is set, and both callbacks here call [cancel]. *)
Record SecurityProfileWatcher := MkWatcher {
  InitialTLSProfileSpec : TLSProfileSpec;
  InitialTLSAdherencePolicy : string;
  OnAdherencePolicyChange : option unit;
  OnProfileChange : option unit }.

Definition newSecurityProfileWatcher (result : Result) : SecurityProfileWatcher :=
  MkWatcher (r_Profile result) (Adherence result) (Some tt)
    (if ProfileHonored result || UsedFallback result then Some tt else None).

(** [SetupWithManager] of the framework's watcher, on the state [W] of the manager. *)
Definition SetupWatcher {W : Type} (SetupWithManager : SecurityProfileWatcher → M W unit)
    (result : option Result) : M W unit :=
  match result with
  | None => mret tt
  | Some result =>
      if negb (Watchable result) then mret tt
      else wrapping "setting up TLS profile watcher" (SetupWithManager (newSecurityProfileWatcher result))
  end.

(** *** The metrics server *)

Record MetricsOptions := MkMetricsOptions {
  BindAddress : string;
  SecureServing : bool;
  FilterProvider : bool;
  CertDir : string;
  m_TLSOpts : list TLSOpt }.

(** [tls.X509KeyPair] on the contents of the two files. *)
Context (X509KeyPair : string → string → result Cert) (abs : string → path).

(** A handshake reads the files again. *)
Definition load_key_pair (certDir : string) : M os Cert :=
  wrapping "loading metrics serving certificate" (
    cert ← ReadFile (GoOS.Join (abs certDir) "tls.crt");
    key ← ReadFile (GoOS.Join (abs certDir) "tls.key");
    lift (X509KeyPair cert key)).

Definition loadMetricsCertificate (certDir : string) : TLSOpt :=
  λ c, MkConfig (c_profile c) (NextProtos c) (Some (load_key_pair certDir)).

Definition MetricsServerOptions (bindAddress : string) (secure : bool) (certDir : string)
    (tlsOpts : list TLSOpt) : MetricsOptions :=
  let opts := MkMetricsOptions bindAddress secure secure "" tlsOpts in
  if bool_decide (certDir = "") then opts
  else MkMetricsOptions bindAddress secure secure certDir (tlsOpts ++ [loadMetricsCertificate certDir]).

End profile.
Arguments Result : clear implicits.
Arguments TLSOpt : clear implicits.
Arguments MetricsOptions : clear implicits.

(** *** Specification *)

(** What the framework documents of its watcher: a policy or a profile that
    differs from the initial one has the callback for it called, if it is set,
    and no other does.  [shuts_down] tells whether a callback, and so [cancel],
    is called when the cluster shows the policy and the profile. *)
Class WatcherContract := {
  shuts_down : SecurityProfileWatcher → string → TLSProfileSpec → bool;
  shuts_down_iff w policy spec : shuts_down w policy spec = true ↔
    (policy ≠ InitialTLSAdherencePolicy w ∧ is_Some (OnAdherencePolicyChange w)) ∨
    (spec ≠ InitialTLSProfileSpec w ∧ is_Some (OnProfileChange w));
}.

Section spec.
Context {K X Cert : Type} `{!FrameworkTLS K X}.

(** The profile in force for a policy and a cluster profile. *)
Definition effective (policy : string) (spec : TLSProfileSpec) : TLSProfileSpec :=
  if ShouldHonorClusterTLSProfile policy then spec else IntermediateProfile.

(** The configuration after all setters, in order. *)
Definition configure (opts : list (TLSOpt X Cert)) (c : Config X Cert) : Config X Cert :=
  fold_left (λ c f, f c) opts c.

End spec.

(** ** Properties *)

Section properties.
Context {K X Cert : Type} `{!FrameworkTLS K X, !WatcherContract}.

(** The resolved profile, in every case: when the cluster's profile and
    policy are read, the profile in force is the cluster's if the policy says
    to honor it and the hardened Intermediate profile otherwise, the result
    records what was read, and its options configure exactly the profile in
    force and HTTP/2; a profile that cannot be configured, and a failing read,
    are errors, never a fall back to something weaker. *)
Theorem Resolve_spec (k : K) :
  let out := Resolve (X:=X) (Cert:=Cert) k in
  match (LoadWithAdherence (X:=X) k).1 with
  | Err e => out.1 = Err (ErrWrap "loading APIServer TLS profile and adherence" e)
  | Ok l =>
      let p := effective (K:=K) (X:=X) (l_AdherencePolicy l) (l_Spec l) in
      match ConfigFromProfileWithError (K:=K) (X:=X) p with
      | Err e => out.1 = Err (ErrWrap "building TLS config from profile" e)
      | Ok (f, _) => ∃ r, out.1 = Ok r ∧ EffectiveProfile r = p ∧
          (r_Profile r, Adherence r, ProfileHonored r, UsedFallback r, Watchable r) =
          (l_Spec l, l_AdherencePolicy l, ShouldHonorClusterTLSProfile (K:=K) (X:=X) (l_AdherencePolicy l),
           l_UsedFallback l, l_Watchable l) ∧
          ∀ c, configure (r_TLSOpts r) c =
               MkConfig (f (c_profile c)) (HTTP2NextProtos (K:=K) (X:=X)) (GetCertificate c)
      end
  end.
Proof.
  cbn zeta. unfold Resolve, wrapping, lift, effective. unfold mbind, M_bind.
  destruct (LoadWithAdherence k) as [[l|e] k1]; cbn [fst wrap_err]; [|done].
  destruct (ShouldHonorClusterTLSProfile (l_AdherencePolicy l)); cbn [negb];
    destruct (ConfigFromProfileWithError _) as [[f u]|e]; cbn; try done; by eexists.
Qed.

(** A result is made of what was read. *)
Lemma Resolve_ok (k : K) (r : Result X Cert) (k' : K) : Resolve (X:=X) k = (Ok r, k') →
  ∃ l k1, LoadWithAdherence (X:=X) k = (Ok l, k1) ∧ Watchable r = l_Watchable l ∧
    EffectiveProfile r = effective (K:=K) (X:=X) (l_AdherencePolicy l) (l_Spec l).
Proof.
  unfold Resolve, wrapping, lift, effective. unfold mbind, M_bind.
  destruct (LoadWithAdherence k) as [[l|e] k1]; cbn; [|done].
  destruct (ConfigFromProfileWithError _) as [[f u]|e]; cbn; [|done]. intros [= <- <-].
  exists l, k1. by destruct (ShouldHonorClusterTLSProfile _).
Qed.

(** The watcher that is made from a result never keeps an outdated profile:
    whenever the policy and the profile of the cluster come to call for another
    effective profile than the one in force, it shuts the operator down. *)
Theorem new_watcher_reloads (k : K) (r : Result X Cert) (k' : K) (policy : string) (spec : TLSProfileSpec)
    (Hres : Resolve (X:=X) k = (Ok r, k'))
    (Hchange : effective (K:=K) (X:=X) policy spec ≠ EffectiveProfile r) :
  shuts_down (newSecurityProfileWatcher r) policy spec = true.
Proof.
  unfold Resolve, wrapping, lift in Hres. unfold mbind, M_bind in Hres.
  destruct (LoadWithAdherence k) as [[l|e] k1]; cbn in Hres; [|done].
  destruct (ConfigFromProfileWithError _) as [[f u]|e]; cbn in Hres; [|done].
  injection Hres as <- <-. cbn in Hchange. unfold effective in Hchange.
  apply shuts_down_iff. unfold newSecurityProfileWatcher. cbn.
  destruct (decide (policy = l_AdherencePolicy l)) as [->|Hp]; [right|by left].
  destruct (ShouldHonorClusterTLSProfile (l_AdherencePolicy l)); cbn in *; [|done].
  split; [done|by eexists].
Qed.

(** The watcher does not restart the operator in vain on a change of the
    profile alone: when the policy stays and does not honor the cluster's
    profile (and no fall back was used), a new profile is ignored. *)
Theorem watcher_ignores (k : K) (r : Result X Cert) (k' : K) (spec : TLSProfileSpec)
    (Hres : Resolve (X:=X) k = (Ok r, k'))
    (Hhonored : ShouldHonorClusterTLSProfile (K:=K) (X:=X) (Adherence r) = false)
    (Hfallback : UsedFallback r = false) :
  shuts_down (newSecurityProfileWatcher r) (Adherence r) spec = false.
Proof.
  unfold Resolve, wrapping, lift in Hres. unfold mbind, M_bind in Hres.
  destruct (LoadWithAdherence k) as [[l|e] k1]; cbn in Hres; [|done].
  destruct (ConfigFromProfileWithError _) as [[f u]|e]; cbn in Hres; [|done].
  injection Hres as <- <-. cbn in Hhonored, Hfallback. apply not_true_is_false.
  rewrite shuts_down_iff. unfold newSecurityProfileWatcher. cbn. rewrite Hhonored, Hfallback.
  intros [[Hp _]|[_ [x Hx]]]; done.
Qed.

(** The metrics server: authentication and authorization are on exactly
    when the serving is secure; the given options are all applied, in order;
    and with a certificate directory every handshake reads the certificate and
    the key that are there at that time, whatever the options set before. *)
Theorem MetricsServerOptions_spec (X509KeyPair : string → string → result Cert) (abs : string → path)
    (bindAddress : string) (secure : bool) (certDir : string) (tlsOpts : list (TLSOpt X Cert)) (c : Config X Cert) :
  let o := MetricsServerOptions X509KeyPair abs bindAddress secure certDir tlsOpts in
  (BindAddress o, SecureServing o, FilterProvider o, CertDir o) = (bindAddress, secure, secure, certDir) ∧
  c_profile (configure (m_TLSOpts o) c) = c_profile (configure tlsOpts c) ∧
  NextProtos (configure (m_TLSOpts o) c) = NextProtos (configure tlsOpts c) ∧
  GetCertificate (configure (m_TLSOpts o) c) =
    (if bool_decide (certDir = "") then GetCertificate (configure tlsOpts c)
     else Some (load_key_pair X509KeyPair abs certDir)).
Proof.
  cbn zeta. unfold MetricsServerOptions, configure. case_bool_decide as Hd; [by subst|].
  cbn [m_TLSOpts BindAddress SecureServing FilterProvider CertDir]. by rewrite !fold_left_app.
Qed.

End properties.

(** A rotated certificate is served at the next handshake: when no system
    call fails, what a handshake serves is the pair made of the present contents
    of the two files. *)
Theorem load_key_pair_fresh {Cert : Type} (X509KeyPair : string → string → result Cert)
    (abs : string → path) (certDir : string) (s : os) (cert key : string)
    (Hquiet : quiet s)
    (Hcert : os_nodes s !! (abs certDir ++ ["tls.crt"]) = Some (File cert))
    (Hkey : os_nodes s !! (abs certDir ++ ["tls.key"]) = Some (File key)) :
  load_key_pair X509KeyPair abs certDir s =
  (wrap_err "loading metrics serving certificate" (X509KeyPair cert key), s).
Proof.
  unfold load_key_pair, wrapping, GoOS.Join. unfold mbind, M_bind.
  rewrite (ReadFile_quiet s _ cert Hquiet Hcert), (ReadFile_quiet s _ key Hquiet Hkey). done.
Qed.

(** *** Witnesses *)

(** A cluster whose API server names an adherence policy and a profile. *)
#[local] Instance ex_framework : FrameworkTLS LoadResult (list string) := {|
  LoadWithAdherence := get;
  ShouldHonorClusterTLSProfile p := bool_decide (p = "StrictAllComponents");
  IntermediateProfile := MkProfile ["ECDHE-RSA-AES128-GCM-SHA256"] "VersionTLS12" [];
  ConfigFromProfileWithError p := Ok (λ _, p_Ciphers p, []);
  HTTP2NextProtos := ["h2"; "http/1.1"];
|}.

#[local] Instance ex_contract : WatcherContract.
Proof.
  refine {| shuts_down w policy spec := bool_decide
    ((policy ≠ InitialTLSAdherencePolicy w ∧ is_Some (OnAdherencePolicyChange w)) ∨
     (spec ≠ InitialTLSProfileSpec w ∧ is_Some (OnProfileChange w))) |}.
  intros. apply bool_decide_eq_true.
Defined.

Definition ex_load (policy : string) : LoadResult :=
  MkLoadResult (MkProfile [] "VersionTLS13" []) policy false true.

Definition ex_resolved (policy : string) : Result (list string) string :=
  match (Resolve (X:=list string) (ex_load policy)).1 with
  | Ok r => r
  | Err _ => MkResult (MkProfile [] "" []) false "" false false [] (MkProfile [] "" [])
  end.

Lemma new_watcher_reloads_witness :
  shuts_down (newSecurityProfileWatcher (ex_resolved "StrictAllComponents")) "StrictAllComponents"
    (MkProfile ["DES-CBC3-SHA"] "VersionTLS10" []) = true.
Proof. by apply (new_watcher_reloads (ex_load "StrictAllComponents") _ (ex_load "StrictAllComponents")). Defined.

Lemma watcher_ignores_witness :
  shuts_down (newSecurityProfileWatcher (ex_resolved "LegacyOnly")) "LegacyOnly"
    (MkProfile ["DES-CBC3-SHA"] "VersionTLS10" []) = false.
Proof. by apply (watcher_ignores (ex_load "LegacyOnly") (ex_resolved "LegacyOnly") (ex_load "LegacyOnly")). Defined.

Definition ex_certs : os :=
  OS (list_to_map [(["certs"; "tls.crt"], File "new certificate"); (["certs"; "tls.key"], File "new key")]) ∅ [].

Lemma load_key_pair_fresh_witness :
  load_key_pair (λ c k, Ok (c, k)) (λ d, [d]) "certs" ex_certs =
  (Ok ("new certificate", "new key"), ex_certs).
Proof. by apply (load_key_pair_fresh (λ c k, Ok (c, k)) (λ d, [d]) "certs" ex_certs "new certificate" "new key"). Defined.
