(* ===== verification/Flags.v ===== *)
(** The command line of the operator: the parser of Go's [flag] package, the
    registration of the flags in [cmd/main.go], and what is accepted. *)

From S2P Require Import Prelude GoStrings.
From Stdlib Require Import Ascii.
Open Scope string_scope.
Open Scope nat_scope.
Open Scope list_scope.

(** ** Definitions *)

(** *** The package [flag] *)

(** A registered flag: whether it is a [boolFlag], which needs no argument, and
    its [Set], on the variables [S]. *)
Record flag (S : Type) := MkFlag {
  IsBoolFlag : bool;
  SetFlag : string → S → result S }.
Arguments MkFlag {S} IsBoolFlag SetFlag.
Arguments IsBoolFlag {S} f.
Arguments SetFlag {S} f.

Abbreviation FlagSet S := (gmap string (flag S)).

(** [strconv.ParseBool]; the value setters of [flag] report [errParse]. *)
Definition errParse : goerror := ErrNew "parse error".

Definition ParseBool (s : string) : result bool :=
  if bool_decide (s ∈ ["1"; "t"; "T"; "TRUE"; "true"; "True"]) then Ok true
  else if bool_decide (s ∈ ["0"; "f"; "F"; "FALSE"; "false"; "False"]) then Ok false
  else Err errParse.

(** One command-line argument, as [parseOne] looks at it. *)
Inductive argument :=
| Operand
| Terminator
| BadSyntax
| FlagArg (name : string) (value : option string).

(** After the dashes: the name, and the value if there is one. *)
Definition read_name (name : string) : argument :=
  match name with
  | EmptyString => BadSyntax
  | String d u =>
      if bool_decide (d = "-"%char ∨ d = "="%char) then BadSyntax
      else match Cut u "=" with
           | (b, a, true) => FlagArg (String d b) (Some a)
           | (_, _, false) => FlagArg name None
           end
  end.

Definition read_arg (s : string) : argument :=
  match s with
  | String c0 (String c1 t as s1) =>
      if bool_decide (c0 ≠ "-"%char) then Operand
      else if bool_decide (s1 = "-") then Terminator
      else read_name (if bool_decide (c1 = "-"%char) then t else s1)
  | _ => Operand
  end.

(** A panic ends the process. *)
Definition panic (msg : string) : goerror := ErrForeign "panic" msg.

Definition ErrHelp : goerror := ErrNew "flag: help requested".

Section parsing.
Context {S : Type} (Quote : string → string).
Implicit Types (fs : FlagSet S) (s : S).

(** [Var]: a name that the parser could not read, or that is taken, is a panic. *)
Definition Var (name : string) (f : flag S) : M (FlagSet S * S) unit := λ '(fs, s),
  if HasPrefix name "-" then (Err (panic ("flag " +:+ Quote name +:+ " begins with -")), (fs, s))
  else if Contains name "=" then (Err (panic ("flag " +:+ Quote name +:+ " contains =")), (fs, s))
  else match fs !! name with
       | Some _ => (Err (panic ("flag redefined: " +:+ name)), (fs, s))
       | None => (Ok tt, (<[name := f]> fs, s))
       end.

Definition string_flag (set : string → S → S) : flag S := MkFlag false (λ v s, Ok (set v s)).
Definition bool_flag (set : bool → S → S) : flag S := MkFlag true (λ v s, b ← ParseBool v; mret (set b s)).

(** The variable gets the default first. *)
Definition StringVar (set : string → S → S) (name dflt : string) : M (FlagSet S * S) unit :=
  modify (λ '(fs, s), (fs, set dflt s));; Var name (string_flag set).
Definition BoolVar (set : bool → S → S) (name : string) (dflt : bool) : M (FlagSet S * S) unit :=
  modify (λ '(fs, s), (fs, set dflt s));; Var name (bool_flag set).

(** [Parse], with what is left of the arguments. *)
Fixpoint Parse (fs : FlagSet S) (args : list string) (s : S) : result (S * list string) :=
  match args with
  | [] => Ok (s, [])
  | a :: args1 =>
      match read_arg a with
      | Operand => Ok (s, args)
      | Terminator => Ok (s, args1)
      | BadSyntax => Err (ErrNew ("bad flag syntax: " +:+ a))
      | FlagArg name value =>
          match fs !! name with
          | None =>
              if bool_decide (name = "help" ∨ name = "h") then Err ErrHelp
              else Err (ErrNew ("flag provided but not defined: -" +:+ name))
          | Some f =>
              if IsBoolFlag f then
                match SetFlag f (default "true" value) s with
                | Ok s' => Parse fs args1 s'
                | Err e =>
                    match value with
                    | Some v => Err (ErrNew ("invalid boolean value " +:+ Quote v +:+ " for -" +:+ name +:+ ": " +:+ Error e))
                    | None => Err (ErrNew ("invalid boolean flag " +:+ name +:+ ": " +:+ Error e))
                    end
                end
              else
                let invalid v e := ErrNew ("invalid value " +:+ Quote v +:+ " for flag -" +:+ name +:+ ": " +:+ Error e) in
                match value, args1 with
                | Some v, _ =>
                    match SetFlag f v s with Ok s' => Parse fs args1 s' | Err e => Err (invalid v e) end
                | None, v :: args2 =>
                    match SetFlag f v s with Ok s' => Parse fs args2 s' | Err e => Err (invalid v e) end
                | None, [] => Err (ErrNew ("flag needs an argument: -" +:+ name))
                end
          end
      end
  end.

End parsing.

(** *** The flags of the operator *)

(** The variables of [main], and their defaults. *)
Record flags := MkFlags {
  metricsAddr : string;
  metricsCertPath : string;
  probeAddr : string;
  secureMetrics : bool }.

Definition default_flags : flags := MkFlags ":8443" "" ":8081" true.

(** The zero values before the registration. *)
Definition zero_flags : flags := MkFlags "" "" "" false.

Definition set_metricsAddr v fl := MkFlags v (metricsCertPath fl) (probeAddr fl) (secureMetrics fl).
Definition set_metricsCertPath v fl := MkFlags (metricsAddr fl) v (probeAddr fl) (secureMetrics fl).
Definition set_probeAddr v fl := MkFlags (metricsAddr fl) (metricsCertPath fl) v (secureMetrics fl).
Definition set_secureMetrics b fl := MkFlags (metricsAddr fl) (metricsCertPath fl) (probeAddr fl) b.

(** The flags of other packages, on variables [Z] of their own: those that
    imported packages register when they are initialised, and those that
    [zap.Options.BindFlags] adds.  [zap_options] are the variables before. *)
Class ForeignFlags (Z : Type) := {
  imported_flags : FlagSet Z;
  zap_flags : FlagSet Z;
  zap_options : Z;
}.

Section command_line.
Context {Z : Type} `{!ForeignFlags Z} (Quote : string → string).

Definition on_own (f : flags → flags) : flags * Z → flags * Z := λ s, (f s.1, s.2).
Definition foreign (f : flag Z) : flag (flags * Z) :=
  MkFlag (IsBoolFlag f) (λ v s, z ← SetFlag f v s.2; mret (s.1, z)).

(** [opts.BindFlags(flag.CommandLine)]. *)
Definition BindFlags : M (FlagSet (flags * Z) * (flags * Z)) unit :=
  forM (map_to_list zap_flags) (λ nf, Var Quote nf.1 (foreign nf.2)).

Definition register_flags : M (FlagSet (flags * Z) * (flags * Z)) unit :=
  StringVar Quote (λ v, on_own (set_metricsAddr v)) "metrics-bind-address" ":8443";;
  BoolVar Quote (λ b, on_own (set_secureMetrics b)) "metrics-secure" true;;
  StringVar Quote (λ v, on_own (set_metricsCertPath v)) "metrics-cert-path" "";;
  StringVar Quote (λ v, on_own (set_probeAddr v)) "health-probe-bind-address" ":8081";;
  BindFlags.

(** The registration and [flag.Parse()] on [os.Args[1:]]. *)
Definition parse_command_line (args : list string) : result ((flags * Z) * list string) :=
  match register_flags (foreign <$> imported_flags, (zero_flags, zap_options)) with
  | (Ok _, (fs, s)) => Parse Quote fs args s
  | (Err e, _) => Err e
  end.

End command_line.

(** *** Specification *)

(** A name that the parser can read. *)
Definition readable (n : string) : Prop :=
  ∃ d u, n = String d u ∧ d ≠ "-"%char ∧ d ≠ "="%char ∧ has_byte "=" u = false.

(** The ways to write down one setting of a flag. *)
Inductive written (boolean : bool) (n v : string) : list string → Prop :=
| written_joined dash : dash ∈ ["-"; "--"] → written boolean n v [dash +:+ n +:+ "=" +:+ v]
| written_apart dash : dash ∈ ["-"; "--"] → boolean = false → written boolean n v [dash +:+ n; v]
| written_alone dash : dash ∈ ["-"; "--"] → boolean = true → v = "true" → written boolean n v [dash +:+ n].

Definition operand (a : string) : Prop := a = "" ∨ a = "-" ∨ HasPrefix a "-" = false.

(** Where the flags end: at the end, before an operand, or after a terminator. *)
Inductive ending : list string → list string → Prop :=
| ending_nil : ending [] []
| ending_operand a args : operand a → ending (a :: args) (a :: args)
| ending_terminator args : ending ("--" :: args) args.

Section spec.
Context {S : Type} (fs : FlagSet S).

(** The settings in order. *)
Fixpoint assign (nvs : list (string * string)) (s : S) : option S :=
  match nvs with
  | [] => Some s
  | (n, v) :: nvs' =>
      match fs !! n with
      | Some f => match SetFlag f v s with Ok s' => assign nvs' s' | Err _ => None end
      | None => None
      end
  end.

Definition writes (nv : string * string) (ws : list string) : Prop :=
  readable nv.1 ∧ ∃ f, fs !! nv.1 = Some f ∧ written (IsBoolFlag f) nv.1 nv.2 ws.

End spec.

(** ** Lemmas *)

Lemma Cut_none c s b a : Cut s (String c EmptyString) = (b, a, false) → has_byte c s = false.
Proof.
  revert b a. induction s as [|d s IH]; intros b a H; [done|]. cbn [Cut] in H.
  destruct (String.prefix (String c EmptyString) (String d s)) eqn:Ep; [done|].
  destruct (Cut s _) as [[b' a'] []] eqn:Ec; [done|]. cbn. rewrite (IH b' a' eq_refl), orb_false_r.
  apply bool_decide_eq_false. intros ->. cbn in Ep. destruct (ascii_dec c c); [|done]. by destruct s.
Qed.

Lemma has_byte_Cut c s : has_byte c s = false → (Cut s (String c EmptyString)).2 = false.
Proof.
  intros H. destruct (Cut s _) as [[b a] []] eqn:E; [|done]. apply Cut_true in E as [-> _].
  rewrite has_byte_app in H. cbn in H. rewrite bool_decide_eq_true_2, orb_true_r in H by done. done.
Qed.

Lemma HasPrefix_byte c d s : HasPrefix (String c s) (String d EmptyString) = bool_decide (c = d).
Proof.
  unfold HasPrefix. cbn. destruct (ascii_dec d c) as [->|Hne].
  - rewrite bool_decide_eq_true_2 by done. by destruct s.
  - by rewrite bool_decide_eq_false_2.
Qed.

(** What an argument can be, from its text. *)
Lemma read_arg_spec a :
  match read_arg a with
  | Operand => operand a
  | Terminator => a = "--"
  | BadSyntax => True
  | FlagArg n v => readable n ∧ ∃ dash, dash ∈ ["-"; "--"] ∧
      a = dash +:+ n +:+ match v with Some v => "=" +:+ v | None => "" end
  end.
Proof.
  destruct a as [|c0 [|c1 t]]; [by left|..].
  { destruct (decide (c0 = "-"%char)) as [->|Hc]; [by right; left|right; right].
    by rewrite HasPrefix_byte, bool_decide_eq_false_2. }
  cbn [read_arg]. case_bool_decide as H0; cbn.
  { right. right. by rewrite HasPrefix_byte, bool_decide_eq_false_2. }
  subst c0. case_bool_decide as H1; [by injection H1 as -> ->|].
  assert (∃ dash u, dash ∈ ["-"; "--"] ∧ String "-" (String c1 t) = dash +:+ u ∧
    (if bool_decide (c1 = "-"%char) then t else String c1 t) = u) as (dash & u & Hd & -> & ->).
  { case_bool_decide as H2; [subst c1; exists "--", t|exists "-", (String c1 t)]; (split; [set_solver|done]). }
  destruct u as [|d u]; [done|]. cbn [read_name]. case_bool_decide as Hc; [done|].
  destruct (Cut u "=") as [[b v] []] eqn:Ec.
  - apply Cut_true in Ec as [-> Hb]. split; [exists d, b; naive_solver|]. by exists dash.
  - apply Cut_none in Ec. split; [exists d, u; naive_solver|]. exists dash. by rewrite app_nil_r_str.
Qed.

Lemma read_arg_operand a : operand a → read_arg a = Operand.
Proof.
  intros [-> |[-> |H]]; [done..|]. destruct a as [|c0 [|c1 t]]; [done..|]. cbn [read_arg].
  rewrite HasPrefix_byte in H. apply bool_decide_eq_false in H. by rewrite bool_decide_eq_true_2.
Qed.

(** A flag is read back. *)
Lemma read_arg_dash dash d u : dash ∈ ["-"; "--"] → d ≠ "-"%char →
  read_arg (dash +:+ String d u) = read_name (String d u).
Proof.
  intros Hd Hm. rewrite !elem_of_cons, elem_of_nil in Hd. destruct Hd as [-> |[-> |[]]]; cbn [String.append read_arg].
  - rewrite (bool_decide_eq_false_2 (_ ≠ _)) by naive_solver. rewrite bool_decide_eq_false_2 by naive_solver.
    by rewrite bool_decide_eq_false_2.
  - rewrite (bool_decide_eq_false_2 (_ ≠ _)) by naive_solver. by rewrite bool_decide_eq_false_2.
Qed.

Lemma read_arg_alone dash n : dash ∈ ["-"; "--"] → readable n → read_arg (dash +:+ n) = FlagArg n None.
Proof.
  intros Hd (d & u & -> & Hm & He & Hu). rewrite read_arg_dash by done. cbn [read_name].
  rewrite bool_decide_eq_false_2 by naive_solver. pose proof (has_byte_Cut _ _ Hu) as Hc.
  destruct (Cut u "=") as [[b a] f]. cbn in Hc. by subst f.
Qed.

Lemma read_arg_joined dash n v : dash ∈ ["-"; "--"] → readable n →
  read_arg (dash +:+ n +:+ "=" +:+ v) = FlagArg n (Some v).
Proof.
  intros Hd (d & u & -> & Hm & He & Hu). cbn [String.append]. rewrite read_arg_dash by done. cbn [read_name].
  rewrite bool_decide_eq_false_2 by naive_solver. by rewrite Cut_app.
Qed.

(** *** The parser *)

Section parse.
Context {S : Type} (Quote : string → string) (fs : FlagSet S).

Lemma Parse_ending tail rest s : ending tail rest → Parse Quote fs tail s = Ok (s, rest).
Proof. intros [|a args Ho|args]; cbn; [done| |done]. by rewrite (read_arg_operand _ Ho). Qed.

(** One setting, written in any way. *)
Lemma Parse_written n v f ws args s s' : readable n → fs !! n = Some f → written (IsBoolFlag f) n v ws →
  SetFlag f v s = Ok s' → Parse Quote fs (ws ++ args) s = Parse Quote fs args s'.
Proof.
  intros Hn Hf Hw Hs. destruct Hw as [dash Hd|dash Hd Hb|dash Hd Hb ->]; cbn [app Parse].
  - rewrite read_arg_joined, Hf by done. cbn [from_option id]. by destruct (IsBoolFlag f); rewrite Hs.
  - rewrite read_arg_alone, Hf, Hb by done. by rewrite Hs.
  - rewrite read_arg_alone, Hf, Hb by done. cbn [from_option id]. by rewrite Hs.
Qed.

Lemma Parse_settings nvs wss tail rest s s' :
  Forall2 (writes fs) nvs wss → assign fs nvs s = Some s' → ending tail rest →
  Parse Quote fs (concat wss ++ tail) s = Ok (s', rest).
Proof.
  intros Hw. revert s. induction Hw as [|[n v] ws nvs wss (Hn & f & Hf & Hw) _ IH]; intros s Ha He.
  - injection Ha as ->. by apply Parse_ending.
  - cbn in Ha, Hf. rewrite Hf in Ha. destruct (SetFlag f v s) as [s1|] eqn:Es; [|done]. cbn [concat].
    rewrite <-app_assoc, (Parse_written n v f ws _ s s1) by done. by apply IH.
Qed.

(** And nothing else is accepted. *)
Lemma Parse_accepted len args s s' rest : length args ≤ len → Parse Quote fs args s = Ok (s', rest) →
  ∃ nvs wss tail, args = concat wss ++ tail ∧ Forall2 (writes fs) nvs wss ∧ assign fs nvs s = Some s' ∧ ending tail rest.
Proof.
  revert args s. induction len as [|len IH]; intros args s Hlen; destruct args as [|a args].
  1,3: intros [= -> <-]; exists [], [], []; split_and!; [done|constructor|done|constructor].
  { cbn in Hlen. lia. }
  cbn in Hlen. cbn [Parse]. pose proof (read_arg_spec a) as Ha. destruct (read_arg a) as [| | |n v]; [..|].
  - intros [= -> <-]. exists [], [], (a :: args). split_and!; [done|constructor|done|by constructor].
  - intros [= -> <-]. exists [], [], (a :: args). subst a. split_and!; [done|constructor|done|constructor].
  - done.
  - destruct Ha as (Hn & dash & Hd & Ha). destruct (fs !! n) as [f|] eqn:Hf; [|by destruct (bool_decide _)].
    assert (∀ w ws args2 s1, a :: args = ws ++ args2 → length args2 ≤ len → written (IsBoolFlag f) n w ws →
      SetFlag f w s = Ok s1 → Parse Quote fs args2 s1 = Ok (s', rest) →
      ∃ nvs wss tail, a :: args = concat wss ++ tail ∧ Forall2 (writes fs) nvs wss ∧ assign fs nvs s = Some s' ∧ ending tail rest) as Hstep.
    { intros w ws args2 s1 E Hl Hw Hs Hp. destruct (IH args2 s1 Hl Hp) as (nvs & wss & tail & -> & Hws & Has & He).
      exists ((n, w) :: nvs), (ws :: wss), tail. cbn [concat]. rewrite <-app_assoc. split_and!; [done| | |done].
      - constructor; [|done]. by split; [|exists f].
      - cbn [assign]. by rewrite Hf, Hs. }
    destruct (IsBoolFlag f) eqn:Hb.
    + destruct (SetFlag f (default "true" v) s) as [s1|e] eqn:Es; [|by destruct v].
      apply (Hstep (default "true" v) [a] args s1); [done|lia| |done]. destruct v as [v|]; cbn in Ha |- *; subst a.
      * by constructor.
      * rewrite app_nil_r_str. by constructor.
    + destruct v as [v|]; cbn in Ha.
      * destruct (SetFlag f v s) as [s1|e] eqn:Es; [|done]. apply (Hstep v [a] args s1); [done|lia| |done]. subst a. by constructor.
      * destruct args as [|v args]; [done|]. destruct (SetFlag f v s) as [s1|e] eqn:Es; [|done]. cbn in Hlen.
        apply (Hstep v [a; v] args s1); [done|lia| |done]. subst a. rewrite app_nil_r_str. by constructor.
Qed.

End parse.

(** *** The registration *)

Definition own_names : list string :=
  ["metrics-bind-address"; "metrics-secure"; "metrics-cert-path"; "health-probe-bind-address"].

(** The flags of the other packages can be registered beside the operator's. *)
Record compatible {Z : Type} (F : ForeignFlags Z) : Prop := {
  zap_valid n : is_Some (zap_flags !! n) → HasPrefix n "-" = false ∧ Contains n "=" = false;
  zap_apart n : is_Some (zap_flags !! n) → imported_flags !! n = None;
  own_apart n : n ∈ own_names → imported_flags !! n = None ∧ zap_flags !! n = None;
}.

(** The settings that make [fl]. *)
Definition settings (fl : flags) : list (string * string) :=
  [("metrics-bind-address", metricsAddr fl); ("metrics-secure", if secureMetrics fl then "true" else "false");
   ("metrics-cert-path", metricsCertPath fl); ("health-probe-bind-address", probeAddr fl)].

Section registration.
Context {Z : Type} `{F : !ForeignFlags Z} (Quote : string → string) (HF : compatible F).

#[local] Abbreviation vars := (flags * Z)%type.

Definition own_flag (n : string) : option (flag vars) :=
  if bool_decide (n = "metrics-bind-address") then Some (string_flag (λ v, on_own (set_metricsAddr v)))
  else if bool_decide (n = "metrics-secure") then Some (bool_flag (λ b, on_own (set_secureMetrics b)))
  else if bool_decide (n = "metrics-cert-path") then Some (string_flag (λ v, on_own (set_metricsCertPath v)))
  else if bool_decide (n = "health-probe-bind-address") then Some (string_flag (λ v, on_own (set_probeAddr v)))
  else None.

Lemma Var_run n (f : flag vars) fs s : HasPrefix n "-" = false → Contains n "=" = false → fs !! n = None →
  Var Quote n f (fs, s) = (Ok tt, (<[n := f]> fs, s)).
Proof. intros H1 H2 H3. unfold Var. by rewrite H1, H2, H3. Qed.

Lemma BindFlags_run (l : list (string * flag Z)) fs (s : vars) :
  NoDup l.*1 → (∀ n, n ∈ l.*1 → HasPrefix n "-" = false ∧ Contains n "=" = false ∧ fs !! n = None) →
  forM l (λ nf, Var Quote nf.1 (foreign nf.2)) (fs, s) = (Ok tt, ((foreign <$> list_to_map l) ∪ fs, s)).
Proof.
  revert fs. induction l as [|[n f] l IH]; intros fs Hnd Hfree.
  { cbn. by rewrite fmap_empty, (left_id ∅ (∪)). }
  cbn in Hnd, Hfree. apply list.NoDup_cons in Hnd as [Hn Hnd]. destruct (Hfree n) as (H1 & H2 & H3); [by left|].
  rewrite forM_cons. cbn [fst snd]. rewrite Var_run by done. rewrite IH; [|done|].
  - cbn [list_to_map foldr uncurry fst snd]. rewrite fmap_insert, <-insert_union_l, insert_union_r; [done|].
    rewrite lookup_fmap. by rewrite (not_elem_of_list_to_map_1 _ _ Hn).
  - intros n' Hn'. rewrite lookup_insert_ne by (intros ->; done). apply Hfree. by right.
Qed.

(** The flags that are defined when the command line is parsed. *)
Definition registered : FlagSet vars :=
  (foreign <$> zap_flags) ∪
    <["health-probe-bind-address" := string_flag (λ v, on_own (set_probeAddr v))]>
      (<["metrics-cert-path" := string_flag (λ v, on_own (set_metricsCertPath v))]>
        (<["metrics-secure" := bool_flag (λ b, on_own (set_secureMetrics b))]>
          (<["metrics-bind-address" := string_flag (λ v, on_own (set_metricsAddr v))]> (foreign <$> imported_flags)))).

(** Everything is registered, and the variables have the defaults. *)
Lemma register_run : register_flags (Z:=Z) Quote (foreign <$> imported_flags, (zero_flags, zap_options)) =
  (Ok tt, (registered, (default_flags, zap_options))).
Proof.
  assert (∀ n, n ∈ own_names → (foreign <$> imported_flags : FlagSet vars) !! n = None) as Hi.
  { intros n Hn. rewrite lookup_fmap. by destruct (own_apart _ HF n Hn) as [-> _]. }
  unfold register_flags, StringVar, BoolVar. unfold modify. unfold mbind, M_bind. cbn [fst snd].
  rewrite Var_run; [|done|done|by apply Hi; left].
  rewrite Var_run; [|done|done|rewrite lookup_insert_ne by done; apply Hi; by right; left].
  rewrite Var_run; [|done|done|rewrite !lookup_insert_ne by done; apply Hi; by do 2 right; left].
  rewrite Var_run; [|done|done|rewrite !lookup_insert_ne by done; apply Hi; by do 3 right; left].
  unfold BindFlags. rewrite BindFlags_run; [by rewrite list_to_map_to_list|apply NoDup_fst_map_to_list|].
  intros n Hn. assert (is_Some (zap_flags !! n)) as Hs.
  { apply list_elem_of_fmap in Hn as ([n' f] & -> & Hn%elem_of_map_to_list). by exists f. }
  destruct (zap_valid _ HF n Hs) as [H1 H2]. split_and!; [done..|].
  assert (n ∉ own_names) as Ho by (intros Ho; apply (own_apart _ HF) in Ho as [_ Ho]; rewrite Ho in Hs; by destruct Hs).
  unfold own_names in Ho. rewrite !not_elem_of_cons in Ho. rewrite !lookup_insert_ne by naive_solver.
  rewrite lookup_fmap. by rewrite (zap_apart _ HF).
Qed.

Lemma registered_own n : n ∈ own_names → registered !! n = own_flag n.
Proof.
  intros Hn. unfold registered. rewrite lookup_union_r.
  2:{ rewrite lookup_fmap. by destruct (own_apart _ HF _ Hn) as [_ ->]. }
  unfold own_names in Hn. rewrite !elem_of_cons, elem_of_nil in Hn.
  destruct Hn as [-> |[-> |[-> |[-> |[]]]]]; unfold own_flag; simplify_map_eq; done.
Qed.

End registration.

(** ** Properties *)

Section parse_properties.
Context {S : Type} (Quote : string → string) (fs : FlagSet S).

(** The command line that is accepted is exactly a sequence of settings, each
    of a registered flag and written in one of the ways the package documents
    (with one dash or two, the value joined with an equals sign or, unless the
    flag is boolean, as the next argument; a boolean flag alone means true), up
    to the end, the first operand or a terminator; the result is that of the
    settings in order, so that a later one wins, and what follows is left. *)
Theorem Parse_refines (args rest : list string) (s s' : S) :
  Parse Quote fs args s = Ok (s', rest) ↔
  ∃ nvs wss tail, args = concat wss ++ tail ∧ Forall2 (writes fs) nvs wss ∧ assign fs nvs s = Some s' ∧ ending tail rest.
Proof.
  split.
  - by apply (Parse_accepted Quote fs (length args)).
  - intros (nvs & wss & tail & -> & Hw & Ha & He). by apply (Parse_settings Quote fs nvs).
Qed.

End parse_properties.

Section command_line_properties.
Context {Z : Type} `{F : !ForeignFlags Z} (Quote : string → string).

(** C32: What the operator accepts as its command line: exactly a sequence of
    settings, each of a flag that was registered -- its own four, zap's and those
    of imported packages -- and written in one of the ways Go's package documents
    (with one dash or two, the value joined with an equals sign or, unless the
    flag is boolean, as the next argument; a boolean flag alone means true), up
    to the end, the first operand or a terminator.  The variables are then the
    defaults with the settings in their order, so that a later one wins. *)
Theorem parse_command_line_refines (args rest : list string) (s : flags * Z) (HF : compatible F) :
  parse_command_line Quote args = Ok (s, rest) ↔
  ∃ nvs wss tail, args = concat wss ++ tail ∧ Forall2 (writes registered) nvs wss ∧
    assign registered nvs (default_flags, zap_options) = Some s ∧ ending tail rest.
Proof.
  unfold parse_command_line. rewrite register_run by done. split.
  - by apply (Parse_accepted Quote registered (length args)).
  - intros (nvs & wss & tail & -> & Hw & Ha & He). by apply (Parse_settings Quote registered nvs).
Qed.

(** C33: Any values of the operator's flags can be given on the command line, and
    are read back as they were, whatever characters they have, in whichever of
    the ways each is written down; what follows the flags is left. *)
Theorem flags_roundtrip (fl : flags) (wss : list (list string)) (tail rest : list string)
    (HF : compatible F)
    (Hwritten : Forall2 (λ nv, written (bool_decide (nv.1 = "metrics-secure")) nv.1 nv.2) (settings fl) wss)
    (Hend : ending tail rest) :
  parse_command_line Quote (concat wss ++ tail) = Ok ((fl, zap_options), rest).
Proof.
  unfold parse_command_line. rewrite register_run by done. pose proof (registered_own HF) as Hfs.
  apply (Parse_settings Quote registered (settings fl)); [| |done].
  - assert (Forall (λ nv, nv.1 ∈ own_names ∧ readable nv.1) (settings fl)) as Hown.
    { assert (∀ d u, d ≠ "-"%char → d ≠ "="%char → has_byte "=" u = false → readable (String d u)) as Hr by (intros; by exists d, u).
      repeat constructor; cbn; try (apply Hr; done); set_solver. }
    revert Hown. induction Hwritten as [|[n v] ws nvs wss' Hw _ IH]; [constructor|]. intros [[Hn Hr] Hrest]%list.Forall_cons.
    constructor; [|by apply IH]. split; [done|]. cbn [fst snd] in *. rewrite Hfs by done. unfold own_names in Hn.
    rewrite !elem_of_cons, elem_of_nil in Hn. destruct Hn as [-> |[-> |[-> |[-> |[]]]]]; eexists; (split; [done|exact Hw]).
  - cbn. rewrite !Hfs by set_solver. cbn. destruct fl as [a c p b]. cbn. by destruct b.
Qed.

End command_line_properties.

(** *** Witness *)

(** The flags of two other packages, as their [kubeconfig] and [zap-devel]. *)
#[local] Instance ex_foreign : ForeignFlags (string * bool) := {|
  imported_flags := {["kubeconfig" := string_flag (λ v s, (v, s.2))]};
  zap_flags := {["zap-devel" := bool_flag (λ b s, (s.1, b))]};
  zap_options := ("", true);
|}.

Lemma ex_compatible : compatible ex_foreign.
Proof.
  split.
  - intros n Hn. destruct (decide (n = "zap-devel")) as [->|Hne]; [done|].
    cbn in Hn. rewrite lookup_singleton_ne in Hn by done. by destruct Hn.
  - intros n Hn. destruct (decide (n = "zap-devel")) as [->|Hne]; [done|].
    cbn in Hn. rewrite lookup_singleton_ne in Hn by done. by destruct Hn.
  - intros n Hn. unfold own_names in Hn. rewrite !elem_of_cons, elem_of_nil in Hn.
    destruct Hn as [-> |[-> |[-> |[-> |[]]]]]; done.
Qed.

Definition ex_flags : flags := MkFlags ":8443=x" "" "-1" false.

Lemma flags_roundtrip_witness :
  parse_command_line id ["-metrics-bind-address"; ":8443=x"; "--metrics-secure=false"; "--metrics-cert-path=";
    "-health-probe-bind-address"; "-1"; "--"; "-x"] = Ok ((ex_flags, ("", true)), ["-x"]).
Proof.
  apply (flags_roundtrip id ex_flags [["-metrics-bind-address"; ":8443=x"]; ["--metrics-secure=false"];
    ["--metrics-cert-path="]; ["-health-probe-bind-address"; "-1"]] ["--"; "-x"] ["-x"] ex_compatible).
  - repeat constructor.
    + by apply (written_apart _ _ _ "-"); [left|].
    + apply (written_joined _ "metrics-secure" "false" "--"). by right; left.
    + apply (written_joined _ "metrics-cert-path" "" "--"). by right; left.
    + by apply (written_apart _ _ _ "-"); [left|].
  - constructor.
Defined.

(** A flag that is not registered, a boolean value that does not parse, a missing
    argument, and a flag of another package that is set twice. *)
Example command_lines :
  parse_command_line id ["--zap-devel"; "--metrics"] = Err (ErrNew "flag provided but not defined: -metrics") ∧
  parse_command_line id ["--metrics-secure=no"] =
    Err (ErrNew "invalid boolean value no for -metrics-secure: parse error") ∧
  parse_command_line id ["--metrics-secure"; "--metrics-cert-path"] = Err (ErrNew "flag needs an argument: -metrics-cert-path") ∧
  parse_command_line id ["--zap-devel=f"; "-zap-devel=0"; "-"; "-x"] = Ok ((default_flags, ("", false)), ["-"; "-x"]) ∧
  parse_command_line id ["-h"] = Err ErrHelp ∧ parse_command_line id ["---x"] = Err (ErrNew "bad flag syntax: ---x").
Proof. split_and!; by vm_compute. Qed.

(** A flag set twice: the later setting wins. *)
Lemma parse_command_line_refines_witness :
  parse_command_line id ["--metrics-secure=0"; "--metrics-secure"; "-zap-devel=f"; "x"] =
  Ok ((MkFlags ":8443" "" ":8081" true, ("", false)), ["x"]).
Proof.
  apply (parse_command_line_refines id _ _ _ ex_compatible).
  exists [("metrics-secure", "0"); ("metrics-secure", "true"); ("zap-devel", "f")],
    [["--metrics-secure=0"]; ["--metrics-secure"]; ["-zap-devel=f"]], ["x"].
  split_and!; [done| |done|constructor; right; by right].
  repeat constructor; try (eexists _, _; split_and!; done); (eexists; split; [done|]).
  - apply (written_joined _ "metrics-secure" "0" "--"). by right; left.
  - apply (written_alone _ "metrics-secure" "true" "--"); [by right; left|done..].
  - apply (written_joined _ "zap-devel" "f" "-"). by left.
Defined.
