(* ===== verification/Reconciler.v ===== *)
(** [NewReconciler] of [internal/controller/trainer_controller.go]: how the
    actions are put together, the watch on the platform ConfigMap and the
    bootstrap release. *)

From S2P Require Import Prelude GoStrings GoOS Params Kube Scheme ApiTypes KubeStore Request Namespace.
From S2P Require Import Dependencies Releases Deploy OperandTLS Manifests Runtimes.
Open Scope string_scope.
Open Scope nat_scope.
Open Scope list_scope.

(** ** Definitions *)

(** The reconciler of the framework runs the actions of a list in their order
    and stops at the first error, which it returns. *)
Class ActionRunner (O K C Ver : Type) := {
  run_actions : list (action O K C Ver) → action O K C Ver;
  run_actions_nil rr : run_actions [] rr = (Ok tt, rr);
  run_actions_ok a l rr rr' : a rr = (Ok tt, rr') → run_actions (a :: l) rr = run_actions l rr';
  run_actions_err a l rr e rr' : a rr = (Err e, rr') → run_actions (a :: l) rr = (Err e, rr');
}.

(** [ReconcilerConfig]. *)
Record ReconcilerConfig := MkReconcilerConfig {
  ManifestsPath : path;
  RuntimesPath : path;
  ImageStreamsPath : path;
  WorkDir : path;
  TLSProfile : TLSProfileSpec }.

Definition actions_of (cfg : ReconcilerConfig) : trainerActions :=
  TrainerActions (ManifestsPath cfg) (RuntimesPath cfg) (ImageStreamsPath cfg) (WorkDir cfg) (TLSProfile cfg).

(** The predicate of the watch on ConfigMaps. *)
Definition is_platform_config (name : string) : bool := bool_decide (name = platformConfigMapName).

(** *** The builder of the framework *)

Inductive watch_predicate :=
| DefaultDeploymentPredicate
| DependentPredicate (watchStatus : bool).

(** The options of [Watches] and [WatchesGVK]; [ToNamed] is
    [WithEventHandler(handlers.ToNamed(name))]. *)
Inductive watch_option :=
| WithPredicates (p : watch_predicate)
| ToNamed (name : string)
| DynamicCrdExists (gvk : GroupVersionKind).

(** A watch names its kind by a typed object or by the kind alone; the latter is
    unstructured. *)
Inductive watched := TypedKind (g : GroupVersionKind) | UntypedKind (g : GroupVersionKind).

Inductive severity := HealthyWhenTrue.

Inductive deploy_option := WithCache | WithFieldOwner (owner : string) | WithApplyOrder.

(** What the builder has collected. *)
Record builder (O K C Ver : Type) := MkBuilder {
  b_for : GroupVersionKind;
  b_watches : list (watched * list watch_option);
  b_actions : list (action O K C Ver);
  b_finalizer : option (action O K C Ver);
  b_conditions : list (string * severity);
  b_finalizerName : option string }.
Arguments MkBuilder {O K C Ver} b_for b_watches b_actions b_finalizer b_conditions b_finalizerName.
Arguments b_for {O K C Ver} b.
Arguments b_watches {O K C Ver} b.
Arguments b_actions {O K C Ver} b.
Arguments b_finalizer {O K C Ver} b.
Arguments b_conditions {O K C Ver} b.
Arguments b_finalizerName {O K C Ver} b.

Section chain.
Context {O K C Ver : Type}.
Implicit Types (b : builder O K C Ver).

Definition ReconcilerFor (g : GroupVersionKind) : builder O K C Ver := MkBuilder g [] [] None [] None.
Definition add_watch (w : watched * list watch_option) b :=
  MkBuilder (b_for b) (b_watches b ++ [w]) (b_actions b) (b_finalizer b) (b_conditions b) (b_finalizerName b).
Definition Watches (g : GroupVersionKind) (opts : list watch_option) b := add_watch (TypedKind g, opts) b.
Definition WatchesGVK (g : GroupVersionKind) (opts : list watch_option) b := add_watch (UntypedKind g, opts) b.
Definition WithAction (a : action O K C Ver) b :=
  MkBuilder (b_for b) (b_watches b) (b_actions b ++ [a]) (b_finalizer b) (b_conditions b) (b_finalizerName b).
Definition WithFinalizer (a : action O K C Ver) b :=
  MkBuilder (b_for b) (b_watches b) (b_actions b) (Some a) (b_conditions b) (b_finalizerName b).
Definition WithConditions (c : string * severity) b :=
  MkBuilder (b_for b) (b_watches b) (b_actions b) (b_finalizer b) (b_conditions b ++ [c]) (b_finalizerName b).
Definition WithFinalizerName (n : string) b :=
  MkBuilder (b_for b) (b_watches b) (b_actions b) (b_finalizer b) (b_conditions b) (Some n).

End chain.

(** The call of a method on what the chain before it returns. *)
#[local] Notation "x ▷ f" := (f x) (at level 62, left associativity, only parsing) : trainer_scope.

(** The actions of the framework (deploying the resources, reporting the
    deployments of a namespace, collecting the garbage), the collector that the
    finalizer runs, the building of the controller in the manager, and its
    watch on ConfigMaps, with a handler and a predicate. *)
Class Framework (O K C Ver W : Type) := {
  fwdeploy_NewAction : list deploy_option → action O K C Ver;
  fwdeployments_NewAction : (Trainer → string) → action O K C Ver;
  fwgc_NewAction : (Trainer → string) → gc_options → action O K C Ver;
  fwgc_Run : gc_options → Trainer → M K unit;
  Build : builder O K C Ver → M W unit;
  WatchConfigMaps : watch_option → (string → bool) → M W unit;
}.

(** What the reconciler was built from, and the release it stamps. *)
Record Reconciler (O K C Ver : Type) := MkReconciler {
  r_builder : builder O K C Ver;
  r_Release : Release Ver }.
Arguments MkReconciler {O K C Ver} r_builder r_Release.
Arguments r_builder {O K C Ver} r.
Arguments r_Release {O K C Ver} r.

Section reconciler.
Context {O V A K C Ver W : Type} `{!Objects O V, !ApiErrors, !CtrlClient K, !DynamicClient O K,
  !PlatformUtils O K, !ConditionManager C, !Semver Ver, !YamlMaps A, !TLSTables, !Kustomize O, !Framework O K C Ver W}.

(** Standard library functions and orders that stay open. *)
Context (Quote : string → string) (range_src range_dst : gmap string string → list (string * string))
  (UnmarshalMetadata : string → result componentMetadata).

Definition strip_action : action O K C Ver := on_client (stripRuntimeFinalizers (O:=O)).

Definition deploy_options : list deploy_option :=
  [WithCache; WithFieldOwner "trainer-module-controller"; WithApplyOrder].

(** The options of [fwgc.NewAction]; the namespace comes from the function. *)
Definition gc_action_options : gc_options := GcOptions false "" [clusterTrainingRuntimeGVK; trainingRuntimeGVK].

Definition cleanup_action : action O K C Ver :=
  trainer ← gets rr_instance;
  on_client (cleanup (O:=O) fwgc_Run trainer).

(** The chain of calls up to [Build]. *)
Definition trainer_builder (cfg : ReconcilerConfig) : builder O K C Ver :=
  ReconcilerFor (gv_kind api_group_version "Trainer")
  ▷ Watches (GVK "apps" "v1" "Deployment") [WithPredicates DefaultDeploymentPredicate]
  ▷ Watches (GVK "" "v1" "Service") []
  ▷ Watches (GVK "" "v1" "ConfigMap") []
  ▷ Watches (GVK "admissionregistration.k8s.io" "v1" "ValidatingWebhookConfiguration") []
  ▷ WatchesGVK jobSetOperatorGVK
      [ToNamed TrainerInstanceName; WithPredicates (DependentPredicate true); DynamicCrdExists jobSetOperatorGVK]
  ▷ WithAction checkDependencies
  ▷ WithAction ensureNamespace
  ▷ WithAction (updateReleases UnmarshalMetadata (ManifestsPath cfg))
  ▷ WithAction (renderManifests (A:=A) Quote range_src range_dst (actions_of cfg))
  ▷ WithAction (withImmutableFieldRecovery (fwdeploy_NewAction deploy_options))
  ▷ WithAction (fwdeployments_NewAction resolveNamespace)
  ▷ WithAction strip_action
  ▷ WithAction (fwgc_NewAction resolveNamespace gc_action_options)
  ▷ WithFinalizer cleanup_action
  ▷ WithConditions ("DeploymentsAvailable", HealthyWhenTrue)
  ▷ WithFinalizerName finalizerName.

Definition NewReconciler (cfg : ReconcilerConfig) : M (os * W) (Reconciler O K C Ver) :=
  zoom snd (λ w s, (fst s, w)) (Build (trainer_builder cfg));;
  wrapping "watching platform config"
    (zoom snd (λ w s, (fst s, w)) (WatchConfigMaps (ToNamed TrainerInstanceName) is_platform_config));;
  rel ← try (zoom fst (λ o s, (o, snd s))
          (readBootstrapRelease UnmarshalMetadata Quote (ManifestsPath cfg)));
  mret (MkReconciler (trainer_builder cfg)
          (match rel with Ok rel => rel | Err _ => MkPlatformRelease "" version_zero end)).

(** One reconciliation of a resource that is not being deleted, and of one that
    is. *)
Definition reconcile `{!ActionRunner O K C Ver} (r : Reconciler O K C Ver) : action O K C Ver :=
  run_actions (b_actions (r_builder r)).

Definition finalize (r : Reconciler O K C Ver) : action O K C Ver :=
  match b_finalizer (r_builder r) with Some a => a | None => mret tt end.

(** *** Specification *)

(** The actions up to the deployment, and those from it on. *)
Definition prepare_actions (cfg : ReconcilerConfig) : list (action O K C Ver) :=
  [checkDependencies; ensureNamespace; updateReleases UnmarshalMetadata (ManifestsPath cfg);
   renderManifests (A:=A) Quote range_src range_dst (actions_of cfg)].

Definition deploy_actions : list (action O K C Ver) :=
  [withImmutableFieldRecovery (fwdeploy_NewAction deploy_options); fwdeployments_NewAction resolveNamespace;
   strip_action; fwgc_NewAction resolveNamespace gc_action_options].

(** ** Lemmas *)

Lemma run_actions_forM `{!ActionRunner O K C Ver} (l : list (action O K C Ver)) rr :
  run_actions l rr = forM l (λ a, a) rr.
Proof.
  revert rr. induction l as [|a l IH]; intros rr; [by rewrite run_actions_nil|].
  rewrite forM_cons. destruct (a rr) as [[[]|e] rr'] eqn:E.
  - by rewrite (run_actions_ok _ _ _ _ E), IH.
  - by rewrite (run_actions_err _ _ _ _ _ E).
Qed.

Lemma NewReconciler_builder cfg s r s' : NewReconciler cfg s = (Ok r, s') → r_builder r = trainer_builder cfg.
Proof.
  unfold NewReconciler. intros (u & s1 & _ & (u2 & s2 & _ & (rel & s3 & _ & Hr)%bind_ok_inv)%bind_ok_inv)%bind_ok_inv.
  by injection Hr as <- <-.
Qed.

Lemma NewReconciler_actions cfg s r s' : NewReconciler cfg s = (Ok r, s') →
  b_actions (r_builder r) = prepare_actions cfg ++ deploy_actions ∧ finalize r = cleanup_action.
Proof. intros Hr%NewReconciler_builder. unfold finalize. by rewrite Hr. Qed.

Lemma reconcile_split `{!ActionRunner O K C Ver} cfg s r s' rr :
  NewReconciler cfg s = (Ok r, s') →
  reconcile r rr = match forM (prepare_actions cfg) (λ a, a) rr with
                   | (Ok _, rr') => forM deploy_actions (λ a, a) rr'
                   | (Err e, rr') => (Err e, rr')
                   end.
Proof.
  intros [Ha _]%NewReconciler_actions. unfold reconcile. by rewrite run_actions_forM, Ha, forM_app.
Qed.

End reconciler.

(** ** Properties *)

Section properties.
Context {O V A K C Ver W : Type} `{!Objects O V, !ApiErrors, !CtrlClient K, !DynamicClient O K,
  !PlatformUtils O K, !ConditionManager C, !Semver Ver, !YamlMaps A, !TLSTables, !Kustomize O, !Framework O K C Ver W}.
Context (Quote : string → string) (range_src range_dst : gmap string string → list (string * string))
  (UnmarshalMetadata : string → result componentMetadata).

#[local] Abbreviation new_reconciler :=
  (NewReconciler (O:=O) (A:=A) (K:=K) (C:=C) (Ver:=Ver) (W:=W) Quote range_src range_dst UnmarshalMetadata).
#[local] Abbreviation deployment_actions := (deploy_actions (O:=O) (K:=K) (C:=C) (Ver:=Ver) (W:=W)).

(** Building the reconciler: the builder gets the whole chain; a failing build
    and a failing watch are errors; the bootstrap release is optional, the reconciler starts with the zero
    release when the metadata cannot be read or parsed. *)
Theorem NewReconciler_spec (cfg : ReconcilerConfig) (s : os) (w : W) :
  let out := new_reconciler cfg (s, w) in
  match Build (trainer_builder (A:=A) Quote range_src range_dst UnmarshalMetadata cfg) w with
  | (Err e, w1) => out = (Err e, (s, w1))
  | (Ok _, w1) =>
      match WatchConfigMaps (ToNamed TrainerInstanceName) is_platform_config w1 with
      | (Err e, w2) => out = (Err (ErrWrap "watching platform config" e), (s, w2))
      | (Ok _, w2) => ∃ r, out.1 = Ok r ∧ r_builder r = trainer_builder (A:=A) Quote range_src range_dst UnmarshalMetadata cfg ∧
          r_Release r = match (readBootstrapRelease UnmarshalMetadata Quote (ManifestsPath cfg) s).1 with
                        | Ok rel => rel | Err _ => MkPlatformRelease "" version_zero end
      end
  end.
Proof.
  cbn zeta. unfold NewReconciler, zoom, wrapping, try. unfold mbind, M_bind. cbn [fst snd].
  destruct (Build _ w) as [[[]|e] w1]; cbn [fst snd]; [|done].
  destruct (WatchConfigMaps _ is_platform_config w1) as [[[]|e] w2]; cbn [fst snd wrap_err]; [|done].
  destruct (readBootstrapRelease _ _ _ s) as [[rel|e] s1]; cbn; by eexists.
Qed.

(** A dependency that is not met stops the reconciliation at once: its error
    is the result, and nothing was rendered, deployed, stripped or collected;
    no file, resource or status of the request has changed, only the conditions
    and what the lookups did to the cluster. *)
Theorem reconcile_dependencies_first `{!ActionRunner O K C Ver} (cfg : ReconcilerConfig)
    (s s' : os * W) (r : Reconciler O K C Ver) (rr rr1 : request O K C Ver) (e : goerror)
    (Hnew : new_reconciler cfg s = (Ok r, s')) (Hdeps : checkDependencies rr = (Err e, rr1)) :
  reconcile r rr = (Err e, rr1) ∧
  (rr_os rr1, rr_instance rr1, rr_resources rr1, rr_generated rr1, rr_release rr1) =
  (rr_os rr, rr_instance rr, rr_resources rr, rr_generated rr, rr_release rr).
Proof.
  erewrite reconcile_split by exact Hnew. unfold prepare_actions.
  rewrite forM_cons, Hdeps. split; [done|].
  destruct (checkDependencies_ends (rr_conditions rr) rr eq_refl) as (_ & Ho & Hi & Hr & Hg & Hrel).
  rewrite Hdeps in *. cbn in *. congruence.
Qed.

(** C1: The deployment is gated: whatever the actions of the framework do, they
    start only after the dependencies were met, the namespace ensured, the
    releases updated and everything rendered, with the request marked as
    generated; otherwise the reconciliation ends with the first error of these
    four and none of them has run. *)
Theorem reconcile_gates `{!ActionRunner O K C Ver} (cfg : ReconcilerConfig)
    (s s' : os * W) (r : Reconciler O K C Ver) (rr : request O K C Ver)
    (Hnew : new_reconciler cfg s = (Ok r, s')) :
  (∃ rr1 rr2 rr3 rr4, checkDependencies rr = (Ok tt, rr1) ∧ ensureNamespace rr1 = (Ok tt, rr2) ∧
     updateReleases UnmarshalMetadata (ManifestsPath cfg) rr2 = (Ok tt, rr3) ∧
     renderManifests (A:=A) Quote range_src range_dst (actions_of cfg) rr3 = (Ok tt, rr4) ∧
     rr_generated rr4 = true ∧
     reconcile r rr = forM deployment_actions (λ a, a) rr4) ∨
  (∃ e rr', forM (prepare_actions (A:=A) Quote range_src range_dst UnmarshalMetadata cfg) (λ a, a) rr = (Err e, rr') ∧
     reconcile r rr = (Err e, rr')).
Proof.
  erewrite reconcile_split by exact Hnew.
  destruct (forM (prepare_actions _ _ _ _ _) _ rr) as [[[]|e] rr4] eqn:E; [left|right; eauto].
  unfold prepare_actions in E. rewrite forM_cons in E.
  destruct (checkDependencies rr) as [[[]|e] rr1] eqn:E1; [|done]. rewrite forM_cons in E.
  destruct (ensureNamespace rr1) as [[[]|e] rr2] eqn:E2; [|done]. rewrite forM_cons in E.
  destruct (updateReleases _ _ rr2) as [[[]|e] rr3] eqn:E3; [|done]. rewrite forM_cons in E.
  destruct (renderManifests _ _ _ _ rr3) as [[[]|e] rr5] eqn:E4; [|done].
  injection E as ->. exists rr1, rr2, rr3, rr4. split_and!; try done. by eapply renderManifests_generated.
Qed.

End properties.

Section deploy_error.
Context {O V A K C Ver W : Type} `{!Objects O V, !ApiErrors, !CtrlClient K, !DynamicClient O K,
  !PlatformUtils O (traced O K), !ConditionManager C, !Semver Ver, !YamlMaps A, !TLSTables, !Kustomize O, !Framework O (traced O K) C Ver W}.
Context (Quote : string → string) (range_src range_dst : gmap string string → list (string * string))
  (UnmarshalMetadata : string → result componentMetadata).

(** C29: A failing deployment ends the reconciliation with its error: the
    finalizers of the runtimes are not touched and nothing is collected while
    an older control plane may still run.  The only calls that follow are the
    deletions of the Deployments, when an immutable field was refused. *)
Theorem reconcile_deploy_error `{!ActionRunner O (traced O K) C Ver} (cfg : ReconcilerConfig)
    (s s' : os * W) (r : Reconciler O (traced O K) C Ver) (rr rr4 rr5 : request O (traced O K) C Ver) (e : goerror)
    (Hnew : NewReconciler (A:=A) Quote range_src range_dst UnmarshalMetadata cfg s = (Ok r, s'))
    (Hprep : forM (prepare_actions (A:=A) Quote range_src range_dst UnmarshalMetadata cfg) (λ a, a) rr = (Ok tt, rr4))
    (Hdeploy : fwdeploy_NewAction deploy_options rr4 = (Err e, rr5)) :
  ∃ rr6 t', reconcile r rr = (Err e, rr6) ∧ rr6 = set_cluster (rr_cluster rr6) rr5 ∧
    (rr_cluster rr6).1 = (rr_cluster rr5).1 ++ t' ∧
    omap deletion_event t' =
      (if Contains (Error e) "field is immutable" then omap recovery_deletion (rr_resources rr5) else []) ∧
    length t' = length (omap deletion_event t').
Proof.
  erewrite reconcile_split by exact Hnew. rewrite Hprep.
  unfold deploy_actions. rewrite forM_cons.
  destruct (recovery_run _ rr4 e rr5 Hdeploy) as (rr6 & t' & -> & H1 & H2 & H3 & H4).
  by exists rr6, t'.
Qed.

End deploy_error.

(** *** Witnesses *)

#[local] Instance ex_runner {O K C Ver} : ActionRunner O K C Ver.
Proof.
  refine {| run_actions l := forM l (λ a, a) |}; [done| |]; intros;
    rewrite forM_cons; by match goal with H : _ = _ |- _ => rewrite H end.
Defined.

#[local] Existing Instance ex_semver.
#[local] Existing Instance ex_yaml.
#[local] Existing Instance ex_kustomize.
#[local] Existing Instance ex_tables.

Definition ex_config : ReconcilerConfig := MkReconcilerConfig ["opt"] ["opt"] ["opt"] ["tmp"; "work"] ex_profile.

(** A framework whose actions succeed, but for [deploy]. *)
Definition ex_framework_with {K} (deploy : action obj K (gmap string (bool * string * string)) string) :
    Framework obj K (gmap string (bool * string * string)) string unit := {|
  fwdeploy_NewAction _ := deploy;
  fwdeployments_NewAction _ := mret tt;
  fwgc_NewAction _ _ := mret tt;
  fwgc_Run _ _ := mret tt;
  Build _ := mret tt;
  WatchConfigMaps _ _ := mret tt;
|}.

#[local] Instance ex_fw : Framework obj cluster (gmap string (bool * string * string)) string unit :=
  ex_framework_with (mret tt).

Definition ex_new :=
  NewReconciler (V:=json) (A:=string) (W:=unit) (K:=cluster) (C:=gmap string (bool * string * string)) (Ver:=string)
    id map_to_list map_to_list ex_metadata ex_config (Workdir.ex_disk, tt).

Definition ex_reconciler : Reconciler obj cluster (gmap string (bool * string * string)) string :=
  match ex_new.1 with
  | Ok r => r
  | Err _ => MkReconciler (ReconcilerFor jobSetOperatorGVK) (MkPlatformRelease "" "")
  end.

Lemma ex_new_ok : ∃ s', ex_new = (Ok ex_reconciler, s').
Proof.
  unfold ex_reconciler. destruct ex_new as [[r|e] s'] eqn:E; [by exists s'|].
  assert (is_ok ex_new.1 = true) as Hok by by vm_compute. by rewrite E in Hok.
Qed.

(** A cluster that is not OpenShift, without and with the JobSet CRD. *)
Definition ex_bare (crds : list GroupKind) : request obj cluster (gmap string (bool * string * string)) string :=
  set_os Workdir.ex_disk (ex_request
    (Cluster (λ _, ∅) (λ _, true) ∅ ∅ [] "Kubernetes" crds ∅ [] []) "apps").

Lemma reconcile_dependencies_first_witness :
  (reconcile ex_reconciler (ex_bare [])).1 = Err (ErrNew ("dependency not met: " +:+ getJobSetMissingMessage)).
Proof.
  destruct ex_new_ok as [s' Hnew].
  assert ((checkDependencies (O:=obj) (V:=json) (ex_bare [])).1 =
    Err (ErrNew ("dependency not met: " +:+ getJobSetMissingMessage))) as Hr by by vm_compute.
  pose proof (surjective_pairing (checkDependencies (O:=obj) (V:=json) (ex_bare []))) as Hd. rewrite Hr in Hd.
  destruct (reconcile_dependencies_first _ _ _ _ _ _ _ _ _ _ _ Hnew Hd) as [-> _]. reflexivity.
Defined.

Lemma reconcile_gates_witness :
  ∃ rr4, rr_generated rr4 = true ∧
    reconcile ex_reconciler (ex_bare [jobSetGK]) =
    forM (deploy_actions (O:=obj) (V:=json) (W:=unit)) (λ a, a) rr4.
Proof.
  destruct ex_new_ok as [s' Hnew].
  destruct (reconcile_gates (V:=json) (A:=string) (W:=unit) id map_to_list map_to_list ex_metadata
    ex_config (Workdir.ex_disk, tt) s' ex_reconciler (ex_bare [jobSetGK]) Hnew)
    as [(rr1 & rr2 & rr3 & rr4 & _ & _ & _ & _ & Hg & Hr)|(e & rr' & _ & Hr)];
    [exists rr4; split; [exact Hg|exact Hr]|].
  exfalso. assert (is_ok (reconcile ex_reconciler (ex_bare [jobSetGK])).1 = true) as Hok by by vm_compute.
  by rewrite Hr in Hok.
Defined.

#[local] Instance ex_traced_platform : PlatformUtils obj (traced obj cluster) := {|
  DetectClusterType := on_cluster DetectClusterType;
  ClusterTypeOpenShift := "OpenShift";
  CustomResourceDefinitionExists gk := on_cluster (CustomResourceDefinitionExists gk);
  OperatorExists n := on_cluster (OperatorExists n);
  GetSingleton g := on_cluster (GetSingleton g);
|}.

Definition ex_refused : action obj (traced obj cluster) (gmap string (bool * string * string)) string :=
  throw (ErrForeign "Invalid" "spec.selector: field is immutable").

#[local] Instance ex_traced_fw : Framework obj (traced obj cluster) (gmap string (bool * string * string)) string unit :=
  ex_framework_with ex_refused.

Definition ex_traced_new :=
  NewReconciler (V:=json) (A:=string) (W:=unit) (K:=traced obj cluster) (C:=gmap string (bool * string * string))
    (Ver:=string) id map_to_list map_to_list ex_metadata ex_config (Workdir.ex_disk, tt).

Definition ex_traced_request : request obj (traced obj cluster) (gmap string (bool * string * string)) string :=
  set_os Workdir.ex_disk (ex_request ([],
    (Cluster (λ _, ∅) (λ _, true) ∅ ∅ [] "Kubernetes" [jobSetGK] ∅ [] [])) "apps").

(** The Deployment among the rendered resources is deleted. *)
Lemma reconcile_deploy_error_witness :
  match ex_traced_new with
  | (Ok r, _) => omap deletion_event (rr_cluster (reconcile r ex_traced_request).2).1 =
      [(GVK "apps" "v1" "Deployment", operandDeploymentName, "apps")]
  | _ => False
  end.
Proof.
  assert (is_ok ex_traced_new.1 = true) as Hok by by vm_compute.
  destruct ex_traced_new as [[r|e] s'] eqn:Hnew; [|done].
  set (prep := forM (prepare_actions (V:=json) (A:=string) id map_to_list map_to_list ex_metadata ex_config)
    (λ a : action obj (traced obj cluster) _ string, a) ex_traced_request).
  assert (is_ok prep.1 = true) as Hp by by vm_compute.
  destruct (reconcile_deploy_error (V:=json) (A:=string) (W:=unit) id map_to_list map_to_list ex_metadata
    ex_config (Workdir.ex_disk, tt) s' r ex_traced_request _ _ _ Hnew (run_ok _ _ Hp) eq_refl)
    as (rr6 & t' & -> & _ & Ht & Hd & _). cbn [fst snd].
  rewrite Ht, omap_app. assert (omap deletion_event (rr_cluster prep.2).1 = []) as Hn by by vm_compute.
  change (omap deletion_event (rr_cluster prep.2).1 ++ omap deletion_event t' =
    [(GVK "apps" "v1" "Deployment", operandDeploymentName, "apps")]).
  rewrite Hn, Hd. by vm_compute.
Defined.
