(* ===== verification/Main.v ===== *)
(** [cmd/main.go]: the start-up of the operator, from the command line to the
    running manager. *)

From S2P Require Import Prelude GoStrings GoOS Params Kube Scheme ApiTypes KubeStore Request Namespace Releases.
From S2P Require Import Deploy OperandTLS Workdir Manifests Rendering TlsProfile Flags Runtimes Reconciler.
Open Scope string_scope.
Open Scope nat_scope.
Open Scope list_scope.

(** ** Definitions *)

(** The options of the manager.  [DefaultNamespaces] is [None] for the nil map,
    which means all namespaces; [ByObject] gives the label selector of a kind. *)
Inductive transform := StripUnusedFields.

Record cache_options := MkCacheOptions {
  DefaultTransform : transform;
  DefaultNamespaces : option (gset string);
  ByObject : list (GroupVersionKind * gmap string string) }.

Record manager_options (X Cert : Type) := MkManagerOptions {
  o_Metrics : MetricsOptions X Cert;
  HealthProbeBindAddress : string;
  o_Cache : cache_options;
  DisableFor : list GroupVersionKind }.
Arguments MkManagerOptions {X Cert} o_Metrics HealthProbeBindAddress o_Cache DisableFor.
Arguments o_Metrics {X Cert} m.
Arguments HealthProbeBindAddress {X Cert} m.
Arguments o_Cache {X Cert} m.
Arguments DisableFor {X Cert} m.

(** controller-runtime: [W] is everything outside the operator's file system,
    the cluster and the manager; [Start] is separate, a variable below. *)
Class ControllerRuntime (W X Cert : Type) := {
  GetConfigOrDie : M W unit;
  New_client : M W unit;
  NewManager : manager_options X Cert → M W unit;
  SetupSignalHandler : M W unit;
  AddHealthzCheck : string → M W unit;
  AddReadyzCheck : string → M W unit;
  SetupWithManager : SecurityProfileWatcher → M W unit;
}.

Definition manifestsPath : path := ["opt"; "manifests-template"].
Definition runtimesPath : path := ["opt"; "runtimes-template"].
Definition imageStreamsPath : path := ["opt"; "imagestreams-template"].
Definition workDir : path := ["opt"; "manifests-work"].

(** A template directory has to be there. *)
Definition check_template (what : string) (p : path) : M os unit :=
  fi ← wrapping (what +:+ " path is not accessible") (Stat p);
  match fi with
  | Dir => mret tt
  | _ => throw (ErrWrap (what +:+ " path is not a directory") (ErrNew "not a directory"))
  end.

(** The three checks and the work directory. *)
Definition prepare_paths : M os unit :=
  check_template "manifests" manifestsPath;;
  check_template "runtimes" runtimesPath;;
  check_template "imagestreams" imageStreamsPath;;
  wrapping "unable to create work directory" (MkdirAll workDir).

Definition reconciler_config (effectiveProfile : TLSProfileSpec) : ReconcilerConfig :=
  MkReconcilerConfig manifestsPath runtimesPath imageStreamsPath workDir effectiveProfile.

(** The namespaces of the cache. *)
Definition cache_namespaces (appNS : string) : option (gset string) :=
  if bool_decide (appNS = "") then None else Some {[appNS]}.

Definition cache_selector : gmap string string := {[PlatformPartOf := trainerPartOf]}.

Definition cache_of (appNS : string) : cache_options :=
  MkCacheOptions StripUnusedFields (cache_namespaces appNS)
    [(GVK "apps" "v1" "Deployment", cache_selector); (GVK "" "v1" "Service", cache_selector);
     (GVK "admissionregistration.k8s.io" "v1" "ValidatingWebhookConfiguration", cache_selector)].

Section main.
Context {O V A K C Ver W X Cert : Type} `{!Objects O V, !ApiErrors, !CtrlClient K, !DynamicClient O K,
  !PlatformUtils O K, !ConditionManager C, !Semver Ver, !YamlMaps A, !TLSTables, !Kustomize O,
  !FrameworkTLS W X, !ControllerRuntime W X Cert, !Framework O K C Ver W}.
Context (Quote : string → string) (range_src range_dst : gmap string string → list (string * string))
  (UnmarshalMetadata : string → result componentMetadata)
  (X509KeyPair : string → string → result Cert) (abs : string → path).

Definition on_fw {B} (a : M W B) : M (os * W) B := zoom snd (λ w s, (s.1, w)) a.
Definition on_host {B} (a : M os B) : M (os * W) B := zoom fst (λ o s, (o, s.2)) a.

Definition options_of (fl : flags) (appNS : string) (opts : list (TLSOpt X Cert)) : manager_options X Cert :=
  MkManagerOptions
    (MetricsServerOptions X509KeyPair abs (metricsAddr fl) (secureMetrics fl) (metricsCertPath fl) opts)
    (probeAddr fl) (cache_of appNS) [GVK "" "v1" "Namespace"].

(** [main] from the parsed flags on: an error is the message and the cause that
    are logged before the process exits with status 1. *)
Definition main (Start : M W unit) (fl : flags) : M (os * W) unit :=
  on_fw GetConfigOrDie;;
  wrapping "unable to create bootstrap client" (on_fw New_client);;
  tlsResult ← wrapping "unable to resolve cluster TLS profile" (on_fw (Resolve (X:=X) (Cert:=Cert)));
  appNS ← gets (λ s, Getenv (fst s) "APPLICATIONS_NAMESPACE");
  wrapping "unable to start manager" (on_fw (NewManager (options_of fl appNS (r_TLSOpts tlsResult))));;
  on_host prepare_paths;;
  on_fw SetupSignalHandler;;
  wrapping "unable to create controller"
    (NewReconciler (O:=O) (A:=A) (K:=K) (C:=C) (Ver:=Ver) Quote range_src range_dst UnmarshalMetadata
       (reconciler_config (EffectiveProfile tlsResult)));;
  wrapping "unable to set up health check" (on_fw (AddHealthzCheck "healthz"));;
  wrapping "unable to set up ready check" (on_fw (AddReadyzCheck "readyz"));;
  wrapping "unable to set up TLS profile watcher" (on_fw (SetupWatcher SetupWithManager (Some tlsResult)));;
  wrapping "problem running manager" (on_fw Start).

(** The whole process on [os.Args[1:]], with its exit status.  [init] runs first,
    on the scheme; a panic has status 2.  [flag.Parse] exits when it cannot read
    the command line, with status 2 as well. *)
Definition process {Z Sc} `{!ForeignFlags Z, !SchemeOps Sc}
    (clientgo apiext trainer config : M Sc unit) (Start : M W unit) (args : list string)
    (sc : Sc) (st : os * W) : nat * (Sc * (os * W)) :=
  match init clientgo apiext trainer config sc with
  | (Err _, sc') => (2, (sc', st))
  | (Ok _, sc') =>
      match parse_command_line Quote args with
      | Err e => (if bool_decide (e = ErrHelp) then 0 else 2, (sc', st))
      | Ok (s, _) =>
          let '(r, st') := main Start s.1 st in
          (if is_ok r then 0 else 1, (sc', st'))
      end
  end.

End main.

(** *** Specification *)

(** controller-runtime: the watchers a manager was given are those that were set
    up with it, and they run when it does. *)
Class WatcherSetup (W X Cert : Type) `{!ControllerRuntime W X Cert} := {
  installed : W → list SecurityProfileWatcher;
  setup_installs watcher w w' : SetupWithManager (X:=X) (Cert:=Cert) watcher w = (Ok tt, w') →
    installed w' = watcher :: installed w;
}.

(** A directory, perhaps through symbolic links: what [os.Stat] accepts. *)
Definition is_dir (m : gmap path node) (p : path) : Prop :=
  ∃ q, resolve 40 m p = Some q ∧ m !! q = Some Dir.

(** Nothing is lost or changed; what is new is a directory. *)
Definition grows (s s' : os) : Prop :=
  os_env s' = os_env s ∧ ∀ q, os_nodes s' !! q = os_nodes s !! q ∨
    (os_nodes s !! q = None ∧ os_nodes s' !! q = Some Dir).

(** ** Lemmas *)

#[export] Instance grows_refl : Reflexive grows.
Proof. intros s. split; [done|]. by left. Qed.

#[export] Instance grows_trans : Transitive grows.
Proof.
  intros s1 s2 s3 [E1 H1] [E2 H2]. split; [congruence|]. intros q.
  destruct (H1 q) as [H|[H H']], (H2 q) as [H0|[H0 H0']]; rewrite ?H0, ?H, ?H' in *; auto; congruence.
Qed.

Lemma frame_grows {B} (a : M os B) : preserves (frame []) a → preserves grows a.
Proof.
  intros Ha s. destruct (Ha s) as [He Hn]. split; [done|]. intros q. left. apply Hn, not_elem_of_nil.
Qed.

Lemma grows_subseteq s s' : grows s s' → os_nodes s ⊆ os_nodes s'.
Proof.
  intros [_ H]. apply map_subseteq_spec. intros q n Hn. destruct (H q) as [Hq|[Hq _]]; congruence.
Qed.

Lemma resolve_mono n m m' p q : m ⊆ m' → resolve n m p = Some q → is_Some (m !! q) →
  resolve n m' p = Some q ∧ m' !! q = m !! q.
Proof.
  intros Hm. assert (∀ p n, m !! p = Some n → m' !! p = Some n) as Hmm by (intros ???; by eapply lookup_weaken).
  revert p. induction n as [|n IH]; intros p; cbn.
  - destruct (m !! p) as [[]|] eqn:E; intros [= <-] [x Hx]; rewrite Hx in E; simplify_eq;
      rewrite (Hmm _ _ Hx); by rewrite Hx.
  - destruct (m !! p) as [[| |t]|] eqn:E.
    + intros [= <-] _. by rewrite (Hmm _ _ E), E.
    + intros [= <-] _. by rewrite (Hmm _ _ E), E.
    + intros Hr Hq. rewrite (Hmm _ _ E). by apply IH.
    + intros [= <-] [x Hx]. congruence.
Qed.

Lemma is_dir_grows s s' p : grows s s' → is_dir (os_nodes s) p → is_dir (os_nodes s') p.
Proof.
  intros Hg (q & Hr & Hq). destruct (resolve_mono 40 _ (os_nodes s') p q (grows_subseteq _ _ Hg) Hr) as [H1 H2];
    [by rewrite Hq|]. exists q. by rewrite H1, H2.
Qed.

Lemma is_dir_here m p : m !! p = Some Dir → is_dir m p.
Proof. intros H. exists p. split; [apply resolve_id; congruence|done]. Qed.

Lemma Stat_dir p s s' : Stat p s = (Ok Dir, s') → is_dir (os_nodes s) p ∧ os_nodes s' = os_nodes s.
Proof.
  intros H. pose proof (Stat_frame [] p s) as F. rewrite H in F. apply frame_nil_nodes in F.
  split; [|done]. unfold Stat in H. apply bind_ok_inv in H as ([] & s1 & Hs & H).
  apply syscall_run in Hs as [Hn _]. apply bind_ok_inv in H as (q & s2 & Hf & H).
  unfold follow in Hf. destruct (resolve 40 (os_nodes s1) p) as [q'|] eqn:Hr; [|done]. injection Hf as -> <-.
  unfold node_at in H. unfold mbind, M_bind in H. exists q. rewrite <-Hn, Hr. split; [done|].
  destruct (os_nodes s1 !! q) as [n|]; [|done]. by injection H as ->.
Qed.

Lemma Mkdir_grows p : preserves grows (Mkdir p).
Proof.
  apply preserves_bind; [apply _|apply frame_grows; auto with trainer|]. intros [].
  intros s. unfold node_at, upd_nodes, modify. unfold mbind, M_bind. cbn [fst snd].
  destruct (os_nodes s !! p) as [n|] eqn:E; cbn; [reflexivity|].
  destruct (os_nodes s !! parent p) as [[]|]; cbn; try reflexivity.
  split; [done|]. intros q. cbn. destruct (decide (q = p)) as [->|Hq].
  - right. by rewrite lookup_insert_eq.
  - left. by rewrite lookup_insert_ne.
Qed.

Lemma mkdir_take_grows p n : preserves grows (mkdir_take p n).
Proof.
  assert (∀ q, preserves grows (Lstat q)) as HL.
  { intros q. apply frame_grows. apply preserves_bind; [apply _|auto with trainer|]. intros [] s.
    unfold node_at. unfold mbind, M_bind. by destruct (os_nodes s !! q). }
  induction n as [|n IH]; cbn [mkdir_take].
  all: apply preserves_bind; [apply _|apply preserves_try, frame_grows; auto with trainer|].
  all: intros [[]|e]; [by intros ?..|].
  all: apply preserves_bind; [apply _| |].
  1: by intros ?.
  2: destruct n; [by intros ?|done].
  all: intros []; apply preserves_bind; [apply _|apply preserves_try, Mkdir_grows|].
  all: intros [[]|e']; [by intros ?|].
  all: apply preserves_bind; [apply _|apply preserves_try, HL|]; intros [[]|]; by intros ?.
Qed.

(** What a successful [MkdirAll] was asked for is there, whatever failed
    on the way. *)
Lemma mkdir_take_ok p n s s' : mkdir_take p n s = (Ok tt, s') → is_dir (os_nodes s') (take n p).
Proof.
  assert (∀ s0, (r ← try (Mkdir (take n p));
    match r with
    | Ok _ => mret tt
    | Err e => d ← try (Lstat (take n p)); match d with Ok Dir => mret tt | _ => throw e end
    end) s0 = (Ok tt, s') → is_dir (os_nodes s') (take n p)) as Hend.
  { intros s0. unfold try. unfold mbind, M_bind. destruct (Mkdir (take n p) s0) as [[[]|e] s1] eqn:Em.
    - intros [= <-]. apply is_dir_here. unfold Mkdir in Em. apply bind_ok_inv in Em as ([] & s2 & _ & Em).
      unfold node_at, upd_nodes, modify in Em. unfold mbind, M_bind in Em.
      destruct (os_nodes s2 !! take n p); [done|]. destruct (os_nodes s2 !! parent (take n p)) as [[]|]; [done| |done..].
      injection Em as <-. cbn. by rewrite lookup_insert_eq.
    - destruct (Lstat (take n p) s1) as [[[]|e'] s2] eqn:El; [done| |done..]. intros [= <-].
      apply is_dir_here. unfold Lstat in El. apply bind_ok_inv in El as ([] & s3 & _ & El).
      unfold node_at in El. unfold mbind, M_bind in El. destruct (os_nodes s3 !! take n p) as [x|] eqn:E; [|done].
      by injection El as -> <-. }
  destruct n as [|n]; cbn [mkdir_take]; rewrite try_bind.
  - destruct (Stat (take 0 p) s) as [[[]|e] s1] eqn:Es; [done| |done|].
    + intros [= <-]. by apply Stat_dir in Es as [Hd ->].
    + intros ([] & s2 & _ & H)%bind_ok_inv. by apply Hend in H.
  - destruct (Stat (take (S n) p) s) as [[[]|e] s1] eqn:Es; [done| |done|].
    + intros [= <-]. by apply Stat_dir in Es as [Hd ->].
    + intros ([] & s2 & _ & H)%bind_ok_inv. by apply Hend in H.
Qed.

Lemma check_template_ok what p s s' : check_template what p s = (Ok tt, s') →
  is_dir (os_nodes s) p ∧ os_nodes s' = os_nodes s.
Proof.
  unfold check_template. intros (n & s1 & Hs & H)%bind_ok_inv. unfold wrapping in Hs.
  destruct (Stat p s) as [r s2] eqn:Es. injection Hs as Hr <-. apply wrap_err_ok in Hr as ->.
  destruct n; [done| |done]. injection H as <-. by apply Stat_dir in Es.
Qed.

Lemma check_template_grows what p : preserves grows (check_template what p).
Proof.
  apply frame_grows. apply preserves_bind; [apply _|auto with trainer|]. intros []; by intros ?.
Qed.

Lemma prepare_paths_grows : preserves grows prepare_paths.
Proof.
  repeat (apply preserves_bind; [apply _|apply check_template_grows|intros []]).
  apply preserves_wrapping, mkdir_take_grows.
Qed.

Lemma prepare_paths_ok s s' : prepare_paths s = (Ok tt, s') →
  Forall (is_dir (os_nodes s')) [manifestsPath; runtimesPath; imageStreamsPath; workDir].
Proof.
  intros H. pose proof (prepare_paths_grows s) as Hg. rewrite H in Hg. cbn [snd] in Hg.
  unfold prepare_paths in H.
  apply bind_ok_inv in H as ([] & s1 & H1 & H). apply bind_ok_inv in H as ([] & s2 & H2 & H).
  apply bind_ok_inv in H as ([] & s3 & H3 & H).
  apply check_template_ok in H1 as [D1 N1], H2 as [D2 N2], H3 as [D3 N3]. rewrite ?N2, ?N1 in *.
  unfold wrapping in H. destruct (MkdirAll workDir s3) as [r s4] eqn:E. injection H as Hr <-.
  apply wrap_err_ok in Hr as ->. apply mkdir_take_ok in E. rewrite firstn_all in E.
  repeat constructor; [by eapply is_dir_grows..|done].
Qed.

(** A computation with an open last step [t]: either it got to the end, as
    [P] tells, or it failed and the last step made no difference. *)
Definition gated {S T} (P : result unit * S → Prop) (F : T → M S unit) (t : T) (s : S) : Prop :=
  P (F t s) ∨ (is_ok (F t s).1 = false ∧ ∀ t', F t' s = F t s).

Lemma gated_bind {S T B} P (m : M S B) (F : T → B → M S unit) t s :
  (∀ b s1, m s = (Ok b, s1) → gated P (λ t, F t b) t s1) → gated P (λ t, m ≫= F t) t s.
Proof.
  unfold gated. unfold mbind, M_bind. intros H.
  destruct (m s) as [[b|e] s1]; [by apply H|by right].
Qed.

Section lemmas.
Context {O V A K C Ver W X Cert : Type} `{!Objects O V, !ApiErrors, !CtrlClient K, !DynamicClient O K,
  !PlatformUtils O K, !ConditionManager C, !Semver Ver, !YamlMaps A, !TLSTables, !Kustomize O, !Framework O K C Ver W}.

Lemma on_fw_ok {B} (a : M W B) s w b t : on_fw a (s, w) = (Ok b, t) →
  ∃ w1, t = (s, w1) ∧ a w = (Ok b, w1).
Proof. unfold on_fw, zoom. cbn. destruct (a w) as [r w1]. intros [= -> <-]. by exists w1. Qed.

Lemma fw_ok {B} msg (a : M W B) s w b t : wrapping msg (on_fw a) (s, w) = (Ok b, t) →
  ∃ w1, t = (s, w1) ∧ a w = (Ok b, w1).
Proof.
  unfold wrapping. destruct (on_fw a (s, w)) as [r t1] eqn:E. intros [= Hr <-].
  apply wrap_err_ok in Hr as ->. by apply on_fw_ok.
Qed.

Lemma host_ok {B} (a : M os B) s (w : W) b t : on_host a (s, w) = (Ok b, t) →
  ∃ s1, t = (s1, w) ∧ a s = (Ok b, s1).
Proof. unfold on_host, zoom. cbn. destruct (a s) as [r s1]. intros [= -> <-]. by exists s1. Qed.

(** Building the reconciler only reads files. *)
Lemma NewReconciler_files Quote range_src range_dst Unmarshal cfg (s s1 : os) (w w1 : W) r :
  NewReconciler (O:=O) (A:=A) (K:=K) (C:=C) (Ver:=Ver) Quote range_src range_dst Unmarshal cfg (s, w) = (Ok r, (s1, w1)) → frame [] s s1.
Proof.
  unfold NewReconciler. intros ([] & t1 & H1 & ([] & t2 & H2 & H3)%bind_ok_inv)%bind_ok_inv.
  apply on_fw_ok in H1 as (wa & -> & _). apply fw_ok in H2 as (wb & -> & _).
  rewrite try_bind in H3. unfold zoom in H3. cbn [fst snd] in H3.
  assert (preserves (frame []) (readBootstrapRelease Unmarshal Quote (ManifestsPath cfg))) as Hf.
  { apply preserves_bind; [apply _| |].
    - apply preserves_bind; [apply _|apply preserves_wrapping; auto with trainer|].
      intros c. apply preserves_wrapping. by intros ?.
    - intros md. destruct (meta_Releases md) as [|x l]; [by intros ?|].
      apply preserves_bind; [apply _|apply preserves_wrapping; by intros ?|by intros ? ?]. }
  specialize (Hf s). destruct (readBootstrapRelease _ _ _ s) as [r0 s0]. by injection H3 as _ <- _.
Qed.

End lemmas.

(** *** The checks in a fresh container *)

Lemma ancestors_work q : is_Some (Rel q workDir) ↔ q = [] ∨ q = ["opt"] ∨ q = workDir.
Proof.
  unfold workDir. split.
  - intros [r Hr%Rel_Some]. destruct q as [|a [|b [|c q]]]; cbn in Hr; simplify_eq; auto.
  - intros [-> |[-> | ->]]; by eexists.
Qed.

Lemma check_template_quiet what p s : quiet s → os_nodes s !! p = Some Dir →
  check_template what p s = (Ok tt, s).
Proof.
  intros Hq Hp. unfold check_template, wrapping. unfold mbind, M_bind.
  rewrite Stat_quiet, Hp by (done || congruence). done.
Qed.

(** The tree with the work directory added. *)
Definition with_work (m m' : gmap path node) : Prop :=
  ∀ q, m' !! q = if bool_decide (q = workDir) then Some Dir else m !! q.

Lemma prepare_paths_run s : quiet s → wf_tree (os_nodes s) →
  Forall (λ p, os_nodes s !! p = Some Dir) [manifestsPath; runtimesPath; imageStreamsPath] →
  os_nodes s !! workDir = None ∨ os_nodes s !! workDir = Some Dir →
  ∃ m', prepare_paths s = (Ok tt, set_nodes m' s) ∧ with_work (os_nodes s) m'.
Proof.
  intros Hq Hw Ht Hwork. rewrite !list.Forall_cons in Ht. destruct Ht as (H1 & H2 & H3 & _).
  assert (os_nodes s !! ["opt"] = Some Dir) as Hopt by (eapply (proj2 Hw ["opt"]), H1).
  pose proof (proj1 Hw) as Hroot.
  destruct (mkdir_take_quiet workDir (length workDir) s Hq Hw) as (m' & Hrun & Hm'); [done| |].
  { rewrite firstn_all. intros q [-> |[-> | ->]]%ancestors_work; auto. }
  exists m'. split.
  - unfold prepare_paths. rewrite !(bind_ok _ _ _ _ _ (check_template_quiet _ _ s Hq H1)).
    rewrite !(bind_ok _ _ _ _ _ (check_template_quiet _ _ s Hq H2)).
    rewrite !(bind_ok _ _ _ _ _ (check_template_quiet _ _ s Hq H3)).
    unfold wrapping, MkdirAll. by rewrite Hrun.
  - intros q. rewrite Hm', firstn_all. case_bool_decide as Hr; case_bool_decide as Hq'; try done.
    + apply ancestors_work in Hr as [-> |[-> | ->]]; [by rewrite Hroot|by rewrite Hopt|done].
    + destruct Hr. apply ancestors_work. auto.
Qed.

Lemma with_work_wf m m' : wf_tree m → m !! ["opt"] = Some Dir → (∀ x r, m !! (workDir ++ x :: r) = None) →
  with_work m m' → wf_tree m'.
Proof.
  intros [Hr Hw] Hopt Hb Hm. split; [by rewrite Hm|]. intros p name n. rewrite !Hm.
  destruct (decide (p = workDir)) as [->|Hp].
  - intros _. by rewrite bool_decide_eq_true_2.
  - rewrite (bool_decide_eq_false_2 (p = workDir)) by done. case_bool_decide as H; [|by apply Hw].
    intros _. unfold workDir in H. change ["opt"; "manifests-work"] with (["opt"] ++ ["manifests-work"]) in H.
    by apply app_inj_tail in H as [-> _].
Qed.

Lemma work_ready m m' t sub : wf_tree m → (∀ x r, m !! (workDir ++ x :: r) = None) →
  with_work m m' → m !! ["opt"; t] = Some Dir → t ≠ "manifests-work" →
  copy_ready m' ["opt"; t] (workDir ++ [sub]).
Proof.
  intros Hw Hb Hm Ht Hne. pose proof (proj2 Hw ["opt"] t _ Ht) as Hopt.
  assert (∀ x r, m' !! (workDir ++ x :: r) = None) as Hb'.
  { intros x r. rewrite Hm, bool_decide_eq_false_2; [apply Hb|]. by unfold workDir. }
  split_and!.
  - by eapply with_work_wf.
  - rewrite Hm, bool_decide_eq_false_2; [done|]. unfold workDir. congruence.
  - apply Rel_None. unfold workDir. cbn. congruence.
  - apply Rel_None. by unfold workDir.
  - intros r. left. rewrite <-app_assoc. apply Hb'.
  - intros q [Hq| ->]%ancestor_snoc; [right|left; apply (Hb' sub [])].
    rewrite Hm. apply ancestors_work in Hq as [-> |[-> | ->]]; [apply Hw|done|done].
Qed.

(** ** Properties *)

Section properties.
Context {O V A K C Ver W X Cert : Type} `{!Objects O V, !ApiErrors, !CtrlClient K, !DynamicClient O K,
  !PlatformUtils O K, !ConditionManager C, !Semver Ver, !YamlMaps A, !TLSTables, !Kustomize O,
  !FrameworkTLS W X, !ControllerRuntime W X Cert, !Framework O K C Ver W}.
Context (Quote : string → string) (range_src range_dst : gmap string string → list (string * string))
  (UnmarshalMetadata : string → result componentMetadata)
  (X509KeyPair : string → string → result Cert) (abs : string → path).

#[local] Abbreviation new_reconciler := (NewReconciler (O:=O) (A:=A) (K:=K) (C:=C) (Ver:=Ver) Quote range_src
  range_dst UnmarshalMetadata).
#[local] Abbreviation run_main := (main (O:=O) (A:=A) (K:=K) (C:=C) (Ver:=Ver) Quote range_src range_dst
  UnmarshalMetadata X509KeyPair abs).

(** A start-up that got to [Start]. *)
Definition started (Start : M W unit) (fl : flags) (st : os * W) (out : result unit * (os * W)) : Prop :=
  let '(s, w) := st in
  ∃ r rec s1 s2 w0 w1 w2 w3 w4 w5 w6 w7 w8,
    GetConfigOrDie w = (Ok tt, w0) ∧ New_client w0 = (Ok tt, w1) ∧
    Resolve (X:=X) (Cert:=Cert) w1 = (Ok r, w2) ∧
    NewManager (options_of X509KeyPair abs fl (Getenv s "APPLICATIONS_NAMESPACE") (r_TLSOpts r)) w2 = (Ok tt, w3) ∧
    prepare_paths s = (Ok tt, s1) ∧ SetupSignalHandler w3 = (Ok tt, w4) ∧
    new_reconciler (reconciler_config (EffectiveProfile r)) (s1, w4) = (Ok rec, (s2, w5)) ∧
    AddHealthzCheck "healthz" w5 = (Ok tt, w6) ∧ AddReadyzCheck "readyz" w6 = (Ok tt, w7) ∧
    SetupWatcher SetupWithManager (Some r) w7 = (Ok tt, w8) ∧
    Forall (is_dir (os_nodes s2)) [manifestsPath; runtimesPath; imageStreamsPath; workDir] ∧ grows s s2 ∧
    out = (wrap_err "problem running manager" (Start w8).1, (s2, (Start w8).2)).

Lemma main_gated (Start : M W unit) (fl : flags) (s : os) (w : W) :
  gated (started Start fl (s, w)) (λ t, run_main t fl) Start (s, w).
Proof.
  unfold main.
  apply gated_bind. intros [] t (w0 & -> & Hcfg)%on_fw_ok.
  apply gated_bind. intros [] t (w1 & -> & Hclient)%fw_ok.
  apply gated_bind. intros r t (w2 & -> & H2)%fw_ok.
  apply gated_bind. intros ns t [= <- <-].
  apply gated_bind. intros [] t (w3 & -> & H3)%fw_ok.
  apply gated_bind. intros [] t (s1 & -> & Hs1)%host_ok.
  apply gated_bind. intros [] t (w4 & -> & H4)%on_fw_ok.
  apply gated_bind. intros rec [s2 w5] H5. unfold wrapping in H5.
  destruct (NewReconciler _ _ _ _ _ _) as [r5 t5] eqn:E5.
  injection H5 as Hr5 ->. apply wrap_err_ok in Hr5 as ->.
  apply gated_bind. intros [] t (w6 & -> & H6)%fw_ok.
  apply gated_bind. intros [] t (w7 & -> & H7)%fw_ok.
  apply gated_bind. intros [] t (w8 & -> & H8)%fw_ok.
  pose proof (prepare_paths_grows s) as Hg. rewrite Hs1 in Hg. cbn [snd] in Hg.
  pose proof (NewReconciler_files _ _ _ _ _ _ _ _ _ _ E5) as Hf.
  left. exists r, rec, s1, s2, w0, w1, w2, w3, w4, w5, w6, w7, w8. split_and!; try done.
  - rewrite (frame_nil_nodes _ _ Hf). by apply prepare_paths_ok with s.
  - etransitivity; [done|]. destruct Hf as [He Hn]. split; [done|]. intros q. left. apply Hn, not_elem_of_nil.
  - unfold wrapping, on_fw, zoom. cbn. by destruct (Start w8).
Qed.

(** The manager starts last.  Either every step before it succeeded: the
    profile was resolved and is the one of the metrics server, the reconciler
    and the watcher, the cache is scoped to the namespace in the environment,
    the three template directories and the work directory are there, and no
    file has changed but for new directories; then the process ends as the
    manager does.  Or the process exits with the error of the first failing
    step, and the manager never ran: any other would give the same end. *)
Theorem main_starts_last (Start : M W unit) (fl : flags) (s : os) (w : W) :
  let out := run_main Start fl (s, w) in
  started Start fl (s, w) out ∨ (is_ok out.1 = false ∧ ∀ Start', run_main Start' fl (s, w) = out).
Proof. exact (main_gated Start fl s w). Qed.

(** C30: The operator never keeps an outdated TLS profile.  Either the manager
    never runs, or it runs with a profile in force that is the effective one for
    what was loaded at the start, and that the reconciler was built with; and if
    the cluster's profile can be watched, the manager has been given a watcher
    that shuts the operator down, to reload it, whenever the policy and the
    profile of the cluster come to call for another effective profile.  If it
    cannot be watched, as on a cluster without the APIServer resource, no watcher
    is installed. *)
Theorem watcher_reloads `{!WatcherContract, !WatcherSetup W X Cert} (Start : M W unit) (fl : flags) (s : os) (w : W) :
  let out := run_main Start fl (s, w) in
  (is_ok out.1 = false ∧ ∀ Start', run_main Start' fl (s, w) = out) ∨
  ∃ l w0 w1 w2, GetConfigOrDie w = (Ok tt, w0) ∧ New_client w0 = (Ok tt, w1) ∧
    LoadWithAdherence (X:=X) w1 = (Ok l, w2) ∧
    let profile := effective (K:=W) (X:=X) (l_AdherencePolicy l) (l_Spec l) in
    ∃ rec s1 s2 w4 w5 w7 w8,
      new_reconciler (reconciler_config profile) (s1, w4) = (Ok rec, (s2, w5)) ∧
      out = (wrap_err "problem running manager" (Start w8).1, (s2, (Start w8).2)) ∧
      if l_Watchable l then
        ∃ watcher, watcher ∈ installed w8 ∧
          ∀ policy spec, effective (K:=W) (X:=X) policy spec ≠ profile → shuts_down watcher policy spec = true
      else w8 = w7 ∧ ∃ w6, AddReadyzCheck "readyz" w6 = (Ok tt, w7).
Proof.
  intros out. destruct (main_gated Start fl s w) as [Hstart|Hno]; [right|by left].
  destruct Hstart as (r & rec & s1 & s2 & w0 & w1 & w2 & w3 & w4 & w5 & w6 & w7 & w8 & Hcfg & Hclient & Hres & _ & _ & _ & Hnew & _ & Hready & Hwatch & _ & _ & Hout).
  pose proof (Resolve_ok _ _ _ Hres) as (l & k1 & Hload & Hwl & Heff). exists l, w0, w1, k1.
  split; [done|]. split; [done|]. split; [done|]. cbn zeta.
  rewrite <-Heff. exists rec, s1, s2, w4, w5, w7, w8. split; [done|]. split; [done|]. rewrite <-Hwl.
  unfold SetupWatcher in Hwatch. destruct (Watchable r); cbn [negb] in Hwatch.
  - exists (newSecurityProfileWatcher r). split.
    + unfold wrapping in Hwatch. destruct (SetupWithManager (newSecurityProfileWatcher r) w7) as [r8 w8'] eqn:E.
      injection Hwatch as Hr ->. apply wrap_err_ok in Hr as ->. apply setup_installs in E as ->. by left.
    + intros policy spec Hne. by apply (new_watcher_reloads w1 r w2).
  - injection Hwatch as ->. split; [done|]. by exists w6.
Qed.

(** C31: The exit status of the process.  It is 2 when a registration in the
    scheme fails or the command line is not accepted, with nothing done; 0 when help was asked for, with nothing done, or
    when every step succeeded with the flags that the command line gives and the
    manager then ended without an error; and 1 otherwise: then either a step
    before the manager failed, and the manager has not run, or it ended with an
    error. *)
Theorem process_exits {Z Sc} `{!ForeignFlags Z, !SchemeOps Sc} (clientgo apiext trainer config : M Sc unit)
    (Start : M W unit) (args : list string) (sc : Sc) (s : os) (w : W) :
  let '(status, (sc', out)) := process (O:=O) (A:=A) (K:=K) (C:=C) (Ver:=Ver) Quote range_src range_dst
    UnmarshalMetadata X509KeyPair abs clientgo apiext trainer config Start args sc (s, w) in
  let registered := init clientgo apiext trainer config sc in
  sc' = registered.2 ∧
  if is_ok registered.1 then
    match parse_command_line (Z:=Z) Quote args with
    | Err e => out = (s, w) ∧ status = if bool_decide (e = ErrHelp) then 0 else 2
    | Ok ((fl, _), _) =>
        (status = 0 ∧ started Start fl (s, w) (Ok tt, out)) ∨
        (status = 1 ∧ ∃ e, started Start fl (s, w) (Err e, out) ∨ ∀ Start', run_main Start' fl (s, w) = (Err e, out))
    end
  else out = (s, w) ∧ status = 2.
Proof.
  unfold process. destruct (init clientgo apiext trainer config sc) as [[u|e0] sc']; [|done]. cbn [is_ok fst snd].
  destruct (parse_command_line Quote args) as [[[fl z] rest]|e]; [|done]. cbn [fst].
  pose proof (main_gated Start fl s w) as Hg. unfold gated in Hg.
  destruct (run_main Start fl (s, w)) as [[[]|e] out] eqn:E; cbn [is_ok]; (split; [done|]).
  - left. split; [done|]. destruct Hg as [Hg|[Hno _]]; [exact Hg|done].
  - right. split; [done|]. exists e. destruct Hg as [Hg|[_ Hall]]; [by left|by right].
Qed.

End properties.

(** A start in a fresh container prepares the first reconciliation.  When
    no system call fails, the three templates are directories and nothing is
    below the work directory, the checks of the start-up succeed and change
    nothing but the work directory itself; after that the work directory of
    every set can be prepared, and then holds the files of its template. *)
Theorem prepare_paths_ready (s : os) (profile : TLSProfileSpec) (ns : string) (openshift : bool)
    (Hquiet : quiet s) (Hwf : wf_tree (os_nodes s))
    (Htemplates : Forall (λ p, os_nodes s !! p = Some Dir) [manifestsPath; runtimesPath; imageStreamsPath])
    (Hwork : os_nodes s !! workDir = None ∨ os_nodes s !! workDir = Some Dir)
    (Hbelow : ∀ x r, os_nodes s !! (workDir ++ x :: r) = None) :
  let m := actions_of (reconciler_config profile) in
  ∃ s', prepare_paths s = (Ok tt, s') ∧ (∀ q, os_nodes s' !! q = if bool_decide (q = workDir) then Some Dir else os_nodes s !! q) ∧
    ∀ rs, rs ∈ resourceSets m ns openshift →
      ∃ s'', ensureWorkDir (rs_templatePath rs) (set_work m rs) s' = (Ok tt, s'') ∧
        ∀ r, os_nodes s'' !! (set_work m rs ++ r) = image (os_nodes s !! (rs_templatePath rs ++ r)).
Proof.
  intros m. destruct (prepare_paths_run s) as (m' & Hrun & Hm'); [done..|].
  exists (set_nodes m' s). split; [done|]. split; [done|]. intros rs Hrs.
  assert (∃ t sub, rs_templatePath rs = ["opt"; t] ∧ t ≠ "manifests-work" ∧ set_work m rs = workDir ++ [sub] ∧
    os_nodes s !! ["opt"; t] = Some Dir) as (t & sub & Ht & Hne & -> & Hdir).
  { rewrite !list.Forall_cons in Htemplates. destruct Htemplates as (H1 & H2 & H3 & _).
    unfold resourceSets in Hrs. destruct openshift; cbn [app] in Hrs;
      repeat (apply elem_of_cons in Hrs as [->|Hrs]; [by do 2 eexists; split_and!|]);
      by apply elem_of_nil in Hrs. }
  rewrite Ht. destruct (ensureWorkDir_run (set_nodes m' s) ["opt"; t] (workDir ++ [sub])) as (m2 & Hrun2 & Hm2);
    [done|by eapply work_ready|].
  eexists. split; [done|]. intros r. cbn [os_nodes set_nodes].
  rewrite Hm2. unfold with_copy. rewrite Rel_app. cbn [os_nodes set_nodes]. rewrite Hm'.
  rewrite bool_decide_eq_false_2; [done|]. unfold workDir. cbn. congruence.
Qed.

(** C40: The start-up accepts a template that is a symbolic link to a directory,
    for [os.Stat] follows it; but [filepath.Walk] does not, so that preparing a
    work directory from such a template succeeds and copies nothing: an absent
    work directory is not even made. *)
Theorem symlinked_template (what : string) (template work t : path) (s : os)
    (Hquiet : quiet s) (Hlink : os_nodes s !! template = Some (Symlink t))
    (Hdir : is_dir (os_nodes s) template)
    (Hwork : os_nodes s !! work = None ∨ (os_nodes s !! work = Some Dir ∧ children (os_nodes s) work = [])) :
  check_template what template s = (Ok tt, s) ∧ ensureWorkDir template work s = (Ok tt, s).
Proof.
  split.
  - destruct Hdir as (q & Hr & Hq). unfold check_template, wrapping, Stat.
    unfold mbind, M_bind. rewrite (syscall_quiet s Hquiet). unfold follow. rewrite Hr. unfold node_at.
    by rewrite Hq.
  - assert (copyDir template work s = (Ok tt, s)) as Hcopy.
    { unfold copyDir, Walk, get. unfold mbind at 1, M_bind at 1. rewrite try_bind.
      by rewrite (Lstat_quiet template s _ Hquiet Hlink). }
    unfold ensureWorkDir. rewrite try_bind. destruct Hwork as [Hnone|[Hw Hc]].
    + assert (ReadDir work s = (Err (missing "open" (os_nodes s) work), s)) as ->; [|done].
      unfold ReadDir. rewrite (bind_ok _ _ _ _ _ (syscall_quiet s Hquiet)).
      rewrite (bind_ok _ _ _ _ _ (follow_id "open" work s ltac:(congruence))). unfold node_at.
      munfold. by rewrite Hnone.
    + by rewrite ReadDir_quiet, Hc by done.
Qed.

(** *** The kinds in use *)

Definition typed_kind (w : watched) : option GroupVersionKind :=
  match w with TypedKind g => Some g | UntypedKind _ => None end.

(** The kinds that OpenShift's configuration and the API of the CRDs are
    registered for: the APIServer that the bootstrap client and the watcher read
    the TLS profile from, and the CRDs that the dependency check looks up. *)
Definition apiServerGVK : GroupVersionKind := GVK "config.openshift.io" "v1" "APIServer".
Definition crdGVK : GroupVersionKind := GVK "apiextensions.k8s.io" "v1" "CustomResourceDefinition".

(** The kinds that the operator handles as typed objects: the one it reconciles,
    the typed watches, the ConfigMap of the platform, the APIServer and the CRDs,
    and those of the cache and the client. *)
Definition typed_kinds {O K C Ver X Cert} (b : builder O K C Ver) (opts : manager_options X Cert) :
    list GroupVersionKind :=
  [b_for b; GVK "" "v1" "ConfigMap"; apiServerGVK; crdGVK] ++ omap (λ w, typed_kind w.1) (b_watches b) ++
  (ByObject (o_Cache opts)).*1 ++ DisableFor opts.

(** The kinds that client-go's registration is relied on for. *)
Definition clientgo_kinds : list GroupVersionKind :=
  [GVK "" "v1" "Namespace"; GVK "" "v1" "ConfigMap"; GVK "" "v1" "Service"; GVK "apps" "v1" "Deployment";
   GVK "admissionregistration.k8s.io" "v1" "ValidatingWebhookConfiguration"].

Lemma known_by_packages k1 k2 own k4 k5 : clientgo_kinds ⊆ k1 → crdGVK ∈ k2 → apiServerGVK ∈ k5 →
  clientgo_kinds ++ own ++ [crdGVK; apiServerGVK] ⊆ k1 ++ k2 ++ own ++ k4 ++ k5.
Proof.
  intros H1 H2 H5 k. rewrite !elem_of_app, elem_of_cons, list_elem_of_singleton.
  intros [Hk|[Hk|[-> | ->]]]; [apply H1 in Hk|..]; tauto.
Qed.

Section kinds.
Context {O V A K C Ver W X Cert Sc : Type} `{!Objects O V, !ApiErrors, !CtrlClient K, !DynamicClient O K,
  !PlatformUtils O K, !ConditionManager C, !Semver Ver, !YamlMaps A, !TLSTables, !Kustomize O,
  !FrameworkTLS W X, !Framework O K C Ver W, !SchemeOps Sc}.

(** C38: The scheme knows every kind that the operator handles as a typed object.
    When [init] does not panic, the scheme knows all that each of the packages
    it calls registers -- client-go, the CRDs, the trainer's API, OpenShift's
    configuration, whatever they are -- and the operator's own kinds.  So if these
    packages register the kinds they are there for, the kind the reconciler is
    built for, the kinds it watches, the ConfigMap of the platform, the
    APIServer, the CRDs and the kinds in the options of the cache and of the
    client are known: no call fails for an unknown kind. *)
Theorem init_registers_kinds (Quote : string → string) (range_src range_dst : gmap string string → list (string * string))
    (UnmarshalMetadata : string → result componentMetadata) (X509KeyPair : string → string → result Cert)
    (abs : string → path) (cfg : ReconcilerConfig) (fl : flags) (appNS : string) (tlsOpts : list (TLSOpt X Cert))
    (clientgo apiext trainer config : M Sc unit) (k1 k2 k4 k5 : list GroupVersionKind) (s s' : Sc)
    (Hclientgo : registers k1 clientgo) (Hapiext : registers k2 apiext)
    (Htrainer : registers k4 trainer) (Hconfig : registers k5 config)
    (H1 : clientgo_kinds ⊆ k1) (H2 : crdGVK ∈ k2) (H5 : apiServerGVK ∈ k5)
    (Hinit : init clientgo apiext trainer config s = (Ok tt, s')) :
  Forall (Recognizes s') (k1 ++ k2 ++ k4 ++ k5) ∧
  Forall (Recognizes s')
    (typed_kinds (trainer_builder (O:=O) (A:=A) (K:=K) (C:=C) (Ver:=Ver) (W:=W) Quote range_src range_dst UnmarshalMetadata cfg)
       (options_of X509KeyPair abs fl appNS tlsOpts)).
Proof.
  pose proof (init_known _ _ _ _ _ _ _ _ Hclientgo Hapiext Htrainer Hconfig) as [_ Hr].
  rewrite !list.Forall_forall. split; intros k Hk; apply (Hr s s' Hinit).
  - set_solver +Hk.
  - apply (known_by_packages _ _ _ _ _ H1 H2 H5). cbn in Hk |- *. set_solver.
Qed.

End kinds.

(** *** Witnesses *)

(** A scheme that is the list of its kinds. *)
#[local] Instance ex_scheme : SchemeOps (list GroupVersionKind).
Proof.
  refine {| AddKnownTypes gv kinds s := (gv_kind gv <$> kinds) ++ s;
            AddToGroupVersion gv s := gv_kind gv "WatchEvent" :: s;
            Recognizes s k := k ∈ s |}.
  - intros gv kinds s k Hk. apply elem_of_app. left. by apply list_elem_of_fmap_2.
  - intros gv kinds s k Hk. apply elem_of_app. by right.
  - intros gv s k Hk. by right.
Defined.

(** A fresh container. *)
Definition ex_nodes : gmap path node := list_to_map
  [([], Dir); (["opt"], Dir); (manifestsPath, Dir); (manifestsPath ++ ["rhoai"], Dir);
   (manifestsPath ++ ["rhoai"; "params.env"], File "image=x"); (manifestsPath ++ ["component_metadata.yaml"], File "releases");
   (runtimesPath, Dir); (imageStreamsPath, Dir)].

Definition ex_fresh : os := OS ex_nodes (list_to_map [("APPLICATIONS_NAMESPACE", "apps")]) [].

Lemma ex_below x r : ex_nodes !! (workDir ++ x :: r) = None.
Proof.
  apply eq_None_not_Some. intros [n Hn].
  assert (map_Forall (λ q _, Rel workDir q = None) ex_nodes) as Hall
    by (apply (bool_decide_unpack _); by vm_compute).
  apply Hall in Hn. by rewrite Rel_app in Hn.
Qed.

Lemma prepare_paths_ready_witness :
  let m := actions_of (reconciler_config ex_profile) in
  ∃ s' s'', prepare_paths ex_fresh = (Ok tt, s') ∧
    ensureWorkDir manifestsPath (set_work m (manifests_set m "apps")) s' = (Ok tt, s'') ∧
    os_nodes s'' !! (workDir ++ ["manifests"; "rhoai"; "params.env"]) = Some (File "image=x").
Proof.
  destruct (prepare_paths_ready ex_fresh ex_profile "apps" true) as (s' & H & _ & Hrs).
  - reflexivity.
  - apply wf_tree_dec. split; [reflexivity|]. apply (bool_decide_unpack _). by vm_compute.
  - repeat constructor.
  - left. reflexivity.
  - exact ex_below.
  - destruct (Hrs (manifests_set (actions_of (reconciler_config ex_profile)) "apps")) as (s'' & Hrun & Hn);
      [by left|].
    exists s', s''. split; [exact H|]. split; [exact Hrun|].
    exact (Hn ["rhoai"; "params.env"]).
Defined.

Lemma symlinked_template_witness :
  let s := OS (list_to_map [([], Dir); (["opt"], Dir); (manifestsPath, Symlink ["srv"]); (["srv"], Dir);
                            (["srv"; "base.yaml"], File "base")]) ∅ [] in
  check_template "manifests" manifestsPath s = (Ok tt, s) ∧
  ensureWorkDir manifestsPath (workDir ++ ["manifests"]) s = (Ok tt, s).
Proof.
  apply (symlinked_template "manifests" manifestsPath (workDir ++ ["manifests"]) ["srv"]).
  - reflexivity.
  - reflexivity.
  - exists ["srv"]. split; reflexivity.
  - left. reflexivity.
Defined.

#[local] Existing Instances ex_framework ex_semver ex_yaml ex_kustomize ex_tables.

#[local] Instance ex_runtime : ControllerRuntime LoadResult (list string) string := {|
  GetConfigOrDie := mret tt;
  New_client := mret tt;
  NewManager _ := mret tt;
  SetupSignalHandler := mret tt;
  AddHealthzCheck _ := mret tt;
  AddReadyzCheck _ := mret tt;
  SetupWithManager _ := mret tt;
|}.

#[local] Instance ex_main_fw : Framework obj cluster (gmap string (bool * string * string)) string LoadResult := {|
  fwdeploy_NewAction _ := mret tt;
  fwdeployments_NewAction _ := mret tt;
  fwgc_NewAction _ _ := mret tt;
  fwgc_Run _ _ := mret tt;
  Build _ := mret tt;
  WatchConfigMaps _ _ := mret tt;
|}.

Definition ex_add (ks : list GroupVersionKind) : M (list GroupVersionKind) unit := modify (app ks).

Lemma ex_add_registers ks : registers ks (ex_add ks).
Proof.
  split.
  - intros s k Hk. apply elem_of_app. by right.
  - intros s s' [= <-] k Hk. apply elem_of_app. by left.
Qed.

Lemma init_registers_kinds_witness :
  ∃ s', init (ex_add clientgo_kinds) (ex_add [crdGVK]) (ex_add []) (ex_add [apiServerGVK]) [] = (Ok tt, s') ∧
    Recognizes s' (gv_kind api_group_version "Trainer").
Proof.
  eexists. split; [reflexivity|].
  pose proof (init_registers_kinds (O:=obj) (V:=json) (A:=string) (K:=cluster) (C:=gmap string (bool * string * string))
    (Ver:=string) (W:=LoadResult) (X:=list string) (Cert:=string) id map_to_list map_to_list ex_metadata
    (λ c _, Ok c) (λ d, [d]) (reconciler_config ex_profile) default_flags "" []
    (ex_add clientgo_kinds) (ex_add [crdGVK]) (ex_add []) (ex_add [apiServerGVK]) _ _ _ _ [] _
    (ex_add_registers _) (ex_add_registers _) (ex_add_registers _) (ex_add_registers _)
    (reflexivity _) (list_elem_of_here _ _) (list_elem_of_here _ _) eq_refl) as [_ H].
  exact (Forall_inv H).
Defined.

(** A manager that keeps the watchers it is given. *)
Definition watching : Type := LoadResult * list SecurityProfileWatcher.

#[local] Instance ex_watch_framework : FrameworkTLS watching (list string) := {|
  LoadWithAdherence := gets fst;
  ShouldHonorClusterTLSProfile := ShouldHonorClusterTLSProfile (K:=LoadResult) (X:=list string);
  IntermediateProfile := IntermediateProfile (K:=LoadResult) (X:=list string);
  ConfigFromProfileWithError := ConfigFromProfileWithError (K:=LoadResult) (X:=list string);
  HTTP2NextProtos := HTTP2NextProtos (K:=LoadResult) (X:=list string);
|}.

#[local] Instance ex_watch_runtime : ControllerRuntime watching (list string) string := {|
  GetConfigOrDie := mret tt;
  New_client := mret tt;
  NewManager _ := mret tt;
  SetupSignalHandler := mret tt;
  AddHealthzCheck _ := mret tt;
  AddReadyzCheck _ := mret tt;
  SetupWithManager watcher := modify (λ w, (w.1, watcher :: w.2));
|}.

#[local] Instance ex_setup : WatcherSetup watching (list string) string.
Proof. refine {| installed := snd |}. by intros watcher w w' [= <-]. Defined.

#[local] Instance ex_watch_main : Framework obj cluster (gmap string (bool * string * string)) string watching := {|
  fwdeploy_NewAction _ := mret tt;
  fwdeployments_NewAction _ := mret tt;
  fwgc_NewAction _ _ := mret tt;
  fwgc_Run _ _ := mret tt;
  Build _ := mret tt;
  WatchConfigMaps _ _ := mret tt;
|}.

#[local] Existing Instance ex_contract.

(** A profile that is honored, and then replaced by a weaker one. *)
Lemma watcher_reloads_witness :
  ∃ (w8 : watching) watcher, watcher ∈ installed w8 ∧
    shuts_down watcher "StrictAllComponents" (MkProfile ["DES-CBC3-SHA"] "VersionTLS10" []) = true.
Proof.
  destruct (watcher_reloads (O:=obj) (V:=json) (K:=cluster) (C:=gmap string (bool * string * string)) (Ver:=string) (A:=string)
    (W:=watching) (X:=list string) (Cert:=string) id map_to_list map_to_list ex_metadata (λ c _, Ok c) (λ d, [d])
    (mret tt) default_flags ex_fresh (ex_load "StrictAllComponents", []))
    as [[Hno _]|(l & w0 & w1 & w2 & [= <-] & [= <-] & [= <- <-] & H)]; [by vm_compute in Hno|].
  cbn zeta in H. destruct H as (rec & s1 & s2 & w4 & w5 & w7 & w8 & _ & _ & watcher & Hin & Hall).
  exists w8, watcher. split; [exact Hin|]. by apply Hall.
Defined.

(** A start-up that reaches the manager, which fails. *)
Example main_reaches_the_manager :
  (main (O:=obj) (V:=json) (K:=cluster) (C:=gmap string (bool * string * string)) (Ver:=string) (A:=string)
     id map_to_list map_to_list ex_metadata (λ c _, Ok c) (λ d, [d]) (throw (ErrNew "lost lease")) default_flags
     (ex_fresh, ex_load "StrictAllComponents")).1 =
  Err (ErrWrap "problem running manager" (ErrNew "lost lease")).
Proof. vm_compute. reflexivity. Qed.
