(* ===== verification/Managed.v ===== *)
(** What the rendered resources have in common, and who relies on it: the label
    and the namespace that kustomize is told to set make an object visible in
    the cache of the manager, and let the finalizer action find it. *)

From S2P Require Import Prelude GoStrings GoOS Params Kube ApiTypes KubeStore Runtimes Finalization.
From S2P Require Import Request Namespace OperandTLS Workdir Manifests Rendering TlsProfile Flags Reconciler Main.
From Stdlib Require Import Ascii.
Open Scope string_scope.
Open Scope nat_scope.
Open Scope list_scope.

(** ** Specification *)

(** The labels of an object, and the scope of a kind. *)
Class Labelled (O : Type) := {
  GetLabels : O → gmap string string;
  IsNamespaced : GroupVersionKind → bool;
}.

(** Fields that are not metadata say nothing about kinds and labels. *)
Class LabelsLaws (O V : Type) `{!Objects O V, !Labelled O} : Prop := {
  set_string_labels s f fs (o o' : O) : metadata_field f = false → SetNestedString s (f :: fs) o = Ok o' →
    GroupVersionKindOf o' = GroupVersionKindOf o ∧ GetLabels o' = GetLabels o;
  set_string_map_labels m f fs (o o' : O) : metadata_field f = false → SetNestedStringMap m (f :: fs) o = Ok o' →
    GroupVersionKindOf o' = GroupVersionKindOf o ∧ GetLabels o' = GetLabels o;
}.

(** What the two options of [kustomize.Render] are for. *)
Class KustomizeLaws (O V : Type) `{!Objects O V, !Labelled O, !Kustomize O} : Prop := {
  render_label p opts s (items : list O) s' k v :
    kustomize_Render p opts s = (Ok items, s') → WithLabel k v ∈ opts → (∀ v', WithLabel k v' ∈ opts → v' = v) →
    Forall (λ o, GetLabels o !! k = Some v) items;
  render_namespace p opts s (items : list O) s' ns :
    kustomize_Render p opts s = (Ok items, s') → WithNamespace ns ∈ opts → (∀ ns', WithNamespace ns' ∈ opts → ns' = ns) →
    Forall (λ o : O, IsNamespaced (GroupVersionKindOf o) = true → GetNamespace o = ns) items;
}.

(** controller-runtime: the objects an informer of the manager holds and tells
    the watches about.  The selector of [ByObject] has to match, and an object of
    a namespaced kind has to be in one of the [DefaultNamespaces], if there are
    any. *)
Class ManagerCache (O V : Type) `{!Objects O V, !Labelled O} := {
  Cached : cache_options → O → Prop;
  cached_iff c o : Cached c o ↔
    (∀ sel, (GroupVersionKindOf o, sel) ∈ ByObject c → sel ⊆ GetLabels o) ∧
    (IsNamespaced (GroupVersionKindOf o) = true → ∀ nss, DefaultNamespaces c = Some nss → GetNamespace o ∈ nss);
}.

(** [labels.Parse] on a selector of one label: the characters of a label. *)
Definition label_char (c : ascii) : bool :=
  let n := nat_of_ascii c in
  (48 <=? n) && (n <=? 57) || (65 <=? n) && (n <=? 90) || (97 <=? n) && (n <=? 122)
  || bool_decide (c ∈ ["-"; "_"; "."; "/"]%char).
Definition label_text (s : string) : bool := forallb label_char (String.list_ascii_of_string s).

Class SelectorLaws (O V K : Type) `{!Objects O V, !Labelled O, !ApiErrors, !DynamicClient O K, !DynamicStore O V K} : Prop := {
  selected_label k v (o : O) : label_text k = true → label_text v = true →
    (selected (k +:+ "=" +:+ v) o = true ↔ GetLabels o !! k = Some v);
}.

Section specification.
Context {O V : Type} `{!Objects O V, !Labelled O}.

(** The live object of a rendered one: others may have added labels. *)
Definition deployed_from (item live : O) : Prop :=
  GroupVersionKindOf live = GroupVersionKindOf item ∧ GetNamespace live = GetNamespace item ∧
  GetName live = GetName item ∧ GetLabels item ⊆ GetLabels live.

(** What a rendering with the label and the namespace [ns] gives. *)
Definition carries (ns : string) (o : O) : Prop :=
  GetLabels o !! PlatformPartOf = Some trainerPartOf ∧
  (ns ≠ "" → IsNamespaced (GroupVersionKindOf o) = true → GetNamespace o = ns).

(** Kind, name, namespace and labels are kept. *)
Definition kept (o o' : O) : Prop :=
  (GroupVersionKindOf o', GetName o', GetNamespace o', GetLabels o') =
  (GroupVersionKindOf o, GetName o, GetNamespace o, GetLabels o).

#[export] Instance kept_preorder : PreOrder kept.
Proof. unfold kept. split; [by intros o|]. intros o1 o2 o3. congruence. Qed.

End specification.

(** ** Lemmas *)

Section lemmas.
Context {O V A : Type} `{!Objects O V, !ObjectsLaws O V, !Labelled O, !LabelsLaws O V, !YamlMaps A, !TLSTables}.
Context `{!Kustomize O, !KustomizeLaws O V} (Quote : string → string).
Context (range_src range_dst : gmap string string → list (string * string)).

Lemma carries_kept ns (o o' : O) : kept o o' → carries ns o → carries ns o'.
Proof. unfold kept, carries. by intros [= -> _ -> ->]. Qed.

Lemma set_string_kept s f fs (o o' : O) : metadata_field f = false → SetNestedString s (f :: fs) o = Ok o' → kept o o'.
Proof.
  intros Hf Hs. destruct (set_string_labels _ _ _ _ _ Hf Hs), (set_string_meta _ _ _ _ _ Hf Hs) as (_ & ? & ?).
  unfold kept. congruence.
Qed.

Lemma set_string_map_kept s f fs (o o' : O) :
  metadata_field f = false → SetNestedStringMap s (f :: fs) o = Ok o' → kept o o'.
Proof.
  intros Hf Hs. destruct (set_string_map_labels _ _ _ _ _ Hf Hs), (set_string_map_meta _ _ _ _ _ Hf Hs) as (_ & ? & ?).
  unfold kept. congruence.
Qed.

Lemma inject_item_kept opts (o : O) r : inject_item (A:=A) opts o = Ok r → kept o r.1.
Proof.
  unfold inject_item. destruct (negb _ || negb _); [by intros [= <-]|].
  munfold. destruct (NestedString o config_fields) as [[raw|]|]; cbn; [|by intros [= <-]|done].
  destruct (yaml_Unmarshal raw); cbn; [|done]. destruct (yaml_Marshal _); cbn; [|done].
  destruct (SetNestedString _ config_fields o) as [o'|] eqn:Es; cbn; [|done]. intros [= <-].
  by eapply set_string_kept, Es.
Qed.

Lemma annotate_item_kept h (o o' : O) : annotate_item h o = Ok o' → kept o o'.
Proof.
  unfold annotate_item. destruct (negb _ || negb _); [by intros [= <-]|].
  munfold. destruct (NestedStringMap o annotation_fields); cbn; [|done]. intros Es%wrap_err_ok.
  by eapply set_string_map_kept, Es.
Qed.

Lemma inject_items_kept opts h (l : list O) r : inject_items (A:=A) opts h l = Ok r → Forall2 kept l r.1.
Proof.
  revert h r. induction l as [|o l IH]; intros h r; cbn [inject_items]; [by intros [= <-]|].
  munfold. destruct (inject_item opts o) as [r1|] eqn:E1; [|done].
  destruct (inject_items opts _ l) as [r2|] eqn:E2; [|done]. intros [= <-].
  constructor; [by eapply inject_item_kept|by eapply IH].
Qed.

Lemma annotate_items_kept h (l l' : list O) : annotate_items h l = Ok l' → Forall2 kept l l'.
Proof.
  revert l'. induction l as [|o l IH]; intros l'; cbn [annotate_items]; [by intros [= <-]|].
  munfold. destruct (annotate_item h o) as [o'|] eqn:E1; [|done].
  destruct (annotate_items h l) as [l2|] eqn:E2; [|done]. intros [= <-].
  constructor; [by eapply annotate_item_kept|by apply IH].
Qed.

Lemma applyOperandTLSOptions_kept (l l' : list O) profile :
  applyOperandTLSOptions (A:=A) Quote l profile = Ok l' → Forall2 kept l l'.
Proof.
  unfold applyOperandTLSOptions. munfold. destruct (TranslateProfile Quote profile) as [opts|]; cbn; [|done].
  destruct (inject_items opts "" l) as [[mid h]|] eqn:Ei; cbn; [|done]. apply inject_items_kept in Ei.
  case_bool_decide; [by intros [= <-]|]. intros Ea%annotate_items_kept. by transitivity mid.
Qed.

Lemma renderOverlay_carries p ns s l s' : renderOverlay p ns s = (Ok l, s') → Forall (carries ns) l.
Proof.
  unfold renderOverlay. intros Hr%wrapping_ok. apply list.Forall_and. split.
  - eapply render_label; [exact Hr|by left|]. intros v'. case_bool_decide; set_solver.
  - case_bool_decide as Hns; [by apply list.Forall_true|].
    eapply list.Forall_impl; [eapply render_namespace; [exact Hr|by right; left|set_solver]|]. by intros o Ho _.
Qed.

(** What holds of all that kustomize renders, and is kept, holds of a rendered
    set. *)
Lemma render_all (P : O → Prop) m rs s l s' : (∀ o o', kept o o' → P o → P o') →
  (∀ s1 l s2, prepare_set range_src range_dst m rs s = (Ok tt, s1) →
     renderOverlay (overlay_of rs (set_work m rs)) (rs_namespace rs) s1 = (Ok l, s2) → Forall P l) →
  renderResourceSet (A:=A) Quote range_src range_dst m rs s = (Ok l, s') → Forall P l.
Proof.
  intros Hkept HP. rewrite render_split.
  intros ([] & s1 & Hprep & (raw & s2 & Hr%wrapping_ok%(HP _ _ _ Hprep) & Hf)%bind_ok_inv)%bind_ok_inv.
  set (items := if rs_filterConfigMaps rs then _ else _) in Hf.
  assert (Forall P items) as Hi.
  { unfold items. destruct (rs_filterConfigMaps rs); [|done]. rewrite filterConfigMaps_filter.
    apply list.Forall_forall. intros o [_ Ho]%list_elem_of_filter. by eapply list.Forall_forall in Hr. }
  destruct (rs_operandTLS rs); [|by injection Hf as <- _].
  unfold wrapping, lift in Hf. injection Hf as Hk%wrap_err_ok%applyOperandTLSOptions_kept _.
  eapply Forall2_Forall_r; [exact Hk|]. eapply list.Forall_impl; [exact Hi|]. intros o Ho o' Hoo. by eapply Hkept.
Qed.

Lemma rendered_carries m sets s ls s' :
  rendered (A:=A) Quote range_src range_dst m sets s ls s' →
  Forall2 (λ rs, Forall (carries (rs_namespace rs))) sets ls.
Proof.
  revert s ls. induction sets as [|rs sets IH]; intros s [|l ls]; try done.
  intros (s1 & H1 & Hr). constructor; [|by eapply IH].
  eapply render_all; [by apply carries_kept|intros ? ? ? _; apply renderOverlay_carries|done].
Qed.

End lemmas.

Section cached.
Context {O V : Type} `{!Objects O V, !Labelled O}.

Lemma part_of_selected : label_text PlatformPartOf = true ∧ label_text trainerPartOf = true.
Proof. by vm_compute. Qed.

Lemma deployed_label ns (item live : O) : carries ns item → deployed_from item live →
  GetLabels live !! PlatformPartOf = Some trainerPartOf.
Proof. intros [Hl _] (_ & _ & _ & Hsub). by eapply lookup_weaken. Qed.

Lemma resourceSets_namespace m ns openshift rs : rs ∈ resourceSets m ns openshift →
  rs_namespace rs = "" ∨ rs_namespace rs = ns.
Proof.
  unfold resourceSets. destruct openshift; cbn [app]; rewrite ?elem_of_cons; intros H';
    repeat (destruct H' as [-> |H']; [cbn; by auto|]); by apply elem_of_nil in H'.
Qed.

(** The cache of the manager on what carries the label. *)
Lemma cached_carries `{!ManagerCache O V} appNS ns target (item live : O) : ns = "" ∨ ns = target →
  carries ns item → deployed_from item live →
  Cached (cache_of appNS) live ↔
  (IsNamespaced (GroupVersionKindOf live) = true → appNS = "" ∨
     appNS = if bool_decide (ns = "") then GetNamespace live else target).
Proof.
  intros Hns Hc Hd. pose proof (deployed_label _ _ _ Hc Hd) as Hlabel. destruct Hc as [_ Hc], Hd as (Hg & Hn & _ & _).
  rewrite cached_iff. cbn [ByObject DefaultNamespaces cache_of]. unfold cache_namespaces.
  assert (∀ sel, (GroupVersionKindOf live, sel) ∈ ByObject (cache_of appNS) → sel ⊆ GetLabels live) as Hsel.
  { intros sel Hin. assert (sel = cache_selector) as ->; [|by apply map_singleton_subseteq_l].
    apply (list_elem_of_fmap_2 snd) in Hin. change (sel ∈ [cache_selector; cache_selector; cache_selector]) in Hin.
    set_solver. }
  assert (IsNamespaced (GroupVersionKindOf live) = true →
    (if bool_decide (ns = "") then GetNamespace live else target) = GetNamespace live) as Htarget.
  { case_bool_decide as E; [done|]. intros Hnsd. destruct Hns as [|<-]; [done|]. rewrite Hn. symmetry. apply Hc; [done|].
    by rewrite <-Hg. }
  split.
  - intros [_ Hall] Hnsd. rewrite Htarget by done. specialize (Hall Hnsd). case_bool_decide as E; [by left|right].
    specialize (Hall _ eq_refl). set_solver.
  - intros Hall. split; [exact Hsel|]. intros Hnsd nss. specialize (Hall Hnsd). rewrite Htarget in Hall by done.
    destruct (decide (appNS = "")) as [E|E]; [by rewrite bool_decide_eq_true_2|rewrite bool_decide_eq_false_2 by done].
    intros [= <-]. destruct Hall as [|Hall]; [done|]. set_solver.
Qed.

End cached.

(** ** Properties *)

Section visible.
Context {O V A K C Ver : Type} `{!Objects O V, !ObjectsLaws O V, !Labelled O, !LabelsLaws O V, !ManagerCache O V}.
Context `{!YamlMaps A, !TLSTables, !Kustomize O, !KustomizeLaws O V, !PlatformUtils O K} (Quote : string → string).
Context (range_src range_dst : gmap string string → list (string * string)).

(** C8: The operator sees what it deploys, and when it does not.  What kustomize
    renders in a reconciliation carries the label that the selectors of the
    manager's cache ask for, also after the TLS options were written into it: the
    live object of a rendered one is cached, and its events reach the watches,
    unless it is of a namespaced kind and outside APPLICATIONS_NAMESPACE; for the
    sets that are rendered into a namespace -- the operand and the image streams
    -- that is when the variable is set to another namespace than the one the
    resource resolves to. *)
Theorem rendered_visible (m : trainerActions) (rr rr' : request O K C Ver) (appNS : string)
    (Hrun : renderManifests (A:=A) Quote range_src range_dst m rr = (Ok tt, rr')) :
  ∃ openshift ls,
    let sets := resourceSets m (resolveNamespace (rr_instance rr)) openshift in
    rr_resources rr' = rr_resources rr ++ concat ls ∧
    Forall2 (λ rs, Forall (λ item, ∀ live, deployed_from item live →
      Cached (cache_of appNS) live ↔
      (IsNamespaced (GroupVersionKindOf live) = true → appNS = "" ∨
         appNS = if bool_decide (rs_namespace rs = "") then GetNamespace live
                 else resolveNamespace (rr_instance rr)))) sets ls.
Proof.
  destruct (renderManifests_run _ _ _ _ _ _ Hrun) as (ct & k1 & ls & _ & Hs & Hl & _).
  exists (bool_decide (ct = ClusterTypeOpenShift)), ls. cbn zeta. split; [done|]. apply rendered_carries in Hs.
  eapply Forall2_impl_in; [exact Hs|]. intros rs l Hin Hl'. eapply list.Forall_impl; [exact Hl'|].
  intros item Hc live Hd. eapply cached_carries; [by eapply resourceSets_namespace|done..].
Qed.

End visible.

Section removed.
Context {O V A K C Ver : Type} `{!Objects O V, !ObjectsLaws O V, !Labelled O, !LabelsLaws O V, !ApiErrors}.
Context `{!DynamicClient O K, !DynamicStore O V K, !FinalizerLaws O V K, !SelectorLaws O V K}.
Context `{!YamlMaps A, !TLSTables, !Kustomize O, !KustomizeLaws O V, !PlatformUtils O K} (Quote : string → string).
Context (range_src range_dst : gmap string string → list (string * string)).


End removed.

(** *** The store of [KubeStore] *)

#[export] Instance obj_labelled : Labelled obj := {|
  GetLabels := o_labels;
  IsNamespaced g := bool_decide (gvk_kind g ∉ ["Namespace"; "Trainer"; "ClusterTrainingRuntime"; "ValidatingWebhookConfiguration"]);
|}.

#[export] Instance obj_label_laws : LabelsLaws obj json.
Proof.
  split; intros s f fs o o' _; cbn [SetNestedString SetNestedStringMap obj_objects];
    (destruct (nested_set _ _ _) as [b|]; [|done]); by intros [= <-].
Qed.

#[export] Instance obj_cache : ManagerCache obj json.
Proof.
  refine {| Cached c (o : obj) :=
    (∀ sel, (o_gvk o, sel) ∈ ByObject c → sel ⊆ o_labels o) ∧
    (IsNamespaced (o_gvk o) = true → ∀ nss, DefaultNamespaces c = Some nss → o_ns o ∈ nss) |}.
  done.
Defined.

Lemma label_text_no_eq s : label_text s = true → has_byte "="%char s = false.
Proof.
  unfold label_text. induction s as [|c s IH]; [done|]. cbn. intros [Hc Hs]%andb_true_iff.
  rewrite IH, bool_decide_eq_false_2 by (done || (intros ->; discriminate Hc)). done.
Qed.

Lemma label_unique k v k1 v1 : has_byte "="%char k = false → has_byte "="%char v = false →
  k1 +:+ "=" +:+ v1 = k +:+ "=" +:+ v → k1 = k ∧ v1 = v.
Proof.
  revert k1. induction k as [|c k IH]; intros [|c1 k1] Hk Hv; cbn; intros E; simplify_eq.
  - done.
  - rewrite has_byte_app, orb_false_iff in Hv. by destruct Hv.
  - cbn in Hk. apply orb_false_iff in Hk as [_ Hk]. by destruct (IH k1 Hk Hv) as [-> ->].
Qed.

#[export] Instance store_selectors : SelectorLaws obj json cluster.
Proof.
  split. intros k v o Hk%label_text_no_eq Hv%label_text_no_eq. cbn. unfold label_selects. rewrite existsb_exists. split.
  - intros ([k1 v1] & Hin%list_elem_of_In & E%bool_decide_eq_true). cbn in E.
    apply label_unique in E as [-> ->]; [|done..]. by apply elem_of_map_to_list in Hin.
  - intros Hl. exists (k, v). split; [by apply list_elem_of_In, elem_of_map_to_list|by apply bool_decide_eq_true].
Qed.

(** A renderer that follows its options. *)
Definition follow_option (opt : render_opt) (o : obj) : obj :=
  match opt with
  | WithLabel k v => Obj (o_gvk o) (o_name o) (o_ns o) (<[k := v]> (o_labels o)) (o_finalizers o) (o_deleting o) (o_body o)
  | WithNamespace ns => Obj (o_gvk o) (o_name o) (if IsNamespaced (o_gvk o) then ns else o_ns o)
      (o_labels o) (o_finalizers o) (o_deleting o) (o_body o)
  end.

Definition follow_options (opts : list render_opt) (o : obj) : obj := foldr follow_option o opts.

#[local] Instance ex_kustomized : Kustomize obj := {|
  kustomize_Render p opts := mret (follow_options opts <$> ex_items p);
|}.

Lemma follow_gvk opts o : o_gvk (follow_options opts o) = o_gvk o.
Proof. induction opts as [|[k v|ns] opts IH]; [done|cbn; exact IH..]. Qed.

#[local] Instance ex_kustomized_laws : KustomizeLaws obj json.
Proof.
  split; intros p opts s items s'; [intros k v|intros ns]; intros [= <- <-] Hin Hone;
    apply list.Forall_fmap, list.Forall_true; intros o; cbn [compose].
  - cbn [GetLabels obj_labelled]. induction opts as [|[k' v'|ns] opts IH]; [by apply elem_of_nil in Hin|..].
    + cbn. destruct (decide (k' = k)) as [->|Hne].
      * rewrite (Hone v') by by left. by rewrite lookup_insert_eq.
      * rewrite lookup_insert_ne by done. apply IH; [|intros v'' H; apply Hone; by right].
        by apply elem_of_cons in Hin as [[= <- <-]|Hin].
    + cbn. apply IH; [|intros v'' H; apply Hone; by right]. by apply elem_of_cons in Hin as [[=]|Hin].
  - cbn [GetNamespace GroupVersionKindOf obj_objects]. rewrite follow_gvk. intros Hns.
    induction opts as [|[k v|ns'] opts IH]; [by apply elem_of_nil in Hin|..].
    + cbn. apply IH; [|intros v'' H; apply Hone; by right]. by apply elem_of_cons in Hin as [[=]|Hin].
    + cbn [follow_options foldr follow_option o_ns]. fold (follow_options opts o). rewrite follow_gvk, Hns. apply Hone. by left.
Qed.

(** *** Witnesses *)

#[local] Existing Instances ex_yaml ex_tables.

Definition ex_managed : result unit * request obj cluster (gmap string (bool * string * string)) string :=
  renderManifests (A:=string) id map_to_list map_to_list ex_actions (set_os ex_disk (ex_request empty_cluster "apps")).

Lemma ex_managed_run : ex_managed = (Ok tt, ex_managed.2).
Proof. apply run_ok. by vm_compute. Qed.

(** The rendered object of a name, and the same with a label of someone else. *)
Definition ex_item (name : string) : obj :=
  default (plain_obj []) (list_find (λ o, o_name o = name) (rr_resources ex_managed.2) ≫= λ x, Some x.2).
Definition ex_live (name : string) : obj :=
  let o := ex_item name in
  Obj (o_gvk o) (o_name o) (o_ns o) (<["team" := "ml"]> (o_labels o)) ["another/finalizer"] (o_deleting o) (o_body o).

Lemma ex_item_in : ex_item operandDeploymentName ∈ rr_resources ex_managed.2 ∧ ex_item "torch" ∈ rr_resources ex_managed.2.
Proof.
  split.
  - apply list_elem_of_lookup. exists 1. by vm_compute.
  - apply list_elem_of_lookup. exists 2. by vm_compute.
Qed.

Lemma ex_live_from name : o_labels (ex_item name) !! "team" = None → deployed_from (V:=json) (ex_item name) (ex_live name).
Proof. intros Hn. split_and!; [done..|]. by apply insert_subseteq. Qed.

(** The operand's Deployment is in the cache for its namespace, not in that for
    another. *)
Lemma rendered_visible_witness :
  Cached (cache_of "apps") (ex_live operandDeploymentName) ∧ ¬ Cached (cache_of "other") (ex_live operandDeploymentName).
Proof.
  assert (∀ appNS, Cached (cache_of appNS) (ex_live operandDeploymentName) ↔
    (IsNamespaced (GroupVersionKindOf (ex_live operandDeploymentName)) = true → appNS = "" ∨ appNS = "apps")) as Hiff.
  { intros appNS. destruct (rendered_visible (A:=string) id map_to_list map_to_list ex_actions _ _ appNS ex_managed_run)
      as (openshift & ls & Hl & Hs).
    assert (ex_item operandDeploymentName ∈ concat ls) as Hin.
    { replace (concat ls) with (rr_resources ex_managed.2) by exact Hl. apply ex_item_in. }
    apply list_elem_of_In, in_concat in Hin as (l & [i Hi]%list_elem_of_In%list_elem_of_lookup & Hitem%list_elem_of_In).
    destruct (Forall2_lookup_r _ _ _ _ _ Hs Hi) as (rs & _ & Hc). eapply list.Forall_forall in Hc; [|exact Hitem].
    rewrite (Hc (ex_live operandDeploymentName)); [|apply ex_live_from; by vm_compute].
    by case_bool_decide. }
  rewrite !Hiff. split; [intros _; by right|]. intros Hall. by destruct (Hall eq_refl).
Defined.

(** A cluster with the runtime that was rendered, labelled and held by others. *)
Definition ex_installed : cluster := set_store ctr_gvr (list_to_map [(("", "torch"), ex_live "torch")]) empty_cluster.

Lemma ex_installed_held g key o : store ex_installed g !! key = Some o → held o.
Proof.
  cbn [store store_laws]. unfold objects_of, ex_installed. cbn [c_served c_store set_store empty_cluster].
  intros [Ho _]%map_lookup_filter_Some. case_bool_decide; [|by rewrite lookup_empty in Ho].
  apply elem_of_list_to_map_2 in Ho. by apply list_elem_of_singleton in Ho as [= -> ->].
Qed.

