(* ===== verification/System.v ===== *)
(** The operator as a transition system: starts of the process, reconciliations,
    finalizations, the edits of users and the changes of the cluster, in any
    order and with any failures; and what holds in every state it reaches. *)

From S2P Require Import Prelude GoStrings GoOS Params Kube ApiTypes KubeStore Request Namespace Dependencies.
From S2P Require Import Releases Deploy OperandTLS Workdir CopySafety Manifests Rendering Containment TlsProfile Flags.
From S2P Require Import Runtimes Reconciler Main.
Open Scope string_scope.
Open Scope nat_scope.
Open Scope list_scope.

(** ** Definitions *)

(** Between two steps: the cluster, the files of the pod, the resource in the
    API server, and the release of the running reconciler. *)
Record world (K Ver : Type) := World {
  w_cluster : K;
  w_os : os;
  w_trainer : Trainer;
  w_release : Release Ver }.
Arguments World {K Ver} w_cluster w_os w_trainer w_release.
Arguments w_cluster {K Ver} w.
Arguments w_os {K Ver} w.
Arguments w_trainer {K Ver} w.
Arguments w_release {K Ver} w.

(** The request that the framework makes for a reconciliation, with a condition
    manager [c]. *)
Definition request_of {O K C Ver} (c : C) (w : world K Ver) : request O K C Ver :=
  Request (w_cluster w) (w_os w) (w_trainer w) c [] false (w_release w).

(** What the API server has after the framework has, or has not, written the
    status: the name and the spec it had, and the releases of either. *)
Definition stored (before after t : Trainer) : Prop :=
  trainer_name t = trainer_name before ∧ Spec t = Spec before ∧
  (Releases (Status t) = Releases (Status before) ∨ Releases (Status t) = Releases (Status after)).

Section system.
Context {O V A K C Ver W X Cert : Type} `{!Objects O V, !ApiErrors, !CtrlClient K, !DynamicClient O K,
  !PlatformUtils O K, !ConditionManager C, !Semver Ver, !YamlMaps A, !TLSTables, !Kustomize O,
  !FrameworkTLS W X, !ControllerRuntime W X Cert, !Framework O K C Ver W, !ActionRunner O K C Ver}.
Context (Quote : string → string) (range_src range_dst : gmap string string → list (string * string))
  (UnmarshalMetadata : string → result componentMetadata)
  (X509KeyPair : string → string → result Cert) (abs : string → path).

#[local] Abbreviation new_reconciler := (NewReconciler (O:=O) (A:=A) (K:=K) (C:=C) (Ver:=Ver) (W:=W) Quote range_src
  range_dst UnmarshalMetadata).
#[local] Abbreviation run_main := (main (O:=O) (A:=A) (K:=K) (C:=C) (Ver:=Ver) Quote range_src range_dst
  UnmarshalMetadata X509KeyPair abs).

(** A reconciler that some start has built. *)
Definition built (r : Reconciler O K C Ver) : Prop :=
  ∃ profile s s', new_reconciler (reconciler_config profile) s = (Ok r, s').

Inductive step (w : world K Ver) : world K Ver → Prop :=
(** the process starts, and runs until the manager ends or a step fails *)
| step_start Start fl ws res s' ws' rel :
    run_main Start fl (w_os w, ws) = (res, (s', ws')) →
    step w (World (w_cluster w) s' (w_trainer w) rel)
(** a reconciliation, successful or not *)
| step_reconcile r c res rr t :
    built r → reconcile r (request_of c w) = (res, rr) → stored (w_trainer w) (rr_instance rr) t →
    step w (World (rr_cluster rr) (rr_os rr) t (rr_release rr))
(** the finalizer of a resource that is being deleted *)
| step_finalize r c res rr :
    built r → finalize r (request_of c w) = (res, rr) →
    step w (World (rr_cluster rr) (rr_os rr) (w_trainer w) (rr_release rr))
(** a user edits the spec, or creates the resource *)
| step_edit spec :
    step w (World (w_cluster w) (w_os w) (MkTrainer (trainer_name (w_trainer w)) spec (Status (w_trainer w))) (w_release w))
| step_create name spec :
    step w (World (w_cluster w) (w_os w) (MkTrainer name spec (MkStatus "" [] [])) (w_release w))
(** everybody else changes the cluster *)
| step_cluster k : step w (World k (w_os w) (w_trainer w) (w_release w))
(** the next system calls will fail in another way *)
| step_faults fs : step w (World (w_cluster w) (set_faults fs (w_os w)) (w_trainer w) (w_release w)).

End system.

(** *** Specification *)

(** The releases of a status: no name twice, as the list type of the API asks
    for, and the platform with a version that parses. *)
Definition well_typed (Ver : Type) `{!Semver Ver} (l : list ComponentRelease) : Prop :=
  NoDup (names l) ∧
  ∀ r, r ∈ l → rel_name r = platformReleaseName → is_Some (parsed_platform (Ver:=Ver) (rel_version r)).

(** The metadata of the image names components only: where its file is, it is a
    regular file, and what its text parses to does not name the platform. *)
Definition metadata_file : path := manifestsPath ++ ["component_metadata.yaml"].

Definition image_metadata (UnmarshalMetadata : string → result componentMetadata) (s : os) : Prop :=
  ∀ n, os_nodes s !! metadata_file = Some n → ∃ c, n = File c ∧
    ∀ md, UnmarshalMetadata c = Ok md → platformReleaseName ∉ (meta_Name <$> meta_Releases md).

(** An action that leaves the operator's files, the spec and the releases alone,
    as those of the framework do. *)
Definition minds_own {O K C Ver} (a : action O K C Ver) : Prop := ∀ rr,
  rr_os (a rr).2 = rr_os rr ∧ Spec (rr_instance (a rr).2) = Spec (rr_instance rr) ∧
  Releases (Status (rr_instance (a rr).2)) = Releases (Status (rr_instance rr)).

(** ** Lemmas *)

Section steady.
Context {O V A K C Ver W : Type} `{!Objects O V, !ApiErrors, !CtrlClient K, !DynamicClient O K,
  !PlatformUtils O K, !ConditionManager C, !Semver Ver, !YamlMaps A, !TLSTables, !Kustomize O, !KustomizeReads O,
  !Framework O K C Ver W}.
Context (Quote : string → string) (range_src range_dst : gmap string string → list (string * string))
  (UnmarshalMetadata : string → result componentMetadata).
Context (s0 : os).

(** The files stay confined, and then the releases stay well typed, when the
    metadata of the image names components only. *)
Definition steady (rr rr' : request O K C Ver) : Prop :=
  confined s0 workDir rr rr' ∧
  (contained workDir s0 (rr_os rr) → image_metadata UnmarshalMetadata s0 →
   well_typed Ver (Releases (Status (rr_instance rr))) → well_typed Ver (Releases (Status (rr_instance rr')))).

#[export] Instance steady_refl : Reflexive steady.
Proof. intros rr. split; [reflexivity|done]. Qed.
#[export] Instance steady_trans : Transitive steady.
Proof. intros r1 r2 r3 [A1 B1] [A2 B2]. split; [by transitivity r2|auto]. Qed.

Lemma minds_own_steady (a : action O K C Ver) : minds_own a → preserves steady a.
Proof.
  intros Ha rr. destruct (Ha rr) as (Hf & _ & Hi). split; [unfold confined; by rewrite Hf|by rewrite Hi].
Qed.

Lemma elem_fold_put cs l r : r ∈ fold_left appendOrUpdateRelease cs l → r ∈ l ∨ r ∈ cs.
Proof.
  assert (∀ l x r, r ∈ appendOrUpdateRelease l x → r ∈ l ∨ r = x) as Hput.
  { clear. intros l x r. induction l as [|y l IH]; cbn; [set_solver|]. case_bool_decide; set_solver. }
  revert l. induction cs as [|c cs IH]; intros l; cbn [fold_left]; [by left|].
  intros [Hr|Hr]%IH; [apply Hput in Hr as [Hr|Hr]|]; set_solver.
Qed.

Lemma well_typed_put (cs l : list ComponentRelease) v : platformReleaseName ∉ names cs →
  well_typed Ver l → well_typed Ver (fold_left appendOrUpdateRelease (cs ++ platform_release (Ver:=Ver) v) l).
Proof.
  intros Hcs [Hd Hp]. split; [by apply NoDup_names_fold|]. intros r [Hr|[Hr|Hr]%elem_of_app]%elem_fold_put Hn.
  - by apply Hp.
  - destruct Hcs. rewrite <-Hn. by apply list_elem_of_fmap_2.
  - unfold platform_release in Hr. destruct (parsed_platform v) eqn:E; [|by apply elem_of_nil in Hr].
    apply list_elem_of_singleton in Hr as ->. cbn. by rewrite E.
Qed.

(** The metadata file is never written: what is read of it names components. *)
Lemma metadata_components s : contained workDir s0 s → image_metadata UnmarshalMetadata s0 →
  platformReleaseName ∉ names (metadata_releases UnmarshalMetadata manifestsPath s).
Proof.
  intros (_ & Hn & _) Himage. unfold metadata_releases.
  destruct (getComponentReleases UnmarshalMetadata manifestsPath s) as [[l|e] s'] eqn:E; cbn [fst];
    [|apply not_elem_of_nil].
  apply bind_ok_inv in E as (md & s1 & Hmd & [= <- _]). apply bind_ok_inv in Hmd as (c & s2 & Hc & Hmd).
  unfold wrapping, lift in Hmd. injection Hmd as Hmd _. apply wrap_err_ok in Hmd.
  unfold wrapping in Hc. destruct (ReadFile _ s) as [r s3] eqn:Er. injection Hc as Hr <-. apply wrap_err_ok in Hr as ->.
  assert (os_nodes s0 !! metadata_file = Some (File c)) as Hfile.
  { unfold ReadFile in Er. apply bind_ok_inv in Er as ([] & s4 & [Es _]%syscall_run & Er).
    destruct (Hn metadata_file eq_refl) as [Hsame|([r Hrel] & _)]; [|discriminate Hrel].
    change (GoOS.Join manifestsPath "component_metadata.yaml") with metadata_file in Er. rewrite <-Hsame, <-Es.
    assert (∀ t, os_nodes s4 !! metadata_file ≠ Some (Symlink t)) as Hlink.
    { intros t Ht. rewrite Es, Hsame in Ht. apply Himage in Ht as (c' & [=] & _). }
    rewrite (bind_ok _ _ _ _ _ (follow_id "open" metadata_file s4 Hlink)) in Er. unfold node_at in Er.
    apply bind_ok_inv in Er as (n & s5 & [= <- <-] & Er). destruct (os_nodes s4 !! metadata_file) as [[]|]; try done.
    apply bind_ok_inv in Er as ([] & s5 & _ & [= <- _]). done. }
  apply Himage in Hfile as (c' & [= <-] & Hnames). intros Hin. apply (Hnames _ Hmd).
  unfold names in Hin. by rewrite <-list_fmap_compose in Hin.
Qed.

Lemma getComponentReleases_frame p : preserves (frame []) (getComponentReleases UnmarshalMetadata p).
Proof.
  apply preserves_bind; [apply _| |by intros ? ?].
  apply preserves_bind; [apply _|apply preserves_wrapping; auto with trainer|].
  intros c. apply preserves_wrapping. by intros ?.
Qed.

Lemma updateReleases_steady :
  preserves steady (updateReleases (O:=O) (K:=K) (C:=C) (Ver:=Ver) UnmarshalMetadata manifestsPath).
Proof.
  intros rr. pose proof (updateReleases_run UnmarshalMetadata manifestsPath rr) as Hrun. cbn zeta in Hrun.
  destruct (getPlatformVersion _ (rr_cluster rr)) as [[v|e] k1]; rewrite Hrun; cbn [snd]; (split; rrsimpl).
  1,3: intros Hc; apply (frame_keeps _ _ _ (getComponentReleases_frame manifestsPath)), Hc.
  all: cbn [SetReleaseStatus Status Releases]; intros Hc Himage Hw; pose proof (metadata_components _ Hc Himage) as Hnames.
  - by apply well_typed_put.
  - pose proof (well_typed_put _ _ "" Hnames Hw) as H'.
    unfold platform_release, parsed_platform in H'. by rewrite bool_decide_eq_true_2 in H'.
Qed.

Lemma renderManifests_instance m (rr : request O K C Ver) :
  rr_instance (renderManifests (A:=A) Quote range_src range_dst m rr).2 = rr_instance rr.
Proof.
  unfold renderManifests, gets, wrapping. unfold mbind, M_bind. rewrite on_client_run.
  destruct (DetectClusterType (rr_cluster rr)) as [[ct|e] k1]; cbn [fst snd wrap_err]; [|done].
  pose proof (render_sets_appends (A:=A) Quote range_src range_dst m
    (resourceSets m (resolveNamespace (rr_instance rr)) (bool_decide (ct = ClusterTypeOpenShift)))
    (set_cluster k1 rr)) as Hp. destruct (forM _ _ _) as [[[]|e] rr2]; by destruct Hp as (_ & Hi & _).
Qed.

Lemma renderManifests_steady m : a_workDir m = workDir →
  preserves steady (renderManifests (A:=A) (K:=K) (C:=C) (Ver:=Ver) Quote range_src range_dst m).
Proof.
  intros Hw rr. split; [|by rewrite renderManifests_instance].
  pose proof (renderManifests_confined (A:=A) (K:=K) (C:=C) (Ver:=Ver) Quote range_src range_dst s0 m rr) as Hc.
  by rewrite Hw in Hc.
Qed.

Lemma recovery_steady (a : action O K C Ver) : preserves steady a → preserves steady (withImmutableFieldRecovery a).
Proof.
  intros Ha. apply preserves_bind; [apply _|by apply preserves_try|]. intros [[]|e]; [by intros rr|].
  destruct (negb _); [by intros rr|]. apply preserves_bind; [apply _|by intros rr|]. intros l.
  apply preserves_bind; [apply _| |by intros []].
  intros rr. rewrite on_client_run. split; [by intros ?|done].
Qed.

Lemma on_client_steady {B} (a : M K B) : preserves steady (on_client (O:=O) (C:=C) (Ver:=Ver) a).
Proof. intros rr. rewrite on_client_run. split; [by intros ?|done]. Qed.

Context (Hdeploy : minds_own (fwdeploy_NewAction (O:=O) (K:=K) (C:=C) (Ver:=Ver) (W:=W) deploy_options))
  (Hdeployments : minds_own (fwdeployments_NewAction (O:=O) (K:=K) (C:=C) (Ver:=Ver) (W:=W) resolveNamespace))
  (Hgc : minds_own (fwgc_NewAction (O:=O) (K:=K) (C:=C) (Ver:=Ver) (W:=W) resolveNamespace gc_action_options)).

Lemma actions_steady profile a :
  a ∈ prepare_actions (A:=A) Quote range_src range_dst UnmarshalMetadata (reconciler_config profile) ++ deploy_actions (W:=W) →
  preserves steady a.
Proof.
  intros Ha. cbn in Ha.
  repeat (apply elem_of_cons in Ha as [->|Ha]); [..|by apply elem_of_nil in Ha].
  - intros rr. destruct (checkDependencies_ends (rr_conditions rr) rr eq_refl) as (_ & Ho & Hi & _).
    split; [unfold confined; by rewrite Ho|by rewrite Hi].
  - intros rr. pose proof (ensureNamespace_run rr) as Hr. cbn zeta in Hr.
    destruct (GetNamespaceObj _ _) as [g k1], (CreateNamespace _ _ k1) as [cr k2]. rewrite Hr.
    destruct g as [|e]; [|destruct (IsNotFound e)]; (split; [by intros ?|done]).
  - apply updateReleases_steady.
  - by apply renderManifests_steady.
  - by apply recovery_steady, minds_own_steady.
  - by apply minds_own_steady.
  - apply on_client_steady.
  - by apply minds_own_steady.
Qed.

End steady.

(** Starting the process writes nothing but the work directory. *)
Section starting.
Context {O V A K C Ver W X Cert : Type} `{!Objects O V, !ApiErrors, !CtrlClient K, !DynamicClient O K,
  !PlatformUtils O K, !ConditionManager C, !Semver Ver, !YamlMaps A, !TLSTables, !Kustomize O,
  !FrameworkTLS W X, !ControllerRuntime W X Cert, !Framework O K C Ver W}.
Context (s0 : os).

Definition host_kept (a b : os * W) : Prop := keeps s0 workDir a.1 b.1.

#[local] Instance host_kept_refl : Reflexive host_kept.
Proof. intros a. unfold host_kept. reflexivity. Qed.
#[local] Instance host_kept_trans : Transitive host_kept.
Proof. intros a b c H1 H2. unfold host_kept in *. by transitivity (b.1). Qed.

Lemma on_fw_kept {B} (m : M W B) : preserves host_kept (on_fw m).
Proof. intros [s w]. unfold on_fw, zoom. cbn. destruct (m w). by intros ?. Qed.

Lemma on_host_kept {B} (m : M os B) : preserves (keeps s0 workDir) m → preserves host_kept (on_host (W:=W) m).
Proof. intros Hm [s w]. unfold on_host, zoom. cbn. specialize (Hm s). by destruct (m s). Qed.

Lemma prepare_paths_kept : preserves (keeps s0 workDir) prepare_paths.
Proof.
  assert (∀ what p, preserves (keeps s0 workDir) (check_template what p)) as Hc.
  { intros what p. apply frame_keeps, preserves_bind; [apply _|auto with trainer|]. intros []; by intros ?. }
  unfold prepare_paths. repeat (apply preserves_bind; [apply _|apply Hc|intros []]).
  apply preserves_wrapping. unfold MkdirAll. rewrite <-(app_nil_r workDir) at 2 3. apply mkdir_take_keeps.
Qed.

Lemma NewReconciler_kept Quote range_src range_dst Unmarshal cfg :
  preserves host_kept (NewReconciler (O:=O) (A:=A) (K:=K) (C:=C) (Ver:=Ver) (W:=W) Quote range_src range_dst Unmarshal cfg).
Proof.
  unfold NewReconciler. apply preserves_bind; [apply _|apply on_fw_kept|]. intros [].
  apply preserves_bind; [apply _|apply preserves_wrapping, on_fw_kept|]. intros [].
  apply preserves_bind; [apply _| |by intros ? ?]. apply preserves_try.
  apply (on_host_kept (readBootstrapRelease Unmarshal Quote (ManifestsPath cfg))), frame_keeps.
  apply preserves_bind; [apply _| |].
  - apply preserves_bind; [apply _|apply preserves_wrapping; auto with trainer|].
    intros c. apply preserves_wrapping. by intros ?.
  - intros md. destruct (meta_Releases md) as [|x l]; [by intros ?|].
    apply preserves_bind; [apply _|apply preserves_wrapping; by intros ?|by intros ? ?].
Qed.

Lemma main_kept Quote range_src range_dst Unmarshal X509KeyPair abs Start fl :
  preserves host_kept (main (O:=O) (A:=A) (K:=K) (C:=C) (Ver:=Ver) (X:=X) (Cert:=Cert) Quote range_src range_dst
    Unmarshal X509KeyPair abs Start fl).
Proof.
  unfold main. repeat (apply preserves_bind; [apply _|first
    [apply on_fw_kept | apply preserves_wrapping, on_fw_kept | apply on_host_kept, prepare_paths_kept
    | apply preserves_wrapping, NewReconciler_kept | by intros ?]|intros ?]).
  apply preserves_wrapping, on_fw_kept.
Qed.

End starting.

Section steps.
Context {O V A K C Ver W X Cert : Type} `{!Objects O V, !ApiErrors, !CtrlClient K, !DynamicClient O K,
  !PlatformUtils O K, !ConditionManager C, !Semver Ver, !YamlMaps A, !TLSTables, !Kustomize O, !KustomizeReads O,
  !FrameworkTLS W X, !ControllerRuntime W X Cert, !Framework O K C Ver W, !ActionRunner O K C Ver}.
Context (Quote : string → string) (range_src range_dst : gmap string string → list (string * string))
  (UnmarshalMetadata : string → result componentMetadata)
  (X509KeyPair : string → string → result Cert) (abs : string → path).

#[local] Abbreviation steps := (step (O:=O) (A:=A) (K:=K) (C:=C) (Ver:=Ver) (W:=W) (X:=X) Quote range_src range_dst
  UnmarshalMetadata X509KeyPair abs).

Context (Hdeploy : minds_own (fwdeploy_NewAction (O:=O) (K:=K) (C:=C) (Ver:=Ver) (W:=W) deploy_options))
  (Hdeployments : minds_own (fwdeployments_NewAction (O:=O) (K:=K) (C:=C) (Ver:=Ver) (W:=W) resolveNamespace))
  (Hgc : minds_own (fwgc_NewAction (O:=O) (K:=K) (C:=C) (Ver:=Ver) (W:=W) resolveNamespace gc_action_options)).

Lemma built_reconcile s0 r : built (O:=O) (A:=A) (K:=K) (C:=C) (Ver:=Ver) (W:=W) Quote range_src range_dst UnmarshalMetadata r →
  preserves (steady (O:=O) (K:=K) (C:=C) (Ver:=Ver) UnmarshalMetadata s0) (reconcile r) ∧ finalize r = cleanup_action (W:=W).
Proof.
  intros (profile & s & s' & [Ha Hf]%NewReconciler_actions). split; [|done].
  intros rr. unfold reconcile. rewrite run_actions_forM, Ha. revert rr.
  apply forM_preserves; [apply _..|]. intros a Hin.
  exact (actions_steady Quote range_src range_dst UnmarshalMetadata s0 Hdeploy Hdeployments Hgc profile a Hin).
Qed.

(** One step keeps the files confined and the releases well typed. *)
Lemma step_keeps s0 w w' : steps w w' →
  (contained workDir s0 (w_os w) → contained workDir s0 (w_os w')) ∧
  (contained workDir s0 (w_os w) → image_metadata UnmarshalMetadata s0 →
   well_typed Ver (Releases (Status (w_trainer w))) → well_typed Ver (Releases (Status (w_trainer w')))).
Proof.
  intros [Start fl ws res s' ws' rel Hm|r c res rr t Hb Hr Hs|r c res rr Hb Hf|spec|name spec|k|fs]; cbn.
  - split; [|done]. pose proof (main_kept (O:=O) (A:=A) (K:=K) (C:=C) (Ver:=Ver) (W:=W) (X:=X) s0 Quote range_src range_dst
      UnmarshalMetadata X509KeyPair abs Start fl (w_os w, ws)) as Hk. rewrite Hm in Hk. exact Hk.
  - destruct (built_reconcile s0 r Hb) as [Hp _]. specialize (Hp (request_of c w)). rewrite Hr in Hp.
    destruct Hp as [Hc Ht]. split; [exact Hc|]. intros Hin Himage Hw. destruct Hs as (_ & _ & [-> | ->]); [done|by apply Ht].
  - destruct (built_reconcile s0 r Hb) as [_ Hfin]. rewrite Hfin in Hf. unfold cleanup_action, gets in Hf.
    unfold mbind, M_bind in Hf. rewrite on_client_run in Hf. injection Hf as _ <-. by split.
  - by split.
  - split; [done|]. intros _ _ _. split; [apply base.NoDup_nil_2|]. intros r Hr. by apply elem_of_nil in Hr.
  - by split.
  - by split.
Qed.

Lemma steps_keep s0 w w' : rtc steps w w' →
  (contained workDir s0 (w_os w) → contained workDir s0 (w_os w')) ∧
  (contained workDir s0 (w_os w) → image_metadata UnmarshalMetadata s0 →
   well_typed Ver (Releases (Status (w_trainer w))) → well_typed Ver (Releases (Status (w_trainer w')))).
Proof.
  induction 1 as [w|w w1 w' Hs _ [IH1 IH2]]; [done|]. destruct (step_keeps s0 _ _ Hs) as [S1 S2]. auto.
Qed.

End steps.

(** ** Properties *)

Section properties.
Context {O V A K C Ver W X Cert : Type} `{!Objects O V, !ApiErrors, !CtrlClient K, !DynamicClient O K,
  !PlatformUtils O K, !ConditionManager C, !Semver Ver, !YamlMaps A, !TLSTables, !Kustomize O, !KustomizeReads O,
  !FrameworkTLS W X, !ControllerRuntime W X Cert, !Framework O K C Ver W, !ActionRunner O K C Ver}.
Context (Quote : string → string) (range_src range_dst : gmap string string → list (string * string))
  (UnmarshalMetadata : string → result componentMetadata)
  (X509KeyPair : string → string → result Cert) (abs : string → path).

#[local] Abbreviation steps := (step (O:=O) (A:=A) (K:=K) (C:=C) (Ver:=Ver) (W:=W) (X:=X) Quote range_src range_dst
  UnmarshalMetadata X509KeyPair abs).

(** C4: The operator writes nothing but its work directory.  In any sequence of
    starts, reconciliations and finalizations, with any resource, any behaviour
    of the cluster and any failing system calls, every file outside
    /opt/manifests-work is as it was at the beginning (but for missing ancestors
    of it, which may be made as directories), the templates in particular; and
    no symbolic link ever appears in the work directory, through which a later
    write could get out of it. *)
Theorem operator_contained (w w' : world K Ver)
    (Hdeploy : minds_own (fwdeploy_NewAction (O:=O) (K:=K) (C:=C) (Ver:=Ver) (W:=W) deploy_options))
    (Hdeployments : minds_own (fwdeployments_NewAction (O:=O) (K:=K) (C:=C) (Ver:=Ver) (W:=W) resolveNamespace))
    (Hgc : minds_own (fwgc_NewAction (O:=O) (K:=K) (C:=C) (Ver:=Ver) (W:=W) resolveNamespace gc_action_options))
    (Hlinks : ∀ r t, os_nodes (w_os w) !! (workDir ++ r) ≠ Some (Symlink t))
    (Hsteps : rtc steps w w') :
  contained workDir (w_os w) (w_os w').
Proof.
  eapply steps_keep; [exact Hdeploy|exact Hdeployments|exact Hgc|exact Hsteps|].
  split_and!; [done|by left|done].
Qed.

(** C16: The status stays well typed.  From an image whose metadata file names
    components only, as the one of the repository does, in every state that the
    operator reaches the releases in the status of the resource have distinct names, as the list
    type of the API demands, and the release of the platform, if there is one,
    has a version that parses: whatever a ConfigMap says, a failed update of the
    status does, or in whatever order the steps come. *)
Theorem status_well_typed (w w' : world K Ver)
    (Himage : image_metadata UnmarshalMetadata (w_os w))
    (Hlinks : ∀ r t, os_nodes (w_os w) !! (workDir ++ r) ≠ Some (Symlink t))
    (Hdeploy : minds_own (fwdeploy_NewAction (O:=O) (K:=K) (C:=C) (Ver:=Ver) (W:=W) deploy_options))
    (Hdeployments : minds_own (fwdeployments_NewAction (O:=O) (K:=K) (C:=C) (Ver:=Ver) (W:=W) resolveNamespace))
    (Hgc : minds_own (fwgc_NewAction (O:=O) (K:=K) (C:=C) (Ver:=Ver) (W:=W) resolveNamespace gc_action_options))
    (Hstart : well_typed Ver (Releases (Status (w_trainer w))))
    (Hsteps : rtc steps w w') :
  well_typed Ver (Releases (Status (w_trainer w'))).
Proof.
  apply (steps_keep _ _ _ _ _ _ Hdeploy Hdeployments Hgc (w_os w) w w' Hsteps); [|done..].
  split_and!; [done|by left|done].
Qed.

End properties.

(** *** Witnesses *)

#[local] Existing Instances ex_framework ex_semver ex_yaml ex_kustomize ex_tables ex_runtime ex_main_fw ex_runner.

#[local] Instance ex_kustomize_reads : KustomizeReads obj.
Proof. by split; intros p opts s. Defined.

(** A cluster with JobSet and the ConfigMap of the platform; the process starts,
    and the copy of the template fails at the first reconciliation. *)
Definition ex_ready_cluster : cluster :=
  Cluster (λ _, ∅) (λ _, true) ∅
    {[("apps", platformConfigMapName) := {[platformVersionKey := "3.1.0"]}]} [] "Kubernetes" [jobSetGK] ∅ [] [].

Definition ex_world : world cluster string :=
  World ex_ready_cluster ex_fresh
    (MkTrainer TrainerInstanceName (MkSpec "apps" None None) (MkStatus "" [] [])) (MkPlatformRelease "" "").

#[local] Abbreviation ex_conditions := (gmap string (bool * string * string)).

Definition ex_start : result unit * (os * LoadResult) :=
  main (O:=obj) (V:=json) (K:=cluster) (C:=ex_conditions) (Ver:=string) (A:=string)
    id map_to_list map_to_list ex_metadata (λ c _, Ok c) (λ d, [d]) (mret tt) default_flags
    (w_os ex_world, ex_load "StrictAllComponents").

Definition ex_world_1 : world cluster string :=
  World (w_cluster ex_world) ex_start.2.1 (w_trainer ex_world) (MkPlatformRelease "Kubeflow Trainer" "2.3.0").

Definition ex_io_faults : list (option fault) :=
  replicate 30 None ++ [Some (Fault (ErrForeign "EIO" "input/output error") 0)].

Definition ex_world_2 : world cluster string :=
  World (w_cluster ex_world_1) (set_faults ex_io_faults (w_os ex_world_1)) (w_trainer ex_world_1) (w_release ex_world_1).

Definition ex_built : result (Reconciler obj cluster ex_conditions string) * (os * LoadResult) :=
  NewReconciler (V:=json) (A:=string) id map_to_list map_to_list ex_metadata (reconciler_config ex_profile)
    (ex_fresh, ex_load "StrictAllComponents").

Definition ex_the_reconciler : Reconciler obj cluster ex_conditions string :=
  match ex_built.1 with
  | Ok r => r
  | Err _ => MkReconciler (ReconcilerFor jobSetOperatorGVK) (MkPlatformRelease "" "")
  end.

Lemma ex_built_ok : ∃ s', ex_built = (Ok ex_the_reconciler, s').
Proof.
  unfold ex_the_reconciler. assert (is_ok ex_built.1 = true) as Hok by by vm_compute.
  destruct ex_built as [[r|e] s']; [by exists s'|done].
Qed.

Lemma ex_is_built : built (V:=json) (A:=string) (W:=LoadResult) id map_to_list map_to_list ex_metadata ex_the_reconciler.
Proof. exists ex_profile, (ex_fresh, ex_load "StrictAllComponents"). exact ex_built_ok. Qed.

Definition ex_run : result unit * request obj cluster ex_conditions string :=
  reconcile ex_the_reconciler (request_of ∅ ex_world_2).

Definition ex_world_3 : world cluster string :=
  World (rr_cluster ex_run.2) (rr_os ex_run.2) (rr_instance ex_run.2) (rr_release ex_run.2).

Lemma pair_of_pairs {P1 P2 P3} (p : P1 * (P2 * P3)) : p = (p.1, (p.2.1, p.2.2)).
Proof. by destruct p as [? []]. Qed.

Lemma ex_reached : rtc (step (O:=obj) (V:=json) (A:=string) (K:=cluster) (C:=ex_conditions) (Ver:=string)
  (W:=LoadResult) (X:=list string) (Cert:=string) id map_to_list map_to_list ex_metadata (λ c _, Ok c) (λ d, [d])) ex_world ex_world_3.
Proof.
  apply rtc_l with ex_world_1.
  { apply (step_start _ _ _ _ _ _ ex_world (mret tt) default_flags (ex_load "StrictAllComponents") ex_start.1 _ ex_start.2.2).
    exact (pair_of_pairs ex_start). }
  apply rtc_l with ex_world_2; [apply step_faults|]. apply rtc_once.
  apply (step_reconcile _ _ _ _ _ _ ex_world_2 ex_the_reconciler ∅ ex_run.1).
  - exact ex_is_built.
  - apply surjective_pairing.
  - split_and!; [by vm_compute|by vm_compute|by right].
Qed.

Lemma ex_minds_own : minds_own (mret tt : action obj cluster ex_conditions string).
Proof. by intros rr. Qed.

Lemma ex_no_links r t : os_nodes (w_os ex_world) !! (workDir ++ r) ≠ Some (Symlink t).
Proof.
  destruct r as [|x r]; [by vm_compute|]. change (ex_nodes !! (workDir ++ x :: r) ≠ Some (Symlink t)). by rewrite ex_below.
Qed.

Lemma operator_contained_witness :
  is_ok ex_run.1 = false ∧ contained workDir ex_fresh (w_os ex_world_3) ∧
  os_nodes (w_os ex_world_3) !! (manifestsPath ++ ["rhoai"; "params.env"]) = Some (File "image=x").
Proof.
  assert (contained workDir (w_os ex_world) (w_os ex_world_3)) as Hc.
  { apply (operator_contained (O:=obj) (V:=json) (A:=string) (K:=cluster) (C:=ex_conditions) (Ver:=string)
      (W:=LoadResult) (X:=list string) (Cert:=string) id map_to_list map_to_list ex_metadata (λ c _, Ok c) (λ d, [d])).
    - exact ex_minds_own.
    - exact ex_minds_own.
    - exact ex_minds_own.
    - exact ex_no_links.
    - exact ex_reached. }
  split; [by vm_compute|]. split; [exact Hc|].
  destruct Hc as (_ & Hn & _). destruct (Hn (manifestsPath ++ ["rhoai"; "params.env"]) eq_refl) as [-> |(_ & H & _)];
    [reflexivity|discriminate H].
Defined.

Lemma status_well_typed_witness :
  names (Releases (Status (w_trainer ex_world_3))) = ["Kubeflow Trainer"; platformReleaseName] ∧
  well_typed string (Releases (Status (w_trainer ex_world_3))).
Proof.
  split; [by vm_compute|].
  apply (status_well_typed (O:=obj) (V:=json) (A:=string) (K:=cluster) (C:=ex_conditions) (Ver:=string)
      (W:=LoadResult) (X:=list string) (Cert:=string) id map_to_list map_to_list ex_metadata (λ c _, Ok c) (λ d, [d]) ex_world).
  - intros n [= <-]. exists "releases". split; [done|]. intros md [= <-]. by apply (bool_decide_unpack _).
  - exact ex_no_links.
  - exact ex_minds_own.
  - exact ex_minds_own.
  - exact ex_minds_own.
  - split; [apply base.NoDup_nil_2|]. intros r Hr. cbn in Hr. by apply elem_of_nil in Hr.
  - exact ex_reached.
Defined.
