(* ===== verification/Liveness.v ===== *)
(** The operator is never stuck: from a fresh container, whatever the API server
    did before, a reconciliation on a healthy cluster succeeds. *)

From S2P Require Import Prelude GoStrings GoOS Params Kube ApiTypes KubeStore Request Namespace Dependencies.
From S2P Require Import Releases Deploy OperandTLS Workdir CopySafety Manifests Rendering Containment Interruption Image.
From S2P Require Import TlsProfile Flags Runtimes Reconciler Main System.
Open Scope string_scope.
Open Scope nat_scope.
Open Scope list_scope.

(** ** Specification *)

Section files.
Context (m : trainerActions) (im : os).

(** The work directory of a set is a copy of its template, or can be made, with
    parameters that can be read and are those of the image once overridden. *)
Definition set_ready (rs : resourceSet) (s : os) : Prop :=
  ∃ c params, parse c = Ok params ∧ current im rs params ∧
    ((prepared m rs c s ∧ copied m im rs s) ∨ unprepared m rs c s).

(** The files are in order: no system call is to fail, the templates are those of
    the image, and every set is ready. *)
Definition ready (s : os) : Prop :=
  quiet s ∧ wf_tree (os_nodes s) ∧ holds_image m im s ∧
  (∀ q, is_Some (Rel q (a_workDir m)) → os_nodes s !! q = None ∨ os_nodes s !! q = Some Dir) ∧
  ∀ rs, is_set m rs → set_ready rs s ∧ wf_params (env_overrides s (rs_paramMap rs)).

(** Only another set's work directory changes, and ancestors are made. *)
Definition spares (rs : resourceSet) (s s' : os) : Prop :=
  os_env s' = os_env s ∧ ∀ q, os_nodes s' !! q = os_nodes s !! q ∨
    (is_Some (Rel q (a_workDir m)) ∧ os_nodes s' !! q = Some Dir) ∨
    ∃ sub, sub ≠ rs_subDir rs ∧ is_Some (Rel (GoOS.Join (a_workDir m) sub) q).

End files.

(** ** Lemmas *)

Lemma Rel_longer p x r : Rel (p ++ x :: r) p = None.
Proof. apply Rel_None. intros r' E%(f_equal length). rewrite !length_app in E. cbn in E. lia. Qed.

(** *** Well-formed trees *)

Lemma with_copy_wf mm mm' src dst : wf_tree mm → Rel dst src = None →
  (∀ q, mm' !! q = with_copy mm src dst q) → wf_tree mm'.
Proof.
  intros [Hr Hw] Hd Hm. assert (dst ≠ []) as Hne by by intros ->.
  split.
  - rewrite Hm. unfold with_copy. by destruct dst as [|x dst].
  - intros p x n. rewrite !Hm. unfold with_copy. destruct (Rel dst (p ++ [x])) as [rel|] eqn:E.
    + apply Rel_Some in E. destruct rel as [|y rel _] using rev_ind.
      * rewrite app_nil_r in E. intros _. assert (Rel dst p = None) as -> by (rewrite <-E; apply Rel_longer).
        rewrite bool_decide_eq_true_2; [done|]. exists [x]. by apply Rel_Some.
      * rewrite app_assoc in E. apply app_inj_tail in E as [-> <-]. rewrite Rel_app.
        intros Hn. assert (is_Some (mm !! ((src ++ rel) ++ [x]))) as [n' Hn'].
        { rewrite <-app_assoc. destruct (mm !! (src ++ rel ++ [x])); [by eexists|done]. }
        by rewrite (Hw _ _ _ Hn').
    + assert (is_Some (Rel (p ++ [x]) dst) → is_Some (Rel p dst)) as Hup.
      { intros [r Hr'%Rel_Some]. exists (x :: r). apply Rel_Some. by rewrite Hr', <-app_assoc. }
      assert (Rel dst p = None) as ->.
      { rewrite Rel_None in E |- *. intros r ->. apply (E (r ++ [x])). by rewrite <-app_assoc. }
      case_bool_decide as Hx; intros Hn.
      * by rewrite bool_decide_eq_true_2 by auto.
      * case_bool_decide; [done|]. by eapply Hw.
Qed.

(** A file in place of a file, and a leaf removed. *)
Lemma rewritten_wf range p params s s' : wf_tree (os_nodes s) → param_place (os_nodes s) p →
  rewritten range p params s s' → wf_tree (os_nodes s').
Proof.
  intros Hwf [[c Hc] Ht] (_ & _ & Hn). cbn zeta in Ht. pose proof Hwf as [Hr Hw].
  assert (os_nodes s !! path_append p ".tmp" ≠ Some Dir) as Htd by (destruct Ht as [[c' ->]|[-> _]]; done).
  rewrite Hn. split.
  - rewrite lookup_insert_ne, lookup_delete_ne; congruence.
  - intros q x n Hq.
    assert (os_nodes s !! q = Some Dir) as Hqd.
    { destruct (decide (q ++ [x] = p)) as [<-|Hp]; [by eapply Hw|]. rewrite lookup_insert_ne in Hq by done.
      apply lookup_delete_Some in Hq as [_ Hq]. by eapply Hw. }
    rewrite lookup_insert_ne, lookup_delete_ne by congruence. done.
Qed.

Section ready.
Context {O V A : Type} `{!Objects O V, !YamlMaps A, !TLSTables, !Kustomize O} (Quote : string → string).
Context (range_src range_dst : gmap string string → list (string * string)).
Context (m : trainerActions) (Hlayout : laid_out m) (im : os).

Lemma spares_below rs s s' r : spares m rs s s' → os_nodes s' !! (set_work m rs ++ r) = os_nodes s !! (set_work m rs ++ r).
Proof.
  intros [_ Hn]. destruct (Hn (set_work m rs ++ r)) as [Hsame|[[[r' Hr] _]|(sub & Hsub & [r' Hr])]]; [done|..]; exfalso.
  - apply Rel_Some in Hr. unfold set_work, GoOS.Join in Hr. apply (f_equal length) in Hr.
    rewrite !length_app in Hr. cbn in Hr. lia.
  - apply Rel_Some in Hr. unfold set_work, GoOS.Join in Hr. rewrite <-!app_assoc in Hr.
    apply app_inv_head in Hr. cbn in Hr. congruence.
Qed.

Lemma spares_outside rs s s' q : spares m rs s s' → Rel q (a_workDir m) = None → Rel (a_workDir m) q = None →
  os_nodes s' !! q = os_nodes s !! q.
Proof.
  intros [_ Hn] H1 H2. destruct (Hn q) as [Hsame|[[[r Hr] _]|(sub & _ & [r Hr])]]; [done|congruence|]. exfalso.
  apply Rel_Some in Hr. unfold GoOS.Join in Hr. rewrite <-app_assoc in Hr. by rewrite Hr, Rel_app in H2.
Qed.

Lemma spares_template rs s s' r : is_set m rs → spares m rs s s' →
  os_nodes s' !! (rs_templatePath rs ++ r) = os_nodes s !! (rs_templatePath rs ++ r).
Proof. intros Hin Hsp. apply (template_kept m); [done..|]. intros q. by apply (spares_outside rs). Qed.

Lemma spares_place rs s s' root : (∀ r, os_nodes s' !! (root ++ r) = os_nodes s !! (root ++ r)) →
  param_place (os_nodes s) (params_of rs root) → param_place (os_nodes s') (params_of rs root).
Proof.
  intros Hsame. unfold param_place. cbn zeta. rewrite params_tmp, params_app.
  rewrite !(app_assoc root (overlay_of rs [])), !parent_snoc, <-!app_assoc, !Hsame. done.
Qed.

(** What spares a set keeps it ready. *)
Lemma spares_ready rs s s' : is_set m rs → quiet s' → wf_tree (os_nodes s') → spares m rs s s' →
  set_ready m im rs s → set_ready m im rs s'.
Proof.
  intros Hin Hq Hwf Hsp (c & params & Hparse & Hcur & Hr). exists c, params. split; [done|]. split; [done|].
  pose proof (spares_below rs s s') as Hb. pose proof (spares_template rs s s') as Ht.
  destruct Hr as [[(_ & Hw & Ho & Hc & Hp) Hcp]|(_ & Hready & Hc & Hp)]; [left|right].
  - split.
    2:{ revert Hcp. apply copied_kept. intros q _ _ [r ->%Rel_Some]. by apply Hb. }
    split_and!; [done| | | |].
    + specialize (Hb [] Hsp). rewrite app_nil_r in Hb. by rewrite Hb.
    + rewrite (overlay_app rs (set_work m rs)) in Ho |- *. by rewrite Hb.
    + rewrite (params_app rs (set_work m rs)) in Hc |- *. by rewrite Hb.
    + eapply spares_place; [|done]. intros r. by apply Hb.
  - destruct Hready as (_ & Hs & H1 & H2 & Hbelow & Hanc). split; [done|]. split.
    + split_and!; [done| |done|done| |].
      * specialize (Ht [] Hin Hsp). rewrite app_nil_r in Ht. by rewrite Ht.
      * intros r. pose proof (Hb [] Hsp) as Hb0. rewrite app_nil_r in Hb0. rewrite Hb, Hb0 by done. apply Hbelow.
      * intros q Hqa. destruct Hsp as [_ Hn]. destruct (Hn q) as [-> |[[_ ->]|(sub & Hsub & [r Hr])]]; [by apply Hanc|by right|].
        exfalso. apply Rel_Some in Hr. destruct Hqa as [r' Hr'%Rel_Some]. rewrite Hr in Hr'. unfold set_work, GoOS.Join in Hr'.
        rewrite <-!app_assoc in Hr'. apply app_inv_head in Hr'. cbn in Hr'. congruence.
    + split.
      * rewrite (params_app rs (rs_templatePath rs)) in Hc |- *. by rewrite Ht.
      * eapply spares_place; [|done]. intros r. by apply Ht.
Qed.

Context (Hrs : enumerates range_src) (Hrd : enumerates range_dst).

Lemma prepare_ready rs s : is_set m rs → wf_params (rs_staticParams rs) → ready m im s →
  ∃ s', prepare_set range_src range_dst m rs s = (Ok tt, s') ∧ rendered_copy m im rs s' ∧ ready m im s' ∧ os_env s' = os_env s.
Proof.
  intros Hin Hstatic (Hq & Hwf & Him & Hanc & Hsets). destruct (Hsets rs Hin) as [(c & params & Hparse & Hcur & Hr) Henv].
  assert (prepared m rs c s ∨ unprepared m rs c s) as Hr0 by (destruct Hr as [[? _]|?]; auto).
  destruct (prepare_from range_src range_dst m rs c params s) as (s0 & s' & Hens & Hprep & He0 & Hn0 & Hrun & Hre);
    [done..|].
  pose proof (resolved_wf rs s params c Henv Hstatic Hparse) as Hwfp.
  pose proof (prepared_rewritten _ _ _ _ _ _ _ Hprep Hre) as Hprep'.
  destruct (current_resolved im rs s params (proj1 Him) Hcur) as [Eres Hcur'].
  assert (wf_tree (os_nodes s0)) as Hwf0.
  { destruct Hn0 as [-> |Hn0]; [done|]. eapply with_copy_wf; [done| |exact Hn0]. destruct (Hlayout rs Hin) as [Hl _]. rewrite Rel_None in Hl |- *.
    intros r E. apply (Hl ([rs_subDir rs] ++ r)). unfold set_work, GoOS.Join in E. by rewrite E, <-app_assoc. }
  assert (copied m im rs s') as Hcopied.
  { eapply copied_rewritten; [exact Hre|]. destruct Hr as [[Hp Hcp]|Hun].
    - rewrite (prepared_keeps m rs c s Hp) in Hens. by injection Hens as <-.
    - destruct (ensureWorkDir_run s (rs_templatePath rs) (set_work m rs)) as (m' & Hrun' & Hm'); [apply Hun..|].
      rewrite Hens in Hrun'. injection Hrun' as ->. by apply (copied_copy m im rs s). }
  assert (∀ q, Rel (set_work m rs) q = None → os_nodes s' !! q = os_nodes s0 !! q) as Hout.
  { intros q Hqr. destruct Hre as (_ & _ & ->). rewrite lookup_insert_ne, lookup_delete_ne; [done|..]; intros <-;
      rewrite ?params_tmp, ?params_app, Rel_app in Hqr; done. }
  assert (∀ q, Rel (set_work m rs) q = None → os_nodes s' !! q = os_nodes s !! q ∨
    (is_Some (Rel q (a_workDir m)) ∧ os_nodes s' !! q = Some Dir)) as Hch.
  { intros q Hqr. rewrite Hout by done. destruct Hn0 as [-> |Hn0]; [by left|]. rewrite Hn0. unfold with_copy.
    rewrite Hqr. case_bool_decide as Ha; [right|by left]. split; [|done].
    unfold set_work, GoOS.Join in Ha. apply ancestor_snoc in Ha as [Ha| ->]; [done|].
    unfold set_work, GoOS.Join in Hqr. by rewrite Rel_self in Hqr. }
  assert (os_env s' = os_env s) as He by (destruct Hre as (_ & -> & _); done).
  assert (quiet s') as Hq' by apply Hre.
  assert (wf_tree (os_nodes s')) as Hwf' by (eapply rewritten_wf; [exact Hwf0|apply Hprep|exact Hre]).
  exists s'. split; [done|]. split.
  { split; [done|]. exists (range_dst (resolved rs s params)). rewrite <-Eres. split; [apply Hrd|done]. }
  split; [|done]. split_and!; [done|done| | |].
  - apply (holds_image_kept m im s); [done..| |done]. intros q H1 H2. destruct (Hch q) as [Hsame|[[r Hr'] _]]; [|done|congruence].
    apply Rel_None. intros r ->. unfold set_work, GoOS.Join in H2. by rewrite <-app_assoc, Rel_app in H2.
  - intros q Ha. destruct (Hch q) as [-> |[_ ->]]; [|by apply Hanc|by right].
    apply Rel_None. intros r ->. destruct Ha as [r' Ha%Rel_Some]. unfold set_work, GoOS.Join in Ha.
    apply (f_equal length) in Ha. rewrite !length_app in Ha. cbn in Ha. lia.
  - intros rs' Hin'. destruct (Hsets rs' Hin') as [Hrdy Henv']. split.
    2:{ unfold env_overrides, Getenv. by rewrite He. }
    destruct (decide (rs_subDir rs' = rs_subDir rs)) as [Hsub|Hsub].
    + eexists _, (resolved rs s params). split; [apply parse_render; [apply Hrd|done]|].
      split; [exact (same_current m im rs rs' _ Hin Hin' Hsub Hcur')|]. left.
      split; [exact (same_set m rs rs' _ _ Hin Hin' Hsub Hprep')|exact (same_copied m im rs rs' _ Hin Hin' Hsub Hcopied)].
    + apply (spares_ready rs' s); [done..| |done]. split; [done|]. intros q.
      destruct (Rel (set_work m rs) q) as [r|] eqn:E; [|destruct (Hch q E); auto].
      right. right. exists (rs_subDir rs). split; [congruence|]. by exists r.
Qed.

Context `{!KustomizeReads O}.

Lemma finish_still rs : preserves still (finish_set (A:=A) Quote m rs).
Proof.
  intros s Hq. unfold finish_set, wrapping, renderOverlay. unfold mbind, M_bind. unfold wrapping.
  match goal with |- context [kustomize_Render ?p ?o s] => pose proof (kustomize_still p o s Hq) as Hs;
    destruct (kustomize_Render p o s) as [[items|e] s1] end; cbn in Hs |- *; [|done].
  by destruct (rs_operandTLS rs).
Qed.

(** A rendering ends in a state that is ready, with the result of kustomize. *)
Lemma render_ready rs s : is_set m rs → wf_params (rs_staticParams rs) → ready m im s →
  ∃ s', renderResourceSet (A:=A) Quote range_src range_dst m rs s = ((finish_set (A:=A) Quote m rs s').1, s') ∧
    rendered_copy m im rs s' ∧ ready m im s'.
Proof.
  intros Hin Hstatic Hr. destruct (prepare_ready rs s Hin Hstatic Hr) as (s' & Hrun & Hp & Hr' & _).
  exists s'. split; [|done]. rewrite render_split. unfold mbind, M_bind. rewrite Hrun.
  pose proof (finish_still rs s' (proj1 Hr')) as Hs. destruct (finish_set (A:=A) Quote m rs s') as [r s2]. cbn in Hs. by subst.
Qed.

End ready.

(** *** Reads *)

Lemma ReadFile_still p : preserves still (ReadFile p).
Proof.
  intros s Hq. unfold ReadFile. unfold mbind, M_bind. rewrite (syscall_quiet s Hq). unfold follow.
  destruct (resolve 40 (os_nodes s) p) as [q|]; [|done]. unfold node_at, get.
  destruct (os_nodes s !! q) as [[]|]; cbn; rewrite ?(syscall_quiet s Hq); by cbn.
Qed.

Lemma getComponentReleases_still Unmarshal p : preserves still (getComponentReleases Unmarshal p).
Proof.
  intros s Hq. unfold getComponentReleases, read_metadata, wrapping, lift. unfold mbind, M_bind.
  pose proof (ReadFile_still (GoOS.Join p "component_metadata.yaml") s Hq) as Hs.
  destruct (ReadFile _ s) as [[d|e] s1]; cbn in *; [|done]. by destruct (Unmarshal d).
Qed.

(** *** The cluster *)

(** A cluster that is up, as [up] says, with type [ct]: the lookups of the
    dependency check answer and change nothing, every requirement is met, the
    calls of the other actions work (an object may be missing, or be there
    already), no runtime carries the legacy finalizer; and the cluster stays
    up. *)
Section healthy.
Context {O V K : Type} `{!Objects O V, !ApiErrors, !CtrlClient K, !DynamicClient O K, !PlatformUtils O K}.

(** The outcome of a call: a success, or an error of a kind, with the cluster still up. *)
Definition answers {B} (up : K → Prop) (benign : goerror → bool) (call : M K B) (k : K) : Prop :=
  up (call k).2 ∧ ∀ e, (call k).1 = Err e → benign e = true.

Record healthy (up : K → Prop) (ct : string) : Prop := {
  up_reads k : up k → reads_keep k;
  up_type k : up k → (DetectClusterType k).1 = Ok ct;
  up_met k r : up k → r ∈ requirements (bool_decide (ct = ClusterTypeOpenShift)) → met (facts_of ct k) r = true;
  up_get k n : up k → answers up IsNotFound (GetNamespaceObj n) k;
  up_create k n l : up k → answers up IsAlreadyExists (CreateNamespace n l) k;
  up_config k name ns : up k → answers up IsNotFound (ReaderGetConfigMap name ns) k;
  up_list k g sel : up k → answers up IsNotFound (DynList g "" sel) k ∧
    ∀ items, (DynList g "" sel k).1 = Ok items → Forall (λ o : O, legacyTrainerFinalizer ∉ GetFinalizers o) items;
}.

End healthy.

(** An action of the framework that succeeds on such a cluster, for the requests
    that it gets; it changes the cluster and the conditions only. *)
Definition succeeds {O K C Ver} (up : K → Prop) (given : request O K C Ver → Prop) (a : action O K C Ver) : Prop :=
  ∀ rr, given rr → up (rr_cluster rr) → ∃ k c, a rr = (Ok tt, set_conditions c (set_cluster k rr)) ∧ up k.

(** The parameters that the resource puts into the files can be read back. *)
Definition readable_namespace (t : Trainer) : Prop := wf_params {[paramOperatorNamespace := resolveNamespace t]}.

Lemma sets_static m ns b rs : rs ∈ resourceSets m ns b → wf_params {[paramOperatorNamespace := ns]} →
  is_set m rs ∧ wf_params (rs_staticParams rs).
Proof.
  intros Hin Hw. split.
  - by eapply resourceSets_is_set.
  - assert (rs_staticParams rs = {[paramOperatorNamespace := ns]} ∨ rs_staticParams rs = ∅) as [-> | ->]; [|done|done].
    destruct b; cbn in Hin; rewrite !elem_of_cons, elem_of_nil in Hin; naive_solver.
Qed.

Section actions.
Context {O V A K C Ver W : Type} `{!Objects O V, !ApiErrors, !CtrlClient K, !DynamicClient O K,
  !PlatformUtils O K, !ConditionManager C, !Semver Ver, !YamlMaps A, !TLSTables, !Kustomize O, !KustomizeReads O,
  !Framework O K C Ver W}.
Context (Quote : string → string) (range_src range_dst : gmap string string → list (string * string))
  (UnmarshalMetadata : string → result componentMetadata).
Context (Hrs : enumerates range_src) (Hrd : enumerates range_dst).
Context (m : trainerActions) (Hlayout : laid_out m) (im : os).

#[local] Abbreviation render := (render_set (A:=A) (K:=K) (C:=C) (Ver:=Ver) Quote range_src range_dst m).

(** What a set renders to, from a copy of its template. *)
Definition rendered_set (rs : resourceSet) (l : list O) : Prop :=
  ∃ s, rendered_copy m im rs s ∧ (finish_set (A:=A) Quote m rs s).1 = Ok l.

(** The renderings of the sets work. *)
Definition sets_render (sets : list resourceSet) : Prop := ∀ rs s,
  rs ∈ sets → rendered_copy m im rs s → is_ok (finish_set (A:=A) Quote m rs s).1 = true.

(** A loop over sets: the files stay ready; with renderings that work it succeeds
    and appends what each set renders to. *)
Lemma render_sets_ready sets (rr : request O K C Ver) :
  Forall (λ rs, is_set m rs ∧ wf_params (rs_staticParams rs)) sets → ready m im (rr_os rr) →
  let out := forM sets render rr in
  ready m im (rr_os out.2) ∧ rr_cluster out.2 = rr_cluster rr ∧
  (sets_render sets → out.1 = Ok tt ∧
   ∃ ls, rr_resources out.2 = rr_resources rr ++ concat ls ∧ Forall2 rendered_set sets ls).
Proof.
  intros Hsets. revert rr. induction Hsets as [|rs sets [Hin Hst] _ IH]; intros rr Hr.
  { split_and!; [done|done|]. intros _. split; [done|]. exists []. by rewrite app_nil_r. }
  cbn zeta.
  rewrite forM_cons, render_set_run.
  destruct (render_ready (A:=A) Quote range_src range_dst m Hlayout im Hrs Hrd rs (rr_os rr) Hin Hst Hr) as (s' & -> & Hp & Hr').
  destruct (finish_set (A:=A) Quote m rs s').1 as [l|e] eqn:E.
  - destruct (IH (set_resources (rr_resources rr ++ l) (set_os s' rr)) Hr') as (H1 & H2 & H3).
    split_and!; [done|done|]. intros Hok. destruct H3 as (H3 & ls & Hl & Hls).
    { intros rs' s1 Hin' Hp'. apply (Hok rs' s1); [by right|done]. }
    split; [done|]. exists (l :: ls). split; [rewrite Hl; cbn; by rewrite <-app_assoc|]. constructor; [|done]. by exists s'.
  - split_and!; [done|done|]. intros Hok. specialize (Hok rs s' (list_elem_of_here _ _) Hp). by rewrite E in Hok.
Qed.

Lemma renderManifests_ready (rr : request O K C Ver) : readable_namespace (rr_instance rr) → ready m im (rr_os rr) →
  ready m im (rr_os (renderManifests (A:=A) Quote range_src range_dst m rr).2).
Proof.
  intros Hns Hr. unfold renderManifests, gets, wrapping. unfold mbind, M_bind. rewrite on_client_run.
  destruct (DetectClusterType (rr_cluster rr)) as [[ct|e] k1]; cbn [fst snd wrap_err]; [|done].
  destruct (render_sets_ready (resourceSets m (resolveNamespace (rr_instance rr)) (bool_decide (ct = ClusterTypeOpenShift)))
    (set_cluster k1 rr)) as [H1 _]; [|done|].
  - apply list.Forall_forall. intros rs Hin. by eapply sets_static.
  - by destruct (forM _ _ _) as [[[]|] rr'].
Qed.

Context (up : K → Prop) (ct : string) (Hup : healthy (O:=O) up ct).

Lemma renderManifests_live (rr : request O K C Ver) :
  readable_namespace (rr_instance rr) → ready m im (rr_os rr) → up (rr_cluster rr) →
  sets_render (resourceSets m (resolveNamespace (rr_instance rr)) (bool_decide (ct = ClusterTypeOpenShift))) →
  ∃ rr', renderManifests (A:=A) Quote range_src range_dst m rr = (Ok tt, rr') ∧ rr_generated rr' = true ∧ up (rr_cluster rr') ∧
    ∃ ls, rr_resources rr' = rr_resources rr ++ concat ls ∧
      Forall2 rendered_set (resourceSets m (resolveNamespace (rr_instance rr)) (bool_decide (ct = ClusterTypeOpenShift))) ls.
Proof.
  intros Hns Hr Hk Hok. unfold renderManifests, gets, wrapping. unfold mbind, M_bind. rewrite on_client_run.
  pose proof (up_type _ _ Hup _ Hk) as Ht. destruct (up_reads _ _ Hup _ Hk) as [Hsame _].
  destruct (DetectClusterType (rr_cluster rr)) as [r k1]. cbn in Ht, Hsame. subst r k1. cbn [fst snd wrap_err].
  destruct (render_sets_ready (resourceSets m (resolveNamespace (rr_instance rr)) (bool_decide (ct = ClusterTypeOpenShift)))
    (set_cluster (rr_cluster rr) rr)) as (_ & H2 & H3); [|done|].
  { apply list.Forall_forall. intros rs Hin. by eapply sets_static. }
  specialize (H3 Hok).
  destruct (forM _ _ _) as [r rr']. cbn in H2, H3. destruct H3 as [-> Hl]. eexists. split; [done|].
  split_and!; [done| |exact Hl]. cbn. by rewrite H2.
Qed.

(** The three actions in front of it. *)
Lemma checkDependencies_live (rr : request O K C Ver) : up (rr_cluster rr) →
  ∃ c, checkDependencies rr = (Ok tt, set_conditions c rr).
Proof.
  intros Hk. rewrite checkDependencies_verdict by (by eapply up_reads). unfold verdict.
  rewrite (up_type _ _ Hup _ Hk). unfold first_missing.
  destruct (filter _ _) as [|r rs] eqn:E; [by eexists|]. exfalso.
  assert (r ∈ filter (λ r, met (facts_of ct (rr_cluster rr)) r = false)
    (requirements (f_openshift (facts_of ct (rr_cluster rr))))) as Hr by (rewrite E; by left).
  apply list_elem_of_filter in Hr as [Hm Hr]. cbn in Hr. by rewrite (up_met _ _ Hup _ _ Hk Hr) in Hm.
Qed.

Lemma ensureNamespace_live (rr : request O K C Ver) : up (rr_cluster rr) →
  ∃ k, ensureNamespace rr = (Ok tt, set_cluster k rr) ∧ up k.
Proof.
  intros Hk. pose proof (ensureNamespace_run rr) as H1. cbn zeta in H1.
  destruct (up_get _ _ Hup _ (resolveNamespace (rr_instance rr)) Hk) as [Hk1 He1].
  destruct (GetNamespaceObj _ _) as [g k1]. cbn in Hk1, He1.
  destruct (up_create _ _ Hup _ (resolveNamespace (rr_instance rr)) namespace_labels Hk1) as [Hk2 He2].
  destruct (CreateNamespace _ _ k1) as [cr k2]. cbn in Hk2, He2. rewrite H1.
  destruct g as [|e]; [by exists k1|]. rewrite (He1 e eq_refl). exists k2. split; [|done].
  destruct cr as [|e']; [done|]. by rewrite (He2 e' eq_refl).
Qed.

Lemma updateReleases_live p (rr : request O K C Ver) : up (rr_cluster rr) →
  ∃ rr', updateReleases UnmarshalMetadata p rr = (Ok tt, rr') ∧ up (rr_cluster rr') ∧
    Spec (rr_instance rr') = Spec (rr_instance rr) ∧ (quiet (rr_os rr) → rr_os rr' = rr_os rr) ∧
    rr_resources rr' = rr_resources rr.
Proof.
  intros Hk. pose proof (updateReleases_run UnmarshalMetadata p rr) as H1. cbn zeta in H1.
  unfold getPlatformVersion, try in H1. unfold mbind, M_bind in H1.
  destruct (up_config _ _ Hup _ platformConfigMapName (resolveNamespace (rr_instance rr)) Hk) as [Hk1 He1].
  pose proof (getComponentReleases_still UnmarshalMetadata p) as Hst.
  destruct (ReaderGetConfigMap _ _ _) as [[d|e] k1]; cbn in Hk1, He1.
  - eexists. split; [exact H1|]. split_and!; [done|done| |done]. intros Hq. by apply Hst.
  - rewrite (He1 e eq_refl) in H1. eexists. split; [exact H1|]. split_and!; [done|done| |done]. intros Hq. by apply Hst.
Qed.

Lemma strip_live (rr : request O K C Ver) : up (rr_cluster rr) →
  ∃ k, strip_action (O:=O) rr = (Ok tt, set_cluster k rr) ∧ up k.
Proof.
  intros Hk. unfold strip_action. rewrite on_client_run.
  assert (∀ gvrs k, up k → ∃ k', forM gvrs (remove_from_gvr (O:=O)) k = (Ok tt, k') ∧ up k') as Hloop.
  { intros gvrs. induction gvrs as [|g gvrs IH]; intros k Hk'; [by exists k|]. rewrite forM_cons.
    destruct (up_list _ _ Hup k g runtime_selector Hk') as [[Hk1 He1] Hno].
    assert (∃ k1, remove_from_gvr (O:=O) g k = (Ok tt, k1) ∧ up k1) as (k1 & -> & Hk2).
    { unfold remove_from_gvr, try. unfold mbind, M_bind.
      destruct (DynList g "" runtime_selector k) as [[items|e] k1]; cbn in Hk1, He1, Hno.
      - specialize (Hno items eq_refl). exists k1. split; [|done].
        clear He1. induction Hno as [|o items Ho _ IHi]; [done|]. rewrite forM_cons, remove_finalizer_skip by exact Ho.
        exact IHi.
      - rewrite (He1 e eq_refl). by exists k1. }
    by apply IH. }
  destruct (Hloop runtime_gvrs (rr_cluster rr) Hk) as (k' & Hr & Hk').
  exists k'. split; [|done]. unfold stripRuntimeFinalizers, removeRuntimeFinalizers. by rewrite Hr.
Qed.

Lemma recovery_ok (a : action O K C Ver) rr rr' : a rr = (Ok tt, rr') → withImmutableFieldRecovery a rr = (Ok tt, rr').
Proof. intros Ha. unfold withImmutableFieldRecovery. rewrite try_bind. by rewrite Ha. Qed.

End actions.

(** *** Steps *)

Definition some_profile : TLSProfileSpec := MkProfile [] "" [].

(** The files are ready for the paths of [main], with any profile, in a container
    of the image. *)
Definition files_ready (im s : os) : Prop := ready (actions_of (reconciler_config some_profile)) im s.

Lemma main_layout profile : laid_out (actions_of (reconciler_config profile)).
Proof.
  intros rs [ns Hin]. cbn in Hin. rewrite !elem_of_cons, elem_of_nil in Hin.
  by destruct Hin as [-> |[-> |[-> |[]]]].
Qed.

(** No system call is to fail, and the namespace can be read back. *)
Definition calm {K Ver} (w : world K Ver) : Prop := quiet (w_os w) ∧ readable_namespace (w_trainer w).

Lemma check_template_still what p : preserves still (check_template what p).
Proof.
  intros s Hq. unfold check_template, wrapping, Stat. unfold mbind, M_bind. rewrite (syscall_quiet s Hq). unfold follow.
  destruct (resolve 40 (os_nodes s) p) as [q|]; [|done]. unfold node_at, get.
  by destruct (os_nodes s !! q) as [[]|].
Qed.

Lemma ready_mkdir im s : files_ready im s → files_ready im (MkdirAll workDir s).2.
Proof.
  intros (Hq & Hwf & Him & Hanc & Hsets). change (a_workDir _) with workDir in Hanc.
  destruct (mkdir_take_quiet workDir (length workDir) s Hq Hwf) as (m' & Hrun & Hm'); [done| |].
  { by rewrite firstn_all. }
  rewrite firstn_all in Hm'. unfold MkdirAll. rewrite Hrun. cbn [snd].
  assert (wf_tree m') as Hwf'.
  { pose proof Hwf as [Hr Hw]. split; [rewrite Hm'; by case_bool_decide|]. intros p x n. rewrite !Hm'.
    case_bool_decide as H1; case_bool_decide as H2; try done; [|by apply Hw].
    intros _. destruct H2. destruct H1 as [r Hr'%Rel_Some]. exists (x :: r). apply Rel_Some. by rewrite Hr', <-app_assoc. }
  split_and!; [done|done| | |].
  - apply (holds_image_kept _ im s _ (main_layout some_profile)); [done| |done]. intros q Hqa _. cbn. rewrite Hm'.
    rewrite bool_decide_eq_false_2; [done|]. change (a_workDir _) with workDir in Hqa. rewrite Hqa. by intros [].
  - intros q Ha. change (a_workDir _) with workDir in Ha. cbn. rewrite Hm'. rewrite bool_decide_eq_true_2 by done. by right.
  - intros rs Hin. destruct (Hsets rs Hin) as [Hr He]. split; [|done].
    apply (spares_ready _ (main_layout some_profile) im rs s); [done..| |done]. split; [done|]. intros q. cbn. rewrite Hm'.
    case_bool_decide; [right; by left|by left].
Qed.

(** A container in which nothing was rendered yet. *)
Definition fresh_container (s : os) : Prop :=
  quiet s ∧ wf_tree (os_nodes s) ∧
  (os_nodes s !! workDir = None ∨ os_nodes s !! workDir = Some Dir) ∧
  (∀ x r, os_nodes s !! (workDir ++ x :: r) = None) ∧
  ∀ rs, is_set (actions_of (reconciler_config some_profile)) rs →
    os_nodes s !! rs_templatePath rs = Some Dir ∧ wf_params (env_overrides s (rs_paramMap rs)) ∧
    ∃ c params, os_nodes s !! params_of rs (rs_templatePath rs) = Some (File c) ∧ parse c = Ok params ∧
      param_place (os_nodes s) (params_of rs (rs_templatePath rs)).

Lemma fresh_ready s : fresh_container s → files_ready s s.
Proof.
  intros (Hq & Hwf & Hwork & Hbelow & Hsets).
  assert (os_nodes s !! ["opt"] = Some Dir) as Hopt.
  { destruct (Hsets (runtimes_set (actions_of (reconciler_config some_profile)))) as [Hd _]; [exists ""; set_solver|].
    by apply (proj2 Hwf ["opt"]) in Hd. }
  assert (∀ q, is_Some (Rel q workDir) → os_nodes s !! q = None ∨ os_nodes s !! q = Some Dir) as Hanc.
  { intros q [-> |[-> | ->]]%ancestors_work; [right; apply Hwf|by right|done]. }
  split_and!; [done|done|done|exact Hanc|]. intros rs Hin.
  destruct (Hsets rs Hin) as (Hd & Henv & c & params & Hc & Hparse & Hp). split; [|done].
  exists c, params. split; [done|]. split; [by eapply current_image|]. right. split_and!; [done| |done|done].
  destruct (main_layout some_profile rs Hin) as [H1 H2]. split_and!; [done|done| | | |].
  - apply Rel_None. intros r E. destruct Hin as [ns Hin]. cbn in Hin. rewrite !elem_of_cons, elem_of_nil in Hin.
    by destruct Hin as [-> |[-> |[-> |[]]]].
  - apply Rel_None. intros r E. destruct Hin as [ns Hin]. cbn in Hin. rewrite !elem_of_cons, elem_of_nil in Hin.
    by destruct Hin as [-> |[-> |[-> |[]]]].
  - intros r. left. unfold set_work, GoOS.Join. rewrite <-app_assoc. apply Hbelow.
  - intros q [Hq'| ->]%ancestor_snoc; [by apply Hanc|left]. apply (Hbelow (rs_subDir rs) []).
Qed.

Section calm.
Context {O V A K C Ver W X Cert : Type} `{!Objects O V, !ApiErrors, !CtrlClient K, !DynamicClient O K,
  !PlatformUtils O K, !ConditionManager C, !Semver Ver, !YamlMaps A, !TLSTables, !Kustomize O, !KustomizeReads O,
  !FrameworkTLS W X, !ControllerRuntime W X Cert, !Framework O K C Ver W, !ActionRunner O K C Ver}.
Context (Quote : string → string) (range_src range_dst : gmap string string → list (string * string))
  (UnmarshalMetadata : string → result componentMetadata)
  (X509KeyPair : string → string → result Cert) (abs : string → path).
Context (Hrs : enumerates range_src) (Hrd : enumerates range_dst) (im : os).

(** *** A start *)

(** What holds of the files, when only the two steps that look at them matter. *)
Section start.
Context (P : os → Prop).

Definition host_keeps (a b : os * W) : Prop := P a.1 → P b.1.

#[local] Instance host_keeps_refl : Reflexive host_keeps.
Proof. by intros a Ha. Qed.
#[local] Instance host_keeps_trans : Transitive host_keeps.
Proof. intros a b c H1 H2 Ha. by apply H2, H1. Qed.

Lemma on_fw_keeps {B} (a : M W B) : preserves host_keeps (on_fw a).
Proof. intros [s w]. unfold on_fw, zoom. cbn. destruct (a w). by intros Hr. Qed.

Lemma on_host_keeps {B} (a : M os B) : (∀ s, P s → P (a s).2) → preserves host_keeps (on_host (W:=W) a).
Proof. intros Ha [s w]. unfold on_host, zoom. cbn. specialize (Ha s). destruct (a s). exact Ha. Qed.

Lemma main_keeps Start fl : (∀ s, P s → P (prepare_paths s).2) →
  (∀ p s, P s → P (readBootstrapRelease (Ver:=Ver) UnmarshalMetadata Quote p s).2) →
  preserves host_keeps (main (O:=O) (A:=A) (K:=K) (C:=C) (Ver:=Ver) (X:=X) (Cert:=Cert)
    Quote range_src range_dst UnmarshalMetadata X509KeyPair abs Start fl).
Proof.
  intros Hpaths Hboot.
  assert (∀ cfg, preserves host_keeps (NewReconciler (O:=O) (A:=A) (K:=K) (C:=C) (Ver:=Ver) (W:=W) Quote range_src range_dst
    UnmarshalMetadata cfg)) as Hnew.
  { intros cfg. apply preserves_bind; [apply _|apply on_fw_keeps|intros []].
    apply preserves_bind; [apply _|apply preserves_wrapping, on_fw_keeps|intros []].
    apply preserves_bind; [apply _| |by intros rel s].
    apply preserves_try, (on_host_keeps (readBootstrapRelease (Ver:=Ver) UnmarshalMetadata Quote (ManifestsPath cfg))), Hboot. }
  unfold main. repeat (apply preserves_bind; [apply _|first
    [apply on_fw_keeps | apply preserves_wrapping, on_fw_keeps | apply on_host_keeps, Hpaths
    | apply preserves_wrapping, Hnew | by intros s]|intros ?]).
  apply preserves_wrapping, on_fw_keeps.
Qed.

End start.

Lemma still_ready {B} (a : M os B) s : preserves still a → files_ready im s → files_ready im (a s).2.
Proof. intros Ha Hr. rewrite (Ha s); [done|apply Hr]. Qed.

Lemma prepare_paths_files s : files_ready im s → files_ready im (prepare_paths s).2.
Proof.
  assert (∀ what p (k : M os unit) s, (∀ s, files_ready im s → files_ready im (k s).2) → files_ready im s →
    files_ready im ((check_template what p;; k) s).2) as Hc.
  { intros what p k s1 Hk Hr. unfold mbind, M_bind. pose proof (still_ready _ s1 (check_template_still what p) Hr) as H1.
    destruct (check_template what p s1) as [[[]|e] s2]; [by apply Hk|done]. }
  revert s. unfold prepare_paths. do 3 (intros s; apply Hc; clear s). intros s Hr. unfold wrapping.
  pose proof (ready_mkdir im s Hr) as H1. by destruct (MkdirAll workDir s).
Qed.

Lemma bootstrap_still p : preserves still (readBootstrapRelease (Ver:=Ver) UnmarshalMetadata Quote p).
Proof.
  intros s Hq. unfold readBootstrapRelease, read_metadata, wrapping, lift. unfold mbind, M_bind.
  pose proof (ReadFile_still (GoOS.Join p "component_metadata.yaml") s Hq) as Hs.
  destruct (ReadFile _ s) as [[d|e] s1]; cbn in *; [|done]. destruct (UnmarshalMetadata d) as [md|]; cbn; [|done].
  destruct (meta_Releases md) as [|x l]; [done|]. by destruct (ParseTolerant _).
Qed.

Lemma main_ready Start fl : preserves (host_keeps (files_ready im)) (main (O:=O) (A:=A) (K:=K) (C:=C) (Ver:=Ver) (X:=X) (Cert:=Cert)
  Quote range_src range_dst UnmarshalMetadata X509KeyPair abs Start fl).
Proof. apply main_keeps; [apply prepare_paths_files|]. intros p s. apply still_ready, bootstrap_still. Qed.

(** *** A reconciliation *)

(** The files stay ready and the spec is kept. *)
Definition request_ready (rr rr' : request O K C Ver) : Prop :=
  Spec (rr_instance rr') = Spec (rr_instance rr) ∧
  (readable_namespace (rr_instance rr) → files_ready im (rr_os rr) → files_ready im (rr_os rr')).

#[local] Instance request_ready_refl : Reflexive request_ready.
Proof. intros rr. split; [done|]. by intros Hn Hr. Qed.
#[local] Instance request_ready_trans : Transitive request_ready.
Proof.
  intros r1 r2 r3 [S1 H1] [S2 H2]. split; [congruence|]. intros Hn Hr. apply H2; [|by apply H1].
  unfold readable_namespace, resolveNamespace in *. by rewrite S1.
Qed.

(** An action that keeps the spec and the files; when no call is to fail also the
    schedule of failures. *)
Definition leaves (a : action O K C Ver) : Prop := ∀ rr,
  (Spec (rr_instance (a rr).2) = Spec (rr_instance rr) ∧ frame [] (rr_os rr) (rr_os (a rr).2)) ∧
  (quiet (rr_os rr) → rr_os (a rr).2 = rr_os rr).

Lemma updateReleases_leaves p : leaves (updateReleases (O:=O) (K:=K) (C:=C) (Ver:=Ver) UnmarshalMetadata p).
Proof.
  intros rr. pose proof (updateReleases_run UnmarshalMetadata p rr) as Hrun. cbn zeta in Hrun.
  destruct (getPlatformVersion _ (rr_cluster rr)) as [[v|e] k1]; rewrite Hrun;
    (split; [split; [done|apply getComponentReleases_frame]|]); rrsimpl; cbn [snd];
    intros Hq; by apply getComponentReleases_still.
Qed.

Lemma recovery_leaves (a : action O K C Ver) : leaves a → leaves (withImmutableFieldRecovery a).
Proof.
  intros Ha rr. specialize (Ha rr). unfold withImmutableFieldRecovery, try. unfold mbind, M_bind.
  destruct (a rr) as [[[]|e] rr1]; [done|]. destruct (negb _); [done|]. cbn [gets]. rewrite on_client_run.
  by destruct (forM _ _ _) as [[] ?].
Qed.

Lemma renderManifests_files profile : preserves request_ready
  (renderManifests (A:=A) (K:=K) (C:=C) (Ver:=Ver) Quote range_src range_dst (actions_of (reconciler_config profile))).
Proof.
  intros rr. split; [by rewrite renderManifests_instance|].
  intros Hn Hr. exact (renderManifests_ready Quote range_src range_dst Hrs Hrd _ (main_layout profile) im rr Hn Hr).
Qed.

Context (Hdeploy : minds_own (fwdeploy_NewAction (O:=O) (K:=K) (C:=C) (Ver:=Ver) (W:=W) deploy_options))
  (Hdeployments : minds_own (fwdeployments_NewAction (O:=O) (K:=K) (C:=C) (Ver:=Ver) (W:=W) resolveNamespace))
  (Hgc : minds_own (fwgc_NewAction (O:=O) (K:=K) (C:=C) (Ver:=Ver) (W:=W) resolveNamespace gc_action_options)).

Lemma minds_own_leaves (a : action O K C Ver) : minds_own a → leaves a.
Proof. intros Ha rr. by destruct (Ha rr) as (-> & -> & _). Qed.

Lemma checkDependencies_leaves : leaves (checkDependencies (O:=O) (K:=K) (C:=C) (Ver:=Ver)).
Proof. intros rr. by destruct (checkDependencies_ends (rr_conditions rr) rr eq_refl) as (_ & -> & -> & _). Qed.

Lemma ensureNamespace_leaves : leaves (ensureNamespace (O:=O) (K:=K) (C:=C) (Ver:=Ver)).
Proof.
  intros rr. pose proof (ensureNamespace_run rr) as Hr. cbn zeta in Hr.
  destruct (GetNamespaceObj _ _) as [g k1], (CreateNamespace _ _ k1) as [cr k2]. rewrite Hr.
  destruct g as [|e]; [|destruct (IsNotFound e)]; done.
Qed.

Lemma deploy_actions_leave a : a ∈ deploy_actions (O:=O) (K:=K) (C:=C) (Ver:=Ver) (W:=W) → leaves a.
Proof.
  intros Ha. unfold deploy_actions in Ha. rewrite !elem_of_cons, elem_of_nil in Ha.
  destruct Ha as [-> |[-> |[-> |[-> |[]]]]].
  - by apply recovery_leaves, minds_own_leaves.
  - by apply minds_own_leaves.
  - intros rr. unfold strip_action. by rewrite on_client_run.
  - by apply minds_own_leaves.
Qed.

(** Every action but the rendering leaves the files alone. *)
Lemma actions_leave cfg a :
  a ∈ prepare_actions (A:=A) Quote range_src range_dst UnmarshalMetadata cfg ++ deploy_actions (W:=W) →
  a = renderManifests (A:=A) Quote range_src range_dst (actions_of cfg) ∨ leaves a.
Proof.
  rewrite elem_of_app. intros [Ha|Ha]; [|right; by apply deploy_actions_leave].
  unfold prepare_actions in Ha. rewrite !elem_of_cons, elem_of_nil in Ha.
  destruct Ha as [-> |[-> |[-> |[-> |[]]]]]; [right..|by left].
  - apply checkDependencies_leaves.
  - apply ensureNamespace_leaves.
  - apply updateReleases_leaves.
Qed.

Lemma actions_ready profile a :
  a ∈ prepare_actions (A:=A) Quote range_src range_dst UnmarshalMetadata (reconciler_config profile) ++ deploy_actions (W:=W) →
  preserves request_ready a.
Proof.
  intros [->|Hl]%actions_leave; [apply renderManifests_files|]. intros rr. destruct (Hl rr) as [[Hs _] Ho].
  split; [done|]. intros _ Hr. rewrite Ho; [done|apply Hr].
Qed.

(** *** A step *)

#[local] Abbreviation steps := (step (O:=O) (A:=A) (K:=K) (C:=C) (Ver:=Ver) (W:=W) (X:=X) Quote range_src range_dst
  UnmarshalMetadata X509KeyPair abs).

Lemma reconcile_ready r : built (O:=O) (A:=A) (K:=K) (C:=C) (Ver:=Ver) (W:=W) Quote range_src range_dst UnmarshalMetadata r →
  preserves request_ready (reconcile r).
Proof.
  intros (profile & s & s' & [Ha _]%NewReconciler_actions) rr. unfold reconcile. rewrite run_actions_forM, Ha. revert rr.
  apply forM_preserves; [apply _..|]. intros a Hin. by eapply actions_ready.
Qed.

Lemma step_ready w w' : steps w w' → calm w → calm w' → files_ready im (w_os w) → files_ready im (w_os w').
Proof.
  intros [Start fl ws res s' ws' rel Hm|r c res rr t Hb Hr Hs|r c res rr Hb Hf|spec|name spec|k|fs] Hc Hc'; cbn; try done.
  - pose proof (main_ready Start fl (w_os w, ws)) as Hk. rewrite Hm in Hk. exact Hk.
  - destruct (reconcile_ready r Hb (request_of c w)) as [_ H1]. rewrite Hr in H1. by apply H1, Hc.
  - destruct Hb as (profile & s & s' & [_ Hfin]%NewReconciler_actions). rewrite Hfin in Hf.
    unfold cleanup_action, gets in Hf. unfold mbind, M_bind in Hf. rewrite on_client_run in Hf. by injection Hf as _ <-.
  - destruct Hc' as [Hq' _]. destruct Hc as [Hq _]. unfold quiet in *. cbn in Hq'. subst fs.
    assert (set_faults [] (w_os w) = w_os w) as ->; [|done]. destruct (w_os w); cbn in *. by subst.
Qed.

(** A history in which the system calls work. *)
Lemma history_ready w w' : rtc (λ w1 w2, steps w1 w2 ∧ calm w2) w w' →
  files_ready im (w_os w) → calm w → files_ready im (w_os w') ∧ calm w'.
Proof.
  induction 1 as [w|w w1 w' [Hs Hc] _ IH]; intros Hr Hw; [done|]. apply IH; [|done].
  exact (step_ready w w1 Hs Hw Hc Hr).
Qed.

End calm.

(** *** A reconciliation on a healthy cluster *)

Section live.
Context {O V A K C Ver W : Type} `{!Objects O V, !ApiErrors, !CtrlClient K, !DynamicClient O K,
  !PlatformUtils O K, !ConditionManager C, !Semver Ver, !YamlMaps A, !TLSTables, !Kustomize O, !KustomizeReads O,
  !Framework O K C Ver W, !ActionRunner O K C Ver}.
Context (Quote : string → string) (range_src range_dst : gmap string string → list (string * string))
  (UnmarshalMetadata : string → result componentMetadata).
Context (Hrs : enumerates range_src) (Hrd : enumerates range_dst).
Context (up : K → Prop) (ct : string) (Hup : healthy (O:=O) up ct) (profile : TLSProfileSpec) (im : os).

#[local] Abbreviation m := (actions_of (reconciler_config profile)).

(** kustomize and the TLS options work on the sets of the cluster's type, for
    resources in a namespace: on copies of the templates of the image, whose
    parameters are the image's, overridden. *)
Definition renders (ns : string) : Prop :=
  sets_render (A:=A) Quote m im (resourceSets m ns (bool_decide (ct = ClusterTypeOpenShift))).

(** A request whose resources are those of the sets, as a rendering of the image's
    templates gives them. *)
Definition rendered_request (rr : request O K C Ver) : Prop :=
  rr_generated rr = true ∧ ∃ ls, rr_resources rr = concat ls ∧
    Forall2 (rendered_set (A:=A) Quote m im)
      (resourceSets m (resolveNamespace (rr_instance rr)) (bool_decide (ct = ClusterTypeOpenShift))) ls.

Context
  (Hdeployments : succeeds up rendered_request (fwdeployments_NewAction (O:=O) (K:=K) (C:=C) (Ver:=Ver) (W:=W) resolveNamespace))
  (Hgc : succeeds up rendered_request (fwgc_NewAction (O:=O) (K:=K) (C:=C) (Ver:=Ver) (W:=W) resolveNamespace gc_action_options)).

Lemma prepare_live (rr : request O K C Ver) : renders (resolveNamespace (rr_instance rr)) →
  readable_namespace (rr_instance rr) → files_ready im (rr_os rr) → up (rr_cluster rr) →
  ∃ rr', forM (prepare_actions (A:=A) Quote range_src range_dst UnmarshalMetadata (reconciler_config profile)) (λ a, a) rr = (Ok tt, rr') ∧
    up (rr_cluster rr') ∧ resolveNamespace (rr_instance rr') = resolveNamespace (rr_instance rr) ∧
    (rr_resources rr = [] → rendered_request rr').
Proof.
  intros Hrenders Hn Hr Hk. unfold prepare_actions.
  destruct (checkDependencies_live up ct Hup rr Hk) as (c & H1). rewrite forM_cons, H1.
  destruct (ensureNamespace_live up ct Hup (set_conditions c rr) Hk) as (k2 & H2 & Hk2). rewrite forM_cons, H2.
  destruct (updateReleases_live UnmarshalMetadata up ct Hup (ManifestsPath (reconciler_config profile))
    (set_cluster k2 (set_conditions c rr)) Hk2) as (rr3 & H3 & Hk3 & Hs3 & Ho3 & Hr3). rewrite forM_cons, H3.
  rrsimpl. rewrite forM_cons.
  destruct (renderManifests_live (A:=A) Quote range_src range_dst Hrs Hrd m (main_layout profile) im up ct Hup rr3)
    as (rr4 & Hrun & Hg & Hk4 & Hl); [| |done| |].
  - unfold readable_namespace, resolveNamespace in *. by rewrite Hs3.
  - rewrite Ho3; [exact Hr|apply Hr].
  - unfold renders, resolveNamespace in *. by rewrite Hs3.
  - pose proof (renderManifests_instance (A:=A) Quote range_src range_dst m rr3) as Hi4. rewrite Hrun in Hi4 |- *. cbn [snd] in Hi4.
    exists rr4. rewrite Hr3 in Hl. split_and!; [done|done| |].
    + rewrite Hi4. unfold resolveNamespace. by rewrite Hs3.
    + intros Hnil. split; [done|]. rewrite Hnil in Hl. by rewrite Hi4.
Qed.

(** What follows the deploy action. *)
Lemma after_deploy_live k1 c1 (rr : request O K C Ver) : rendered_request rr →
  fwdeploy_NewAction (W:=W) deploy_options rr = (Ok tt, set_conditions c1 (set_cluster k1 rr)) → up k1 →
  ∃ rr', forM (deploy_actions (W:=W)) (λ a, a) rr = (Ok tt, rr') ∧ rr_generated rr' = true ∧ up (rr_cluster rr').
Proof.
  intros Hrr H1 Hk1. unfold deploy_actions. rewrite forM_cons, (recovery_ok _ _ _ H1).
  destruct (Hdeployments (set_conditions c1 (set_cluster k1 rr)) Hrr Hk1) as (k2 & c2 & H2 & Hk2). rewrite forM_cons, H2.
  match goal with |- context [forM _ _ ?x] => destruct (strip_live up ct Hup x Hk2) as (k3 & H3 & Hk3) end.
  rewrite forM_cons, H3.
  match goal with |- context [forM _ _ ?x] => destruct (Hgc x Hrr Hk3) as (k4 & c4 & H4 & Hk4) end.
  rewrite forM_cons, H4. eexists. split; [done|]. split; [apply Hrr|done].
Qed.

Context (Hdeploy : succeeds up rendered_request (fwdeploy_NewAction (O:=O) (K:=K) (C:=C) (Ver:=Ver) (W:=W) deploy_options)).

Lemma deploy_live (rr : request O K C Ver) : rendered_request rr → up (rr_cluster rr) →
  ∃ rr', forM (deploy_actions (W:=W)) (λ a, a) rr = (Ok tt, rr') ∧ rr_generated rr' = true ∧ up (rr_cluster rr').
Proof. intros Hrr Hk. destruct (Hdeploy rr Hrr Hk) as (k1 & c1 & H1 & Hk1). by eapply after_deploy_live. Qed.

End live.

(** ** Properties *)

Section properties.
Context {O V A K C Ver W X Cert : Type} `{!Objects O V, !ApiErrors, !CtrlClient K, !DynamicClient O K,
  !PlatformUtils O K, !ConditionManager C, !Semver Ver, !YamlMaps A, !TLSTables, !Kustomize O, !KustomizeReads O,
  !FrameworkTLS W X, !ControllerRuntime W X Cert, !Framework O K C Ver W, !ActionRunner O K C Ver}.
Context (Quote : string → string) (range_src range_dst : gmap string string → list (string * string))
  (UnmarshalMetadata : string → result componentMetadata)
  (X509KeyPair : string → string → result Cert) (abs : string → path).

#[local] Abbreviation steps := (step (O:=O) (A:=A) (K:=K) (C:=C) (Ver:=Ver) (W:=W) (X:=X) Quote range_src range_dst
  UnmarshalMetadata X509KeyPair abs).
#[local] Abbreviation framework_deploy := (fwdeploy_NewAction (O:=O) (K:=K) (C:=C) (Ver:=Ver) (W:=W) deploy_options).
#[local] Abbreviation framework_deployments := (fwdeployments_NewAction (O:=O) (K:=K) (C:=C) (Ver:=Ver) (W:=W) resolveNamespace).
#[local] Abbreviation framework_gc := (fwgc_NewAction (O:=O) (K:=K) (C:=C) (Ver:=Ver) (W:=W) resolveNamespace gc_action_options).

(** The operator is never stuck.  Take any history of starts, reconciliations
    and finalizations from files that are in order, as in a fresh container or
    after earlier reconciliations, in which the API server, the framework and
    kustomize may have failed in any way, the cluster and the spec may have been
    changed by anybody, and only the system calls on files worked.  Then, as
    soon as the cluster is healthy, the very next reconciliation succeeds: it
    gets through all its actions with everything generated, and leaves the
    cluster up. *)
Theorem healthy_reconciliation_succeeds (w w' : world K Ver) (c : C) (up : K → Prop) (ct : string) (profile : TLSProfileSpec)
    (im : os) (s s' : os * W) (r : Reconciler O K C Ver)
    (Hrs : enumerates range_src) (Hrd : enumerates range_dst)
    (Hown : Forall minds_own [framework_deploy; framework_deployments; framework_gc])
    (Hstart : files_ready im (w_os w)) (Hcalm : calm w)
    (Hhistory : rtc (λ w1 w2, steps w1 w2 ∧ calm w2) w w')
    (Hnew : NewReconciler (O:=O) (A:=A) (K:=K) (C:=C) (Ver:=Ver) (W:=W) Quote range_src range_dst UnmarshalMetadata
              (reconciler_config profile) s = (Ok r, s'))
    (Hhealthy : healthy (O:=O) up ct) (Hup : up (w_cluster w'))
    (Hrenders : renders (A:=A) Quote ct profile im (resolveNamespace (w_trainer w')))
    (Hframework : Forall (succeeds up (rendered_request (A:=A) Quote ct profile im)) [framework_deploy; framework_deployments; framework_gc]) :
  ∃ rr, reconcile r (request_of c w') = (Ok tt, rr) ∧ rr_generated rr = true ∧ up (rr_cluster rr).
Proof.
  rewrite !list.Forall_cons in Hown, Hframework.
  destruct Hown as (Ho1 & Ho2 & Ho3 & _), Hframework as (Hf1 & Hf2 & Hf3 & _).
  assert (files_ready im (w_os w') ∧ calm w') as [Hready [_ Hns]].
  { by apply (history_ready _ _ _ _ _ _ Hrs Hrd im Ho1 Ho2 Ho3 w w' Hhistory). }
  erewrite reconcile_split by exact Hnew.
  destruct (prepare_live (A:=A) Quote range_src range_dst UnmarshalMetadata Hrs Hrd up ct Hhealthy profile im
    (request_of c w') Hrenders Hns Hready Hup) as (rr1 & -> & Hk1 & _ & Hrr1).
  destruct (deploy_live (A:=A) Quote up ct Hhealthy profile im Hf2 Hf3 Hf1 rr1 (Hrr1 eq_refl) Hk1) as (rr2 & -> & Hg2 & Hk2).
  by exists rr2.
Qed.

End properties.

(** *** Witness *)

#[local] Existing Instances ex_framework ex_semver ex_yaml ex_kustomize ex_tables ex_runtime ex_main_fw ex_runner
  ex_kustomize_reads.

#[local] Abbreviation ex_conditions := (gmap string (bool * string * string)).

(** The store is up: no call is to fail, it is Kubernetes with the JobSet CRD, and
    has no runtimes. *)
Definition ex_up (k : cluster) : Prop :=
  c_faults k = [] ∧ c_type k = "Kubernetes" ∧ jobSetGK ∈ c_crds k ∧ ∀ g, objects_of k g = ∅.

Lemma ex_healthy : healthy (O:=obj) ex_up "Kubernetes".
Proof.
  assert (∀ k, ex_up k → api_call k = (Ok tt, k)) as Hcall.
  { intros k (Hf & _). unfold api_call. by rewrite Hf. }
  split.
  - intros k Hk. pose proof (Hcall k Hk) as Hc. split_and!; cbn; munfold.
    + by rewrite Hc.
    + intros n. rewrite Hc. by destruct (c_operators k !! n).
    + intros g. rewrite Hc. cbn. by destruct (list_find _ _) as [[? []]|].
    + intros g. rewrite Hc. cbn. by case_bool_decide.
  - intros k Hk. cbn. munfold. rewrite (Hcall k Hk). cbn. f_equal. apply Hk.
  - intros k r Hk Hr. cbn in Hr. apply list_elem_of_singleton in Hr as ->.
    change (is_ok (CustomResourceDefinitionExists (O:=obj) jobSetGK k).1 = true). cbn. munfold. rewrite (Hcall k Hk). cbn.
    rewrite bool_decide_eq_true_2 by apply Hk. done.
  - intros k n Hk. unfold answers. cbn. munfold. rewrite (Hcall k Hk). cbn.
    destruct (c_namespaces k !! n); cbn; (split; [done|]); [done|by intros e [= <-]].
  - intros k n l Hk. unfold answers. cbn. munfold. rewrite (Hcall k Hk). cbn.
    destruct (c_namespaces k !! n); cbn; (split; [done|]); [by intros e [= <-]|done].
  - intros k name ns Hk. unfold answers. cbn. munfold. rewrite (Hcall k Hk). cbn.
    destruct (c_configmaps k !! (ns, name)); cbn; (split; [done|]); [done|by intros e [= <-]].
  - intros k g sel Hk. unfold answers. cbn. unfold store_list. munfold. rewrite (Hcall k Hk). cbn.
    destruct (c_served k g) eqn:Eg; cbn; (split; [split; [done|]|]); try done.
    + intros items [= <-]. destruct Hk as (_ & _ & _ & Ho). rewrite Ho. constructor.
    + by intros e [= <-].
Qed.

Definition ex_container_nodes : gmap path node := list_to_map
  [([], Dir); (["opt"], Dir); (manifestsPath, Dir); (manifestsPath ++ ["rhoai"], Dir);
   (manifestsPath ++ ["rhoai"; "params.env"], File "image=x"); (runtimesPath, Dir);
   (runtimesPath ++ ["params.env"], File "vllm=y"); (imageStreamsPath, Dir);
   (imageStreamsPath ++ ["params.env"], File "")].
Definition ex_container : os := OS ex_container_nodes ∅ [].

Lemma ex_container_fresh : fresh_container ex_container.
Proof.
  split_and!; [done| |by left| |].
  - apply wf_tree_dec. split; [reflexivity|]. apply (bool_decide_unpack _). by vm_compute.
  - intros x r. apply eq_None_not_Some. intros [n Hn].
    assert (map_Forall (λ q _, Rel workDir q = None) ex_container_nodes) as Hall
      by (apply (bool_decide_unpack _); by vm_compute).
    apply Hall in Hn. by rewrite Rel_app in Hn.
  - assert (∀ pm, wf_params (env_overrides ex_container pm)) as Henv.
    { intros pm k v. unfold env_overrides. rewrite lookup_omap. by destruct (pm !! k). }
    intros rs [ns Hin]. cbn in Hin. rewrite !elem_of_cons, elem_of_nil in Hin.
    destruct Hin as [-> |[-> |[-> |[]]]]; (split; [by vm_compute|]); (split; [apply Henv|]).
    + exists "image=x", {["image" := "x"]}. split_and!; [by vm_compute..|]. split; [eexists; by vm_compute|right; by vm_compute].
    + exists "vllm=y", {["vllm" := "y"]}. split_and!; [by vm_compute..|]. split; [eexists; by vm_compute|right; by vm_compute].
    + exists "", ∅. split_and!; [by vm_compute..|]. split; [eexists; by vm_compute|right; by vm_compute].
Qed.

(** The first reconciliation meets an API server that is down. *)
Definition ex_down : world cluster string :=
  World (set_cfaults [ApiError "etcd is down"] ex_ready_cluster) ex_container (w_trainer ex_world) (w_release ex_world).

Definition ex_failed : result unit * request obj cluster ex_conditions string :=
  reconcile ex_the_reconciler (request_of ∅ ex_down).

Definition ex_after : world cluster string :=
  World (rr_cluster ex_failed.2) (rr_os ex_failed.2) (w_trainer ex_down) (rr_release ex_failed.2).

Lemma ex_readable : wf_params {[paramOperatorNamespace := "apps"]}.
Proof. apply (bool_decide_unpack _). by vm_compute. Qed.

Lemma ex_down_calm : calm ex_down.
Proof. split; [reflexivity|exact ex_readable]. Qed.

Lemma ex_history : rtc (λ w1 w2, step (O:=obj) (V:=json) (A:=string) (K:=cluster) (C:=ex_conditions) (Ver:=string)
  (W:=LoadResult) (X:=list string) (Cert:=string) id map_to_list map_to_list ex_metadata (λ c _, Ok c) (λ d, [d]) w1 w2 ∧
  calm w2) ex_down ex_after.
Proof.
  apply rtc_once. split.
  - apply (step_reconcile _ _ _ _ _ _ ex_down ex_the_reconciler ∅ ex_failed.1).
    + exact ex_is_built.
    + apply surjective_pairing.
    + split_and!; [done|done|by left].
  - split; [by vm_compute|exact ex_readable].
Qed.

Lemma ex_after_up : ex_up (w_cluster ex_after).
Proof.
  assert (rr_cluster ex_failed.2 = ex_ready_cluster) as E by by vm_compute.
  unfold ex_after. cbn [w_cluster]. rewrite E. split_and!; [done|done|by left|done].
Qed.

Lemma ex_renders ns : renders (O:=obj) (A:=string) id "Kubernetes" ex_profile ex_container ns.
Proof.
  intros rs s Hin _. cbn in Hin. rewrite !elem_of_cons, elem_of_nil in Hin.
  destruct Hin as [-> |[-> |[]]]; vm_compute; reflexivity.
Qed.

Lemma ex_succeeds given : succeeds ex_up given (mret tt : action obj cluster ex_conditions string).
Proof. intros rr _ Hk. exists (rr_cluster rr), (rr_conditions rr). split; [by destruct rr|done]. Qed.

Lemma healthy_reconciliation_succeeds_witness :
  is_ok ex_failed.1 = false ∧
  ∃ rr, reconcile ex_the_reconciler (request_of ∅ ex_after) = (Ok tt, rr) ∧ rr_generated rr = true ∧ ex_up (rr_cluster rr).
Proof.
  split; [by vm_compute|]. destruct ex_built_ok as [s' Hnew].
  apply (healthy_reconciliation_succeeds (O:=obj) (V:=json) (A:=string) (K:=cluster) (C:=ex_conditions) (Ver:=string)
    (W:=LoadResult) (X:=list string) (Cert:=string) id map_to_list map_to_list ex_metadata (λ c _, Ok c) (λ d, [d])
    ex_down ex_after ∅ ex_up "Kubernetes" ex_profile ex_container (ex_fresh, ex_load "StrictAllComponents") s' ex_the_reconciler enumerates_self enumerates_self).
  - repeat constructor.
  - exact (fresh_ready _ ex_container_fresh).
  - exact ex_down_calm.
  - exact ex_history.
  - exact Hnew.
  - exact ex_healthy.
  - exact ex_after_up.
  - exact (ex_renders _).
  - repeat (constructor; [exact (ex_succeeds _)|]). constructor.
Defined.
