(* ===== verification/Recovery.v ===== *)
(** The recovery from immutable fields converges: a Deployment that the API
    server refuses to change is gone after one reconciliation, and the next one
    deploys. *)

From S2P Require Import Prelude GoStrings GoOS Params Kube ApiTypes KubeStore Request Namespace Dependencies.
From S2P Require Import Releases Deploy OperandTLS Workdir CopySafety Manifests Rendering Containment Image.
From S2P Require Import TlsProfile Flags Runtimes Reconciler Main System Liveness.
Open Scope string_scope.
Open Scope nat_scope.
Open Scope list_scope.

(** ** Specification *)

(** The identity of a Deployment, as the recovery deletes it. *)
Abbreviation deployment := (GroupVersionKind * string * string)%type.

Section specification.
Context {O V K C Ver : Type} `{!Objects O V, !CtrlClient K, !DynamicClient O K}.
Context (up : K → Prop) (in_the_way : K → deployment → Prop).

(** A call after which no more Deployments are in the way than before. *)
Definition clears {B} (call : M K B) : Prop := ∀ k d, up k → in_the_way (call k).2 d → in_the_way k d.

(** What the operator relies on: [in_the_way] says which Deployments the API
    server would refuse to change; a deleted one is out of the way, no call of
    the operator puts one in the way, and the deploy action either succeeds or
    is refused because of a Deployment of the request that is in the way, for
    the requests that it gets. *)
Record replaceable (given : request O K C Ver → Prop) (deploy : action O K C Ver) : Prop := {
  way_delete k g name ns : up k →
    up (ClientDelete g name ns k).2 ∧ ¬ in_the_way (ClientDelete g name ns k).2 (g, name, ns);
  way_deleted g name ns : clears (ClientDelete g name ns);
  way_get n : clears (GetNamespaceObj n);
  way_create n l : clears (CreateNamespace n l);
  way_config name ns : clears (ReaderGetConfigMap name ns);
  way_list gvr sel : clears (DynList gvr "" sel);
  way_deploy rr : given rr → up (rr_cluster rr) → ∃ r k c, deploy rr = (r, set_conditions c (set_cluster k rr)) ∧ up k ∧
    match r with
    | Ok _ => True
    | Err e => Contains (Error e) "field is immutable" = true ∧
        ∃ d, d ∈ omap recovery_deletion (rr_resources rr) ∧ in_the_way (rr_cluster rr) d
    end;
}.

(** The cluster is up and none of the Deployments is in the way. *)
Definition settled (ds : list deployment) (k : K) : Prop := up k ∧ ∀ d, d ∈ ds → ¬ in_the_way k d.

End specification.

(** ** Lemmas *)

Section lemmas.
Context {O V K C Ver : Type} `{!Objects O V, !ApiErrors, !CtrlClient K, !DynamicClient O K, !PlatformUtils O K}.
Context (up : K → Prop) (in_the_way : K → deployment → Prop) (ct : string).
Context (given : request O K C Ver → Prop) (deploy : action O K C Ver) (Hway : replaceable up in_the_way given deploy).

Lemma answers_settled {B} benign (call : M K B) ds k :
  answers up benign call k → clears up in_the_way call → settled up in_the_way ds k →
  answers (settled up in_the_way ds) benign call k.
Proof. intros [Hu He] Hc [Hk Hd]. split; [|done]. split; [done|]. intros d Hin Hw. by eapply Hd, Hc. Qed.

Lemma settled_healthy ds : healthy (O:=O) up ct → healthy (O:=O) (settled up in_the_way ds) ct.
Proof.
  intros Hup. split.
  - intros k [Hk _]. by eapply up_reads.
  - intros k [Hk _]. by eapply up_type.
  - intros k r [Hk _]. by eapply up_met.
  - intros k n Hk. apply answers_settled; [eapply up_get, Hk|eapply way_get|done]; done.
  - intros k n l Hk. apply answers_settled; [eapply up_create, Hk|eapply way_create|done]; done.
  - intros k name ns Hk. apply answers_settled; [eapply up_config, Hk|eapply way_config|done]; done.
  - intros k g sel Hk. destruct (up_list _ _ Hup k g sel (proj1 Hk)) as [Ha Hn]. split; [|done].
    by apply answers_settled; [|eapply way_list|].
Qed.

(** The deletions leave a settled cluster. *)
Lemma deletions_settle (l : list O) k : up k →
  let k' := (forM l delete_deployment k).2 in
  up k' ∧ ∀ d, in_the_way k' d → in_the_way k d ∧ d ∉ omap recovery_deletion l.
Proof.
  revert k. induction l as [|res l IH]; intros k Hk; cbn zeta.
  { split; [done|]. intros d Hd. split; [done|apply not_elem_of_nil]. }
  rewrite forM_cons. unfold delete_deployment at 1 3. cbn [omap list_omap]. unfold recovery_deletion at 1.
  destruct (bool_decide (GetKind res = "Deployment")) eqn:Ek; cbn [negb]; [|exact (IH k Hk)].
  unfold try. unfold mbind, M_bind.
  pose proof (way_delete _ _ _ _ Hway k (GroupVersionKindOf res) (GetName res) (GetNamespace res) Hk) as [Hk1 Hgone].
  pose proof (way_deleted _ _ _ _ Hway (GroupVersionKindOf res) (GetName res) (GetNamespace res) k) as Hmono.
  destruct (ClientDelete _ _ _ k) as [r k1]. cbn in Hk1, Hgone, Hmono. cbn [mret M_ret].
  destruct (IH k1 Hk1) as [Hk2 Hd]. split; [done|]. intros d [Hd1 Hn]%Hd. split; [by apply Hmono|].
  intros [-> |Hin]%elem_of_cons; done.
Qed.

(** What is rendered has the Deployments of its sets. *)
Lemma rendered_deployments {A} `{!YamlMaps A, !TLSTables, !Kustomize O} (rendered : resourceSet → list O → Prop)
    (D : resourceSet → list deployment) sets ls :
  (∀ rs l, rs ∈ sets → rendered rs l → omap recovery_deletion l = D rs) → Forall2 rendered sets ls →
  omap recovery_deletion (concat ls) = concat (D <$> sets).
Proof.
  intros HD Hls. induction Hls as [|rs l sets ls Hl _ IH]; [done|]. cbn.
  rewrite omap_app, IH, (HD rs l); [done|by left|done|]. intros rs' l' Hin. apply HD. by right.
Qed.

End lemmas.

(** ** Properties *)

Section properties.
Context {O V A K C Ver W : Type} `{!Objects O V, !ApiErrors, !CtrlClient K, !DynamicClient O K,
  !PlatformUtils O K, !ConditionManager C, !Semver Ver, !YamlMaps A, !TLSTables, !Kustomize O, !KustomizeReads O,
  !Framework O K C Ver W, !ActionRunner O K C Ver}.
Context (Quote : string → string) (range_src range_dst : gmap string string → list (string * string))
  (UnmarshalMetadata : string → result componentMetadata).

#[local] Abbreviation framework_deploy := (fwdeploy_NewAction (O:=O) (K:=K) (C:=C) (Ver:=Ver) (W:=W) deploy_options).
#[local] Abbreviation framework_deployments := (fwdeployments_NewAction (O:=O) (K:=K) (C:=C) (Ver:=Ver) (W:=W) resolveNamespace).
#[local] Abbreviation framework_gc := (fwgc_NewAction (O:=O) (K:=K) (C:=C) (Ver:=Ver) (W:=W) resolveNamespace gc_action_options).

(** One reconciliation, from any conditions and cluster that is up: it succeeds, or
    it is refused and leaves the cluster settled. *)
Lemma reconcile_settles (up : K → Prop) (in_the_way : K → deployment → Prop) (ct : string) (profile : TLSProfileSpec) (im : os)
    (D : resourceSet → list deployment) (s s' : os * W) (r : Reconciler O K C Ver) (w : world K Ver) (c : C) (old : list deployment)
    (Hrs : enumerates range_src) (Hrd : enumerates range_dst)
    (Hnew : NewReconciler (O:=O) (A:=A) (K:=K) (C:=C) (Ver:=Ver) (W:=W) Quote range_src range_dst UnmarshalMetadata
              (reconciler_config profile) s = (Ok r, s'))
    (Hhealthy : healthy (O:=O) up ct) (Hway : replaceable up in_the_way (rendered_request (A:=A) Quote ct profile im) framework_deploy)
    (Hdeployments : succeeds up (rendered_request (A:=A) Quote ct profile im) framework_deployments)
    (Hgc : succeeds up (rendered_request (A:=A) Quote ct profile im) framework_gc)
    (Hrenders : renders (A:=A) Quote ct profile im (resolveNamespace (w_trainer w)))
    (HD : ∀ rs l, rs ∈ resourceSets (actions_of (reconciler_config profile)) (resolveNamespace (w_trainer w))
        (bool_decide (ct = ClusterTypeOpenShift)) →
      rendered_set (A:=A) Quote (actions_of (reconciler_config profile)) im rs l → omap recovery_deletion l = D rs)
    (Hfiles : files_ready im (w_os w)) (Hns : readable_namespace (w_trainer w)) (Hup : settled up in_the_way old (w_cluster w)) :
  let ds := concat (D <$> resourceSets (actions_of (reconciler_config profile)) (resolveNamespace (w_trainer w))
                      (bool_decide (ct = ClusterTypeOpenShift))) in
  let '(res, rr) := reconcile r (request_of c w) in
  match res with
  | Ok _ => up (rr_cluster rr)
  | Err e => Contains (Error e) "field is immutable" = true ∧ settled up in_the_way ds (rr_cluster rr) ∧ ¬ ds ⊆ old
  end.
Proof.
  cbn zeta. erewrite reconcile_split by exact Hnew.
  destruct (prepare_live (A:=A) Quote range_src range_dst UnmarshalMetadata Hrs Hrd _ ct
    (settled_healthy up in_the_way ct _ _ Hway old Hhealthy) profile im (request_of c w) Hrenders Hns Hfiles Hup)
    as (rr1 & -> & [Hk1 Hold] & Ens & Hrr1). specialize (Hrr1 eq_refl). pose proof Hrr1 as (_ & ls & Hl & Hls).
  rewrite Ens in Hls. apply (rendered_deployments _ D) in Hls; [|exact HD].
  assert (omap recovery_deletion (rr_resources rr1) = concat (D <$> resourceSets (actions_of (reconciler_config profile))
    (resolveNamespace (w_trainer w)) (bool_decide (ct = ClusterTypeOpenShift)))) as Hds by (by rewrite Hl).
  destruct (way_deploy _ _ _ _ Hway rr1 Hrr1 Hk1) as ([[]|e] & k2 & c2 & Hd & Hk2 & He).
  - destruct (after_deploy_live (A:=A) Quote up ct Hhealthy profile im Hdeployments Hgc k2 c2 rr1 Hrr1 Hd Hk2) as (rr2 & -> & _ & Hk3). exact Hk3.
  - destruct He as (He & d & Hin & Hw). unfold deploy_actions. rewrite forM_cons, (recovery_refused _ _ _ _ Hd He).
    split; [done|]. destruct (deletions_settle up in_the_way _ _ Hway (rr_resources rr1) k2 Hk2) as [Hk3 Hgone].
    split.
    + split; [exact Hk3|]. rewrite <-Hds. intros d' Hin' [_ Hn]%Hgone. by apply Hn.
    + intros Hsub. eapply Hold, Hw. apply Hsub. by rewrite <-Hds.
Qed.

(** C3: A Deployment that cannot be changed is replaced.  On a cluster that is
    up, where the API server refuses to change some Deployment because of an
    immutable field, the reconciliation fails with this error, and the one that
    follows the requeue succeeds: at most two reconciliations are needed, with
    whatever status the first has left.  The files are those of a container of the
    image; of kustomize and the framework it is asked that they work on copies of
    the image's templates and on what is rendered from them, and that the
    Deployments among it are the same each time. *)
Theorem recovery_converges (up : K → Prop) (in_the_way : K → deployment → Prop) (ct : string) (profile : TLSProfileSpec) (im : os)
    (D : resourceSet → list deployment) (s s' : os * W) (r : Reconciler O K C Ver) (w : world K Ver) (c c' : C) (t : Trainer)
    (Hrs : enumerates range_src) (Hrd : enumerates range_dst)
    (Hnew : NewReconciler (O:=O) (A:=A) (K:=K) (C:=C) (Ver:=Ver) (W:=W) Quote range_src range_dst UnmarshalMetadata
              (reconciler_config profile) s = (Ok r, s'))
    (Hhealthy : healthy (O:=O) up ct) (Hway : replaceable up in_the_way (rendered_request (A:=A) Quote ct profile im) framework_deploy)
    (Hown : Forall minds_own [framework_deploy; framework_deployments; framework_gc])
    (Hframework : Forall (succeeds up (rendered_request (A:=A) Quote ct profile im)) [framework_deployments; framework_gc])
    (Hrenders : renders (A:=A) Quote ct profile im (resolveNamespace (w_trainer w)))
    (HD : ∀ rs l, rs ∈ resourceSets (actions_of (reconciler_config profile)) (resolveNamespace (w_trainer w))
        (bool_decide (ct = ClusterTypeOpenShift)) →
      rendered_set (A:=A) Quote (actions_of (reconciler_config profile)) im rs l → omap recovery_deletion l = D rs)
    (Hfiles : files_ready im (w_os w)) (Hns : readable_namespace (w_trainer w)) (Hup : up (w_cluster w)) :
  let '(res, rr) := reconcile r (request_of c w) in
  stored (w_trainer w) (rr_instance rr) t →
  res = Ok tt ∨
  (∃ e, res = Err e ∧ Contains (Error e) "field is immutable" = true) ∧
  ∃ rr', reconcile r (request_of c' (World (rr_cluster rr) (rr_os rr) t (rr_release rr))) = (Ok tt, rr') ∧ up (rr_cluster rr').
Proof.
  rewrite !list.Forall_cons in Hown. rewrite !list.Forall_cons in Hframework.
  destruct Hown as (Ho1 & Ho2 & Ho3 & _), Hframework as (Hf2 & Hf3 & _).
  pose proof (reconcile_settles up in_the_way ct profile im D s s' r) as Hsettles.
  assert (built (O:=O) (A:=A) (K:=K) (C:=C) (Ver:=Ver) (W:=W) Quote range_src range_dst UnmarshalMetadata r) as Hb
    by (by exists profile, s, s').
  pose proof (reconcile_ready Quote range_src range_dst UnmarshalMetadata Hrs Hrd im Ho1 Ho2 Ho3 r Hb (request_of c w)) as [_ Hready].
  assert (settled up in_the_way [] (w_cluster w)) as Hup0 by (split; [done|]; intros d Hd; by apply elem_of_nil in Hd).
  pose proof (Hsettles w c [] Hrs Hrd Hnew Hhealthy Hway Hf2 Hf3 Hrenders HD Hfiles Hns Hup0) as H1. cbn zeta in H1.
  destruct (reconcile r (request_of c w)) as [[[]|e] rr]; intros Ht; [by left|right].
  destruct H1 as (He & Hk & _).
  split; [by exists e|].
  destruct Ht as (_ & Hspec & _).
  assert (resolveNamespace t = resolveNamespace (w_trainer w)) as Et by (unfold resolveNamespace; by rewrite Hspec).
  assert (readable_namespace t) as Hns' by (unfold readable_namespace; by rewrite Et).
  rewrite <-Et in Hrenders, HD. rewrite <-Et in Hk.
  pose proof (Hsettles (World (rr_cluster rr) (rr_os rr) t (rr_release rr)) c' _ Hrs Hrd Hnew Hhealthy Hway Hf2 Hf3 Hrenders HD
    (Hready Hns Hfiles) Hns' Hk) as H2. cbn zeta in H2. cbn [w_trainer] in H2.
  destruct (reconcile r _) as [[[]|e'] rr']; [by exists rr'|]. by destruct H2 as (_ & _ & []).
Qed.

End properties.

(** *** Witness *)

#[local] Existing Instances ex_semver ex_yaml ex_kustomize ex_tables ex_runner ex_kustomize_reads.

#[local] Abbreviation ex_conditions := (gmap string (bool * string * string)).

(** The Deployments of the store are those of an earlier version, with another
    selector. *)
Definition ex_in_the_way (k : cluster) (d : deployment) : Prop := (d.1.1, (d.1.2, d.2)) ∈ c_deployed k.

(** A deploy action that the API server refuses as long as one of them is there. *)
Definition ex_deploy : action obj cluster ex_conditions string := λ rr,
  if existsb (λ d : deployment, bool_decide ((d.1.1, (d.1.2, d.2)) ∈ c_deployed (rr_cluster rr)))
       (omap recovery_deletion (rr_resources rr))
  then (Err (ErrForeign "Invalid" "spec.selector: field is immutable"), rr) else (Ok tt, rr).

#[local] Instance ex_old_fw : Framework obj cluster ex_conditions string unit := ex_framework_with ex_deploy.

Lemma ex_replaceable given : replaceable ex_up ex_in_the_way given ex_deploy.
Proof.
  assert (∀ k, ex_up k → api_call k = (Ok tt, k)) as Hcall.
  { intros k (Hf & _). unfold api_call. by rewrite Hf. }
  split.
  - intros k g name ns Hk. cbn. munfold. rewrite (Hcall k Hk). cbn. unfold ex_in_the_way.
    case_bool_decide as Hin; cbn; [|done]. split; [exact Hk|]. intros [Hn _]%list_elem_of_filter. by apply Hn.
  - intros g name ns k d Hk. cbn. munfold. rewrite (Hcall k Hk). cbn. unfold ex_in_the_way.
    case_bool_decide as Hin; cbn; [|done]. by intros [_ ?]%list_elem_of_filter.
  - intros n k d Hk. cbn. munfold. rewrite (Hcall k Hk). cbn. by destruct (c_namespaces k !! n).
  - intros n l k d Hk. cbn. munfold. rewrite (Hcall k Hk). cbn. by destruct (c_namespaces k !! n).
  - intros n ns k d Hk. cbn. munfold. rewrite (Hcall k Hk). cbn. by destruct (c_configmaps k !! _).
  - intros g sel k d Hk. cbn. unfold store_list. munfold. rewrite (Hcall k Hk). cbn. by destruct (c_served k g).
  - intros rr _ Hk. exists (ex_deploy rr).1, (rr_cluster rr), (rr_conditions rr). unfold ex_deploy.
    destruct (existsb _ _) eqn:E; (split; [by destruct rr|]); (split; [done|]); cbn; [|done].
    split; [by vm_compute|]. apply existsb_exists in E as (d & Hin & Hd%bool_decide_eq_true). exists d.
    split; [by apply list_elem_of_In|exact Hd].
Qed.

Lemma ex_deploy_own : minds_own ex_deploy.
Proof. intros rr. unfold ex_deploy. by destruct (existsb _ _). Qed.

Definition ex_operand : deployment := (GVK "apps" "v1" "Deployment", operandDeploymentName, "apps").

Definition ex_deployments (rs : resourceSet) : list deployment :=
  if bool_decide (rs_subDir rs = "manifests") then [ex_operand] else [].

Lemma ex_rendered_deployments ns rs l :
  rs ∈ resourceSets (actions_of (reconciler_config ex_profile)) ns (bool_decide ("Kubernetes" = ClusterTypeOpenShift)) →
  rendered_set (O:=obj) (A:=string) id (actions_of (reconciler_config ex_profile)) ex_container rs l →
  omap recovery_deletion l = ex_deployments rs.
Proof.
  intros Hin (s & _ & Hl). cbn in Hin. rewrite !elem_of_cons, elem_of_nil in Hin.
  destruct Hin as [-> |[-> |[]]]; vm_compute in Hl; injection Hl as <-; reflexivity.
Qed.

Definition ex_old_world : world cluster string :=
  World (set_deployed [(ex_operand.1.1, (ex_operand.1.2, ex_operand.2))] ex_ready_cluster) ex_container
    (w_trainer ex_world) (w_release ex_world).

Definition ex_old_new :=
  NewReconciler (V:=json) (A:=string) (W:=unit) (K:=cluster) (C:=ex_conditions) (Ver:=string)
    id map_to_list map_to_list ex_metadata (reconciler_config ex_profile) (ex_container, tt).

Definition ex_old_reconciler : Reconciler obj cluster ex_conditions string :=
  match ex_old_new.1 with
  | Ok r => r
  | Err _ => MkReconciler (ReconcilerFor jobSetOperatorGVK) (MkPlatformRelease "" "")
  end.

Lemma ex_old_new_ok : ∃ s', ex_old_new = (Ok ex_old_reconciler, s').
Proof.
  unfold ex_old_reconciler. assert (is_ok ex_old_new.1 = true) as Hok by by vm_compute.
  destruct ex_old_new as [[r|e] s']; [by exists s'|done].
Qed.

Definition ex_refusal : result unit * request obj cluster ex_conditions string :=
  reconcile ex_old_reconciler (request_of ∅ ex_old_world).

Lemma recovery_converges_witness :
  c_deployed (rr_cluster ex_refusal.2) = [] ∧
  ∃ rr', reconcile ex_old_reconciler (request_of ∅
    (World (rr_cluster ex_refusal.2) (rr_os ex_refusal.2) (rr_instance ex_refusal.2) (rr_release ex_refusal.2))) = (Ok tt, rr').
Proof.
  split; [by vm_compute|]. destruct ex_old_new_ok as [s' Hnew].
  assert (is_ok ex_refusal.1 = false) as Hno by by vm_compute.
  assert (stored (w_trainer ex_old_world) (rr_instance ex_refusal.2) (rr_instance ex_refusal.2)) as Hst
    by (split; [vm_compute; reflexivity|split; [vm_compute; reflexivity|right; reflexivity]]).
  assert (Forall minds_own [ex_deploy; mret tt; mret tt]) as Hown
    by (constructor; [exact ex_deploy_own|repeat (constructor; [exact ex_minds_own|]); constructor]).
  assert (∀ given, Forall (succeeds ex_up given) [mret tt : action obj cluster ex_conditions string; mret tt]) as Hf
    by (intros given; repeat (constructor; [exact (ex_succeeds given)|]); constructor).
  assert (ex_up (w_cluster ex_old_world)) as Hup by (split_and!; [done|done|by left|done]).
  pose proof (recovery_converges (O:=obj) (V:=json) (A:=string) (K:=cluster) (C:=ex_conditions) (Ver:=string) (W:=unit)
    id map_to_list map_to_list ex_metadata ex_up ex_in_the_way "Kubernetes" ex_profile ex_container ex_deployments (ex_container, tt) s'
    ex_old_reconciler ex_old_world ∅ ∅ (rr_instance ex_refusal.2) enumerates_self enumerates_self Hnew ex_healthy
    (ex_replaceable _) Hown (Hf _) (ex_renders _) (ex_rendered_deployments _) (fresh_ready _ ex_container_fresh) ex_readable Hup) as H1.
  change (reconcile ex_old_reconciler (request_of ∅ ex_old_world)) with ex_refusal in H1.
  destruct ex_refusal as [res rr]. destruct (H1 Hst) as [Hok|[_ (rr' & Hr & _)]]; [|by exists rr'].
  by rewrite Hok in Hno.
Defined.
