(* ===== verification/Persistence.v ===== *)
(** A work directory is prepared once: from its first entry on, and as long as no
    system call fails, nothing in it changes but its parameter file.  A
    preparation that was interrupted is therefore never completed. *)

From S2P Require Import Prelude GoStrings GoOS Params Kube ApiTypes KubeStore Request Namespace Dependencies.
From S2P Require Import Releases Deploy OperandTLS Workdir CopySafety Manifests Rendering Containment Image TlsProfile Flags.
From S2P Require Import Runtimes Reconciler Main System Liveness.
Open Scope string_scope.
Open Scope nat_scope.
Open Scope list_scope.

(** ** Lemmas *)

(** *** No call schedules a failure *)

Definition hushed (s s' : os) : Prop := quiet s → quiet s'.

#[export] Instance hushed_refl : Reflexive hushed.
Proof. by intros s Hs. Qed.
#[export] Instance hushed_trans : Transitive hushed.
Proof. intros s1 s2 s3 H1 H2 Hs. by apply H2, H1. Qed.

Create HintDb hush discriminated.

Lemma next_fault_hushed : preserves hushed next_fault.
Proof. intros s Hs. unfold next_fault, quiet in *. by rewrite Hs. Qed.

Lemma upd_hushed f : preserves hushed (upd_nodes f).
Proof. by intros s Hs. Qed.

Lemma node_at_hushed p : preserves hushed (node_at p).
Proof. by intros s Hs. Qed.

Lemma follow_hushed op p : preserves hushed (follow op p).
Proof. intros s Hs. unfold follow. by destruct (resolve 40 (os_nodes s) p). Qed.

Lemma lift_hushed {B} (r : result B) : preserves hushed (lift r).
Proof. by intros s Hs. Qed.

#[local] Hint Resolve lift_hushed next_fault_hushed upd_hushed node_at_hushed follow_hushed : hush.

(** Every operation is made of these. *)
Ltac hush := running; auto with hush.

Lemma syscall_hushed : preserves hushed syscall.
Proof. unfold syscall. hush. Qed.
#[local] Hint Resolve syscall_hushed : hush.

Lemma Lstat_hushed p : preserves hushed (Lstat p).
Proof. unfold Lstat. hush. Qed.
Lemma Stat_hushed p : preserves hushed (Stat p).
Proof. unfold Stat. hush. Qed.
Lemma ReadFile_hushed p : preserves hushed (ReadFile p).
Proof. unfold ReadFile. hush. Qed.
Lemma Create_hushed p : preserves hushed (Create p).
Proof. unfold Create. hush. Qed.
Lemma Write_hushed h d : preserves hushed (Write h d).
Proof. unfold Write, append_file. hush. Qed.
Lemma Close_hushed h : preserves hushed (Close h).
Proof. exact syscall_hushed. Qed.
Lemma Remove_hushed p : preserves hushed (Remove p).
Proof. unfold Remove. hush. Qed.
Lemma Rename_hushed p q : preserves hushed (Rename p q).
Proof. unfold Rename. hush. Qed.
Lemma ReadDir_hushed p : preserves hushed (ReadDir p).
Proof. unfold ReadDir. hush. Qed.
Lemma Mkdir_hushed p : preserves hushed (Mkdir p).
Proof. unfold Mkdir. hush. Qed.
Lemma Open_hushed p : preserves hushed (Open p).
Proof. unfold Open. hush. Qed.
Lemma ReadAll_hushed p : preserves hushed (ReadAll p).
Proof. unfold ReadAll. hush. Qed.
#[local] Hint Resolve Lstat_hushed Stat_hushed ReadFile_hushed Create_hushed Write_hushed Close_hushed Remove_hushed
  Rename_hushed ReadDir_hushed Mkdir_hushed Open_hushed ReadAll_hushed : hush.

Lemma bufWrite_hushed h b d : preserves hushed (bufWrite h b d).
Proof. unfold bufWrite. hush. Qed.
Lemma bufFlush_hushed h b : preserves hushed (bufFlush h b).
Proof. unfold bufFlush. hush. Qed.
#[local] Hint Resolve bufWrite_hushed bufFlush_hushed : hush.

Lemma write_lines_hushed h b l : preserves hushed (write_lines h b l).
Proof. revert b. induction l as [|kv l IH]; intros b; cbn [write_lines]; hush. Qed.
#[local] Hint Resolve write_lines_hushed : hush.

Lemma writeParams_hushed range p m : preserves hushed (writeParams range p m).
Proof. unfold writeParams. hush. Qed.
#[local] Hint Resolve writeParams_hushed : hush.

Lemma update_file_hushed range p new : preserves hushed (update_file (writeParams range p) p new).
Proof. unfold update_file, readParams. hush. Qed.

Lemma mkdir_take_hushed p n : preserves hushed (mkdir_take p n).
Proof. induction n as [|n IH]; cbn [mkdir_take]; hush. Qed.

Lemma copyFile_hushed p q : preserves hushed (copyFile p q).
Proof. unfold copyFile. hush. Qed.
#[local] Hint Resolve mkdir_take_hushed copyFile_hushed : hush.

Lemma copy_entry_hushed src dst p i e : preserves hushed (copy_entry src dst p i e).
Proof. unfold copy_entry, MkdirAll. hush. Qed.

Lemma walk_hushed fuel src dst p n : preserves hushed (walk fuel (copy_entry src dst) p n).
Proof.
  revert p n. induction fuel as [|fuel IH]; intros p n; cbn [walk]; [hush|].
  running; try apply copy_entry_hushed; auto with hush.
  apply forM_preserves; [apply _..|]. intros name _. running; try apply copy_entry_hushed; auto with hush.
Qed.

Lemma ensureWorkDir_hushed src dst : preserves hushed (ensureWorkDir src dst).
Proof.
  unfold ensureWorkDir, copyDir, Walk. hush; try apply copy_entry_hushed; apply walk_hushed.
Qed.

(** *** What a rewrite and a new directory touch *)

Lemma Rename_frame p q : preserves (frame [p; q]) (Rename p q).
Proof.
  apply preserves_bind; [apply _|apply syscall_frame|]. intros [] s. unfold node_at. unfold mbind, M_bind.
  assert (∀ n, frame [p; q] s (set_nodes (<[q := n]> (delete p (os_nodes s))) s)) as Hu.
  { intros n. split; [done|]. intros x Hx. rewrite !not_elem_of_cons in Hx. destruct Hx as (H1 & H2 & _).
    cbn. by rewrite lookup_insert_ne, lookup_delete_ne. }
  destruct (os_nodes s !! p) as [[]|], (os_nodes s !! q) as [[]|]; cbn; done || apply Hu.
Qed.

Lemma Create_frame p s : (∀ t, os_nodes s !! p ≠ Some (Symlink t)) →
  frame [p] s (Create p s).2 ∧ ∀ h, (Create p s).1 = Ok h → h = p.
Proof.
  intros Hp. unfold Create. unfold mbind, M_bind. pose proof (syscall_frame [p] s) as Hf.
  destruct (syscall s) as [[[]|e] s1] eqn:E; [|done]. apply syscall_run in E as [En _]. cbn in Hf.
  rewrite follow_id by (by rewrite En). unfold node_at. cbn [fst snd].
  assert (frame [p] s (set_nodes (<[p := File ""]> (os_nodes s1)) s1)) as Hu.
  { transitivity s1; [done|]. split; [done|]. intros x Hx. cbn. rewrite lookup_insert_ne; [done|]. set_solver. }
  destruct (os_nodes s1 !! p) as [[c| |t]|]; cbn; [split; [exact Hu|by intros h [= <-]]|done|done|].
  destruct (os_nodes s1 !! parent p) as [[]|]; cbn; try done. split; [exact Hu|by intros h [= <-]].
Qed.

Lemma Mkdir_frame p : preserves (frame [p]) (Mkdir p).
Proof.
  apply preserves_bind; [apply _|apply syscall_frame|]. intros [] s. unfold node_at. unfold mbind, M_bind. cbn [fst snd].
  destruct (os_nodes s !! p) as [n|]; [done|]. destruct (os_nodes s !! parent p) as [[]|]; cbn; try done.
  split; [done|]. intros x Hx. cbn. rewrite lookup_insert_ne; [done|]. set_solver.
Qed.

Lemma Lstat_frame ps p : preserves (frame ps) (Lstat p).
Proof. unfold Lstat. running; try apply syscall_frame. by intros s. Qed.

Lemma mkdir_take_frame ps p n : (∀ k, take k p ∈ ps) → preserves (frame ps) (mkdir_take p n).
Proof.
  intros Hps. induction n as [|n IH]; cbn [mkdir_take]; running; auto using Stat_frame, Lstat_frame.
  all: intros s; eapply frame_mono; [|apply Mkdir_frame]; intros x Hx; set_solver.
Qed.

Section touches.
Context (range : gmap string string → list (string * string)) (p : path).
#[local] Abbreviation files := [path_append p ".tmp"; p].

Lemma writeParams_touches params s : (∀ t, os_nodes s !! path_append p ".tmp" ≠ Some (Symlink t)) →
  frame files s (writeParams range p params s).2.
Proof.
  intros Hs. unfold writeParams. destruct (Create_frame _ s Hs) as [Hf Hh].
  unfold mbind at 1, M_bind at 1. destruct (Create _ s) as [[h|e] s1]; cbn in Hf, Hh |- *.
  2:{ eapply frame_mono; [|exact Hf]. set_solver. }
  rewrite (Hh h eq_refl). transitivity s1; [eapply frame_mono; [|exact Hf]; set_solver|].
  match goal with |- frame _ _ (?run s1).2 => cut (preserves (frame files) run); [intros H; apply H|] end.
  assert (path_append p ".tmp" ∈ files) as Hin by by left.
  running; auto using write_lines_frame, bufFlush_frame, Close_frame, Remove_frame, Rename_frame.
Qed.

Lemma update_file_touches new s : (∀ t, os_nodes s !! path_append p ".tmp" ≠ Some (Symlink t)) →
  frame files s (update_file (writeParams range p) p new s).2.
Proof.
  intros Hs. unfold update_file. unfold mbind at 1, M_bind at 1, try at 1.
  pose proof (Stat_frame [] p s) as F1. destruct (Stat p s) as [[n|e] s1]; cbn in F1 |- *.
  2:{ destruct (IsNotExist e); by apply frame_nil_any. }
  unfold mbind at 1, M_bind at 1, wrapping. pose proof (readParams_frame [] p s1) as F2.
  destruct (readParams p s1) as [[m|e] s2]; cbn in F2 |- *; (transitivity s1; [by apply frame_nil_any|]);
    [|by apply frame_nil_any].
  transitivity s2; [by apply frame_nil_any|]. apply writeParams_touches. intros t.
  rewrite (frame_nil_nodes _ _ F2), (frame_nil_nodes _ _ F1). apply Hs.
Qed.

End touches.

(** *** What stays in a prepared directory *)

Section frozen.
Context (top : path) (rs : resourceSet).

#[local] Abbreviation work := (Join top (rs_subDir rs)).

(** The parameter file of the set and its temporary sibling. *)
Definition param_files : list path := [path_append (params_of rs work) ".tmp"; params_of rs work].

Definition linkless (s : os) : Prop := ∀ r t, os_nodes s !! (top ++ r) ≠ Some (Symlink t).

(** The work directory has an entry that no rewrite of the parameters removes. *)
Definition begun (s : os) : Prop := os_nodes s !! work = Some Dir ∧
  ∃ name, (work ++ [name] ∉ param_files) ∧ is_Some (os_nodes s !! (work ++ [name])).

Definition frozen (s s' : os) : Prop := quiet s → linkless s → begun s →
  (quiet s' ∧ linkless s' ∧ begun s') ∧
  ∀ r, work ++ r ∉ param_files → os_nodes s' !! (work ++ r) = os_nodes s !! (work ++ r).

#[export] Instance frozen_refl : Reflexive frozen.
Proof. intros s Hq Hl Hb. by split_and!. Qed.
#[export] Instance frozen_trans : Transitive frozen.
Proof.
  intros s1 s2 s3 H1 H2 Hq Hl Hb. destruct (H1 Hq Hl Hb) as [(Hq2 & Hl2 & Hb2) He].
  destruct (H2 Hq2 Hl2 Hb2) as [Hs3 He3]. split; [done|]. intros r Hr. by rewrite He3, He.
Qed.

Lemma params_below : ∃ c d, params_of rs work = work ++ c :: d.
Proof.
  generalize work. intros w. unfold params_of, overlay_of, Join. case_bool_decide; [by do 2 eexists|].
  rewrite <-app_assoc. by do 2 eexists.
Qed.

Lemma work_kept : work ∉ param_files.
Proof.
  unfold param_files. destruct params_below as (c & d & ->). rewrite path_append_app by done.
  assert (∀ x : path, x ≠ [] → work ≠ work ++ x) as Hne.
  { intros x Hx E. rewrite <-(app_nil_r work) in E at 1. by apply app_inv_head in E. }
  rewrite !not_elem_of_cons. split_and!; [apply Hne|by apply Hne|apply not_elem_of_nil]. by destruct d.
Qed.

Lemma frozen_intro {B} (a : M os B) :
  preserves hushed a → (∀ s0, preserves (keeps s0 top) a) →
  (∀ s r, quiet s → linkless s → begun s → work ++ r ∉ param_files →
     os_nodes (a s).2 !! (work ++ r) = os_nodes s !! (work ++ r)) →
  preserves frozen a.
Proof.
  intros Hh Hk He s Hq Hl Hb. assert (∀ r, work ++ r ∉ param_files →
    os_nodes (a s).2 !! (work ++ r) = os_nodes s !! (work ++ r)) as Hs by (intros r; by apply He).
  assert (contained top s s) as Hc by (split_and!; [done|by left|exact Hl]).
  apply (Hk s s) in Hc as (_ & _ & Hl').
  split; [|done]. split_and!; [by apply Hh|exact Hl'|]. destruct Hb as (Hw & name & Hn & Hi). split.
  - rewrite <-(app_nil_r work), Hs; rewrite app_nil_r; [done|apply work_kept].
  - exists name. split; [done|]. by rewrite (Hs [name]).
Qed.

(** A run that touches the parameter files at most. *)
Lemma frozen_frame {B} (a : M os B) ps :
  preserves hushed a → (∀ s0, preserves (keeps s0 top) a) → (∀ s, linkless s → frame ps s (a s).2) →
  (∀ r, work ++ r ∈ ps → work ++ r ∈ param_files) → preserves frozen a.
Proof.
  intros Hh Hk Hf Hps. apply frozen_intro; [done..|]. intros s r _ Hl _ Hr. apply (Hf s Hl). naive_solver.
Qed.

Lemma frozen_reads {B} (a : M os B) : preserves hushed a → preserves (frame []) a → preserves frozen a.
Proof.
  intros Hh Hf. apply (frozen_frame a []); [done|intros s0; by apply frame_keeps|intros s _; apply Hf|].
  intros r Hr. by apply elem_of_nil in Hr.
Qed.

Lemma prepared_frozen template : preserves frozen (ensureWorkDir template work).
Proof.
  intros s Hq Hl Hb. pose proof Hb as (Hw & name & _ & Hi). rewrite (ensureWorkDir_kept _ _ _ name); [|done..].
  by apply frozen_refl.
Qed.

Lemma rewrite_frozen range new : preserves frozen (update_file (writeParams range (params_of rs work)) (params_of rs work) new).
Proof.
  destruct params_below as (c & d & Hp). apply (frozen_frame _ param_files).
  - apply update_file_hushed.
  - intros s0. rewrite Hp. unfold Join. rewrite <-app_assoc. apply update_file_keeps. by destruct d.
  - intros s Hl. apply update_file_touches. intros t. rewrite Hp, path_append_app by done. unfold Join. rewrite <-app_assoc.
    apply Hl.
  - done.
Qed.

End frozen.

(** *** Renderings *)

Lemma Rel_sibling (top : path) a b r : a ≠ b → Rel (Join top a) (Join top b ++ r) = None.
Proof.
  intros Hne. apply Rel_None. intros r' E. unfold Join in E. rewrite <-!app_assoc in E. apply app_inv_head in E.
  by injection E as ->.
Qed.

Lemma Rel_back (top : path) a b r : a ≠ b → Rel (Join top b ++ r) (Join top a) = None.
Proof.
  intros Hne. apply Rel_None. intros r' E. unfold Join in E. rewrite <-!app_assoc in E. apply app_inv_head in E.
  by injection E as ->.
Qed.

Section rendering.
Context {O V A : Type} `{!Objects O V, !YamlMaps A, !TLSTables, !Kustomize O, !KustomizeReads O} (Quote : string → string).
Context (range_src range_dst : gmap string string → list (string * string)) (m : trainerActions).

#[local] Abbreviation render := (renderResourceSet (A:=A) Quote range_src range_dst m).

Lemma finish_hushed rs : preserves hushed (finish_set (A:=A) Quote m rs).
Proof.
  unfold finish_set, renderOverlay. running; auto with hush.
  intros s Hq. by rewrite (kustomize_still _ _ s Hq).
Qed.

Lemma prepare_hushed rs : preserves hushed (prepare_set range_src range_dst m rs).
Proof.
  unfold prepare_set. running; try apply ensureWorkDir_hushed; intros s.
  - rewrite applyParamOverrides_update. apply update_file_hushed.
  - rewrite applyStaticParams_update. apply update_file_hushed.
Qed.

Lemma renderResourceSet_hushed rs : preserves hushed (render rs).
Proof.
  intros s. rewrite render_split. revert s.
  change (preserves hushed (prepare_set range_src range_dst m rs;; finish_set (A:=A) Quote m rs)).
  apply preserves_bind; [apply _|apply prepare_hushed|intros []; apply finish_hushed].
Qed.

(** The set itself, with any static parameters, and every other set. *)
Lemma render_own rs rs' : rs_subDir rs' = rs_subDir rs → rs_overlay rs' = rs_overlay rs →
  preserves (frozen (a_workDir m) rs) (render rs').
Proof.
  intros Hsub Hover s. rewrite render_split. revert s.
  change (preserves (frozen (a_workDir m) rs) (prepare_set range_src range_dst m rs';; finish_set (A:=A) Quote m rs')).
  assert (∀ w, overlay_of rs' w = overlay_of rs w) as Ho by (intros w; unfold overlay_of; by rewrite Hover).
  assert (set_work m rs' = Join (a_workDir m) (rs_subDir rs)) as Hw by (unfold set_work; by rewrite Hsub).
  unfold prepare_set. rewrite Hw, Ho. running.
  - apply prepared_frozen.
  - intros s. rewrite applyParamOverrides_update. apply rewrite_frozen.
  - intros s. rewrite applyStaticParams_update. apply rewrite_frozen.
  - apply frozen_reads; [apply finish_hushed|apply finish_frame].
Qed.

Lemma render_other rs rs' : rs_subDir rs' ≠ rs_subDir rs → preserves (frozen (a_workDir m) rs) (render rs').
Proof.
  intros Hne. apply frozen_intro; [apply renderResourceSet_hushed|intros s0; apply renderResourceSet_keeps|].
  intros s r _ Hl _ _. assert (contained (set_work m rs') s s) as Hc.
  { split_and!; [done|by left|]. intros r' t. unfold set_work, Join. rewrite <-app_assoc. apply Hl. }
  apply (renderResourceSet_keeps_at (A:=A) Quote range_src range_dst s m _ [] rs' (eq_sym (app_nil_r _)) s) in Hc as (_ & Hn & _).
  destruct (Hn (Join (a_workDir m) (rs_subDir rs) ++ r)) as [He|[[x Hx] _]]; [by apply Rel_sibling|done|].
  unfold set_work in Hx. by rewrite Rel_back in Hx.
Qed.

Lemma render_frozen rs rs' : is_set m rs → is_set m rs' → preserves (frozen (a_workDir m) rs) (render rs').
Proof.
  intros Hs Hs'. destruct (decide (rs_subDir rs' = rs_subDir rs)) as [He|Hne]; [|by apply render_other].
  apply render_own; [done|]. destruct Hs as [ns Hr], Hs' as [ns' Hr'].
  cbn in Hr, Hr'. rewrite !elem_of_cons, elem_of_nil in Hr, Hr'.
  destruct Hr as [-> |[-> |[-> |[]]]], Hr' as [-> |[-> |[-> |[]]]]; done.
Qed.

Context {K C Ver : Type} `{!PlatformUtils O K}.

(** The same on a request. *)
Definition keeps_frozen (rs : resourceSet) (rr rr' : request O K C Ver) : Prop :=
  frozen (a_workDir m) rs (rr_os rr) (rr_os rr').

#[export] Instance keeps_frozen_refl rs : Reflexive (keeps_frozen rs).
Proof. intros rr. unfold keeps_frozen. reflexivity. Qed.
#[export] Instance keeps_frozen_trans rs : Transitive (keeps_frozen rs).
Proof. intros r1 r2 r3 H1 H2. unfold keeps_frozen in *. by transitivity (rr_os r2). Qed.

Lemma renderManifests_frozen rs : is_set m rs →
  preserves (keeps_frozen rs) (renderManifests (A:=A) (K:=K) (C:=C) (Ver:=Ver) Quote range_src range_dst m).
Proof.
  intros Hs. unfold renderManifests. apply preserves_bind; [apply _|by intros rr|]. intros t.
  apply preserves_bind; [apply _|apply preserves_wrapping; intros rr; by rewrite on_client_run|]. intros ct.
  apply preserves_bind; [apply _| |intros []; by intros rr].
  apply forM_preserves; [apply _..|]. intros rs' Hin. unfold render_set.
  apply preserves_bind; [apply _| |intros l; by intros rr].
  intros rr. rewrite on_os_run. apply render_frozen; [done|]. exists (resolveNamespace t).
  revert Hin. unfold resourceSets. case_bool_decide; [done|]. rewrite app_nil_r. intros Hin. apply elem_of_app. by left.
Qed.

End rendering.

(** *** Steps *)

Section steps.
Context {O V A K C Ver W X Cert : Type} `{!Objects O V, !ApiErrors, !CtrlClient K, !DynamicClient O K,
  !PlatformUtils O K, !ConditionManager C, !Semver Ver, !YamlMaps A, !TLSTables, !Kustomize O, !KustomizeReads O,
  !FrameworkTLS W X, !ControllerRuntime W X Cert, !Framework O K C Ver W, !ActionRunner O K C Ver}.
Context (Quote : string → string) (range_src range_dst : gmap string string → list (string * string))
  (UnmarshalMetadata : string → result componentMetadata)
  (X509KeyPair : string → string → result Cert) (abs : string → path).
Context (rs : resourceSet).

Definition host_frozen (a b : os * W) : Prop := frozen workDir rs a.1 b.1.

#[local] Instance host_frozen_refl : Reflexive host_frozen.
Proof. intros a. unfold host_frozen. reflexivity. Qed.
#[local] Instance host_frozen_trans : Transitive host_frozen.
Proof. intros a b c H1 H2. unfold host_frozen in *. by transitivity (b.1). Qed.

Lemma on_fw_frozen {B} (a : M W B) : preserves host_frozen (on_fw a).
Proof. intros [s w]. unfold on_fw, zoom. cbn. destruct (a w). unfold host_frozen. reflexivity. Qed.

Lemma on_host_frozen {B} (a : M os B) : preserves (frozen workDir rs) a → preserves host_frozen (on_host (W:=W) a).
Proof. intros Ha [s w]. unfold on_host, zoom. cbn. specialize (Ha s). by destruct (a s). Qed.

Lemma still_frozen {B} (a : M os B) : preserves still a → preserves (frozen workDir rs) a.
Proof. intros Ha s Hq. rewrite (Ha s Hq). by apply frozen_refl. Qed.

(** The work directory and its ancestors are all that is made. *)
Lemma MkdirAll_frozen : preserves (frozen workDir rs) (MkdirAll workDir).
Proof.
  apply (frozen_frame _ _ _ [[]; take 1 workDir; workDir]).
  - apply mkdir_take_hushed.
  - intros s0. unfold MkdirAll. rewrite <-(app_nil_r workDir) at 2 3. apply mkdir_take_keeps.
  - intros s _. apply mkdir_take_frame. intros [|[|k]]; cbn; [by left|by right; left|]. right. right.
    apply list_elem_of_singleton. by destruct k.
  - intros r Hr. rewrite !elem_of_cons, elem_of_nil in Hr. by destruct Hr as [Hr|[Hr|[Hr|[]]]].
Qed.

Lemma prepare_paths_frozen : preserves (frozen workDir rs) prepare_paths.
Proof.
  unfold prepare_paths. running; try apply still_frozen, check_template_still. apply MkdirAll_frozen.
Qed.

Lemma main_frozen Start fl : preserves host_frozen (main (O:=O) (A:=A) (K:=K) (C:=C) (Ver:=Ver) (X:=X) (Cert:=Cert)
  Quote range_src range_dst UnmarshalMetadata X509KeyPair abs Start fl).
Proof.
  assert (∀ cfg, preserves host_frozen (NewReconciler (O:=O) (A:=A) (K:=K) (C:=C) (Ver:=Ver) (W:=W) Quote range_src range_dst
    UnmarshalMetadata cfg)) as Hnew.
  { intros cfg. apply preserves_bind; [apply _|apply on_fw_frozen|intros []].
    apply preserves_bind; [apply _|apply preserves_wrapping, on_fw_frozen|intros []].
    apply preserves_bind; [apply _| |intros rel s; by apply host_frozen_refl].
    by apply preserves_try, (on_host_frozen (readBootstrapRelease (Ver:=Ver) UnmarshalMetadata Quote (ManifestsPath cfg))),
      still_frozen, bootstrap_still. }
  unfold main. repeat (apply preserves_bind; [apply _|first
    [apply on_fw_frozen | apply preserves_wrapping, on_fw_frozen | apply on_host_frozen, prepare_paths_frozen
    | apply preserves_wrapping, Hnew | intros s; by apply host_frozen_refl]|intros ?]).
  apply preserves_wrapping, on_fw_frozen.
Qed.

End steps.

Section histories.
Context {O V A K C Ver W X Cert : Type} `{!Objects O V, !ApiErrors, !CtrlClient K, !DynamicClient O K,
  !PlatformUtils O K, !ConditionManager C, !Semver Ver, !YamlMaps A, !TLSTables, !Kustomize O, !KustomizeReads O,
  !FrameworkTLS W X, !ControllerRuntime W X Cert, !Framework O K C Ver W, !ActionRunner O K C Ver}.
Context (Quote : string → string) (range_src range_dst : gmap string string → list (string * string))
  (UnmarshalMetadata : string → result componentMetadata)
  (X509KeyPair : string → string → result Cert) (abs : string → path).

#[local] Abbreviation steps := (step (O:=O) (A:=A) (K:=K) (C:=C) (Ver:=Ver) (W:=W) (X:=X) Quote range_src range_dst
  UnmarshalMetadata X509KeyPair abs).
#[local] Abbreviation framework_actions := [fwdeploy_NewAction (O:=O) (K:=K) (C:=C) (Ver:=Ver) (W:=W) deploy_options;
  fwdeployments_NewAction (O:=O) (K:=K) (C:=C) (Ver:=Ver) (W:=W) resolveNamespace;
  fwgc_NewAction (O:=O) (K:=K) (C:=C) (Ver:=Ver) (W:=W) resolveNamespace gc_action_options].

Context (rs : resourceSet) (Hset : is_set (actions_of (reconciler_config some_profile)) rs)
  (Hown : Forall minds_own framework_actions).

Lemma reconcile_frozen r : built (O:=O) (A:=A) (K:=K) (C:=C) (Ver:=Ver) (W:=W) Quote range_src range_dst UnmarshalMetadata r →
  ∀ rr, frozen workDir rs (rr_os rr) (rr_os (reconcile r rr).2).
Proof.
  intros (profile & s & s' & [Ha _]%NewReconciler_actions). rewrite !list.Forall_cons in Hown.
  destruct Hown as (Ho1 & Ho2 & Ho3 & _). intros rr. unfold reconcile. rewrite run_actions_forM, Ha. revert rr.
  change (preserves (keeps_frozen (O:=O) (K:=K) (C:=C) (Ver:=Ver) (actions_of (reconciler_config profile)) rs)
    (forM (prepare_actions (A:=A) Quote range_src range_dst UnmarshalMetadata (reconciler_config profile) ++ deploy_actions (W:=W)) (λ a, a))).
  apply forM_preserves; [apply _..|]. intros a Hin.
  destruct (actions_leave Quote range_src range_dst UnmarshalMetadata Ho1 Ho2 Ho3 _ a Hin) as [->|Hl].
  - apply renderManifests_frozen. exact Hset.
  - intros rr Hq Hlk Hb. destruct (Hl rr) as [_ Ho]. rewrite (Ho Hq). by apply frozen_refl.
Qed.

Lemma step_frozen w w' : steps w w' → quiet (w_os w') → frozen workDir rs (w_os w) (w_os w').
Proof.
  intros [Start fl ws res s' ws' rel Hm|r c res rr t Hb Hr Hs|r c res rr Hb Hf|spec|name spec|k|fs] Hq; cbn in *;
    try reflexivity.
  - pose proof (main_frozen (O:=O) (A:=A) (K:=K) (C:=C) (Ver:=Ver) (W:=W) (X:=X) Quote range_src range_dst
      UnmarshalMetadata X509KeyPair abs rs Start fl (w_os w, ws)) as Hk. rewrite Hm in Hk. exact Hk.
  - pose proof (reconcile_frozen r Hb (request_of c w)) as Hk. by rewrite Hr in Hk.
  - destruct Hb as (profile & s & s' & [_ Hfin]%NewReconciler_actions). rewrite Hfin in Hf.
    unfold cleanup_action, gets in Hf. unfold mbind, M_bind in Hf. rewrite on_client_run in Hf. injection Hf as _ <-.
    reflexivity.
  - intros _ Hl Hb. by split.
Qed.

End histories.

(** ** Properties *)

Section properties.
Context {O V A K C Ver W X Cert : Type} `{!Objects O V, !ApiErrors, !CtrlClient K, !DynamicClient O K,
  !PlatformUtils O K, !ConditionManager C, !Semver Ver, !YamlMaps A, !TLSTables, !Kustomize O, !KustomizeReads O,
  !FrameworkTLS W X, !ControllerRuntime W X Cert, !Framework O K C Ver W, !ActionRunner O K C Ver}.
Context (Quote : string → string) (range_src range_dst : gmap string string → list (string * string))
  (UnmarshalMetadata : string → result componentMetadata)
  (X509KeyPair : string → string → result Cert) (abs : string → path).

#[local] Abbreviation steps := (step (O:=O) (A:=A) (K:=K) (C:=C) (Ver:=Ver) (W:=W) (X:=X) Quote range_src range_dst
  UnmarshalMetadata X509KeyPair abs).

(** C6: A work directory is prepared once.  From its first entry on, whatever the
    later starts, reconciliations and finalizations do, as long as no system
    call fails: no file of the work directory of a set changes, disappears or
    comes into being, but for its parameter file and the temporary file beside
    it.  So the renderings never disturb each other, and a copy of the template
    that was interrupted stays incomplete for ever. *)
Theorem prepared_once (w w' : world K Ver) (rs : resourceSet) (r : path)
    (Hown : Forall minds_own [fwdeploy_NewAction (O:=O) (K:=K) (C:=C) (Ver:=Ver) (W:=W) deploy_options;
      fwdeployments_NewAction (O:=O) (K:=K) (C:=C) (Ver:=Ver) (W:=W) resolveNamespace;
      fwgc_NewAction (O:=O) (K:=K) (C:=C) (Ver:=Ver) (W:=W) resolveNamespace gc_action_options])
    (Hset : is_set (actions_of (reconciler_config some_profile)) rs)
    (Hquiet : quiet (w_os w)) (Hlinks : linkless workDir (w_os w)) (Hbegun : begun workDir rs (w_os w))
    (Hhistory : rtc (λ w1 w2, steps w1 w2 ∧ quiet (w_os w2)) w w')
    (Hr : Join workDir (rs_subDir rs) ++ r ∉ param_files workDir rs) :
  os_nodes (w_os w') !! (Join workDir (rs_subDir rs) ++ r) = os_nodes (w_os w) !! (Join workDir (rs_subDir rs) ++ r).
Proof.
  assert (frozen workDir rs (w_os w) (w_os w')) as Hf; [|by apply Hf].
  clear Hquiet Hlinks Hbegun. induction Hhistory as [w|w w1 w' [Hs Hq] _ IH]; [reflexivity|].
  transitivity (w_os w1); [|done]. by apply (step_frozen _ _ _ _ _ _ rs Hset Hown w w1 Hs).
Qed.

End properties.

(** *** Witness *)

#[local] Existing Instances ex_framework ex_semver ex_yaml ex_kustomize ex_tables ex_runtime ex_main_fw ex_runner
  ex_kustomize_reads.

(** A template with two files; the copy of the second one fails. *)
Definition ex_two_files : gmap path node :=
  <[manifestsPath ++ ["rhoai"; "resources.yaml"] := File "kind: List"]> (<[workDir := Dir]> ex_container_nodes).

Definition ex_interrupted : result unit * os :=
  ensureWorkDir manifestsPath (workDir ++ ["manifests"])
    (OS ex_two_files ∅ (replicate 20 None ++ [Some (Fault (ErrForeign "EMFILE" "too many open files") 0)])).

Definition ex_half : world cluster string :=
  World ex_ready_cluster ex_interrupted.2 (w_trainer ex_world) (w_release ex_world).

(** The next reconciliation succeeds. *)
Definition ex_next : result unit * request obj cluster (gmap string (bool * string * string)) string :=
  reconcile ex_the_reconciler (request_of ∅ ex_half).

Definition ex_half_after : world cluster string :=
  World (rr_cluster ex_next.2) (rr_os ex_next.2) (rr_instance ex_next.2) (rr_release ex_next.2).

Definition ex_set : resourceSet := manifests_set (actions_of (reconciler_config some_profile)) "apps".

Lemma ex_half_history : rtc (λ w1 w2, step (O:=obj) (V:=json) (A:=string) (K:=cluster)
  (C:=gmap string (bool * string * string)) (Ver:=string) (W:=LoadResult) (X:=list string) (Cert:=string) id map_to_list
  map_to_list ex_metadata (λ c _, Ok c) (λ d, [d]) w1 w2 ∧ quiet (w_os w2)) ex_half ex_half_after.
Proof.
  apply rtc_once. split; [|by vm_compute].
  apply (step_reconcile _ _ _ _ _ _ ex_half ex_the_reconciler ∅ ex_next.1).
  - exact ex_is_built.
  - apply surjective_pairing.
  - split; [by vm_compute|split; [by vm_compute|right; reflexivity]].
Qed.

Lemma ex_half_linkless : linkless workDir (w_os ex_half).
Proof.
  intros r t Hn. assert (map_Forall (λ _ n, match n with Symlink _ => False | _ => True end) (os_nodes (w_os ex_half))) as Hall
    by (apply map_Forall_to_list; vm_compute; repeat constructor).
  exact (Hall _ _ Hn).
Qed.

Lemma prepared_once_witness :
  ex_interrupted.1 = Err (ErrForeign "EMFILE" "too many open files") ∧ ex_next.1 = Ok tt ∧
  os_nodes (w_os ex_half_after) !! (workDir ++ ["manifests"; "rhoai"; "resources.yaml"]) = None.
Proof.
  split; [by vm_compute|]. split; [by vm_compute|].
  etransitivity; [apply (prepared_once (O:=obj) (V:=json) (A:=string) (K:=cluster)
    (C:=gmap string (bool * string * string)) (Ver:=string) (W:=LoadResult) (X:=list string) (Cert:=string) id map_to_list
    map_to_list ex_metadata (λ c _, Ok c) (λ d, [d]) ex_half ex_half_after ex_set ["rhoai"; "resources.yaml"])|].
  - repeat (constructor; [exact ex_minds_own|]). constructor.
  - exists "apps". by left.
  - by vm_compute.
  - exact ex_half_linkless.
  - split; [by vm_compute|]. exists "rhoai". split; [|eexists; by vm_compute].
    apply (bool_decide_unpack _). by vm_compute.
  - exact ex_half_history.
  - apply (bool_decide_unpack _). by vm_compute.
  - by vm_compute.
Defined.
