(* ===== verification/Resilience.v ===== *)
(** The operator recovers from failing calls on files: whatever failed in the
    reconciliations before, only not while a work directory was prepared for the
    first time, a reconciliation on a healthy cluster succeeds. *)

From S2P Require Import Prelude GoStrings GoOS Params Kube ApiTypes KubeStore Request Namespace Dependencies.
From S2P Require Import Releases Deploy OperandTLS Workdir CopySafety Manifests Rendering Containment Interruption Image.
From S2P Require Import TlsProfile Flags Runtimes Reconciler Main System Liveness Persistence.
Open Scope string_scope.
Open Scope nat_scope.
Open Scope list_scope.

(** ** Specification *)

Section specification.
Context {O V A K C Ver : Type} `{!Objects O V, !ApiErrors, !CtrlClient K, !PlatformUtils O K, !ConditionManager C,
  !Semver Ver, !YamlMaps A, !TLSTables, !Kustomize O}.
Context (Quote : string → string) (range_src range_dst : gmap string string → list (string * string))
  (UnmarshalMetadata : string → result componentMetadata).
Context (cfg : ReconcilerConfig).

#[local] Abbreviation m := (actions_of cfg).

(** The renderings of the sets from [s] on: at each that is reached either no
    call is to fail, or the work directory is read and has entries, so that
    nothing is copied. *)
Fixpoint careful_sets (sets : list resourceSet) (s : os) : Prop :=
  match sets with
  | [] => True
  | rs :: sets' =>
      (quiet s ∨ ∃ x l s1, ReadDir (set_work m rs) s = (Ok (x :: l), s1)) ∧
      ∀ items s', renderResourceSet (A:=A) (O:=O) Quote range_src range_dst m rs s = (Ok items, s') →
        careful_sets sets' s'
  end.

(** A reconciliation of the request gets to the rendering. *)
Definition reaches_rendering (rr rr3 : request O K C Ver) : Prop :=
  ∃ rr1 rr2, checkDependencies rr = (Ok tt, rr1) ∧ ensureNamespace rr1 = (Ok tt, rr2) ∧
    updateReleases UnmarshalMetadata (ManifestsPath cfg) rr2 = (Ok tt, rr3).

(** A reconciliation in which any other call on files may fail. *)
Definition careful (rr : request O K C Ver) : Prop :=
  ∀ rr3, reaches_rendering rr rr3 → at_sets m careful_sets rr3.

(** A reconciliation in which kustomize reads copies of the templates only. *)
Definition runs_on_copies (im : os) (rr : request O K C Ver) : Prop :=
  ∀ rr3, reaches_rendering rr rr3 → at_sets m (reads_copies (A:=A) (O:=O) Quote range_src range_dst m im) rr3.

End specification.

(** The files of a container of the image are in order once the calls work. *)
Definition sound (im s : os) : Prop := files_ready im (quieted s).

(** ** Lemmas *)

Lemma quieted_quiet s : quiet s → quieted s = s.
Proof. destruct s as [n e f]. unfold quiet. cbn. by intros ->. Qed.

Lemma frame_quieted s s' : frame [] s s' → quieted s' = quieted s.
Proof.
  intros Hf. pose proof (frame_nil_nodes _ _ Hf) as Hn. destruct Hf as [He _]. unfold quieted, set_faults. by rewrite Hn, He.
Qed.

(** *** A set *)

Section sets.
Context {O V A : Type} `{!Objects O V, !YamlMaps A, !TLSTables, !Kustomize O, !KustomizeReads O} (Quote : string → string).
Context (range_src range_dst : gmap string string → list (string * string)).
Context (Hrs : enumerates range_src) (Hrd : enumerates range_dst).
Context (m : trainerActions) (Hlayout : laid_out m) (im : os).

(** A directory with entries is not one that is still to be made. *)
Lemma listed_not_unprepared rs c s x l s1 : ReadDir (set_work m rs) s = (Ok (x :: l), s1) → ¬ unprepared m rs c (quieted s).
Proof.
  intros Hread (_ & (_ & _ & _ & _ & Hbelow & _) & _). cbn [os_nodes quieted set_faults] in Hbelow.
  destruct (os_nodes s !! set_work m rs) as [n|] eqn:Ew.
  - pose proof (Hbelow []) as [H'|[_ [= ->]]]; [rewrite app_nil_r in H'; congruence|].
    destruct (ReadDir_names _ _ _ _ Ew Hread) as [Hl _].
    assert (x ∈ children (os_nodes s) (set_work m rs)) as [n' Hx]%elem_children by (rewrite <-Hl; by left).
    specialize (Hbelow [x]). destruct Hbelow as [H'|[? _]]; congruence.
  - unfold ReadDir in Hread. apply bind_ok_inv in Hread as ([] & s2 & [En _]%syscall_run & (q & s3 & Hf & Hn)%bind_ok_inv).
    rewrite (follow_id "open" (set_work m rs) s2) in Hf by (intros t; rewrite En; congruence). injection Hf as <- <-.
    unfold node_at in Hn. unfold mbind at 1, M_bind at 1 in Hn. rewrite En, Ew in Hn. by apply bind_ok_inv in Hn as (? & ? & _ & [=]).
Qed.

(** What a disturbed rendering leaves is ready again once the calls work. *)
Lemma settled_ready rs c Q s s' : is_set m rs → ready m im (quieted s) → prepared m rs c (quieted s) →
  copied m im rs (quieted s) → (∀ p, Q p → current im rs p) →
  settled (params_of rs (set_work m rs)) Q s s' → ready m im (quieted s').
Proof.
  intros Hin (_ & Hwf & Him & Hanc & Hsets) Hprep Hcp HQ Hs'.
  destruct (prepared_base _ _ _ _ Hprep) as (Hc & Hp & Hw & Hd).
  pose proof Hs' as (He & Ho & Hp' & c' & p & Hc' & _ & _). cbn [os_nodes quieted set_faults] in Hwf, Hanc.
  set (f := params_of rs (set_work m rs)) in *.
  assert (∀ q, os_nodes s !! q = Some Dir → os_nodes s' !! q = Some Dir) as Hdirs.
  { intros q Hq. eapply settled_dir; [exact Hs'|by eexists|exact Hp|exact Hq]. }
  assert (∀ q, Rel (set_work m rs) q = None → os_nodes s' !! q = os_nodes s !! q) as Hout.
  { intros q Hq. apply Ho; intros ->; unfold f in Hq; rewrite ?params_tmp, ?params_app, Rel_app in Hq; done. }
  assert (wf_tree (os_nodes s')) as Hwf'.
  { split; [apply Hdirs, Hwf|]. intros q x n Hn. apply Hdirs.
    destruct (decide (q ++ [x] = f)) as [Ef|Hf]; [by eapply Hwf; rewrite Ef|].
    destruct (decide (q ++ [x] = path_append f ".tmp")) as [Et|Ht]; [|rewrite Ho in Hn by done; by eapply Hwf].
    by rewrite <-Et, parent_snoc in Hd. }
  split_and!; [done|exact Hwf'| | |].
  - apply (holds_image_kept m im (quieted s)); [done..| |done]. intros q _ H2. cbn [os_nodes quieted set_faults].
    apply Hout, Rel_None. intros r ->. unfold set_work, GoOS.Join in H2. by rewrite <-app_assoc, Rel_app in H2.
  - intros q [r Hr%Rel_Some]. cbn [os_nodes quieted set_faults]. rewrite Hout; [apply Hanc; exists r; by apply Rel_Some|].
    apply Rel_None. intros r' E. rewrite E in Hr. unfold set_work, GoOS.Join in Hr. apply (f_equal length) in Hr.
    rewrite !length_app in Hr. cbn in Hr. lia.
  - intros rs' Hin'. destruct (Hsets rs' Hin') as [Hrdy Henv']. split; [|by rewrite (env_overrides_env (quieted s)) by exact He].
    destruct (decide (rs_subDir rs' = rs_subDir rs)) as [Hsub|Hsub].
    + destruct (settled_prepared _ _ _ _ _ _ Hs' Hprep) as (c1 & p1 & Hprep1 & Hparse1 & HQ1).
      exists c1, p1. split; [done|]. split; [exact (same_current m im rs rs' _ Hin Hin' Hsub (HQ _ HQ1))|]. left.
      split; [exact (same_set m rs rs' _ _ Hin Hin' Hsub Hprep1)|]. apply (same_copied m im rs rs' _ Hin Hin' Hsub).
      exact (copied_settled m im rs Q s s' Hs' Hcp).
    + apply (spares_ready m Hlayout im rs' (quieted s)); [done..| |done]. split; [done|]. intros q.
      cbn [os_nodes quieted set_faults]. destruct (Rel (set_work m rs) q) as [r|] eqn:E; [|left; by apply Hout].
      right. right. exists (rs_subDir rs). split; [congruence|]. by exists r.
Qed.

(** A rendering of a set whose work directory is read and has entries settles. *)
Lemma listed_settled rs s : is_set m rs → wf_params (rs_staticParams rs) → ready m im (quieted s) →
  (∃ x l s1, ReadDir (set_work m rs) s = (Ok (x :: l), s1)) →
  ∃ c Q, prepared m rs c (quieted s) ∧ copied m im rs (quieted s) ∧ (∀ p, Q p → current im rs p) ∧
    settled (params_of rs (set_work m rs)) Q s (renderResourceSet (A:=A) Quote range_src range_dst m rs s).2.
Proof.
  intros Hin Hstatic (_ & _ & [He _] & _ & Hsets) (x & l & s1 & Hread).
  destruct (Hsets rs Hin) as [(c & params & Hparse & Hcur & [[Hprep Hcp]|Hun]) Henv];
    [|by destruct (listed_not_unprepared _ _ _ _ _ _ Hread Hun)].
  destruct (prepared_base _ _ _ _ Hprep) as (Hc & Hp & _ & _).
  exists c, (converging rs s params). split_and!; [done|done| |].
  - intros p Hcv. unfold current. cbn in He. unfold converging in Hcv.
    assert (∀ p', resolved rs s p' = resolved rs im p') as E by (intros p'; unfold resolved, env_overrides, Getenv; by rewrite He).
    by rewrite !E in Hcv; rewrite Hcv.
  - apply (render_settled (A:=A) Quote range_src range_dst m rs s params s _ c Hrs Hrd Henv Hstatic Hprep).
    + exists (os_faults s). assert (set_faults (os_faults s) s = s) as -> by by destruct s. by rewrite Hread.
    + split_and!; [done|done|exact Hp|by exists c, params].
Qed.

(** When nothing is copied with failing calls, a preparation that succeeds leaves a
    copy of the template. *)
Lemma prepare_copied rs s s1 : is_set m rs → wf_params (rs_staticParams rs) → ready m im (quieted s) →
  (quiet s ∨ ∃ x l s1, ReadDir (set_work m rs) s = (Ok (x :: l), s1)) →
  prepare_set range_src range_dst m rs s = (Ok tt, s1) → copied m im rs s1.
Proof.
  intros Hin Hstatic Hr [Hq|Hread] Hrun.
  - rewrite (quieted_quiet s Hq) in Hr.
    destruct (prepare_ready range_src range_dst m Hlayout im Hrs Hrd rs s Hin Hstatic Hr) as (s' & Hrun' & [Hc _] & _).
    rewrite Hrun in Hrun'. by injection Hrun' as ->.
  - destruct (listed_settled rs s Hin Hstatic Hr Hread) as (c & Q & _ & Hcp & _ & Hs').
    apply (copied_kept m im rs (renderResourceSet (A:=A) Quote range_src range_dst m rs s).2); [|by eapply copied_settled].
    intros q _ _ _. rewrite render_split. unfold mbind, M_bind. rewrite Hrun.
    by rewrite (frame_nil_nodes _ _ (finish_frame (A:=A) Quote m rs s1)).
Qed.

(** A rendering of a set, when nothing is copied with failing calls. *)
Lemma render_careful rs s : is_set m rs → wf_params (rs_staticParams rs) → ready m im (quieted s) →
  (quiet s ∨ ∃ x l s1, ReadDir (set_work m rs) s = (Ok (x :: l), s1)) →
  ready m im (quieted (renderResourceSet (A:=A) Quote range_src range_dst m rs s).2).
Proof.
  intros Hin Hstatic Hr [Hq|Hread].
  - rewrite (quieted_quiet s Hq) in Hr.
    destruct (render_ready (A:=A) Quote range_src range_dst m Hlayout im Hrs Hrd rs s Hin Hstatic Hr) as (s' & -> & _ & Hr').
    cbn [snd]. rewrite quieted_quiet; [exact Hr'|apply Hr'].
  - destruct (listed_settled rs s Hin Hstatic Hr Hread) as (c & Q & Hprep & Hcp & HQ & Hs'). by eapply settled_ready.
Qed.

End sets.

(** *** A start *)

Section start.
Context (im : os).

Definition keeps_sound (s s' : os) : Prop := sound im s → sound im s'.

#[local] Instance keeps_sound_refl : Reflexive keeps_sound.
Proof. by intros s Hs. Qed.
#[local] Instance keeps_sound_trans : Transitive keeps_sound.
Proof. intros s1 s2 s3 H1 H2 Hs. by apply H2, H1. Qed.

Lemma frame_keeps_sound {B} (a : M os B) : preserves (frame []) a → preserves keeps_sound a.
Proof. intros Ha s. unfold keeps_sound, sound. by rewrite (frame_quieted _ _ (Ha s)). Qed.

(** A prefix of the work directory is made. *)
Lemma Mkdir_sound n : preserves keeps_sound (Mkdir (take n workDir)).
Proof.
  set (p := take n workDir). assert (is_Some (Rel p workDir)) as Hp.
  { exists (drop n workDir). apply Rel_Some. unfold p. by rewrite take_drop. }
  intros s Hs. unfold Mkdir. unfold mbind at 1, M_bind at 1.
  pose proof (syscall_frame [] s) as F. destruct (syscall s) as [[[]|e] s1]; cbn in F |- *;
    [|by unfold sound; rewrite (frame_quieted _ _ F)].
  assert (sound im s1) as (Hq & Hwf & Him & Hanc & Hsets) by by unfold sound; rewrite (frame_quieted _ _ F).
  unfold node_at, get. unfold mbind, M_bind. cbn [os_nodes quieted set_faults] in Hwf, Hanc.
  destruct (os_nodes s1 !! p) as [x|] eqn:Ep; [by split_and!|].
  destruct (os_nodes s1 !! parent p) as [[]|] eqn:Epar; cbn; [by split_and!| |by split_and!..].
  assert (wf_tree (<[p := Dir]> (os_nodes s1))) as Hwf'.
  { destruct Hwf as [Hroot Hw]. split; [rewrite lookup_insert_ne by congruence; done|]. intros q x k.
    rewrite !lookup_insert. case_decide as E1; case_decide as E2; try done.
    - intros _. rewrite E1, parent_snoc in Epar. done.
    - apply Hw. }
  split_and!; [done|exact Hwf'| | |].
  - apply (holds_image_kept _ im (quieted s1) _ (main_layout some_profile)); [done| |done]. intros q Hqa _. cbn.
    rewrite lookup_insert_ne; [done|]. intros <-. change (a_workDir _) with workDir in Hqa. rewrite Hqa in Hp. by destruct Hp.
  - intros q Hqa. cbn. rewrite lookup_insert. case_decide; [by right|by apply Hanc].
  - intros rs Hin. destruct (Hsets rs Hin) as [Hr He]. split; [|done].
    apply (spares_ready _ (main_layout some_profile) im rs (quieted s1)); [done..| |done]. split; [done|]. intros q. cbn.
    rewrite lookup_insert. case_decide as E; [|by left]. right. left. by rewrite <-E.
Qed.

Lemma mkdir_take_sound n : preserves keeps_sound (mkdir_take workDir n).
Proof.
  assert (∀ q, preserves keeps_sound (Lstat q)) as HL.
  { intros q. apply frame_keeps_sound. apply preserves_bind; [apply _|auto with trainer|]. intros [] s.
    unfold node_at. unfold mbind, M_bind. by destruct (os_nodes s !! q). }
  assert (∀ q, preserves keeps_sound (Stat q)) as HS by (intros q; apply frame_keeps_sound; auto with trainer).
  induction n as [|n IH]; cbn [mkdir_take]; running; auto using Mkdir_sound.
Qed.

Lemma prepare_paths_sound : preserves keeps_sound prepare_paths.
Proof.
  assert (∀ what p, preserves keeps_sound (check_template what p)) as Hc.
  { intros what p. apply frame_keeps_sound. apply preserves_bind; [apply _|auto with trainer|]. intros []; by intros ?. }
  unfold prepare_paths. running; auto. apply mkdir_take_sound.
Qed.

End start.

(** *** A reconciliation *)

Section steps.
Context {O V A K C Ver W X Cert : Type} `{!Objects O V, !ApiErrors, !CtrlClient K, !DynamicClient O K,
  !PlatformUtils O K, !ConditionManager C, !Semver Ver, !YamlMaps A, !TLSTables, !Kustomize O, !KustomizeReads O,
  !FrameworkTLS W X, !ControllerRuntime W X Cert, !Framework O K C Ver W, !ActionRunner O K C Ver}.
Context (Quote : string → string) (range_src range_dst : gmap string string → list (string * string))
  (UnmarshalMetadata : string → result componentMetadata)
  (X509KeyPair : string → string → result Cert) (abs : string → path).

#[local] Abbreviation new_reconciler := (NewReconciler (O:=O) (A:=A) (K:=K) (C:=C) (Ver:=Ver) (W:=W) Quote range_src
  range_dst UnmarshalMetadata).
#[local] Abbreviation run_main := (main (O:=O) (A:=A) (K:=K) (C:=C) (Ver:=Ver) Quote range_src range_dst
  UnmarshalMetadata X509KeyPair abs).
#[local] Abbreviation careful_run := (careful (A:=A) (C:=C) (Ver:=Ver) Quote range_src range_dst UnmarshalMetadata).
#[local] Abbreviation steps := (step (O:=O) (A:=A) (K:=K) (C:=C) (Ver:=Ver) (W:=W) (X:=X) Quote range_src range_dst
  UnmarshalMetadata X509KeyPair abs).

(** The steps of the system with reconciliations that are careful. *)
Inductive careful_step (w : world K Ver) : world K Ver → Prop :=
| careful_start Start fl ws res s' ws' rel :
    run_main Start fl (w_os w, ws) = (res, (s', ws')) →
    careful_step w (World (w_cluster w) s' (w_trainer w) rel)
| careful_reconcile profile s s' r c res rr t :
    new_reconciler (reconciler_config profile) s = (Ok r, s') → careful_run (reconciler_config profile) (request_of c w) →
    reconcile r (request_of c w) = (res, rr) → stored (w_trainer w) (rr_instance rr) t →
    careful_step w (World (rr_cluster rr) (rr_os rr) t (rr_release rr))
| careful_finalize r c res rr :
    built (O:=O) (A:=A) (W:=W) Quote range_src range_dst UnmarshalMetadata r → finalize r (request_of c w) = (res, rr) →
    careful_step w (World (rr_cluster rr) (rr_os rr) (w_trainer w) (rr_release rr))
(** what others do: the resource, the cluster, the outcome of the calls to come *)
| careful_outside k fs t : careful_step w (World k (set_faults fs (w_os w)) t (w_release w)).

Context (Hrs : enumerates range_src) (Hrd : enumerates range_dst) (im : os).

(** Where no call is to fail, every reconciliation is careful. *)
Lemma quiet_careful_sets cfg sets s : quiet s → careful_sets (O:=O) (A:=A) Quote range_src range_dst cfg sets s.
Proof.
  revert s. induction sets as [|rs sets IH]; intros s Hq; [done|]. split; [by left|]. intros items s' E. apply IH.
  pose proof (renderResourceSet_hushed (A:=A) Quote range_src range_dst (actions_of cfg) rs s Hq) as Hq'. by rewrite E in Hq'.
Qed.

(** A set that is read and then fails is the last one. *)
Lemma careful_stops cfg rs sets s :
  match (ReadDir (set_work (actions_of cfg) rs) s).1 with Ok (_ :: _) => true | _ => false end = true →
  is_ok (renderResourceSet (A:=A) Quote range_src range_dst (actions_of cfg) rs s).1 = false →
  careful_sets (O:=O) (A:=A) Quote range_src range_dst cfg (rs :: sets) s.
Proof.
  intros Hread Hfail. split.
  - right. destruct (ReadDir _ s) as [[[|x l]|e] s1]; [done| |done]. by exists x, l, s1.
  - intros items s' E. by rewrite E in Hfail.
Qed.

Lemma quiet_careful cfg (rr : request O K C Ver) : quiet (rr_os rr) → careful_run cfg rr.
Proof.
  intros Hq rr3 (rr1 & rr2 & E1 & E2 & E3) ct k _. apply quiet_careful_sets.
  pose proof (proj2 (checkDependencies_leaves rr) Hq) as H1. rewrite E1 in H1. cbn [snd] in H1. rewrite <-H1 in Hq.
  pose proof (proj2 (ensureNamespace_leaves rr1) Hq) as H2. rewrite E2 in H2. cbn [snd] in H2. rewrite <-H2 in Hq.
  pose proof (proj2 (updateReleases_leaves UnmarshalMetadata (ManifestsPath cfg) rr2) Hq) as H3.
  rewrite E3 in H3. cbn [snd] in H3. by rewrite H3.
Qed.

Lemma sets_sound profile sets (rr : request O K C Ver) :
  let m := actions_of (reconciler_config profile) in
  Forall (λ rs, is_set m rs ∧ wf_params (rs_staticParams rs)) sets → sound im (rr_os rr) →
  careful_sets (O:=O) (A:=A) Quote range_src range_dst (reconciler_config profile) sets (rr_os rr) →
  sound im (rr_os (forM sets (render_set (A:=A) Quote range_src range_dst m) rr).2).
Proof.
  intros m Hsets. revert rr. induction Hsets as [|rs sets [Hin Hst] _ IH]; intros rr Hs; [done|].
  intros [Hc Hnext]. rewrite forM_cons, render_set_run.
  pose proof (render_careful (A:=A) Quote range_src range_dst Hrs Hrd m (main_layout profile) im rs (rr_os rr) Hin Hst Hs Hc) as Hs'.
  destruct (renderResourceSet _ _ _ m rs (rr_os rr)) as [[l|e] s'] eqn:E; [|exact Hs'].
  apply IH; [exact Hs'|]. by eapply Hnext.
Qed.

(** Such a reconciliation runs kustomize on copies of the templates only. *)
Lemma careful_copies profile sets s :
  let m := actions_of (reconciler_config profile) in
  Forall (λ rs, is_set m rs ∧ wf_params (rs_staticParams rs)) sets → sound im s →
  careful_sets (O:=O) (A:=A) Quote range_src range_dst (reconciler_config profile) sets s →
  reads_copies (A:=A) (O:=O) Quote range_src range_dst m im sets s.
Proof.
  intros m Hsets. revert s. induction Hsets as [|rs sets [Hin Hst] _ IH]; intros s Hs; [done|]. intros [Hc Hnext]. split.
  - intros s1. by apply (prepare_copied (A:=A) Quote range_src range_dst Hrs Hrd m (main_layout profile) im rs s s1).
  - intros items s' E. apply IH; [|by eapply Hnext].
    pose proof (render_careful (A:=A) Quote range_src range_dst Hrs Hrd m (main_layout profile) im rs s Hin Hst Hs Hc) as Hs'.
    by rewrite E in Hs'.
Qed.

Lemma renderManifests_sound profile (rr : request O K C Ver) :
  let m := actions_of (reconciler_config profile) in
  readable_namespace (rr_instance rr) → sound im (rr_os rr) →
  at_sets (actions_of (reconciler_config profile)) (careful_sets (O:=O) (A:=A) Quote range_src range_dst (reconciler_config profile)) rr →
  sound im (rr_os (renderManifests (A:=A) Quote range_src range_dst m rr).2).
Proof.
  intros m Hns Hs Hc. unfold renderManifests, gets, wrapping. unfold mbind, M_bind. rewrite on_client_run.
  destruct (DetectClusterType (rr_cluster rr)) as [[ct|e] k1] eqn:E; cbn [fst snd wrap_err]; [|done].
  pose proof (sets_sound profile (resourceSets m (resolveNamespace (rr_instance rr)) (bool_decide (ct = ClusterTypeOpenShift)))
    (set_cluster k1 rr)) as Hsound.
  assert (sound im (rr_os (forM (resourceSets m (resolveNamespace (rr_instance rr)) (bool_decide (ct = ClusterTypeOpenShift)))
    (render_set (A:=A) Quote range_src range_dst m) (set_cluster k1 rr)).2)) as Hs'.
  { apply Hsound; [|done|exact (Hc _ _ E)]. apply list.Forall_forall. intros rs Hin. by eapply sets_static. }
  by destruct (forM _ _ _) as [[[]|] rr'].
Qed.

Context (Hdeploy : minds_own (fwdeploy_NewAction (O:=O) (K:=K) (C:=C) (Ver:=Ver) (W:=W) deploy_options))
  (Hdeployments : minds_own (fwdeployments_NewAction (O:=O) (K:=K) (C:=C) (Ver:=Ver) (W:=W) resolveNamespace))
  (Hgc : minds_own (fwgc_NewAction (O:=O) (K:=K) (C:=C) (Ver:=Ver) (W:=W) resolveNamespace gc_action_options)).

(** The actions around the rendering leave the files as they are. *)
Lemma leaves_sound (a : action O K C Ver) rr : leaves a → sound im (rr_os rr) → sound im (rr_os (a rr).2).
Proof. intros Ha. destruct (Ha rr) as [[_ Hf] _]. unfold sound. by rewrite (frame_quieted _ _ Hf). Qed.

Lemma deploy_sound (rr : request O K C Ver) : sound im (rr_os rr) → sound im (rr_os (forM (deploy_actions (W:=W)) (λ a, a) rr).2).
Proof.
  pose proof (λ a, deploy_actions_leave (O:=O) Hdeploy Hdeployments Hgc a) as Hl. revert rr Hl.
  induction (deploy_actions (W:=W)) as [|a l IH]; intros rr Hl Hs; [done|]. rewrite forM_cons.
  pose proof (leaves_sound a rr (Hl a (list_elem_of_here _ _)) Hs) as H1.
  destruct (a rr) as [[u|e] rr1]; [|done]. apply IH; [|done]. intros a' Ha'. apply Hl. by right.
Qed.

(** The actions up to the rendering keep the files sound and the namespace. *)
Lemma reaches_sound cfg (rr rr3 : request O K C Ver) : readable_namespace (rr_instance rr) → sound im (rr_os rr) →
  reaches_rendering UnmarshalMetadata cfg rr rr3 → readable_namespace (rr_instance rr3) ∧ sound im (rr_os rr3).
Proof.
  intros Hns Hs (rr1 & rr2 & E1 & E2 & E3).
  pose proof (leaves_sound _ rr checkDependencies_leaves Hs) as H1. pose proof (proj1 (proj1 (checkDependencies_leaves rr))) as S1.
  rewrite E1 in H1, S1. cbn [snd] in H1, S1.
  pose proof (leaves_sound _ rr1 ensureNamespace_leaves H1) as H2. pose proof (proj1 (proj1 (ensureNamespace_leaves rr1))) as S2.
  rewrite E2 in H2, S2. cbn [snd] in H2, S2.
  pose proof (updateReleases_leaves UnmarshalMetadata (ManifestsPath cfg) rr2) as [[S3 _] _].
  pose proof (leaves_sound _ rr2 (updateReleases_leaves UnmarshalMetadata (ManifestsPath cfg)) H2) as H3.
  rewrite E3 in H3, S3. cbn [snd] in H3, S3. split; [|exact H3].
  unfold readable_namespace, resolveNamespace in *. by rewrite S3, S2, S1.
Qed.

Lemma prepare_sound profile (rr : request O K C Ver) : readable_namespace (rr_instance rr) → sound im (rr_os rr) →
  careful_run (reconciler_config profile) rr →
  sound im (rr_os (forM (prepare_actions (A:=A) Quote range_src range_dst UnmarshalMetadata (reconciler_config profile)) (λ a, a) rr).2).
Proof.
  intros Hns Hs Hc. unfold prepare_actions. rewrite forM_cons.
  pose proof (leaves_sound _ rr checkDependencies_leaves Hs) as H1.
  destruct (checkDependencies rr) as [[[]|e] rr1] eqn:E1; [|done]. cbn [snd] in H1. rewrite forM_cons.
  pose proof (leaves_sound _ rr1 ensureNamespace_leaves H1) as H2.
  destruct (ensureNamespace rr1) as [[[]|e] rr2] eqn:E2; [|done]. cbn [snd] in H2. rewrite forM_cons.
  pose proof (leaves_sound _ rr2 (updateReleases_leaves UnmarshalMetadata (ManifestsPath (reconciler_config profile))) H2) as H3.
  destruct (updateReleases _ _ rr2) as [[[]|e] rr3] eqn:E3; [|done]. cbn [snd] in H3. rewrite forM_cons.
  assert (reaches_rendering UnmarshalMetadata (reconciler_config profile) rr rr3) as Hreach by by exists rr1, rr2.
  destruct (reaches_sound _ rr rr3 Hns Hs Hreach) as [Hns3 _].
  pose proof (renderManifests_sound profile rr3 Hns3 H3 (Hc rr3 Hreach)) as H4.
  by destruct (renderManifests _ _ _ _ rr3) as [[[]|e] rr4].
Qed.

Lemma careful_runs_on_copies profile (rr : request O K C Ver) : readable_namespace (rr_instance rr) → sound im (rr_os rr) →
  careful_run (reconciler_config profile) rr →
  runs_on_copies (A:=A) Quote range_src range_dst UnmarshalMetadata (reconciler_config profile) im rr.
Proof.
  intros Hns Hs Hc rr3 Hreach ct k E. destruct (reaches_sound _ rr rr3 Hns Hs Hreach) as [Hns3 Hs3].
  apply careful_copies; [|exact Hs3|by eapply Hc]. apply list.Forall_forall. intros rs Hin. by eapply sets_static.
Qed.

Lemma reconcile_sound profile s s' r (rr : request O K C Ver) :
  new_reconciler (reconciler_config profile) s = (Ok r, s') → careful_run (reconciler_config profile) rr →
  readable_namespace (rr_instance rr) → sound im (rr_os rr) → sound im (rr_os (reconcile r rr).2).
Proof.
  intros Hnew Hc Hns Hs. erewrite reconcile_split by exact Hnew. pose proof (prepare_sound profile rr Hns Hs Hc) as H1.
  destruct (forM (prepare_actions _ _ _ _ _) _ rr) as [[u|e] rr1]; [by apply deploy_sound|done].
Qed.

Lemma bootstrap_sound p : preserves (keeps_sound im) (readBootstrapRelease (Ver:=Ver) UnmarshalMetadata Quote p).
Proof.
  apply frame_keeps_sound, preserves_bind; [apply _| |].
  - apply preserves_bind; [apply _|apply preserves_wrapping; auto with trainer|]. intros c. apply preserves_wrapping. by intros ?.
  - intros md. destruct (meta_Releases md) as [|x l]; [by intros ?|].
    apply preserves_bind; [apply _|apply preserves_wrapping; by intros ?|by intros ? ?].
Qed.

Lemma careful_step_sound w w' : careful_step w w' → readable_namespace (w_trainer w) → sound im (w_os w) → sound im (w_os w').
Proof.
  intros [Start fl ws res s' ws' rel Hm|profile s s' r c res rr t Hnew Hc Hr Hs|r c res rr Hb Hf|k fs t] Hns Hsound; cbn.
  - pose proof (main_keeps (O:=O) (A:=A) (K:=K) (C:=C) (Ver:=Ver) (X:=X) (Cert:=Cert) Quote range_src range_dst
      UnmarshalMetadata X509KeyPair abs (sound im) Start fl (prepare_paths_sound im) bootstrap_sound (w_os w, ws)) as Hk.
    rewrite Hm in Hk. by apply Hk.
  - pose proof (reconcile_sound profile s s' r (request_of c w) Hnew Hc Hns Hsound) as H1. by rewrite Hr in H1.
  - destruct Hb as (profile & s & s' & [_ Hfin]%NewReconciler_actions). rewrite Hfin in Hf.
    unfold cleanup_action, gets in Hf. unfold mbind, M_bind in Hf. rewrite on_client_run in Hf. by injection Hf as _ <-.
  - exact Hsound.
Qed.

(** A history of careful steps, whose namespaces can be read back. *)
Lemma careful_history_sound w w' :
  rtc (λ w1 w2, careful_step w1 w2 ∧ readable_namespace (w_trainer w2)) w w' →
  readable_namespace (w_trainer w) → sound im (w_os w) → sound im (w_os w') ∧ readable_namespace (w_trainer w').
Proof.
  induction 1 as [|w w1 w' [Hs Hc] _ IH]; intros Hns Hr; [done|]. apply IH; [done|].
  by eapply careful_step_sound.
Qed.

End steps.

(** ** Properties *)

Section properties.
Context {O V A K C Ver W X Cert : Type} `{!Objects O V, !ApiErrors, !CtrlClient K, !DynamicClient O K,
  !PlatformUtils O K, !ConditionManager C, !Semver Ver, !YamlMaps A, !TLSTables, !Kustomize O, !KustomizeReads O,
  !FrameworkTLS W X, !ControllerRuntime W X Cert, !Framework O K C Ver W, !ActionRunner O K C Ver}.
Context (Quote : string → string) (range_src range_dst : gmap string string → list (string * string))
  (UnmarshalMetadata : string → result componentMetadata)
  (X509KeyPair : string → string → result Cert) (abs : string → path).

#[local] Abbreviation steps := (careful_step (O:=O) (A:=A) (K:=K) (C:=C) (Ver:=Ver) (W:=W) (X:=X) Quote range_src range_dst
  UnmarshalMetadata X509KeyPair abs).
#[local] Abbreviation framework_deploy := (fwdeploy_NewAction (O:=O) (K:=K) (C:=C) (Ver:=Ver) (W:=W) deploy_options).
#[local] Abbreviation framework_deployments := (fwdeployments_NewAction (O:=O) (K:=K) (C:=C) (Ver:=Ver) (W:=W) resolveNamespace).
#[local] Abbreviation framework_gc := (fwgc_NewAction (O:=O) (K:=K) (C:=C) (Ver:=Ver) (W:=W) resolveNamespace gc_action_options).


End properties.

(** *** Witness *)

#[local] Existing Instances ex_framework ex_semver ex_yaml ex_kustomize ex_tables ex_runtime ex_main_fw ex_runner
  ex_kustomize_reads.

#[local] Abbreviation ex_conditions := (gmap string (bool * string * string)).

#[local] Abbreviation ex_careful_step := (careful_step (O:=obj) (V:=json) (A:=string) (K:=cluster) (C:=ex_conditions) (Ver:=string)
  (W:=LoadResult) (X:=list string) (Cert:=string) id map_to_list map_to_list ex_metadata (λ c _, Ok c) (λ d, [d])).

(** A fresh container on a cluster that is up, and what a reconciliation leaves. *)
Definition ex_calls_0 : world cluster string :=
  World ex_ready_cluster ex_container (w_trainer ex_world) (w_release ex_world).

Definition ex_reconciled (w : world cluster string) : result unit * request obj cluster ex_conditions string :=
  reconcile ex_the_reconciler (request_of ∅ w).

Definition ex_left (w : world cluster string) : world cluster string :=
  World (rr_cluster (ex_reconciled w).2) (rr_os (ex_reconciled w).2) (w_trainer w) (rr_release (ex_reconciled w).2).

Definition ex_with_calls (fs : list (option fault)) (w : world cluster string) : world cluster string :=
  World (w_cluster w) (set_faults fs (w_os w)) (w_trainer w) (w_release w).

(** The second reconciliation is killed while it writes the parameters of the
    manifests: every call fails from there on. *)
Definition ex_killed : list (option fault) :=
  replicate 8 None ++ replicate 40 (Some (Fault (ErrForeign "EIO" "input/output error") 0)).

Definition ex_calls_1 : world cluster string := ex_left ex_calls_0.
Definition ex_calls_2 : world cluster string := ex_with_calls ex_killed ex_calls_1.
Definition ex_calls_3 : world cluster string := ex_left ex_calls_2.
Definition ex_calls_4 : world cluster string := ex_with_calls [] ex_calls_3.

Lemma ex_reconcile_step w :
  careful (C:=ex_conditions) (A:=string) id map_to_list map_to_list ex_metadata (reconciler_config ex_profile) (request_of ∅ w) →
  stored (w_trainer w) (rr_instance (ex_reconciled w).2) (w_trainer w) → ex_careful_step w (ex_left w).
Proof.
  intros Hc Hst. destruct ex_built_ok as [s' Hnew].
  eapply (careful_reconcile _ _ _ _ _ _ w ex_profile); [exact Hnew|exact Hc|apply surjective_pairing|exact Hst].
Qed.

Lemma ex_killed_careful :
  careful (C:=ex_conditions) (A:=string) id map_to_list map_to_list ex_metadata (reconciler_config ex_profile) (request_of ∅ ex_calls_2).
Proof.
  intros rr3 (rr1 & rr2 & E1 & E2 & E3) ct k E. apply (f_equal snd) in E1, E2, E3. cbn [snd] in E1, E2, E3. subst rr1 rr2 rr3.
  match type of E with ?r = _ => assert (r.1 = Ok "Kubernetes") as Ek by by vm_compute end.
  rewrite E in Ek. injection Ek as ->.
  unfold resourceSets. apply careful_stops; by vm_compute.
Qed.

Lemma ex_calls_history : rtc (λ w1 w2, ex_careful_step w1 w2 ∧ readable_namespace (w_trainer w2)) ex_calls_0 ex_calls_4.
Proof.
  assert (∀ w, stored (w_trainer w) (rr_instance (ex_reconciled w).2) (w_trainer w)) as Hst.
  { intros w. split_and!; [done|done|by left]. }
  apply rtc_l with ex_calls_1; [split; [|exact ex_readable]|].
  { apply ex_reconcile_step; [|apply Hst]. apply quiet_careful. reflexivity. }
  apply rtc_l with ex_calls_2; [split; [apply (careful_outside _ _ _ _ _ _ ex_calls_1 _ ex_killed)|exact ex_readable]|].
  apply rtc_l with ex_calls_3; [split; [exact (ex_reconcile_step ex_calls_2 ex_killed_careful (Hst _))|exact ex_readable]|].
  apply rtc_once. split; [apply (careful_outside _ _ _ _ _ _ ex_calls_3 _ [])|exact ex_readable].
Qed.

Lemma ex_calls_up : ex_up (w_cluster ex_calls_4).
Proof.
  split_and!; [by vm_compute|by vm_compute| |intros g; by vm_compute].
  assert (c_crds (w_cluster ex_calls_4) = [jobSetGK]) as -> by by vm_compute. by left.
Qed.

