(* ===== verification/Rbac.v ===== *)
(** Authorization in the API server as the operator relies on it: RBAC rules
    and the requests they allow, and clients and lookups behind an authorizer
    that refuses the other requests. *)

From S2P Require Import Prelude GoStrings Kube.
Open Scope string_scope.
Open Scope nat_scope.
Open Scope list_scope.

(** ** Definitions *)

(** [rbacv1.PolicyRule]. *)
Record PolicyRule := MkRule {
  apiGroups : list string;
  resources : list string;
  verbs : list string;
  resourceNames : list string;
  nonResourceURLs : list string }.

Definition Rule (groups ress vs : list string) : PolicyRule := MkRule groups ress vs [] [].
Definition NamedRule (groups ress vs names : list string) : PolicyRule := MkRule groups ress vs names [].
Definition URLRule (urls vs : list string) : PolicyRule := MkRule [] [] vs [] urls.

(** What a request asks for.  The name is empty for the requests on a whole
    collection: [create], [list] and [watch]. *)
Inductive attributes :=
| ResourceRequest (verb group resource subresource name : string)
| URLRequest (verb path : string).

(** The documented meaning of a rule: it allows the verbs it lists on the
    resources it lists in the groups it lists, on all objects when it lists no
    names; a star stands for everything, and ends a partial URL. *)
Definition covers (p x : string) : bool := bool_decide (p = "*") || bool_decide (p = x).

Definition covers_resource (p resource subresource : string) : bool :=
  if bool_decide (subresource = "") then covers p resource
  else covers p (resource +:+ "/" +:+ subresource) || bool_decide (p = "*/" +:+ subresource).

Definition covers_url (p path : string) : bool :=
  let n := pred (String.length p) in
  bool_decide (p = path) ||
  (bool_decide (String.substring n 1 p = "*") && HasPrefix path (String.substring 0 n p)).

Definition rule_allows (r : PolicyRule) (q : attributes) : bool :=
  match q with
  | ResourceRequest verb group resource subresource name =>
      existsb (λ v, covers v verb) (verbs r) && existsb (λ g, covers g group) (apiGroups r) &&
      existsb (λ p, covers_resource p resource subresource) (resources r) &&
      (bool_decide (resourceNames r = []) || bool_decide (name ∈ resourceNames r))
  | URLRequest verb path =>
      existsb (λ v, covers v verb) (verbs r) && existsb (λ u, covers_url u path) (nonResourceURLs r)
  end.

(** The RBAC authorizer: a subject may do what some rule of its roles allows,
    and nothing else. *)
Class Authorizer := {
  allows : list PolicyRule → attributes → bool;
  allows_spec rules q : allows rules q = true ↔ ∃ r, r ∈ rules ∧ rule_allows r q = true;
}.

(** The names of the kinds in URLs and rules, as their APIs document them. *)
Definition documented_resources : list (string * string * string) :=
  [("", "Namespace", "namespaces"); ("", "ConfigMap", "configmaps"); ("", "Service", "services");
   ("", "Secret", "secrets"); ("", "ServiceAccount", "serviceaccounts");
   ("apps", "Deployment", "deployments");
   ("admissionregistration.k8s.io", "MutatingWebhookConfiguration", "mutatingwebhookconfigurations");
   ("admissionregistration.k8s.io", "ValidatingWebhookConfiguration", "validatingwebhookconfigurations");
   ("apiextensions.k8s.io", "CustomResourceDefinition", "customresourcedefinitions");
   ("networking.k8s.io", "NetworkPolicy", "networkpolicies");
   ("rbac.authorization.k8s.io", "ClusterRole", "clusterroles");
   ("rbac.authorization.k8s.io", "ClusterRoleBinding", "clusterrolebindings");
   ("rbac.authorization.k8s.io", "Role", "roles");
   ("rbac.authorization.k8s.io", "RoleBinding", "rolebindings");
   ("monitoring.coreos.com", "ServiceMonitor", "servicemonitors");
   ("image.openshift.io", "ImageStream", "imagestreams");
   ("operator.openshift.io", "JobSetOperator", "jobsetoperators");
   ("config.openshift.io", "APIServer", "apiservers");
   ("trainer.kubeflow.org", "ClusterTrainingRuntime", "clustertrainingruntimes");
   ("trainer.kubeflow.org", "TrainingRuntime", "trainingruntimes");
   ("components.platform.opendatahub.io", "Trainer", "trainers")].

Class RESTMapper := {
  resource_of : GroupVersionKind → string;
  mapping g v k r : (g, k, r) ∈ documented_resources → resource_of (GVK g v k) = r;
}.

(** *** Clients behind the authorizer *)

Section enforced.
Context {O V K : Type} `{!Objects O V, !CtrlClient K, !DynamicClient O K, !Authorizer, !RESTMapper}.
Context (rules : list PolicyRule) (Forbidden : attributes → goerror).

Definition enforce {A} (q : attributes) (m : M K A) : M K A :=
  if allows rules q then m else throw (Forbidden q).

Definition enforced_client : CtrlClient K := {|
  GetNamespaceObj n := enforce (ResourceRequest "get" "" "namespaces" "" n) (GetNamespaceObj n);
  CreateNamespace n l := enforce (ResourceRequest "create" "" "namespaces" "" "") (CreateNamespace n l);
  ClientDelete g n ns :=
    enforce (ResourceRequest "delete" (gvk_group g) (resource_of g) "" n) (ClientDelete g n ns);
  ReaderGetConfigMap n ns := enforce (ResourceRequest "get" "" "configmaps" "" n) (ReaderGetConfigMap n ns);
|}.

Definition enforced_dynamic : DynamicClient O K := {|
  DynList g ns sel :=
    enforce (ResourceRequest "list" (gvr_group g) (gvr_resource g) "" "") (DynList g ns sel);
  DynUpdate g ns o :=
    enforce (ResourceRequest "update" (gvr_group g) (gvr_resource g) "" (GetName o)) (DynUpdate g ns o);
  DynDelete g ns n pol :=
    enforce (ResourceRequest "delete" (gvr_group g) (gvr_resource g) "" n) (DynDelete (O:=O) g ns n pol);
|}.

End enforced.

(** The lookups of odh-platform-utilities, and the permissions that they need on
    all objects of a resource: the kind of cluster is told by the ClusterVersion,
    an operator by the conditions of OLM or its cluster extensions; CRDs and
    singletons are read through the cache of the manager. *)
Inductive lookup :=
| ClusterTypeLookup
| CRDLookup (gk : GroupKind)
| OperatorLookup (name : string)
| SingletonLookup (g : GroupVersionKind).

Definition cached_reads (group resource : string) : list (string * string * string) :=
  (λ verb, (verb, group, resource)) <$> ["get"; "list"; "watch"].

Definition lookup_needs `{!RESTMapper} (l : lookup) : list (string * string * string) :=
  match l with
  | ClusterTypeLookup => [("get", "config.openshift.io", "clusterversions")]
  | CRDLookup _ => cached_reads "apiextensions.k8s.io" "customresourcedefinitions"
  | OperatorLookup _ =>
      [("list", "operators.coreos.com", "operatorconditions"); ("list", "olm.operatorframework.io", "clusterextensions")]
  | SingletonLookup g => cached_reads (gvk_group g) (resource_of g)
  end.

Definition needs_met `{!RESTMapper} (ok : attributes → bool) (l : lookup) : Prop :=
  ∀ verb group resource name, (verb, group, resource) ∈ lookup_needs l →
    ok (ResourceRequest verb group resource "" name) = true.

(** The lookups with a client that refuses the requests which are not [ok]: they
    send no request but those they need, so that nothing changes for a lookup
    whose needs are met.  What becomes of the others is left open. *)
Class PlatformClients (O K : Type) `{!PlatformUtils O K, !RESTMapper} := {
  behind : (attributes → bool) → PlatformUtils O K;
  behind_openshift ok : @ClusterTypeOpenShift O K (behind ok) = ClusterTypeOpenShift;
  behind_type ok : needs_met ok ClusterTypeLookup → @DetectClusterType O K (behind ok) ≈ DetectClusterType;
  behind_crd ok gk : needs_met ok (CRDLookup gk) →
    @CustomResourceDefinitionExists O K (behind ok) gk ≈ CustomResourceDefinitionExists gk;
  behind_operator ok name : needs_met ok (OperatorLookup name) →
    @OperatorExists O K (behind ok) name ≈ OperatorExists name;
  behind_singleton ok g : needs_met ok (SingletonLookup g) → @GetSingleton O K (behind ok) g ≈ GetSingleton g;
}.

Definition enforced_lookups {O K} `{!PlatformUtils O K, !RESTMapper, !PlatformClients O K, !Authorizer}
    (rules : list PolicyRule) : PlatformUtils O K := behind (allows rules).

(** *** Single permissions *)

(** A rule is the product of its lists. *)
Inductive permission :=
| OnResource (verb group resource : string) (name : option string)
| OnURL (verb url : string).

#[export] Instance permission_eq_dec : EqDecision permission.
Proof. solve_decision. Defined.

Definition names_of (r : PolicyRule) : list (option string) :=
  match resourceNames r with [] => [None] | l => Some <$> l end.

Definition permissions (r : PolicyRule) : list permission :=
  v ← verbs r;
  (g ← apiGroups r; p ← resources r; OnResource v g p <$> names_of r) ++ (OnURL v <$> nonResourceURLs r).

Definition all_permissions (rules : list PolicyRule) : list permission := rules ≫= permissions.

Definition grants (p : permission) (q : attributes) : bool :=
  match p, q with
  | OnResource v g r n, ResourceRequest verb group resource subresource name =>
      covers v verb && covers g group && covers_resource r resource subresource &&
      match n with None => true | Some n => bool_decide (name = n) end
  | OnURL v u, URLRequest verb path => covers v verb && covers_url u path
  | _, _ => false
  end.

(** The same permission, on all objects or on the same one. *)
Definition subsumes (p p' : permission) : bool :=
  match p, p' with
  | OnResource v g r _, OnResource v' g' r' None =>
      if bool_decide (r = r') then bool_decide (v = v') && bool_decide (g = g') else false
  | _, _ => bool_decide (p = p')
  end.

(** Every permission of the first rules is one of the second. *)
Definition contained (rules rules' : list PolicyRule) : bool :=
  let ps := all_permissions rules' in
  forallb (λ p, existsb (subsumes p) ps) (all_permissions rules).

(** ** Lemmas *)

Lemma existsb_true {A} (f : A → bool) (l : list A) : existsb f l = true ↔ ∃ x, x ∈ l ∧ f x = true.
Proof. rewrite existsb_exists. by setoid_rewrite list_elem_of_In. Qed.

Lemma forallb_true {A} (f : A → bool) (l : list A) : forallb f l = true ↔ ∀ x, x ∈ l → f x = true.
Proof. rewrite forallb_forall. by setoid_rewrite list_elem_of_In. Qed.

Lemma covers_refl x : covers x x = true.
Proof. unfold covers. by rewrite (bool_decide_eq_true_2 (x = x)), orb_true_r. Qed.

Lemma covers_resource_refl r : covers_resource r r "" = true.
Proof. apply covers_refl. Qed.

(** Without a star only the thing itself is covered. *)
Lemma covers_only p x : p ≠ "*" → covers p x = true → p = x.
Proof. unfold covers. intros Hp [?%bool_decide_eq_true|?%bool_decide_eq_true]%orb_true_iff; done. Qed.

Lemma names_allow r name :
  bool_decide (resourceNames r = []) || bool_decide (name ∈ resourceNames r) = true ↔
  ∃ n, n ∈ names_of r ∧ match n with None => true | Some n => bool_decide (name = n) end = true.
Proof.
  unfold names_of. destruct (resourceNames r) as [|x l]; cbn [orb].
  - split; [|done]. intros _. exists None. split; [by left|done].
  - rewrite orb_true_iff, !bool_decide_eq_true. split.
    + intros [?|H]; [done|]. exists (Some name). rewrite bool_decide_eq_true_2 by done.
      split; [by apply list_elem_of_fmap_2|done].
    + intros (n & (y & -> & Hy)%list_elem_of_fmap & ->%bool_decide_eq_true). by right.
Qed.

Lemma rule_permissions r q : rule_allows r q = true ↔ ∃ p, p ∈ permissions r ∧ grants p q = true.
Proof.
  unfold permissions. setoid_rewrite list_elem_of_bind. setoid_rewrite elem_of_app.
  setoid_rewrite list_elem_of_bind. setoid_rewrite list_elem_of_bind.
  setoid_rewrite list_elem_of_fmap. destruct q as [verb group res sub name|verb path]; cbn [rule_allows].
  - rewrite !andb_true_iff, !existsb_true, names_allow. split.
    + intros [[[(v & Hv & Ev) (g & Hg & Eg)] (p & Hp & Ep)] (n & Hn & En)].
      exists (OnResource v g p n). split; [|by cbn; rewrite Ev, Eg, Ep, En]. exists v. naive_solver.
    + intros (x & (v & [(g & (p & (n & -> & Hn) & Hp) & Hg)|(u & -> & Hu)] & Hv) & Hx); [|done].
      cbn in Hx. rewrite !andb_true_iff in Hx. naive_solver.
  - rewrite andb_true_iff, !existsb_true. split.
    + intros [(v & Hv & Ev) (u & Hu & Eu)]. exists (OnURL v u). split; [|by cbn; rewrite Ev, Eu]. naive_solver.
    + intros (x & (v & [(g & (p & (n & -> & Hn) & Hp) & Hg)|(u & -> & Hu)] & Hv) & Hx); [done|].
      cbn in Hx. rewrite andb_true_iff in Hx. naive_solver.
Qed.

Lemma subsumes_grants p p' q : subsumes p p' = true → grants p q = true → grants p' q = true.
Proof.
  destruct p as [v g r n|v u], p' as [v' g' r' [n'|]|v' u']; cbn [subsumes];
    try (intros ->%bool_decide_eq_true; done).
  case_bool_decide; [subst|done]. rewrite andb_true_iff, !bool_decide_eq_true. intros [-> ->]. destruct q; cbn; [|done]. rewrite !andb_true_iff. naive_solver.
Qed.

Section allowed.
Context `{!Authorizer}.

Lemma allows_permissions rules q :
  allows rules q = true ↔ ∃ p, p ∈ all_permissions rules ∧ grants p q = true.
Proof.
  rewrite allows_spec. unfold all_permissions. setoid_rewrite list_elem_of_bind.
  setoid_rewrite rule_permissions. naive_solver.
Qed.

Lemma contained_allows rules rules' q :
  contained rules rules' = true → allows rules q = true → allows rules' q = true.
Proof.
  unfold contained. rewrite forallb_true, !allows_permissions. intros Hc (p & Hp & Hq).
  apply Hc, existsb_true in Hp as (p' & Hp' & Hs). exists p'. split; [done|]. by eapply subsumes_grants.
Qed.

Lemma contained_equal rules rules' q :
  contained rules rules' = true → contained rules' rules = true → allows rules q = allows rules' q.
Proof.
  intros ??. apply Bool.eq_iff_eq_true. split; by apply contained_allows.
Qed.

(** Permissions that are there, by evaluation. *)
Lemma permission_allows rules p q :
  existsb (λ p', bool_decide (p' = p)) (all_permissions rules) = true → grants p q = true →
  allows rules q = true.
Proof.
  intros (p' & Hp & ->%bool_decide_eq_true)%existsb_true Hq. apply allows_permissions. by exists p.
Qed.

(** What is refused, by a check of all permissions. *)
Lemma permissions_only rules (P : permission → bool) q :
  forallb P (all_permissions rules) = true → allows rules q = true →
  ∃ p, P p = true ∧ grants p q = true.
Proof.
  rewrite forallb_true, allows_permissions. intros Hc (p & Hp & Hq). exists p. by auto.
Qed.

Lemma enforce_allowed {K A} rules Forbidden q (m : M K A) k :
  allows rules q = true → enforce rules Forbidden q m k = m k.
Proof. unfold enforce. by intros ->. Qed.

End allowed.

(** A verb on all objects of a resource, or on a subresource of all of them. *)
Ltac permitted :=
  match goal with
  | |- allows _ (ResourceRequest ?v ?g ?r "" _) = true =>
      apply (permission_allows _ (OnResource v g r None)); by vm_compute
  | |- allows _ (ResourceRequest ?v ?g ?r ?s _) = true =>
      apply (permission_allows _ (OnResource v g (r +:+ "/" +:+ s) None)); by vm_compute
  end.
