(* ===== verification/RbacRules.v ===== *)
(** The permissions of the operator and what its manifests ask for: the
    [+kubebuilder:rbac] markers of [internal/controller/trainer_controller.go], the
    ClusterRole generated from them, the RBAC objects and the other objects of
    the templates under [manifests/], and the markers of the custom resource in
    [api/v1alpha1/trainer_types.go]. *)

From S2P Require Import Prelude Rbac.
Open Scope string_scope.
Open Scope nat_scope.
Open Scope list_scope.

(** ** Definitions *)

(** *** The operator *)

(** One rule for each marker, in their order. *)
Definition rbac_markers : list PolicyRule :=
  [Rule ["components.platform.opendatahub.io"] ["trainers"] ["get"; "list"; "watch"; "update"; "patch"];
   Rule ["components.platform.opendatahub.io"] ["trainers/status"] ["get"; "update"; "patch"];
   Rule ["components.platform.opendatahub.io"] ["trainers/finalizers"] ["update"];
   Rule [""] ["namespaces"] ["get"; "list"; "watch"; "create"; "update"; "patch"];
   Rule [""] ["events"] ["create"; "patch"; "update"; "watch"];
   Rule ["events.k8s.io"] ["events"] ["create"; "patch"; "update"; "watch"];
   Rule [""] ["limitranges"] ["get"; "list"; "watch"];
   Rule [""] ["pods"] ["get"; "list"];
   Rule [""] ["secrets"] ["create"; "delete"; "get"; "list"; "patch"; "update"; "watch"];
   Rule [""] ["services"; "configmaps"] ["get"; "list"; "watch"; "create"; "update"; "patch"; "delete"];
   Rule [""] ["serviceaccounts"] ["create"; "list"; "watch"];
   NamedRule [""] ["serviceaccounts"] ["get"; "update"; "patch"; "delete"]
      ["kubeflow-trainer-controller-manager"; "kubeflow-trainer-cache-initializer"];
   Rule ["apps"] ["deployments"] ["get"; "list"; "watch"; "create"; "update"; "patch"; "delete"];
   Rule ["coordination.k8s.io"] ["leases"] ["create"; "get"; "list"; "update"];
   Rule ["rbac.authorization.k8s.io"] ["clusterroles"; "clusterrolebindings"; "roles"; "rolebindings"]
      ["create"; "list"; "watch"];
   NamedRule ["rbac.authorization.k8s.io"] ["clusterroles"] ["get"; "update"; "patch"; "delete"]
      ["kubeflow-trainer-controller-manager"; "training-admin"; "training-edit"; "training-view";
        "kubeflow-trainer-admin"; "kubeflow-trainer-edit"; "kubeflow-trainer-view";
        "kubeflow-trainer-cache-initializer"; "trainer-metrics-reader"; "trainer-tls-profile"];
   NamedRule ["rbac.authorization.k8s.io"] ["clusterrolebindings"] ["get"; "update"; "patch"; "delete"]
      ["kubeflow-trainer-controller-manager"; "kubeflow-trainer-view"; "trainer-metrics-reader";
        "trainer-tls-profile"];
   NamedRule ["rbac.authorization.k8s.io"] ["roles"] ["get"; "update"; "patch"; "delete"]
      ["kubeflow-trainer-public"];
   NamedRule ["rbac.authorization.k8s.io"] ["rolebindings"] ["get"; "update"; "patch"; "delete"]
      ["kubeflow-trainer-cache-initializer"; "kubeflow-trainer-public"];
   Rule ["authentication.k8s.io"] ["tokenreviews"] ["create"];
   Rule ["authorization.k8s.io"] ["subjectaccessreviews"] ["create"];
   URLRule ["/metrics"] ["get"];
   Rule ["monitoring.coreos.com"] ["podmonitors"; "servicemonitors"]
      ["get"; "list"; "watch"; "create"; "update"; "patch"; "delete"];
   Rule ["monitoring.coreos.com"] ["prometheusrules"]
      ["get"; "list"; "watch"; "create"; "update"; "patch"; "delete"];
   Rule ["admissionregistration.k8s.io"] ["mutatingwebhookconfigurations"; "validatingwebhookconfigurations"]
      ["get"; "list"; "watch"; "create"; "update"; "patch"; "delete"];
   Rule ["apiextensions.k8s.io"] ["customresourcedefinitions"]
      ["get"; "list"; "watch"; "create"; "update"; "patch"];
   Rule ["jobset.x-k8s.io"] ["jobsets"] ["create"; "delete"; "get"; "list"; "patch"; "update"; "watch"];
   Rule ["networking.k8s.io"] ["networkpolicies"] ["get"; "list"; "watch"; "create"; "update"; "patch"];
   Rule ["node.k8s.io"] ["runtimeclasses"] ["get"; "list"; "watch"];
   Rule ["scheduling.volcano.sh"] ["podgroups"] ["create"; "delete"; "get"; "list"; "patch"; "update"; "watch"];
   Rule ["scheduling.x-k8s.io"] ["podgroups"] ["create"; "get"; "list"; "patch"; "update"; "watch"];
   Rule ["scheduling.k8s.io"] ["priorityclasses"] ["get"; "list"; "watch"];
   Rule ["trainer.kubeflow.org"] ["clustertrainingruntimes"; "trainingruntimes"]
      ["get"; "list"; "watch"; "create"; "update"; "patch"; "delete"];
   Rule ["trainer.kubeflow.org"] ["clustertrainingruntimes/status"; "trainingruntimes/status"] ["get"];
   Rule ["trainer.kubeflow.org"]
      ["clustertrainingruntimes/finalizers"; "trainingruntimes/finalizers"; "trainjobs/finalizers"]
      ["get"; "patch"; "update"];
   Rule ["trainer.kubeflow.org"] ["optimizationjobs"] ["get"; "list"; "patch"; "update"; "watch"];
   Rule ["trainer.kubeflow.org"] ["optimizationjobs/status"] ["get"; "patch"; "update"];
   Rule ["trainer.kubeflow.org"] ["trainjobs"] ["create"; "delete"; "get"; "list"; "patch"; "update"; "watch"];
   Rule ["trainer.kubeflow.org"] ["trainjobs/status"] ["get"; "patch"; "update"];
   Rule ["image.openshift.io"] ["imagestreams"] ["get"; "list"; "watch"; "create"; "update"; "patch"; "delete"];
   Rule ["config.openshift.io"] ["apiservers"] ["get"; "list"; "watch"];
   Rule ["config.openshift.io"] ["clusterversions"] ["get"];
   Rule ["operators.coreos.com"] ["operatorconditions"] ["list"];
   Rule ["olm.operatorframework.io"] ["clusterextensions"] ["list"];
   Rule ["operator.openshift.io"] ["jobsetoperators"] ["get"; "list"; "watch"]].

(** [config/rbac/role.yaml], which [controller-gen] writes; a ClusterRoleBinding
    gives it to the operator. *)
Definition config_role : list PolicyRule :=
  [URLRule ["/metrics"] ["get"];
   Rule [""] ["configmaps"; "secrets"; "services"]
      ["create"; "delete"; "get"; "list"; "patch"; "update"; "watch"];
   Rule [""] ["limitranges"] ["get"; "list"; "watch"];
   Rule [""] ["namespaces"] ["create"; "get"; "list"; "patch"; "update"; "watch"];
   Rule [""] ["pods"] ["get"; "list"];
   Rule [""] ["serviceaccounts"] ["create"; "list"; "watch"];
   NamedRule [""] ["serviceaccounts"] ["delete"; "get"; "patch"; "update"]
      ["kubeflow-trainer-cache-initializer"; "kubeflow-trainer-controller-manager"];
   Rule [""; "events.k8s.io"] ["events"] ["create"; "patch"; "update"; "watch"];
   Rule ["admissionregistration.k8s.io"] ["mutatingwebhookconfigurations"; "validatingwebhookconfigurations"]
      ["create"; "delete"; "get"; "list"; "patch"; "update"; "watch"];
   Rule ["apiextensions.k8s.io"] ["customresourcedefinitions"]
      ["create"; "get"; "list"; "patch"; "update"; "watch"];
   Rule ["apps"] ["deployments"] ["create"; "delete"; "get"; "list"; "patch"; "update"; "watch"];
   Rule ["authentication.k8s.io"] ["tokenreviews"] ["create"];
   Rule ["authorization.k8s.io"] ["subjectaccessreviews"] ["create"];
   Rule ["components.platform.opendatahub.io"] ["trainers"] ["get"; "list"; "patch"; "update"; "watch"];
   Rule ["components.platform.opendatahub.io"] ["trainers/finalizers"] ["update"];
   Rule ["components.platform.opendatahub.io"] ["trainers/status"] ["get"; "patch"; "update"];
   Rule ["config.openshift.io"] ["apiservers"] ["get"; "list"; "watch"];
   Rule ["config.openshift.io"] ["clusterversions"] ["get"];
   Rule ["coordination.k8s.io"] ["leases"] ["create"; "get"; "list"; "update"];
   Rule ["image.openshift.io"] ["imagestreams"] ["create"; "delete"; "get"; "list"; "patch"; "update"; "watch"];
   Rule ["jobset.x-k8s.io"] ["jobsets"] ["create"; "delete"; "get"; "list"; "patch"; "update"; "watch"];
   Rule ["monitoring.coreos.com"] ["podmonitors"; "prometheusrules"; "servicemonitors"]
      ["create"; "delete"; "get"; "list"; "patch"; "update"; "watch"];
   Rule ["networking.k8s.io"] ["networkpolicies"] ["create"; "get"; "list"; "patch"; "update"; "watch"];
   Rule ["node.k8s.io"] ["runtimeclasses"] ["get"; "list"; "watch"];
   Rule ["olm.operatorframework.io"] ["clusterextensions"] ["list"];
   Rule ["operator.openshift.io"] ["jobsetoperators"] ["get"; "list"; "watch"];
   Rule ["operators.coreos.com"] ["operatorconditions"] ["list"];
   NamedRule ["rbac.authorization.k8s.io"] ["clusterrolebindings"] ["delete"; "get"; "patch"; "update"]
      ["kubeflow-trainer-controller-manager"; "kubeflow-trainer-view"; "trainer-metrics-reader";
        "trainer-tls-profile"];
   Rule ["rbac.authorization.k8s.io"] ["clusterrolebindings"; "clusterroles"; "rolebindings"; "roles"]
      ["create"; "list"; "watch"];
   NamedRule ["rbac.authorization.k8s.io"] ["clusterroles"] ["delete"; "get"; "patch"; "update"]
      ["kubeflow-trainer-admin"; "kubeflow-trainer-cache-initializer"; "kubeflow-trainer-controller-manager";
        "kubeflow-trainer-edit"; "kubeflow-trainer-view"; "trainer-metrics-reader"; "trainer-tls-profile";
        "training-admin"; "training-edit"; "training-view"];
   NamedRule ["rbac.authorization.k8s.io"] ["rolebindings"] ["delete"; "get"; "patch"; "update"]
      ["kubeflow-trainer-cache-initializer"; "kubeflow-trainer-public"];
   NamedRule ["rbac.authorization.k8s.io"] ["roles"] ["delete"; "get"; "patch"; "update"]
      ["kubeflow-trainer-public"];
   Rule ["scheduling.k8s.io"] ["priorityclasses"] ["get"; "list"; "watch"];
   Rule ["scheduling.volcano.sh"] ["podgroups"] ["create"; "delete"; "get"; "list"; "patch"; "update"; "watch"];
   Rule ["scheduling.x-k8s.io"] ["podgroups"] ["create"; "get"; "list"; "patch"; "update"; "watch"];
   Rule ["trainer.kubeflow.org"] ["clustertrainingruntimes"; "trainingruntimes"; "trainjobs"]
      ["create"; "delete"; "get"; "list"; "patch"; "update"; "watch"];
   Rule ["trainer.kubeflow.org"]
      ["clustertrainingruntimes/finalizers"; "optimizationjobs/status"; "trainingruntimes/finalizers";
        "trainjobs/finalizers"; "trainjobs/status"]
      ["get"; "patch"; "update"];
   Rule ["trainer.kubeflow.org"] ["clustertrainingruntimes/status"; "trainingruntimes/status"] ["get"];
   Rule ["trainer.kubeflow.org"] ["optimizationjobs"] ["get"; "list"; "patch"; "update"; "watch"]].

(** *** The roles of the operand *)

(** The rules of the ClusterRole of the controller manager, and those that the
    overlay adds to it. *)
Definition base_manager_role : list PolicyRule :=
  [Rule [""] ["configmaps"; "secrets"] ["create"; "get"; "list"; "patch"; "update"; "watch"];
   Rule [""] ["limitranges"] ["get"; "list"; "watch"];
   Rule [""] ["services"] ["create"; "delete"; "get"; "list"; "patch"; "update"; "watch"];
   Rule [""; "events.k8s.io"] ["events"] ["create"; "patch"; "update"; "watch"];
   Rule ["admissionregistration.k8s.io"] ["mutatingwebhookconfigurations"; "validatingwebhookconfigurations"]
      ["get"; "list"; "update"; "watch"];
   Rule ["apps"] ["deployments"] ["create"; "delete"; "get"; "list"; "patch"; "update"; "watch"];
   Rule ["authentication.k8s.io"] ["tokenreviews"] ["create"];
   Rule ["authorization.k8s.io"] ["subjectaccessreviews"] ["create"];
   Rule ["coordination.k8s.io"] ["leases"] ["create"; "get"; "list"; "update"];
   Rule ["jobset.x-k8s.io"] ["jobsets"] ["create"; "delete"; "get"; "list"; "patch"; "update"; "watch"];
   Rule ["node.k8s.io"] ["runtimeclasses"] ["get"; "list"; "watch"];
   Rule ["scheduling.k8s.io"] ["priorityclasses"] ["get"; "list"; "watch"];
   Rule ["scheduling.volcano.sh"] ["podgroups"] ["create"; "delete"; "get"; "list"; "patch"; "update"; "watch"];
   Rule ["scheduling.x-k8s.io"] ["podgroups"] ["create"; "get"; "list"; "patch"; "update"; "watch"];
   Rule ["trainer.kubeflow.org"] ["clustertrainingruntimes"; "optimizationjobs"; "trainingruntimes"]
      ["get"; "list"; "patch"; "update"; "watch"];
   Rule ["trainer.kubeflow.org"]
      ["clustertrainingruntimes/finalizers"; "optimizationjobs/status"; "trainingruntimes/finalizers";
        "trainjobs/finalizers"; "trainjobs/status"]
      ["get"; "patch"; "update"];
   Rule ["trainer.kubeflow.org"] ["trainjobs"] ["create"; "get"; "list"; "patch"; "update"; "watch"]].

Definition rbac_progression_patch : list PolicyRule :=
  [Rule [""] ["pods"] ["get"; "list"];
   Rule ["networking.k8s.io"] ["networkpolicies"] ["get"; "list"; "watch"; "create"; "update"; "patch"]].

Definition trainer_tls_profile : list PolicyRule :=
  [NamedRule ["config.openshift.io"] ["apiservers"] ["get"] ["cluster"];
   Rule ["config.openshift.io"] ["apiservers"] ["list"; "watch"]].

Definition trainer_metrics_reader : list PolicyRule :=
  [URLRule ["/metrics"] ["get"]].

Definition training_edit : list PolicyRule :=
  [Rule ["trainer.kubeflow.org"] ["trainjobs"] ["create"; "delete"; "get"; "list"; "patch"; "update"; "watch"];
   Rule ["trainer.kubeflow.org"] ["trainjobs/status"] ["get"];
   Rule ["trainer.kubeflow.org"] ["trainingruntimes"; "clustertrainingruntimes"] ["get"; "list"; "watch"];
   Rule ["trainer.kubeflow.org"] ["trainingruntimes/status"; "clustertrainingruntimes/status"] ["get"]].

Definition training_admin : list PolicyRule :=
  [Rule ["trainer.kubeflow.org"] ["trainjobs"; "trainingruntimes"; "clustertrainingruntimes"]
      ["create"; "delete"; "get"; "list"; "patch"; "update"; "watch"];
   Rule ["trainer.kubeflow.org"]
      ["trainjobs/status"; "trainingruntimes/status"; "clustertrainingruntimes/status"] ["get"]].

Definition training_view : list PolicyRule :=
  [Rule ["trainer.kubeflow.org"] ["trainjobs"; "trainingruntimes"; "clustertrainingruntimes"]
      ["get"; "list"; "watch"];
   Rule ["trainer.kubeflow.org"]
      ["trainjobs/status"; "trainingruntimes/status"; "clustertrainingruntimes/status"] ["get"]].

Definition kubeflow_trainer_public : list PolicyRule :=
  [NamedRule [""] ["configmaps"] ["get"; "list"; "watch"] ["kubeflow-trainer-public"]].

(** The roles that the overlay [rhoai] renders; it binds only these. *)
Definition rendered_roles : list (string * string * list PolicyRule) :=
  [("ClusterRole", "kubeflow-trainer-controller-manager", base_manager_role ++ rbac_progression_patch);
   ("Role", "kubeflow-trainer-public", kubeflow_trainer_public);
   ("ClusterRole", "training-edit", training_edit);
   ("ClusterRole", "training-admin", training_admin);
   ("ClusterRole", "training-view", training_view);
   ("ClusterRole", "trainer-tls-profile", trainer_tls_profile);
   ("ClusterRole", "trainer-metrics-reader", trainer_metrics_reader)].

(** *** The objects of the templates *)

(** A generator adds a hash to the name it was given, unless it was told not to. *)
Inductive object_name := Named (n : string) | Generated (prefix : string).

#[export] Instance object_name_eq_dec : EqDecision object_name.
Proof. solve_decision. Defined.

Definition is_name (n : object_name) (s : string) : Prop :=
  match n with Named n => s = n | Generated p => ∃ hash, s = p +:+ hash end.

Definition template_object : Type := string * string * object_name.

(** The objects of a [kustomization.yaml], by the kinds and names in the files it
    lists: [manifests/trainer/base/crds]. *)
Definition base_crds : list template_object :=
  [("apiextensions.k8s.io", "CustomResourceDefinition", Named "clustertrainingruntimes.trainer.kubeflow.org");
   ("apiextensions.k8s.io", "CustomResourceDefinition", Named "optimizationjobs.trainer.kubeflow.org");
   ("apiextensions.k8s.io", "CustomResourceDefinition", Named "trainingruntimes.trainer.kubeflow.org");
   ("apiextensions.k8s.io", "CustomResourceDefinition", Named "trainjobs.trainer.kubeflow.org")].

(** [manager.yaml] and the generator of [base/manager]. *)
Definition base_manager : list template_object :=
  [("apps", "Deployment", Named "kubeflow-trainer-controller-manager");
   ("", "Service", Named "kubeflow-trainer-controller-manager");
   ("", "ConfigMap", Generated "kubeflow-trainer-config")].

(** [role.yaml], [role_binding.yaml], [service_account.yaml],
    [public_configmap_role.yaml] and [public_configmap_role_binding.yaml]. *)
Definition base_rbac : list template_object :=
  [("rbac.authorization.k8s.io", "ClusterRole", Named "kubeflow-trainer-controller-manager");
   ("rbac.authorization.k8s.io", "ClusterRoleBinding", Named "kubeflow-trainer-controller-manager");
   ("", "ServiceAccount", Named "kubeflow-trainer-controller-manager");
   ("rbac.authorization.k8s.io", "Role", Named "kubeflow-trainer-public");
   ("rbac.authorization.k8s.io", "RoleBinding", Named "kubeflow-trainer-public")].

(** [manifests.yaml], with the names that the patches give. *)
Definition base_webhook : list template_object :=
  [("admissionregistration.k8s.io", "MutatingWebhookConfiguration", Named "defaulter.trainer.kubeflow.org");
   ("admissionregistration.k8s.io", "ValidatingWebhookConfiguration", Named "validator.trainer.kubeflow.org")].

(** [clusterrole.yaml], [clusterrolebinding.yaml], and the same for the metrics
    reader. *)
Definition rhoai_rbac_tls : list template_object :=
  [("rbac.authorization.k8s.io", "ClusterRole", Named "trainer-tls-profile");
   ("rbac.authorization.k8s.io", "ClusterRoleBinding", Named "trainer-tls-profile");
   ("rbac.authorization.k8s.io", "ClusterRole", Named "trainer-metrics-reader");
   ("rbac.authorization.k8s.io", "ClusterRoleBinding", Named "trainer-metrics-reader")].

(** The overlay: the bases, [kubeflow-training-roles.yaml], the two network
    policies, [rbac/tls], [monitor.yaml] and the generators. *)
Definition rhoai_overlay : list template_object :=
  base_crds ++ base_manager ++ base_rbac ++ base_webhook ++
  [("rbac.authorization.k8s.io", "ClusterRole", Named "training-edit");
   ("rbac.authorization.k8s.io", "ClusterRole", Named "training-admin");
   ("rbac.authorization.k8s.io", "ClusterRole", Named "training-view");
   ("networking.k8s.io", "NetworkPolicy", Named "kubeflow-trainer-controller-manager");
   ("networking.k8s.io", "NetworkPolicy", Named "kubeflow-trainer-controller-manager-egress")] ++
  rhoai_rbac_tls ++
  [("monitoring.coreos.com", "ServiceMonitor", Named "kubeflow-trainer-controller-manager-metrics-monitor");
   ("", "ConfigMap", Generated "rhoai-config");
   ("", "Secret", Named "kubeflow-trainer-webhook-cert")].

(** One runtime in each file, of its name. *)
Definition runtimes_template : list template_object :=
  ("", "ConfigMap", Generated "runtimes-config") ::
  ((λ n, ("trainer.kubeflow.org", "ClusterTrainingRuntime", Named n)) <$>
    ["torch-distributed"; "torch-distributed-rocm"; "torch-distributed-cpu";
     "torch-distributed-cuda130-torch211-py312"; "torch-distributed-rocm714-torch211-py312";
     "torch-distributed-cpu-torch211-py312"; "training-hub"; "training-hub-rocm"; "training-hub-cpu";
     "training-hub-th09-cuda130-torch211-py312"; "training-hub-th09-rocm714-torch211-py312";
     "training-hub-th09-cpu-torch211-py312"; "speculator-model-opt-cuda"; "vllm-extract-cuda";
     "openmpi-cuda"; "openmpi-cpu"]).

Definition imagestreams_template : list template_object :=
  ("", "ConfigMap", Generated "imagestream-config") ::
  ((λ n, ("image.openshift.io", "ImageStream", Named n)) <$>
    ["training-hub-universal-cpu"; "training-hub-universal-cuda"; "training-hub-universal-rocm"]).

Definition template_objects : list template_object :=
  rhoai_overlay ++ runtimes_template ++ imagestreams_template.

(** The RBAC objects and service accounts of the other overlays under
    [manifests/trainer/], which the operator does not render:
    [overlays/kubeflow-platform/kubeflow-trainer-roles.yaml] and
    [overlays/data-cache]. *)
Definition kubeflow_platform_overlay : list template_object :=
  [("rbac.authorization.k8s.io", "ClusterRole", Named "kubeflow-trainer-admin");
   ("rbac.authorization.k8s.io", "ClusterRole", Named "kubeflow-trainer-edit");
   ("rbac.authorization.k8s.io", "ClusterRole", Named "kubeflow-trainer-view");
   ("rbac.authorization.k8s.io", "ClusterRole", Named "kubeflow-trainer-view-cluster-runtimes");
   ("rbac.authorization.k8s.io", "ClusterRoleBinding", Named "kubeflow-trainer-view-cluster-runtimes")].

Definition data_cache_overlay : list template_object :=
  [("rbac.authorization.k8s.io", "ClusterRole", Named "kubeflow-trainer-cache-initializer");
   ("rbac.authorization.k8s.io", "RoleBinding", Named "kubeflow-trainer-cache-initializer");
   ("", "ServiceAccount", Named "kubeflow-trainer-cache-initializer")].

Definition other_overlays : list template_object := kubeflow_platform_overlay ++ data_cache_overlay.

(** *** The custom resource *)

Inductive resource_scope := ClusterScope | NamespaceScope.

Record printcolumn := MkColumn { column_name : string; column_type : string; column_path : string }.

(** The markers of the type [Trainer]: what the generated definition of the
    resource is to have. *)
Record resource_markers := MkMarkers {
  object_root : bool;
  subresource_status : bool;
  scope : resource_scope;
  validations : list (string * string);
  printcolumns : list printcolumn }.

Definition trainer_markers : resource_markers :=
  MkMarkers true true ClusterScope
    [("self.metadata.name == 'default-trainer'", "Trainer must be named 'default-trainer'")]
    [MkColumn "Ready" "string" ".status.conditions[?(@.type=='Ready')].status";
     MkColumn "Reason" "string" ".status.conditions[?(@.type=='Ready')].reason";
     MkColumn "Age" "date" ".metadata.creationTimestamp"].

(** The rules a resource has to fulfil, in the definition that is installed. *)
Definition crd_validations : list (string * string) :=
  [("self.metadata.name == 'default-trainer'", "Trainer must be named 'default-trainer'")].
