(* ===== verification/Permissions.v ===== *)
(** The permissions of the operator are enough, and no more than it says: the
    clients and lookups of a reconciliation behind the RBAC authorizer, what is rendered and
    deployed, the watches, and the roles that the operator hands on. *)

From Stdlib Require Import Ascii.
From S2P Require Import Prelude GoStrings GoOS Params Kube Scheme ApiTypes KubeStore Request Namespace Dependencies.
From S2P Require Import Releases Deploy OperandTLS Workdir Manifests Rendering Containment Interruption Image Runtimes.
From S2P Require Import Reconciler Main Managed System Liveness Persistence Resilience Rbac RbacRules.
Open Scope string_scope.
Open Scope nat_scope.
Open Scope list_scope.

(** ** Definitions *)

(** The resource of a kind, where it is documented. *)
Definition plural (group kind : string) : option string :=
  snd <$> (snd <$> list_find (λ d, d.1.1 = group ∧ d.1.2 = kind) documented_resources).

(** The requests for one object.  [create] has no name. *)
Definition request_on (verb group resource name : string) : attributes :=
  ResourceRequest verb group resource "" (if bool_decide (verb = "create") then "" else name).

(** Applying an object: it is looked up, created, updated or patched. *)
Definition deploy_verbs : list string := ["get"; "create"; "update"; "patch"].

(** What kustomize renders from the templates of the operator. *)
Definition listed {O V : Type} `{!Objects O V} (o : O) : Prop :=
  ∃ g k n, (g, k, n) ∈ template_objects ∧
    gvk_group (GroupVersionKindOf o) = g ∧ gvk_kind (GroupVersionKindOf o) = k ∧ is_name n (GetName o).

(** [GetKind] reads the kind of [GroupVersionKindOf]. *)
Class KindLaws (O V : Type) `{!Objects O V} : Prop := {
  kind_of_gvk (o : O) : GetKind o = gvk_kind (GroupVersionKindOf o);
}.

(** The templates of the image are those of the repository: kustomize on a copy of
    one, whatever the parameters, gives objects of the list. *)
Class TemplateLaws (O V : Type) `{!Objects O V, !Kustomize O} (m : trainerActions) (im : os) : Prop := {
  renders_listed rs opts s (items : list O) s' : is_set m rs → copied m im rs s →
    kustomize_Render (overlay_of rs (set_work m rs)) opts s = (Ok items, s') → Forall listed items;
}.

(** The deployment adds no resource of a kind of its own. *)
Class DeployLaws (O V K C Ver W : Type) `{!Objects O V, !Framework O K C Ver W} : Prop := {
  deploy_kinds (rr : request O K C Ver) o :
    o ∈ rr_resources (fwdeploy_NewAction deploy_options rr).2 →
    ∃ o', o' ∈ rr_resources rr ∧ GroupVersionKindOf o = GroupVersionKindOf o';
}.

(** The kinds that the manager and the controller list and watch, and the
    APIServer that the watcher of the TLS profile is for. *)
Definition watched_kind (w : watched) : GroupVersionKind :=
  match w with TypedKind g => g | UntypedKind g => g end.

Definition informed_kinds {O K C Ver} (b : builder O K C Ver) (c : cache_options) : list GroupVersionKind :=
  b_for b :: (watched_kind ∘ fst <$> b_watches b) ++ (fst <$> ByObject c) ++ [apiServerGVK].

(** The validation rules of custom resources: [cel] evaluates a rule on a
    resource of a name.  The operator has one rule, a comparison with a text
    without quotes and backslashes. *)
Definition plain_text (s : string) : bool := negb (has_byte "'"%char s || has_byte "\"%char s).

Class ValidationRules := {
  cel : string → string → bool;
  cel_name s n : plain_text s = true → cel ("self.metadata.name == '" +:+ s +:+ "'") n = bool_decide (n = s);
}.

Definition admitted `{!ValidationRules} (m : resource_markers) (name : string) : bool :=
  forallb (λ v, cel v.1 name) (validations m).

(** A permission for a verb on an object of a template, on all objects of its
    kind or on those of its name. *)
Definition template_permission (t : template_object) (r verb : string) (p : permission) : bool :=
  match p with
  | OnResource v g r' n =>
      if bool_decide (r' = r) then if bool_decide (v = verb) then if bool_decide (g = t.1.1) then
        match n, t.2 with
        | None, _ => true
        | Some n, Named n' => bool_decide (n = n') && negb (bool_decide (verb = "create"))
        | Some _, Generated _ => false
        end
      else false else false else false
  | OnURL _ _ => false
  end.

(** The kinds whose objects the operator may change by name only. *)
Definition scoped_resources : list (string * string * string) :=
  [("", "ServiceAccount", "serviceaccounts");
   ("rbac.authorization.k8s.io", "ClusterRole", "clusterroles");
   ("rbac.authorization.k8s.io", "ClusterRoleBinding", "clusterrolebindings");
   ("rbac.authorization.k8s.io", "Role", "roles");
   ("rbac.authorization.k8s.io", "RoleBinding", "rolebindings")].

(** The one name of a marker that no manifest has, and the one name of the
    manifests -- of an overlay that is not rendered -- that no marker has. *)
Definition stale_name : string * string := ("ClusterRoleBinding", "kubeflow-trainer-view").
Definition unlisted_name : string := "kubeflow-trainer-view-cluster-runtimes".

Definition change_verbs : list string := ["get"; "update"; "patch"; "delete"].

(** The names of the manifests for a kind, with these two exceptions. *)
Definition manifest_names (g k : string) : list string :=
  omap (λ t : template_object, if bool_decide (t.1 = (g, k)) then
    match t.2 with Named n => Some n | Generated _ => None end else None) (template_objects ++ other_overlays).

Definition scoped_names (g k : string) : list string :=
  filter (λ n, n ≠ unlisted_name) (manifest_names g k) ++
  (if bool_decide (k = stale_name.1) then [stale_name.2] else []).

Definition scoped_permission (p : permission) : bool :=
  match p with
  | OnURL _ _ => true
  | OnResource v g r n =>
      negb (bool_decide ("*" ∈ [v; g; r])) &&
      forallb (λ '(g', k, r'),
        negb (bool_decide (g = g')) || negb (bool_decide (r = r')) ||
        bool_decide (v ∈ ["create"; "list"; "watch"]) ||
        match n with
        | None => false
        | Some n => bool_decide (v ∈ change_verbs) && bool_decide (n ∈ scoped_names g k)
        end) scoped_resources
  end.

(** ** Lemmas *)

Lemma plural_resource `{!RESTMapper} g v k r : plural g k = Some r → resource_of (GVK g v k) = r.
Proof.
  unfold plural. destruct (list_find _ documented_resources) as [[i [[g' k'] r']]|] eqn:E; [|done].
  intros [= <-]. apply list_find_Some in E as (Hi & [Hg Hk] & _). cbn in *. subst.
  by apply mapping, list_elem_of_lookup_2 with i.
Qed.

Lemma resource_of_gvk `{!RESTMapper} g r : plural (gvk_group g) (gvk_kind g) = Some r → resource_of g = r.
Proof. destruct g. apply plural_resource. Qed.

(** Every permission of the operator, by evaluation. *)
Lemma scoped_permissions : forallb scoped_permission (all_permissions rbac_markers) = true.
Proof. by vm_compute. Qed.

Lemma scoped_names_permitted :
  let ps := all_permissions rbac_markers in
  forallb (λ '(g, k, r), forallb (λ v, forallb (λ n,
    existsb (λ p, bool_decide (p = OnResource v g r (Some n))) ps) (scoped_names g k)) change_verbs) scoped_resources = true.
Proof. by vm_compute. Qed.

Section templates.
Context `{!Authorizer, !RESTMapper}.

Lemma template_permitted t r verb p name : template_permission t r verb p = true → is_name t.2 name →
  grants p (request_on verb t.1.1 r name) = true.
Proof.
  unfold template_permission, request_on. destruct p as [v g r' n|]; [|done].
  do 3 (case_bool_decide; [|done]). subst. intros Ht Hn. cbn [grants].
  rewrite !covers_refl, covers_resource_refl. destruct n as [n|]; [|done].
  destruct t as [t [n'|p]]; [|done]. cbn in *. apply andb_true_iff in Ht as [->%bool_decide_eq_true Hc].
  apply negb_true_iff in Hc. rewrite Hc. by apply bool_decide_eq_true.
Qed.

(** Every object of the templates, by evaluation. *)
Lemma templates_permitted :
  let ps := all_permissions rbac_markers in
  forallb (λ t : template_object,
    match plural t.1.1 t.1.2 with
    | Some r => forallb (λ v, existsb (template_permission t r v) ps) deploy_verbs
    | None => false
    end) template_objects = true.
Proof. by vm_compute. Qed.

Lemma listed_allowed {O V} `{!Objects O V} (o : O) verb : listed o → verb ∈ deploy_verbs →
  allows rbac_markers (request_on verb (gvk_group (GroupVersionKindOf o)) (resource_of (GroupVersionKindOf o))
    (GetName o)) = true.
Proof.
  intros (g & k & n & Hin & Hg & Hk & Hn) Hv. pose proof templates_permitted as Hall. cbn zeta in Hall.
  rewrite forallb_true in Hall. specialize (Hall _ Hin). cbn [fst snd] in Hall.
  destruct (plural g k) as [r|] eqn:Hr; [|done]. rewrite forallb_true in Hall.
  specialize (Hall _ Hv). apply existsb_true in Hall as (p & Hp & Ht). apply allows_permissions.
  exists p. split; [done|].
  assert (resource_of (GroupVersionKindOf o) = r) as -> by (apply resource_of_gvk; by rewrite Hg, Hk).
  rewrite Hg. by apply (template_permitted (g, k, n)).
Qed.

End templates.

(** *** The clients of the components *)

Section enforcement.
Context {O V A K C Ver W : Type} `{!Objects O V, !ObjectsLaws O V, !KindLaws O V, !Labelled O, !LabelsLaws O V}.
Context `{!ApiErrors, !CtrlClient K, !DynamicClient O K, !PlatformUtils O K, !ConditionManager C, !Semver Ver}.
Context `{!YamlMaps A, !TLSTables, !Kustomize O, !Framework O K C Ver W, !Authorizer, !RESTMapper, !PlatformClients O K}.
Context (Forbidden : attributes → goerror).
Context (Quote : string → string) (range_src range_dst : gmap string string → list (string * string))
  (UnmarshalMetadata : string → result componentMetadata).

#[local] Abbreviation client := (enforced_client rbac_markers Forbidden).
#[local] Abbreviation dynamic := (enforced_dynamic rbac_markers Forbidden).
#[local] Abbreviation lookups := (enforced_lookups (O:=O) (K:=K) rbac_markers).

Lemma enforce_same {B} q (m : M K B) : allows rbac_markers q = true → enforce rbac_markers Forbidden q m ≈ m.
Proof. intros Hq k. by apply enforce_allowed. Qed.

(** A call of the client, behind the authorizer and not. *)
Ltac authorized := apply enforce_same; permitted.

(** The lookups of the operator have what they need. *)
Lemma lookups_permitted l : (∀ g, l = SingletonLookup g → g = jobSetOperatorGVK) → needs_met (allows rbac_markers) l.
Proof.
  intros Hl verb group resource name Hin. destruct l as [|gk|n|g]; cbn [lookup_needs] in Hin.
  4: rewrite (Hl g eq_refl), (resource_of_gvk jobSetOperatorGVK "jobsetoperators") in Hin by reflexivity.
  all: cbn in Hin; repeat (apply elem_of_cons in Hin as [[= -> -> ->]|Hin]; [permitted|]); by apply elem_of_nil in Hin.
Qed.

Lemma openshift_enforced : @ClusterTypeOpenShift O K lookups = ClusterTypeOpenShift.
Proof. apply behind_openshift. Qed.

Lemma checkDependencies_enforced :
  checkDependencies (PlatformUtils0:=lookups) ≈ checkDependencies (O:=O) (K:=K) (C:=C) (Ver:=Ver).
Proof.
  assert (∀ g, g = jobSetOperatorGVK → GetSingleton (PlatformUtils:=lookups) g ≈ GetSingleton g) as Hcr.
  { intros g Hg. apply behind_singleton, lookups_permitted. by intros g' [= <-]. }
  assert (on_client (O:=O) (C:=C) (Ver:=Ver) (checkJobSetAvailable (PlatformUtils0:=lookups)) ≈ on_client checkJobSetAvailable) as Hcrd.
  { apply zoom_proper, bind_proper; [by intros ?|]. by apply try_proper, behind_crd, lookups_permitted. }
  apply bind_proper; [|by apply try_proper, zoom_proper, behind_type, lookups_permitted].
  intros [ct|e]; [|done]. rewrite openshift_enforced. case_bool_decide.
  - apply bind_proper; [|apply zoom_proper, bind_proper; [by intros ?|by apply try_proper, behind_operator, lookups_permitted]].
    intros [|]; [|done]. apply bind_proper; [|apply zoom_proper, bind_proper; [by intros ?|by apply try_proper, Hcr]].
    intros [|]; [|done]. apply bind_proper; [|apply try_proper, zoom_proper, bind_proper; [by intros ?|by apply wrapping_proper, Hcr]].
    intros [h|e]; [|done]. by apply bind_proper.
  - by apply bind_proper.
Qed.

Lemma renderManifests_enforced m :
  renderManifests (PlatformUtils0:=lookups) (A:=A) Quote range_src range_dst m ≈
  renderManifests (O:=O) (A:=A) (K:=K) (C:=C) (Ver:=Ver) Quote range_src range_dst m.
Proof.
  apply bind_proper; [|done]. intros trainer.
  apply bind_proper; [|by apply wrapping_proper, zoom_proper, behind_type, lookups_permitted].
  intros ct. by rewrite openshift_enforced.
Qed.

Lemma ensureNamespace_enforced :
  ensureNamespace (CtrlClient0:=client) ≈ ensureNamespace (O:=O) (K:=K) (C:=C) (Ver:=Ver).
Proof.
  apply bind_proper; [|done]. intros trainer. apply bind_proper; [|apply try_proper, zoom_proper; authorized].
  intros [u|e]; [done|]. destruct (negb (IsNotFound e)); [done|].
  apply bind_proper; [by intros ?|apply try_proper, zoom_proper; authorized].
Qed.

Lemma updateReleases_enforced p :
  updateReleases (CtrlClient0:=client) UnmarshalMetadata p ≈ updateReleases (O:=O) (K:=K) (C:=C) (Ver:=Ver) UnmarshalMetadata p.
Proof.
  apply bind_proper; [|done]. intros trainer. apply bind_proper; [|done]. intros [].
  apply bind_proper; [by intros ?|]. apply wrapping_proper, zoom_proper.
  apply bind_proper; [by intros ?|]. apply try_proper. authorized.
Qed.

Lemma runtimes_authorized verb g n : g ∈ runtime_gvrs → verb ∈ ["list"; "update"; "delete"] →
  allows rbac_markers (ResourceRequest verb (gvr_group g) (gvr_resource g) "" n) = true.
Proof.
  intros Hg Hv. unfold runtime_gvrs in Hg. rewrite !elem_of_cons, elem_of_nil in Hg.
  rewrite !elem_of_cons, elem_of_nil in Hv.
  destruct Hg as [-> |[-> |[]]], Hv as [-> |[-> |[-> |[]]]]; cbn; permitted.
Qed.

Lemma removeRuntimeFinalizers_enforced :
  removeRuntimeFinalizers (DynamicClient0:=dynamic) ≈ removeRuntimeFinalizers (O:=O) (K:=K).
Proof.
  apply forM_same. intros g Hg. apply bind_proper; [|apply try_proper, enforce_same, runtimes_authorized; [done|set_solver]].
  intros [items|e]; [|done]. apply forM_same. intros item _. unfold remove_finalizer. case_bool_decide; [done|].
  apply wrapping_proper, enforce_same, runtimes_authorized; [done|set_solver].
Qed.

Lemma cleanupTrainerResources_enforced :
  cleanupTrainerResources (DynamicClient0:=dynamic) ≈ cleanupTrainerResources (O:=O) (K:=K).
Proof.
  apply forM_same. intros g Hg. apply bind_proper; [|apply try_proper, enforce_same, runtimes_authorized; [done|set_solver]].
  intros [items|e]; [|done]. apply forM_same. intros item _. unfold delete_item. destruct (IsDeleting item); [done|].
  apply bind_proper; [by intros ?|]. apply try_proper, enforce_same, runtimes_authorized; [done|set_solver].
Qed.

Lemma cleanup_action_enforced :
  cleanup_action (DynamicClient0:=dynamic) ≈ cleanup_action (O:=O) (V:=V) (K:=K) (C:=C) (Ver:=Ver) (W:=W).
Proof.
  apply bind_proper; [|done]. intros trainer. apply zoom_proper.
  apply bind_proper; [|apply removeRuntimeFinalizers_enforced]. intros [].
  apply bind_proper; [by intros ?|apply cleanupTrainerResources_enforced].
Qed.

(** The Deployments among what the templates render. *)
Lemma listed_deployment (o : O) : listed o → GetKind o = "Deployment" →
  gvk_group (GroupVersionKindOf o) = "apps" ∧ resource_of (GroupVersionKindOf o) = "deployments".
Proof.
  intros (g & k & n & Hin & Hg & Hk & _). rewrite kind_of_gvk, Hk. intros ->.
  assert (forallb (λ t : template_object, negb (bool_decide (t.1.2 = "Deployment")) || bool_decide (t.1.1 = "apps"))
    template_objects = true) as Hall by by vm_compute.
  rewrite forallb_true in Hall. specialize (Hall _ Hin). cbn in Hall. apply bool_decide_eq_true in Hall as ->.
  split; [done|]. apply resource_of_gvk. rewrite Hg, Hk. by vm_compute.
Qed.

Lemma delete_deployment_enforced (o o' : O) : GroupVersionKindOf o = GroupVersionKindOf o' → listed o' →
  delete_deployment (CtrlClient0:=client) o ≈ delete_deployment (K:=K) o.
Proof.
  intros Hg Hl. unfold delete_deployment. case_bool_decide as Hk; [|done]. cbn [negb].
  rewrite kind_of_gvk, Hg, <-kind_of_gvk in Hk. destruct (listed_deployment _ Hl Hk) as [Ha Hr].
  apply bind_proper; [by intros ?|]. apply try_proper, enforce_same. rewrite Hg, Ha, Hr. permitted.
Qed.

Lemma recovery_enforced `{!DeployLaws O V K C Ver W} (rr : request O K C Ver) : Forall listed (rr_resources rr) →
  withImmutableFieldRecovery (CtrlClient0:=client) (fwdeploy_NewAction deploy_options) rr =
  withImmutableFieldRecovery (fwdeploy_NewAction deploy_options) rr.
Proof.
  intros Hl. unfold withImmutableFieldRecovery. rewrite !try_bind.
  pose proof (deploy_kinds rr) as Hkinds. destruct (fwdeploy_NewAction deploy_options rr) as [[[]|e] rr1]; [done|].
  cbn [fst snd] in *. destruct (negb _); [done|].
  rewrite !(bind_ok (gets rr_resources) _ rr1 (rr_resources rr1) rr1) by done.
  apply bind_proper; [by intros ?|]. apply zoom_proper, forM_same. intros o Ho.
  destruct (Hkinds _ Ho) as (o' & Ho' & Hg). apply (delete_deployment_enforced o o' Hg).
  by eapply list.Forall_forall in Hl.
Qed.

Lemma prepare_enforced cfg :
  forM (prepare_actions (CtrlClient0:=client) (PlatformUtils0:=lookups) (A:=A) Quote range_src range_dst UnmarshalMetadata cfg) (λ a, a) ≈
  forM (prepare_actions (O:=O) (A:=A) (K:=K) (C:=C) (Ver:=Ver) Quote range_src range_dst UnmarshalMetadata cfg) (λ a, a).
Proof.
  apply forM_id_same. constructor; [apply checkDependencies_enforced|]. constructor; [apply ensureNamespace_enforced|].
  constructor; [apply updateReleases_enforced|]. constructor; [apply renderManifests_enforced|constructor].
Qed.

(** The actions after the deployment. *)
Lemma after_deployment_enforced :
  forM (drop 1 (deploy_actions (CtrlClient0:=client) (DynamicClient0:=dynamic) (Framework0:=Framework0))) (λ a, a) ≈
  forM (drop 1 (deploy_actions (O:=O) (V:=V) (K:=K) (C:=C) (Ver:=Ver) (W:=W))) (λ a, a).
Proof.
  apply forM_id_same. constructor; [done|]. constructor; [|by repeat constructor].
  apply zoom_proper, removeRuntimeFinalizers_enforced.
Qed.

Lemma kept_listed (o o' : O) : kept o o' → listed o → listed o'.
Proof. unfold kept, listed. intros [= -> -> _ _]. done. Qed.

(** The renderings of sets, on copies of their templates. *)
Lemma sets_listed m im `{!TemplateLaws O V m im} sets s ls s' : (∀ rs, rs ∈ sets → is_set m rs) →
  reads_copies (A:=A) (O:=O) Quote range_src range_dst m im sets s →
  rendered (A:=A) Quote range_src range_dst m sets s ls s' → Forall listed (concat ls).
Proof.
  revert s ls. induction sets as [|rs sets IH]; intros s [|l ls] Hin Hc Hr; [constructor|done..|].
  destruct Hc as [Hc Hnext], Hr as (s1 & Hset & Hr). cbn [concat]. apply list.Forall_app_2.
  - eapply render_all; [apply kept_listed| |exact Hset]. intros s2 l2 s2' Hprep Hl%wrapping_ok.
    eapply renders_listed; [apply Hin; by left|by apply Hc|exact Hl].
  - eapply IH; [|by eapply Hnext|exact Hr]. intros rs' Hrs'. apply Hin. by right.
Qed.

Lemma rendered_listed m im `{!TemplateLaws O V m im} (rr rr' : request O K C Ver) :
  at_sets m (reads_copies (A:=A) (O:=O) Quote range_src range_dst m im) rr →
  renderManifests (A:=A) Quote range_src range_dst m rr = (Ok tt, rr') → rr_resources rr = [] →
  Forall listed (rr_resources rr').
Proof.
  intros Hc (ct & k1 & ls & Hct & Hs & -> & _)%renderManifests_run ->.
  eapply (sets_listed m im); [|by eapply Hc|exact Hs]. intros rs. by apply resourceSets_is_set.
Qed.

(** The steps before the rendering give no resources. *)
Lemma before_rendering_resources p (rr rr1 rr2 rr3 : request O K C Ver) :
  checkDependencies rr = (Ok tt, rr1) → ensureNamespace rr1 = (Ok tt, rr2) →
  updateReleases UnmarshalMetadata p rr2 = (Ok tt, rr3) → rr_resources rr3 = rr_resources rr.
Proof.
  intros E1 E2 E3. pose proof (updateReleases_run UnmarshalMetadata p rr2) as H3. cbn zeta in H3.
  pose proof (ensureNamespace_run rr1) as H2'. cbn zeta in H2'. rewrite E3 in H3. rewrite E2 in H2'.
  destruct (checkDependencies_ends (rr_conditions rr) rr eq_refl) as (_ & _ & _ & Hr & _). rewrite E1 in Hr.
  rewrite <-Hr. cbn [snd]. transitivity (rr_resources rr2).
  - by destruct (getPlatformVersion _ (rr_cluster rr2)) as [[v|e] k1]; simplify_eq.
  - destruct (GetNamespaceObj _ _) as [[u|e] k1]; destruct (CreateNamespace _ _ k1) as [c k2]; [by simplify_eq|].
    by destruct (IsNotFound e); simplify_eq.
Qed.

Lemma prepared_listed cfg im `{!TemplateLaws O V (actions_of cfg) im} (rr rr' : request O K C Ver) :
  runs_on_copies (A:=A) Quote range_src range_dst UnmarshalMetadata cfg im rr →
  forM (prepare_actions (A:=A) Quote range_src range_dst UnmarshalMetadata cfg) (λ a, a) rr = (Ok tt, rr') →
  rr_resources rr = [] → Forall listed (rr_resources rr').
Proof.
  intros Hc. unfold prepare_actions. rewrite forM_cons. destruct (checkDependencies rr) as [[[]|e] rr1] eqn:E1; [|done].
  rewrite forM_cons. destruct (ensureNamespace rr1) as [[[]|e] rr2] eqn:E2; [|done].
  rewrite forM_cons. destruct (updateReleases _ _ rr2) as [[[]|e] rr3] eqn:E3; [|done].
  rewrite forM_cons. destruct (renderManifests _ _ _ _ rr3) as [[[]|e] rr4] eqn:E4; [|done]. intros [= <-] Hr.
  pose proof (before_rendering_resources _ _ _ _ _ E1 E2 E3) as Hr3. rewrite Hr in Hr3.
  eapply (rendered_listed _ im); [|exact E4|exact Hr3]. apply Hc. by exists rr1, rr2.
Qed.

End enforcement.

(** ** Properties *)

Section roles.
Context `{!Authorizer, !RESTMapper}.

(** C14: The markers and the ClusterRole that is installed say the same: every
    request is allowed by the one if and only if it is by the other, so the
    operator may do at run time what its source says. *)
Theorem markers_generate_role (q : attributes) : allows rbac_markers q = allows config_role q.
Proof. apply contained_equal; by vm_compute. Qed.

(** C12: The operator can hand on the roles of its operand: the API server lets
    nobody create or bind a role that allows more than they may do themselves, and
    whatever a rendered role allows -- with the rules that the overlay adds to the
    controller manager's -- the operator is allowed to do. *)
Theorem rendered_roles_grantable (kind name : string) (rules : list PolicyRule) (q : attributes)
    (Hrole : (kind, name, rules) ∈ rendered_roles) (Hq : allows rules q = true) :
  allows rbac_markers q = true.
Proof.
  assert (forallb (λ x : string * string * list PolicyRule, contained x.2 rbac_markers) rendered_roles = true) as Hall
    by by vm_compute.
  rewrite forallb_true in Hall. by apply (contained_allows rules _ _ (Hall _ Hrole)).
Qed.

(** C13: What the operator may change of roles, bindings and service accounts.
    Apart from creating, listing and watching them, it may read, update, patch
    and delete exactly those with a name of the manifests, and do nothing else: it
    cannot give itself rights with [bind], [escalate] or [impersonate].  There are
    two exceptions to the names: the ClusterRoleBinding "kubeflow-trainer-view"
    may be changed although no manifest has it, and the ClusterRole and the
    binding "kubeflow-trainer-view-cluster-runtimes" of an overlay that is not
    rendered may not. *)
Theorem mutations_scoped (verb group kind resource name : string)
    (Hres : (group, kind, resource) ∈ scoped_resources) (Hverb : verb ∉ ["create"; "list"; "watch"]) :
  allows rbac_markers (ResourceRequest verb group resource "" name) = true ↔
  verb ∈ change_verbs ∧ name ∈ scoped_names group kind.
Proof.
  split.
  - intros Hq. destruct (permissions_only _ _ _ scoped_permissions Hq) as ([v g r n|] & Hs & Hg); [|done]. cbn [grants] in Hg.
    unfold scoped_permission in Hs. apply andb_true_iff in Hs as [Hstar%negb_true_iff%bool_decide_eq_false Hs].
    rewrite !andb_true_iff in Hg. destruct Hg as [[[Hv Hgr] Hr] Hn].
    rewrite !not_elem_of_cons in Hstar. destruct Hstar as (Hv' & Hgr' & Hr' & _).
    apply covers_only in Hv as ->; [|done]. apply covers_only in Hgr as ->; [|done]. apply covers_only in Hr as ->; [|done].
    rewrite forallb_true in Hs. specialize (Hs _ Hres). cbn beta iota in Hs.
    rewrite !(bool_decide_eq_true_2 (_ = _)), (bool_decide_eq_false_2 _ Hverb) in Hs by done. cbn [negb orb] in Hs.
    destruct n as [n|]; [|done]. apply bool_decide_eq_true in Hn as <-.
    by apply andb_true_iff in Hs as [Hv%bool_decide_eq_true Hs%bool_decide_eq_true].
  - intros [Hv Hn]. pose proof scoped_names_permitted as Hall. cbn zeta in Hall. rewrite forallb_true in Hall.
    specialize (Hall _ Hres). cbn beta iota in Hall. rewrite forallb_true in Hall. specialize (Hall _ Hv).
    rewrite forallb_true in Hall. apply (permission_allows _ _ _ (Hall _ Hn)). cbn [grants].
    rewrite !covers_refl, covers_resource_refl. by apply bool_decide_eq_true.
Qed.

End roles.

Section enforced_properties.
Context {O V A K C Ver W : Type} `{!Objects O V, !ObjectsLaws O V, !KindLaws O V, !Labelled O, !LabelsLaws O V}.
Context `{!ApiErrors, !CtrlClient K, !DynamicClient O K, !PlatformUtils O K, !ConditionManager C, !Semver Ver}.
Context `{!YamlMaps A, !TLSTables, !Kustomize O, !Framework O K C Ver W, !DeployLaws O V K C Ver W}.
Context `{!Authorizer, !RESTMapper, !PlatformClients O K, !ActionRunner O K C Ver} (Forbidden : attributes → goerror).
Context (Quote : string → string) (range_src range_dst : gmap string string → list (string * string))
  (UnmarshalMetadata : string → result componentMetadata).

(** C9: The permissions are enough for what the operator does itself.  Take the
    reconciler with the clients of the operator, and the one with all of them
    behind the RBAC authorizer -- the client, the API reader, the dynamic client,
    and the lookups of the type of the cluster, of CRDs, operators and the
    JobSetOperator --, which refuses with an error what the markers do not allow:
    from any request without resources a reconciliation gives the same result
    and leaves the same request, and so does the finalizer action, whatever the
    API server answers.  None of these calls is ever refused, the recovery from
    immutable fields included; the calls inside the actions of the framework are
    not among them.  What it relies on is that kustomize, whenever it gets to
    run, reads a copy of a template of the image, as [careful_runs_on_copies] shows
    for the histories of [Resilience]. *)
Theorem permissions_suffice (cfg : ReconcilerConfig) (im : os) `{!TemplateLaws O V (actions_of cfg) im}
    (s s1 s2 : os * W) (r r' : Reconciler O K C Ver) (rr : request O K C Ver)
    (Hnew : NewReconciler (A:=A) Quote range_src range_dst UnmarshalMetadata cfg s = (Ok r, s1))
    (Henforced : NewReconciler (A:=A) (CtrlClient0:=enforced_client rbac_markers Forbidden)
       (DynamicClient0:=enforced_dynamic rbac_markers Forbidden) (PlatformUtils0:=enforced_lookups rbac_markers)
       Quote range_src range_dst UnmarshalMetadata cfg s = (Ok r', s2))
    (Hcopies : runs_on_copies (A:=A) Quote range_src range_dst UnmarshalMetadata cfg im rr)
    (Hempty : rr_resources rr = []) :
  reconcile r' rr = reconcile r rr ∧ finalize r' rr = finalize r rr.
Proof.
  split.
  - rewrite (reconcile_split _ _ _ _ _ _ _ _ rr Hnew), (reconcile_split _ _ _ _ _ _ _ _ rr Henforced).
    rewrite (prepare_enforced Forbidden Quote range_src range_dst UnmarshalMetadata cfg rr).
    destruct (forM (prepare_actions _ _ _ _ _) _ rr) as [[[]|e] rr4] eqn:E; [|done].
    assert (Forall listed (rr_resources rr4)) as Hl by by eapply prepared_listed.
    unfold deploy_actions. rewrite !forM_cons, recovery_enforced by done.
    destruct (withImmutableFieldRecovery _ rr4) as [[[]|e] rr5]; [|done].
    by apply after_deployment_enforced.
  - apply NewReconciler_actions in Hnew as [_ ->], Henforced as [_ ->]. apply cleanup_action_enforced.
Qed.

(** C11: Whatever is rendered from the templates of the image can be applied: every
    resource that a successful rendering leaves, with kustomize run on copies of
    the templates, can be looked up, created, updated and patched by the
    operator, also those whose kinds it may only touch by name. *)
Theorem rendered_deployable (m : trainerActions) (im : os) `{!TemplateLaws O V m im} (rr rr' : request O K C Ver) (o : O) (verb : string)
    (Hrun : renderManifests (A:=A) Quote range_src range_dst m rr = (Ok tt, rr'))
    (Hcopies : at_sets m (reads_copies (A:=A) (O:=O) Quote range_src range_dst m im) rr)
    (Hempty : rr_resources rr = []) (Ho : o ∈ rr_resources rr') (Hverb : verb ∈ deploy_verbs) :
  allows rbac_markers (request_on verb (gvk_group (GroupVersionKindOf o)) (resource_of (GroupVersionKindOf o))
    (GetName o)) = true.
Proof.
  apply listed_allowed; [|done]. pose proof (rendered_listed _ _ _ m im _ _ Hcopies Hrun Hempty) as Hl.
  by eapply list.Forall_forall in Hl.
Qed.

End enforced_properties.

Section watch_properties.
Context {O V A K C Ver W : Type} `{!Objects O V, !ApiErrors, !CtrlClient K, !DynamicClient O K, !PlatformUtils O K}.
Context `{!ConditionManager C, !Semver Ver, !YamlMaps A, !TLSTables, !Kustomize O, !Framework O K C Ver W}.
Context `{!Authorizer, !RESTMapper, !ValidationRules}.
Context (Quote : string → string) (range_src range_dst : gmap string string → list (string * string))
  (UnmarshalMetadata : string → result componentMetadata).

#[local] Abbreviation new_reconciler :=
  (NewReconciler (O:=O) (A:=A) (K:=K) (C:=C) (Ver:=Ver) (W:=W) Quote range_src range_dst UnmarshalMetadata).

Lemma informed_kinds_list cfg appNS :
  informed_kinds (trainer_builder (O:=O) (A:=A) (K:=K) (C:=C) (Ver:=Ver) (W:=W)
    Quote range_src range_dst UnmarshalMetadata cfg) (cache_of appNS) =
  [gv_kind api_group_version "Trainer"; GVK "apps" "v1" "Deployment"; GVK "" "v1" "Service";
   GVK "" "v1" "ConfigMap"; GVK "admissionregistration.k8s.io" "v1" "ValidatingWebhookConfiguration";
   jobSetOperatorGVK; GVK "apps" "v1" "Deployment"; GVK "" "v1" "Service";
   GVK "admissionregistration.k8s.io" "v1" "ValidatingWebhookConfiguration"; apiServerGVK].
Proof. done. Qed.

(** C15: Every informer can start: whatever kind the controller is for or
    watches, whatever kind the manager's cache selects by a label, and the
    APIServer that the watcher of the TLS profile is for, the operator may list
    and watch; the APIServer it may get; and of the kind it is for it may change
    the objects -- the finalizer is on them --, and their status. *)
Theorem watches_authorized (cfg : ReconcilerConfig) (s s' : os * W) (r : Reconciler O K C Ver) (appNS : string)
    (Hnew : new_reconciler cfg s = (Ok r, s')) :
  (∀ g verb, g ∈ informed_kinds (r_builder r) (cache_of appNS) → verb ∈ ["list"; "watch"] →
     allows rbac_markers (ResourceRequest verb (gvk_group g) (resource_of g) "" "") = true) ∧
  (∀ verb sub name, verb ∈ ["get"; "update"; "patch"] → sub ∈ [""; "status"] →
     let g := b_for (r_builder r) in
     allows rbac_markers (ResourceRequest verb (gvk_group g) (resource_of g) sub name) = true) ∧
  (∀ name, allows rbac_markers (ResourceRequest "get" (gvk_group apiServerGVK) (resource_of apiServerGVK) "" name) = true).
Proof.
  apply NewReconciler_builder in Hnew. rewrite Hnew. split; [|split].
  - intros g verb Hg Hv. rewrite elem_of_cons, list_elem_of_singleton in Hv.
    rewrite informed_kinds_list, !elem_of_cons, elem_of_nil in Hg.
    repeat (destruct Hg as [-> |Hg]; [erewrite resource_of_gvk by reflexivity; cbn [gvk_group];
      by destruct Hv as [-> | ->]; permitted|]). done.
  - intros verb sub name Hv Hs. cbn zeta. rewrite !elem_of_cons, elem_of_nil in Hv.
    rewrite elem_of_cons, list_elem_of_singleton in Hs.
    erewrite (resource_of_gvk (b_for _)) by reflexivity. cbn [gvk_group b_for].
    destruct Hs as [-> | ->], Hv as [-> |[-> |[-> |[]]]]; permitted.
  - intros name. erewrite resource_of_gvk by reflexivity. cbn [gvk_group apiServerGVK]. permitted.
Qed.

(** The resource that is watched for is the one that can exist: a Trainer is
    admitted, by the validation of its definition, exactly under the name that the
    watches of other objects enqueue. *)
Theorem watched_name_admitted (cfg : ReconcilerConfig) (s s' : os * W) (r : Reconciler O K C Ver)
    (Hnew : new_reconciler cfg s = (Ok r, s')) (name : string) :
  admitted trainer_markers name = bool_decide (name = TrainerInstanceName) ∧
  (∀ w opts n, (w, opts) ∈ b_watches (r_builder r) → ToNamed n ∈ opts → admitted trainer_markers n = true).
Proof.
  assert (∀ n, admitted trainer_markers n = bool_decide (n = TrainerInstanceName)) as Ha.
  { intros n. unfold admitted. cbn [trainer_markers validations forallb fst].
    rewrite andb_true_r. by apply (cel_name "default-trainer"). }
  split; [by apply Ha|]. intros w opts n Hw Ho. rewrite Ha. apply bool_decide_eq_true.
  apply NewReconciler_builder in Hnew. rewrite Hnew in Hw. cbn in Hw. rewrite !elem_of_cons, elem_of_nil in Hw.
  repeat (destruct Hw as [[= -> ->]|Hw]; [rewrite ?elem_of_cons, ?elem_of_nil in Ho; naive_solver|]). done.
Qed.

End watch_properties.

(** The ClusterRoleBinding that a marker names and no manifest has: the operator
    may delete it. *)
Theorem stale_binding `{!Authorizer} :
  allows rbac_markers (ResourceRequest "delete" "rbac.authorization.k8s.io" "clusterrolebindings" "" stale_name.2) = true ∧
  ("rbac.authorization.k8s.io", stale_name.1, Named stale_name.2) ∉ template_objects ++ other_overlays.
Proof.
  split; [|apply (bool_decide_eq_false_1 _); by vm_compute].
  apply (permission_allows _ (OnResource "delete" "rbac.authorization.k8s.io" "clusterrolebindings" (Some stale_name.2)));
    by vm_compute.
Qed.

(** *** Witnesses *)

#[local] Instance ex_authorizer : Authorizer.
Proof. refine {| allows rules q := existsb (λ r, rule_allows r q) rules |}. intros. apply existsb_true. Defined.

#[local] Instance ex_mapper : RESTMapper.
Proof.
  refine {| resource_of g := default "" (plural (gvk_group g) (gvk_kind g)) |}. intros g v k r Hin.
  assert (forallb (λ d : string * string * string, bool_decide (plural d.1.1 d.1.2 = Some d.2)) documented_resources = true)
    as Hall by by vm_compute.
  rewrite forallb_true in Hall. specialize (Hall _ Hin). apply bool_decide_eq_true in Hall. cbn [fst snd gvk_group gvk_kind] in *.
  by rewrite Hall.
Defined.

Lemma quoted_inj s s' : s +:+ "'" = s' +:+ "'" → s = s'.
Proof.
  revert s'. induction s as [|c s IH]; intros [|c' s'] E; cbn in E; simplify_eq; [done|..].
  - by destruct s'.
  - by destruct s.
  - f_equal. by apply IH.
Qed.

#[local] Instance ex_cel : ValidationRules.
Proof.
  refine {| cel rule n := bool_decide (rule = "self.metadata.name == '" +:+ n +:+ "'") |}. intros s n _.
  apply bool_decide_ext. split; [|by intros ->]. cbn. intros E. simplify_eq. by apply quoted_inj.
Defined.

Lemma rendered_roles_grantable_witness :
  allows rbac_markers (ResourceRequest "update" "trainer.kubeflow.org" "trainjobs" "status" "job") = true.
Proof.
  apply (rendered_roles_grantable "ClusterRole" "kubeflow-trainer-controller-manager"
    (base_manager_role ++ rbac_progression_patch)); [by left|]. by vm_compute.
Defined.

Lemma mutations_scoped_witness :
  "training-view" ∈ scoped_names "rbac.authorization.k8s.io" "ClusterRole" ∧
  allows rbac_markers (ResourceRequest "delete" "rbac.authorization.k8s.io" "clusterroles" "" "cluster-admin") ≠ true ∧
  allows rbac_markers (ResourceRequest "bind" "rbac.authorization.k8s.io" "clusterroles" "" "training-view") ≠ true.
Proof.
  assert (("rbac.authorization.k8s.io", "ClusterRole", "clusterroles") ∈ scoped_resources) as Hres by by right; left.
  assert ("delete" ∉ ["create"; "list"; "watch"]) as Hd by by apply (bool_decide_eq_false_1 _).
  assert ("bind" ∉ ["create"; "list"; "watch"]) as Hb by by apply (bool_decide_eq_false_1 _).
  split; [|split].
  - apply (mutations_scoped "delete" _ _ _ "training-view" Hres Hd). by vm_compute.
  - intros Hq. apply (mutations_scoped "delete" _ _ _ "cluster-admin" Hres Hd) in Hq as [_ Hn].
    revert Hn. apply (bool_decide_eq_false_1 _). by vm_compute.
  - intros Hq. apply (mutations_scoped "bind" _ _ _ "training-view" Hres Hb) in Hq as [Hn _].
    revert Hn. by apply (bool_decide_eq_false_1 _).
Defined.

#[local] Existing Instances ex_semver ex_yaml ex_tables.

#[local] Instance ex_runner {O K C Ver} : ActionRunner O K C Ver.
Proof.
  refine {| run_actions l := forM l (λ a, a) |}; [done| |]; intros;
    rewrite forM_cons; by match goal with H : _ = _ |- _ => rewrite H end.
Defined.

(** The operand, or one runtime, under the names of the templates. *)
Definition ex_runtime_items : list obj := [Obj clusterTrainingRuntimeGVK "training-hub" "" ∅ [] false []].

#[local] Instance ex_templates : Kustomize obj := {|
  kustomize_Render p opts := mret (if bool_decide ("rhoai" ∈ p) then ex_items ["rhoai"] else ex_runtime_items);
|}.

Lemma in_templates (t : template_object) : bool_decide (t ∈ template_objects) = true → t ∈ template_objects.
Proof. apply bool_decide_eq_true_1. Qed.

#[local] Instance ex_templates_reads : KustomizeReads obj.
Proof. split; by intros. Qed.

#[local] Instance ex_template_laws m im : TemplateLaws obj json m im.
Proof.
  split. intros rs opts s items s' _ _ [= <- <-]. case_bool_decide; [apply list.Forall_cons; split; [|apply list.Forall_singleton]|
    apply list.Forall_singleton].
  - exists "", "ConfigMap", (Generated "kubeflow-trainer-config").
    split; [apply in_templates; by vm_compute|]. split_and!; [done..|]. by exists "-5k2m".
  - exists "apps", "Deployment", (Named operandDeploymentName). split; [apply in_templates; by vm_compute|done].
  - exists trainerKubeflowGroup, "ClusterTrainingRuntime", (Named "training-hub").
    split; [apply in_templates; by vm_compute|done].
Qed.

#[local] Instance ex_kind_laws : KindLaws obj json.
Proof. by split. Qed.

(** Lookups that are refused when one of their permissions is missing. *)
Definition refusing {A} (ok : attributes → bool) (l : lookup) (m : M cluster A) : M cluster A :=
  if forallb (λ x : string * string * string, ok (ResourceRequest x.1.1 x.1.2 x.2 "" "")) (lookup_needs l) then m
  else throw (ErrForeign "Forbidden" "not allowed").

Lemma refusing_met {A} ok l (m : M cluster A) : needs_met ok l → refusing ok l m ≈ m.
Proof.
  intros Hok k. unfold refusing.
  assert (forallb (λ x : string * string * string, ok (ResourceRequest x.1.1 x.1.2 x.2 "" "")) (lookup_needs l) = true) as ->; [|done].
  apply forallb_true. intros [[verb g] r] Hin. by apply Hok.
Qed.

#[local] Instance ex_lookups : PlatformClients obj cluster.
Proof.
  refine {| behind ok := {|
    DetectClusterType := refusing ok ClusterTypeLookup (DetectClusterType (O:=obj));
    ClusterTypeOpenShift := ClusterTypeOpenShift (O:=obj) (K:=cluster);
    CustomResourceDefinitionExists gk := refusing ok (CRDLookup gk) (CustomResourceDefinitionExists (O:=obj) gk);
    OperatorExists name := refusing ok (OperatorLookup name) (OperatorExists (O:=obj) name);
    GetSingleton g := refusing ok (SingletonLookup g) (GetSingleton g) |} |}; intros; [done|by apply refusing_met..].
Defined.

(** A framework whose deployment is refused. *)
#[local] Instance ex_fw : Framework obj cluster (gmap string (bool * string * string)) string unit :=
  ex_framework_with (throw (ErrForeign "Invalid" "spec.selector: field is immutable")).

#[local] Instance ex_deploy_laws : DeployLaws obj json cluster (gmap string (bool * string * string)) string unit.
Proof. split. intros rr o Ho. by exists o. Qed.

Definition ex_forbidden (q : attributes) : goerror := ErrForeign "Forbidden" "not allowed".

Definition ex_enforced_new :=
  NewReconciler (V:=json) (A:=string) (W:=unit) (K:=cluster) (C:=gmap string (bool * string * string)) (Ver:=string)
    (CtrlClient0:=enforced_client rbac_markers ex_forbidden) (DynamicClient0:=enforced_dynamic rbac_markers ex_forbidden)
    (PlatformUtils0:=enforced_lookups rbac_markers)
    id map_to_list map_to_list ex_metadata (reconciler_config ex_profile) (ex_container, tt).

Definition ex_plain_new :=
  NewReconciler (V:=json) (A:=string) (W:=unit) (K:=cluster) (C:=gmap string (bool * string * string)) (Ver:=string)
    id map_to_list map_to_list ex_metadata (reconciler_config ex_profile) (ex_container, tt).

(** The first reconciliation in a container. *)
Definition ex_first : request obj cluster (gmap string (bool * string * string)) string := request_of ∅ ex_calls_0.

Lemma ex_first_copies :
  runs_on_copies (A:=string) id map_to_list map_to_list ex_metadata (reconciler_config ex_profile) ex_container ex_first.
Proof.
  apply careful_runs_on_copies; [apply enumerates_self..|exact ex_readable|exact (fresh_ready _ ex_container_fresh)|].
  by apply quiet_careful.
Qed.

(** Behind the authorizer the refused Deployment is deleted all the same. *)
Lemma permissions_suffice_witness :
  match ex_enforced_new, ex_plain_new with
  | (Ok r', _), (Ok r, _) => reconcile r' ex_first = reconcile r ex_first ∧
      match (reconcile r ex_first).1 with Err e => Contains (Error e) "field is immutable" | Ok _ => false end = true
  | _, _ => False
  end.
Proof.
  assert (match ex_plain_new with
    | (Ok r, _) => match (reconcile r ex_first).1 with Err e => Contains (Error e) "field is immutable" | Ok _ => false end
    | _ => false end = true) as Hrefused by by vm_compute.
  assert (is_ok ex_enforced_new.1 = true) as Hok' by by vm_compute.
  destruct ex_enforced_new as [[r'|e] s'] eqn:Henforced; [|done].
  destruct ex_plain_new as [[r|e] s] eqn:Hnew; [|done]. split; [|exact Hrefused].
  exact (proj1 (permissions_suffice ex_forbidden id map_to_list map_to_list ex_metadata (reconciler_config ex_profile)
    ex_container (ex_container, tt) s s' r r' ex_first Hnew Henforced ex_first_copies eq_refl)).
Defined.

#[local] Abbreviation ex_trainer := (actions_of (reconciler_config ex_profile)).

Definition ex_rendering : request obj cluster (gmap string (bool * string * string)) string :=
  set_os ex_container (ex_request empty_cluster "apps").

Definition ex_deployed : result unit * request obj cluster (gmap string (bool * string * string)) string :=
  renderManifests (A:=string) id map_to_list map_to_list ex_trainer ex_rendering.

Lemma ex_rendering_copies :
  at_sets ex_trainer (reads_copies (A:=string) (O:=obj) id map_to_list map_to_list ex_trainer ex_container) ex_rendering.
Proof.
  intros ct k _. apply careful_copies; [apply enumerates_self..| |exact (fresh_ready _ ex_container_fresh)|].
  - apply list.Forall_forall. intros rs Hin. eapply sets_static; [exact Hin|exact ex_readable].
  - by apply quiet_careful_sets.
Qed.

Lemma rendered_deployable_witness :
  ∃ o, o ∈ rr_resources ex_deployed.2 ∧ GetKind (V:=json) o = "Deployment" ∧
    allows rbac_markers (request_on "patch" "apps" "deployments" (GetName (V:=json) o)) = true.
Proof.
  assert (is_ok ex_deployed.1 = true) as Hok by by vm_compute.
  destruct (rr_resources ex_deployed.2 !! 1) as [o|] eqn:E; [|by vm_compute in E].
  exists o. pose proof (list_elem_of_lookup_2 _ _ _ E) as Ho.
  pose proof (rendered_deployable (A:=string) id map_to_list map_to_list ex_trainer ex_container _ _ o "patch"
    (run_ok _ _ Hok) ex_rendering_copies eq_refl Ho)
    as Hall.
  assert (GetKind (V:=json) <$> rr_resources ex_deployed.2 !! 1 = Some "Deployment") as Hk by by vm_compute.
  assert ((λ o, (gvk_group (GroupVersionKindOf (V:=json) o), resource_of (GroupVersionKindOf (V:=json) o))) <$>
    rr_resources ex_deployed.2 !! 1 = Some ("apps", "deployments")) as Hr by by vm_compute.
  rewrite E in Hk, Hr. cbn [fmap option_fmap option_map] in Hk, Hr. injection Hk as Hk. injection Hr as Hg Hr.
  split; [exact Ho|]. split; [exact Hk|]. rewrite <-Hg, <-Hr. apply Hall.
  right; right; right; left.
Defined.

Lemma watches_authorized_witness :
  allows rbac_markers (ResourceRequest "watch" "operator.openshift.io" "jobsetoperators" "" "") = true.
Proof.
  assert (is_ok ex_plain_new.1 = true) as Hok by by vm_compute.
  destruct ex_plain_new as [[r|e] s] eqn:Hnew; [|done].
  destruct (watches_authorized (V:=json) (A:=string) (W:=unit) id map_to_list map_to_list ex_metadata (reconciler_config ex_profile)
    (ex_container, tt) s r "apps" Hnew) as (Hw & _ & _).
  assert (r_builder r = trainer_builder (V:=json) (A:=string) (W:=unit) id map_to_list map_to_list ex_metadata
    (reconciler_config ex_profile)) as Hb
    by by eapply NewReconciler_builder.
  apply (Hw jobSetOperatorGVK "watch"); [|right; left].
  rewrite Hb. apply list_elem_of_lookup. exists 5. reflexivity.
Defined.

Lemma watched_name_admitted_witness :
  admitted trainer_markers "default-trainer" = true ∧ admitted trainer_markers "trainer" = false.
Proof.
  assert (is_ok ex_plain_new.1 = true) as Hok by by vm_compute.
  destruct ex_plain_new as [[r|e] s] eqn:Hnew; [|done].
  pose proof (watched_name_admitted (V:=json) (A:=string) (W:=unit) id map_to_list map_to_list ex_metadata (reconciler_config ex_profile)
    (ex_container, tt) s r Hnew) as Ha.
  split; [exact (proj1 (Ha "default-trainer"))|exact (proj1 (Ha "trainer"))].
Defined.
